(* ===== verification/_CoqProject ===== *)
-Q . S2P
Prelude.v
Crc16.v
Protocol.v
KernelQueue.v
KernelList.v
StreamParser.v
RxRing.v
RemoteNode.v
RemotePort.v
GwVars.v
GwMonad.v
GwLogic.v
GwDiag.v
GwRs422.v
GwForwarding.v
GwTransmit.v
GwUart.v
GwHealth.v
GwW5500.v
GwTcp.v
GwUdp.v
GwEthernet.v
GwSpiTrace.v
GwSend.v
GwNetwork.v
GwDeliver.v
GwTask.v
GwSession.v
GwService.v
GwIntake.v
GwMain.v
GwTyping.v
GwQueues.v
GwMemory.v
GwTyped.v
GwCommands.v
EndToEnd.v
Telemetry.v
RemoteMain.v
UnitTests.v
