(* ===== verification/Prelude.v ===== *)
(** * Verification of the Ethernet / RS-422 gateway firmware

    ** The program

    A PC talks TCP and UDP to an STM32G474 gateway (through a W5500 Ethernet
    controller on SPI); the gateway talks RS-422 (a UART) to an STM32F429
    remote node.  Both links carry the same application frames: magic 0xAA55,
    version, message id, sequence number, length, payload, CRC-16.  On TCP the
    PC sends PING; the gateway queues it for its RS-422 task, which transmits
    it; the node answers PONG, which comes back through a queue to the TCP
    client.  The node also sends TELEMETRY every 100 ms, which the gateway
    forwards in UDP datagrams, and a health task watches the age of the last
    valid frame.

    ** Files, in dependency order

    Common to both nodes:
    - [Prelude]: C integers of a given width as [Z] ([u8], [u16], [u32],
      [i32]), C arrays as lists ([arr_get], [arr_set], [memcpy]), record
      update notation, tactics ([width], [zlia]).
    - [Crc16] (src/common/crc16.c): the byte-wise CRC, the bit-serial shift
      register it computes, and the errors it detects.
    - [Protocol] (src/common/protocol.c, .h): [protocol_encode],
      [protocol_decode] with NULL pointers as [None]; frames as a
      specification ([frame_of]).
    - [KernelQueue] (FreeRTOS queue.c): message queues in a block of RAM, as
      both firmwares use them, and bounded FIFOs as their specification.
    - [KernelList] (FreeRTOS list.c, list.h): circular doubly linked lists in
      memory, and sequences with an index as their specification; [op_ok]
      says how the kernel uses them.
    - [StreamParser] (src/common/stream_parser.c): [feed_byte] by state, and
      an abstract parser whose only state is the candidate frame.
    - [RxRing]: the receive rings of both nodes behind one interface
      ([ByteRing], [ByteRingLaws]); the reading task is split into its
      accesses and interleaved with the receive interrupt.

    Remote node (src/firmware/f429_remote_node/App):
    - [RemoteNode] (remote_node.c): requests, replies, periodic frames; the
      time and transmit callbacks are functions on a user context [U].
    - [RemotePort] (remote_node_port.c): the UART callbacks and the task
      body, sequentially and as a step relation with interrupts.
    - [RemoteMain] (f429_remote_node/Core/Src/main.c): start-up and the
      default task's loop, as a refinement of the node fed directly.

    Gateway (src/firmware/g474_gateway/Core/Src/main.c):
    - [GwVars]: the [#define]s and every scalar global, with C type and
      initial value; [GwMonad]: the shared state ([gateway]), the
      state-and-failure monad [M], the kernel services and HAL calls;
      [GwLogic]: the weakest precondition [wp], total correctness with a
      relation between states ([runs]), the classes of assumptions on the
      environment, and a demonstration environment for the witnesses.
    - [GwDiag]: tick conversion and the diagnostic time stamps.
    - [GwRs422]: the RS-422 task and the UART callbacks; [GwForwarding]:
      an abstract forwarding machine that its receive path refines;
      [GwTransmit]: transmission.
    - [GwUart] (HAL, stm32g4xx_hal_uart.c): the driver behind the HAL calls
      and callbacks of UART4, with handle, registers and interrupt handler;
      an abstract line that it refines.
    - [GwHealth]: the health task.
    - [GwW5500]: the SPI driver; [GwTcp], [GwUdp]: the two sockets;
      [GwEthernet]: the Ethernet task; [GwMain]: start-up.
    - [GwSpiTrace]: what the driver does on the SPI bus, as a list of
      chip-select windows ([window]), with a logic ([spi]) that relates a
      routine to its result, its windows and its time; [GwSend]: the
      specification of sending a frame, for both sockets through the
      interface [socket_laws]; [GwNetwork]: bringing the chip up;
      [GwDeliver]: responses and datagrams.
    - [GwTask]: a logic of bounded time and state preservation ([timed]) and
      the bounds of all routines of the Ethernet task; [GwSession]: sessions
      and the state of the socket; [GwService]: the whole task;
      [GwIntake]: what is received on TCP.
    - [GwTyping]: types of the gateway's memory as an invariant, with a logic
      of partial correctness ([sound]); [GwMemory], [GwTyped]: every function
      of main.c respects them.
    - [GwQueues]: the queue calls of cmsis_os2.c on [KernelQueue], which
      implement the queues of [GwMonad] (lists of packets) in RAM.
    - [GwCommands]: the command queue, drained while others fill it.

    Both:
    - [EndToEnd]: a PING from the command queue over the line to the remote
      node, and its PONG back to the TCP socket.
    - [Telemetry]: the node's periodic messages through ring, parser and queue
      to the UDP socket.
    - [UnitTests] (src/tests, f429_remote_node/Tests): the repository's unit
      tests as computations on the model, all of which pass.

    ** Concurrency

    A task is a function of the shared state.  Wherever it calls the kernel
    or the HAL, [World.env] may change the state arbitrarily: that is where
    the other tasks, the interrupts and the clock act.  Theorems state what
    they assume of [env] as hypotheses or type classes ([env_keeps],
    [env_ticks], [IsrOnly], [RsWorld], [Punctual], [SpiOwner], [SessionRely],
    [IntakeRely], [DeliverRely], [NetRely], [TypedWorld], [Owner], [Undisturbed], [CommandQueue]); each has a witness over a concrete
    environment.  Accesses of a variable between two calls are atomic in this
    model; where a race matters it is modelled with an explicit preemption
    point ([rd_volatile], [rs422_pop_byte]) or with a step relation in which
    every access is a step ([ring_step], [port_step]).

    ** Fuel

    [None] in the monad means that a loop ran out of fuel, that a task waits
    for ever, or [Error_Handler].  Polling loops have the fuel their time-out
    allows, since each round sleeps at least one tick ([poll]).  Loops driven
    only by arriving events (the receive drain, waiting for flags) take the
    parameter [rounds] of [World]; their theorems prove termination when
    [rounds] exceeds the bytes waiting plus the interrupts still to come
    (for transmission: twice the kernel calls until the interrupts and other
    tasks fall silent, and a full ring; for the command queue eight times,
    its depth).  The Ethernet task needs no such
    bound: its loops are bounded by their time-outs, periods and queue depths.
    The remote port's drain takes fuel, and as many rounds as bytes wait are
    proved enough.

    ** What the theorems show

    - Frames: the CRC equals its bit-serial definition; encoding then decoding
      is the identity; the decoder accepts exactly the frames; one to three
      bit errors and bursts up to 16 bits are rejected.
    - Parsing: the firmware's parser refines the abstract one; every frame in
      moderate noise is delivered, nothing else is, and it recovers from any
      garbage.
    - Rings: FIFO order, capacity and loss accounting under interrupts.
    - Remote node: the reply to each message, no reply loops, the schedule of
      periodic frames across clock wrap-around, accounting in the port, the
      whole firmware as a refinement of the node.
    - Gateway: the receive drain refines the forwarding specification; a PING
      is answered at most once; telemetry is queued or counted; the health
      state machine counts its transitions and detects loss in time, as long
      as the 32-bit age of the last frame does not wrap; diagnostic time stamps.
    - SPI: each register routine makes one window and reports it faithfully;
      every wait loop ends; a frame is sent in the order the W5500 requires;
      the Ethernet task's deadlines stay in the future.
    - Ethernet task: no socket is accessed before the chip is verified; every
      iteration ends in bounded time, for ever; a session exists exactly
      while the socket was seen ESTABLISHED; received bytes are parsed once
      and in order; messages leave as their frames and are accounted for.
    - Memory: from power-on, whatever runs, variables, arrays, packets,
      parsers, ring and queues stay well typed; each queue carries one kind of
      message, which Protocol V1 can encode.
    - Queues: a kernel queue is a bounded FIFO for every interleaving of
      calls from tasks and interrupts, and writes only to its block; the
      gateway's lists of packets are what these queues hold, byte for byte.
    - Lists: the kernel's linked lists behave as sequences, whatever is inserted
      and removed.
    - RS-422 transmission: a command is handed over as its frame, its wait
      ends, its outcome is counted once; queued commands leave in order; the
      power-on test runs 100 tests.
    - UART driver: accepted frames go out whole, once and in order; every
      received byte reaches the ring, every error is counted and cleared, and
      the receiver is armed again after every interrupt.
    - End to end: a queued PING reaches the node, and exactly its PONG reaches
      the TCP client, provided that the transmission was seen to end; the
      node's telemetry leaves as datagrams, in the order of its schedule, as
      far as the queue and the limit of a drain allow.

    ** Not modelled

    The HAL and CMSIS drivers (of that of the UART: its initialisation, DMA,
    FIFO and 9-bit modes), FreeRTOS scheduling (beyond its lists) and its
    heap (parameters of the model), what a task does while it waits for a
    queue (the program never waits for one), mutexes and queue sets,
    generated peripheral initialisation other than the settings named in
    [GwMain] and [RemoteMain], interrupt vectors and MSP code, the display
    and memory peripherals of the F429 board, and the host tools in C++. *)
From Stdlib Require Export ZArith Lia ZifyBool Bool Btauto.
From stdpp Require Export base list numbers relations.
#[export] Set Default Goal Selector "!".
Local Open Scope Z_scope.

(** [lia] also solves goals with [/] and [mod]. *)
Ltac Zify.zify_post_hook ::= elim_bool_cstr; Z.div_mod_to_equations.

(** ** Machine-width integers

    A C integer of width [w] is a [Z]; [u8], [u16] and [u32] are the
    conversions to the unsigned types and [i32] the one to [int32_t]. *)
Definition u8 (z : Z) : Z := z mod 256.
Definition u16 (z : Z) : Z := z mod 65536.
Definition u32 (z : Z) : Z := z mod 4294967296.
Definition i32 (z : Z) : Z :=
  if u32 z <? 2147483648 then u32 z else u32 z - 4294967296.
Definition UINT32_MAX : Z := 4294967295.
Definition UINT16_MAX : Z := 65535.

Definition is_u8 (z : Z) : Prop := 0 <= z < 256.
Definition is_u16 (z : Z) : Prop := 0 <= z < 65536.
Definition is_u32 (z : Z) : Prop := 0 <= z < 4294967296.

#[export] Instance is_u8_dec z : Decision (is_u8 z).
Proof. unfold is_u8. apply _. Defined.
#[export] Instance is_u16_dec z : Decision (is_u16 z).
Proof. unfold is_u16. apply _. Defined.
#[export] Instance is_u32_dec z : Decision (is_u32 z).
Proof. unfold is_u32. apply _. Defined.

Create HintDb width.
Create Rewrite HintDb width.

Lemma u8_range z : is_u8 (u8 z).
Proof. unfold is_u8, u8. lia. Qed.
Lemma u16_range z : is_u16 (u16 z).
Proof. unfold is_u16, u16. lia. Qed.
Lemma u32_range z : is_u32 (u32 z).
Proof. unfold is_u32, u32. lia. Qed.
Lemma u8_small z : is_u8 z -> u8 z = z.
Proof. unfold is_u8, u8. lia. Qed.
Lemma u16_small z : is_u16 z -> u16 z = z.
Proof. unfold is_u16, u16. lia. Qed.
Lemma u32_small z : is_u32 z -> u32 z = z.
Proof. unfold is_u32, u32. lia. Qed.
#[export] Hint Resolve u8_range u16_range u32_range : width.
#[export] Hint Rewrite u8_small u16_small u32_small
  using (solve [auto with width | unfold is_u8, is_u16, is_u32 in *; lia]) : width.

Ltac width :=
  unfold is_u8, is_u16, is_u32, u8, u16, u32, i32, UINT32_MAX, UINT16_MAX in *;
  rewrite ?Z.gtb_ltb, ?Z.geb_leb in *; lia.

(** [lia] with the comparison operators of the source. *)
Ltac zlia := rewrite ?Z.gtb_ltb, ?Z.geb_leb in *; lia.

(** ** C arrays

    An array is the list of its cells.  Reading or writing outside it is
    undefined behaviour in C; the model returns 0 and leaves the array
    alone, and the bounds theorems show it never happens. *)
Definition arr_get (a : list Z) (i : Z) : Z := default 0 (a !! Z.to_nat i).
Definition arr_set (a : list Z) (i v : Z) : list Z := <[Z.to_nat i := v]> a.

(** [memcpy(dst + off, src, n)], in range. *)
Definition memcpy (dst : list Z) (off : Z) (src : list Z) (n : Z) : list Z :=
  take (Z.to_nat off) dst ++ take (Z.to_nat n) src ++ drop (Z.to_nat (off + n)) dst.

Lemma length_arr_set a i v : length (arr_set a i v) = length a.
Proof. apply length_insert. Qed.

Lemma length_memcpy d o s n :
  0 <= o -> 0 <= n <= Z.of_nat (length s) -> o + n <= Z.of_nat (length d) ->
  length (memcpy d o s n) = length d.
Proof.
  intros. unfold memcpy. rewrite !length_app, !length_take, length_drop. lia.
Qed.

Lemma memcpy_app l m s t n :
  Z.of_nat (length m) = n -> n <= Z.of_nat (length s) ->
  memcpy (l ++ m ++ t) (Z.of_nat (length l)) s n = l ++ take (Z.to_nat n) s ++ t.
Proof.
  intros <- Hn. unfold memcpy.
  rewrite <- Nat2Z.inj_add, !Nat2Z.id, take_app_length.
  do 2 f_equal. rewrite app_assoc, <- length_app. apply drop_app_length.
Qed.

Lemma arr_set_app l x t v :
  arr_set (l ++ x :: t) (Z.of_nat (length l)) v = l ++ v :: t.
Proof.
  unfold arr_set. rewrite Nat2Z.id.
  rewrite <- (Nat.add_0_r (length l)), insert_app_r. done.
Qed.

Lemma arr_get_app l x t : arr_get (l ++ x :: t) (Z.of_nat (length l)) = x.
Proof.
  unfold arr_get. rewrite Nat2Z.id, lookup_app_r, Nat.sub_diag by lia. done.
Qed.

Lemma arr_get_app_l l t i :
  0 <= i < Z.of_nat (length l) -> arr_get (l ++ t) i = arr_get l i.
Proof. intros. unfold arr_get. rewrite lookup_app_l by lia. done. Qed.

Lemma arr_get_set_eq a i v :
  0 <= i < Z.of_nat (length a) -> arr_get (arr_set a i v) i = v.
Proof.
  intros H. unfold arr_get, arr_set. rewrite list_lookup_insert_eq by lia. done.
Qed.

Lemma arr_get_set_ne a i j v :
  0 <= i -> 0 <= j -> i <> j -> arr_get (arr_set a i v) j = arr_get a j.
Proof.
  intros. unfold arr_get, arr_set. rewrite list_lookup_insert_ne by lia. done.
Qed.

Definition bytes (l : list Z) : Prop := Forall is_u8 l.

Lemma bytes_app l k : bytes (l ++ k) <-> bytes l /\ bytes k.
Proof. apply Forall_app. Qed.

Lemma bytes_cons x l : bytes (x :: l) <-> is_u8 x /\ bytes l.
Proof. apply Forall_cons_iff. Qed.

Lemma bytes_nil : bytes [].
Proof. constructor. Qed.

Lemma bytes_take n l : bytes l -> bytes (take n l).
Proof. apply Forall_take. Qed.

Lemma bytes_drop n l : bytes l -> bytes (drop n l).
Proof. apply Forall_drop. Qed.

Lemma arr_get_u8 a i : bytes a -> is_u8 (arr_get a i).
Proof.
  intros H. unfold arr_get. destruct (a !! Z.to_nat i) eqn:E; simpl.
  - eapply Forall_lookup_1 in H; eauto.
  - unfold is_u8; lia.
Qed.
#[export] Hint Resolve bytes_nil bytes_take bytes_drop arr_get_u8 : width.

(** Goals [bytes l] for lists built from byte fields and known byte lists. *)
Ltac solve_bytes :=
  repeat first [rewrite bytes_app | rewrite bytes_cons]; split_and?;
  auto with width; try width.

(** ** Record update

    [r <| f := v |>] is [r] with field [f] replaced, as a C assignment to a
    member of a struct.  A record type opts in with an [Eta] instance that
    rebuilds it from its fields; the setter is derived from it. *)
Class Eta (R : Type) := eta : R -> R.
Class Setter {R T : Type} (f : R -> T) := set_field : T -> R -> R.
Arguments set_field {R T} f {_} _ _ /.

Ltac derive_setter :=
  match goal with
  | |- @Setter ?R ?T ?f =>
      let e := constr:(ltac:(typeclasses eauto) : Eta R) in
      let v := fresh "v" in let r := fresh "r" in
      refine (fun v r => _);
      let body := eval hnf in (e r) in
      match eval pattern (f r) in body with
      | ?g _ => let b := eval cbv beta in (g v) in exact b
      end
  end.
#[export] Hint Extern 0 (Setter _) => derive_setter : typeclass_instances.

Declare Scope update_scope.
Delimit Scope update_scope with update.
Notation "r <| f := v |>" := (set_field f v r)
  (at level 1, left associativity, f at next level, v at level 200) : update_scope.
Open Scope update_scope.

Module UpdateTest.
Record point := mk_point { px : Z; py : Z; pl : list Z }.
#[local] Instance eta_point : Eta point :=
  fun r => mk_point (px r) (py r) (pl r).
Example update_field r : py (r <| px := 3 |> <| py := 4 |>) = 4.
Proof. reflexivity. Qed.
Example update_other r : px (r <| px := 3 |> <| pl := [] |>) = 3.
Proof. cbn. reflexivity. Qed.
End UpdateTest.
