(* ===== verification/Crc16.v ===== *)
(** * CRC-16/CCITT-FALSE (common/crc16.c)

    The bitwise routine of the source, the bit-serial shift register it
    implements, and the error-detection facts the frame format relies on:
    all bursts of at most 16 bits, every odd number of flipped bits and
    every pair of flipped bits at most 32766 bits apart change the CRC. *)
From S2P Require Import Prelude.
Local Open Scope Z_scope.

(** ** The source *)

(** The body of the inner loop: one shift of the register. *)
Definition crc16_shift (crc : Z) : Z :=
  if negb (Z.land crc 0x8000 =? 0)
  then u16 (Z.lxor (Z.shiftl crc 1) 0x1021)
  else u16 (Z.shiftl crc 1).

(** The body of the outer loop: [crc ^= data[i] << 8], then 8 shifts. *)
Definition crc16_byte (crc b : Z) : Z :=
  Nat.iter 8 crc16_shift (u16 (Z.lxor crc (Z.shiftl (u16 b) 8))).

(** [None] is the NULL pointer. *)
Definition crc16_ccitt_false (data : option (list Z)) (length : Z) : Z :=
  match data with
  | None => if negb (length =? 0) then 0 else 0xFFFF
  | Some d => fold_left crc16_byte (take (Z.to_nat length) d) 0xFFFF
  end.

(** ** The shift register, one message bit at a time *)

Definition lfsr_step (s : Z) (b : bool) : Z :=
  let s' := u16 (Z.shiftl s 1) in
  if xorb (Z.testbit s 15) b then Z.lxor s' 0x1021 else s'.

Definition lfsr (s : Z) (l : list bool) : Z := fold_left lfsr_step l s.

(** The bits of a byte, most significant first. *)
Definition bits_of_byte (b : Z) : list bool :=
  map (Z.testbit b) [7; 6; 5; 4; 3; 2; 1; 0].
Definition bits_of (l : list Z) : list bool := flat_map bits_of_byte l.

Definition xor_bits (l m : list bool) : list bool := zip_with xorb l m.

(** Number of set bits, and number of positions where two bit strings differ. *)
Definition weight (l : list bool) : nat := length (filter (fun b => b = true) l).
Definition hamming (l m : list bool) : nat := weight (xor_bits l m).

Definition zeros (n : nat) : list bool := replicate n false.

(** ** Bit-level facts on 16-bit values *)

Lemma u16_land z : u16 z = Z.land z (Z.ones 16).
Proof. unfold u16. rewrite Z.land_ones by lia. reflexivity. Qed.

Lemma u16_lxor a b : u16 (Z.lxor a b) = Z.lxor (u16 a) (u16 b).
Proof.
  rewrite !u16_land. apply Z.bits_inj'. intros n Hn.
  rewrite !Z.land_spec, !Z.lxor_spec, !Z.land_spec.
  destruct (Z.testbit (Z.ones 16) n); btauto.
Qed.

Lemma u16_idem a : u16 (u16 a) = u16 a.
Proof. width. Qed.

Lemma testbit_u16 a n : 0 <= n < 16 -> Z.testbit (u16 a) n = Z.testbit a n.
Proof.
  intros. rewrite u16_land, Z.land_spec, Z.ones_spec_low by lia. apply andb_true_r.
Qed.

Lemma lxor_u16 a b : is_u16 a -> is_u16 b -> is_u16 (Z.lxor a b).
Proof.
  intros Ha Hb. rewrite <- (u16_small a Ha), <- (u16_small b Hb), <- u16_lxor.
  apply u16_range.
Qed.

(** A mask test is a bit test. *)
Lemma land_8000 c : negb (Z.land c 0x8000 =? 0) = Z.testbit c 15.
Proof.
  change 0x8000 with (2 ^ 15).
  replace (Z.land c (2 ^ 15)) with (if Z.testbit c 15 then 2 ^ 15 else 0).
  - destruct (Z.testbit c 15); reflexivity.
  - apply Z.bits_inj'. intros n Hn. rewrite Z.land_spec, Z.pow2_bits_eqb by lia.
    destruct (Z.eqb_spec 15 n) as [<-|Hne].
    + destruct (Z.testbit c 15); reflexivity.
    + rewrite andb_false_r. destruct (Z.testbit c 15).
      * apply Z.pow2_bits_false; lia.
      * apply Z.bits_0.
Qed.

(** ** Linearity *)

Lemma lfsr_step_alt s b :
  lfsr_step s b =
    Z.lxor (u16 (Z.shiftl s 1)) (if xorb (Z.testbit s 15) b then 0x1021 else 0).
Proof. unfold lfsr_step. destruct (xorb _ _); rewrite ?Z.lxor_0_r; done. Qed.

Lemma lfsr_step_range s b : is_u16 (lfsr_step s b).
Proof.
  rewrite lfsr_step_alt. apply lxor_u16; [apply u16_range|].
  destruct (xorb _ _); unfold is_u16; lia.
Qed.

Lemma lfsr_range s l : is_u16 s -> is_u16 (lfsr s l).
Proof.
  revert s. induction l as [|b l IH]; intros s Hs; simpl; [done|].
  apply IH, lfsr_step_range.
Qed.

Lemma lfsr_step_lxor s t b c :
  lfsr_step (Z.lxor s t) (xorb b c) = Z.lxor (lfsr_step s b) (lfsr_step t c).
Proof.
  rewrite !lfsr_step_alt, Z.shiftl_lxor, u16_lxor, Z.lxor_spec.
  destruct (Z.testbit s 15), (Z.testbit t 15), b, c; simpl;
    rewrite ?Z.lxor_0_r, ?Z.lxor_0_l, ?Z.lxor_assoc; f_equal;
    rewrite ?(Z.lxor_comm _ 0x1021), <- ?Z.lxor_assoc, ?Z.lxor_nilpotent, ?Z.lxor_0_l;
    try done; try (rewrite Z.lxor_comm; done).
Qed.

Lemma lfsr_lxor s t l m :
  length l = length m ->
  lfsr (Z.lxor s t) (xor_bits l m) = Z.lxor (lfsr s l) (lfsr t m).
Proof.
  revert s t m. induction l as [|b l IH]; intros s t [|c m] Hlen; simpl in *; try done.
  unfold lfsr in *. simpl. rewrite lfsr_step_lxor. apply IH. lia.
Qed.

Lemma lfsr_app s l m : lfsr s (l ++ m) = lfsr (lfsr s l) m.
Proof. apply fold_left_app. Qed.

(** The register shifts of the source are register steps on a zero bit. *)
Lemma crc16_shift_step s : crc16_shift s = lfsr_step s false.
Proof.
  unfold crc16_shift, lfsr_step. rewrite land_8000, xorb_false_r.
  destruct (Z.testbit s 15); [|done].
  rewrite u16_lxor. done.
Qed.

(** ** Folding message bits into the register

    [inject l] is the message fragment [l] (at most 16 bits) aligned with the
    top of the register; xoring it in and shifting zeros is the same as
    feeding the bits one by one.  With 8 bits this is how the source works. *)
Fixpoint inject (l : list bool) : Z :=
  match l with
  | [] => 0
  | b :: l' => Z.lxor (if b then 0x8000 else 0) (Z.shiftr (inject l') 1)
  end.

Lemma inject_range l : is_u16 (inject l).
Proof.
  induction l as [|b l IH]; simpl; [unfold is_u16; lia|].
  apply lxor_u16; [destruct b; unfold is_u16; lia|].
  unfold is_u16 in *. rewrite Z.shiftr_div_pow2 by lia. change (2 ^ 1) with 2. lia.
Qed.

Lemma inject_low l n :
  0 <= n < 16 - Z.of_nat (length l) -> Z.testbit (inject l) n = false.
Proof.
  revert n. induction l as [|b l IH]; intros n Hn; simpl in *; [apply Z.bits_0|].
  rewrite Z.lxor_spec, Z.shiftr_spec, IH by lia.
  destruct b; [|rewrite Z.bits_0; done].
  change 0x8000 with (2 ^ 15). rewrite Z.pow2_bits_false by lia. done.
Qed.

Lemma testbit_above x n : is_u16 x -> 16 <= n -> Z.testbit x n = false.
Proof.
  intros Hx Hn. rewrite <- (u16_small x Hx), u16_land, Z.land_spec.
  rewrite Z.ones_spec_high by lia. apply andb_false_r.
Qed.

Lemma lfsr_step_half x :
  is_u16 x -> Z.testbit x 0 = false -> lfsr_step (Z.shiftr x 1) false = x.
Proof.
  intros Hx H0. rewrite lfsr_step_alt, xorb_false_r, Z.shiftr_spec by lia.
  rewrite (testbit_above x) by (done || lia). rewrite Z.lxor_0_r.
  rewrite <- (u16_small x Hx) at 2. apply Z.bits_inj'. intros n Hn.
  destruct (decide (n < 16)).
  - rewrite !testbit_u16, Z.shiftl_spec by lia.
    destruct (decide (n = 0)) as [->|]; [rewrite H0; apply Z.testbit_neg_r; lia|].
    rewrite Z.shiftr_spec by lia. f_equal; lia.
  - rewrite !testbit_above by (apply u16_range || lia). done.
Qed.

Lemma lfsr_step_top b : lfsr_step 0 b = lfsr_step (if b then 0x8000 else 0) false.
Proof. destruct b; reflexivity. Qed.

Lemma zeros_S n : zeros (S n) = false :: zeros n.
Proof. done. Qed.

Lemma lfsr_inject s l :
  (length l <= 16)%nat -> lfsr s l = lfsr (Z.lxor s (inject l)) (zeros (length l)).
Proof.
  revert s. induction l as [|b l IH]; intros s Hlen.
  - simpl. rewrite Z.lxor_0_r. done.
  - cbn [length] in *. rewrite zeros_S. unfold lfsr in *. cbn [fold_left]. rewrite IH by lia.
    f_equal. cbn [inject].
    rewrite (lfsr_step_lxor s _ false false), (lfsr_step_lxor _ _ false false).
    rewrite (lfsr_step_half (inject l)) by (apply inject_range || (apply inject_low; lia)).
    rewrite <- lfsr_step_top, <- Z.lxor_assoc. f_equal.
    rewrite <- lfsr_step_lxor, Z.lxor_0_r, xorb_false_l. done.
Qed.

Lemma lfsr_zeros_0 n : lfsr 0 (zeros n) = 0.
Proof. induction n as [|n IH]; [done|]. rewrite zeros_S. exact IH. Qed.

(** The register never loses information: shifting in zeros is injective. *)
Lemma lfsr_step_nonzero s : is_u16 s -> s <> 0 -> lfsr_step s false <> 0.
Proof.
  intros Hs Hne E. apply Hne. rewrite lfsr_step_alt, xorb_false_r in E.
  destruct (Z.testbit s 15) eqn:H15.
  - apply (f_equal (fun z => Z.testbit z 0)) in E.
    rewrite Z.lxor_spec, testbit_u16, Z.shiftl_spec_low in E by lia. done.
  - rewrite Z.lxor_0_r in E. apply Z.bits_inj'. intros n Hn. rewrite Z.bits_0.
    destruct (decide (n < 15)).
    + apply (f_equal (fun z => Z.testbit z (n + 1))) in E.
      rewrite testbit_u16, Z.shiftl_spec, Z.bits_0 in E by lia.
      rewrite <- E. f_equal; lia.
    + destruct (decide (n = 15)) as [->|]; [done|]. apply testbit_above; [done|lia].
Qed.

Lemma lfsr_zeros_nonzero n s : is_u16 s -> s <> 0 -> lfsr s (zeros n) <> 0.
Proof.
  revert s. induction n as [|n IH]; intros s Hs Hne; [done|].
  rewrite zeros_S. apply IH; [apply lfsr_step_range|]. apply lfsr_step_nonzero; done.
Qed.

(** ** The byte loop of the source runs the register *)

Lemma forall_u8 (P : Z -> bool) :
  forallb P (map Z.of_nat (seq 0 256)) = true -> forall b, is_u8 b -> P b = true.
Proof.
  intros H b [Hb Hb']. rewrite forallb_forall in H. apply H.
  apply in_map_iff. exists (Z.to_nat b). rewrite in_seq. lia.
Qed.

Lemma inject_byte b : is_u8 b -> inject (bits_of_byte b) = Z.shiftl b 8.
Proof.
  intros Hb. apply Z.eqb_eq.
  apply (forall_u8 (fun b => inject (bits_of_byte b) =? Z.shiftl b 8)); [|done].
  vm_compute. reflexivity.
Qed.

Lemma iter_shift n s : Nat.iter n crc16_shift s = lfsr s (zeros n).
Proof.
  revert s. induction n as [|n IH]; intros s; [done|].
  rewrite Nat.iter_succ_r, IH, zeros_S, crc16_shift_step. done.
Qed.

Lemma crc16_byte_lfsr c b :
  is_u16 c -> is_u8 b -> crc16_byte c b = lfsr c (bits_of_byte b).
Proof.
  intros Hc Hb. unfold crc16_byte. rewrite iter_shift, (lfsr_inject c) by (simpl; lia).
  rewrite inject_byte by done. change (length (bits_of_byte b)) with 8%nat.
  rewrite (u16_small b) by (width). f_equal. apply u16_small, lxor_u16; [done|].
  rewrite Z.shiftl_mul_pow2 by lia. change (2 ^ 8) with 256. width.
Qed.

Lemma fold_crc16_byte l c :
  bytes l -> is_u16 c -> fold_left crc16_byte l c = lfsr c (bits_of l).
Proof.
  revert c. induction l as [|b l IH]; intros c Hl Hc; [done|].
  inversion Hl as [|?? Hb Hl']; subst. cbn [fold_left bits_of flat_map].
  rewrite lfsr_app, crc16_byte_lfsr by done. apply IH; [done|].
  apply lfsr_range; done.
Qed.

Lemma u16_FFFF : is_u16 0xFFFF.
Proof. unfold is_u16; lia. Qed.

(** The byte-oriented loop of crc16.c computes the bit-serial CRC: the
    shift register of polynomial 0x1021 started at 0xFFFF and fed the
    message bits, most significant bit of each byte first. *)
Lemma crc16_is_lfsr d n :
  bytes d ->
  crc16_ccitt_false (Some d) n = lfsr 0xFFFF (bits_of (take (Z.to_nat n) d)).
Proof. intros H. apply fold_crc16_byte; [auto with width|apply u16_FFFF]. Qed.

Lemma crc16_range d n : bytes d -> is_u16 (crc16_ccitt_false (Some d) n).
Proof. intros H. rewrite crc16_is_lfsr by done. apply lfsr_range, u16_FFFF. Qed.

(** ** Residue: a message followed by its CRC drives the register to 0 *)

Definition be16 (v : Z) : list Z := [Z.land (Z.shiftr v 8) 0xFF; Z.land v 0xFF].

Lemma u8_land v : Z.land v 0xFF = v mod 256.
Proof. change 0xFF with (Z.ones 8). rewrite Z.land_ones by lia. reflexivity. Qed.

Lemma be16_bytes v : bytes (be16 v).
Proof. unfold be16. rewrite !u8_land. repeat constructor; unfold is_u8; lia. Qed.

#[export] Hint Resolve be16_bytes : width.

Lemma be16_of_bytes hi lo :
  is_u8 hi -> is_u8 lo -> be16 (256 * hi + lo) = [hi; lo].
Proof.
  intros. unfold be16. rewrite !u8_land, Z.shiftr_div_pow2 by lia.
  change (2 ^ 8) with 256. f_equal; [|f_equal]; width.
Qed.

Lemma inject_app l m :
  inject (l ++ m) = Z.lxor (inject l) (Z.shiftr (inject m) (Z.of_nat (length l))).
Proof.
  induction l as [|b l IH]; cbn [app inject length].
  - rewrite Z.lxor_0_l, Z.shiftr_0_r. done.
  - rewrite IH, Z.shiftr_lxor, Z.shiftr_shiftr, Z.lxor_assoc by lia.
    do 3 f_equal. lia.
Qed.

Lemma bits_of_app l m : bits_of (l ++ m) = bits_of l ++ bits_of m.
Proof. apply flat_map_app. Qed.

Lemma inject_be16 v : is_u16 v -> inject (bits_of (be16 v)) = v.
Proof.
  intros Hv. unfold be16, bits_of. cbn [flat_map].
  rewrite app_nil_r, inject_app. change (length (bits_of_byte _)) with 8%nat.
  rewrite !inject_byte by (rewrite u8_land; width). rewrite !u8_land.
  change (Z.of_nat 8) with 8. rewrite Z.shiftr_shiftl_l, Z.shiftl_0_r by lia.
  rewrite Z.shiftr_div_pow2, Z.shiftl_mul_pow2 by lia. change (2 ^ 8) with 256.
  rewrite <- Z.add_nocarry_lxor; [width|].
  apply Z.bits_inj'. intros n Hn. rewrite Z.bits_0, Z.land_spec.
  change 256 with (2 ^ 8). destruct (decide (n < 8)).
  - rewrite Z.mul_pow2_bits_low by lia. done.
  - rewrite (Z.mod_pow2_bits_high v) by lia. apply andb_false_r.
Qed.

(** A received CRC field matches exactly when the register ends at 0. *)
Lemma lfsr_residue s v :
  is_u16 s -> is_u16 v -> lfsr s (bits_of (be16 v)) = 0 <-> v = s.
Proof.
  intros Hs Hv. rewrite lfsr_inject by (simpl; lia).
  rewrite inject_be16 by done. split; intros E.
  - destruct (decide (Z.lxor s v = 0)) as [E'|Hne].
    + apply Z.lxor_eq in E'. done.
    + exfalso. eapply lfsr_zeros_nonzero; [|exact Hne|exact E]. apply lxor_u16; done.
  - subst. rewrite Z.lxor_nilpotent. apply lfsr_zeros_0.
Qed.

(** ** Error patterns the CRC detects

    [e] is the difference of two bit strings of the same length; it goes
    undetected when the register fed [e] from 0 ends at 0. *)
Definition detected (e : list bool) : Prop := lfsr 0 e <> 0.

Lemma weight_cons b l : weight (b :: l) = ((if b then 1 else 0) + weight l)%nat.
Proof. unfold weight. destruct b; done. Qed.

Lemma weight_app l m : weight (l ++ m) = (weight l + weight m)%nat.
Proof.
  induction l as [|b l IH]; cbn [app]; rewrite ?weight_cons, ?IH; [done|lia].
Qed.

Lemma weight_zero_inv l : weight l = 0%nat -> l = zeros (length l).
Proof.
  induction l as [|b l IH]; [done|]. rewrite weight_cons. intros H.
  destruct b; [lia|]. cbn [length]. rewrite zeros_S, <- IH; [done|lia].
Qed.

Lemma weight_pos_inv l n :
  weight l = S n -> exists i l', l = zeros i ++ true :: l' /\ weight l' = n.
Proof.
  induction l as [|b l IH]; [done|]. rewrite weight_cons. intros H. destruct b.
  - exists 0%nat, l. split; [done|lia].
  - destruct IH as (i & l' & -> & Hw); [lia|]. exists (S i), l'. done.
Qed.

Lemma lfsr_0_zeros_app i l : lfsr 0 (zeros i ++ l) = lfsr 0 l.
Proof. rewrite lfsr_app, lfsr_zeros_0. done. Qed.

Lemma inject_zero_inv l :
  (length l <= 16)%nat -> inject l = 0 -> l = zeros (length l).
Proof.
  induction l as [|b l IH]; intros Hlen E; [done|]. cbn [length inject] in *.
  assert (b = false) as ->.
  { apply (f_equal (fun z => Z.testbit z 15)) in E.
    rewrite Z.lxor_spec, Z.shiftr_spec, Z.bits_0 in E by lia.
    rewrite (testbit_above (inject l)) in E by (apply inject_range || lia).
    destruct b; [discriminate E|done]. }
  rewrite zeros_S, <- IH; [done|lia|].
  apply Z.bits_inj'. intros n Hn. rewrite Z.bits_0.
  destruct (decide (n = 0)) as [->|]; [apply inject_low; lia|].
  apply (f_equal (fun z => Z.testbit z (n - 1))) in E.
  rewrite Z.lxor_0_l, Z.shiftr_spec, Z.bits_0 in E by lia.
  rewrite <- E. f_equal; lia.
Qed.

(** A burst: the wrong bits all lie in a window of at most 16 bits. *)
Lemma burst_detected i j w :
  (length w <= 16)%nat -> weight w <> 0%nat -> detected (zeros i ++ w ++ zeros j).
Proof.
  intros Hlen Hw. unfold detected. rewrite lfsr_0_zeros_app, lfsr_app.
  apply lfsr_zeros_nonzero; [apply lfsr_range; unfold is_u16; lia|].
  rewrite lfsr_inject by done. rewrite Z.lxor_0_l.
  apply lfsr_zeros_nonzero; [apply inject_range|]. intros E. apply Hw.
  rewrite (inject_zero_inv w) by done. clear. induction (length w); done.
Qed.

(** The parity of the low [n] bits. *)
Fixpoint parity (n : nat) (s : Z) : bool :=
  match n with
  | O => false
  | S n' => xorb (Z.testbit s (Z.of_nat n')) (parity n' s)
  end.

Lemma parity_lxor n s t : parity n (Z.lxor s t) = xorb (parity n s) (parity n t).
Proof.
  induction n as [|n IH]; [done|]. cbn [parity]. rewrite IH, Z.lxor_spec. btauto.
Qed.

Lemma parity_shiftl n s : parity (S n) (Z.shiftl s 1) = parity n s.
Proof.
  induction n as [|n IH].
  - cbn. rewrite Z.shiftl_spec, Z.testbit_neg_r by lia. done.
  - change (parity (S (S n)) (Z.shiftl s 1))
      with (xorb (Z.testbit (Z.shiftl s 1) (Z.of_nat (S n))) (parity (S n) (Z.shiftl s 1))).
    rewrite IH, Z.shiftl_spec by lia. cbn [parity]. do 2 f_equal. lia.
Qed.

Lemma parity_u16 n s : (n <= 16)%nat -> parity n (u16 s) = parity n s.
Proof.
  induction n as [|n IH]; intros Hn; [done|]. cbn [parity].
  rewrite IH, testbit_u16 by lia. done.
Qed.

Lemma lfsr_step_parity s b : parity 16 (lfsr_step s b) = xorb (parity 16 s) b.
Proof.
  rewrite lfsr_step_alt, parity_lxor, parity_u16, parity_shiftl by lia.
  change (parity 16 s) with (xorb (Z.testbit s 15) (parity 15 s)).
  replace (parity 16 (if xorb (Z.testbit s 15) b then 0x1021 else 0))
    with (xorb (Z.testbit s 15) b) by (destruct (xorb _ _); reflexivity).
  btauto.
Qed.

Lemma lfsr_parity s l :
  parity 16 (lfsr s l) = xorb (parity 16 s) (Nat.odd (weight l)).
Proof.
  revert s. induction l as [|b l IH]; intros s; [cbn; btauto|].
  change (lfsr s (b :: l)) with (lfsr (lfsr_step s b) l).
  rewrite IH, lfsr_step_parity, weight_cons, Nat.odd_add.
  destruct b; cbn; btauto.
Qed.

(** An odd number of wrong bits: 0x11021 has even weight. *)
Lemma odd_detected e : Nat.odd (weight e) = true -> detected e.
Proof.
  intros H E. pose proof (lfsr_parity 0 e) as HP. rewrite E, H in HP. discriminate.
Qed.

Fixpoint misses_8000 (n : nat) (s : Z) : bool :=
  match n with
  | O => true
  | S n' => negb (s =? 0x8000) && misses_8000 n' (lfsr_step s false)
  end.

Lemma misses_8000_zeros n s k :
  misses_8000 n s = true -> (k < n)%nat -> lfsr s (zeros k) <> 0x8000.
Proof.
  revert s k. induction n as [|n IH]; intros s k H Hk; [lia|].
  cbn [misses_8000] in H. apply andb_prop in H as [H1 H2].
  destruct k as [|k].
  - cbn. intros ->. done.
  - rewrite zeros_S. apply (IH (lfsr_step s false)); [done|lia].
Qed.

(** The order of [x] modulo the polynomial is 32767. *)
Lemma order_32767 : misses_8000 (Z.to_nat 32766) 0x1021 = true.
Proof. vm_compute. reflexivity. Qed.

Lemma two_bits_detected i k j :
  Z.of_nat k < 32766 -> detected (zeros i ++ true :: zeros k ++ true :: zeros j).
Proof.
  intros Hk. unfold detected. rewrite lfsr_0_zeros_app.
  change (lfsr 0 (true :: ?l)) with (lfsr 0x1021 l).
  rewrite lfsr_app. set (s := lfsr 0x1021 (zeros k)).
  assert (is_u16 s) as Hs by (apply lfsr_range; unfold is_u16; lia).
  change (lfsr s (true :: ?l)) with (lfsr (lfsr_step s true) l).
  apply lfsr_zeros_nonzero; [apply lfsr_step_range|].
  rewrite <- (Z.lxor_0_r s).
  change true with (xorb false true). rewrite lfsr_step_lxor, lfsr_step_top.
  rewrite <- lfsr_step_lxor. change (xorb false false) with false.
  apply lfsr_step_nonzero; [apply lxor_u16; [done|unfold is_u16; lia]|].
  intros E%Z.lxor_eq. revert E. apply (misses_8000_zeros (Z.to_nat 32766)); [apply order_32767|lia].
Qed.

(** ** Small error counts

    Fewer than 32768 bits apart, at most three wrong bits are detected. *)
Lemma few_bits_detected e :
  Z.of_nat (length e) <= 32767 -> (1 <= weight e <= 3)%nat -> detected e.
Proof.
  intros Hlen Hw. destruct (Nat.odd (weight e)) eqn:Ho; [by apply odd_detected|].
  assert (weight e = 2%nat) as H2.
  { destruct (weight e) as [|[|[|[|]]]]; try done; lia. }
  destruct (weight_pos_inv e 1) as (i & l' & -> & H1); [done|].
  destruct (weight_pos_inv l' 0) as (k & l'' & -> & H0); [done|].
  rewrite (weight_zero_inv _ H0). apply two_bits_detected.
  rewrite !length_app in Hlen. cbn [length] in Hlen. rewrite length_app in Hlen.
  unfold zeros in Hlen. rewrite !length_replicate in Hlen. cbn [length] in Hlen. lia.
Qed.

Lemma bits_of_cons b l : bits_of (b :: l) = bits_of_byte b ++ bits_of l.
Proof. done. Qed.

Lemma length_bits_of l : length (bits_of l) = (8 * length l)%nat.
Proof.
  induction l as [|b l IH]; [done|]. rewrite bits_of_cons, length_app, IH.
  cbn [length bits_of_byte map]. lia.
Qed.

Lemma bits_of_byte_inj a b : is_u8 a -> is_u8 b -> bits_of_byte a = bits_of_byte b -> a = b.
Proof.
  intros Ha Hb E. apply (f_equal inject) in E. rewrite !inject_byte in E by done.
  rewrite !Z.shiftl_mul_pow2 in E by lia. lia.
Qed.

Lemma bits_of_inj l m :
  bytes l -> bytes m -> length l = length m -> bits_of l = bits_of m -> l = m.
Proof.
  revert m. induction l as [|a l IH]; intros [|b m] Hl Hm Hlen E; try done.
  rewrite bytes_cons in Hl, Hm. rewrite !bits_of_cons in E.
  apply app_inj_1 in E as [E1 E2]; [|done].
  f_equal; [apply bits_of_byte_inj; tauto|apply IH; try tauto]. simpl in Hlen. lia.
Qed.

Lemma hamming_zero_inv l m :
  length l = length m -> hamming l m = 0%nat -> l = m.
Proof.
  unfold hamming. revert m. induction l as [|a l IH]; intros [|b m] Hlen H; try done.
  cbn [xor_bits zip_with] in H. rewrite weight_cons in H.
  f_equal; [destruct a, b; done || (cbn in H; lia)|]. apply IH; [simpl in Hlen; lia|].
  unfold xor_bits. lia.
Qed.

Lemma xor_bits_app l l' m m' :
  length l = length m -> xor_bits (l ++ l') (m ++ m') = xor_bits l m ++ xor_bits l' m'.
Proof. apply zip_with_app. Qed.

Lemma xor_bits_same l : xor_bits l l = zeros (length l).
Proof.
  induction l as [|b l IH]; [done|]. cbn [xor_bits zip_with length]. rewrite zeros_S.
  f_equal; [apply xorb_nilpotent|done].
Qed.

(** ** Property *)

(** C29: Equivalence: on every byte array and length the byte-wise routine of
    the source computes what the 16-bit shift register with polynomial 0x1021
    and initial value 0xFFFF computes on the message bits, most significant
    first; the result is a 16-bit value; a message extended by its own CRC
    (high byte first) gives 0; and a NULL pointer gives 0 unless the length
    is 0. *)
Theorem crc16_computes_ccitt_false d n :
  bytes d -> 0 <= n <= Z.of_nat (length d) ->
  let crc := crc16_ccitt_false (Some d) n in
  crc = lfsr 0xFFFF (bits_of (take (Z.to_nat n) d)) /\
  is_u16 crc /\
  crc16_ccitt_false (Some (take (Z.to_nat n) d ++ be16 crc)) (n + 2) = 0 /\
  crc16_ccitt_false None n = (if decide (n = 0) then 0xFFFF else 0).
Proof.
  intros Hd Hn crc. unfold crc. pose proof (crc16_range d n Hd) as Hr.
  rewrite (crc16_is_lfsr d n Hd) in *. split; [done|]. split; [done|]. split.
  - rewrite crc16_is_lfsr by (apply bytes_app; auto using be16_bytes with width).
    rewrite take_ge by (rewrite length_app, length_take; cbn [be16 length]; lia).
    rewrite bits_of_app, lfsr_app. apply lfsr_residue; [apply lfsr_range, u16_FFFF|done..].
  - unfold crc16_ccitt_false. destruct (decide (n = 0)) as [->|]; [done|].
    destruct (n =? 0) eqn:E; [lia|done].
Qed.

(** The published check value: CRC-16/CCITT-FALSE of "123456789". *)
Lemma crc16_computes_ccitt_false_witness :
  let d := [0x31; 0x32; 0x33; 0x34; 0x35; 0x36; 0x37; 0x38; 0x39] in
  crc16_ccitt_false (Some d) 9 = 0x29B1 /\ lfsr 0xFFFF (bits_of d) = 0x29B1.
Proof.
  intros d. assert (crc16_ccitt_false (Some d) 9 = 0x29B1) as H by (vm_compute; reflexivity).
  split; [exact H|]. rewrite <- H. symmetry.
  apply (crc16_computes_ccitt_false d 9); [unfold d; solve_bytes|unfold d; cbn [length]; lia].
Defined.
