(* ===== verification/Protocol.v ===== *)
(** * Protocol V1 frames (common/protocol.c, common/protocol.h)

    Wire format: MAGIC(2) VERSION(1) MSG_ID(1) SEQ(2) LENGTH(2) PAYLOAD(n)
    CRC16(2), big endian, CRC over VERSION..PAYLOAD. *)
From stdpp Require Import strings.
From S2P Require Import Prelude Crc16.
Local Open Scope Z_scope.

(** ** Constants and data (protocol.h) *)
Definition PROTOCOL_MAGIC : Z := 0xAA55.
Definition PROTOCOL_VERSION : Z := 0x01.
Definition PROTOCOL_MAX_PAYLOAD : Z := 256.
Definition PROTOCOL_FIXED_HEADER_SIZE : Z := 8.
Definition PROTOCOL_CRC_SIZE : Z := 2.
Definition PROTOCOL_MIN_FRAME_SIZE : Z :=
  PROTOCOL_FIXED_HEADER_SIZE + PROTOCOL_CRC_SIZE.
Definition PROTOCOL_MAX_FRAME_SIZE : Z :=
  PROTOCOL_FIXED_HEADER_SIZE + PROTOCOL_MAX_PAYLOAD + PROTOCOL_CRC_SIZE.

Definition MSG_PING : Z := 0x01.
Definition MSG_PONG : Z := 0x81.
Definition MSG_READ_STATUS : Z := 0x10.
Definition MSG_STATUS_RESP : Z := 0x90.
Definition MSG_HEARTBEAT : Z := 0x20.
Definition MSG_TELEMETRY : Z := 0x40.
Definition MSG_ERROR : Z := 0xE0.

Definition OFFSET_MAGIC : Z := 0.
Definition OFFSET_VERSION : Z := 2.
Definition OFFSET_MSG_ID : Z := 3.
Definition OFFSET_SEQ : Z := 4.
Definition OFFSET_LENGTH : Z := 6.
Definition OFFSET_PAYLOAD : Z := 8.

Inductive protocol_result_t :=
  | PROTO_OK
  | PROTO_ERR_NULL
  | PROTO_ERR_BUFFER
  | PROTO_ERR_MAGIC
  | PROTO_ERR_VERSION
  | PROTO_ERR_LENGTH
  | PROTO_ERR_FRAME_SIZE
  | PROTO_ERR_CRC.

#[export] Instance protocol_result_eq_dec : EqDecision protocol_result_t.
Proof. solve_decision. Defined.

(** The value of the C enumerator. *)
Definition protocol_result_code (r : protocol_result_t) : Z :=
  match r with
  | PROTO_OK => 0
  | PROTO_ERR_NULL => -1
  | PROTO_ERR_BUFFER => -2
  | PROTO_ERR_MAGIC => -3
  | PROTO_ERR_VERSION => -4
  | PROTO_ERR_LENGTH => -5
  | PROTO_ERR_FRAME_SIZE => -6
  | PROTO_ERR_CRC => -7
  end.

(** The diagnostic name of a result, by the enumerator's value. *)
Definition protocol_result_string (result : Z) : string :=
  match result with
  | 0 => "PROTO_OK"
  | -1 => "PROTO_ERR_NULL"
  | -2 => "PROTO_ERR_BUFFER"
  | -3 => "PROTO_ERR_MAGIC"
  | -4 => "PROTO_ERR_VERSION"
  | -5 => "PROTO_ERR_LENGTH"
  | -6 => "PROTO_ERR_FRAME_SIZE"
  | -7 => "PROTO_ERR_CRC"
  | _ => "PROTO_ERR_UNKNOWN"
  end%string.

(** [payload] is the whole 256-byte array: bytes beyond [pkt_length] are
    whatever was there before. *)
Record protocol_packet_t := mk_packet {
  pkt_version : Z;
  pkt_msg_id : Z;
  pkt_seq : Z;
  pkt_length : Z;
  pkt_payload : list Z
}.

(** ** Field serialisation *)
Definition write_u16_be (a : list Z) (dst v : Z) : list Z :=
  arr_set (arr_set a dst (u8 (Z.land (Z.shiftr v 8) 0xFF)))
    (dst + 1) (u8 (Z.land v 0xFF)).

Definition read_u16_be (a : list Z) (src : Z) : Z :=
  u16 (Z.lor (Z.shiftl (u16 (arr_get a src)) 8) (u16 (arr_get a (src + 1)))).

(** ** protocol_encode

    A pointer argument is an [option], [None] being NULL.  The result is the
    returned code with the new contents of [*buffer] and [*encoded_length]. *)
Definition protocol_encode (packet : option protocol_packet_t)
    (buffer : option (list Z)) (buffer_size : Z) (encoded_length : option Z) :
    protocol_result_t * option (list Z) * option Z :=
  match packet, buffer, encoded_length with
  | Some packet, Some buf, Some _ =>
      if negb (pkt_version packet =? PROTOCOL_VERSION)
      then (PROTO_ERR_VERSION, Some buf, Some 0)
      else if pkt_length packet >? PROTOCOL_MAX_PAYLOAD
      then (PROTO_ERR_LENGTH, Some buf, Some 0)
      else
        let frame_length :=
          PROTOCOL_FIXED_HEADER_SIZE + pkt_length packet + PROTOCOL_CRC_SIZE in
        if buffer_size <? frame_length
        then (PROTO_ERR_BUFFER, Some buf, Some 0)
        else
          let buf := write_u16_be buf OFFSET_MAGIC PROTOCOL_MAGIC in
          let buf := arr_set buf OFFSET_VERSION (pkt_version packet) in
          let buf := arr_set buf OFFSET_MSG_ID (pkt_msg_id packet) in
          let buf := write_u16_be buf OFFSET_SEQ (pkt_seq packet) in
          let buf := write_u16_be buf OFFSET_LENGTH (pkt_length packet) in
          let buf :=
            if pkt_length packet >? 0
            then memcpy buf OFFSET_PAYLOAD (pkt_payload packet) (pkt_length packet)
            else buf in
          let crc_input_length := 6 + pkt_length packet in
          let crc :=
            crc16_ccitt_false (Some (drop (Z.to_nat OFFSET_VERSION) buf))
              crc_input_length in
          let crc_offset := OFFSET_PAYLOAD + pkt_length packet in
          let buf := write_u16_be buf crc_offset crc in
          (PROTO_OK, Some buf, Some frame_length)
  | _, _, _ => (PROTO_ERR_NULL, buffer, encoded_length)
  end.

(** ** protocol_decode

    The second component is the packet the caller's pointer then holds. *)
Definition protocol_decode (buffer : option (list Z)) (buffer_length : Z)
    (packet : option protocol_packet_t) :
    protocol_result_t * option protocol_packet_t :=
  match buffer, packet with
  | Some buf, Some pkt =>
      if buffer_length <? PROTOCOL_MIN_FRAME_SIZE
      then (PROTO_ERR_BUFFER, packet)
      else if negb (read_u16_be buf OFFSET_MAGIC =? PROTOCOL_MAGIC)
      then (PROTO_ERR_MAGIC, packet)
      else if negb (arr_get buf OFFSET_VERSION =? PROTOCOL_VERSION)
      then (PROTO_ERR_VERSION, packet)
      else
        let payload_length := read_u16_be buf OFFSET_LENGTH in
        if payload_length >? PROTOCOL_MAX_PAYLOAD
        then (PROTO_ERR_LENGTH, packet)
        else
          let expected_frame_length :=
            PROTOCOL_FIXED_HEADER_SIZE + payload_length + PROTOCOL_CRC_SIZE in
          if negb (buffer_length =? expected_frame_length)
          then (PROTO_ERR_FRAME_SIZE, packet)
          else
            let crc_input_length := 6 + payload_length in
            let calculated_crc :=
              crc16_ccitt_false (Some (drop (Z.to_nat OFFSET_VERSION) buf))
                crc_input_length in
            let crc_offset := OFFSET_PAYLOAD + payload_length in
            let received_crc := read_u16_be buf crc_offset in
            if negb (calculated_crc =? received_crc)
            then (PROTO_ERR_CRC, packet)
            else
              (PROTO_OK, Some {|
                pkt_version := arr_get buf OFFSET_VERSION;
                pkt_msg_id := arr_get buf OFFSET_MSG_ID;
                pkt_seq := read_u16_be buf OFFSET_SEQ;
                pkt_length := payload_length;
                pkt_payload :=
                  if payload_length >? 0
                  then memcpy (pkt_payload pkt) 0
                         (drop (Z.to_nat OFFSET_PAYLOAD) buf) payload_length
                  else pkt_payload pkt
              |})
  | _, _ => (PROTO_ERR_NULL, packet)
  end.

(** ** Abstract specification: the frame of a packet *)

(** The fields the CRC covers. *)
Definition frame_body (p : protocol_packet_t) : list Z :=
  [pkt_version p; pkt_msg_id p] ++ be16 (pkt_seq p) ++ be16 (pkt_length p) ++
  take (Z.to_nat (pkt_length p)) (pkt_payload p).

Definition frame_crc (body : list Z) : Z := lfsr 0xFFFF (bits_of body).

Definition frame_of (p : protocol_packet_t) : list Z :=
  [0xAA; 0x55] ++ frame_body p ++ be16 (frame_crc (frame_body p)).

(** What the C types and the 256-byte array guarantee. *)
Record packet_ok (p : protocol_packet_t) : Prop := {
  ok_version : is_u8 (pkt_version p);
  ok_msg_id : is_u8 (pkt_msg_id p);
  ok_seq : is_u16 (pkt_seq p);
  ok_length : is_u16 (pkt_length p);
  ok_payload : bytes (pkt_payload p);
  ok_payload_size : length (pkt_payload p) = 256%nat
}.

(** A packet Protocol V1 can transmit. *)
Record sendable (p : protocol_packet_t) : Prop := {
  send_ok : packet_ok p;
  send_version : pkt_version p = PROTOCOL_VERSION;
  send_length : pkt_length p <= PROTOCOL_MAX_PAYLOAD
}.

(** Same message: equal header fields and equal transmitted payload. *)
Record same_message (p q : protocol_packet_t) : Prop := {
  same_version : pkt_version p = pkt_version q;
  same_msg_id : pkt_msg_id p = pkt_msg_id q;
  same_seq : pkt_seq p = pkt_seq q;
  same_length : pkt_length p = pkt_length q;
  same_payload :
    take (Z.to_nat (pkt_length p)) (pkt_payload p) =
    take (Z.to_nat (pkt_length q)) (pkt_payload q)
}.

(** ** Serialisation lemmas *)

Lemma write_u16_be_app l a b t v :
  write_u16_be (l ++ a :: b :: t) (Z.of_nat (length l)) v = l ++ be16 v ++ t.
Proof.
  unfold write_u16_be, be16. rewrite !u8_land.
  rewrite arr_set_app. change (l ++ ?x :: b :: t) with (l ++ [x] ++ b :: t).
  rewrite app_assoc.
  replace (Z.of_nat (length l) + 1) with (Z.of_nat (length (l ++ [u8 (Z.shiftr v 8 mod 256)])))
    by (rewrite length_app; simpl; lia).
  rewrite arr_set_app, <- app_assoc. cbn [app].
  rewrite !(u8_small (_ mod 256)) by width. done.
Qed.

Lemma read_u16_be_app l hi lo t :
  is_u8 hi -> is_u8 lo ->
  read_u16_be (l ++ hi :: lo :: t) (Z.of_nat (length l)) = 256 * hi + lo.
Proof.
  intros Hh Hl. unfold read_u16_be. rewrite arr_get_app.
  change (l ++ hi :: lo :: t) with (l ++ [hi] ++ lo :: t). rewrite app_assoc.
  replace (Z.of_nat (length l) + 1) with (Z.of_nat (length (l ++ [hi])))
    by (rewrite length_app; simpl; lia).
  rewrite arr_get_app, (u16_small hi), (u16_small lo) by width.
  rewrite Z.shiftl_mul_pow2 by lia. change (2 ^ 8) with 256.
  replace (Z.lor (hi * 256) lo) with (hi * 256 + lo); [width|].
  apply Z.bits_inj'. intros n Hn. rewrite Z.lor_spec.
  rewrite Z.add_nocarry_lxor, Z.lxor_spec.
  - destruct (decide (n < 8)).
    + change 256 with (2 ^ 8). rewrite Z.mul_pow2_bits_low by lia. done.
    + replace (Z.testbit lo n) with false; [btauto|]. symmetry.
      rewrite <- (Z.mod_small lo (2 ^ 8)) by width. apply Z.mod_pow2_bits_high. lia.
  - apply Z.bits_inj'. intros m Hm. rewrite Z.bits_0, Z.land_spec.
    change 256 with (2 ^ 8). destruct (decide (m < 8)).
    + rewrite Z.mul_pow2_bits_low by lia. done.
    + rewrite <- (Z.mod_small lo (2 ^ 8)) by width.
      rewrite (Z.mod_pow2_bits_high lo) by lia. apply andb_false_r.
Qed.

Lemma be16_value v : is_u16 v ->
  exists hi lo, be16 v = [hi; lo] /\ is_u8 hi /\ is_u8 lo /\ v = 256 * hi + lo.
Proof.
  intros Hv. unfold be16. rewrite !u8_land, Z.shiftr_div_pow2 by lia.
  change (2 ^ 8) with 256.
  eexists _, _. split; [done|]. width.
Qed.

Lemma length_be16 v : length (be16 v) = 2%nat.
Proof. done. Qed.

Lemma length_frame_body p :
  packet_ok p -> pkt_length p <= 256 ->
  Z.of_nat (length (frame_body p)) = 6 + pkt_length p.
Proof.
  intros [? ? ? [] ? Hs] Hl. unfold frame_body.
  rewrite !length_app, !length_be16, length_take, Hs. cbn [length]. lia.
Qed.

Lemma length_frame_of p :
  packet_ok p -> pkt_length p <= 256 ->
  Z.of_nat (length (frame_of p)) = 10 + pkt_length p.
Proof.
  intros Hp Hl. unfold frame_of. rewrite !length_app, length_be16. cbn [length].
  pose proof (length_frame_body p Hp Hl). lia.
Qed.

Lemma frame_body_bytes p : packet_ok p -> bytes (frame_body p).
Proof.
  intros [? ? ? ? ? ?]. unfold frame_body. solve_bytes.
Qed.

Lemma frame_of_bytes p : packet_ok p -> bytes (frame_of p).
Proof.
  intros Hp%frame_body_bytes. unfold frame_of. solve_bytes.
Qed.

Lemma split_at {A} (l : list A) n :
  (n <= length l)%nat -> exists a b, l = a ++ b /\ length a = n.
Proof.
  intros H. exists (take n l), (drop n l). rewrite take_drop, length_take. split; [done|lia].
Qed.

Lemma crc_of_body body t n :
  bytes body -> bytes t -> n = Z.of_nat (length body) ->
  crc16_ccitt_false (Some (body ++ t)) n = frame_crc body.
Proof.
  intros Hb Ht ->. rewrite crc16_is_lfsr by (apply bytes_app; done).
  rewrite Nat2Z.id, take_app_length. done.
Qed.

(** ** protocol_encode writes exactly the frame of the packet *)

Lemma write_header b0 b1 b2 b3 b4 b5 b6 b7 r v m s n :
  write_u16_be
    (write_u16_be
      (arr_set (arr_set
        (write_u16_be (b0 :: b1 :: b2 :: b3 :: b4 :: b5 :: b6 :: b7 :: r)
           OFFSET_MAGIC PROTOCOL_MAGIC) OFFSET_VERSION v) OFFSET_MSG_ID m)
      OFFSET_SEQ s) OFFSET_LENGTH n =
  [0xAA; 0x55; v; m] ++ be16 s ++ be16 n ++ r.
Proof.
  change (write_u16_be (b0 :: _) _ _) with
    ([0xAA; 0x55] ++ b2 :: b3 :: b4 :: b5 :: b6 :: b7 :: r).
  change (arr_set (arr_set _ _ _) _ _) with ([0xAA; 0x55; v; m] ++ b4 :: b5 :: b6 :: b7 :: r).
  change OFFSET_SEQ with (Z.of_nat (length [0xAA; 0x55; v; m])).
  rewrite write_u16_be_app.
  change OFFSET_LENGTH with (Z.of_nat (length ([0xAA; 0x55; v; m] ++ be16 s))).
  rewrite app_assoc, write_u16_be_app, <- app_assoc. done.
Qed.

Lemma write_payload h P t p n :
  Z.of_nat (length h) = 8 -> Z.of_nat (length P) = n -> n <= Z.of_nat (length p) ->
  (if n >? 0 then memcpy (h ++ P ++ t) OFFSET_PAYLOAD p n else h ++ P ++ t) =
  h ++ take (Z.to_nat n) p ++ t.
Proof.
  intros Hh HP Hn. destruct (n >? 0) eqn:E.
  - unfold OFFSET_PAYLOAD. rewrite <- Hh. apply memcpy_app; done.
  - assert (n = 0) as -> by lia. destruct P; [done|simpl in HP; lia].
Qed.

(** The buffer the encoder fills, seen as the cells it writes and the rest. *)
Lemma buffer_cells (buf : list Z) n :
  0 <= n -> 10 + n <= Z.of_nat (length buf) ->
  exists b0 b1 b2 b3 b4 b5 b6 b7 P c0 c1 t,
    buf = b0 :: b1 :: b2 :: b3 :: b4 :: b5 :: b6 :: b7 :: P ++ c0 :: c1 :: t /\
    Z.of_nat (length P) = n.
Proof.
  intros Hn Hlen.
  destruct buf as [|b0 [|b1 [|b2 [|b3 [|b4 [|b5 [|b6 [|b7 r]]]]]]]]; simpl in Hlen; try lia.
  destruct (split_at r (Z.to_nat n)) as (P & q & -> & HP); [lia|].
  rewrite length_app in Hlen. destruct q as [|c0 [|c1 t]]; simpl in Hlen; try lia.
  do 12 eexists. split; [done|lia].
Qed.

(** The frame as the header, payload and CRC fields the encoder writes. *)
Lemma frame_of_fields p :
  frame_of p =
    ([0xAA; 0x55; pkt_version p; pkt_msg_id p] ++ be16 (pkt_seq p) ++
     be16 (pkt_length p)) ++ take (Z.to_nat (pkt_length p)) (pkt_payload p) ++
    be16 (frame_crc (frame_body p)).
Proof. unfold frame_of, frame_body. rewrite <- !app_assoc. done. Qed.

(** The last step of the encoder: the CRC of the bytes already in place. *)
Lemma write_crc p c0 c1 t :
  packet_ok p -> pkt_length p <= 256 -> bytes (c0 :: c1 :: t) ->
  let buf :=
    ([0xAA; 0x55; pkt_version p; pkt_msg_id p] ++ be16 (pkt_seq p) ++
     be16 (pkt_length p)) ++
    take (Z.to_nat (pkt_length p)) (pkt_payload p) ++ c0 :: c1 :: t in
  write_u16_be buf (OFFSET_PAYLOAD + pkt_length p)
    (crc16_ccitt_false (Some (drop (Z.to_nat OFFSET_VERSION) buf))
       (6 + pkt_length p)) =
  frame_of p ++ t.
Proof.
  intros Hp Hl Ht buf. pose proof Hp as [? ? ? [? ?] ? Hps].
  assert (drop (Z.to_nat OFFSET_VERSION) buf = frame_body p ++ c0 :: c1 :: t) as ->.
  { unfold frame_body, buf. rewrite <- !app_assoc. done. }
  rewrite crc_of_body by
    (auto using frame_body_bytes; rewrite length_frame_body by done; done).
  unfold buf. rewrite app_assoc.
  replace (OFFSET_PAYLOAD + pkt_length p) with (Z.of_nat (length
    (([0xAA; 0x55; pkt_version p; pkt_msg_id p] ++ be16 (pkt_seq p) ++
     be16 (pkt_length p)) ++ take (Z.to_nat (pkt_length p)) (pkt_payload p)))).
  - rewrite write_u16_be_app, frame_of_fields, <- !app_assoc. done.
  - rewrite !length_app, !length_be16, length_take, Hps. unfold OFFSET_PAYLOAD.
    cbn [length]. lia.
Qed.

Lemma protocol_encode_frame p buf size n0 :
  sendable p -> bytes buf ->
  10 + pkt_length p <= size -> size <= Z.of_nat (length buf) ->
  protocol_encode (Some p) (Some buf) size (Some n0) =
    (PROTO_OK,
     Some (frame_of p ++ drop (length (frame_of p)) buf),
     Some (10 + pkt_length p)).
Proof.
  intros [Hp Hv Hl] Hbuf Hsz Hbl. pose proof Hp as [? ? ? [? ?] ? Hps].
  unfold PROTOCOL_MAX_PAYLOAD in Hl. unfold protocol_encode. rewrite Hv at 1.
  change (PROTOCOL_VERSION =? PROTOCOL_VERSION) with true. cbn [negb].
  unfold PROTOCOL_MAX_PAYLOAD, PROTOCOL_FIXED_HEADER_SIZE, PROTOCOL_CRC_SIZE.
  destruct (pkt_length p >? 256) eqn:E1; [lia|].
  destruct (size <? 8 + pkt_length p + 2) eqn:E2; [lia|].
  destruct (buffer_cells buf (pkt_length p)) as
    (b0&b1&b2&b3&b4&b5&b6&b7&P&c0&c1&t&->&HP); [lia..|].
  rewrite write_header, !app_assoc, <- (app_assoc _ P), write_payload
    by (rewrite ?length_app, ?length_be16; simpl; lia).
  rewrite <- (app_assoc _ (be16 (pkt_seq p))), write_crc; [|done..|].
  - replace (8 + pkt_length p + 2) with (10 + pkt_length p) by lia. do 4 f_equal.
    change (b0 :: b1 :: b2 :: b3 :: b4 :: b5 :: b6 :: b7 :: P ++ c0 :: c1 :: t)
      with ([b0; b1; b2; b3; b4; b5; b6; b7] ++ P ++ [c0; c1] ++ t).
    rewrite (app_assoc P), app_assoc, drop_app_length'; [done|].
    pose proof (length_frame_of p Hp Hl). rewrite !length_app. cbn [length]. lia.
  - rewrite !bytes_cons, bytes_app, !bytes_cons in Hbuf. rewrite !bytes_cons. tauto.
Qed.

(** What the callers of the firmware rely on: a buffer of full size gets the
    frame, or nothing and the packet is refused. *)
Definition can_send (p : protocol_packet_t) : bool :=
  (pkt_version p =? PROTOCOL_VERSION) && (pkt_length p <=? PROTOCOL_MAX_PAYLOAD).

Lemma can_send_sendable p : packet_ok p -> can_send p = true -> sendable p.
Proof. intros Hp H. unfold can_send in H. split; [done|lia|lia]. Qed.
Lemma sendable_can_send p : sendable p -> can_send p = true.
Proof. intros [_ Hv Hl]. unfold can_send. lia. Qed.

Definition full_buffer (buf : list Z) : Prop := bytes buf /\ length buf = 266%nat.

Definition encoded (p : protocol_packet_t) (r : protocol_result_t) (n : Z) (buf : list Z) : Prop :=
  full_buffer buf /\
  if can_send p
  then r = PROTO_OK /\ n = 10 + pkt_length p /\ 10 <= n <= 266 /\ take (Z.to_nat n) buf = frame_of p
  else r <> PROTO_OK.

Lemma protocol_encode_full p buf :
  packet_ok p -> full_buffer buf ->
  exists r buf' n,
    protocol_encode (Some p) (Some buf) PROTOCOL_MAX_FRAME_SIZE (Some 0) = (r, Some buf', Some n) /\
    encoded p r n buf'.
Proof.
  intros Hp [Hb Hl]. change PROTOCOL_MAX_FRAME_SIZE with 266. unfold encoded.
  destruct (can_send p) eqn:E.
  - pose proof (can_send_sendable _ Hp E) as Hs. pose proof Hs as [_ _ Hm].
    pose proof Hp as [_ _ _ Hu _ _]. unfold is_u16 in Hu. change PROTOCOL_MAX_PAYLOAD with 256 in Hm.
    pose proof (length_frame_of p Hp Hm) as Hf.
    rewrite protocol_encode_frame by (done || lia). do 3 eexists. split; [done|]. split; [split|].
    + apply bytes_app. split; [by apply frame_of_bytes|]. by apply Forall_drop.
    + rewrite length_app, length_drop. lia.
    + split; [done|]. split; [done|]. split; [lia|]. rewrite take_app_length'; [done|lia].
  - unfold can_send in E. unfold protocol_encode.
    destruct (pkt_version p =? PROTOCOL_VERSION); cbn [negb andb] in *; [|by do 3 eexists].
    replace (pkt_length p >? PROTOCOL_MAX_PAYLOAD) with true by zlia. by do 3 eexists.
Qed.

(** ** protocol_decode accepts exactly frames *)

(** What the caller's packet holds after a frame of [p] was decoded over
    [old]: the bytes beyond the payload are those of [old]. *)
Definition received (p old : protocol_packet_t) : protocol_packet_t := {|
  pkt_version := pkt_version p;
  pkt_msg_id := pkt_msg_id p;
  pkt_seq := pkt_seq p;
  pkt_length := pkt_length p;
  pkt_payload :=
    take (Z.to_nat (pkt_length p)) (pkt_payload p) ++
    drop (Z.to_nat (pkt_length p)) (pkt_payload old)
|}.

Section DecodeCells.
Context (b0 b1 b2 b3 b4 b5 b6 b7 : Z) (r : list Z).
Context (Hb : bytes [b0; b1; b2; b3; b4; b5; b6; b7]).
Let buf := b0 :: b1 :: b2 :: b3 :: b4 :: b5 :: b6 :: b7 :: r.

Local Ltac field l hi lo t :=
  apply (read_u16_be_app l hi lo t);
  revert Hb; rewrite !bytes_cons; tauto.

Lemma read_magic : read_u16_be buf OFFSET_MAGIC = 256 * b0 + b1.
Proof using Hb. field (@nil Z) b0 b1 (drop 2 buf). Qed.
Lemma read_seq : read_u16_be buf OFFSET_SEQ = 256 * b4 + b5.
Proof using Hb. field [b0; b1; b2; b3] b4 b5 (drop 6 buf). Qed.
Lemma read_length : read_u16_be buf OFFSET_LENGTH = 256 * b6 + b7.
Proof using Hb. field [b0; b1; b2; b3; b4; b5] b6 b7 (drop 8 buf). Qed.
End DecodeCells.

Lemma be16_split v hi lo :
  is_u8 hi -> is_u8 lo -> v = 256 * hi + lo -> be16 v = [hi; lo].
Proof. intros ? ? ->. apply be16_of_bytes; done. Qed.

Lemma read_crc h P c0 c1 t n :
  is_u8 c0 -> is_u8 c1 -> Z.of_nat (length h) = 8 -> n = Z.of_nat (length P) ->
  read_u16_be (h ++ P ++ c0 :: c1 :: t) (OFFSET_PAYLOAD + n) = 256 * c0 + c1.
Proof.
  intros H0 H1 Hh ->. unfold OFFSET_PAYLOAD. rewrite <- Hh, <- Nat2Z.inj_add.
  rewrite app_assoc, <- length_app. apply read_u16_be_app; done.
Qed.

Lemma decoded_payload P old t n :
  n = Z.of_nat (length P) ->
  (if n >? 0 then memcpy old 0 (P ++ t) n else old) = P ++ drop (Z.to_nat n) old.
Proof.
  intros ->. destruct (_ >? _) eqn:E.
  - unfold memcpy. rewrite Nat2Z.id, take_app_length, Z.add_0_l, Nat2Z.id. done.
  - destruct P; [done|]. rewrite Z.gtb_ltb, Z.ltb_ge in E. cbn [length] in E. lia.
Qed.

(** The whole decoder on a buffer whose length field says [length P]. *)
Lemma protocol_decode_cells b0 b1 b2 b3 b4 b5 b6 b7 P c0 c1 t n pkt :
  let buf := b0 :: b1 :: b2 :: b3 :: b4 :: b5 :: b6 :: b7 :: P ++ c0 :: c1 :: t in
  let body := b2 :: b3 :: b4 :: b5 :: b6 :: b7 :: P in
  bytes buf -> b0 = 0xAA -> b1 = 0x55 -> b2 = PROTOCOL_VERSION ->
  256 * b6 + b7 = Z.of_nat (length P) -> Z.of_nat (length P) <= 256 ->
  n = 10 + Z.of_nat (length P) ->
  protocol_decode (Some buf) n (Some pkt) =
    if 256 * c0 + c1 =? frame_crc body
    then (PROTO_OK, Some {|
           pkt_version := b2; pkt_msg_id := b3; pkt_seq := 256 * b4 + b5;
           pkt_length := Z.of_nat (length P);
           pkt_payload := P ++ drop (length P) (pkt_payload pkt) |})
    else (PROTO_ERR_CRC, Some pkt).
Proof.
  intros buf body Hbuf H0 H1 H2 HL HP Hn.
  assert (bytes [b0; b1; b2; b3; b4; b5; b6; b7] /\ bytes P /\ is_u8 c0 /\
          is_u8 c1 /\ bytes t) as (Hh & HPb & Hc0 & Hc1 & Ht).
  { unfold buf in Hbuf. rewrite !bytes_cons, bytes_app, !bytes_cons in Hbuf.
    rewrite !bytes_cons. pose proof bytes_nil. tauto. }
  unfold protocol_decode, buf.
  rewrite read_magic, read_length, read_seq by done.
  change (arr_get (b0 :: _) OFFSET_VERSION) with b2.
  change (arr_get (b0 :: _) OFFSET_MSG_ID) with b3.
  change (drop (Z.to_nat OFFSET_VERSION) (b0 :: b1 :: ?l)) with l.
  change (drop (Z.to_nat OFFSET_PAYLOAD) (b0 :: _)) with (P ++ c0 :: c1 :: t).
  change (b2 :: b3 :: b4 :: b5 :: b6 :: b7 :: P ++ c0 :: c1 :: t)
    with (body ++ c0 :: c1 :: t).
  rewrite H0, H1, H2, HL. change (256 * 170 + 85 =? PROTOCOL_MAGIC) with true.
  change (PROTOCOL_VERSION =? PROTOCOL_VERSION) with true. cbn [negb].
  unfold PROTOCOL_MIN_FRAME_SIZE, PROTOCOL_FIXED_HEADER_SIZE, PROTOCOL_CRC_SIZE,
    PROTOCOL_MAX_PAYLOAD.
  destruct (n <? 8 + 2) eqn:E1; [lia|].
  destruct (_ >? 256) eqn:E2; [lia|].
  destruct (n =? _) eqn:E3; [|lia]. cbn [negb].
  rewrite crc_of_body; [|subst body; rewrite !bytes_cons in *; tauto..|subst body; cbn [length]; lia].
  pose proof (read_crc [0xAA; 0x55; b2; b3; b4; b5; b6; b7] P c0 c1 t _
    Hc0 Hc1 eq_refl eq_refl) as Hcrc.
  change (0xAA :: 0x55 :: body ++ c0 :: c1 :: t)
    with ([0xAA; 0x55; b2; b3; b4; b5; b6; b7] ++ P ++ c0 :: c1 :: t).
  rewrite Hcrc.
  rewrite decoded_payload, Nat2Z.id by done.
  rewrite (Z.eqb_sym (256 * c0 + c1)). destruct (frame_crc body =? _); done.
Qed.

Lemma decode_frame p pkt t :
  sendable p -> bytes t ->
  protocol_decode (Some (frame_of p ++ t)) (10 + pkt_length p) (Some pkt) =
    (PROTO_OK, Some (received p pkt)).
Proof.
  intros [Hp Hv Hl] Ht. pose proof Hp as [? ? Hseq Hlen ? Hps].
  pose proof (frame_of_bytes p Hp) as Hfb. unfold PROTOCOL_MAX_PAYLOAD in Hl.
  destruct (be16_value _ Hseq) as (s1 & s0 & Es & ? & ? & Vs).
  destruct (be16_value _ Hlen) as (l1 & l0 & El & ? & ? & Vl).
  destruct (be16_value (frame_crc (frame_body p))) as (c1 & c0 & Ec & ? & ? & Vc).
  { apply lfsr_range, u16_FFFF. }
  set (P := take (Z.to_nat (pkt_length p)) (pkt_payload p)).
  assert (Z.of_nat (length P) = pkt_length p) as HP.
  { unfold P, is_u16 in *. rewrite length_take, Hps. lia. }
  assert (frame_body p = pkt_version p :: pkt_msg_id p :: s1 :: s0 :: l1 :: l0 :: P)
    as Hbody by (unfold frame_body; rewrite Es, El; done).
  assert (frame_of p ++ t = 0xAA :: 0x55 :: pkt_version p :: pkt_msg_id p ::
    s1 :: s0 :: l1 :: l0 :: P ++ c1 :: c0 :: t) as ->.
  { unfold frame_of. rewrite Ec, Hbody, <- app_assoc. cbn [app].
    rewrite <- app_assoc. done. }
  rewrite protocol_decode_cells; [|..].
  - rewrite <- Hbody, <- Vc, Z.eqb_refl, HP, <- Vs.
    replace (length P) with (Z.to_nat (pkt_length p)) by lia. done.
  - unfold P. solve_bytes.
  - done.
  - done.
  - done.
  - lia.
  - lia.
  - lia.
Qed.

(** Conversely, whatever the decoder accepts is the frame of what it returns. *)

Lemma decode_short buf n pkt :
  n < 10 -> fst (protocol_decode (Some buf) n (Some pkt)) = PROTO_ERR_BUFFER.
Proof.
  intros Hn. unfold protocol_decode, PROTOCOL_MIN_FRAME_SIZE,
    PROTOCOL_FIXED_HEADER_SIZE, PROTOCOL_CRC_SIZE.
  destruct (n <? 8 + 2) eqn:E; [done|lia].
Qed.

Lemma decode_ok_header b0 b1 b2 b3 b4 b5 b6 b7 r n pkt q :
  bytes [b0; b1; b2; b3; b4; b5; b6; b7] ->
  protocol_decode (Some (b0 :: b1 :: b2 :: b3 :: b4 :: b5 :: b6 :: b7 :: r)) n
    (Some pkt) = (PROTO_OK, q) ->
  b0 = 0xAA /\ b1 = 0x55 /\ b2 = PROTOCOL_VERSION /\
  n = 10 + (256 * b6 + b7) /\ 256 * b6 + b7 <= 256.
Proof.
  intros Hh Hdec. unfold protocol_decode in Hdec.
  rewrite read_magic, read_length in Hdec by done.
  change (arr_get (b0 :: _) OFFSET_VERSION) with b2 in Hdec.
  destruct (n <? _); [done|].
  destruct (256 * b0 + b1 =? PROTOCOL_MAGIC) eqn:E1; [|done].
  destruct (b2 =? PROTOCOL_VERSION) eqn:E2; [|done]. cbn [negb] in Hdec.
  destruct (256 * b6 + b7 >? PROTOCOL_MAX_PAYLOAD) eqn:E3; [done|].
  destruct (n =? _) eqn:E4; [|done].
  unfold PROTOCOL_FIXED_HEADER_SIZE, PROTOCOL_CRC_SIZE, PROTOCOL_MAX_PAYLOAD,
    PROTOCOL_MAGIC in *. rewrite Z.gtb_ltb in E3. rewrite !bytes_cons in Hh. width.
Qed.

(** The frame whose cells the decoder has checked. *)
Lemma frame_of_cells b3 b4 b5 b6 b7 c0 c1 P pay :
  bytes [b4; b5; b6; b7; c0; c1] -> 256 * b6 + b7 = Z.of_nat (length P) ->
  256 * c0 + c1 = frame_crc (PROTOCOL_VERSION :: b3 :: b4 :: b5 :: b6 :: b7 :: P) ->
  frame_of (mk_packet PROTOCOL_VERSION b3 (256 * b4 + b5) (Z.of_nat (length P))
              (P ++ pay)) =
  [0xAA; 0x55; PROTOCOL_VERSION; b3; b4; b5; b6; b7] ++ P ++ [c0; c1].
Proof.
  rewrite !bytes_cons. intros (?&?&?&?&?&?&_) HL Hc. rewrite frame_of_fields.
  unfold frame_body. cbn [pkt_version pkt_msg_id pkt_seq pkt_length pkt_payload].
  rewrite Nat2Z.id, take_app_length.
  rewrite (be16_of_bytes b4 b5), (be16_split _ b6 b7) by (done || width).
  cbn [app]. rewrite <- Hc, be16_of_bytes by done. done.
Qed.

Lemma decode_ok_inv buf n pkt q :
  bytes buf -> n <= Z.of_nat (length buf) -> packet_ok pkt ->
  protocol_decode (Some buf) n (Some pkt) = (PROTO_OK, q) ->
  exists p, q = Some p /\ take (Z.to_nat n) buf = frame_of p /\ sendable p /\
    n = 10 + pkt_length p.
Proof.
  intros Hbuf Hn [_ _ _ _ Hpb Hps] Hdec.
  destruct buf as [|b0 [|b1 [|b2 [|b3 [|b4 [|b5 [|b6 [|b7 r]]]]]]]];
    try (rewrite (surjective_pairing (protocol_decode _ _ _)), decode_short in Hdec
           by (cbn [length] in Hn; lia); done).
  rewrite !bytes_cons in Hbuf. destruct Hbuf as (?&?&?&?&?&?&?&?&Hr).
  destruct (decode_ok_header b0 b1 b2 b3 b4 b5 b6 b7 r n pkt q)
    as (-> & -> & -> & Hn' & HL); [solve_bytes|done|].
  destruct (split_at r (Z.to_nat (256 * b6 + b7))) as (P & r' & -> & HP);
    [cbn [length] in Hn; lia|].
  cbn [length] in Hn. rewrite length_app in Hn. rewrite bytes_app in Hr.
  destruct r' as [|c0 [|c1 t]]; cbn [length] in Hn; [width..|].
  rewrite !bytes_cons in Hr. destruct Hr as (HPb & ? & ? & ?).
  assert (256 * b6 + b7 = Z.of_nat (length P)) as HL' by width.
  rewrite protocol_decode_cells in Hdec by (solve_bytes || width).
  destruct (_ =? frame_crc _) eqn:Ec; [|done]. injection Hdec as <-.
  apply Z.eqb_eq in Ec. eexists. split; [done|]. split_and!.
  - rewrite (frame_of_cells _ _ _ b6 b7 c0 c1) by (solve_bytes || done).
    change (0xAA :: 0x55 :: ?a :: ?b :: ?c :: ?d :: ?e :: ?f :: P ++ c0 :: c1 :: t)
      with ([0xAA; 0x55; a; b; c; d; e; f] ++ P ++ [c0; c1] ++ t).
    rewrite Hn', HL', (app_assoc P), app_assoc. apply take_app_length'.
    rewrite !length_app. cbn [length]. lia.
  - split; [split|done|]; cbn [pkt_version pkt_msg_id pkt_seq pkt_length pkt_payload];
      try (unfold PROTOCOL_MAX_PAYLOAD; width).
    + solve_bytes.
    + rewrite length_app, length_drop. lia.
  - cbn [pkt_length]. lia.
Qed.

(** ** Error detection *)

(** The CRC field closes the register: a frame is a codeword. *)
Lemma frame_residue p :
  packet_ok p -> lfsr 0xFFFF (bits_of (drop 2 (frame_of p))) = 0.
Proof.
  intros Hp.
  change (drop 2 (frame_of p)) with (frame_body p ++ be16 (frame_crc (frame_body p))).
  rewrite bits_of_app, lfsr_app.
  apply lfsr_residue; [apply lfsr_range, u16_FFFF..|done].
Qed.

(** The difference of two frames of one length leaves the register at 0. *)
Lemma frames_difference p q :
  packet_ok p -> packet_ok q -> length (frame_of p) = length (frame_of q) ->
  ~ detected (xor_bits (bits_of (frame_of p)) (bits_of (frame_of q))).
Proof.
  intros Hp Hq Hlen. unfold detected. intros H. apply H.
  pose proof (frame_residue p Hp) as Rp. pose proof (frame_residue q Hq) as Rq.
  change (frame_of p) with ([0xAA; 0x55] ++ drop 2 (frame_of p)).
  change (frame_of q) with ([0xAA; 0x55] ++ drop 2 (frame_of q)).
  rewrite !bits_of_app, xor_bits_app, xor_bits_same, lfsr_0_zeros_app by done.
  change 0 with (Z.lxor 0xFFFF 0xFFFF) at 1. rewrite lfsr_lxor, Rp, Rq; [done|].
  rewrite !length_bits_of, !length_drop. lia.
Qed.

Lemma accepted_frames f n pkt q :
  bytes f -> Z.of_nat (length f) = n -> packet_ok pkt ->
  protocol_decode (Some f) n (Some pkt) = (PROTO_OK, q) ->
  exists p, f = frame_of p /\ packet_ok p /\ Z.of_nat (length f) <= 266.
Proof.
  intros Hf Hn Hpkt Hdec.
  destruct (decode_ok_inv f n pkt q) as (p & -> & Ht & [Hp ? Hl] & Hn'); [done|lia|done..|].
  exists p. rewrite <- Hn, Nat2Z.id, firstn_all in Ht. unfold PROTOCOL_MAX_PAYLOAD in Hl.
  split_and!; [done|done|lia].
Qed.

(** Two accepted frames of the same length do not differ by a detected
    error pattern. *)
Lemma corrupted_rejected f f' n pkt :
  bytes f -> bytes f' -> Z.of_nat (length f) = n -> length f' = length f ->
  packet_ok pkt ->
  fst (protocol_decode (Some f) n (Some pkt)) = PROTO_OK ->
  (Z.of_nat (length (bits_of f)) <= 2128 ->
   detected (xor_bits (bits_of f) (bits_of f'))) ->
  fst (protocol_decode (Some f') n (Some pkt)) <> PROTO_OK.
Proof.
  intros Hf Hf' Hn Hlen Hpkt Hok Hdet Hok'.
  destruct (protocol_decode (Some f) n (Some pkt)) as [r q] eqn:E.
  destruct (protocol_decode (Some f') n (Some pkt)) as [r' q'] eqn:E'.
  cbn [fst] in *. subst.
  destruct (accepted_frames f _ _ _ Hf eq_refl Hpkt E) as (p & -> & Hp & Hl).
  destruct (accepted_frames f' _ _ _ Hf' (f_equal Z.of_nat Hlen) Hpkt E') as (p' & -> & Hp' & _).
  eapply (frames_difference p p'); [done|done|lia|]. apply Hdet.
  rewrite length_bits_of. lia.
Qed.

(** ** Properties *)

Lemma decode_error_untouched buf n pkt r q :
  protocol_decode (Some buf) n (Some pkt) = (r, q) -> r <> PROTO_OK -> q = Some pkt.
Proof.
  unfold protocol_decode. intros E Hr.
  repeat (case_match; [by injection E as <- <-|]). injection E as <- <-. done.
Qed.

(** C3: Round trip: every packet that Protocol V1 can transmit, encoded into
    any large enough buffer, decodes without error to the same message; the
    bytes of the receiving packet beyond the payload keep their old value. *)
Theorem encode_decode_roundtrip p old buf size n0 :
  sendable p -> packet_ok old -> bytes buf ->
  PROTOCOL_MIN_FRAME_SIZE + pkt_length p <= size -> size <= Z.of_nat (length buf) ->
  exists buf' n q,
    protocol_encode (Some p) (Some buf) size (Some n0) = (PROTO_OK, Some buf', Some n) /\
    n = PROTOCOL_MIN_FRAME_SIZE + pkt_length p /\
    protocol_decode (Some buf') n (Some old) = (PROTO_OK, Some q) /\
    same_message q p /\
    drop (Z.to_nat (pkt_length p)) (pkt_payload q) =
      drop (Z.to_nat (pkt_length p)) (pkt_payload old).
Proof.
  intros Hp Hold Hbuf Hsz Hbl. change PROTOCOL_MIN_FRAME_SIZE with 10 in *.
  eexists _, _, _. split; [by apply protocol_encode_frame|]. split; [done|].
  split; [apply decode_frame; auto with width|].
  destruct Hp as [[_ _ _ [H0 _] _ Hs] _ Hl]. unfold PROTOCOL_MAX_PAYLOAD in Hl.
  set (P := take (Z.to_nat (pkt_length p)) (pkt_payload p)).
  assert (length P = Z.to_nat (pkt_length p)) as HP by (unfold P; rewrite length_take; lia).
  split; [split; try done|]; cbn [received pkt_length pkt_payload]; fold P; rewrite <- HP.
  - apply take_app_length.
  - apply drop_app_length.
Qed.

(** C4: The decoder accepts exactly the frames: for any receive buffer it
    returns PROTO_OK if and only if the first [n] bytes are the frame of some
    transmittable packet, in which case that packet's message is returned;
    on every error the caller's packet is left untouched. *)
Theorem decode_accepts_exactly_frames buf n old r q :
  bytes buf -> n <= Z.of_nat (length buf) -> packet_ok old ->
  protocol_decode (Some buf) n (Some old) = (r, q) ->
  (r = PROTO_OK <->
     exists p, sendable p /\ take (Z.to_nat n) buf = frame_of p /\
               n = PROTOCOL_MIN_FRAME_SIZE + pkt_length p) /\
  (forall p, sendable p -> take (Z.to_nat n) buf = frame_of p ->
     n = PROTOCOL_MIN_FRAME_SIZE + pkt_length p -> q = Some (received p old)) /\
  (r <> PROTO_OK -> q = Some old).
Proof.
  intros Hbuf Hn Hold E. change PROTOCOL_MIN_FRAME_SIZE with 10.
  assert (forall p, sendable p -> take (Z.to_nat n) buf = frame_of p ->
    n = 10 + pkt_length p -> (r, q) = (PROTO_OK, Some (received p old))) as Hfwd.
  { intros p Hp Ht Hn'. rewrite <- E, <- (take_drop (Z.to_nat n) buf), Ht, Hn'.
    apply decode_frame; auto with width. }
  split_and!.
  - split; [|intros (p & Hp & Ht & Hn'); by injection (Hfwd p Hp Ht Hn')].
    intros ->. destruct (decode_ok_inv _ _ _ _ Hbuf Hn Hold E) as (p & _ & ? & ? & ?).
    eauto.
  - intros p Hp Ht Hn'. by injection (Hfwd p Hp Ht Hn').
  - eauto using decode_error_untouched.
Qed.

(** C30: The encoder is total on valid pointers: a Version 1 packet of at most
    256 payload bytes that fits is written as its frame, and no byte beyond
    the frame changes; otherwise the violated condition is named (version
    first, then length, then buffer size), the reported length is 0 and the
    buffer is untouched.  A NULL pointer is reported and nothing is written. *)
Theorem encode_writes_frame_or_nothing p buf size n0 :
  packet_ok p -> bytes buf -> size <= Z.of_nat (length buf) ->
  (sendable p -> PROTOCOL_MIN_FRAME_SIZE + pkt_length p <= size ->
     protocol_encode (Some p) (Some buf) size (Some n0) =
       (PROTO_OK, Some (frame_of p ++ drop (length (frame_of p)) buf),
        Some (Z.of_nat (length (frame_of p))))) /\
  (pkt_version p <> PROTOCOL_VERSION ->
     protocol_encode (Some p) (Some buf) size (Some n0) =
       (PROTO_ERR_VERSION, Some buf, Some 0)) /\
  (pkt_version p = PROTOCOL_VERSION -> PROTOCOL_MAX_PAYLOAD < pkt_length p ->
     protocol_encode (Some p) (Some buf) size (Some n0) =
       (PROTO_ERR_LENGTH, Some buf, Some 0)) /\
  (sendable p -> size < PROTOCOL_MIN_FRAME_SIZE + pkt_length p ->
     protocol_encode (Some p) (Some buf) size (Some n0) =
       (PROTO_ERR_BUFFER, Some buf, Some 0)) /\
  (forall op ob on, op = None \/ ob = None \/ on = None ->
     protocol_encode op ob size on = (PROTO_ERR_NULL, ob, on)).
Proof.
  intros Hp Hbuf Hbl. change PROTOCOL_MIN_FRAME_SIZE with 10.
  unfold protocol_encode at 2 3 4, PROTOCOL_MAX_PAYLOAD, PROTOCOL_FIXED_HEADER_SIZE,
    PROTOCOL_CRC_SIZE. rewrite Z.gtb_ltb. split_and!.
  - intros Hs Hfit. rewrite protocol_encode_frame by done.
    destruct Hs as [_ _ Hl]. rewrite length_frame_of by done. done.
  - intros Hv%Z.eqb_neq. rewrite Hv. done.
  - intros ->%Z.eqb_eq ->%Z.ltb_lt. done.
  - intros [_ ->%Z.eqb_eq Hl] Hs. unfold PROTOCOL_MAX_PAYLOAD in Hl.
    destruct (256 <? _) eqn:E1; [lia|]. destruct (size <? _) eqn:E2; [done|lia].
  - intros [?|] [?|] [?|] [|[|]]; done.
Qed.

(** Does [f'] differ from [f] by one to three bits, or by wrong bits within a
    window [w] of at most 16 consecutive bits? *)
Definition damaged (f f' : list Z) : Prop :=
  (1 <= hamming (bits_of f) (bits_of f') <= 3)%nat \/
  f <> f' /\ exists i w j, (length w <= 16)%nat /\ xor_bits (bits_of f) (bits_of f') = zeros i ++ w ++ zeros j.

Lemma damage_detected f f' :
  bytes f -> bytes f' -> length f' = length f -> Z.of_nat (length (bits_of f)) <= 2128 -> damaged f f' ->
  detected (xor_bits (bits_of f) (bits_of f')).
Proof.
  intros Hf Hf' Hlen Hl [Hw|(Hne & i & w & j & Hw & Hx)].
  - apply few_bits_detected; [|done].
    unfold xor_bits. rewrite length_zip_with, !length_bits_of. rewrite length_bits_of in Hl. lia.
  - rewrite Hx. apply burst_detected; [done|]. intros H0. apply Hne.
    apply bits_of_inj; [done..|]. apply hamming_zero_inv; [rewrite !length_bits_of; lia|].
    assert (forall k, weight (zeros k) = 0%nat) as Hz by (intros k; induction k; done).
    unfold hamming. rewrite Hx, !weight_app, H0, !Hz. done.
Qed.

(** C28: Error detection: if a received frame is accepted, then the same frame
    with one, two or three bits flipped anywhere (header, payload or CRC
    field), or damaged by one burst - any nonempty set of wrong bits inside a
    window of 16 consecutive bits -, is rejected by the decoder. *)
Theorem decode_rejects_damage f f' n pkt :
  bytes f -> bytes f' -> Z.of_nat (length f) = n -> length f' = length f ->
  packet_ok pkt ->
  fst (protocol_decode (Some f) n (Some pkt)) = PROTO_OK ->
  damaged f f' ->
  fst (protocol_decode (Some f') n (Some pkt)) <> PROTO_OK.
Proof.
  intros Hf Hf' Hn Hlen Hpkt Hok Hd. eapply (corrupted_rejected f); [done..|].
  intros Hl. by apply damage_detected.
Qed.

(** ** Witnesses: a PING with sequence number 7 *)

Definition zero_packet : protocol_packet_t := mk_packet 0 0 0 0 (replicate 256 0).
Definition ping_packet (s : Z) : protocol_packet_t :=
  mk_packet PROTOCOL_VERSION MSG_PING s 0 (replicate 256 0).

Ltac pkt_simpl :=
  cbn [zero_packet ping_packet pkt_version pkt_msg_id pkt_seq pkt_length pkt_payload].

Lemma bytes_zeros n : bytes (replicate n 0).
Proof. apply Forall_replicate. width. Qed.
#[export] Hint Resolve bytes_zeros : width.

Lemma zero_packet_ok : packet_ok zero_packet.
Proof. split; pkt_simpl; try width; [apply bytes_zeros|done]. Qed.

Lemma ping_packet_sendable s : is_u16 s -> sendable (ping_packet s).
Proof.
  intros Hs. split; [split|done|done]; pkt_simpl; unfold PROTOCOL_VERSION, MSG_PING;
    try done; try width. apply bytes_zeros.
Qed.

Lemma encode_decode_roundtrip_witness :
  sendable (ping_packet 7) /\
  exists buf' n q,
    protocol_encode (Some (ping_packet 7)) (Some (replicate 266 0)) 266 (Some 0) =
      (PROTO_OK, Some buf', Some n) /\
    n = PROTOCOL_MIN_FRAME_SIZE + 0 /\
    protocol_decode (Some buf') n (Some zero_packet) = (PROTO_OK, Some q) /\
    same_message q (ping_packet 7) /\
    drop 0 (pkt_payload q) = drop 0 (pkt_payload zero_packet).
Proof.
  split; [apply ping_packet_sendable; width|].
  apply (encode_decode_roundtrip (ping_packet 7) zero_packet (replicate 266 0) 266 0).
  - apply ping_packet_sendable; width.
  - apply zero_packet_ok.
  - apply bytes_zeros.
  - vm_compute; discriminate.
  - vm_compute; discriminate.
Defined.

(** The frame of PING 7, and damaged copies of it. *)
Definition ping7_frame : list Z := [0xAA; 0x55; 0x01; 0x01; 0; 7; 0; 0; 0x64; 0x71].

Lemma ping7_frame_bytes : bytes ping7_frame.
Proof. unfold ping7_frame. solve_bytes. Qed.

Lemma decode_accepts_exactly_frames_witness :
  fst (protocol_decode (Some ping7_frame) 10 (Some zero_packet)) = PROTO_OK /\
  exists p, sendable p /\ take 10 ping7_frame = frame_of p.
Proof.
  split; [vm_compute; reflexivity|].
  destruct (decode_accepts_exactly_frames ping7_frame 10 zero_packet PROTO_OK
    (snd (protocol_decode (Some ping7_frame) 10 (Some zero_packet))))
    as [[H _] _]; [apply ping7_frame_bytes|done|apply zero_packet_ok|vm_compute; reflexivity|].
  destruct (H eq_refl) as (p & ? & ? & _). exists p. done.
Defined.

Lemma encode_writes_frame_or_nothing_witness :
  protocol_encode (Some (ping_packet 7)) (Some (replicate 9 0)) 9 (Some 3) =
    (PROTO_ERR_BUFFER, Some (replicate 9 0), Some 0).
Proof.
  assert (sendable (ping_packet 7)) as Hp by (apply ping_packet_sendable; width).
  destruct (encode_writes_frame_or_nothing (ping_packet 7) (replicate 9 0) 9 3)
    as (_ & _ & _ & H & _); [apply Hp|apply bytes_zeros|done|].
  apply H; [exact Hp|reflexivity].
Defined.

Lemma decode_rejects_damage_witness :
  fst (protocol_decode (Some ping7_frame) 10 (Some zero_packet)) = PROTO_OK /\
  fst (protocol_decode (Some [0xAA; 0x55; 0x01; 0x01; 0x80; 6; 0; 0; 0x64; 0x70]) 10
         (Some zero_packet)) <> PROTO_OK /\
  fst (protocol_decode (Some [0xAA; 0x55; 0x01; 0x81; 0x7F; 7; 0; 0; 0x64; 0x71]) 10
         (Some zero_packet)) <> PROTO_OK.
Proof.
  split; [vm_compute; reflexivity|].
  split; (apply (decode_rejects_damage ping7_frame);
    [apply ping7_frame_bytes|solve_bytes|done|done|apply zero_packet_ok|vm_compute; reflexivity|]).
  - left. vm_compute. lia.
  - right. split; [discriminate|]. exists 24%nat, (bits_of [0x80; 0x7F]), 40%nat.
    split; [vm_compute; lia|vm_compute; reflexivity].
Defined.
