(* ===== verification/KernelQueue.v ===== *)
(** * FreeRTOS queues

    Middlewares/Third_Party/FreeRTOS/Source/queue.c as both firmwares use it:
    message queues whose items lie in a block of RAM, read and written by
    [memcpy] through two pointers, from tasks and from interrupts.  A message
    queue is shown to be a bounded FIFO that touches nothing outside its
    block.  Not modelled: mutexes (queues without a block), queue sets (not
    configured), and what a task does after it has begun to wait. *)
From S2P Require Import Prelude Protocol.
Local Open Scope Z_scope.

(** ** Constants *)
Definition pdFALSE : Z := 0.
Definition pdTRUE : Z := 1.
Definition pdPASS : Z := pdTRUE.
Definition pdFAIL : Z := pdFALSE.
Definition errQUEUE_EMPTY : Z := 0.
Definition errQUEUE_FULL : Z := 0.
Definition queueUNLOCKED : Z := -1.
Definition queueLOCKED_UNMODIFIED : Z := 0.
Definition queueSEND_TO_BACK : Z := 0.
Definition queueSEND_TO_FRONT : Z := 1.
Definition queueOVERWRITE : Z := 2.

(** A conversion to [int8_t]. *)
Definition i8 (z : Z) : Z := if u8 z <? 128 then u8 z else u8 z - 256.

(** ** RAM

    A byte for each address.  Pointers are addresses; arithmetic on them stays
    within a block, as C requires. *)
Definition load (m : Z -> Z) (a n : Z) : list Z :=
  map (fun i => m (a + Z.of_nat i)) (seq 0 (Z.to_nat n)).
Definition store (m : Z -> Z) (a : Z) (bs : list Z) : Z -> Z :=
  fun x => if (a <=? x) && (x <? a + Z.of_nat (length bs)) then arr_get bs (x - a) else m x.

(** ** The kernel, as far as queues see it *)
Record TCB_t := mk_tcb { xTask : Z; uxPriority : Z }.

(** [ready] lists the tasks made ready, in order; [pend_sv] is set when a
    context switch was requested. *)
Record kernel := mk_kernel {
  ram : Z -> Z;
  pxCurrentTCB : TCB_t;
  ready : list TCB_t;
  xPendingReadyList : list TCB_t;
  uxSchedulerSuspended : Z;
  xYieldPending : Z;
  pend_sv : bool
}.
#[export] Instance eta_kernel : Eta kernel := fun k =>
  mk_kernel (ram k) (pxCurrentTCB k) (ready k) (xPendingReadyList k) (uxSchedulerSuspended k)
    (xYieldPending k) (pend_sv k).

(** [memcpy(dst, src, n)] *)
Definition memcpy_ram (dst src n : Z) (k : kernel) : kernel :=
  k <| ram := store (ram k) dst (load (ram k) src n) |>.
Definition portYIELD (k : kernel) : kernel := k <| pend_sv := true |>.
Definition vTaskMissedYield (k : kernel) : kernel := k <| xYieldPending := pdTRUE |>.

(** The first task [t] of an event list is removed from it. *)
Definition xTaskRemoveFromEventList (t : TCB_t) (k : kernel) : Z * kernel :=
  let k := if uxSchedulerSuspended k =? pdFALSE
           then k <| ready := ready k ++ [t] |>
           else k <| xPendingReadyList := xPendingReadyList k ++ [t] |> in
  if uxPriority t >? uxPriority (pxCurrentTCB k)
  then (pdTRUE, k <| xYieldPending := pdTRUE |>)
  else (pdFALSE, k).

(** ** Queues *)
Record Queue_t := mk_queue {
  pcHead : Z;
  pcWriteTo : Z;
  pcTail : Z;
  pcReadFrom : Z;
  xTasksWaitingToSend : list TCB_t;
  xTasksWaitingToReceive : list TCB_t;
  uxMessagesWaiting : Z;
  uxLength : Z;
  uxItemSize : Z;
  cRxLock : Z;
  cTxLock : Z
}.
#[export] Instance eta_queue : Eta Queue_t := fun q =>
  mk_queue (pcHead q) (pcWriteTo q) (pcTail q) (pcReadFrom q) (xTasksWaitingToSend q)
    (xTasksWaitingToReceive q) (uxMessagesWaiting q) (uxLength q) (uxItemSize q) (cRxLock q) (cTxLock q).

(** A task that waits for room, or for an item, is woken; was its priority
    higher than the caller's? *)
Definition wake_sender (q : Queue_t) (k : kernel) : Z * Queue_t * kernel :=
  match xTasksWaitingToSend q with
  | [] => (pdFALSE, q, k)
  | t :: rest =>
      let '(r, k) := xTaskRemoveFromEventList t k in (r, q <| xTasksWaitingToSend := rest |>, k)
  end.
Definition wake_receiver (q : Queue_t) (k : kernel) : Z * Queue_t * kernel :=
  match xTasksWaitingToReceive q with
  | [] => (pdFALSE, q, k)
  | t :: rest =>
      let '(r, k) := xTaskRemoveFromEventList t k in (r, q <| xTasksWaitingToReceive := rest |>, k)
  end.
Definition yield_if (r : Z) (k : kernel) : kernel := if negb (r =? pdFALSE) then portYIELD k else k.

Definition xQueueGenericReset (xNewQueue : Z) (q : Queue_t) (k : kernel) : Z * Queue_t * kernel :=
  let q := q <| pcTail := pcHead q + u32 (uxLength q * uxItemSize q) |>
             <| uxMessagesWaiting := 0 |>
             <| pcWriteTo := pcHead q |>
             <| pcReadFrom := pcHead q + u32 ((uxLength q - 1) * uxItemSize q) |>
             <| cRxLock := queueUNLOCKED |>
             <| cTxLock := queueUNLOCKED |> in
  if xNewQueue =? pdFALSE then
    let '(r, q, k) := wake_sender q k in (pdPASS, q, yield_if r k)
  else (pdPASS, q <| xTasksWaitingToSend := [] |> <| xTasksWaitingToReceive := [] |>, k).

Definition prvInitialiseNewQueue (uxQueueLength uxQueueItemSize pucQueueStorage pxNewQueue : Z)
    (q : Queue_t) (k : kernel) : Queue_t * kernel :=
  let q := if uxQueueItemSize =? 0 then q <| pcHead := pxNewQueue |>
           else q <| pcHead := pucQueueStorage |> in
  let q := q <| uxLength := uxQueueLength |> <| uxItemSize := uxQueueItemSize |> in
  let '(_, q, k) := xQueueGenericReset pdTRUE q k in (q, k).

(** [malloc] is [pvPortMalloc]: the address of a block of that size, whose
    first [sizeof_Queue_t] bytes hold the structure [fresh] with any contents.
    The code asserts that [uxQueueLength] is positive. *)
Definition xQueueGenericCreate (sizeof_Queue_t : Z) (malloc : Z -> option Z) (fresh : Queue_t)
    (uxQueueLength uxQueueItemSize : Z) (k : kernel) : option Queue_t * kernel :=
  let xQueueSizeInBytes := u32 (uxQueueLength * uxQueueItemSize) in
  match malloc (u32 (sizeof_Queue_t + xQueueSizeInBytes)) with
  | None => (None, k)
  | Some pxNewQueue =>
      let pucQueueStorage := pxNewQueue + sizeof_Queue_t in
      let '(q, k) := prvInitialiseNewQueue uxQueueLength uxQueueItemSize pucQueueStorage pxNewQueue fresh k in
      (Some q, k)
  end.

Definition prvIsQueueEmpty (q : Queue_t) : Z := if uxMessagesWaiting q =? 0 then pdTRUE else pdFALSE.
Definition prvIsQueueFull (q : Queue_t) : Z := if uxMessagesWaiting q =? uxLength q then pdTRUE else pdFALSE.
Definition uxQueueMessagesWaiting (q : Queue_t) : Z := uxMessagesWaiting q.
Definition uxQueueSpacesAvailable (q : Queue_t) : Z := u32 (uxLength q - uxMessagesWaiting q).

(** [pcHead] is not NULL: the queue is no mutex. *)
Definition prvCopyDataToQueue (pvItemToQueue xPosition : Z) (q : Queue_t) (k : kernel) : Z * Queue_t * kernel :=
  let waiting := uxMessagesWaiting q in
  if uxItemSize q =? 0 then (pdFALSE, q <| uxMessagesWaiting := u32 (waiting + 1) |>, k)
  else if xPosition =? queueSEND_TO_BACK then
    let k := memcpy_ram (pcWriteTo q) pvItemToQueue (uxItemSize q) k in
    let q := q <| pcWriteTo := pcWriteTo q + uxItemSize q |> in
    let q := if pcWriteTo q >=? pcTail q then q <| pcWriteTo := pcHead q |> else q in
    (pdFALSE, q <| uxMessagesWaiting := u32 (waiting + 1) |>, k)
  else
    let k := memcpy_ram (pcReadFrom q) pvItemToQueue (uxItemSize q) k in
    let q := q <| pcReadFrom := pcReadFrom q - uxItemSize q |> in
    let q := if pcReadFrom q <? pcHead q then q <| pcReadFrom := pcTail q - uxItemSize q |> else q in
    let waiting := if (xPosition =? queueOVERWRITE) && (waiting >? 0) then waiting - 1 else waiting in
    (pdFALSE, q <| uxMessagesWaiting := u32 (waiting + 1) |>, k).

Definition prvCopyDataFromQueue (pvBuffer : Z) (q : Queue_t) (k : kernel) : Queue_t * kernel :=
  if negb (uxItemSize q =? 0) then
    let q := q <| pcReadFrom := pcReadFrom q + uxItemSize q |> in
    let q := if pcReadFrom q >=? pcTail q then q <| pcReadFrom := pcHead q |> else q in
    (q, memcpy_ram pvBuffer (pcReadFrom q) (uxItemSize q) k)
  else (q, k).

(** *** Called from tasks

    A call returns, begins to wait, or stops in [configASSERT]. *)
Inductive call_result := Returns (r : Z) | Waits | Halts.

Definition null_item (p : Z) (q : Queue_t) : bool := (p =? 0) && negb (uxItemSize q =? 0).
Definition may_not_wait (xTicksToWait : Z) (k : kernel) : bool :=
  negb (uxSchedulerSuspended k =? 0) && negb (xTicksToWait =? 0).

Definition xQueueGenericSend (pvItemToQueue xTicksToWait xCopyPosition : Z) (q : Queue_t) (k : kernel) :
    call_result * Queue_t * kernel :=
  if null_item pvItemToQueue q || ((xCopyPosition =? queueOVERWRITE) && negb (uxLength q =? 1)) ||
     may_not_wait xTicksToWait k
  then (Halts, q, k)
  else if (uxMessagesWaiting q <? uxLength q) || (xCopyPosition =? queueOVERWRITE) then
    let '(xYieldRequired, q, k) := prvCopyDataToQueue pvItemToQueue xCopyPosition q k in
    match xTasksWaitingToReceive q with
    | _ :: _ => let '(r, q, k) := wake_receiver q k in (Returns pdPASS, q, yield_if r k)
    | [] => (Returns pdPASS, q, yield_if xYieldRequired k)
    end
  else if xTicksToWait =? 0 then (Returns errQUEUE_FULL, q, k)
  else (Waits, q, k).

Definition xQueueReceive (pvBuffer xTicksToWait : Z) (q : Queue_t) (k : kernel) :
    call_result * Queue_t * kernel :=
  if null_item pvBuffer q || may_not_wait xTicksToWait k then (Halts, q, k)
  else
    let waiting := uxMessagesWaiting q in
    if waiting >? 0 then
      let '(q, k) := prvCopyDataFromQueue pvBuffer q k in
      let q := q <| uxMessagesWaiting := waiting - 1 |> in
      let '(r, q, k) := wake_sender q k in (Returns pdPASS, q, yield_if r k)
    else if xTicksToWait =? 0 then (Returns errQUEUE_EMPTY, q, k)
    else (Waits, q, k).

Definition xQueuePeek (pvBuffer xTicksToWait : Z) (q : Queue_t) (k : kernel) : call_result * Queue_t * kernel :=
  if null_item pvBuffer q || may_not_wait xTicksToWait k then (Halts, q, k)
  else if uxMessagesWaiting q >? 0 then
    let pcOriginalReadPosition := pcReadFrom q in
    let '(q, k) := prvCopyDataFromQueue pvBuffer q k in
    let q := q <| pcReadFrom := pcOriginalReadPosition |> in
    let '(r, q, k) := wake_receiver q k in (Returns pdPASS, q, yield_if r k)
  else if xTicksToWait =? 0 then (Returns errQUEUE_EMPTY, q, k)
  else (Waits, q, k).

(** *** Called from interrupts

    The second result is [*pxHigherPriorityTaskWoken]. *)
Definition xQueueGenericSendFromISR (pvItemToQueue xCopyPosition : Z) (q : Queue_t) (k : kernel) :
    call_result * Z * Queue_t * kernel :=
  if null_item pvItemToQueue q || ((xCopyPosition =? queueOVERWRITE) && negb (uxLength q =? 1))
  then (Halts, pdFALSE, q, k)
  else if (uxMessagesWaiting q <? uxLength q) || (xCopyPosition =? queueOVERWRITE) then
    let lock := cTxLock q in
    let '(_, q, k) := prvCopyDataToQueue pvItemToQueue xCopyPosition q k in
    if lock =? queueUNLOCKED
    then let '(r, q, k) := wake_receiver q k in (Returns pdPASS, r, q, k)
    else (Returns pdPASS, pdFALSE, q <| cTxLock := i8 (lock + 1) |>, k)
  else (Returns errQUEUE_FULL, pdFALSE, q, k).

Definition xQueueReceiveFromISR (pvBuffer : Z) (q : Queue_t) (k : kernel) : call_result * Z * Queue_t * kernel :=
  if null_item pvBuffer q then (Halts, pdFALSE, q, k)
  else
    let waiting := uxMessagesWaiting q in
    if waiting >? 0 then
      let lock := cRxLock q in
      let '(q, k) := prvCopyDataFromQueue pvBuffer q k in
      let q := q <| uxMessagesWaiting := waiting - 1 |> in
      if lock =? queueUNLOCKED
      then let '(r, q, k) := wake_sender q k in (Returns pdPASS, r, q, k)
      else (Returns pdPASS, pdFALSE, q <| cRxLock := i8 (lock + 1) |>, k)
    else (Returns pdFAIL, pdFALSE, q, k).

Definition xQueuePeekFromISR (pvBuffer : Z) (q : Queue_t) (k : kernel) : call_result * Queue_t * kernel :=
  if null_item pvBuffer q || (uxItemSize q =? 0) then (Halts, q, k)
  else if uxMessagesWaiting q >? 0 then
    let pcOriginalReadPosition := pcReadFrom q in
    let '(q, k) := prvCopyDataFromQueue pvBuffer q k in
    (Returns pdPASS, q <| pcReadFrom := pcOriginalReadPosition |>, k)
  else (Returns pdFAIL, q, k).

(** *** While a task is about to wait, or to stop waiting *)
Definition prvLockQueue (q : Queue_t) : Queue_t :=
  let q := if cRxLock q =? queueUNLOCKED then q <| cRxLock := queueLOCKED_UNMODIFIED |> else q in
  if cTxLock q =? queueUNLOCKED then q <| cTxLock := queueLOCKED_UNMODIFIED |> else q.

(** One task is woken for each item, as long as tasks wait. *)
Fixpoint unlock_wake (n : nat) (waiters : list TCB_t) (k : kernel) : list TCB_t * kernel :=
  match n, waiters with
  | S n, t :: rest =>
      let '(r, k) := xTaskRemoveFromEventList t k in
      unlock_wake n rest (if negb (r =? pdFALSE) then vTaskMissedYield k else k)
  | _, _ => (waiters, k)
  end.

Definition prvUnlockQueue (q : Queue_t) (k : kernel) : Queue_t * kernel :=
  let '(receivers, k) := unlock_wake (Z.to_nat (cTxLock q - queueLOCKED_UNMODIFIED)) (xTasksWaitingToReceive q) k in
  let q := q <| xTasksWaitingToReceive := receivers |> <| cTxLock := queueUNLOCKED |> in
  let '(senders, k) := unlock_wake (Z.to_nat (cRxLock q - queueLOCKED_UNMODIFIED)) (xTasksWaitingToSend q) k in
  (q <| xTasksWaitingToSend := senders |> <| cRxLock := queueUNLOCKED |>, k).

(** ** Runs

    What happens to a queue: calls from tasks that do not wait and from
    interrupts; locking and unlocking; writes of the program to its own RAM;
    and the scheduler, which may change the running task, suspend itself and
    put tasks on the event lists. *)
Inductive queue_op :=
  | Send (isr : bool) (src xCopyPosition : Z)
  | Receive (isr : bool) (dst : Z)
  | Peek (isr : bool) (dst : Z)
  | Count
  | Space
  | Lock
  | Unlock
  | Write (a : Z) (bs : list Z)
  | Schedule (current : TCB_t) (suspended : Z) (senders receivers : list TCB_t).

Definition queue_do (op : queue_op) (q : Queue_t) (k : kernel) : call_result * Queue_t * kernel :=
  match op with
  | Send false src pos => xQueueGenericSend src 0 pos q k
  | Send true src pos => let '(r, _, q, k) := xQueueGenericSendFromISR src pos q k in (r, q, k)
  | Receive false dst => xQueueReceive dst 0 q k
  | Receive true dst => let '(r, _, q, k) := xQueueReceiveFromISR dst q k in (r, q, k)
  | Peek false dst => xQueuePeek dst 0 q k
  | Peek true dst => xQueuePeekFromISR dst q k
  | Count => (Returns (uxQueueMessagesWaiting q), q, k)
  | Space => (Returns (uxQueueSpacesAvailable q), q, k)
  | Lock => (Returns 0, prvLockQueue q, k)
  | Unlock => let '(q, k) := prvUnlockQueue q k in (Returns 0, q, k)
  | Write a bs => (Returns 0, q, k <| ram := store (ram k) a bs |>)
  | Schedule t s snd rcv =>
      (Returns 0, q <| xTasksWaitingToSend := snd |> <| xTasksWaitingToReceive := rcv |>,
       k <| pxCurrentTCB := t |> <| uxSchedulerSuspended := s |>)
  end.

Fixpoint queue_run (ops : list queue_op) (q : Queue_t) (k : kernel) : list call_result * Queue_t * kernel :=
  match ops with
  | [] => ([], q, k)
  | op :: ops =>
      let '(r, q, k) := queue_do op q k in
      let '(rs, q, k) := queue_run ops q k in (r :: rs, q, k)
  end.

(** ** RAM lemmas *)
Lemma length_load m a n : length (load m a n) = Z.to_nat n.
Proof. unfold load. by rewrite length_map, length_seq. Qed.

Lemma load_ext m m' a n :
  (forall x, a <= x < a + n -> m' x = m x) -> load m' a n = load m a n.
Proof. intros H. apply map_ext_in. intros i Hi%in_seq. apply H. lia. Qed.

Lemma store_out m a bs x : ~ a <= x < a + Z.of_nat (length bs) -> store m a bs x = m x.
Proof. intros H. unfold store. by replace (_ && _) with false by lia. Qed.

Lemma load_store m a bs : load (store m a bs) a (Z.of_nat (length bs)) = bs.
Proof.
  apply list_eq. intros i. unfold load. rewrite list_lookup_fmap, Nat2Z.id.
  destruct (decide (i < length bs)%nat) as [Hi|Hi].
  - rewrite lookup_seq_lt by done. cbn [fmap option_fmap option_map]. unfold store.
    replace (_ && _) with true by lia. unfold arr_get.
    replace (Z.to_nat _) with i by lia. destruct (bs !! i) eqn:E; [done|].
    apply lookup_ge_None in E. lia.
  - rewrite lookup_seq_ge by lia. by rewrite lookup_ge_None_2 by lia.
Qed.

Lemma load_copied k dst src n a :
  0 <= n -> a = dst -> load (ram (memcpy_ram dst src n k)) a n = load (ram k) src n.
Proof.
  intros Hn ->. cbn. set (bs := load (ram k) src n).
  replace n with (Z.of_nat (length bs)) at 1 by (unfold bs; rewrite length_load; lia). apply load_store.
Qed.

Lemma copied_out k dst src n x : 0 <= n -> ~ dst <= x < dst + n -> ram (memcpy_ram dst src n k) x = ram k x.
Proof. intros Hn Hx. cbn. apply store_out. rewrite length_load. lia. Qed.

(** ** The ring of slots *)
Section Ring.
Implicit Types (q : Queue_t) (k : kernel) (l : list (list Z)).

(** The slots are numbered without end; [slot q i] is the address of the [i]th. *)
Definition slot q (i : Z) : Z := pcHead q + i mod uxLength q * uxItemSize q.
Definition block_size q : Z := uxLength q * uxItemSize q.

Record wf_queue q : Prop := {
  wq_length : 0 < uxLength q;
  wq_size : 0 < uxItemSize q;
  wq_fits : block_size q < 4294967296;
  wq_tail : pcTail q = pcHead q + block_size q
}.

(** The queue holds the items [l], first to last. *)
Record holds l q k : Prop := {
  h_wf : wf_queue q;
  h_waiting : uxMessagesWaiting q = Z.of_nat (length l);
  h_room : Z.of_nat (length l) <= uxLength q;
  h_ring : exists R, pcReadFrom q = slot q (R - 1) /\ pcWriteTo q = slot q (R + Z.of_nat (length l)) /\
    forall i x, l !! i = Some x -> load (ram k) (slot q (R + Z.of_nat i)) (uxItemSize q) = x
}.

Lemma slot_next q i p :
  wf_queue q -> p = slot q i ->
  (if p + uxItemSize q >=? pcTail q then pcHead q else p + uxItemSize q) = slot q (i + 1).
Proof.
  intros [HL HS _ ->] ->. unfold slot, block_size. pose proof (Z.mod_pos_bound i (uxLength q) HL) as Hi.
  rewrite Z.geb_leb, <- Zplus_mod_idemp_l. set (j := i mod uxLength q) in *. clearbody j.
  destruct (Z.eq_dec (j + 1) (uxLength q)) as [E|E].
  - rewrite E, Z_mod_same_full. rewrite (proj2 (Z.leb_le _ _)); nia.
  - rewrite Z.mod_small by lia. rewrite (proj2 (Z.leb_gt _ _)); nia.
Qed.

Lemma slot_prev q i p :
  wf_queue q -> p = slot q i ->
  (if p - uxItemSize q <? pcHead q then pcTail q - uxItemSize q else p - uxItemSize q) = slot q (i - 1).
Proof.
  intros [HL HS _ ->] ->. unfold slot, block_size. pose proof (Z.mod_pos_bound i (uxLength q) HL) as Hi.
  rewrite <- Zminus_mod_idemp_l. set (j := i mod uxLength q) in *. clearbody j.
  destruct (Z.eq_dec j 0) as [->|E].
  - replace ((0 - 1) mod uxLength q) with (uxLength q - 1)
      by (apply (Z.mod_unique _ _ (-1)); lia).
    rewrite (proj2 (Z.ltb_lt _ _)); nia.
  - rewrite Z.mod_small by lia. rewrite (proj2 (Z.ltb_ge _ _)); nia.
Qed.

Lemma slot_block q i :
  wf_queue q -> pcHead q <= slot q i /\ slot q i + uxItemSize q <= pcHead q + block_size q.
Proof.
  intros [HL HS _ _]. unfold slot, block_size. pose proof (Z.mod_pos_bound i (uxLength q) HL). nia.
Qed.

Lemma slots_apart q i j x :
  wf_queue q -> 0 < i - j < uxLength q ->
  slot q i <= x < slot q i + uxItemSize q -> ~ slot q j <= x < slot q j + uxItemSize q.
Proof.
  intros [HL HS _ _] Hij. unfold slot.
  assert (i mod uxLength q <> j mod uxLength q) as Hne.
  { intros E. rewrite (Z.div_mod i (uxLength q)), (Z.div_mod j (uxLength q)), E in Hij by lia.
    set (a := i / uxLength q) in *. set (b := j / uxLength q) in *. clearbody a b.
    assert (a - b <= 0 \/ 1 <= a - b) as [|] by lia; nia. }
  set (a := i mod uxLength q) in *. set (b := j mod uxLength q) in *. clearbody a b.
  assert (a <= b - 1 \/ b <= a - 1) as [|] by lia; nia.
Qed.

Lemma slot_same q i n : slot q (i + n * uxLength q) = slot q i.
Proof. unfold slot. by rewrite Z_mod_plus_full. Qed.
End Ring.

(** ** The specification: a bounded FIFO

    [memory] is the RAM outside the queue's block. *)
Record fifo := mk_fifo { contents : list (list Z); memory : Z -> Z }.

Section Spec.
Context (head len size : Z).

Definition insert_item (xCopyPosition : Z) (item : list Z) (l : list (list Z)) : list (list Z) :=
  if xCopyPosition =? queueSEND_TO_BACK then l ++ [item]
  else if xCopyPosition =? queueOVERWRITE then [item] else item :: l.
Definition fifo_send (src xCopyPosition : Z) (f : fifo) : Z * fifo :=
  if (Z.of_nat (length (contents f)) <? len) || (xCopyPosition =? queueOVERWRITE)
  then (pdPASS, mk_fifo (insert_item xCopyPosition (load (memory f) src size) (contents f)) (memory f))
  else (errQUEUE_FULL, f).
Definition fifo_receive (dst : Z) (f : fifo) : Z * fifo :=
  match contents f with
  | [] => (errQUEUE_EMPTY, f)
  | x :: l => (pdPASS, mk_fifo l (store (memory f) dst x))
  end.
Definition fifo_peek (dst : Z) (f : fifo) : Z * fifo :=
  match contents f with
  | [] => (errQUEUE_EMPTY, f)
  | x :: l => (pdPASS, mk_fifo (x :: l) (store (memory f) dst x))
  end.

Definition fifo_do (op : queue_op) (f : fifo) : Z * fifo :=
  match op with
  | Send _ src pos => fifo_send src pos f
  | Receive _ dst => fifo_receive dst f
  | Peek _ dst => fifo_peek dst f
  | Count => (Z.of_nat (length (contents f)), f)
  | Space => (len - Z.of_nat (length (contents f)), f)
  | Write a bs => (0, mk_fifo (contents f) (store (memory f) a bs))
  | Lock | Unlock | Schedule _ _ _ _ => (0, f)
  end.

Fixpoint fifo_run (ops : list queue_op) (f : fifo) : list Z * fifo :=
  match ops with
  | [] => ([], f)
  | op :: ops =>
      let '(r, f) := fifo_do op f in
      let '(rs, f) := fifo_run ops f in (r :: rs, f)
  end.

(** ** The implementation agrees with it *)
Definition in_block (x : Z) : Prop := head <= x < head + len * size.
(** A buffer of one item that is not NULL and not in the block. *)
Definition buffer (p : Z) : Prop := p <> 0 /\ forall x, p <= x < p + size -> ~ in_block x.

Record agrees (f : fifo) (q : Queue_t) (k : kernel) : Prop := {
  ag_holds : holds (contents f) q k;
  ag_head : pcHead q = head;
  ag_length : uxLength q = len;
  ag_size : uxItemSize q = size;
  ag_items : Forall (fun x => length x = Z.to_nat size) (contents f);
  ag_ram x : ~ in_block x -> ram k x = memory f x
}.

Definition ring_of (q : Queue_t) : Z * Z * Z * Z * Z * Z * Z :=
  (pcHead q, pcWriteTo q, pcTail q, pcReadFrom q, uxMessagesWaiting q, uxLength q, uxItemSize q).

Lemma agrees_ext f q k q' k' :
  ring_of q' = ring_of q -> ram k' = ram k -> agrees f q k -> agrees f q' k'.
Proof.
  destruct q, q'. unfold ring_of. cbn. intros [= -> -> -> -> -> -> ->] Er [[[] ? ? (R & Hr)] ? ? ? ? ?].
  split; try done; [|by rewrite Er]. split; try done. exists R. rewrite Er. exact Hr.
Qed.

Lemma source_agrees f q k src :
  agrees f q k -> buffer src -> load (ram k) src (uxItemSize q) = load (memory f) src size.
Proof.
  intros A [_ Hb]. rewrite (ag_size _ _ _ A). apply load_ext. intros x Hx. by apply (ag_ram _ _ _ A), Hb.
Qed.

(** What is written to a slot, and where. *)
Lemma slot_in_block f q k i x :
  agrees f q k -> slot q i <= x < slot q i + uxItemSize q -> in_block x.
Proof.
  intros A Hx. pose proof (slot_block q i (h_wf _ _ _ (ag_holds _ _ _ A))) as H.
  unfold block_size in H. rewrite (ag_head _ _ _ A), (ag_length _ _ _ A), (ag_size _ _ _ A) in *.
  unfold in_block. lia.
Qed.

Lemma copy_ram f q k dst src x i :
  agrees f q k -> dst = slot q i -> ~ in_block x ->
  ram (memcpy_ram dst src (uxItemSize q) k) x = memory f x.
Proof.
  intros A -> Hx. pose proof (h_wf _ _ _ (ag_holds _ _ _ A)) as [_ Hs _ _].
  rewrite copied_out; [by apply A|lia|]. intros H. apply Hx. by eapply slot_in_block.
Qed.

(** An item copied to the slot [j] leaves the slots before it within a round. *)
Lemma copy_kept q k src i j :
  wf_queue q -> 0 < i - j < uxLength q \/ 0 < j - i < uxLength q ->
  load (ram (memcpy_ram (slot q j) src (uxItemSize q) k)) (slot q i) (uxItemSize q) =
  load (ram k) (slot q i) (uxItemSize q).
Proof.
  intros W H. apply load_ext. intros x Hx. apply copied_out; [destruct W; lia|].
  destruct H as [H|H]; [by eapply slots_apart|]. intros Hx'. by eapply slots_apart.
Qed.

Lemma agrees_next f q k f' q' k' R :
  agrees f q k ->
  let n := Z.of_nat (length (contents f')) in
  ring_of q' = (pcHead q, slot q (R + n), pcTail q, slot q (R - 1), n, uxLength q, uxItemSize q) ->
  n <= len -> Forall (fun x => length x = Z.to_nat size) (contents f') ->
  (forall i x, contents f' !! i = Some x -> load (ram k') (slot q (R + Z.of_nat i)) (uxItemSize q) = x) ->
  (forall x, ~ in_block x -> ram k' x = memory f' x) -> agrees f' q' k'.
Proof.
  intros [[[] ? ? _] ? ? ? ? ?]. cbv zeta. destruct q, q'. unfold ring_of. cbn.
  intros [= -> -> -> -> -> -> ->] Hn Hf Hi Hm. cbn in *. subst.
  split; try done. split; cbn; try done. exists R. split; [done|]. split; [done|]. exact Hi.
Qed.

Lemma length_bound f q k : agrees f q k -> len < 4294967296.
Proof.
  intros [[[HL HS HF _] _ _ _] _ <- <- _ _]. unfold block_size in HF. nia.
Qed.

Lemma item_length a m : length (load m a size) = Z.to_nat size.
Proof. apply length_load. Qed.

Lemma copy_to_back f q k src :
  agrees f q k -> buffer src -> Z.of_nat (length (contents f)) < len ->
  let '(r, q', k') := prvCopyDataToQueue src queueSEND_TO_BACK q k in
  r = pdFALSE /\
  agrees (mk_fifo (contents f ++ [load (memory f) src size]) (memory f)) q' k'.
Proof.
  intros A Hb Hl. pose proof (length_bound _ _ _ A) as HB.
  pose proof (ag_holds _ _ _ A) as [W Hw Hr (R & Hrf & Hwt & Hi)].
  pose proof W as [HL HS HF HT]. unfold prvCopyDataToQueue. rewrite (proj2 (Z.eqb_neq _ 0)) by lia.
  change (queueSEND_TO_BACK =? queueSEND_TO_BACK) with true. cbv iota zeta.
  split; [done|]. apply (agrees_next f q k _ _ _ R); cbn [contents memory].
  - done.
  - rewrite length_app. cbn [length]. rewrite Nat2Z.inj_add, Z.add_assoc. change (Z.of_nat 1) with 1.
    rewrite <- (slot_next _ _ _ W Hwt).
    unfold ring_of. cbn [set_field pcWriteTo pcTail pcHead]. destruct (_ >=? _); cbn; rewrite Hw, Hrf, u32_small; done || width.
  - rewrite length_app. cbn [length]. lia.
  - apply Forall_app. split; [apply A|]. apply Forall_singleton, item_length.
  - intros i x Hx. rewrite Hwt. destruct (decide (i < length (contents f))%nat) as [Hlt|Hge].
    + rewrite lookup_app_l in Hx by done. rewrite copy_kept; [by apply Hi|done|]. rewrite (ag_length _ _ _ A). lia.
    + rewrite lookup_app_r in Hx by lia. destruct (i - length (contents f))%nat eqn:E; [|done]. injection Hx as <-.
      replace i with (length (contents f)) by lia. rewrite load_copied by (lia || done). by eapply source_agrees.
  - intros x Hx. by eapply copy_ram.
Qed.

Lemma copy_to_front f q k src :
  agrees f q k -> buffer src -> Z.of_nat (length (contents f)) < len ->
  let '(r, q', k') := prvCopyDataToQueue src queueSEND_TO_FRONT q k in
  r = pdFALSE /\
  agrees (mk_fifo (load (memory f) src size :: contents f) (memory f)) q' k'.
Proof.
  intros A Hb Hl. pose proof (length_bound _ _ _ A) as HB.
  pose proof (ag_holds _ _ _ A) as [W Hw Hr (R & Hrf & Hwt & Hi)].
  pose proof W as [HL HS HF HT]. unfold prvCopyDataToQueue. rewrite (proj2 (Z.eqb_neq _ 0)) by lia.
  change (queueSEND_TO_FRONT =? queueSEND_TO_BACK) with false. cbv iota zeta.
  split; [done|]. apply (agrees_next f q k _ _ _ (R - 1)); cbn [contents memory].
  - done.
  - cbn [length]. rewrite Nat2Z.inj_succ. replace (R - 1 + Z.succ _) with (R + Z.of_nat (length (contents f))) by lia.
    rewrite <- (slot_prev _ _ _ W Hrf).
    unfold ring_of. cbn [set_field pcReadFrom pcTail pcHead]. destruct (_ <? pcHead q); cbn; rewrite Hw, Hwt, u32_small; done || width.
  - cbn [length]. lia.
  - constructor; [apply item_length|apply A].
  - intros [|i] x Hx; rewrite Hrf.
    + injection Hx as <-. rewrite load_copied by (lia || (f_equal; lia)). by eapply source_agrees.
    + replace (R - 1 + Z.of_nat (S i)) with (R + Z.of_nat i) by lia. apply lookup_lt_Some in Hx as Hlt.
      cbn [length] in Hlt. rewrite copy_kept; [by apply Hi|done|]. rewrite (ag_length _ _ _ A). lia.
  - intros x Hx. by eapply copy_ram.
Qed.

Lemma copy_over f q k src :
  agrees f q k -> buffer src -> len = 1 ->
  let '(r, q', k') := prvCopyDataToQueue src queueOVERWRITE q k in
  r = pdFALSE /\ agrees (mk_fifo [load (memory f) src size] (memory f)) q' k'.
Proof.
  intros A Hb Hl. pose proof (length_bound _ _ _ A) as HB.
  pose proof (ag_holds _ _ _ A) as [W Hw Hr (R & Hrf & Hwt & Hi)].
  pose proof W as [HL HS HF HT]. unfold prvCopyDataToQueue. rewrite (proj2 (Z.eqb_neq _ 0)) by lia.
  change (queueOVERWRITE =? queueSEND_TO_BACK) with false. change (queueOVERWRITE =? queueOVERWRITE) with true.
  cbv iota zeta. cbn [andb]. rewrite (ag_length _ _ _ A), Hl in Hr.
  assert (forall i j, slot q i = slot q j) as Hone.
  { intros i j. unfold slot. rewrite (ag_length _ _ _ A), Hl, !Z.mod_1_r. done. }
  split; [done|]. apply (agrees_next f q k _ _ _ R); cbn [contents memory length].
  - done.
  - rewrite (Hone (R - 1) (R - 1 - 1)), (Hone (R + _) (R + Z.of_nat (length (contents f)))), <- (slot_prev _ _ _ W Hrf).
    unfold ring_of. cbn [set_field pcReadFrom pcTail pcHead].
    assert (u32 ((if uxMessagesWaiting q >? 0 then uxMessagesWaiting q - 1 else uxMessagesWaiting q) + 1) = 1) as E.
    { rewrite Hw, Z.gtb_ltb. destruct (Z.ltb_spec 0 (Z.of_nat (length (contents f)))); width. }
    destruct (_ <? pcHead q); cbn; by rewrite Hwt, E.
  - lia.
  - apply Forall_singleton, item_length.
  - intros [|i] x Hx; [|done]. rewrite Hrf. injection Hx as <-.
    rewrite load_copied by (lia || done || apply Hone). by eapply source_agrees.
  - intros x Hx. by eapply copy_ram.
Qed.

(** A position for which there is room: any with room, or an overwrite. *)
Definition position_ok (xCopyPosition : Z) : Prop :=
  xCopyPosition = queueSEND_TO_BACK \/ xCopyPosition = queueSEND_TO_FRONT \/
  xCopyPosition = queueOVERWRITE /\ len = 1.

Lemma copy_to f q k src pos :
  agrees f q k -> buffer src -> position_ok pos ->
  (Z.of_nat (length (contents f)) <? len) || (pos =? queueOVERWRITE) = true ->
  let '(r, q', k') := prvCopyDataToQueue src pos q k in
  r = pdFALSE /\
  agrees (mk_fifo (insert_item pos (load (memory f) src size) (contents f)) (memory f)) q' k'.
Proof.
  intros A Hb [->|[->|[-> Hl]]] H.
  - apply copy_to_back; [done|done|]. rewrite orb_false_r in H. lia.
  - apply copy_to_front; [done|done|]. rewrite orb_false_r in H. lia.
  - by apply copy_over.
Qed.

Lemma store_agrees f q k dst bs x :
  agrees f q k -> ~ in_block x -> store (ram k) dst bs x = store (memory f) dst bs x.
Proof. intros A Hx. unfold store. destruct (_ && _); [done|by apply A]. Qed.

Lemma copy_from f q k dst x l :
  agrees f q k -> buffer dst -> contents f = x :: l ->
  let '(q', k') := prvCopyDataFromQueue dst q k in
  let m := store (memory f) dst x in
  agrees (mk_fifo l m) (q' <| uxMessagesWaiting := uxMessagesWaiting q - 1 |>) k' /\
  agrees (mk_fifo (x :: l) m) (q' <| pcReadFrom := pcReadFrom q |>) k'.
Proof.
  intros A [_ Hb] Hc. pose proof (ag_holds _ _ _ A) as [W Hw Hr (R & Hrf & Hwt & Hi)].
  pose proof W as [HL HS HF HT]. unfold prvCopyDataFromQueue. rewrite (proj2 (Z.eqb_neq _ 0)) by lia.
  cbn [negb]. cbv iota zeta. pose proof (slot_next _ _ _ W Hrf) as Hn. rewrite Z.sub_add in Hn.
  set (q1 := if _ >=? _ then _ else _). set (src := pcReadFrom q1).
  assert (src = slot q R /\ ring_of q1 = (pcHead q, pcWriteTo q, pcTail q, src, uxMessagesWaiting q, uxLength q, uxItemSize q))
    as [Hsrc Hq1].
  { unfold src, q1. cbn [set_field pcReadFrom pcTail pcHead].
    destruct (_ >=? _); cbn in Hn |- *; by rewrite Hn. }
  assert (load (ram k) src (uxItemSize q) = x) as Hx.
  { rewrite Hsrc, <- (Z.add_0_r R). apply (Hi 0%nat x). by rewrite Hc. }
  assert (uxItemSize q1 = uxItemSize q) as Hsz by (unfold ring_of in Hq1; congruence).
  clearbody q1. rewrite Hsz. set (k1 := memcpy_ram _ _ _ k).
  assert (ram k1 = store (ram k) dst x) as Hk1 by (unfold k1; cbn; by rewrite Hx).
  assert (Z.of_nat (length x) = size) as Hlx.
  { pose proof (ag_items _ _ _ A) as H. rewrite Hc in H. apply Forall_inv in H. rewrite H, <- (ag_size _ _ _ A). lia. }
  assert (forall i y, contents f !! i = Some y -> load (ram k1) (slot q (R + Z.of_nat i)) (uxItemSize q) = y) as Hkept.
  { intros i y Hy. rewrite <- (Hi i y Hy), Hk1. apply load_ext. intros z Hz. apply store_out. rewrite Hlx.
    intros Hd. apply (Hb z Hd). by eapply slot_in_block. }
  pose proof (ag_items _ _ _ A) as Hf. rewrite Hc in Hf, Hr, Hw, Hwt. cbn [length] in Hr, Hw, Hwt. split.
  - apply (agrees_next f q k _ _ _ (R + 1)); cbn [contents memory].
    + done.
    + unfold ring_of in *. cbn [set_field pcHead pcWriteTo pcTail pcReadFrom uxMessagesWaiting uxLength uxItemSize].
      injection Hq1 as E1 E2 E3 _ E6 _. rewrite E1, E2, E3, E6, Hsz; fold src; rewrite Hsrc, Hwt, Hw, Z.add_simpl_r.
      replace (R + 1 + _) with (R + Z.of_nat (S (length l))) by lia. by replace (_ - 1) with (Z.of_nat (length l)) by lia.
    + rewrite (ag_length _ _ _ A) in Hr. lia.
    + by apply Forall_inv_tail in Hf.
    + intros i y Hy. rewrite <- (Hkept (S i) y) by (by rewrite Hc). do 2 f_equal. lia.
    + intros y Hy. rewrite Hk1. by eapply store_agrees.
  - apply (agrees_next f q k _ _ _ R); cbn [contents memory length].
    + done.
    + unfold ring_of in *. cbn [set_field pcHead pcWriteTo pcTail pcReadFrom uxMessagesWaiting uxLength uxItemSize].
      injection Hq1 as E1 E2 E3 E5 E6 _. by rewrite E1, E2, E3, E5, E6, Hsz, Hrf, Hwt, Hw.
    + rewrite (ag_length _ _ _ A) in Hr. lia.
    + done.
    + intros i y Hy. rewrite <- Hc in Hy. by apply Hkept.
    + intros y Hy. rewrite Hk1. by eapply store_agrees.
Qed.

(** ** Each call is the one of the specification *)
Definition op_ok (op : queue_op) : Prop :=
  match op with
  | Send _ src pos => buffer src /\ position_ok pos
  | Receive _ dst | Peek _ dst => buffer dst
  | Write a bs => forall x, a <= x < a + Z.of_nat (length bs) -> ~ in_block x
  | _ => True
  end.

Lemma remove_ram t k : ram (xTaskRemoveFromEventList t k).2 = ram k.
Proof. unfold xTaskRemoveFromEventList. destruct (_ =? _); cbv zeta; by destruct (_ >? _). Qed.

Lemma wake_sender_agrees f q k :
  agrees f q k -> let '(r, q', k') := wake_sender q k in agrees f q' k'.
Proof.
  unfold wake_sender. destruct (xTasksWaitingToSend q) as [|t l]; [done|].
  pose proof (remove_ram t k) as H. destruct (xTaskRemoveFromEventList t k) as [r k']. by apply agrees_ext.
Qed.
Lemma wake_receiver_agrees f q k :
  agrees f q k -> let '(r, q', k') := wake_receiver q k in agrees f q' k'.
Proof.
  unfold wake_receiver. destruct (xTasksWaitingToReceive q) as [|t l]; [done|].
  pose proof (remove_ram t k) as H. destruct (xTaskRemoveFromEventList t k) as [r k']. by apply agrees_ext.
Qed.
Lemma yield_agrees r f q k : agrees f q k -> agrees f q (yield_if r k).
Proof. apply agrees_ext; [done|]. unfold yield_if. by destruct (negb _). Qed.

Lemma unlock_ram n l k : ram (unlock_wake n l k).2 = ram k.
Proof.
  revert l k. induction n as [|n IH]; intros [|t l] k; try done. cbn [unlock_wake].
  pose proof (remove_ram t k) as H. destruct (xTaskRemoveFromEventList t k) as [r k']. rewrite IH.
  by destruct (negb _).
Qed.

Lemma buffer_item p q : buffer p -> null_item p q = false.
Proof. intros [H _]. unfold null_item. by rewrite (proj2 (Z.eqb_neq _ _)). Qed.

Definition agrees_after (s : Z * fifo) (x : call_result * Queue_t * kernel) : Prop :=
  let '(r, q, k) := x in r = Returns s.1 /\ agrees s.2 q k.

Lemma overwrite_ok f q k pos :
  agrees f q k -> position_ok pos -> (pos =? queueOVERWRITE) && negb (uxLength q =? 1) = false.
Proof.
  intros A [->|[->|[-> H]]]; try done. rewrite (ag_length _ _ _ A), H. done.
Qed.

Lemma room_same f q k : agrees f q k -> (uxMessagesWaiting q <? uxLength q) = (Z.of_nat (length (contents f)) <? len).
Proof. intros A. by rewrite (h_waiting _ _ _ (ag_holds _ _ _ A)), (ag_length _ _ _ A). Qed.

Lemma task_send_ok f q k src pos :
  agrees f q k -> buffer src -> position_ok pos ->
  agrees_after (fifo_send src pos f) (xQueueGenericSend src 0 pos q k).
Proof.
  intros A Hb Hp. unfold xQueueGenericSend, fifo_send, may_not_wait.
  rewrite buffer_item, (overwrite_ok f q k pos A Hp), andb_false_r, (room_same f q k A) by done. cbn [orb].
  pose proof (copy_to f q k src pos A Hb Hp) as H. destruct (_ || _); [|by split].
  specialize (H eq_refl). destruct (prvCopyDataToQueue _ _ _ _) as [[r q1] k1]. destruct H as [-> H].
  destruct (xTasksWaitingToReceive q1); [split; [done|by apply yield_agrees]|].
  apply wake_receiver_agrees in H. destruct (wake_receiver q1 k1) as [[r q2] k2].
  split; [done|by apply yield_agrees].
Qed.

Lemma isr_send_ok f q k src pos :
  agrees f q k -> buffer src -> position_ok pos ->
  agrees_after (fifo_send src pos f) (let '(r, _, q, k) := xQueueGenericSendFromISR src pos q k in (r, q, k)).
Proof.
  intros A Hb Hp. unfold xQueueGenericSendFromISR, fifo_send.
  rewrite buffer_item, (overwrite_ok f q k pos A Hp), (room_same f q k A) by done. cbn [orb].
  pose proof (copy_to f q k src pos A Hb Hp) as H. destruct (_ || _); [|by split].
  specialize (H eq_refl). destruct (prvCopyDataToQueue _ _ _ _) as [[r q1] k1]. destruct H as [_ H].
  destruct (_ =? queueUNLOCKED); [|split; [done|by revert H; apply agrees_ext]].
  apply wake_receiver_agrees in H. destruct (wake_receiver q1 k1) as [[r' q2] k2]. by split.
Qed.

(** Both kinds of reading, from an empty queue and from one that is not. *)
Lemma waiting_sign f q k :
  agrees f q k -> (uxMessagesWaiting q >? 0) = match contents f with [] => false | _ => true end.
Proof.
  intros A. rewrite (h_waiting _ _ _ (ag_holds _ _ _ A)). by destruct (contents f).
Qed.

Lemma task_receive_ok f q k dst :
  agrees f q k -> buffer dst -> agrees_after (fifo_receive dst f) (xQueueReceive dst 0 q k).
Proof.
  intros A Hb. unfold xQueueReceive, fifo_receive, may_not_wait.
  rewrite buffer_item, andb_false_r, (waiting_sign f q k A) by done. cbn [orb]. cbv zeta.
  pose proof (copy_from f q k dst) as H. destruct (contents f) as [|x l]; [by split|].
  specialize (H x l A Hb eq_refl). destruct (prvCopyDataFromQueue dst q k) as [q1 k1]. destruct H as [H _].
  apply wake_sender_agrees in H. destruct (wake_sender _ k1) as [[r q2] k2]. split; [done|by apply yield_agrees].
Qed.

Lemma isr_receive_ok f q k dst :
  agrees f q k -> buffer dst ->
  agrees_after (fifo_receive dst f) (let '(r, _, q, k) := xQueueReceiveFromISR dst q k in (r, q, k)).
Proof.
  intros A Hb. unfold xQueueReceiveFromISR, fifo_receive.
  rewrite buffer_item, (waiting_sign f q k A) by done. cbn [orb]. cbv zeta.
  pose proof (copy_from f q k dst) as H. destruct (contents f) as [|x l]; [by split|].
  specialize (H x l A Hb eq_refl). destruct (prvCopyDataFromQueue dst q k) as [q1 k1]. destruct H as [H _].
  destruct (_ =? queueUNLOCKED); [|split; [done|by revert H; apply agrees_ext]].
  apply wake_sender_agrees in H. destruct (wake_sender _ k1) as [[r q2] k2]. by split.
Qed.

Lemma task_peek_ok f q k dst :
  agrees f q k -> buffer dst -> agrees_after (fifo_peek dst f) (xQueuePeek dst 0 q k).
Proof.
  intros A Hb. unfold xQueuePeek, fifo_peek, may_not_wait.
  rewrite buffer_item, andb_false_r, (waiting_sign f q k A) by done. cbn [orb]. cbv zeta.
  pose proof (copy_from f q k dst) as H. destruct (contents f) as [|x l]; [by split|].
  specialize (H x l A Hb eq_refl). destruct (prvCopyDataFromQueue dst q k) as [q1 k1]. destruct H as [_ H].
  apply wake_receiver_agrees in H. destruct (wake_receiver _ k1) as [[r q2] k2]. split; [done|by apply yield_agrees].
Qed.

Lemma isr_peek_ok f q k dst :
  agrees f q k -> buffer dst -> agrees_after (fifo_peek dst f) (xQueuePeekFromISR dst q k).
Proof.
  intros A Hb. unfold xQueuePeekFromISR, fifo_peek.
  rewrite buffer_item, (waiting_sign f q k A), (proj2 (Z.eqb_neq _ _)) by (done || destruct A as [[[]] ? ? ? ? ?]; lia).
  cbn [orb]. cbv zeta.
  pose proof (copy_from f q k dst) as H. destruct (contents f) as [|x l]; [by split|].
  specialize (H x l A Hb eq_refl). destruct (prvCopyDataFromQueue dst q k) as [q1 k1]. by destruct H as [_ H].
Qed.

Lemma write_agrees f q k a bs :
  agrees f q k -> (forall x, a <= x < a + Z.of_nat (length bs) -> ~ in_block x) ->
  agrees (mk_fifo (contents f) (store (memory f) a bs)) q (k <| ram := store (ram k) a bs |>).
Proof.
  intros A Ha. pose proof (ag_holds _ _ _ A) as [W Hw Hr (R & Hrf & Hwt & Hi)].
  apply (agrees_next f q k _ _ _ R); cbn [contents memory].
  - done.
  - unfold ring_of. by rewrite Hw, Hrf, Hwt.
  - by rewrite <- (ag_length _ _ _ A).
  - apply A.
  - intros i x Hx. rewrite <- (Hi i x Hx). apply load_ext. intros y Hy. cbn. apply store_out. intros H.
    apply (Ha y H). by eapply slot_in_block.
  - intros x Hx. by eapply store_agrees.
Qed.

Lemma op_agrees op f q k :
  agrees f q k -> op_ok op -> agrees_after (fifo_do op f) (queue_do op q k).
Proof.
  intros A Hop. pose proof (ag_holds _ _ _ A) as [W Hw Hr _].
  destruct op as [[] src pos|[] dst|[] dst| | | | |a bs|t s snd rcv]; cbn [op_ok] in Hop; cbn [queue_do fifo_do].
  - destruct Hop. by apply isr_send_ok.
  - destruct Hop. by apply task_send_ok.
  - by apply isr_receive_ok.
  - by apply task_receive_ok.
  - by apply isr_peek_ok.
  - by apply task_peek_ok.
  - split; [unfold uxQueueMessagesWaiting; by rewrite Hw|done].
  - split; [|done]. unfold uxQueueSpacesAvailable. pose proof (length_bound _ _ _ A).
    rewrite Hw, (ag_length _ _ _ A) in *. cbn [fst]. rewrite u32_small; [done|width].
  - split; [done|]. revert A. apply agrees_ext; [|done]. unfold prvLockQueue. cbv zeta.
    destruct (cRxLock q =? _); cbn [set_field cTxLock]; by destruct (_ =? _).
  - unfold prvUnlockQueue. pose proof (unlock_ram (Z.to_nat (cTxLock q - queueLOCKED_UNMODIFIED)) (xTasksWaitingToReceive q) k) as H1.
    destruct (unlock_wake _ _ k) as [rcv k1]. cbv zeta.
    pose proof (unlock_ram (Z.to_nat (cRxLock (q <| xTasksWaitingToReceive := rcv |> <| cTxLock := queueUNLOCKED |>) - queueLOCKED_UNMODIFIED))
      (xTasksWaitingToSend (q <| xTasksWaitingToReceive := rcv |> <| cTxLock := queueUNLOCKED |>)) k1) as H2.
    destruct (unlock_wake _ _ k1) as [snd k2]. split; [done|]. revert A. apply agrees_ext; [done|]. cbn in *. congruence.
  - split; [done|by apply write_agrees].
  - split; [done|]. by revert A; apply agrees_ext.
Qed.

Lemma run_agrees ops f q k :
  agrees f q k -> Forall op_ok ops ->
  let '(rs, q', k') := queue_run ops q k in
  let '(rs', f') := fifo_run ops f in rs = map Returns rs' /\ agrees f' q' k'.
Proof.
  revert f q k. induction ops as [|op ops IH]; intros f q k A H; [done|]. apply Forall_cons in H as [Hop H].
  cbn [queue_run fifo_run]. pose proof (op_agrees op f q k A Hop) as Ho.
  destruct (queue_do op q k) as [[r q1] k1], (fifo_do op f) as [r' f1]. destruct Ho as [-> A1].
  specialize (IH f1 q1 k1 A1 H). destruct (queue_run ops q1 k1) as [[rs q2] k2], (fifo_run ops f1) as [rs' f2].
  destruct IH as [-> A2]. done.
Qed.

(** A new queue is empty. *)
Lemma reset_agrees fresh k :
  0 < len -> 0 < size -> len * size < 4294967296 ->
  pcHead fresh = head -> uxLength fresh = len -> uxItemSize fresh = size ->
  let '(_, q, k') := xQueueGenericReset pdTRUE fresh k in agrees (mk_fifo [] (ram k)) q k'.
Proof.
  intros HL HS HF <- <- <-. unfold xQueueGenericReset. change (pdTRUE =? pdFALSE) with false. cbv iota zeta.
  assert (is_u32 (uxLength fresh * uxItemSize fresh) /\ is_u32 ((uxLength fresh - 1) * uxItemSize fresh)) as [Hl1 Hl2]
    by (unfold is_u32; nia).
  rewrite !u32_small by done. split; try done. split; cbn; try done.
  - lia.
  - exists 0. unfold slot. cbn. rewrite Z.add_0_r.
    replace ((0 - 1) mod uxLength fresh) with (uxLength fresh - 1) by (apply (Z.mod_unique _ _ (-1)); lia).
    split; [done|]. split; [done|]. by intros i x Hx.
Qed.
End Spec.

(** C10: A FreeRTOS message queue is a bounded FIFO: for any length and item
    size that fit 32 bits, the queue that [xQueueGenericCreate] makes in the
    block it allocates behaves, under every sequence of sends to the back, to
    the front and over the only item, receptions, peeks and counts, from tasks
    and interrupts, of locking and unlocking, of other writes to RAM and of
    scheduling, as the FIFO does - the same results, the same items in the
    callers' buffers - and never changes RAM outside its block; without
    memory there is no queue. *)
Theorem freertos_queue_is_fifo sizeof_Queue_t malloc fresh len size ops k :
  0 <= sizeof_Queue_t -> 0 < len -> 0 < size -> sizeof_Queue_t + len * size < 4294967296 ->
  match malloc (sizeof_Queue_t + len * size) with
  | None => (xQueueGenericCreate sizeof_Queue_t malloc fresh len size k).1 = None
  | Some block =>
      let head := block + sizeof_Queue_t in
      exists q k0, xQueueGenericCreate sizeof_Queue_t malloc fresh len size k = (Some q, k0) /\
      (Forall (op_ok head len size) ops ->
       let '(rs, q', k') := queue_run ops q k0 in
       let '(rs', f) := fifo_run len size ops (mk_fifo [] (ram k)) in
       rs = map Returns rs' /\ holds (contents f) q' k' /\
       forall x, ~ in_block head len size x -> ram k' x = memory f x)
  end.
Proof.
  intros Hs HL HS HF. unfold xQueueGenericCreate. rewrite (u32_small (len * size)) by (unfold is_u32; lia).
  rewrite u32_small by (unfold is_u32; lia). destruct (malloc _) as [block|]; [|done]. cbv zeta.
  unfold prvInitialiseNewQueue. rewrite (proj2 (Z.eqb_neq size 0)) by lia. cbv zeta.
  set (q0 := (set_field pcHead _ fresh) <| uxLength := len |> <| uxItemSize := size |>).
  pose proof (reset_agrees (block + sizeof_Queue_t) len size q0 k HL HS ltac:(lia) eq_refl eq_refl eq_refl) as H.
  destruct (xQueueGenericReset pdTRUE q0 k) as [[r q] k0]. exists q, k0. split; [done|]. intros Hops.
  pose proof (run_agrees _ _ _ ops _ _ _ H Hops) as Hrun.
  destruct (queue_run ops q k0) as [[rs q'] k'], (fifo_run len size ops _) as [rs' f].
  destruct Hrun as [-> [Hh _ _ _ _ Hm]]. done.
Qed.

(** A queue of two 2-byte items that goes once around. *)
Definition demo_kernel : kernel :=
  mk_kernel (fun x => if x =? 101 then 7 else x mod 256) (mk_tcb 1 24) [] [] 0 pdFALSE false.
Definition demo_fresh : Queue_t := mk_queue 9 9 9 9 [] [] 9 9 9 9 9.
Definition demo_ops : list queue_op :=
  [Send false 100 queueSEND_TO_BACK; Send true 102 queueSEND_TO_BACK; Send false 104 queueSEND_TO_BACK;
   Receive false 110; Send false 104 queueSEND_TO_BACK; Lock; Peek true 112; Receive true 114; Receive false 116;
   Unlock; Receive false 118; Count].

Definition demo_create : option Queue_t * kernel :=
  xQueueGenericCreate 80 (fun _ => Some 1000) demo_fresh 2 2 demo_kernel.

Lemma freertos_queue_is_fifo_witness :
  (exists q k0, demo_create = (Some q, k0) /\
     let '(rs, q', k') := queue_run demo_ops q k0 in
     rs = map Returns (fifo_run 2 2 demo_ops (mk_fifo [] (ram demo_kernel))).1) /\
  match demo_create with
  | (Some q, k0) =>
      let '(rs, q', k') := queue_run demo_ops q k0 in
      rs = map Returns [1; 1; 0; 1; 1; 0; 1; 1; 1; 0; 0; 0] /\
      load (ram k') 110 8 = [100; 7; 102; 103; 102; 103; 104; 105]
  | (None, _) => False
  end.
Proof.
  split; [|vm_compute; done].
  destruct (freertos_queue_is_fifo 80 (fun _ => Some 1000) demo_fresh 2 2 demo_ops demo_kernel)
    as (q & k0 & Hq & H); [lia|lia|lia|lia|].
  exists q, k0. split; [exact Hq|]. assert (Forall (op_ok (1000 + 80) 2 2) demo_ops) as Hops.
  { repeat apply Forall_cons_2; try apply Forall_nil_2; cbn; unfold buffer, in_block, position_ok;
      repeat split; try (intros; lia); auto. }
  specialize (H Hops). destruct (queue_run demo_ops q k0) as [[rs q'] k'].
  destruct (fifo_run 2 2 demo_ops _) as [rs' f]. destruct H as [Hrs _]. exact Hrs.
Defined.
