(* ===== verification/KernelList.v ===== *)
(** * FreeRTOS lists

    Middlewares/Third_Party/FreeRTOS/Source/list.c and the macros of list.h:
    circular doubly linked lists, in which an item knows its list and each
    list contains its end marker.  Shown to implement lists of items with an
    index: any number of lists that share items, under every sequence of
    operations.  The integrity checks are not configured. *)
From stdpp Require Import gmap fin_maps fin_sets fin_map_dom.
From S2P Require Import Prelude.
Local Open Scope Z_scope.

Definition portMAX_DELAY : Z := 4294967295.

(** ** Memory

    The end marker [xListEnd] of the list at [l] is stored as an item whose
    owner and container are never used; it lies behind the two other fields
    of [List_t]. *)
Record ListItem_t := mk_item {
  xItemValue : Z;
  pxNext : Z;
  pxPrevious : Z;
  pvOwner : Z;
  pxContainer : Z
}.
#[export] Instance eta_item : Eta ListItem_t := fun i =>
  mk_item (xItemValue i) (pxNext i) (pxPrevious i) (pvOwner i) (pxContainer i).
Record List_t := mk_list { uxNumberOfItems : Z; pxIndex : Z }.
#[export] Instance eta_list : Eta List_t := fun l => mk_list (uxNumberOfItems l) (pxIndex l).
Definition xListEnd (l : Z) : Z := l + 8.

Record memory := mk_memory { items : gmap Z ListItem_t; lists : gmap Z List_t }.

(** Programs on memory; [None]: a pointer that points nowhere was used, or a
    loop does not end. *)
Definition K (A : Type) : Type := memory -> option (A * memory).
#[export] Instance K_ret : MRet K := fun A a m => Some (a, m).
#[export] Instance K_bind : MBind K := fun A B f c m =>
  match c m with Some (a, m') => f a m' | None => None end.

Definition item (p : Z) : K ListItem_t := fun m =>
  match items m !! p with Some i => Some (i, m) | None => None end.
Definition set_item (p : Z) (f : ListItem_t -> ListItem_t) : K unit := fun m =>
  match items m !! p with
  | Some i => Some (tt, mk_memory (<[p := f i]> (items m)) (lists m))
  | None => None
  end.
Definition list_at (l : Z) : K List_t := fun m =>
  match lists m !! l with Some x => Some (x, m) | None => None end.
Definition set_list (l : Z) (f : List_t -> List_t) : K unit := fun m =>
  match lists m !! l with
  | Some x => Some (tt, mk_memory (items m) (<[l := f x]> (lists m)))
  | None => None
  end.

(** ** list.c *)
Definition vListInitialise (pxList : Z) : K unit :=
  set_list pxList (fun l => l <| pxIndex := xListEnd pxList |>);;
  set_item (xListEnd pxList) (fun i => i <| xItemValue := portMAX_DELAY |>);;
  set_item (xListEnd pxList) (fun i => i <| pxNext := xListEnd pxList |>);;
  set_item (xListEnd pxList) (fun i => i <| pxPrevious := xListEnd pxList |>);;
  set_list pxList (fun l => l <| uxNumberOfItems := 0 |>).

Definition vListInitialiseItem (pxItem : Z) : K unit :=
  set_item pxItem (fun i => i <| pxContainer := 0 |>).

Definition vListInsertEnd (pxList pxNewListItem : Z) : K unit :=
  l ← list_at pxList;
  let index := pxIndex l in
  set_item pxNewListItem (fun i => i <| pxNext := index |>);;
  i ← item index;
  set_item pxNewListItem (fun n => n <| pxPrevious := pxPrevious i |>);;
  i ← item index;
  set_item (pxPrevious i) (fun p => p <| pxNext := pxNewListItem |>);;
  set_item index (fun i => i <| pxPrevious := pxNewListItem |>);;
  set_item pxNewListItem (fun n => n <| pxContainer := pxList |>);;
  set_list pxList (fun l => l <| uxNumberOfItems := u32 (uxNumberOfItems l + 1) |>).

(** [for (it = ...; it->pxNext->xItemValue <= value; it = it->pxNext) {}] *)
Fixpoint insertion_point (fuel : nat) (value it : Z) : K Z :=
  match fuel with
  | O => fun _ => None
  | S fuel =>
      i ← item it;
      n ← item (pxNext i);
      if xItemValue n <=? value then insertion_point fuel value (pxNext i) else mret it
  end.

(** No list has more rounds than there are items. *)
Definition vListInsert (pxList pxNewListItem : Z) : K unit :=
  n ← item pxNewListItem;
  let xValueOfInsertion := xItemValue n in
  pxIterator ← (if xValueOfInsertion =? portMAX_DELAY
                then e ← item (xListEnd pxList); mret (pxPrevious e)
                else fun m => insertion_point (size (items m)) xValueOfInsertion (xListEnd pxList) m);
  it ← item pxIterator;
  set_item pxNewListItem (fun n => n <| pxNext := pxNext it |>);;
  n ← item pxNewListItem;
  set_item (pxNext n) (fun i => i <| pxPrevious := pxNewListItem |>);;
  set_item pxNewListItem (fun n => n <| pxPrevious := pxIterator |>);;
  set_item pxIterator (fun i => i <| pxNext := pxNewListItem |>);;
  set_item pxNewListItem (fun n => n <| pxContainer := pxList |>);;
  set_list pxList (fun l => l <| uxNumberOfItems := u32 (uxNumberOfItems l + 1) |>).

Definition uxListRemove (pxItemToRemove : Z) : K Z :=
  r ← item pxItemToRemove;
  let pxList := pxContainer r in
  set_item (pxNext r) (fun i => i <| pxPrevious := pxPrevious r |>);;
  r ← item pxItemToRemove;
  set_item (pxPrevious r) (fun i => i <| pxNext := pxNext r |>);;
  l ← list_at pxList;
  r ← item pxItemToRemove;
  (if pxIndex l =? pxItemToRemove then set_list pxList (fun l => l <| pxIndex := pxPrevious r |>) else mret tt);;
  set_item pxItemToRemove (fun i => i <| pxContainer := 0 |>);;
  set_list pxList (fun l => l <| uxNumberOfItems := u32 (uxNumberOfItems l - 1) |>);;
  l ← list_at pxList;
  mret (uxNumberOfItems l).

(** ** Macros of list.h *)
Definition listSET_LIST_ITEM_VALUE (pxListItem xValue : Z) : K unit :=
  set_item pxListItem (fun i => i <| xItemValue := xValue |>).
Definition listSET_LIST_ITEM_OWNER (pxListItem pxOwner : Z) : K unit :=
  set_item pxListItem (fun i => i <| pvOwner := pxOwner |>).
Definition listGET_LIST_ITEM_VALUE (pxListItem : Z) : K Z := i ← item pxListItem; mret (xItemValue i).
Definition listGET_ITEM_VALUE_OF_HEAD_ENTRY (pxList : Z) : K Z :=
  e ← item (xListEnd pxList); h ← item (pxNext e); mret (xItemValue h).
Definition listGET_OWNER_OF_HEAD_ENTRY (pxList : Z) : K Z :=
  e ← item (xListEnd pxList); h ← item (pxNext e); mret (pvOwner h).
Definition listGET_OWNER_OF_NEXT_ENTRY (pxList : Z) : K Z :=
  l ← list_at pxList;
  i ← item (pxIndex l);
  set_list pxList (fun l => l <| pxIndex := pxNext i |>);;
  l ← list_at pxList;
  (if pxIndex l =? xListEnd pxList then
     e ← item (pxIndex l); set_list pxList (fun l => l <| pxIndex := pxNext e |>)
   else mret tt);;
  l ← list_at pxList;
  i ← item (pxIndex l);
  mret (pvOwner i).
Definition listLIST_IS_EMPTY (pxList : Z) : K Z :=
  l ← list_at pxList; mret (if uxNumberOfItems l =? 0 then 1 else 0).
Definition listCURRENT_LIST_LENGTH (pxList : Z) : K Z := l ← list_at pxList; mret (uxNumberOfItems l).
Definition listIS_CONTAINED_WITHIN (pxList pxListItem : Z) : K Z :=
  i ← item pxListItem; mret (if pxContainer i =? pxList then 1 else 0).
Definition listLIST_ITEM_CONTAINER (pxListItem : Z) : K Z := i ← item pxListItem; mret (pxContainer i).

(** ** Specification

    An item has a value, an owner and possibly a list it is in; a list is the
    items in it, in order, and the place of its index: an item, or [None] if
    the index is at the end marker.  [spare_items] (with value and owner) and
    [spare_lists] are allocated, but not initialised. *)
Record info := mk_info { value : Z; owner : Z; inside : option Z }.
Record kernel_lists := mk_lists {
  known : gmap Z info;
  rings : gmap Z (list Z * option Z);
  spare_items : gmap Z (Z * Z);
  spare_lists : gset Z
}.
#[export] Instance eta_lists : Eta kernel_lists := fun A =>
  mk_lists (known A) (rings A) (spare_items A) (spare_lists A).

(** [x] is put before the item [i], or at the end. *)
Fixpoint insert_before (i : option Z) (x : Z) (xs : list Z) : list Z :=
  match xs with
  | [] => [x]
  | y :: ys => if decide (i = Some y) then x :: y :: ys else y :: insert_before i x ys
  end.
(** [x] is put behind all items whose value is not greater than its own. *)
Fixpoint insert_sorted (val : Z -> Z) (x : Z) (xs : list Z) : list Z :=
  match xs with
  | [] => [x]
  | y :: ys => if val y <=? val x then y :: insert_sorted val x ys else x :: y :: ys
  end.
Definition without (x : Z) (xs : list Z) : list Z := filter (fun y => y <> x) xs.
(** The item before [x], the item behind the place [i]. *)
Fixpoint before (a : option Z) (x : Z) (xs : list Z) : option Z :=
  match xs with
  | [] => None
  | y :: ys => if y =? x then a else before (Some y) x ys
  end.
Fixpoint behind (i : Z) (xs : list Z) : option Z :=
  match xs with
  | [] => None
  | y :: ys => if y =? i then head ys else behind i ys
  end.
(** The next item round the list. *)
Definition next_round (i : option Z) (xs : list Z) : option Z :=
  match i with
  | None => head xs
  | Some i => match behind i xs with Some y => Some y | None => head xs end
  end.

Inductive list_op :=
  | Initialise (l : Z)
  | InitialiseItem (x : Z)
  | InsertEnd (l x : Z)
  | Insert (l x : Z)
  | Remove (x : Z)
  | SetValue (x v : Z)
  | SetOwner (x o : Z)
  | GetValue (x : Z)
  | Container (x : Z)
  | IsWithin (l x : Z)
  | Length (l : Z)
  | IsEmpty (l : Z)
  | HeadValue (l : Z)
  | HeadOwner (l : Z)
  | NextOwner (l : Z).

Definition list_do (op : list_op) : K Z :=
  match op with
  | Initialise l => vListInitialise l;; mret 0
  | InitialiseItem x => vListInitialiseItem x;; mret 0
  | InsertEnd l x => vListInsertEnd l x;; mret 0
  | Insert l x => vListInsert l x;; mret 0
  | Remove x => uxListRemove x
  | SetValue x v => listSET_LIST_ITEM_VALUE x v;; mret 0
  | SetOwner x o => listSET_LIST_ITEM_OWNER x o;; mret 0
  | GetValue x => listGET_LIST_ITEM_VALUE x
  | Container x => listLIST_ITEM_CONTAINER x
  | IsWithin l x => listIS_CONTAINED_WITHIN l x
  | Length l => listCURRENT_LIST_LENGTH l
  | IsEmpty l => listLIST_IS_EMPTY l
  | HeadValue l => listGET_ITEM_VALUE_OF_HEAD_ENTRY l
  | HeadOwner l => listGET_OWNER_OF_HEAD_ENTRY l
  | NextOwner l => listGET_OWNER_OF_NEXT_ENTRY l
  end.
Fixpoint list_run (ops : list list_op) : K (list Z) :=
  match ops with
  | [] => mret []
  | op :: ops => r ← list_do op; rs ← list_run ops; mret (r :: rs)
  end.

Definition val_of (A : kernel_lists) (x : Z) : Z := match known A !! x with Some i => value i | None => 0 end.
Definition owner_of (A : kernel_lists) (x : Z) : Z := match known A !! x with Some i => owner i | None => 0 end.
Definition list_of (A : kernel_lists) (x : Z) : option Z := known A !! x ≫= inside.
Definition ring_of (A : kernel_lists) (l : Z) : list Z * option Z := default ([], None) (rings A !! l).
Definition place (x : Z) (l : option Z) (A : kernel_lists) : kernel_lists :=
  A <| known := alter (fun i => mk_info (value i) (owner i) l) x (known A) |>.
Definition set_ring (l : Z) (xs : list Z) (i : option Z) (A : kernel_lists) : kernel_lists :=
  A <| rings := <[l := (xs, i)]> (rings A) |>.

Definition spec_do (op : list_op) (A : kernel_lists) : Z * kernel_lists :=
  match op with
  | Initialise l => (0, set_ring l [] None A <| spare_lists := spare_lists A ∖ {[l]} |>)
  | InitialiseItem x =>
      match spare_items A !! x with
      | Some (v, o) =>
          (0, A <| known := <[x := mk_info v o None]> (known A) |> <| spare_items := delete x (spare_items A) |>)
      | None => (0, A)
      end
  | InsertEnd l x =>
      let '(xs, i) := ring_of A l in (0, set_ring l (insert_before i x xs) i (place x (Some l) A))
  | Insert l x =>
      let '(xs, i) := ring_of A l in (0, set_ring l (insert_sorted (val_of A) x xs) i (place x (Some l) A))
  | Remove x =>
      match list_of A x with
      | Some l =>
          let '(xs, i) := ring_of A l in
          (Z.of_nat (length xs) - 1,
           set_ring l (without x xs) (if decide (i = Some x) then before None x xs else i) (place x None A))
      | None => (0, A)
      end
  | SetValue x v => (0, A <| known := alter (fun i => mk_info v (owner i) (inside i)) x (known A) |>)
  | SetOwner x o => (0, A <| known := alter (fun i => mk_info (value i) o (inside i)) x (known A) |>)
  | GetValue x => (val_of A x, A)
  | Container x => (default 0 (list_of A x), A)
  | IsWithin l x => (if decide (list_of A x = Some l) then 1 else 0, A)
  | Length l => (Z.of_nat (length (ring_of A l).1), A)
  | IsEmpty l => (match (ring_of A l).1 with [] => 1 | _ => 0 end, A)
  | HeadValue l => (match (ring_of A l).1 with x :: _ => val_of A x | [] => portMAX_DELAY end, A)
  | HeadOwner l => (match (ring_of A l).1 with x :: _ => owner_of A x | [] => 0 end, A)
  | NextOwner l =>
      let '(xs, i) := ring_of A l in
      match next_round i xs with
      | Some x => (owner_of A x, set_ring l xs (Some x) A)
      | None => (0, A)
      end
  end.
Fixpoint spec_run (ops : list list_op) (A : kernel_lists) : list Z * kernel_lists :=
  match ops with
  | [] => ([], A)
  | op :: ops => let '(r, A) := spec_do op A in let '(rs, A) := spec_run ops A in (r :: rs, A)
  end.

(** How the kernel uses lists: an item is put into a list only when it is in
    none, and removed only when it is in one; lists and items are initialised
    once; the owner of an entry is asked for only when there is one. *)
Definition op_ok (A : kernel_lists) (op : list_op) : Prop :=
  match op with
  | Initialise l => l ∈ spare_lists A
  | InitialiseItem x => is_Some (spare_items A !! x)
  | InsertEnd l x | Insert l x => (is_Some (known A !! x) /\ list_of A x = None) /\ is_Some (rings A !! l)
  | Remove x => is_Some (list_of A x)
  | SetValue x v => is_Some (known A !! x) /\ is_u32 v
  | SetOwner x _ | GetValue x | Container x => is_Some (known A !! x)
  | IsWithin l x => is_Some (known A !! x) /\ l <> 0
  | Length l | IsEmpty l | HeadValue l => is_Some (rings A !! l)
  | HeadOwner l | NextOwner l => (ring_of A l).1 <> []
  end.
Fixpoint ops_ok (ops : list list_op) (A : kernel_lists) : Prop :=
  match ops with
  | [] => True
  | op :: ops => op_ok A op /\ ops_ok ops (spec_do op A).2
  end.

#[export] Instance op_ok_dec A op : Decision (op_ok A op).
Proof. destruct op; cbn [op_ok]; apply _. Defined.
#[export] Instance ops_ok_dec ops : forall A, Decision (ops_ok ops A).
Proof. induction ops as [|op ops IH]; intros A; cbn [ops_ok]; apply _. Defined.

(** ** Chains

    [chain nx pv a xs b]: from [a] through [xs] to [b], forwards by [nx] and
    backwards by [pv]. *)
Fixpoint chain (nx pv : Z -> option Z) (a : Z) (xs : list Z) (b : Z) : Prop :=
  match xs with
  | [] => nx a = Some b /\ pv b = Some a
  | x :: xs => nx a = Some x /\ pv x = Some a /\ chain nx pv x xs b
  end.

(** The end of [a :: xs]. *)
Fixpoint last_of (a : Z) (xs : list Z) : Z := match xs with [] => a | x :: xs => last_of x xs end.

Lemma last_in a xs : last_of a xs ∈ a :: xs.
Proof. revert a. induction xs as [|x xs IH]; intros a; [by left|right; apply IH]. Qed.

Lemma last_of_in (a : Z) ys zs : last_of a ys ∈ a :: ys ++ zs.
Proof. rewrite app_comm_cons. apply elem_of_app. left. apply last_in. Qed.
Lemma hd_of_in (b : Z) ys zs : hd b zs ∈ b :: ys ++ zs.
Proof. destruct zs; [by left|]. right. apply elem_of_app. right. by left. Qed.

Lemma chain_frame nx pv nx' pv' a xs b :
  (forall y : Z, y ∈ a :: xs -> nx' y = nx y) -> (forall y : Z, y ∈ xs ++ [b] -> pv' y = pv y) ->
  chain nx pv a xs b -> chain nx' pv' a xs b.
Proof.
  revert a. induction xs as [|x xs IH]; intros a Hn Hp; cbn [chain app] in *.
  - rewrite Hn, Hp by left. done.
  - intros (H1 & H2 & H3). rewrite Hn, Hp by left. split; [done|]. split; [done|].
    apply IH; [|intros y Hy; apply Hp; by right|done]. intros y Hy. apply Hn. by right.
Qed.

(** The links at the point between [ys] and [zs]. *)
Lemma chain_at nx pv a ys zs b :
  chain nx pv a (ys ++ zs) b ->
  nx (last_of a ys) = Some (hd b zs) /\ pv (hd b zs) = Some (last_of a ys).
Proof.
  revert a. induction ys as [|y ys IH]; intros a H.
  - destruct zs; cbn in *; tauto.
  - cbn [app chain] in H. destruct H as (_ & _ & H). by apply IH.
Qed.

Lemma chain_insert nx pv nx' pv' a ys zs b x :
  NoDup (a :: ys ++ zs) -> b ∉ ys ++ zs -> x ∉ a :: ys ++ zs -> x <> b ->
  let p := last_of a ys in
  let q := hd b zs in
  (forall y, nx' y = if y =? x then Some q else if y =? p then Some x else nx y) ->
  (forall y, pv' y = if y =? x then Some p else if y =? q then Some x else pv y) ->
  chain nx pv a (ys ++ zs) b -> chain nx' pv' a (ys ++ x :: zs) b.
Proof.
  cbv zeta. revert a. induction ys as [|y ys IH]; intros a Hd Hb Hx Hxb Hn Hp H; cbn [app last_of] in *.
  - apply not_elem_of_cons in Hx as [Hxa Hx]. apply NoDup_cons in Hd as [Ha Hd]. cbn [chain].
    rewrite !Hn, Hp, !Z.eqb_refl, (proj2 (Z.eqb_neq a x)) by done. split; [done|]. split; [done|].
    destruct zs as [|z zs]; cbn [chain hd] in *.
    + by rewrite Hn, Hp, !Z.eqb_refl, (proj2 (Z.eqb_neq b x)).
    + destruct H as (H1 & H2 & H). apply not_elem_of_cons in Hb as [Hbz Hb].
      apply not_elem_of_cons in Hx as [Hxz Hx]. apply not_elem_of_cons in Ha as [Haz Ha]. apply NoDup_cons in Hd as [Hz Hd].
      rewrite Hn, Hp, !Z.eqb_refl, (proj2 (Z.eqb_neq z x)) by done. split; [done|]. split; [done|].
      revert H. apply chain_frame; intros y Hy.
      * rewrite Hn, !(proj2 (Z.eqb_neq _ _)); [done| |]; intros ->; apply elem_of_cons in Hy as [?|?]; congruence.
      * rewrite Hp, !(proj2 (Z.eqb_neq _ _)); [done| |]; intros ->;
          apply elem_of_app in Hy as [?|?%list_elem_of_singleton]; congruence.
  - apply not_elem_of_cons in Hx as [Hxa Hx]. apply NoDup_cons in Hd as [Ha Hd]. pose proof Hx as Hx'.
    apply not_elem_of_cons in Hx as [Hxy Hx]. apply not_elem_of_cons in Hb as [Hby Hb].
    destruct H as (H1 & H2 & H). cbn [chain]. split; [|split].
    + rewrite Hn, !(proj2 (Z.eqb_neq _ _)); [done| |]; intros ->; [|done]. apply Ha. rewrite app_comm_cons.
      apply elem_of_app. left. apply last_in.
    + rewrite Hp, !(proj2 (Z.eqb_neq _ _)); [done| |]; intros ->; [|done]. apply NoDup_cons in Hd as [Hd _].
      destruct zs as [|z zs]; cbn [hd] in *; [done|]. apply Hd, elem_of_app. right. by left.
    + by apply IH.
Qed.

Lemma chain_remove nx pv nx' pv' a ys zs b x :
  NoDup (a :: ys ++ x :: zs) -> b ∉ ys ++ x :: zs ->
  let p := last_of a ys in
  let q := hd b zs in
  (forall y, y <> x -> nx' y = if y =? p then Some q else nx y) ->
  (forall y, y <> x -> pv' y = if y =? q then Some p else pv y) ->
  chain nx pv a (ys ++ x :: zs) b -> chain nx' pv' a (ys ++ zs) b.
Proof.
  cbv zeta. revert a. induction ys as [|y ys IH]; intros a Hd Hb Hn Hp H; cbn [app last_of] in *.
  - apply NoDup_cons in Hd as [Ha Hd]. apply NoDup_cons in Hd as [Hx Hd]. apply not_elem_of_cons in Hb as [Hbx Hb].
    apply not_elem_of_cons in Ha as [Hax Ha]. cbn [chain] in H. destruct H as (_ & _ & H).
    destruct zs as [|z zs]; cbn [chain hd] in *.
    + by rewrite Hn, Hp, !Z.eqb_refl.
    + destruct H as (H1 & H2 & H). apply not_elem_of_cons in Hb as [Hbz Hb].
      apply not_elem_of_cons in Hx as [Hxz Hx]. apply not_elem_of_cons in Ha as [Haz Ha]. apply NoDup_cons in Hd as [Hz Hd].
      rewrite Hn, Hp, !Z.eqb_refl by done. split; [done|]. split; [done|].
      revert H. apply chain_frame; intros y Hy.
      * rewrite Hn, (proj2 (Z.eqb_neq _ _)); [done| |]; intros ->; apply elem_of_cons in Hy as [?|?]; congruence.
      * rewrite Hp, (proj2 (Z.eqb_neq _ _)); [done| |]; intros ->;
          apply elem_of_app in Hy as [?|?%list_elem_of_singleton]; congruence.
  - apply NoDup_cons in Hd as [Ha Hd]. apply not_elem_of_cons in Hb as [Hby Hb].
    destruct H as (H1 & H2 & H). cbn [chain]. pose proof Hd as Hd'. apply NoDup_cons in Hd' as [Hy _].
    split; [|split].
    + rewrite Hn, (proj2 (Z.eqb_neq _ _)); [done| |]; intros ->; apply Ha; rewrite app_comm_cons; apply elem_of_app;
        [left; apply last_in|right; by left].
    + rewrite Hp, (proj2 (Z.eqb_neq _ _)); [done| |]; intros ->; [|apply Hy, elem_of_app; right; by left].
      destruct zs as [|z zs]; cbn [hd] in *; [done|]. apply Hy, elem_of_app. right. right. by left.
    + by apply IH.
Qed.

(** ** Memory, field by field *)
Definition next (m : memory) (p : Z) : option Z := pxNext <$> items m !! p.
Definition prev (m : memory) (p : Z) : option Z := pxPrevious <$> items m !! p.
Definition container (m : memory) (p : Z) : option Z := pxContainer <$> items m !! p.
Definition kept (m : memory) (p : Z) : option (Z * Z) := (fun i => (xItemValue i, pvOwner i)) <$> items m !! p.

(** The memory after an assignment to the item at [p], to the list at [l]. *)
Definition altered (f : ListItem_t -> ListItem_t) (p : Z) (m : memory) : memory :=
  mk_memory (alter f p (items m)) (lists m).
Definition relisted (f : List_t -> List_t) (l : Z) (m : memory) : memory :=
  mk_memory (items m) (alter f l (lists m)).

Lemma lookup_insert_case {V} (p y : Z) (v : V) (m : gmap Z V) : <[p := v]> m !! y = if y =? p then Some v else m !! y.
Proof. destruct (Z.eqb_spec y p) as [->|]; [apply lookup_insert_eq|by apply lookup_insert_ne]. Qed.
Lemma alter_at {V} (f : V -> V) (p y : Z) (m : gmap Z V) : alter f p m !! y = if y =? p then f <$> m !! p else m !! y.
Proof. destruct (Z.eqb_spec y p) as [->|]; [apply lookup_alter_eq|by apply lookup_alter_ne]. Qed.

Section Fields.
Context (p v : Z) (m : memory).
Lemma items_altered f y : items (altered f p m) !! y = if y =? p then f <$> items m !! p else items m !! y.
Proof. apply alter_at. Qed.
Ltac other_field y := unfold next, prev, container, kept; rewrite items_altered; destruct (Z.eqb_spec y p) as [->|]; [|done];
  by destruct (items m !! p).
Lemma next_set_next y : is_Some (kept m p) ->
  next (altered (fun i => i <| pxNext := v |>) p m) y = if y =? p then Some v else next m y.
Proof.
  unfold next, kept. rewrite fmap_is_Some. intros [i Hi]. rewrite items_altered, Hi. by destruct (y =? p).
Qed.
Lemma prev_set_prev y : is_Some (kept m p) ->
  prev (altered (fun i => i <| pxPrevious := v |>) p m) y = if y =? p then Some v else prev m y.
Proof.
  unfold prev, kept. rewrite fmap_is_Some. intros [i Hi]. rewrite items_altered, Hi. by destruct (y =? p).
Qed.
Lemma container_set_container y : is_Some (kept m p) ->
  container (altered (fun i => i <| pxContainer := v |>) p m) y = if y =? p then Some v else container m y.
Proof.
  unfold container, kept. rewrite fmap_is_Some. intros [i Hi]. rewrite items_altered, Hi. by destruct (y =? p).
Qed.
Lemma next_set_prev y : next (altered (fun i => i <| pxPrevious := v |>) p m) y = next m y.
Proof. other_field y. Qed.
Lemma next_set_container y : next (altered (fun i => i <| pxContainer := v |>) p m) y = next m y.
Proof. other_field y. Qed.
Lemma prev_set_next y : prev (altered (fun i => i <| pxNext := v |>) p m) y = prev m y.
Proof. other_field y. Qed.
Lemma prev_set_container y : prev (altered (fun i => i <| pxContainer := v |>) p m) y = prev m y.
Proof. other_field y. Qed.
Lemma container_set_next y : container (altered (fun i => i <| pxNext := v |>) p m) y = container m y.
Proof. other_field y. Qed.
Lemma container_set_prev y : container (altered (fun i => i <| pxPrevious := v |>) p m) y = container m y.
Proof. other_field y. Qed.
Lemma kept_set_next y : kept (altered (fun i => i <| pxNext := v |>) p m) y = kept m y.
Proof. other_field y. Qed.
Lemma kept_set_prev y : kept (altered (fun i => i <| pxPrevious := v |>) p m) y = kept m y.
Proof. other_field y. Qed.
Lemma kept_set_container y : kept (altered (fun i => i <| pxContainer := v |>) p m) y = kept m y.
Proof. other_field y. Qed.
Lemma next_set_value y : next (altered (fun i => i <| xItemValue := v |>) p m) y = next m y.
Proof. other_field y. Qed.
Lemma prev_set_value y : prev (altered (fun i => i <| xItemValue := v |>) p m) y = prev m y.
Proof. other_field y. Qed.
Lemma container_set_value y : container (altered (fun i => i <| xItemValue := v |>) p m) y = container m y.
Proof. other_field y. Qed.
Lemma kept_set_value w o y : kept m p = Some (w, o) ->
  kept (altered (fun i => i <| xItemValue := v |>) p m) y = if y =? p then Some (v, o) else kept m y.
Proof.
  unfold kept. intros Hp. rewrite items_altered. destruct (Z.eqb_spec y p) as [->|]; [|done].
  destruct (items m !! p); [|done]. cbn in *. by injection Hp as _ ->.
Qed.
Lemma next_set_owner y : next (altered (fun i => i <| pvOwner := v |>) p m) y = next m y.
Proof. other_field y. Qed.
Lemma prev_set_owner y : prev (altered (fun i => i <| pvOwner := v |>) p m) y = prev m y.
Proof. other_field y. Qed.
Lemma container_set_owner y : container (altered (fun i => i <| pvOwner := v |>) p m) y = container m y.
Proof. other_field y. Qed.
Lemma kept_set_owner w o y : kept m p = Some (w, o) ->
  kept (altered (fun i => i <| pvOwner := v |>) p m) y = if y =? p then Some (w, v) else kept m y.
Proof.
  unfold kept. intros Hp. rewrite items_altered. destruct (Z.eqb_spec y p) as [->|]; [|done].
  destruct (items m !! p); [|done]. cbn in *. by injection Hp as -> _.
Qed.
End Fields.
Create Rewrite HintDb fields.
#[local] Hint Rewrite next_set_prev next_set_container prev_set_next prev_set_container container_set_next
  container_set_prev kept_set_next kept_set_prev kept_set_container next_set_value prev_set_value
  container_set_value next_set_owner prev_set_owner container_set_owner : fields.

(** ** Running list programs: [kwp c Q m] - from [m], [c] runs to its end, with
    a result and a memory in [Q]. *)
Definition kwp {A} (c : K A) (Q : A -> memory -> Prop) (m : memory) : Prop :=
  match c m with Some (a, m') => Q a m' | None => False end.

Lemma kwp_bind {A B} (c : K A) (f : A -> K B) Q m : kwp c (fun a m' => kwp (f a) Q m') m -> kwp (c ≫= f) Q m.
Proof. unfold kwp, mbind, K_bind. by destruct (c m) as [[a m']|]. Qed.
Lemma kwp_ret {A} (a : A) Q m : Q a m -> kwp (mret (M := K) a) Q m.
Proof. done. Qed.
Lemma kwp_mono {A} (c : K A) (P Q : A -> memory -> Prop) m :
  kwp c P m -> (forall a m', P a m' -> Q a m') -> kwp c Q m.
Proof. unfold kwp. destruct (c m) as [[a m']|]; auto. Qed.
Lemma kwp_item p Q m :
  is_Some (kept m p) ->
  (forall i, next m p = Some (pxNext i) -> prev m p = Some (pxPrevious i) -> container m p = Some (pxContainer i) ->
   kept m p = Some (xItemValue i, pvOwner i) -> Q i m) -> kwp (item p) Q m.
Proof.
  unfold kwp, item, next, prev, container, kept. destruct (items m !! p) as [i|]; [|by intros []].
  intros _ H. by apply H.
Qed.
Lemma kwp_set_item p f Q m : is_Some (kept m p) -> Q tt (altered f p m) -> kwp (set_item p f) Q m.
Proof.
  unfold kwp, set_item, altered, kept. destruct (items m !! p) as [i|] eqn:E; [|by intros []]. intros _.
  assert (alter f p (items m) = <[p := f i]> (items m)) as ->; [|done].
  apply map_eq. intros y. rewrite alter_at. destruct (Z.eqb_spec y p) as [->|Hne]; [by rewrite lookup_insert_eq, E|by rewrite lookup_insert_ne].
Qed.
Lemma kwp_list l x Q m : lists m !! l = Some x -> Q x m -> kwp (list_at l) Q m.
Proof. unfold kwp, list_at. by intros ->. Qed.
Lemma kwp_set_list l f Q m : is_Some (lists m !! l) -> Q tt (relisted f l m) -> kwp (set_list l f) Q m.
Proof.
  unfold kwp, set_list, relisted. destruct (lists m !! l) as [x|] eqn:E; [|by intros []]. intros _.
  assert (alter f l (lists m) = <[l := f x]> (lists m)) as ->; [|done].
  apply map_eq. intros y. rewrite alter_at. destruct (Z.eqb_spec y l) as [->|Hne]; [by rewrite lookup_insert_eq, E|by rewrite lookup_insert_ne].
Qed.

(** ** What memory holds *)
Record ring_ok (m : memory) (l : Z) (xs : list Z) (i : option Z) : Prop := {
  rg_list : lists m !! l = Some (mk_list (Z.of_nat (length xs)) (default (xListEnd l) i));
  rg_index y : i = Some y -> y ∈ xs;
  rg_chain : chain (next m) (prev m) (xListEnd l) xs (xListEnd l);
  rg_nodup : NoDup xs;
  rg_end : exists o, kept m (xListEnd l) = Some (portMAX_DELAY, o)
}.

Record models (m : memory) (A : kernel_lists) : Prop := {
  mo_ring l xs i : rings A !! l = Some (xs, i) -> ring_ok m l xs i;
  mo_known x j : known A !! x = Some j ->
    kept m x = Some (value j, owner j) /\ container m x = Some (default 0 (inside j)) /\ is_u32 (value j);
  mo_inside x j l : known A !! x = Some j -> inside j = Some l -> exists xs i, rings A !! l = Some (xs, i) /\ x ∈ xs;
  mo_entry l xs i x : rings A !! l = Some (xs, i) -> x ∈ xs -> exists j, known A !! x = Some j /\ inside j = Some l;
  mo_end l : is_Some (rings A !! l) \/ l ∈ spare_lists A -> known A !! xListEnd l = None /\ spare_items A !! xListEnd l = None;
  mo_spare_list l : l ∈ spare_lists A -> rings A !! l = None /\ is_Some (kept m (xListEnd l)) /\ is_Some (lists m !! l);
  mo_spare_item x v o : spare_items A !! x = Some (v, o) -> known A !! x = None /\ kept m x = Some (v, o) /\ is_u32 v;
  mo_few : Z.of_nat (size (known A)) + Z.of_nat (size (spare_items A)) < 4294967296
}.

Section Models.
Context (m : memory) (A : kernel_lists) (M : models m A).

Lemma ring_end l xs i : rings A !! l = Some (xs, i) -> xListEnd l ∉ xs.
Proof.
  intros Hl H. destruct (mo_entry _ _ M l xs i _ Hl H) as (j & Hj & _).
  destruct (mo_end _ _ M l (or_introl (mk_is_Some _ _ Hl))). congruence.
Qed.
Lemma free_outside x j l xs i :
  known A !! x = Some j -> inside j = None -> rings A !! l = Some (xs, i) -> x ∉ xListEnd l :: xs.
Proof.
  intros Hx Hj Hl [->|H]%elem_of_cons.
  - destruct (mo_end _ _ M l (or_introl (mk_is_Some _ _ Hl))). congruence.
  - destruct (mo_entry _ _ M l xs i x Hl H) as (j' & Hj' & ?). congruence.
Qed.
Lemma rings_apart l xs i l' xs' i' y :
  rings A !! l = Some (xs, i) -> rings A !! l' = Some (xs', i') -> l <> l' ->
  y ∈ xListEnd l' :: xs' -> y ∉ xListEnd l :: xs.
Proof.
  intros Hl Hl' Hne H' H. destruct (mo_end _ _ M l (or_introl (mk_is_Some _ _ Hl))) as [E _].
  destruct (mo_end _ _ M l' (or_introl (mk_is_Some _ _ Hl'))) as [E' _].
  apply elem_of_cons in H as [->|H]; apply elem_of_cons in H' as [H'|H'].
  - unfold xListEnd in H'. lia.
  - destruct (mo_entry _ _ M l' xs' i' _ Hl' H') as (j & Hj & _). congruence.
  - subst y. destruct (mo_entry _ _ M l xs i _ Hl H) as (j & Hj & _). congruence.
  - destruct (mo_entry _ _ M l xs i y Hl H) as (j & Hj & ?). destruct (mo_entry _ _ M l' xs' i' y Hl' H') as (j' & Hj' & ?).
    congruence.
Qed.
Lemma entry_kept l xs i y : rings A !! l = Some (xs, i) -> y ∈ xListEnd l :: xs -> is_Some (kept m y).
Proof.
  intros Hl [->|H]%elem_of_cons.
  - destruct (rg_end _ _ _ _ (mo_ring _ _ M l xs i Hl)) as [o ->]. by eexists.
  - destruct (mo_entry _ _ M l xs i y Hl H) as (j & Hj & _). destruct (mo_known _ _ M y j Hj) as [-> _]. by eexists.
Qed.
Lemma ring_length l xs i : rings A !! l = Some (xs, i) -> Z.of_nat (length xs) < 4294967296.
Proof.
  intros Hl. pose proof (mo_few _ _ M). enough (length xs <= size (known A))%nat by lia.
  rewrite <- (size_list_to_set (C := gset Z) xs) by apply (rg_nodup _ _ _ _ (mo_ring _ _ M l xs i Hl)).
  rewrite <- size_dom. apply subseteq_size. intros y Hy%elem_of_list_to_set. apply elem_of_dom.
  destruct (mo_entry _ _ M l xs i y Hl Hy) as (j & -> & _). by eexists.
Qed.
(** One item is free: then there is room for it in the count. *)
Lemma ring_room x j l xs i :
  known A !! x = Some j -> inside j = None -> rings A !! l = Some (xs, i) -> Z.of_nat (length xs) + 1 < 4294967296.
Proof.
  intros Hx Hj Hl. pose proof (mo_few _ _ M). enough (length (x :: xs) <= size (known A))%nat by (cbn in *; lia).
  assert (NoDup (x :: xs)) as Hd.
  { apply NoDup_cons. split; [|apply (rg_nodup _ _ _ _ (mo_ring _ _ M l xs i Hl))].
    pose proof (free_outside x j l xs i Hx Hj Hl) as H1. by apply not_elem_of_cons in H1 as []. }
  rewrite <- (size_list_to_set (C := gset Z) (x :: xs)) by done.
  rewrite <- size_dom. apply subseteq_size. intros y Hy%elem_of_list_to_set. apply elem_of_dom.
  apply elem_of_cons in Hy as [->|Hy]; [by eexists|].
  destruct (mo_entry _ _ M l xs i y Hl Hy) as (j' & -> & _). by eexists.
Qed.
End Models.

(** A ring that the change of memory does not touch. *)
Lemma ring_frame m m' l xs i :
  (forall y, y ∈ xListEnd l :: xs -> next m' y = next m y /\ prev m' y = prev m y) ->
  kept m' (xListEnd l) = kept m (xListEnd l) -> lists m' !! l = lists m !! l ->
  ring_ok m l xs i -> ring_ok m' l xs i.
Proof.
  intros H Hk Hl [R1 R2 R3 R4 [o R5]]. split; [congruence|done| |done|exists o; congruence].
  revert R3. apply chain_frame; intros y Hy; apply H; [done|].
  apply elem_of_app in Hy as [Hy|Hy%list_elem_of_singleton]; [by right|subst y; by left].
Qed.

(** The list [l] has become [xs'] with the index at [i'], and [x] has been put
    into it or taken out. *)
Lemma relinked m m' A l xs i xs' i' x j o :
  models m A -> rings A !! l = Some (xs, i) -> known A !! x = Some j -> inside j = None \/ inside j = Some l ->
  o = None \/ o = Some l -> (forall y, y ∈ xs' <-> if y =? x then o = Some l else y ∈ xs) ->
  ring_ok m' l xs' i' ->
  (forall y, y ∉ x :: xListEnd l :: xs -> next m' y = next m y /\ prev m' y = prev m y) ->
  (forall y, kept m' y = kept m y) ->
  (forall y, container m' y = if y =? x then Some (default 0 o) else container m y) ->
  (forall y, y <> l -> lists m' !! y = lists m !! y) ->
  models m' (set_ring l xs' i' (place x o A)).
Proof.
  intros M Hl Hx Hj Ho Hin R Hlinks Hk Hc Hlists.
  assert (forall y, known (place x o A) !! y = if y =? x then Some (mk_info (value j) (owner j) o) else known A !! y) as Hkn.
  { intros y. unfold place. cbn. rewrite alter_at, Hx. done. }
  assert (forall l', rings (set_ring l xs' i' (place x o A)) !! l' = if l' =? l then Some (xs', i') else rings A !! l') as Hr.
  { intros l'. cbn. destruct (Z.eqb_spec l' l) as [->|]; [apply lookup_insert_eq|by apply lookup_insert_ne]. }
  assert (forall l' ys k, rings A !! l' = Some (ys, k) -> l' <> l -> x ∉ xListEnd l' :: ys) as Hother.
  { intros l' ys k Hl' Hne. destruct Hj as [Hj|Hj]; [by eapply free_outside|].
    destruct (mo_inside _ _ M x j l Hx Hj) as (ys' & k' & Hl'' & Hxl). rewrite Hl in Hl''. injection Hl'' as <- <-.
    intros H. by apply (rings_apart m A M l' ys k l xs i x Hl' Hl Hne (list_elem_of_further _ _ _ Hxl)). }
  split.
  - intros l' ys k. rewrite Hr. destruct (Z.eqb_spec l' l) as [->|Hne]; [by intros [= <- <-]|]. intros Hl'.
    apply (ring_frame m); [|apply Hk|by apply Hlists|by apply (mo_ring _ _ M)]. intros y Hy. apply Hlinks.
    apply not_elem_of_cons. split; [|by apply (rings_apart m A M l xs i l' ys k)]. intros ->. by apply (Hother l' ys k).
  - intros y j'. cbn [set_ring known set_field]. rewrite Hkn, Hk, Hc. destruct (Z.eqb_spec y x) as [->|]; [|apply M].
    intros [= <-]. cbn. destruct (mo_known _ _ M x j Hx) as (? & _ & ?). done.
  - intros y j' l'. cbn [set_ring known set_field]. rewrite Hkn, Hr. destruct (Z.eqb_spec y x) as [->|Hne].
    + intros [= <-] Ho'. cbn in Ho'. destruct Ho as [Ho|Ho]; [congruence|]. assert (l' = l) as -> by congruence.
      rewrite Z.eqb_refl. exists xs', i'. split; [done|]. apply Hin. by rewrite Z.eqb_refl.
    + intros Hy Hi. destruct (mo_inside _ _ M y j' l' Hy Hi) as (ys & k & Hl' & Hyin).
      destruct (Z.eqb_spec l' l) as [->|]; [|by eexists _, _]. rewrite Hl in Hl'. injection Hl' as <- <-.
      exists xs', i'. split; [done|]. apply Hin. by rewrite (proj2 (Z.eqb_neq _ _)).
  - intros l' ys k y. cbn [set_ring known set_field]. rewrite Hkn, Hr. destruct (Z.eqb_spec l' l) as [->|Hne].
    + intros [= <- <-] Hy%Hin. destruct (Z.eqb_spec y x) as [Ex|]; [subst; by eexists|]. by apply (mo_entry _ _ M l xs i y Hl).
    + intros Hl' Hy. destruct (Z.eqb_spec y x) as [->|]; [|by apply (mo_entry _ _ M l' ys k)].
      exfalso. apply (Hother l' ys k Hl' Hne). by right.
  - intros l'. rewrite Hr. cbn [set_ring known spare_items spare_lists set_field]. rewrite Hkn. intros H.
    assert (is_Some (rings A !! l') \/ l' ∈ spare_lists A) as H'.
    { destruct H as [H|H]; [|by right]. left. destruct (Z.eqb_spec l' l) as [El|]; [by rewrite El, Hl|done]. }
    destruct (mo_end _ _ M l' H') as [E1 E2]. split; [|done].
    destruct (Z.eqb_spec (xListEnd l') x) as [Ex|]; [congruence|done].
  - intros l' Hs. destruct (mo_spare_list _ _ M l' Hs) as (S1 & S2 & S3). rewrite Hr, Hk.
    destruct (Z.eqb_spec l' l) as [->|]; [congruence|]. by rewrite Hlists.
  - intros y v o' Hy. destruct (mo_spare_item _ _ M y v o' Hy) as (S1 & S2 & S3).
    cbn [set_ring known set_field]. rewrite Hkn, Hk. destruct (Z.eqb_spec y x) as [->|]; [congruence|done].
  - cbn. rewrite <- (size_dom (alter _ _ _)), dom_alter_L, size_dom. apply M.
Qed.

(** ** Insertion: [x] was put between [p] and [q], into the list [l]. *)
Record linked (m m' : memory) (p q x l : Z) : Prop := {
  lk_next y : next m' y = if y =? x then Some q else if y =? p then Some x else next m y;
  lk_prev y : prev m' y = if y =? x then Some p else if y =? q then Some x else prev m y;
  lk_container y : container m' y = if y =? x then Some l else container m y;
  lk_kept y : kept m' y = kept m y;
  lk_lists y : lists m' !! y =
    if y =? l then (fun r => r <| uxNumberOfItems := u32 (uxNumberOfItems r + 1) |>) <$> lists m !! l else lists m !! y
}.

Lemma inserted m m' A l ys zs i x j :
  models m A -> rings A !! l = Some (ys ++ zs, i) -> known A !! x = Some j -> inside j = None ->
  linked m m' (last_of (xListEnd l) ys) (hd (xListEnd l) zs) x l ->
  models m' (set_ring l (ys ++ x :: zs) i (place x (Some l) A)).
Proof.
  intros M Hl Hx Hj [Ln Lp Lc Lk Ll]. destruct (mo_ring _ _ M l _ _ Hl) as [R1 R2 R3 R4 [o R5]].
  pose proof (free_outside _ _ M x j l _ i Hx Hj Hl) as Hout. pose proof (ring_end _ _ M l _ i Hl) as Hend.
  assert (x ∉ ys ++ zs /\ x <> xListEnd l) as [Hout1 Hout2] by by apply not_elem_of_cons in Hout as [].
  apply (relinked m m' A l (ys ++ zs) i _ i x j); [done|done|done|by left|by right|..].
  - intros y. rewrite <- Permutation_middle, elem_of_cons. destruct (Z.eqb_spec y x) as [->|]; [tauto|]. by split; [intros [?|?]|right].
  - split.
    + rewrite Ll, Z.eqb_refl, R1. cbn. do 2 f_equal. pose proof (ring_room _ _ M x j l _ i Hx Hj Hl) as Hn.
      rewrite !length_app in *. cbn [length]. rewrite u32_small by (unfold is_u32; lia). lia.
    + intros y Hy. apply R2 in Hy. rewrite <- Permutation_middle. by right.
    + eapply chain_insert; [..|exact R3]; [by apply NoDup_cons|done..].
    + rewrite <- Permutation_middle. by apply NoDup_cons.
    + exists o. by rewrite Lk.
  - intros y [Hyx Hy]%not_elem_of_cons. rewrite Ln, Lp.
    assert (y <> last_of (xListEnd l) ys) as H1 by (intros ->; apply Hy, last_of_in).
    assert (y <> hd (xListEnd l) zs) as H2 by (intros ->; apply Hy, hd_of_in).
    by rewrite !(proj2 (Z.eqb_neq y _)).
  - done.
  - done.
  - intros y Hy. by rewrite Ll, (proj2 (Z.eqb_neq _ _)).
Qed.

(** ** Removal: [x] was taken out between [p] and [q]. *)
Record unlinked (m m' : memory) (p q x l : Z) : Prop := {
  ul_next y : y <> x -> next m' y = if y =? p then Some q else next m y;
  ul_prev y : y <> x -> prev m' y = if y =? q then Some p else prev m y;
  ul_container y : container m' y = if y =? x then Some 0 else container m y;
  ul_kept y : kept m' y = kept m y;
  ul_lists y : lists m' !! y =
    if y =? l then (fun r => mk_list (u32 (uxNumberOfItems r - 1)) (if pxIndex r =? x then p else pxIndex r)) <$> lists m !! l
    else lists m !! y
}.

Lemma without_out x xs : x ∉ xs -> without x xs = xs.
Proof.
  unfold without. induction xs as [|y xs IH]; intros H; [done|]. apply not_elem_of_cons in H as [H1 H2].
  rewrite filter_cons_True by done. by rewrite IH.
Qed.
Lemma without_split x ys zs : NoDup (ys ++ x :: zs) -> without x (ys ++ x :: zs) = ys ++ zs.
Proof.
  intros (_ & Hy & [Hz _]%NoDup_cons)%NoDup_app. unfold without. rewrite filter_app, filter_cons_False by (intros H; by apply H).
  fold (without x ys) (without x zs). rewrite !without_out; [done..|]. intros H. apply (Hy x H). by left.
Qed.
Lemma before_split a x ys zs : x ∉ ys -> before a x (ys ++ x :: zs) = match ys with [] => a | y :: ys' => Some (last_of y ys') end.
Proof.
  revert a. induction ys as [|y ys IH]; intros a H; cbn; [by rewrite Z.eqb_refl|].
  apply not_elem_of_cons in H as [H1 H2]. rewrite (proj2 (Z.eqb_neq _ _)) by done. rewrite IH by done. by destruct ys.
Qed.

Lemma removed m m' A l ys zs i x j :
  models m A -> rings A !! l = Some (ys ++ x :: zs, i) -> known A !! x = Some j -> inside j = Some l ->
  unlinked m m' (last_of (xListEnd l) ys) (hd (xListEnd l) zs) x l ->
  models m' (set_ring l (without x (ys ++ x :: zs)) (if decide (i = Some x) then before None x (ys ++ x :: zs) else i) (place x None A)).
Proof.
  intros M Hl Hx Hj [Ln Lp Lc Lk Ll]. destruct (mo_ring _ _ M l _ _ Hl) as [R1 R2 R3 R4 [o R5]].
  pose proof (ring_end _ _ M l _ i Hl) as Hend. pose proof (ring_length _ _ M l _ i Hl) as Hlen.
  rewrite without_split by done. pose proof R4 as (Hd1 & Hd2 & [Hd3 Hd4]%NoDup_cons)%NoDup_app.
  assert (x ∉ ys) as Hxy by (intros H; apply (Hd2 x H); by left).
  assert (xListEnd l <> x) as Hxe by (intros Ee; apply Hend; rewrite Ee; apply elem_of_app; right; by left).
  rewrite before_split by done.
  assert (forall y, y ∈ ys ++ zs -> y <> x) as Hne by (intros y [?|?]%elem_of_app ->; done).
  apply (relinked m m' A l (ys ++ x :: zs) i _ _ x j); [done|done|done|by right|by left|..].
  - intros y. destruct (Z.eqb_spec y x) as [->|]; [|rewrite !elem_of_app, elem_of_cons; tauto].
    split; [intros H; by destruct (Hne x H)|done].
  - split.
    + rewrite Ll, Z.eqb_refl, R1. cbn. rewrite !length_app in *. cbn [length] in *. do 2 f_equal.
      * rewrite u32_small by (unfold is_u32; lia). lia.
      * destruct i as [i|]; cbn.
        -- destruct (Z.eqb_spec i x) as [->|]; [rewrite decide_True by done; by destruct ys|rewrite decide_False by congruence; done].
        -- by rewrite (proj2 (Z.eqb_neq _ _)).
    + intros y. case_decide as Hi.
      * destruct ys as [|y' ys]; [done|]. intros [= <-]. apply elem_of_app. left. apply last_in.
      * intros ->. specialize (R2 y eq_refl). apply elem_of_app in R2 as [?|[->|?]%elem_of_cons]; [|done|]; apply elem_of_app; tauto.
    + eapply chain_remove; [..|exact R3]; [by apply NoDup_cons|done..].
    + apply NoDup_app. split; [done|]. split; [|done]. intros y Hy Hz. apply (Hd2 y Hy). by right.
    + exists o. by rewrite Lk.
  - intros y [Hyx Hy]%not_elem_of_cons. rewrite Ln, Lp by done.
    assert (y <> last_of (xListEnd l) ys) as H1 by (intros ->; apply Hy, last_of_in).
    assert (y <> hd (xListEnd l) zs) as H2.
    { intros ->. apply Hy. destruct zs; [by left|]. right. apply elem_of_app. right. right. by left. }
    by rewrite !(proj2 (Z.eqb_neq y _)).
  - done.
  - done.
  - intros y Hy. by rewrite Ll, (proj2 (Z.eqb_neq _ _)).
Qed.

(** ** The operations change the links like this *)
Lemma lists_relisted f l m y : lists (relisted f l m) !! y = if y =? l then f <$> lists m !! l else lists m !! y.
Proof. apply alter_at. Qed.

Lemma next_relisted f l m y : next (relisted f l m) y = next m y.
Proof. done. Qed.
Lemma prev_relisted f l m y : prev (relisted f l m) y = prev m y.
Proof. done. Qed.
Lemma container_relisted f l m y : container (relisted f l m) y = container m y.
Proof. done. Qed.
Lemma kept_relisted f l m y : kept (relisted f l m) y = kept m y.
Proof. done. Qed.
#[local] Hint Rewrite next_relisted prev_relisted container_relisted kept_relisted : fields.

(** Reads a field after assignments; what the assigned items are is decided
    by the equations in the context. *)
Ltac present := autorewrite with fields; try assumption; eauto.
Ltac field_simpl :=
  repeat first
    [ progress autorewrite with fields
    | rewrite next_set_next by present
    | rewrite prev_set_prev by present
    | rewrite container_set_container by present ].
Ltac k_step :=
  lazymatch goal with
  | |- kwp (_ ≫= _) _ _ => apply kwp_bind
  | |- kwp (mret _) _ _ => apply kwp_ret
  | |- kwp (item _) _ _ => apply kwp_item; [present|]
  | |- kwp (set_item _ _) _ _ => apply kwp_set_item; [present|]
  end.

Lemma insert_end_links m l r x p :
  lists m !! l = Some r -> let q := pxIndex r in
  prev m q = Some p -> is_Some (kept m x) -> is_Some (kept m p) -> is_Some (kept m q) -> x <> p -> x <> q ->
  kwp (vListInsertEnd l x) (fun _ m' => linked m m' p q x l) m.
Proof.
  cbv zeta. intros Hl Hq Kx Kp Kq Hxp Hxq. unfold vListInsertEnd. apply kwp_bind. eapply kwp_list; [done|]. cbv zeta.
  repeat k_step. intros i _ Hi _ _. revert Hi. field_simpl. rewrite Hq. intros [= <-].
  repeat k_step. intros i' _ Hi' _ _. revert Hi'. field_simpl. rewrite (proj2 (Z.eqb_neq _ _)), Hq by done. intros [= <-].
  repeat k_step. apply kwp_set_list; [cbn; by rewrite Hl|]. split; intros y; field_simpl.
  - destruct (Z.eqb_spec y x) as [->|]; [|done]. by rewrite (proj2 (Z.eqb_neq x _)).
  - destruct (Z.eqb_spec y x) as [->|]; [|done]. by rewrite (proj2 (Z.eqb_neq x _)).
  - done.
  - done.
  - by rewrite lists_relisted.
Qed.

Lemma remove_links m l r x p q :
  lists m !! l = Some r -> next m x = Some q -> prev m x = Some p -> container m x = Some l ->
  is_Some (kept m x) -> is_Some (kept m p) -> is_Some (kept m q) -> x <> p -> x <> q ->
  kwp (uxListRemove x) (fun n m' => unlinked m m' p q x l /\ n = u32 (uxNumberOfItems r - 1)) m.
Proof.
  intros Hl Hn Hp Hc Kx Kp Kq Hxp Hxq. unfold uxListRemove.
  k_step. k_step. intros r1 Hi1 Hi2 Hi3 _. rewrite Hn in Hi1. rewrite Hp in Hi2. rewrite Hc in Hi3.
  injection Hi1 as <-. injection Hi2 as <-. injection Hi3 as <-. cbv zeta.
  repeat k_step. intros r2 Hi1 Hi2 _ _. revert Hi1 Hi2. field_simpl. rewrite (proj2 (Z.eqb_neq x q)), Hn, Hp by done.
  intros [= <-] [= <-]. repeat k_step. apply kwp_list with r; [done|]. k_step. k_step.
  intros r3 _ Hi2 _ _. revert Hi2. field_simpl. rewrite (proj2 (Z.eqb_neq x q)), Hp by done. intros [= <-]. k_step.
  set (m1 := altered _ p (altered _ q m)).
  set (i := if pxIndex r =? x then p else pxIndex r).
  eapply kwp_mono with (P := fun _ m' => m' = relisted (fun _ => mk_list (uxNumberOfItems r) i) l m1).
  - unfold i. destruct (pxIndex r =? x) eqn:Ei.
    + unfold kwp, set_list, relisted. cbn. rewrite Hl. f_equal. apply map_eq. intros y. rewrite alter_at.
      destruct (Z.eqb_spec y l) as [->|]; [by rewrite Hl, lookup_insert_eq|by rewrite lookup_insert_ne].
    + unfold kwp, relisted. cbn. destruct m as [its ls]. unfold m1, altered. f_equal. apply map_eq. intros y. rewrite alter_at. cbn in *.
      destruct (Z.eqb_spec y l) as [->|]; [|done]. rewrite Hl. by destruct r.
  - intros [] m' ->. unfold m1. repeat k_step. apply kwp_set_list; [cbn; rewrite alter_at, Z.eqb_refl, Hl; by eexists|].
    k_step. eapply kwp_list; [cbn; rewrite !alter_at, Z.eqb_refl, Hl; done|]. apply kwp_ret.
    split; [|done]. split; intros y; field_simpl; [done..|]. rewrite lists_relisted.
    cbn. rewrite !alter_at, Z.eqb_refl, Hl. by destruct (y =? l).
Qed.

Lemma last_of_app a ys y : last_of a (ys ++ [y]) = y.
Proof. revert a. by induction ys as [|z ys IH]; intros a; [|apply IH]. Qed.

Lemma insert_sorted_at val x ws zs :
  Forall (fun y => val y <= val x) ws -> match zs with [] => True | z :: _ => val x < val z end ->
  insert_sorted val x (ws ++ zs) = ws ++ x :: zs.
Proof.
  intros Hw Hz. induction Hw as [|w ws Hle Hw IH]; cbn.
  - destruct zs as [|z zs]; [done|]. cbn. by rewrite (proj2 (Z.leb_gt _ _)).
  - by rewrite (proj2 (Z.leb_le _ _)), IH.
Qed.

Section Insert.
Context (m : memory) (A : kernel_lists) (M : models m A) (l : Z) (xs : list Z) (i : option Z).
Context (Hl : rings A !! l = Some (xs, i)).

Lemma entry_value y : y ∈ xs -> exists o, kept m y = Some (val_of A y, o) /\ is_u32 (val_of A y).
Proof.
  intros Hy. destruct (mo_entry _ _ M l xs i y Hl Hy) as (j & Hj & _). destruct (mo_known _ _ M y j Hj) as (Hk & _ & Hu).
  exists (owner j). unfold val_of. by rewrite Hj.
Qed.

Lemma insertion_point_ok v ys zs fuel :
  xs = ys ++ zs -> v < portMAX_DELAY -> (length zs < fuel)%nat ->
  kwp (insertion_point fuel v (last_of (xListEnd l) ys))
    (fun p m' => m' = m /\ exists ws zs', zs = ws ++ zs' /\ p = last_of (xListEnd l) (ys ++ ws) /\
       Forall (fun y => val_of A y <= v) ws /\ match zs' with [] => True | z :: _ => v < val_of A z end) m.
Proof.
  intros Hxs Hv. revert ys zs Hxs. induction fuel as [|fuel IH]; intros ys zs Hxs Hf; [lia|]. cbn [insertion_point].
  destruct (mo_ring _ _ M l xs i Hl) as [_ _ R3 _ [o R5]]. rewrite Hxs in R3. destruct (chain_at _ _ _ _ _ _ R3) as [Hn Hp].
  pose proof (last_of_in (xListEnd l) ys zs) as Hlast. rewrite <- Hxs in Hlast.
  apply kwp_bind, kwp_item; [by eapply entry_kept|]. intros it Hit _ _ _. rewrite Hn in Hit. injection Hit as <-.
  destruct zs as [|z zs].
  - cbn [hd]. apply kwp_bind, kwp_item; [by rewrite R5|]. intros e _ _ _ He. rewrite R5 in He. injection He as <- _.
    rewrite (proj2 (Z.leb_gt _ _)) by done. apply kwp_ret. split; [done|]. exists [], []. rewrite (app_nil_r ys). by split_and!.
  - cbn [hd]. assert (z ∈ xs) as Hz by (rewrite Hxs; apply elem_of_app; right; by left).
    destruct (entry_value z Hz) as (oz & Hz1 & Hz2). apply kwp_bind, kwp_item; [by rewrite Hz1|].
    intros e _ _ _ He. rewrite Hz1 in He. injection He as <- _. destruct (Z.leb_spec (val_of A z) v) as [Hle|Hgt].
    + specialize (IH (ys ++ [z]) zs). rewrite <- app_assoc, last_of_app in IH. cbn [length] in Hf.
      eapply kwp_mono; [apply IH; [done|lia]|]. intros p m' (-> & ws & zs' & -> & -> & Hw & Hz'). split; [done|].
      exists (z :: ws), zs'. rewrite <- app_assoc. split_and!; try done. by apply Forall_cons.
    + apply kwp_ret. split; [done|]. exists [], (z :: zs). rewrite (app_nil_r ys). by split_and!.
Qed.

Lemma fuel_enough : (length xs < size (items m))%nat.
Proof.
  destruct (mo_ring _ _ M l xs i Hl) as [_ _ _ R4 _].
  assert (NoDup (xListEnd l :: xs)) as Hd by (apply NoDup_cons; split; [by eapply ring_end|done]).
  change (S (length xs) <= size (items m))%nat. change (S (length xs)) with (length (xListEnd l :: xs)).
  rewrite <- (size_list_to_set (C := gset Z) (xListEnd l :: xs)) by done. rewrite <- size_dom. apply subseteq_size.
  intros y Hy%elem_of_list_to_set. apply elem_of_dom.
  pose proof (entry_kept _ _ M l xs i y Hl Hy) as Hk. unfold kept in Hk. by apply fmap_is_Some in Hk.
Qed.

Lemma insert_links x p q :
  next m p = Some q -> is_Some (kept m x) -> is_Some (kept m p) -> is_Some (kept m q) -> x <> p -> x <> q ->
  is_Some (lists m !! l) ->
  kwp (it ← item p;
       set_item x (fun n => n <| pxNext := pxNext it |>);;
       n ← item x;
       set_item (pxNext n) (fun i => i <| pxPrevious := x |>);;
       set_item x (fun n => n <| pxPrevious := p |>);;
       set_item p (fun i => i <| pxNext := x |>);;
       set_item x (fun n => n <| pxContainer := l |>);;
       set_list l (fun l => l <| uxNumberOfItems := u32 (uxNumberOfItems l + 1) |>))
    (fun _ m' => linked m m' p q x l) m.
Proof.
  intros Hq Kx Kp Kq Hxp Hxq Hls. k_step. apply kwp_item; [done|]. intros it Hi _ _ _. rewrite Hq in Hi. injection Hi as <-.
  repeat k_step. intros n Hn _ _ _. revert Hn. field_simpl. rewrite Z.eqb_refl. intros [= <-].
  repeat k_step. apply kwp_set_list; [done|]. split; intros y; field_simpl.
  - destruct (Z.eqb_spec y x) as [->|]; [|done]. by rewrite (proj2 (Z.eqb_neq x _)).
  - done.
  - done.
  - done.
  - by rewrite lists_relisted.
Qed.

Lemma insert_ok x j :
  known A !! x = Some j -> inside j = None ->
  kwp (vListInsert l x) (fun _ m' => models m' (set_ring l (insert_sorted (val_of A) x xs) i (place x (Some l) A))) m.
Proof.
  intros Hx Hj. destruct (mo_known _ _ M x j Hx) as (Kx & _ & Hu). assert (val_of A x = value j) as Hv by (unfold val_of; by rewrite Hx).
  unfold vListInsert. apply kwp_bind, kwp_item; [by rewrite Kx|]. intros n _ _ _ Hn. rewrite Kx in Hn. injection Hn as <- _. cbv zeta.
  apply kwp_bind. pose proof (free_outside _ _ M x j l xs i Hx Hj Hl) as Hout.
  destruct (mo_ring _ _ M l xs i Hl) as [R1 _ R3 R4 [o R5]].
  eapply kwp_mono with (P := fun p m' => m' = m /\ exists ys zs, xs = ys ++ zs /\ p = last_of (xListEnd l) ys /\
    insert_sorted (val_of A) x xs = ys ++ x :: zs).
  - destruct (Z.eqb_spec (value j) portMAX_DELAY) as [Hmax|Hmax].
    + pose proof R3 as R3'. rewrite <- (app_nil_r xs) in R3'. destruct (chain_at _ _ _ _ _ _ R3') as [_ Hp]. cbn [hd] in Hp.
      apply kwp_bind, kwp_item; [by rewrite R5|]. intros e _ He _ _. rewrite Hp in He. injection He as <-. apply kwp_ret.
      split; [done|]. exists xs, []. rewrite app_nil_r. split; [done|]. split; [done|].
      rewrite <- (insert_sorted_at (val_of A) x xs []); [by rewrite app_nil_r| |done].
      apply Forall_forall. intros y Hy. destruct (entry_value y Hy) as (_ & _ & H). rewrite Hv, Hmax. unfold is_u32, portMAX_DELAY in *. lia.
    + eapply kwp_mono; [apply (insertion_point_ok (value j) [] xs (size (items m)))|].
      * done.
      * unfold is_u32, portMAX_DELAY in *. lia.
      * apply fuel_enough.
      * intros p m' (-> & ws & zs & E & -> & Hw & Hz). split; [done|]. exists ws, zs. split; [done|]. split; [done|].
        rewrite E. apply insert_sorted_at; by rewrite Hv.
  - intros p m' (-> & ys & zs & Hxs & -> & ->). rewrite Hxs in Hl, Hout, R3. destruct (chain_at _ _ _ _ _ _ R3) as [Hn _].
    eapply kwp_mono; [apply (insert_links x (last_of (xListEnd l) ys) (hd (xListEnd l) zs)); try done|].
    + eapply entry_kept; [done..|]. apply last_of_in.
    + eapply entry_kept; [done..|]. apply hd_of_in.
    + intros ->. apply Hout, last_of_in.
    + intros ->. apply Hout, hd_of_in.
    + intros [] m' Hlk. by eapply inserted.
Qed.
End Insert.

(** ** Every operation *)
Section Operations.
Context (m : memory) (A : kernel_lists) (M : models m A).

Lemma insert_before_split k x xs :
  exists ys zs, insert_before k x xs = ys ++ x :: zs /\ xs = ys ++ zs /\
    match k with Some y => y ∈ xs -> head zs = Some y | None => zs = [] end.
Proof.
  induction xs as [|y xs (ys & zs & E & -> & Hk)]; cbn.
  - exists [], []. split; [done|]. split; [done|]. destruct k; [|done]. by intros H%not_elem_of_nil.
  - case_decide as Hy.
    + exists [], (y :: ys ++ zs). split; [done|]. split; [done|]. by rewrite Hy.
    + exists (y :: ys), zs. split; [by rewrite E|]. split; [done|]. destruct k as [k|]; [|done].
      intros [Ek|H]%elem_of_cons; [congruence|by apply Hk].
Qed.

Lemma insert_end_ok l xs i x j :
  rings A !! l = Some (xs, i) -> known A !! x = Some j -> inside j = None ->
  kwp (vListInsertEnd l x) (fun _ m' => models m' (set_ring l (insert_before i x xs) i (place x (Some l) A))) m.
Proof.
  intros Hl Hx Hj. destruct (mo_known _ _ M x j Hx) as (Kx & _ & _). pose proof (free_outside _ _ M x j l xs i Hx Hj Hl) as Hout.
  destruct (insert_before_split i x xs) as (ys & zs & -> & -> & Hi).
  destruct (mo_ring _ _ M l _ i Hl) as [R1 R2 R3 _ _]. destruct (chain_at _ _ _ _ _ _ R3) as [_ Hp].
  assert (default (xListEnd l) i = hd (xListEnd l) zs) as E.
  { destruct i as [i|]; [|by rewrite Hi]. specialize (Hi (R2 i eq_refl)). destruct zs; [done|]. by injection Hi as ->. }
  eapply kwp_mono; [apply (insert_end_links m l _ x (last_of (xListEnd l) ys) R1); cbn; rewrite ?E|].
  - done.
  - by rewrite Kx.
  - eapply entry_kept; [done..|]. apply last_of_in.
  - eapply entry_kept; [done..|]. apply hd_of_in.
  - intros ->. apply Hout, last_of_in.
  - intros ->. apply Hout, hd_of_in.
  - cbn. rewrite E. intros [] m' Hlk. by eapply inserted.
Qed.

Lemma remove_ok l xs i x j :
  rings A !! l = Some (xs, i) -> known A !! x = Some j -> inside j = Some l ->
  kwp (uxListRemove x) (fun n m' => n = Z.of_nat (length xs) - 1 /\
    models m' (set_ring l (without x xs) (if decide (i = Some x) then before None x xs else i) (place x None A))) m.
Proof.
  intros Hl Hx Hj. destruct (mo_known _ _ M x j Hx) as (Kx & Cx & _). rewrite Hj in Cx. cbn in Cx.
  destruct (mo_inside _ _ M x j l Hx Hj) as (xs' & i' & Hl' & Hin). rewrite Hl in Hl'. injection Hl' as <- <-.
  pose proof (ring_end _ _ M l xs i Hl) as Hend. pose proof (ring_length _ _ M l xs i Hl) as Hlen.
  apply list_elem_of_split in Hin as (ys & zs & ->). destruct (mo_ring _ _ M l _ i Hl) as [R1 R2 R3 R4 _].
  destruct (chain_at _ _ _ ys _ _ R3) as [_ Hp]. cbn [hd] in Hp.
  replace (ys ++ x :: zs) with ((ys ++ [x]) ++ zs) in R3 by by rewrite <- app_assoc.
  destruct (chain_at _ _ _ _ _ _ R3) as [Hn _]. rewrite last_of_app in Hn.
  assert (NoDup (xListEnd l :: ys ++ x :: zs)) as Hd by by apply NoDup_cons.
  assert (last_of (xListEnd l) ys ∈ xListEnd l :: ys) as Hlast by apply last_in.
  rewrite app_comm_cons in Hd. apply NoDup_app in Hd as (_ & Hd & [Hxz _]%NoDup_cons).
  eapply kwp_mono; [apply (remove_links m l _ x _ _ R1 Hn Hp Cx)|].
  - by rewrite Kx.
  - eapply entry_kept; [done..|]. apply last_of_in.
  - eapply entry_kept; [done..|]. destruct zs as [|z zs]; [by left|]. right. apply elem_of_app. right. right. by left.
  - intros E. apply (Hd x); [by rewrite E at 1|by left].
  - destruct zs as [|z zs]; cbn [hd]; [|intros ->; apply Hxz; by left]. intros E. apply Hend. rewrite <- E.
    apply elem_of_app. right. by left.
  - intros n m' (Hu & ->). split; [|by eapply removed].
    rewrite length_app in *. cbn [uxNumberOfItems length] in *. rewrite u32_small; unfold is_u32; lia.
Qed.

Lemma behind_split y ys zs : y ∉ ys -> behind y (ys ++ y :: zs) = head zs.
Proof.
  induction ys as [|z ys IH]; intros H; cbn; [by rewrite Z.eqb_refl|]. apply not_elem_of_cons in H as [H1 H2].
  rewrite (proj2 (Z.eqb_neq _ _)) by done. by apply IH.
Qed.
Lemma hd_head (b : Z) xs : hd b xs = default b (head xs).
Proof. by destruct xs. Qed.

(** What the index or the end marker links to. *)
Lemma ring_next l xs i : rings A !! l = Some (xs, i) ->
  next m (default (xListEnd l) i) = Some (default (xListEnd l) (match i with None => head xs | Some i => behind i xs end)).
Proof.
  intros Hl. destruct (mo_ring _ _ M l _ i Hl) as [R1 R2 R3 R4 _]. destruct i as [i|]; cbn [from_option id].
  - specialize (R2 i eq_refl). apply list_elem_of_split in R2 as (ys & zs & ->).
    apply NoDup_app in R4 as (_ & Hy & _). rewrite behind_split by (intros H; apply (Hy i H); by left).
    replace (ys ++ i :: zs) with ((ys ++ [i]) ++ zs) in R3 by by rewrite <- app_assoc.
    destruct (chain_at _ _ _ _ _ _ R3) as [Hn _]. rewrite last_of_app in Hn. by rewrite Hn, hd_head.
  - destruct (chain_at _ _ _ [] xs _ R3) as [Hn _]. cbn [last_of] in Hn. rewrite hd_head in Hn. exact Hn.
Qed.
Lemma index_kept l xs i : rings A !! l = Some (xs, i) -> is_Some (kept m (default (xListEnd l) i)).
Proof.
  intros Hl. eapply entry_kept; [done..|]. destruct i as [i|]; [|by left]. right.
  by apply (rg_index _ _ _ _ (mo_ring _ _ M l _ _ Hl)).
Qed.
Lemma entry_owner l xs i x : rings A !! l = Some (xs, i) -> x ∈ xs -> exists v, kept m x = Some (v, owner_of A x).
Proof.
  intros Hl Hx. destruct (mo_entry _ _ M l xs i x Hl Hx) as (j & Hj & _). destruct (mo_known _ _ M x j Hj) as (Hk & _).
  exists (value j). unfold owner_of. by rewrite Hj.
Qed.

Lemma head_owner_ok l x xs i : rings A !! l = Some (x :: xs, i) ->
  kwp (listGET_OWNER_OF_HEAD_ENTRY l) (fun o m' => o = owner_of A x /\ m' = m) m.
Proof.
  intros Hl. destruct (mo_ring _ _ M l _ i Hl) as [_ _ (Hn & _) _ [o R5]]. destruct (entry_owner l _ i x Hl) as [v Kx]; [by left|].
  apply kwp_bind, kwp_item; [by rewrite R5|]. intros e He _ _ _. rewrite Hn in He. injection He as <-.
  apply kwp_bind, kwp_item; [by rewrite Kx|]. intros h _ _ _ Hh. rewrite Kx in Hh. injection Hh as _ <-. by apply kwp_ret.
Qed.

Lemma place_same x j : known A !! x = Some j -> place x (inside j) A = A.
Proof.
  intros Hx. destruct A as [kn rs si sl]. unfold place. cbn in *. f_equal. apply map_eq. intros y. rewrite alter_at.
  destruct (Z.eqb_spec y x) as [->|]; [|done]. rewrite Hx. by destruct j.
Qed.
Lemma reindexed m' l xs i x : rings A !! l = Some (xs, i) -> x ∈ xs -> items m' = items m ->
  (forall y, lists m' !! y = if y =? l then Some (mk_list (Z.of_nat (length xs)) x) else lists m !! y) ->
  models m' (set_ring l xs (Some x) A).
Proof.
  intros Hl Hx Hi Hls. destruct (mo_entry _ _ M l xs i x Hl Hx) as (j & Hj & Hin).
  rewrite <- (place_same x j Hj), Hin. destruct (mo_ring _ _ M l _ i Hl) as [R1 R2 R3 R4 R5].
  assert (forall y, next m' y = next m y) as En by (intros; unfold next; by rewrite Hi).
  assert (forall y, prev m' y = prev m y) as Ep by (intros; unfold prev; by rewrite Hi).
  assert (forall y, kept m' y = kept m y) as Ek by (intros; unfold kept; by rewrite Hi).
  apply (relinked m m' A l xs i xs (Some x) x j (Some l)); try done; [by right|by right|..].
  - intros y. by destruct (Z.eqb_spec y x) as [->|].
  - split; [by rewrite Hls, Z.eqb_refl|by intros y [= <-]| |done|].
    + revert R3. apply chain_frame; intros; [apply En|apply Ep].
    + by rewrite Ek.
  - intros y. unfold container. rewrite Hi. destruct (Z.eqb_spec y x) as [->|]; [|done].
    destruct (mo_known _ _ M x j Hj) as (_ & Hc & _). by rewrite Hin in Hc.
  - intros y Hy. by rewrite Hls, (proj2 (Z.eqb_neq _ _)).
Qed.

Lemma next_owner_ok l xs i x : rings A !! l = Some (xs, i) -> next_round i xs = Some x -> x ∈ xs ->
  kwp (listGET_OWNER_OF_NEXT_ENTRY l) (fun o m' => o = owner_of A x /\ models m' (set_ring l xs (Some x) A)) m.
Proof.
  intros Hl Hr Hx. pose proof (mo_ring _ _ M l _ i Hl) as [R1 R2 R3 R4 [oe R5]].
  destruct (entry_owner l xs i x Hl Hx) as [v Kx]. pose proof (ring_end _ _ M l xs i Hl) as Hend.
  assert (x <> xListEnd l) as Hne by congruence.
  unfold listGET_OWNER_OF_NEXT_ENTRY. apply kwp_bind. eapply kwp_list; [done|]. cbn [pxIndex].
  apply kwp_bind, kwp_item; [by eapply index_kept|]. intros it Hi _ _ _.
  rewrite (ring_next l xs i Hl) in Hi. injection Hi as Hi. apply kwp_bind, kwp_set_list; [by rewrite R1|].
  apply kwp_bind. eapply kwp_list; [cbn; rewrite alter_at, Z.eqb_refl, R1; done|]. cbn [pxIndex set_field].
  apply kwp_bind. set (m1 := relisted _ l m).
  assert (lists m1 !! l = Some (mk_list (Z.of_nat (length xs)) (pxNext it))) as L1 by (cbn; by rewrite alter_at, Z.eqb_refl, R1).
  eapply kwp_mono with (P := fun _ m' => items m' = items m /\
    forall y, lists m' !! y = if y =? l then Some (mk_list (Z.of_nat (length xs)) x) else lists m !! y).
  - assert (match i with Some i => behind i xs | None => head xs end = Some x \/
            match i with Some i => behind i xs | None => head xs end = None /\ head xs = Some x) as [E|[E E']].
    { destruct i as [i|]; cbn in Hr; [destruct (behind i xs); auto|by left]. }
    + rewrite E in Hi. cbn in Hi. rewrite <- Hi in L1 |- *. rewrite (proj2 (Z.eqb_neq _ _)) by done. apply kwp_ret.
      split; [done|]. intros y. destruct (Z.eqb_spec y l) as [->|]; [done|]. cbn. by rewrite alter_at, (proj2 (Z.eqb_neq _ _)).
    + rewrite E in Hi. cbn in Hi. rewrite <- Hi in L1 |- *. rewrite Z.eqb_refl.
      apply kwp_bind, kwp_item; [unfold m1; by rewrite kept_relisted, R5|]. intros e He _ _ _.
      unfold m1 in He. rewrite next_relisted in He. destruct (chain_at _ _ _ [] xs _ R3) as [Hn _]. cbn [last_of] in Hn.
      rewrite Hn, hd_head, E' in He. injection He as <-. apply kwp_set_list; [by rewrite L1|]. split; [done|].
      intros y. rewrite lists_relisted, L1. destruct (Z.eqb_spec y l) as [->|]; [done|]. cbn. by rewrite alter_at, (proj2 (Z.eqb_neq _ _)).
  - intros [] m' [Hi' Hls]. apply kwp_bind. eapply kwp_list; [by rewrite Hls, Z.eqb_refl|]. cbn [pxIndex].
    apply kwp_bind, kwp_item; [unfold kept; by rewrite Hi'; fold (kept m x); rewrite Kx|]. intros h _ _ _ Hh.
    unfold kept in Hh. rewrite Hi' in Hh. fold (kept m x) in Hh. rewrite Kx in Hh. injection Hh as _ <-.
    apply kwp_ret. split; [done|]. by apply (reindexed m' l xs i x).
Qed.

Lemma rekept m' x v o j : known A !! x = Some j -> is_u32 v ->
  (forall y, next m' y = next m y) -> (forall y, prev m' y = prev m y) -> (forall y, container m' y = container m y) ->
  (forall y, kept m' y = if y =? x then Some (v, o) else kept m y) -> lists m' = lists m ->
  models m' (A <| known := <[x := mk_info v o (inside j)]> (known A) |>).
Proof.
  intros Hx Hv Hn Hp Hc Hkept Hls. destruct (mo_known _ _ M x j Hx) as (Kx & Cx & _).
  assert (forall y, known (A <| known := <[x := mk_info v o (inside j)]> (known A) |>) !! y =
    if y =? x then Some (mk_info v o (inside j)) else known A !! y) as Hkn by (intros y; apply lookup_insert_case).
  split; cbn [rings spare_items spare_lists set_field].
  - intros l xs i Hl. apply (ring_frame m).
    + intros y _. by rewrite Hn, Hp.
    + destruct (mo_end _ _ M l (or_introl (mk_is_Some _ _ Hl))) as [E1 _]. rewrite Hkept, (proj2 (Z.eqb_neq _ _)); congruence.
    + by rewrite Hls.
    + by apply (mo_ring _ _ M).
  - intros y j'. rewrite Hc, Hkn, Hkept. destruct (Z.eqb_spec y x) as [->|]; [|apply M].
    intros [= <-]. by rewrite Cx.
  - intros y j' l. rewrite Hkn. destruct (Z.eqb_spec y x) as [->|]; [intros [= <-]; by apply (mo_inside _ _ M x j)|apply M].
  - intros l xs i y Hl Hy. rewrite Hkn. destruct (mo_entry _ _ M l xs i y Hl Hy) as (j' & Hj' & Hi).
    destruct (Z.eqb_spec y x) as [->|]; [|by eexists]. eexists. split; [done|]. cbn. congruence.
  - intros l Hl. rewrite Hkn. destruct (mo_end _ _ M l Hl) as [E1 E2]. split; [|done].
    destruct (Z.eqb_spec (xListEnd l) x) as [Ex|]; [congruence|done].
  - intros l Hl. destruct (mo_spare_list _ _ M l Hl) as (S1 & S2 & S3). split; [done|]. rewrite Hls. split; [|done].
    rewrite Hkept. by destruct (_ =? _).
  - intros y w o' Hy. destruct (mo_spare_item _ _ M y w o' Hy) as (S1 & S2 & S3). rewrite Hkn, Hkept.
    destruct (Z.eqb_spec y x) as [->|]; [congruence|done].
  - cbn. rewrite map_size_insert_Some by by rewrite Hx. apply M.
Qed.
Lemma alter_insert {V} (f : V -> V) (p : Z) (v : V) (mp : gmap Z V) : mp !! p = Some v -> alter f p mp = <[p := f v]> mp.
Proof. intros Hp. apply map_eq. intros y. rewrite alter_at, lookup_insert_case, Hp. done. Qed.
Lemma set_value_ok x v j : known A !! x = Some j -> is_u32 v ->
  kwp (listSET_LIST_ITEM_VALUE x v)
    (fun _ m' => models m' (A <| known := alter (fun i => mk_info v (owner i) (inside i)) x (known A) |>)) m.
Proof.
  intros Hx Hv. destruct (mo_known _ _ M x j Hx) as (Kx & _ & _). apply kwp_set_item; [by rewrite Kx|].
  rewrite (alter_insert _ x j) by done. apply rekept; intros; autorewrite with fields; try done. by apply kept_set_value with (value j).
Qed.
Lemma set_owner_ok x o j : known A !! x = Some j ->
  kwp (listSET_LIST_ITEM_OWNER x o)
    (fun _ m' => models m' (A <| known := alter (fun i => mk_info (value i) o (inside i)) x (known A) |>)) m.
Proof.
  intros Hx. destruct (mo_known _ _ M x j Hx) as (Kx & _ & Hv). apply kwp_set_item; [by rewrite Kx|].
  rewrite (alter_insert _ x j) by done. apply rekept; intros; autorewrite with fields; try done. by apply kept_set_owner with (owner j).
Qed.
Lemma head_value_ok l xs i : rings A !! l = Some (xs, i) ->
  kwp (listGET_ITEM_VALUE_OF_HEAD_ENTRY l)
    (fun v m' => v = match xs with x :: _ => val_of A x | [] => portMAX_DELAY end /\ m' = m) m.
Proof.
  intros Hl. destruct (mo_ring _ _ M l _ i Hl) as [_ _ R3 _ [o R5]]. destruct (chain_at _ _ _ [] xs _ R3) as [Hn _].
  apply kwp_bind, kwp_item; [by rewrite R5|]. intros e He _ _ _. cbn [last_of] in Hn. rewrite Hn in He. injection He as <-.
  destruct xs as [|x xs]; cbn [hd].
  - apply kwp_bind, kwp_item; [by rewrite R5|]. intros h _ _ _ Hh. rewrite R5 in Hh. injection Hh as <- _. by apply kwp_ret.
  - destruct (entry_value m A M l _ i Hl x) as (ox & Kx & _); [by left|].
    apply kwp_bind, kwp_item; [by rewrite Kx|]. intros h _ _ _ Hh. rewrite Kx in Hh. injection Hh as <- _. by apply kwp_ret.
Qed.

Lemma initialise_item_ok x v o : spare_items A !! x = Some (v, o) ->
  kwp (vListInitialiseItem x)
    (fun _ m' => models m' (A <| known := <[x := mk_info v o None]> (known A) |> <| spare_items := delete x (spare_items A) |>)) m.
Proof.
  intros Hx. destruct (mo_spare_item _ _ M x v o Hx) as (Hkx & Kx & Hv). apply kwp_set_item; [by rewrite Kx|].
  set (m' := altered _ x m). split; cbn [known rings spare_items spare_lists set_field].
  - intros l xs i Hl. apply (ring_frame m).
    + intros y _. unfold m'. by rewrite next_set_container, prev_set_container.
    + unfold m'. by rewrite kept_set_container.
    + done.
    + by apply (mo_ring _ _ M).
  - intros y j. unfold m'. rewrite lookup_insert_case, kept_set_container, container_set_container by by rewrite Kx.
    destruct (Z.eqb_spec y x) as [->|]; [by intros [= <-]|apply M].
  - intros y j l. rewrite lookup_insert_case. destruct (Z.eqb_spec y x) as [->|]; [by intros [= <-]|apply M].
  - intros l xs i y Hl Hy. rewrite lookup_insert_case. destruct (Z.eqb_spec y x) as [->|]; [|by apply (mo_entry _ _ M l xs i)].
    destruct (mo_entry _ _ M l xs i x Hl Hy) as (j & Hj & _). congruence.
  - intros l Hl. destruct (mo_end _ _ M l Hl) as [E1 E2]. rewrite lookup_insert_case, lookup_delete_None.
    destruct (Z.eqb_spec (xListEnd l) x) as [Ex|]; [congruence|]. split; [done|by right].
  - intros l Hl. destruct (mo_spare_list _ _ M l Hl) as (S1 & S2 & S3). unfold m'. by rewrite kept_set_container.
  - intros y w o' [Hne Hy]%lookup_delete_Some. destruct (mo_spare_item _ _ M y w o' Hy) as (S1 & S2 & S3). unfold m'.
    by rewrite lookup_insert_case, kept_set_container, (proj2 (Z.eqb_neq _ _)).
  - cbn. pose proof (mo_few _ _ M). rewrite map_size_insert_None by done. rewrite map_size_delete, Hx.
    assert (size (spare_items A) <> 0%nat) by (intros E; apply map_size_empty_inv in E; by rewrite E in Hx). cbn. lia.
Qed.

Lemma initialise_ok l : l ∈ spare_lists A ->
  kwp (vListInitialise l) (fun _ m' => models m' (set_ring l [] None A <| spare_lists := spare_lists A ∖ {[l]} |>)) m.
Proof.
  intros Hl. destruct (mo_spare_list _ _ M l Hl) as (Hr & Kl & [r Ll]). destruct (mo_end _ _ M l (or_intror Hl)) as [E1 E2].
  destruct Kl as [[w o] Kl]. unfold vListInitialise. k_step. apply kwp_set_list; [by rewrite Ll|].
  assert (forall y, kept (altered (fun i => i <| xItemValue := portMAX_DELAY |>) (xListEnd l) (relisted (fun r => r <| pxIndex := xListEnd l |>) l m)) y =
    if y =? xListEnd l then Some (portMAX_DELAY, o) else kept m y) as Hkept.
  { intros y. by rewrite (kept_set_value _ _ _ w o) by by rewrite kept_relisted. }
  do 2 k_step. do 2 (k_step; k_step; [rewrite Hkept, Z.eqb_refl; by eexists|]).
  apply kwp_set_list; [cbn; by rewrite alter_at, Z.eqb_refl, Ll|].
  assert (forall l' y i xs, rings A !! l' = Some (xs, i) -> y ∈ xListEnd l' :: xs -> y <> xListEnd l) as Hout.
  { intros l' y i xs Hl' Hy ->. apply elem_of_cons in Hy as [Hy|Hy].
    - unfold xListEnd in Hy. assert (l' = l) as -> by lia. congruence.
    - destruct (mo_entry _ _ M l' xs i _ Hl' Hy) as (j & Hj & _). congruence. }
  set (m' := relisted _ l (altered _ _ _)).
  assert (forall y, next m' y = if y =? xListEnd l then Some (xListEnd l) else next m y) as Hnext.
  { intros y. unfold m'. autorewrite with fields. rewrite next_set_next by (rewrite Hkept, Z.eqb_refl; by eexists). by field_simpl. }
  assert (forall y, prev m' y = if y =? xListEnd l then Some (xListEnd l) else prev m y) as Hprev.
  { intros y. unfold m'. autorewrite with fields. rewrite prev_set_prev by (autorewrite with fields; rewrite Hkept, Z.eqb_refl; by eexists). by field_simpl. }
  assert (forall y, kept m' y = if y =? xListEnd l then Some (portMAX_DELAY, o) else kept m y) as Hk.
  { intros y. unfold m'. autorewrite with fields. apply Hkept. }
  assert (forall y, container m' y = container m y) as Hc by (intros y; unfold m'; by field_simpl).
  assert (forall y, lists m' !! y = if y =? l then Some (mk_list 0 (xListEnd l)) else lists m !! y) as Hls.
  { intros y. unfold m'. rewrite lists_relisted. cbn. rewrite !alter_at, Z.eqb_refl, Ll. by destruct (y =? l). }
  clearbody m'. clear Hkept.
  split; cbn [set_ring known rings spare_items spare_lists set_field].
  - intros l' xs i. rewrite lookup_insert_case. destruct (Z.eqb_spec l' l) as [->|Hne].
    + intros [= <- <-]. split; [|done| | |].
      * by rewrite Hls, Z.eqb_refl.
      * cbn [chain]. by rewrite Hnext, Hprev, Z.eqb_refl.
      * by constructor.
      * exists o. by rewrite Hk, Z.eqb_refl.
    + intros Hl'. apply (ring_frame m); [| | |by apply (mo_ring _ _ M)].
      * intros y Hy. specialize (Hout l' y i xs Hl' Hy).
        by rewrite Hnext, Hprev, (proj2 (Z.eqb_neq _ _)).
      * rewrite Hk, (proj2 (Z.eqb_neq _ _)); [done|]. apply (Hout l' _ i xs Hl'). by left.
      * by rewrite Hls, (proj2 (Z.eqb_neq _ _)).
  - intros y j Hj. rewrite Hk, Hc. destruct (Z.eqb_spec y (xListEnd l)) as [->|]; [congruence|by apply M].
  - intros y j l' Hy Hi. rewrite lookup_insert_case. destruct (mo_inside _ _ M y j l' Hy Hi) as (xs & i & Hl' & Hin).
    destruct (Z.eqb_spec l' l) as [->|]; [congruence|by eexists _, _].
  - intros l' xs i y. rewrite lookup_insert_case. destruct (Z.eqb_spec l' l) as [->|]; [|apply M].
    intros [= <- <-] Hy. by apply not_elem_of_nil in Hy.
  - intros l'. rewrite lookup_insert_case. intros Hl'. destruct (Z.eqb_spec l' l) as [El|]; [by rewrite El|]. apply (mo_end _ _ M).
    destruct Hl' as [Hl'|[? _]%elem_of_difference]; [by left|by right].
  - intros l' [Hl' Hne%not_elem_of_singleton]%elem_of_difference. destruct (mo_spare_list _ _ M l' Hl') as (S1 & S2 & S3).
    rewrite lookup_insert_case, (proj2 (Z.eqb_neq _ _)) by done. split; [done|]. split.
    + rewrite Hk. by destruct (_ =? _).
    + by rewrite Hls, (proj2 (Z.eqb_neq _ _)).
  - intros y v o' Hy. destruct (mo_spare_item _ _ M y v o' Hy) as (S1 & S2 & S3). split; [done|]. rewrite Hk.
    destruct (Z.eqb_spec y (xListEnd l)) as [->|]; [congruence|done].
  - apply M.
Qed.
End Operations.

Lemma kwp_read {B} p (f : ListItem_t -> B) Q m :
  is_Some (kept m p) ->
  (forall i, container m p = Some (pxContainer i) -> kept m p = Some (xItemValue i, pvOwner i) -> Q (f i) m) ->
  kwp (i ← item p; mret (f i)) Q m.
Proof. intros Hp HQ. apply kwp_bind, kwp_item; [done|]. intros i _ _ Hc Hk. apply kwp_ret. by apply HQ. Qed.

Lemma next_round_in i x xs : (forall y, i = Some y -> y ∈ x :: xs) ->
  exists y, next_round i (x :: xs) = Some y /\ y ∈ x :: xs.
Proof.
  intros Hi. destruct i as [i|]; cbn [next_round head]; [|exists x; split; [done|by left]].
  destruct (behind i (x :: xs)) as [y|] eqn:E; [|exists x; split; [done|by left]]. exists y. split; [done|].
  revert E. generalize (x :: xs). intros ys. clear. induction ys as [|z ys IH]; cbn; [done|].
  destruct (z =? i); [destruct ys; [done|]; intros [= ->]; right; by left|]. intros E. right. by apply IH.
Qed.

Lemma list_op_ok op m A : models m A -> op_ok A op ->
  kwp (list_do op) (fun r m' => r = (spec_do op A).1 /\ models m' (spec_do op A).2) m.
Proof.
  assert (forall (c : K unit) A', kwp c (fun _ m' => models m' A') m ->
    kwp (c;; mret 0) (fun r m' => r = 0 /\ models m' A') m) as Hunit.
  { intros c A' H. apply kwp_bind. eapply kwp_mono; [exact H|]. intros [] m' H'. by apply kwp_ret. }
  assert (forall x, is_Some (known A !! x) /\ list_of A x = None -> exists j, known A !! x = Some j /\ inside j = None) as Hfree.
  { intros x [[j Hj] Hn]. exists j. unfold list_of in Hn. by rewrite Hj in Hn. }
  assert (forall l, (ring_of A l).1 <> [] -> exists x xs i, rings A !! l = Some (x :: xs, i)) as Hfull.
  { intros l. unfold ring_of. destruct (rings A !! l) as [[[|x xs] i]|]; [done| |done]. by exists x, xs, i. }
  intros M. destruct op as [l|x|l x|l x|x|x v|x o|x|x|l x|l|l|l|l|l]; cbn [op_ok list_do spec_do].
  - intros Hl. apply Hunit. by apply initialise_ok.
  - intros [[v o] Hx]. rewrite Hx. apply Hunit. by apply initialise_item_ok.
  - intros [(j & Hx & Hj)%Hfree [[xs i] Hl]]. unfold ring_of. rewrite Hl. apply Hunit. by eapply insert_end_ok.
  - intros [(j & Hx & Hj)%Hfree [[xs i] Hl]]. unfold ring_of. rewrite Hl. apply Hunit. by eapply insert_ok.
  - intros [l Hx]. rewrite Hx. unfold list_of in Hx. destruct (known A !! x) as [j|] eqn:Hj; [|done]. cbn in Hx.
    destruct (mo_inside _ _ M x j l Hj Hx) as (xs & i & Hl & _). unfold ring_of.
    rewrite Hl. by eapply remove_ok.
  - intros [[j Hx] Hv]. apply Hunit. by eapply set_value_ok.
  - intros [j Hx]. apply Hunit. by eapply set_owner_ok.
  - intros [j Hx]. destruct (mo_known _ _ M x j Hx) as (Kx & _ & _). apply kwp_read; [by rewrite Kx|].
    intros i _ Hk. rewrite Kx in Hk. injection Hk as <- _. unfold val_of. by rewrite Hx.
  - intros [j Hx]. destruct (mo_known _ _ M x j Hx) as (Kx & Cx & _). apply kwp_read; [by rewrite Kx|].
    intros i Hc _. rewrite Cx in Hc. injection Hc as <-. unfold list_of. by rewrite Hx.
  - intros [[j Hx] Hl0]. destruct (mo_known _ _ M x j Hx) as (Kx & Cx & _). apply kwp_read; [by rewrite Kx|].
    intros i Hc _. rewrite Cx in Hc. injection Hc as <-. unfold list_of. rewrite Hx. split; [|done].
    change (Some j ≫= inside) with (inside j). cbn [fst].
    destruct (inside j) as [l'|]; cbn [from_option id]; [|by rewrite decide_False, (proj2 (Z.eqb_neq _ _)) by congruence].
    destruct (Z.eqb_spec l' l) as [->|]; [by rewrite decide_True|by rewrite decide_False by congruence].
  - intros [[xs i] Hl]. unfold ring_of. rewrite Hl. apply kwp_bind. eapply kwp_list; [apply (rg_list _ _ _ _ (mo_ring _ _ M l xs i Hl))|].
    by apply kwp_ret.
  - intros [[xs i] Hl]. unfold ring_of. rewrite Hl. apply kwp_bind.
    eapply kwp_list; [apply (rg_list _ _ _ _ (mo_ring _ _ M l xs i Hl))|]. apply kwp_ret. split; [|done]. by destruct xs.
  - intros [[xs i] Hl]. unfold ring_of. rewrite Hl. eapply kwp_mono; [by eapply head_value_ok|]. by intros v m' [-> ->].
  - intros (x & xs & i & Hl)%Hfull. unfold ring_of. rewrite Hl. eapply kwp_mono; [by eapply head_owner_ok|]. by intros o m' [-> ->].
  - intros (x & xs & i & Hl)%Hfull. unfold ring_of. rewrite Hl. cbn [default].
    destruct (next_round_in i x xs) as (y & Hy & Hin); [apply (rg_index _ _ _ _ (mo_ring _ _ M l _ i Hl))|].
    cbn [from_option id]. rewrite Hy. by eapply next_owner_ok.
Qed.

(** C11: under every sequence of operations that puts only free items into
    lists and removes only entries, the list code on linked memory computes
    what the specification computes on sequences with an index - every result
    and the whole final state: sorted insertion finds its place (behind equal
    values), insertion at the end goes before the index, a removal keeps the
    other lists, the count and the index, and walking the list goes round. *)
Theorem kernel_lists_are_sequences ops m A :
  models m A -> ops_ok ops A ->
  kwp (list_run ops) (fun rs m' => rs = (spec_run ops A).1 /\ models m' (spec_run ops A).2) m.
Proof.
  revert m A. induction ops as [|op ops IH]; intros m A M H; cbn [list_run spec_run ops_ok] in *; [by apply kwp_ret|].
  destruct H as [H1 H2]. apply kwp_bind. eapply kwp_mono; [by apply list_op_ok|]. intros r m1 [-> M1].
  apply kwp_bind. eapply kwp_mono; [by apply IH|]. intros rs m2 [-> M2]. apply kwp_ret.
  destruct (spec_do op A) as [r A1]. cbn in *. by destruct (spec_run ops A1).
Qed.

(** ** An example: three items, two lists *)
Definition three_items : memory := mk_memory
  (list_to_map [(100, mk_item 7 0 0 101 0); (200, mk_item 5 0 0 201 0); (300, mk_item 0 0 0 301 0);
                (1008, mk_item 0 0 0 0 0); (2008, mk_item 0 0 0 0 0)])
  (list_to_map [(1000, mk_list 3 3); (2000, mk_list 3 3)]).
Definition three_spare : kernel_lists :=
  mk_lists ∅ ∅ (list_to_map [(100, (7, 101)); (200, (5, 201)); (300, (0, 301))]) {[1000; 2000]}.

Lemma three_items_modelled : models three_items three_spare.
Proof.
  split.
  - intros l xs i H. destruct (lookup_empty_Some (M := gmap Z) _ _ H).
  - intros x j H. destruct (lookup_empty_Some (M := gmap Z) _ _ H).
  - intros x j l H. destruct (lookup_empty_Some (M := gmap Z) _ _ H).
  - intros l xs i x H. destruct (lookup_empty_Some (M := gmap Z) _ _ H).
  - intros l [[xi H]|H]; [destruct (lookup_empty_Some (M := gmap Z) _ _ H)|]. cbn in H. apply elem_of_union in H as [H|H];
      apply elem_of_singleton in H as ->; done.
  - intros l H. cbn in H. apply elem_of_union in H as [H|H]; apply elem_of_singleton in H as ->; (split; [done|]); split; by eexists.
  - assert (map_Forall (fun x vo => kept three_items x = Some vo /\ 0 <= vo.1 < 4294967296) (spare_items three_spare)) as H
      by (apply (bool_decide_unpack _); by vm_compute).
    intros x v o Hx. destruct (map_Forall_lookup_1 _ _ _ _ H Hx) as [Hk Hv]. split; [done|]. split; [done|]. exact Hv.
  - done.
Qed.

Lemma kernel_lists_are_sequences_witness :
  let ops := [Initialise 1000; Initialise 2000; InitialiseItem 100; InitialiseItem 200; InitialiseItem 300;
              Insert 1000 100; Insert 1000 200; SetValue 300 5; Insert 1000 300; HeadOwner 1000; HeadValue 2000; Length 1000;
              NextOwner 1000; NextOwner 1000; Remove 300; NextOwner 1000; NextOwner 1000; InsertEnd 2000 300; Container 300] in
  models three_items three_spare /\ ops_ok ops three_spare /\
  kwp (list_run ops) (fun rs _ => rs = [0; 0; 0; 0; 0; 0; 0; 0; 0; 201; portMAX_DELAY; 3; 201; 301; 2; 101; 201; 0; 2000]) three_items.
Proof.
  intros ops. assert (ops_ok ops three_spare) as H by (apply (bool_decide_unpack _); vm_compute; exact I).
  split; [exact three_items_modelled|]. split; [exact H|].
  eapply kwp_mono; [exact (kernel_lists_are_sequences ops _ _ three_items_modelled H)|].
  intros rs m' [-> _]. vm_compute. reflexivity.
Defined.
