(* ===== verification/StreamParser.v ===== *)
(** * The stream parser (common/stream_parser.c, common/stream_parser.h)

    One byte at a time: find MAGIC, read the 8-byte header, check VERSION and
    LENGTH, collect the rest and hand the complete candidate to
    [protocol_decode]. *)
From S2P Require Import Prelude Crc16 Protocol.
Local Open Scope Z_scope.

(** ** Data *)
Inductive stream_parser_state_t :=
  | STREAM_STATE_WAIT_MAGIC_1
  | STREAM_STATE_WAIT_MAGIC_2
  | STREAM_STATE_READ_HEADER
  | STREAM_STATE_READ_REST.

Inductive stream_parser_event_t :=
  | STREAM_EVENT_ERROR
  | STREAM_EVENT_NONE
  | STREAM_EVENT_FRAME.

#[export] Instance stream_parser_state_eq_dec : EqDecision stream_parser_state_t.
Proof. solve_decision. Defined.
#[export] Instance stream_parser_event_eq_dec : EqDecision stream_parser_event_t.
Proof. solve_decision. Defined.

Record stream_parser_t := mk_parser {
  state : stream_parser_state_t;
  frame_buffer : list Z;
  frame_index : Z;
  expected_frame_length : Z;
  last_error : protocol_result_t;
  frames_ok : Z;
  crc_errors : Z;
  format_errors : Z;
  discarded_bytes : Z
}.

#[export] Instance eta_parser : Eta stream_parser_t := fun p =>
  mk_parser (state p) (frame_buffer p) (frame_index p) (expected_frame_length p)
    (last_error p) (frames_ok p) (crc_errors p) (format_errors p) (discarded_bytes p).

Definition MAGIC_HI : Z := 0xAA.
Definition MAGIC_LO : Z := 0x55.

(** ** Operations *)

(** Keep a possible MAGIC prefix at the tail of a rejected header. *)
Definition resync_from_tail (p : stream_parser_t) : stream_parser_t :=
  let n := frame_index p in
  if (n >=? 2) && (arr_get (frame_buffer p) (n - 2) =? MAGIC_HI) &&
     (arr_get (frame_buffer p) (n - 1) =? MAGIC_LO)
  then
    p <| frame_buffer := arr_set (arr_set (frame_buffer p) 0 MAGIC_HI) 1 MAGIC_LO |>
      <| frame_index := 2 |>
      <| expected_frame_length := 0 |>
      <| state := STREAM_STATE_READ_HEADER |>
  else if (n >=? 1) && (arr_get (frame_buffer p) (n - 1) =? MAGIC_HI)
  then
    p <| frame_buffer := arr_set (frame_buffer p) 0 MAGIC_HI |>
      <| frame_index := 1 |>
      <| expected_frame_length := 0 |>
      <| state := STREAM_STATE_WAIT_MAGIC_2 |>
  else
    p <| frame_index := 0 |>
      <| expected_frame_length := 0 |>
      <| state := STREAM_STATE_WAIT_MAGIC_1 |>.

(** [memset(parser, 0, sizeof *parser)], then the two assignments. *)
Definition parser_init : stream_parser_t := {|
  state := STREAM_STATE_WAIT_MAGIC_1;
  frame_buffer := replicate (Z.to_nat PROTOCOL_MAX_FRAME_SIZE) 0;
  frame_index := 0;
  expected_frame_length := 0;
  last_error := PROTO_OK;
  frames_ok := 0;
  crc_errors := 0;
  format_errors := 0;
  discarded_bytes := 0
|}.

Definition reset_frame (p : stream_parser_t) : stream_parser_t :=
  p <| state := STREAM_STATE_WAIT_MAGIC_1 |>
    <| frame_index := 0 |>
    <| expected_frame_length := 0 |>
    <| last_error := PROTO_OK |>.

(** The statements [last_error = e; format_errors++]. *)
Definition note_format_error (e : protocol_result_t) (p : stream_parser_t) :
    stream_parser_t :=
  p <| last_error := e |> <| format_errors := u32 (format_errors p + 1) |>.

(** [frame_buffer[frame_index++] = byte]. *)
Definition push_byte (byte : Z) (p : stream_parser_t) : stream_parser_t :=
  p <| frame_buffer := arr_set (frame_buffer p) (frame_index p) byte |>
    <| frame_index := frame_index p + 1 |>.

Definition feed_wait_magic_1 (p : stream_parser_t) (byte : Z) : stream_parser_t :=
  if byte =? MAGIC_HI
  then
    p <| frame_buffer := arr_set (frame_buffer p) 0 byte |>
      <| frame_index := 1 |>
      <| state := STREAM_STATE_WAIT_MAGIC_2 |>
  else p <| discarded_bytes := u32 (discarded_bytes p + 1) |>.

Definition feed_wait_magic_2 (p : stream_parser_t) (byte : Z) : stream_parser_t :=
  if byte =? MAGIC_LO
  then
    p <| frame_buffer := arr_set (frame_buffer p) 1 byte |>
      <| frame_index := 2 |>
      <| state := STREAM_STATE_READ_HEADER |>
  else if byte =? MAGIC_HI
  then
    p <| frame_buffer := arr_set (frame_buffer p) 0 MAGIC_HI |>
      <| frame_index := 1 |>
      <| discarded_bytes := u32 (discarded_bytes p + 1) |>
  else
    p <| frame_index := 0 |>
      <| state := STREAM_STATE_WAIT_MAGIC_1 |>
      <| discarded_bytes := u32 (discarded_bytes p + 2) |>.

Definition feed_read_header (p : stream_parser_t) (byte : Z) :
    stream_parser_event_t * stream_parser_t :=
  if frame_index p >=? PROTOCOL_FIXED_HEADER_SIZE
  then (STREAM_EVENT_ERROR,
        reset_frame (note_format_error PROTO_ERR_BUFFER p))
  else
    let p := push_byte byte p in
    if frame_index p <? PROTOCOL_FIXED_HEADER_SIZE
    then (STREAM_EVENT_NONE, p)
    else if negb (arr_get (frame_buffer p) OFFSET_VERSION =? PROTOCOL_VERSION)
    then (STREAM_EVENT_ERROR, resync_from_tail (note_format_error PROTO_ERR_VERSION p))
    else
      let payload_length := read_u16_be (frame_buffer p) OFFSET_LENGTH in
      if payload_length >? PROTOCOL_MAX_PAYLOAD
      then (STREAM_EVENT_ERROR, resync_from_tail (note_format_error PROTO_ERR_LENGTH p))
      else
        let p := p <| expected_frame_length :=
          PROTOCOL_FIXED_HEADER_SIZE + payload_length + PROTOCOL_CRC_SIZE |> in
        if expected_frame_length p >? PROTOCOL_MAX_FRAME_SIZE
        then (STREAM_EVENT_ERROR, resync_from_tail (note_format_error PROTO_ERR_LENGTH p))
        else (STREAM_EVENT_NONE, p <| state := STREAM_STATE_READ_REST |>).

(** A complete candidate: decode it into [*out_packet] and count the result. *)
Definition finish_candidate (p : stream_parser_t) (out : protocol_packet_t) :
    stream_parser_event_t * stream_parser_t * protocol_packet_t :=
  let (result, out') :=
    protocol_decode (Some (frame_buffer p)) (frame_index p) (Some out) in
  let out := default out out' in
  let p := p <| last_error := result |> in
  if decide (result = PROTO_OK)
  then (STREAM_EVENT_FRAME,
        reset_frame (p <| frames_ok := u32 (frames_ok p + 1) |>), out)
  else
    let p :=
      if decide (result = PROTO_ERR_CRC)
      then p <| crc_errors := u32 (crc_errors p + 1) |>
      else p <| format_errors := u32 (format_errors p + 1) |> in
    (STREAM_EVENT_ERROR, (reset_frame p) <| last_error := result |>, out).

Definition feed_read_rest (p : stream_parser_t) (byte : Z) (out : protocol_packet_t) :
    stream_parser_event_t * stream_parser_t * protocol_packet_t :=
  if frame_index p >=? PROTOCOL_MAX_FRAME_SIZE
  then (STREAM_EVENT_ERROR,
        reset_frame (note_format_error PROTO_ERR_BUFFER p), out)
  else
    let p := push_byte byte p in
    if frame_index p <? expected_frame_length p
    then (STREAM_EVENT_NONE, p, out)
    else if frame_index p >? expected_frame_length p
    then (STREAM_EVENT_ERROR,
          reset_frame (note_format_error PROTO_ERR_FRAME_SIZE p), out)
    else
      finish_candidate p out.

(** The state switch, on valid pointers; [out] is what [out_packet] points
    to.  The C [default] case handles a state outside the enumeration, which
    the type excludes. *)
Definition feed_byte (p : stream_parser_t) (byte : Z) (out : protocol_packet_t) :
    stream_parser_event_t * stream_parser_t * protocol_packet_t :=
  match state p with
  | STREAM_STATE_WAIT_MAGIC_1 => (STREAM_EVENT_NONE, feed_wait_magic_1 p byte, out)
  | STREAM_STATE_WAIT_MAGIC_2 => (STREAM_EVENT_NONE, feed_wait_magic_2 p byte, out)
  | STREAM_STATE_READ_HEADER => (feed_read_header p byte, out)
  | STREAM_STATE_READ_REST => feed_read_rest p byte out
  end.

(** The entry points as callers see them: [None] is the NULL pointer. *)
Definition stream_parser_init (parser : option stream_parser_t) :
    option stream_parser_t :=
  match parser with None => None | Some _ => Some parser_init end.

Definition stream_parser_reset_frame (parser : option stream_parser_t) :
    option stream_parser_t :=
  match parser with None => None | Some p => Some (reset_frame p) end.

Definition stream_parser_feed_byte (parser : option stream_parser_t) (byte : Z)
    (out_packet : option protocol_packet_t) :
    stream_parser_event_t * option stream_parser_t * option protocol_packet_t :=
  match parser, out_packet with
  | Some p, Some out =>
      let '(e, p, out) := feed_byte p byte out in (e, Some p, Some out)
  | _, _ => (STREAM_EVENT_ERROR, parser, out_packet)
  end.

(** A receive loop: every byte of a chunk in turn, with the packet delivered
    at each FRAME event, as the usage note of stream_parser.h shows it. *)
Fixpoint feed_bytes (p : stream_parser_t) (bs : list Z) (out : protocol_packet_t) :
    list (stream_parser_event_t * protocol_packet_t) * stream_parser_t *
    protocol_packet_t :=
  match bs with
  | [] => ([], p, out)
  | b :: bs' =>
      let '(e, p, out) := feed_byte p b out in
      let '(es, p', out') := feed_bytes p bs' out in
      ((e, out) :: es, p', out')
  end.

(** ** Abstract specification

    The candidate frame collected so far is the whole state. *)
Definition candidate_length (w : list Z) : Z :=
  PROTOCOL_MIN_FRAME_SIZE + (256 * arr_get w 6 + arr_get w 7).

Definition header_ok (w : list Z) : bool :=
  (arr_get w 2 =? PROTOCOL_VERSION) && (256 * arr_get w 6 + arr_get w 7 <=? 256).

(** The CRC of a complete candidate, field included. *)
Definition crc_ok (w : list Z) : bool := lfsr 0xFFFF (bits_of (drop 2 w)) =? 0.

(** The longest suffix of a rejected header that can start a frame, among
    its last two bytes. *)
Definition spec_resync (w : list Z) : list Z :=
  if decide (drop (length w - 2) w = [0xAA; 0x55]) then [0xAA; 0x55]
  else if decide (drop (length w - 1) w = [0xAA]) then [0xAA]
  else [].

Definition spec_step (w : list Z) (b : Z) : stream_parser_event_t * list Z :=
  let w' := w ++ [b] in
  match w with
  | [] => (STREAM_EVENT_NONE, if b =? 0xAA then [b] else [])
  | [_] => (STREAM_EVENT_NONE,
            if b =? 0x55 then w' else if b =? 0xAA then [b] else [])
  | _ =>
      if (length w' <? 8)%nat then (STREAM_EVENT_NONE, w')
      else if (length w' =? 8)%nat then
        if header_ok w' then (STREAM_EVENT_NONE, w')
        else (STREAM_EVENT_ERROR, spec_resync w')
      else if Z.of_nat (length w') <? candidate_length w' then (STREAM_EVENT_NONE, w')
      else (if crc_ok w' then STREAM_EVENT_FRAME else STREAM_EVENT_ERROR, [])
  end.

Fixpoint spec_run (w : list Z) (bs : list Z) : list stream_parser_event_t * list Z :=
  match bs with
  | [] => ([], w)
  | b :: bs' =>
      let (e, w1) := spec_step w b in
      let (es, w') := spec_run w1 bs' in (e :: es, w')
  end.

(** ** Refinement of the abstract parser *)

Definition state_of (w : list Z) : stream_parser_state_t :=
  match length w with
  | 0%nat => STREAM_STATE_WAIT_MAGIC_1
  | 1%nat => STREAM_STATE_WAIT_MAGIC_2
  | n => if (n <? 8)%nat then STREAM_STATE_READ_HEADER else STREAM_STATE_READ_REST
  end.

(** What a candidate can be: a prefix of a frame whose header was checked. *)
Record candidate (w : list Z) : Prop := {
  cand_bytes : bytes w;
  cand_magic : w = [] \/ w = [0xAA] \/ exists r, w = 0xAA :: 0x55 :: r;
  cand_header : (8 <= length w)%nat -> header_ok w = true;
  cand_incomplete : (8 <= length w)%nat -> Z.of_nat (length w) < candidate_length w
}.

Record parser_rel (p : stream_parser_t) (w : list Z) : Prop := {
  rel_state : state p = state_of w;
  rel_buffer : exists t, frame_buffer p = w ++ t;
  rel_size : length (frame_buffer p) = 266%nat;
  rel_bytes : bytes (frame_buffer p);
  rel_index : frame_index p = Z.of_nat (length w);
  rel_expected : expected_frame_length p =
    if (8 <=? length w)%nat then candidate_length w else 0;
  rel_candidate : candidate w
}.

Lemma arr_set_push w x t b : arr_set (w ++ x :: t) (Z.of_nat (length w)) b = (w ++ [b]) ++ t.
Proof. rewrite arr_set_app, <- app_assoc. done. Qed.

Lemma arr_get_push w b i :
  0 <= i < Z.of_nat (length w) -> arr_get (w ++ [b]) i = arr_get w i.
Proof. apply arr_get_app_l. Qed.

Lemma header_push w b :
  (8 <= length w)%nat ->
  header_ok (w ++ [b]) = header_ok w /\ candidate_length (w ++ [b]) = candidate_length w.
Proof.
  intros H. unfold header_ok, candidate_length. rewrite !arr_get_push by lia. done.
Qed.

Lemma candidate_nil : candidate [].
Proof. split; [apply bytes_nil|auto|intros H; cbn in H; lia..]. Qed.

Lemma candidate_AA : candidate [0xAA].
Proof. split; [solve_bytes|auto|intros H; cbn in H; lia..]. Qed.

Lemma candidate_AA55 : candidate [0xAA; 0x55].
Proof. split; [solve_bytes|right; right; eauto|intros H; cbn in H; lia..]. Qed.

Lemma header_ok_length w :
  bytes w -> header_ok w = true -> 10 <= candidate_length w <= 266.
Proof.
  intros Hw H. unfold header_ok, candidate_length in *.
  change PROTOCOL_MIN_FRAME_SIZE with 10.
  pose proof (arr_get_u8 w 6 Hw). pose proof (arr_get_u8 w 7 Hw).
  apply andb_prop in H as [_ H]. width.
Qed.

(** A complete candidate, cell by cell. *)
Lemma candidate_cells w :
  bytes w -> (exists r, w = 0xAA :: 0x55 :: r) -> header_ok w = true ->
  Z.of_nat (length w) = candidate_length w ->
  exists b3 b4 b5 b6 b7 P c0 c1,
    w = 0xAA :: 0x55 :: PROTOCOL_VERSION :: b3 :: b4 :: b5 :: b6 :: b7 :: P ++ [c0; c1] /\
    256 * b6 + b7 = Z.of_nat (length P) /\ Z.of_nat (length P) <= 256.
Proof.
  intros Hw [r ->] Hh Hl. pose proof (header_ok_length _ Hw Hh) as Hb.
  unfold header_ok, candidate_length in *.
  change PROTOCOL_MIN_FRAME_SIZE with 10 in *. apply andb_prop in Hh as [Hv HL].
  destruct r as [|b2 [|b3 [|b4 [|b5 [|b6 [|b7 r]]]]]]; cbn [length] in *; try lia.
  change (arr_get (_ :: _) 2) with b2 in *.
  change (arr_get (_ :: _) 6) with b6 in *. change (arr_get (_ :: _) 7) with b7 in *.
  apply Z.eqb_eq in Hv as ->.
  destruct (split_at r (Z.to_nat (256 * b6 + b7))) as (P & q & -> & HP); [lia|].
  rewrite length_app in Hl. destruct q as [|c0 [|c1 [|]]]; cbn [length] in Hl; try lia.
  exists b3, b4, b5, b6, b7, P, c0, c1. split; [done|]. lia.
Qed.

Lemma decode_candidate w t out :
  bytes (w ++ t) -> (exists r, w = 0xAA :: 0x55 :: r) -> header_ok w = true ->
  Z.of_nat (length w) = candidate_length w -> packet_ok out ->
  if crc_ok w
  then exists q, sendable q /\ w = frame_of q /\
         protocol_decode (Some (w ++ t)) (Z.of_nat (length w)) (Some out) =
           (PROTO_OK, Some (received q out))
  else protocol_decode (Some (w ++ t)) (Z.of_nat (length w)) (Some out) =
         (PROTO_ERR_CRC, Some out).
Proof.
  intros Hwt Hm Hh Hl Hout. pose proof Hwt as [Hw Ht]%bytes_app.
  destruct (candidate_cells w) as (b3&b4&b5&b6&b7&P&c0&c1&->&HL&HP); [done..|].
  pose proof (protocol_decode_cells 0xAA 0x55 PROTOCOL_VERSION b3 b4 b5 b6 b7 P c0 c1 t
    (10 + Z.of_nat (length P)) out) as Hdec. cbv zeta in Hdec.
  cbn [app] in Hwt |- *. rewrite <- app_assoc in Hwt |- *. cbn [app] in Hwt |- *.
  specialize (Hdec Hwt eq_refl eq_refl eq_refl HL HP eq_refl).
  replace (Z.of_nat (length (0xAA :: 0x55 :: _))) with (10 + Z.of_nat (length P))
    by (cbn [length]; rewrite length_app; cbn [length]; lia).
  rewrite !bytes_cons, bytes_app, !bytes_cons in Hw.
  set (body := PROTOCOL_VERSION :: b3 :: b4 :: b5 :: b6 :: b7 :: P) in *.
  assert (crc_ok (0xAA :: 0x55 :: PROTOCOL_VERSION :: b3 :: b4 :: b5 :: b6 :: b7 ::
    P ++ [c0; c1]) = (256 * c0 + c1 =? frame_crc body)) as ->.
  { unfold crc_ok. change (drop 2 _) with (body ++ [c0; c1]).
    rewrite <- (be16_of_bytes c0 c1), bits_of_app, lfsr_app by tauto.
    apply eq_true_iff_eq. rewrite !Z.eqb_eq. apply lfsr_residue; [|width].
    apply lfsr_range, u16_FFFF. }
  destruct (_ =? frame_crc body) eqn:E; [|exact Hdec].
  apply Z.eqb_eq in E. exists (mk_packet PROTOCOL_VERSION b3 (256 * b4 + b5)
    (Z.of_nat (length P)) (P ++ drop (length P) (pkt_payload out))).
  destruct Hout as [_ _ _ _ Hpb Hps].
  destruct Hw as (_ & _ & ? & ? & ? & ? & ? & ? & ? & ? & ? & _). split_and!.
  - split; [split|done|]; pkt_simpl; try (unfold PROTOCOL_MAX_PAYLOAD; width).
    + solve_bytes.
    + rewrite length_app, length_drop. lia.
  - rewrite (frame_of_cells _ _ _ b6 b7 c0 c1) by (solve_bytes || done). done.
  - rewrite Hdec. unfold received. pkt_simpl.
    rewrite Nat2Z.id, take_app_length. done.
Qed.

Lemma finish_candidate_ok p out q :
  protocol_decode (Some (frame_buffer p)) (frame_index p) (Some out) =
    (PROTO_OK, Some q) ->
  finish_candidate p out =
    (STREAM_EVENT_FRAME,
     reset_frame (p <| last_error := PROTO_OK |> <| frames_ok := u32 (frames_ok p + 1) |>),
     q).
Proof. intros H. unfold finish_candidate. rewrite H. reflexivity. Qed.

Lemma finish_candidate_crc p out :
  protocol_decode (Some (frame_buffer p)) (frame_index p) (Some out) =
    (PROTO_ERR_CRC, Some out) ->
  finish_candidate p out =
    (STREAM_EVENT_ERROR,
     (reset_frame (p <| last_error := PROTO_ERR_CRC |>
                     <| crc_errors := u32 (crc_errors p + 1) |>))
       <| last_error := PROTO_ERR_CRC |>,
     out).
Proof. intros H. unfold finish_candidate. rewrite H. reflexivity. Qed.

(** Initial and reset parsers hold the empty candidate. *)
Lemma parser_init_rel : parser_rel parser_init [].
Proof.
  split; try done; [eexists; done|apply bytes_zeros|apply candidate_nil].
Qed.

Lemma reset_frame_rel p :
  length (frame_buffer p) = 266%nat -> bytes (frame_buffer p) ->
  parser_rel (reset_frame p) [].
Proof.
  intros Hs Hb. split; try done; [eexists; done|apply candidate_nil].
Qed.

Lemma feed_wait_1_rel p b :
  is_u8 b -> parser_rel p [] ->
  parser_rel (feed_wait_magic_1 p b) (if b =? 0xAA then [b] else []).
Proof.
  intros Hb [Hst [t Ht] Hsz Hby Hix Hex _]. cbn in Hst, Hix, Hex. unfold feed_wait_magic_1.
  change MAGIC_HI with 0xAA. destruct (b =? 0xAA) eqn:E.
  - apply Z.eqb_eq in E as ->. split; cbn -[arr_set]; try done.
    + destruct t as [|x t]; [rewrite Ht in Hsz; done|]. exists t. rewrite Ht. done.
    + rewrite length_arr_set. done.
    + apply Forall_insert; done.
    + apply candidate_AA.
  - split; cbn; try done; [eexists; done|apply candidate_nil].
Qed.

Lemma feed_wait_2_rel p b :
  is_u8 b -> parser_rel p [0xAA] ->
  parser_rel (feed_wait_magic_2 p b)
    (if b =? 0x55 then [0xAA; b] else if b =? 0xAA then [b] else []).
Proof.
  intros Hb [Hst [t Ht] Hsz Hby Hix Hex _]. cbn in Hst, Hix, Hex, Ht. unfold feed_wait_magic_2.
  change MAGIC_LO with 0x55. change MAGIC_HI with 0xAA.
  destruct t as [|x t]; [rewrite Ht in Hsz; done|].
  destruct (b =? 0x55) eqn:E; [|destruct (b =? 0xAA) eqn:E2].
  - apply Z.eqb_eq in E as ->. split; cbn -[arr_set]; try done.
    + exists t. rewrite Ht. done.
    + rewrite length_arr_set. done.
    + apply Forall_insert; done.
    + apply candidate_AA55.
  - apply Z.eqb_eq in E2 as ->. split; cbn -[arr_set]; try done.
    + exists (x :: t). rewrite Ht. done.
    + rewrite length_arr_set. done.
    + apply Forall_insert; done.
    + apply candidate_AA.
  - split; cbn; try done; [eexists; done|apply candidate_nil].
Qed.

(** Pushing a byte extends the candidate in the buffer. *)
Record pushed (p p' : stream_parser_t) (w' : list Z) : Prop := {
  pushed_buffer : exists t, frame_buffer p' = w' ++ t;
  pushed_size : length (frame_buffer p') = 266%nat;
  pushed_bytes : bytes (frame_buffer p');
  pushed_index : frame_index p' = Z.of_nat (length w');
  pushed_state : state p' = state p;
  pushed_expected : expected_frame_length p' = expected_frame_length p
}.

Lemma push_byte_pushed p w b :
  is_u8 b -> parser_rel p w -> (length w < 266)%nat -> pushed p (push_byte b p) (w ++ [b]).
Proof.
  intros Hb [Hst [t Ht] Hsz Hby Hix Hex _] Hlen.
  destruct t as [|x t].
  { rewrite Ht, app_nil_r in Hsz. lia. }
  split; cbn -[arr_set]; try done.
  - exists t. rewrite Ht, Hix, arr_set_push. done.
  - rewrite length_arr_set. done.
  - apply Forall_insert; done.
  - rewrite Hix, length_app. cbn [length]. lia.
Qed.

Lemma candidate_length_lt w :
  candidate w -> (length w < 266)%nat.
Proof.
  intros [Hb _ Hh Hi]. destruct (decide (8 <= length w)%nat) as [H|]; [|lia].
  pose proof (header_ok_length w Hb (Hh H)). specialize (Hi H). lia.
Qed.

Lemma resync_rel p t a b c d e f g h :
  frame_buffer p = [a; b; c; d; e; f; g; h] ++ t -> length (frame_buffer p) = 266%nat ->
  bytes (frame_buffer p) -> frame_index p = 8 ->
  parser_rel (resync_from_tail p) (spec_resync [a; b; c; d; e; f; g; h]).
Proof.
  intros Hb Hs Hby Hi. unfold resync_from_tail, spec_resync. rewrite Hi.
  replace (arr_get (frame_buffer p) (8 - 2)) with g by (rewrite Hb; done).
  replace (arr_get (frame_buffer p) (8 - 1)) with h by (rewrite Hb; done).
  change (8 >=? 2) with true. change (8 >=? 1) with true. cbn [andb].
  change MAGIC_HI with 0xAA. change MAGIC_LO with 0x55.
  change (drop (length _ - 2) _) with [g; h]. change (drop (length _ - 1) _) with [h].
  assert (forall l x, bytes l -> is_u8 x -> bytes (arr_set l 0 x)) as Hset0
    by (intros; apply Forall_insert; done).
  assert (forall l x, bytes l -> is_u8 x -> bytes (arr_set l 1 x)) as Hset1
    by (intros; apply Forall_insert; done).
  destruct (decide ([g; h] = [0xAA; 0x55])) as [[= -> ->]|Hne]; [|].
  { cbn [Z.eqb Pos.eqb andb]. split; cbn -[arr_set]; try done.
    - exists ([c; d; e; f; 0xAA; 0x55] ++ t). rewrite Hb. done.
    - rewrite !length_arr_set. done.
    - apply Hset1; [apply Hset0|]; done.
    - apply candidate_AA55. }
  replace ((g =? 0xAA) && (h =? 0x55)) with false; [|].
  2: { symmetry. apply not_true_is_false. intros [->%Z.eqb_eq ->%Z.eqb_eq]%andb_prop. done. }
  destruct (decide ([h] = [0xAA])) as [[= ->]|Hne2].
  - cbn [Z.eqb Pos.eqb]. split; cbn -[arr_set]; try done.
    + exists ([b; c; d; e; f; g; 0xAA] ++ t). rewrite Hb. done.
    + rewrite length_arr_set. done.
    + apply Hset0; done.
    + apply candidate_AA.
  - replace (h =? 0xAA) with false by (symmetry; apply Z.eqb_neq; congruence).
    split; cbn; try done; [eexists; done|apply candidate_nil].
Qed.

Lemma state_of_header w :
  (2 <= length w < 8)%nat -> state_of w = STREAM_STATE_READ_HEADER.
Proof.
  unfold state_of. destruct (length w) as [|[|n]]; try lia. intros H.
  destruct (_ <? 8)%nat eqn:E; [done|]. apply Nat.ltb_ge in E. lia.
Qed.

Lemma state_of_rest w : (8 <= length w)%nat -> state_of w = STREAM_STATE_READ_REST.
Proof.
  unfold state_of. destruct (length w) as [|[|n]]; try lia. intros H.
  destruct (_ <? 8)%nat eqn:E; [|done]. apply Nat.ltb_lt in E. lia.
Qed.

(** The abstract step once MAGIC is in. *)
Lemma spec_step_long w b :
  (2 <= length w)%nat ->
  spec_step w b =
    let w' := w ++ [b] in
    if (length w' <? 8)%nat then (STREAM_EVENT_NONE, w')
    else if (length w' =? 8)%nat then
      if header_ok w' then (STREAM_EVENT_NONE, w')
      else (STREAM_EVENT_ERROR, spec_resync w')
    else if Z.of_nat (length w') <? candidate_length w' then (STREAM_EVENT_NONE, w')
    else (if crc_ok w' then STREAM_EVENT_FRAME else STREAM_EVENT_ERROR, []).
Proof. destruct w as [|? [|]]; cbn [length]; intros; [lia..|done]. Qed.

Lemma candidate_magic w :
  candidate w -> (2 <= length w)%nat -> exists r, w = 0xAA :: 0x55 :: r.
Proof. intros [_ [->|[->|H]] _ _] Hl; cbn in Hl; [lia..|done]. Qed.

Lemma candidate_push w b :
  candidate w -> is_u8 b -> (2 <= length w)%nat ->
  ((8 <= S (length w))%nat -> header_ok (w ++ [b]) = true /\
    Z.of_nat (S (length w)) < candidate_length (w ++ [b])) ->
  candidate (w ++ [b]).
Proof.
  intros Hc Hb Hl Hh. destruct (candidate_magic w Hc Hl) as [r ->].
  destruct Hc as [Hby _ _ _]. split.
  - solve_bytes; rewrite !bytes_cons in Hby; tauto.
  - right; right. exists (r ++ [b]). done.
  - rewrite length_app, Nat.add_1_r. tauto.
  - rewrite length_app, Nat.add_1_r. tauto.
Qed.

(** The header fields as the parser reads them from the buffer. *)
Lemma header_ok_reads p a b c d e f g h t :
  frame_buffer p = [a; b; c; d; e; f; g; h] ++ t -> is_u8 g -> is_u8 h ->
  let w := [a; b; c; d; e; f; g; h] in
  arr_get (frame_buffer p) OFFSET_VERSION = c /\
  read_u16_be (frame_buffer p) OFFSET_LENGTH = 256 * g + h /\
  header_ok w = (c =? PROTOCOL_VERSION) && (256 * g + h <=? 256) /\
  candidate_length w = 10 + (256 * g + h).
Proof.
  intros Hb Hg Hh w. rewrite Hb. split_and!; try done.
  apply (read_u16_be_app [a; b; c; d; e; f] g h t); done.
Qed.

Lemma feed_header_full p w b :
  is_u8 b -> parser_rel p w -> length w = 7%nat ->
  (feed_read_header p b).1 = (spec_step w b).1 /\
  parser_rel (feed_read_header p b).2 (spec_step w b).2.
Proof.
  intros Hb Hr Hl. pose proof (rel_candidate _ _ Hr) as Hc.
  destruct (push_byte_pushed p w b Hb Hr) as [[t Ht] Hsz Hby Hix Hst Hex]; [lia|].
  rewrite (rel_state _ _ Hr), state_of_header in Hst by lia.
  rewrite spec_step_long by lia. unfold feed_read_header. cbv zeta.
  rewrite (rel_index _ _ Hr), Hix, !length_app, Hl. cbn [length Nat.add].
  change (Z.of_nat 7 >=? PROTOCOL_FIXED_HEADER_SIZE) with false.
  change (Z.of_nat 8 <? PROTOCOL_FIXED_HEADER_SIZE) with false.
  change (8 <? 8)%nat with false. change (8 =? 8)%nat with true.
  pose proof (cand_bytes _ Hc) as Hwb. assert (length w <> 0%nat) by lia.
  pose proof (fun H => candidate_push w b Hc Hb ltac:(lia) H) as Hcp.
  destruct w as [|a [|b' [|c [|d [|e [|f [|g [|]]]]]]]]; try done.
  cbn [app length] in *. rewrite !bytes_cons in Hwb.
  set (p' := push_byte b p) in *.
  destruct (header_ok_reads p' a b' c d e f g b t) as (E1 & E2 & E3 & E4); [done|tauto|done|].
  rewrite E1, E2, E3. rewrite E3, E4 in Hcp.
  destruct (c =? PROTOCOL_VERSION); cbn [negb andb];
    [|split; [done|]; by apply (resync_rel _ t)].
  destruct (256 * g + b >? PROTOCOL_MAX_PAYLOAD) eqn:E5;
    unfold PROTOCOL_MAX_PAYLOAD in E5; rewrite Z.gtb_ltb in E5.
  - replace (256 * g + b <=? 256) with false by lia.
    split; [done|]. by apply (resync_rel _ t).
  - replace (256 * g + b <=? 256) with true in Hcp |- * by lia.
    change (expected_frame_length (set_field _ ?x _)) with x.
    unfold PROTOCOL_FIXED_HEADER_SIZE, PROTOCOL_CRC_SIZE.
    change PROTOCOL_MAX_FRAME_SIZE with 266.
    destruct (8 + (256 * g + b) + 2 >? 266) eqn:E6; [rewrite Z.gtb_ltb in E6; lia|].
    split; [done|]. split; cbn -[Z.mul Z.add candidate_length]; try done.
    + exists t. done.
    + rewrite E4. lia.
    + apply Hcp. intros _. split; [done|]. width.
Qed.

Lemma feed_header_rel p w b :
  is_u8 b -> parser_rel p w -> (2 <= length w < 8)%nat ->
  (feed_read_header p b).1 = (spec_step w b).1 /\
  parser_rel (feed_read_header p b).2 (spec_step w b).2.
Proof.
  intros Hb Hr Hl. destruct (decide (length w = 7%nat)); [by apply feed_header_full|].
  destruct (push_byte_pushed p w b Hb Hr) as [[t Ht] Hsz Hby Hix Hst Hex]; [lia|].
  pose proof (rel_index _ _ Hr) as Hi.
  rewrite (rel_state _ _ Hr), state_of_header in Hst by lia.
  rewrite spec_step_long by lia. unfold feed_read_header.
  change PROTOCOL_FIXED_HEADER_SIZE with 8. cbv zeta.
  destruct (_ >=? 8) eqn:E; [zlia|].
  assert (length (w ++ [b]) = S (length w)) as Hl' by (rewrite length_app; cbn; lia).
  rewrite Hix, Hl'.
  destruct (_ <? 8) eqn:E2; [|lia]. destruct (_ <? 8)%nat eqn:E3; [|lia].
  split; [done|]. split; cbn [snd]; try done.
  - rewrite Hst, state_of_header; [done|lia].
  - exists t. done.
  - rewrite Hex, (rel_expected _ _ Hr), Hl'.
    destruct (Nat.leb_spec 8 (length w)), (Nat.leb_spec 8 (S (length w))); lia || done.
  - apply candidate_push; [apply Hr|done|lia|lia].
Qed.

(** What one byte does to the packet of the caller. *)
Definition delivered (w : list Z) (b : Z) (e : stream_parser_event_t)
    (out out' : protocol_packet_t) : Prop :=
  match e with
  | STREAM_EVENT_FRAME =>
      exists q, sendable q /\ w ++ [b] = frame_of q /\ out' = received q out
  | _ => out' = out
  end.

Lemma rest_incomplete p w b t out :
  is_u8 b -> parser_rel p w -> (8 <= length w)%nat ->
  pushed p (push_byte b p) (w ++ [b]) -> frame_buffer (push_byte b p) = (w ++ [b]) ++ t ->
  Z.of_nat (length (w ++ [b])) < candidate_length (w ++ [b]) ->
  parser_rel (push_byte b p) (w ++ [b]) /\
  feed_read_rest p b out = (STREAM_EVENT_NONE, push_byte b p, out).
Proof.
  intros Hb Hr Hl [_ Hsz Hby Hix Hst Hex] Ht Hlt.
  destruct (header_push w b Hl) as [Hh Hc].
  pose proof (rel_candidate _ _ Hr) as Hcand.
  pose proof (candidate_length_lt _ Hcand). pose proof (rel_expected _ _ Hr) as He.
  assert (length (w ++ [b]) = S (length w)) as Hl' by (rewrite length_app; cbn; lia).
  rewrite (rel_state _ _ Hr) in Hst. split.
  - split; try done.
    + rewrite Hst, !state_of_rest by lia. done.
    + exists t. done.
    + rewrite Hex, He, Hl', Hc.
      destruct (Nat.leb_spec 8 (length w)), (Nat.leb_spec 8 (S (length w))); lia || done.
    + apply candidate_push; [done|done|lia|]. intros _. rewrite Hh.
      split; [by apply Hcand|]. rewrite <- Hl'. done.
  - unfold feed_read_rest. change PROTOCOL_MAX_FRAME_SIZE with 266. cbv zeta.
    rewrite (rel_index _ _ Hr), Hix, Hex, He, <- Hc.
    destruct (_ >=? 266) eqn:E; [zlia|]. destruct (Nat.leb_spec 8 (length w)); [|lia].
    destruct (_ <? _) eqn:E1; [done|lia].
Qed.

Lemma rest_complete p w b t out :
  is_u8 b -> parser_rel p w -> (8 <= length w)%nat -> packet_ok out ->
  pushed p (push_byte b p) (w ++ [b]) -> frame_buffer (push_byte b p) = (w ++ [b]) ++ t ->
  Z.of_nat (length (w ++ [b])) = candidate_length (w ++ [b]) ->
  let e := if crc_ok (w ++ [b]) then STREAM_EVENT_FRAME else STREAM_EVENT_ERROR in
  (feed_read_rest p b out).1.1 = e /\ parser_rel (feed_read_rest p b out).1.2 [] /\
  delivered w b e out (feed_read_rest p b out).2.
Proof.
  intros Hb Hr Hl Hout [_ Hsz Hby Hix Hst Hex] Ht Heq e.
  destruct (header_push w b Hl) as [Hh Hc].
  pose proof (rel_candidate _ _ Hr) as Hcand.
  pose proof (candidate_length_lt _ Hcand). pose proof (rel_expected _ _ Hr) as He.
  destruct (candidate_magic _ Hcand) as [r Hr']; [lia|].
  assert (exists r', w ++ [b] = 0xAA :: 0x55 :: r') as Hm
    by (exists (r ++ [b]); rewrite Hr'; done).
  rewrite Ht in Hby.
  pose proof (decode_candidate (w ++ [b]) t out Hby Hm) as Hdec.
  rewrite Hh in Hdec. specialize (Hdec (cand_header _ Hcand Hl) Heq Hout).
  unfold feed_read_rest. change PROTOCOL_MAX_FRAME_SIZE with 266. cbv zeta.
  rewrite (rel_index _ _ Hr), Hix, Hex, He, <- Hc, <- Heq.
  destruct (_ >=? 266) eqn:E; [zlia|]. destruct (Nat.leb_spec 8 (length w)); [|lia].
  rewrite Z.ltb_irrefl, Z.gtb_ltb, Z.ltb_irrefl. subst e.
  rewrite <- Ht in Hby. rewrite <- Ht, <- Hix in Hdec.
  destruct (crc_ok (w ++ [b])).
  - destruct Hdec as (q & Hq & Hw & ->%finish_candidate_ok). cbn [fst snd].
    split_and!; [done|by apply reset_frame_rel|]. exists q. done.
  - rewrite finish_candidate_crc by done. cbn [fst snd]. split_and!; [done| |done].
    destruct (reset_frame_rel (push_byte b p) Hsz Hby). split; done.
Qed.

(** One byte: the parser and the abstract parser stay related, report the
    same event, and a FRAME event delivers the message whose frame the
    candidate is. *)
Lemma feed_byte_rel p w b out :
  is_u8 b -> parser_rel p w -> packet_ok out ->
  (feed_byte p b out).1.1 = (spec_step w b).1 /\
  parser_rel (feed_byte p b out).1.2 (spec_step w b).2 /\
  delivered w b (spec_step w b).1 out (feed_byte p b out).2.
Proof.
  intros Hb Hr Hout. pose proof (rel_candidate _ _ Hr) as Hcand.
  unfold feed_byte. rewrite (rel_state _ _ Hr).
  destruct (decide (length w < 2)%nat) as [Hlt|Hge].
  { destruct w as [|a [|]]; [..|cbn in Hlt; lia]; cbn [state_of length].
    - split_and!; [done|by apply feed_wait_1_rel|done].
    - destruct Hcand as [_ [?|[[= ->]|[? ?]]] _ _]; [done| |done].
      split_and!; [done|by apply feed_wait_2_rel|done]. }
  destruct (decide (length w < 8)%nat) as [Hlt8|Hge8].
  { rewrite state_of_header by lia.
    destruct (feed_header_rel p w b Hb Hr) as [H1 H2]; [lia|].
    cbn [fst snd]. split_and!; [done|done|].
    rewrite spec_step_long by lia. cbv zeta.
    assert (length (w ++ [b]) = S (length w)) as Hl' by (rewrite length_app; cbn; lia).
    rewrite Hl'. destruct (_ <? 8)%nat eqn:E; [done|].
    destruct (_ =? 8)%nat eqn:E1; [|lia]. destruct (header_ok _); done. }
  rewrite state_of_rest by lia. rewrite spec_step_long by lia. cbv zeta.
  pose proof (candidate_length_lt _ Hcand).
  pose proof (push_byte_pushed p w b Hb Hr ltac:(lia)) as Hp.
  destruct (pushed_buffer _ _ _ Hp) as [t Ht].
  destruct (header_push w b) as [_ Hc]; [lia|].
  pose proof (cand_incomplete _ Hcand ltac:(lia)) as Hi.
  assert (length (w ++ [b]) = S (length w)) as Hl' by (rewrite length_app; cbn; lia).
  destruct (_ <? 8)%nat eqn:E; [lia|]. destruct (_ =? 8)%nat eqn:E1; [lia|].
  destruct (_ <? candidate_length _) eqn:E2; cbn [fst snd].
  - destruct (rest_incomplete p w b t out) as [H1 H2]; [done|done|lia|done|done|lia|].
    rewrite H2. done.
  - apply (rest_complete p w b t); [done|done|lia|done|done|done|lia].
Qed.

(** ** The abstract parser on frames, noise and silence *)

Lemma frame_of_shape q :
  sendable q ->
  (exists r, frame_of q = 0xAA :: 0x55 :: r) /\ header_ok (frame_of q) = true /\
  candidate_length (frame_of q) = Z.of_nat (length (frame_of q)) /\
  crc_ok (frame_of q) = true.
Proof.
  intros [Hq Hv Hl]. unfold PROTOCOL_MAX_PAYLOAD in Hl.
  pose proof (length_frame_of q Hq Hl) as Hlen. pose proof Hq as [_ _ _ Hn _ _].
  destruct (be16_value _ Hn) as (hi & lo & E & ? & ? & V).
  assert (exists b4 b5 r, frame_of q =
    0xAA :: 0x55 :: pkt_version q :: pkt_msg_id q :: b4 :: b5 :: hi :: lo :: r)
    as (b4 & b5 & r & Hf).
  { rewrite frame_of_fields, E. do 3 eexists. done. }
  unfold header_ok, candidate_length. rewrite Hlen.
  assert (arr_get (frame_of q) 2 = pkt_version q /\ arr_get (frame_of q) 6 = hi /\
          arr_get (frame_of q) 7 = lo) as (-> & -> & ->) by (rewrite Hf; done).
  rewrite Hv, Z.eqb_refl, <- V. change PROTOCOL_MIN_FRAME_SIZE with 10.
  split_and!; [eauto|cbn [andb]; lia|done|].
  unfold crc_ok. apply Z.eqb_eq. apply frame_residue. done.
Qed.

Lemma frame_of_min q : sendable q -> (10 <= length (frame_of q))%nat.
Proof.
  intros [Hq _ Hl]. unfold PROTOCOL_MAX_PAYLOAD in Hl.
  pose proof (length_frame_of q Hq Hl). destruct Hq as [_ _ _ [? _] _ _]. lia.
Qed.

Lemma header_prefix w l :
  (8 <= length w)%nat ->
  header_ok (w ++ l) = header_ok w /\ candidate_length (w ++ l) = candidate_length w.
Proof.
  intros H. unfold header_ok, candidate_length. rewrite !arr_get_app_l by lia. done.
Qed.

(** Every byte of a frame but the last extends the candidate silently. *)
Lemma spec_step_frame q w b bs :
  sendable q -> frame_of q = w ++ b :: bs -> bs <> [] ->
  spec_step w b = (STREAM_EVENT_NONE, w ++ [b]).
Proof.
  intros Hq Hf Hbs. destruct (frame_of_shape q Hq) as ([r Hr] & Hh & Hc & _).
  destruct w as [|a [|a' w]].
  { rewrite Hr in Hf. injection Hf as <- _. done. }
  { rewrite Hr in Hf. injection Hf as <- <- _. done. }
  rewrite spec_step_long by (cbn [length]; lia). cbv zeta.
  set (w' := (a :: a' :: w) ++ [b]).
  assert (frame_of q = w' ++ bs) as Hf' by (rewrite Hf; unfold w'; rewrite <- app_assoc; done).
  assert (length bs <> 0%nat) by (destruct bs; done).
  destruct (_ <? 8)%nat eqn:E; [done|].
  destruct (header_prefix w' bs) as [Hh' Hc']; [lia|].
  rewrite Hf' in Hh, Hc. rewrite Hh' in Hh. rewrite Hc', length_app in Hc.
  destruct (_ =? 8)%nat; [rewrite Hh; done|].
  destruct (_ <? candidate_length _) eqn:E2; [done|lia].
Qed.

Lemma spec_step_frame_last q w b :
  sendable q -> frame_of q = w ++ [b] -> spec_step w b = (STREAM_EVENT_FRAME, []).
Proof.
  intros Hq Hf. destruct (frame_of_shape q Hq) as (_ & Hh & Hc & Hcrc).
  pose proof (frame_of_min q Hq) as Hmin.
  assert (length (frame_of q) = S (length w)) as Hl
    by (rewrite Hf, length_app; cbn [length]; lia).
  rewrite spec_step_long by lia. cbv zeta. rewrite <- Hf.
  destruct (_ <? 8)%nat eqn:E; [lia|]. destruct (_ =? 8)%nat eqn:E1; [lia|].
  rewrite Hc, Z.ltb_irrefl, Hcrc. done.
Qed.

(** The events of [n] bytes that complete nothing, then a frame. *)
Definition frame_events (n : nat) : list stream_parser_event_t :=
  replicate (n - 1) STREAM_EVENT_NONE ++ [STREAM_EVENT_FRAME].

Lemma spec_run_frame_suffix q w bs :
  sendable q -> frame_of q = w ++ bs -> bs <> [] ->
  spec_run w bs = (frame_events (length bs), []).
Proof.
  intros Hq. revert w. induction bs as [|b bs IH]; intros w Hf Hne; [done|].
  cbn [spec_run]. destruct bs as [|b' bs].
  - rewrite (spec_step_frame_last q) by done. done.
  - rewrite (spec_step_frame q w b (b' :: bs)) by done.
    rewrite (IH (w ++ [b])); [|rewrite Hf, <- app_assoc; done|done].
    unfold frame_events. cbn [length Nat.sub]. rewrite Nat.sub_0_r. done.
Qed.

Lemma spec_run_frame q :
  sendable q -> spec_run [] (frame_of q) = (frame_events (length (frame_of q)), []).
Proof.
  intros Hq. apply (spec_run_frame_suffix q); [done|done|].
  pose proof (frame_of_min q Hq). destruct (frame_of q); [cbn in *; lia|done].
Qed.

Lemma spec_run_app w l m :
  spec_run w (l ++ m) =
    ((spec_run w l).1 ++ (spec_run (spec_run w l).2 m).1,
     (spec_run (spec_run w l).2 m).2).
Proof.
  revert w. induction l as [|b l IH]; intros w; cbn [app spec_run].
  - cbn [fst snd app]. apply surjective_pairing.
  - destruct (spec_step w b) as [e w1]. rewrite IH.
    destruct (spec_run w1 l) as [es w']. done.
Qed.

(** Bytes that are not 0xAA. *)
Definition quiet (l : list Z) : Prop := Forall (fun b => b <> 0xAA) l.

Lemma spec_run_quiet l :
  quiet l -> spec_run [] l = (replicate (length l) STREAM_EVENT_NONE, []).
Proof.
  induction 1 as [|b l Hb Hl IH]; [done|]. cbn [spec_run spec_step length replicate].
  apply Z.eqb_neq in Hb. rewrite Hb, IH. done.
Qed.

(** ** Recovery *)

Lemma candidate_rel w : candidate w -> exists p, parser_rel p w.
Proof.
  intros Hc. pose proof (candidate_length_lt w Hc).
  exists (mk_parser (state_of w) (w ++ replicate (266 - length w) 0) (Z.of_nat (length w))
    (if (8 <=? length w)%nat then candidate_length w else 0) PROTO_OK 0 0 0 0).
  split; cbn; try done.
  - eexists; done.
  - rewrite length_app, length_replicate. lia.
  - solve_bytes. apply Hc.
Qed.

Lemma spec_step_candidate w b : candidate w -> is_u8 b -> candidate (spec_step w b).2.
Proof.
  intros Hc Hb. destruct (candidate_rel w Hc) as [p Hp].
  destruct (feed_byte_rel p w b zero_packet Hb Hp zero_packet_ok) as (_ & Hr & _).
  apply Hr.
Qed.

Lemma spec_run_candidate w l : candidate w -> bytes l -> candidate (spec_run w l).2.
Proof.
  intros Hc Hl. revert w Hc. induction Hl as [|b l Hb Hl IH]; intros w Hc; [done|].
  cbn [spec_run]. pose proof (spec_step_candidate w b Hc Hb) as H1.
  destruct (spec_step w b) as [e w1]. specialize (IH w1 H1).
  destruct (spec_run w1 l). done.
Qed.

(** A candidate whose last byte cannot start a MAGIC. *)
Definition calm (w : list Z) : Prop :=
  w = [] \/ ((2 <= length w)%nat /\ List.last w 0 <> 0xAA).

Lemma resync_calm w b :
  b <> 0xAA -> List.last w 0 <> 0xAA -> spec_resync (w ++ [b]) = [].
Proof.
  intros Hb Hw. unfold spec_resync. rewrite length_app. cbn [length].
  replace (length w + 1 - 1)%nat with (length w) by lia. rewrite drop_app_length.
  destruct (decide ([b] = _)) as [[= ->]|]; [done|].
  destruct (decide (drop _ _ = _)) as [E|]; [|done]. exfalso. apply Hw.
  destruct w as [|x l _] using rev_ind; [cbn in E; congruence|].
  rewrite length_app in E. cbn [length] in E.
  replace (length l + 1 + 1 - 2)%nat with (length l) in E by lia.
  rewrite <- app_assoc, drop_app_length in E. injection E as -> _. apply last_last.
Qed.

Lemma spec_step_calm w b :
  calm w -> b <> 0xAA ->
  calm (spec_step w b).2 /\ ((spec_step w b).2 = [] \/ (spec_step w b).2 = w ++ [b]).
Proof.
  intros [->|[Hl Hw]] Hb.
  { cbn. apply Z.eqb_neq in Hb. rewrite Hb. unfold calm. auto. }
  rewrite spec_step_long by done. cbv zeta.
  assert (calm (w ++ [b])) as Hc.
  { right. rewrite length_app, last_last. cbn [length]. split; [lia|done]. }
  rewrite resync_calm by done.
  repeat case_match; cbn [snd]; split; auto; by left.
Qed.

Lemma spec_run_calm w l :
  candidate w -> calm w -> bytes l -> quiet l -> (266 - length w <= length l)%nat ->
  (spec_run w l).2 = [].
Proof.
  intros Hc Hcalm Hl Hq. revert w Hc Hcalm.
  induction Hq as [|b l Hb Hq IH]; intros w Hc Hcalm Hlen.
  { pose proof (candidate_length_lt w Hc). cbn in Hlen. lia. }
  rewrite bytes_cons in Hl. destruct Hl as [Hb8 Hl]. specialize (IH Hl).
  cbn [spec_run]. pose proof (spec_step_candidate w b Hc Hb8) as Hc1.
  destruct (spec_step_calm w b Hcalm Hb) as [Hcalm1 Hor].
  destruct (spec_step w b) as [e w1]. cbn [snd] in *.
  destruct (spec_run w1 l) as [es w'] eqn:E. cbn [snd]. change w' with ((es, w').2).
  rewrite <- E. destruct Hor as [->|Hw1].
  - rewrite (spec_run_quiet l Hq). done.
  - apply IH; [done|done|]. rewrite Hw1, length_app. cbn [length] in *. lia.
Qed.

(** ** Whole chunks *)

Lemma received_ok q out : sendable q -> packet_ok out -> packet_ok (received q out).
Proof.
  intros [[? ? ? Hn Hb Hs] ? Hl] [_ _ _ _ Hb' Hs']. unfold PROTOCOL_MAX_PAYLOAD in Hl.
  split; cbn [received pkt_version pkt_msg_id pkt_seq pkt_length pkt_payload]; try done.
  - solve_bytes.
  - rewrite length_app, length_take, length_drop. width.
Qed.

Lemma received_same q out : sendable q -> same_message (received q out) q.
Proof.
  intros [[? ? ? [Hn ?] Hb Hs] ? Hl]. unfold PROTOCOL_MAX_PAYLOAD in Hl.
  split; cbn [received pkt_version pkt_msg_id pkt_seq pkt_length pkt_payload]; try done.
  apply take_app_length'. rewrite length_take. lia.
Qed.

Lemma delivered_ok w b e out out' :
  packet_ok out -> delivered w b e out out' -> packet_ok out'.
Proof.
  intros Hout. destruct e; cbn [delivered]; [by intros ->|by intros ->|].
  intros (q & Hq & _ & ->). by apply received_ok.
Qed.

(** Equal frames carry the same message. *)
Lemma frame_of_inj q q' out :
  sendable q -> sendable q' -> frame_of q = frame_of q' -> received q out = received q' out.
Proof.
  intros Hq Hq' E.
  pose proof (decode_frame q out [] Hq bytes_nil) as D.
  pose proof (decode_frame q' out [] Hq' bytes_nil) as D'.
  assert (pkt_length q = pkt_length q') as El.
  { apply (f_equal (fun l => Z.of_nat (length l))) in E.
    destruct Hq as [Hq _ Hl], Hq' as [Hq' _ Hl']. unfold PROTOCOL_MAX_PAYLOAD in *.
    rewrite !length_frame_of in E by done. lia. }
  rewrite E, El, D' in D. congruence.
Qed.

Lemma feed_bytes_rel p w bs out :
  bytes bs -> parser_rel p w -> packet_ok out ->
  map fst (feed_bytes p bs out).1.1 = (spec_run w bs).1 /\
  parser_rel (feed_bytes p bs out).1.2 (spec_run w bs).2 /\
  packet_ok (feed_bytes p bs out).2.
Proof.
  intros Hbs. revert p w out. induction Hbs as [|b bs Hb Hbs IH]; intros p w out Hr Hout.
  { done. }
  destruct (feed_byte_rel p w b out Hb Hr Hout) as (He & Hr1 & Hd).
  apply delivered_ok in Hd; [|done]. cbn [feed_bytes spec_run].
  destruct (feed_byte p b out) as [[e p1] out1], (spec_step w b) as [e' w1].
  cbn [fst snd] in *. subst e'. destruct (IH p1 w1 out1 Hr1 Hd) as (H1 & H2 & H3).
  destruct (feed_bytes p1 bs out1) as [[es p2] out2], (spec_run w1 bs) as [es' w2].
  cbn [fst snd map] in *. rewrite H1. done.
Qed.

Lemma feed_bytes_app p l m out :
  feed_bytes p (l ++ m) out =
    let '(es, p1, out1) := feed_bytes p l out in
    let '(es', p2, out2) := feed_bytes p1 m out1 in (es ++ es', p2, out2).
Proof.
  revert p out. induction l as [|b l IH]; intros p out; cbn [app feed_bytes].
  - destruct (feed_bytes p m out) as [[? ?] ?]. done.
  - destruct (feed_byte p b out) as [[e p1] out1]. rewrite IH.
    destruct (feed_bytes p1 l out1) as [[? p2] out2].
    destruct (feed_bytes p2 m out2) as [[? ?] ?]. done.
Qed.

(** The packets handed to the application, in order. *)
Definition packets (es : list (stream_parser_event_t * protocol_packet_t)) :
    list protocol_packet_t :=
  map snd (filter (fun ev => ev.1 = STREAM_EVENT_FRAME) es).

Lemma packets_app es es' : packets (es ++ es') = packets es ++ packets es'.
Proof. unfold packets. rewrite list.filter_app, map_app. done. Qed.

Lemma packets_cons e out es :
  packets ((e, out) :: es) =
    (if decide (e = STREAM_EVENT_FRAME) then [out] else []) ++ packets es.
Proof. unfold packets. rewrite list.filter_cons. cbn [fst]. case_decide; done. Qed.

(** A frame, from the middle of its candidate on. *)
Lemma feed_frame_suffix q p w bs out :
  sendable q -> parser_rel p w -> packet_ok out -> bytes bs ->
  frame_of q = w ++ bs -> bs <> [] ->
  exists es p', feed_bytes p bs out = (es, p', received q out) /\
    map fst es = frame_events (length bs) /\ packets es = [received q out] /\
    parser_rel p' [].
Proof.
  intros Hq Hr Hout Hbs. revert p w Hr.
  induction Hbs as [|b bs Hb Hbs IH]; intros p w Hr Hf Hne; [done|].
  destruct (feed_byte_rel p w b out Hb Hr Hout) as (He & Hr1 & Hd).
  cbn [feed_bytes]. destruct (feed_byte p b out) as [[e p1] out1]. cbn [fst snd] in *.
  destruct bs as [|b' bs].
  - rewrite (spec_step_frame_last q) in He, Hr1, Hd by done. cbn [fst snd] in *. subst e.
    destruct Hd as (q' & Hq' & Hf' & ->). rewrite (frame_of_inj q' q) by congruence.
    cbn [feed_bytes]. eexists _, _. split; [done|]. done.
  - rewrite (spec_step_frame q w b (b' :: bs)) in He, Hr1, Hd by done.
    cbn [fst snd delivered] in *. subst e out1.
    destruct (IH p1 (w ++ [b]) Hr1) as (es & p2 & -> & Hes & Hp & Hr2);
      [rewrite Hf, <- app_assoc; done|done|].
    eexists _, _. split; [done|]. rewrite packets_cons, decide_False, Hp by done.
    cbn [map fst]. rewrite Hes. split_and!; [|done|done].
    unfold frame_events. cbn [length Nat.sub]. rewrite Nat.sub_0_r. done.
Qed.

Lemma feed_frame q p out :
  sendable q -> parser_rel p [] -> packet_ok out ->
  exists es p', feed_bytes p (frame_of q) out = (es, p', received q out) /\
    map fst es = frame_events (length (frame_of q)) /\ packets es = [received q out] /\
    parser_rel p' [].
Proof.
  intros Hq Hr Hout. apply (feed_frame_suffix q p []); try done.
  apply frame_of_bytes. apply Hq.
Qed.

Lemma no_frame_no_packets es :
  (forall e, e ∈ map fst es -> e = STREAM_EVENT_NONE) -> packets es = [].
Proof.
  induction es as [|[e o] es IH]; intros H; [done|]. rewrite packets_cons, IH.
  - rewrite decide_False; [done|]. rewrite (H e); [done|]. cbn. left.
  - intros e' He'. apply H. cbn. by right.
Qed.

Lemma feed_quiet p l out :
  parser_rel p [] -> packet_ok out -> bytes l -> quiet l ->
  exists es p', feed_bytes p l out = (es, p', out) /\
    map fst es = replicate (length l) STREAM_EVENT_NONE /\ packets es = [] /\
    parser_rel p' [].
Proof.
  intros Hr Hout Hl Hq. revert p Hr.
  induction Hq as [|b l Hb Hq IH]; intros p Hr; [by eexists _, _|].
  rewrite bytes_cons in Hl. destruct Hl as [Hb8 Hl].
  destruct (feed_byte_rel p [] b out Hb8 Hr Hout) as (He & Hr1 & Hd).
  cbn [feed_bytes]. destruct (feed_byte p b out) as [[e p1] out1].
  cbn [spec_step fst snd delivered] in *. apply Z.eqb_neq in Hb. rewrite Hb in Hr1.
  subst e out1. destruct (IH Hl p1 Hr1) as (es & p2 & -> & Hes & Hp & Hr2).
  eexists _, _. split; [done|]. rewrite packets_cons, decide_False, Hp by done.
  cbn [map fst length replicate]. rewrite Hes. done.
Qed.

(** The candidate is always the end of what was received. *)
Lemma spec_resync_suffix w : exists pre, w = pre ++ spec_resync w.
Proof.
  unfold spec_resync. case_decide as E; [|case_decide as E1].
  - exists (take (length w - 2) w). rewrite <- E. symmetry. apply take_drop.
  - exists (take (length w - 1) w). rewrite <- E1. symmetry. apply take_drop.
  - exists w. symmetry. apply app_nil_r.
Qed.

Lemma spec_step_suffix w b : exists pre, w ++ [b] = pre ++ (spec_step w b).2.
Proof.
  assert (forall l : list Z, exists pre, l = pre ++ []) as Hnil
    by (intros l; exists l; symmetry; apply app_nil_r).
  assert (forall l : list Z, exists pre, l = pre ++ l) as Hid by (intros; by exists []).
  destruct w as [|a [|a' w]]; cbn [spec_step].
  - destruct (b =? 0xAA); apply Hid || apply Hnil.
  - destruct (b =? 0x55); [apply Hid|]. destruct (b =? 0xAA); [|apply Hnil]. by exists [a].
  - repeat case_match; cbn [snd]; auto using spec_resync_suffix.
Qed.

(** A FRAME event ends a frame on the wire, and delivers its message. *)
Lemma frame_event_sound p w pre0 bs out es p' out' i o :
  bytes bs -> parser_rel p w -> packet_ok out ->
  feed_bytes p bs out = (es, p', out') -> es !! i = Some (STREAM_EVENT_FRAME, o) ->
  exists q pre, sendable q /\ pre0 ++ w ++ take (S i) bs = pre ++ frame_of q /\
    same_message o q.
Proof.
  intros Hbs. revert p w pre0 out es i. induction Hbs as [|b bs Hb Hbs IH];
    intros p w pre0 out es i Hr Hout E Hi.
  { cbn in E. injection E as <- <- <-. done. }
  cbn [feed_bytes] in E.
  destruct (feed_byte_rel p w b out Hb Hr Hout) as (He & Hr1 & Hd).
  destruct (spec_step_suffix w b) as [pre Hpre].
  destruct (feed_byte p b out) as [[e p1] out1]. cbn [fst snd] in *.
  destruct (feed_bytes p1 bs out1) as [[es1 p2] out2] eqn:E1.
  injection E as <- -> ->. rewrite <- He in Hd.
  destruct i as [|i].
  - injection Hi as -> <-. destruct Hd as (q & Hq & Hf & ->).
    exists q, pre0. rewrite <- Hf. split_and!; [done|done|by apply received_same].
  - assert (packet_ok out1) as Hout1 by (eapply delivered_ok; done).
    destruct (IH p1 _ (pre0 ++ pre) out1 es1 i Hr1 Hout1 E1 Hi) as (q & pre' & Hq & Hw & Hs).
    exists q, pre'. split_and!; [done| |done]. rewrite <- Hw.
    change (take (S (S i)) (b :: bs)) with ([b] ++ take (S i) bs).
    rewrite (app_assoc w), Hpre, <- !app_assoc. done.
Qed.

(** One quiet byte makes any candidate calm. *)
Lemma spec_step_becomes_calm w b : b <> 0xAA -> calm (spec_step w b).2.
Proof.
  intros Hb. pose proof Hb as Hb'%Z.eqb_neq. destruct w as [|a [|a' w]].
  - cbn. rewrite Hb'. by left.
  - cbn [spec_step]. rewrite Hb'. destruct (_ =? 0x55); [|by left]. right. done.
  - rewrite spec_step_long by (cbn [length]; lia). cbv zeta. set (u := a :: a' :: w).
    assert (calm (u ++ [b])) as Hc.
    { right. rewrite length_app, last_last. unfold u. cbn [length]. split; [lia|done]. }
    assert (calm (spec_resync (u ++ [b]))) as Hr.
    { unfold spec_resync. case_decide; [right; done|]. case_decide as E; [|by left].
      rewrite length_app, Nat.add_sub, drop_app_length in E. congruence. }
    repeat case_match; cbn [snd]; by (done || left).
Qed.

Lemma spec_run_silence w l :
  candidate w -> bytes l -> quiet l -> (265 <= length l)%nat -> (spec_run w l).2 = [].
Proof.
  intros Hc Hl Hq Hlen. destruct Hq as [|b l Hb Hq]; [cbn in Hlen; lia|].
  rewrite bytes_cons in Hl. destruct Hl as [Hb8 Hl]. cbn [length] in Hlen.
  pose proof (spec_step_candidate w b Hc Hb8) as Hc1.
  pose proof (spec_step_becomes_calm w b Hb) as Hcalm.
  cbn [spec_run]. destruct (spec_step w b) as [e w1]. cbn [snd] in *.
  assert ((spec_run w1 l).2 = []) as Hw.
  { destruct (decide (w1 = [])) as [->|]; [by rewrite spec_run_quiet|].
    assert (266 - length w1 <= length l)%nat by (destruct Hcalm as [?|[? ?]]; [done|lia]).
    by apply spec_run_calm. }
  destruct (spec_run w1 l). done.
Qed.

(** ** Counters *)

(** The events of a run that are [e]. *)
Fixpoint count_events (e : stream_parser_event_t)
    (es : list (stream_parser_event_t * protocol_packet_t)) : Z :=
  match es with
  | [] => 0
  | (e', _) :: es' => (if decide (e' = e) then 1 else 0) + count_events e es'
  end.

Lemma resync_counters p :
  let p' := resync_from_tail p in
  frames_ok p' = frames_ok p /\ crc_errors p' = crc_errors p /\
  format_errors p' = format_errors p /\ last_error p' = last_error p.
Proof. unfold resync_from_tail. cbv zeta. repeat case_match; done. Qed.

(** What one byte does to the counters, by event. *)
Definition counted (e : stream_parser_event_t) (p p' : stream_parser_t) : Prop :=
  match e with
  | STREAM_EVENT_NONE =>
      frames_ok p' = frames_ok p /\ crc_errors p' = crc_errors p /\
      format_errors p' = format_errors p
  | STREAM_EVENT_FRAME =>
      frames_ok p' = u32 (frames_ok p + 1) /\ crc_errors p' = crc_errors p /\
      format_errors p' = format_errors p
  | STREAM_EVENT_ERROR =>
      frames_ok p' = frames_ok p /\ last_error p' <> PROTO_OK /\
      (last_error p' = PROTO_ERR_CRC /\ crc_errors p' = u32 (crc_errors p + 1) /\
         format_errors p' = format_errors p \/
       last_error p' <> PROTO_ERR_CRC /\ crc_errors p' = crc_errors p /\
         format_errors p' = u32 (format_errors p + 1))
  end.

(** The result of a candidate, whatever the decoder says. *)
Lemma finish_candidate_cases p out :
  let r := (protocol_decode (Some (frame_buffer p)) (frame_index p) (Some out)).1 in
  (finish_candidate p out).1 =
    if decide (r = PROTO_OK)
    then (STREAM_EVENT_FRAME,
          reset_frame (p <| last_error := r |> <| frames_ok := u32 (frames_ok p + 1) |>))
    else (STREAM_EVENT_ERROR,
          (reset_frame (if decide (r = PROTO_ERR_CRC)
             then p <| last_error := r |> <| crc_errors := u32 (crc_errors p + 1) |>
             else p <| last_error := r |> <| format_errors := u32 (format_errors p + 1) |>))
            <| last_error := r |>).
Proof.
  unfold finish_candidate. destruct (protocol_decode _ _ _) as [r out']. cbv zeta.
  cbn [fst]. destruct (decide (r = PROTO_OK)); [done|].
  destruct (decide (r = PROTO_ERR_CRC)); done.
Qed.

Lemma finish_candidate_counted p out :
  counted (finish_candidate p out).1.1 p (finish_candidate p out).1.2.
Proof.
  pose proof (finish_candidate_cases p out) as H. cbv zeta in H. rewrite H. clear H.
  destruct (protocol_decode _ _ _) as [r out']. cbn [fst].
  destruct (decide (r = PROTO_OK)); [done|].
  cbn [fst snd counted]. destruct (decide (r = PROTO_ERR_CRC)) as [->|].
  - split; [done|]. split; [done|]. by left.
  - split; [done|]. split; [done|]. by right.
Qed.

Lemma note_resync_counted e p0 p :
  frames_ok p = frames_ok p0 -> crc_errors p = crc_errors p0 ->
  format_errors p = format_errors p0 -> e <> PROTO_OK -> e <> PROTO_ERR_CRC ->
  counted STREAM_EVENT_ERROR p0 (resync_from_tail (note_format_error e p)).
Proof.
  intros H1 H2 H3 He Hcrc. destruct (resync_counters (note_format_error e p)) as (E1 & E2 & E3 & E4).
  cbn [counted]. rewrite E1, E2, E3, E4. cbn. rewrite H1, H2, H3. tauto.
Qed.

Lemma feed_header_counted p b :
  frame_index p < PROTOCOL_FIXED_HEADER_SIZE ->
  counted (feed_read_header p b).1 p (feed_read_header p b).2.
Proof.
  intros Hi. unfold feed_read_header. destruct (_ >=? _) eqn:E; [zlia|]. cbv zeta.
  destruct (_ <? _); [done|].
  destruct (negb _); [by apply note_resync_counted|].
  destruct (_ >? PROTOCOL_MAX_PAYLOAD); [by apply note_resync_counted|].
  destruct (_ >? PROTOCOL_MAX_FRAME_SIZE); [by apply note_resync_counted|done].
Qed.

Lemma feed_rest_counted p w b out :
  is_u8 b -> parser_rel p w -> (8 <= length w)%nat -> packet_ok out ->
  counted (feed_read_rest p b out).1.1 p (feed_read_rest p b out).1.2.
Proof.
  intros Hb Hr Hl Hout. pose proof (rel_candidate _ _ Hr) as Hcand.
  pose proof (candidate_length_lt w Hcand) as Hlt.
  pose proof (cand_incomplete w Hcand Hl) as Hinc.
  pose proof (push_byte_pushed p w b Hb Hr Hlt) as [_ _ _ Hix _ Hex].
  unfold feed_read_rest. change PROTOCOL_MAX_FRAME_SIZE with 266. cbv zeta.
  rewrite (rel_index _ _ Hr), Hix, Hex, (rel_expected _ _ Hr), length_app. cbn [length].
  destruct (Nat.leb_spec 8 (length w)); [|lia].
  destruct (_ >=? 266) eqn:E; [zlia|]. destruct (_ <? _) eqn:E1; [done|].
  destruct (_ >? _) eqn:E2; [zlia|].
  apply (finish_candidate_counted (push_byte b p) out).
Qed.

Lemma feed_byte_counted p w b out :
  is_u8 b -> parser_rel p w -> packet_ok out ->
  counted (feed_byte p b out).1.1 p (feed_byte p b out).1.2.
Proof.
  intros Hb Hr Hout. unfold feed_byte. pose proof (rel_state _ _ Hr) as Hst.
  pose proof (rel_index _ _ Hr) as Hix. destruct (state p) eqn:E; cbn [fst snd].
  - unfold feed_wait_magic_1. case_match; done.
  - unfold feed_wait_magic_2. repeat case_match; done.
  - apply feed_header_counted. rewrite Hix. change PROTOCOL_FIXED_HEADER_SIZE with 8.
    destruct (decide (8 <= length w)%nat) as [H|]; [|lia].
    rewrite state_of_rest in Hst by done. done.
  - apply (feed_rest_counted p w); try done. unfold state_of in Hst.
    destruct (length w) as [|[|n]] eqn:En; [done..|].
    destruct (_ <? 8)%nat eqn:E1; [done|lia].
Qed.

(** ** Properties *)

(** C1: Refinement: whatever bytes arrive, the parser of the firmware reports
    the same event for each byte as the abstract parser, whose only state is
    the candidate frame, and at every moment the buffer starts with that
    candidate, the index is its length, less than the 266 cells of the
    buffer, and the pending expected length fits the buffer. *)
Theorem stream_parser_refines_spec bs out :
  bytes bs -> packet_ok out ->
  let '(es, p, _) := feed_bytes parser_init bs out in
  map fst es = (spec_run [] bs).1 /\
  parser_rel p (spec_run [] bs).2 /\
  0 <= frame_index p < Z.of_nat (length (frame_buffer p)) /\
  expected_frame_length p <= Z.of_nat (length (frame_buffer p)).
Proof.
  intros Hbs Hout.
  destruct (feed_bytes_rel parser_init [] bs out Hbs parser_init_rel Hout) as (H1 & H2 & _).
  destruct (feed_bytes parser_init bs out) as [[es p] out']. cbn [fst snd] in *.
  split; [done|]. split; [done|]. pose proof (rel_candidate _ _ H2) as Hc.
  pose proof (candidate_length_lt _ Hc). rewrite (rel_size _ _ H2), (rel_index _ _ H2).
  split; [lia|]. rewrite (rel_expected _ _ H2). destruct (Nat.leb_spec 8 (length (spec_run [] bs).2)); [|lia].
  destruct (header_ok_length _ (cand_bytes _ Hc)); [by apply Hc|lia].
Qed.

(** The stream of [qs], each frame after some bytes of line noise. *)
Fixpoint noisy_stream (l : list (list Z * protocol_packet_t)) : list Z :=
  match l with
  | [] => []
  | (noise, q) :: l' => noise ++ frame_of q ++ noisy_stream l'
  end.

Lemma feed_noisy_stream l p out :
  parser_rel p [] -> packet_ok out ->
  Forall (fun x => bytes x.1 /\ quiet x.1 /\ sendable x.2) l ->
  exists es p' out', feed_bytes p (noisy_stream l) out = (es, p', out') /\
    Forall2 same_message (packets es) (map snd l) /\
    Forall (fun e => e <> STREAM_EVENT_ERROR) (map fst es) /\
    parser_rel p' [] /\ packet_ok out'.
Proof.
  intros Hr Hout Hl. revert p out Hr Hout.
  induction Hl as [|[noise q] l (Hb & Hn & Hq) Hl IH]; intros p out Hr Hout.
  { exists [], p, out. done. }
  cbn [fst snd noisy_stream map] in *. rewrite feed_bytes_app.
  destruct (feed_quiet p noise out) as (es1 & p1 & -> & E1 & P1 & R1); [done..|].
  rewrite feed_bytes_app.
  destruct (feed_frame q p1 out) as (es2 & p2 & -> & E2 & P2 & R2); [done..|].
  destruct (IH p2 (received q out)) as (es3 & p3 & out3 & -> & F3 & N3 & R3 & K3);
    [done|by apply received_ok|].
  eexists _, _, _. split; [done|]. rewrite !packets_app, P1, P2, !map_app, E1, E2.
  split_and!; [|rewrite !Forall_app; split_and!|done|done].
  - cbn [app]. constructor; [by apply received_same|done].
  - by apply Forall_replicate.
  - unfold frame_events. rewrite Forall_app. split; [by apply Forall_replicate|].
    by repeat constructor.
  - done.
Qed.

(** C25: Delivery: frames sent one after the other, with any line noise that
    does not contain 0xAA before each of them, are all delivered, in order,
    each exactly once, with no error event and no other packet. *)
Theorem parser_delivers_every_frame l out :
  packet_ok out ->
  Forall (fun x => bytes x.1 /\ quiet x.1 /\ sendable x.2) l ->
  let '(es, p, _) := feed_bytes parser_init (noisy_stream l) out in
  Forall2 same_message (packets es) (map snd l) /\
  Forall (fun e => e <> STREAM_EVENT_ERROR) (map fst es) /\
  state p = STREAM_STATE_WAIT_MAGIC_1.
Proof.
  intros Hout Hl.
  destruct (feed_noisy_stream l parser_init out parser_init_rel Hout Hl)
    as (es & p & out' & -> & H1 & H2 & H3 & _).
  split_and!; [done|done|]. apply (rel_state _ _ H3).
Qed.

(** Soundness: on an arbitrary byte stream, a FRAME event at byte [i]
    happens only if the bytes received so far end with the complete frame of
    a transmittable packet, and the packet handed to the caller is that
    message. *)
Theorem parser_delivers_only_frames bs out es p out' i o :
  bytes bs -> packet_ok out ->
  feed_bytes parser_init bs out = (es, p, out') ->
  es !! i = Some (STREAM_EVENT_FRAME, o) ->
  exists q pre, sendable q /\ take (S i) bs = pre ++ frame_of q /\ same_message o q.
Proof.
  intros Hbs Hout E Hi.
  destruct (frame_event_sound parser_init [] [] bs out es p out' i o) as (q & pre & ?);
    [done|apply parser_init_rel|done..|]. exists q, pre. done.
Qed.

(** C26: Recovery: after any garbage whatsoever, 265 bytes of silence (bytes
    other than 0xAA), a bound that is reached, bring the parser back to the
    start of a frame: the next frame is delivered, and nothing else is. *)
Theorem parser_recovers garbage silence q out :
  bytes garbage -> bytes silence -> quiet silence -> (265 <= length silence)%nat ->
  sendable q -> packet_ok out ->
  let '(_, p1, out1) := feed_bytes parser_init (garbage ++ silence) out in
  let '(es, _, _) := feed_bytes p1 (frame_of q) out1 in
  map fst es = frame_events (length (frame_of q)) /\
  Forall2 same_message (packets es) [q].
Proof.
  intros Hg Hs Hq Hl Hsend Hout.
  assert (bytes (garbage ++ silence)) as Hb by by apply bytes_app.
  destruct (feed_bytes_rel parser_init [] _ out Hb parser_init_rel Hout) as (_ & Hr & Hok).
  rewrite spec_run_app in Hr. cbn [snd] in Hr. rewrite spec_run_silence in Hr; try done.
  2: { apply spec_run_candidate; [apply candidate_nil|done]. }
  destruct (feed_bytes parser_init (garbage ++ silence) out) as [[es1 p1] out1].
  cbn [fst snd] in *. destruct (feed_frame q p1 out1) as (es & p2 & -> & E & P & _); [done..|].
  split; [done|]. rewrite P. repeat constructor; by apply received_same.
Qed.

Lemma u32_add_l a b : u32 (u32 a + b) = u32 (a + b).
Proof. unfold u32. lia. Qed.

Lemma count_events_nonneg e es : 0 <= count_events e es.
Proof. induction es as [|[? ?] es IH]; cbn [count_events]; [done|]. case_decide; lia. Qed.

(** Adds the first byte's effect on the counters to that of the others. *)
Ltac tally F C M Hf Hc Hm :=
  split_and!; try (repeat case_decide; try done; lia);
  intros z; rewrite ?F, ?C, ?M, ?Hf, ?Hc, ?Hm, <- ?Z.add_assoc, ?u32_add_l;
  f_equal; repeat case_decide; try done; lia.

Lemma feed_bytes_counted p w bs out es p' out' :
  bytes bs -> parser_rel p w -> packet_ok out -> feed_bytes p bs out = (es, p', out') ->
  exists a b, 0 <= a /\ 0 <= b /\ a + b = count_events STREAM_EVENT_ERROR es /\
    (forall z, u32 (frames_ok p' + z) = u32 (frames_ok p + count_events STREAM_EVENT_FRAME es + z)) /\
    (forall z, u32 (crc_errors p' + z) = u32 (crc_errors p + a + z)) /\
    (forall z, u32 (format_errors p' + z) = u32 (format_errors p + b + z)).
Proof.
  intros Hbs. revert p w out es. induction Hbs as [|x bs Hb Hbs IH];
    intros p w out es Hr Hout E.
  { cbn in E. injection E as <- <- <-. exists 0, 0. cbn.
    split_and!; try done; intros z; f_equal; lia. }
  cbn [feed_bytes] in E.
  pose proof (feed_byte_counted p w x out Hb Hr Hout) as Hc.
  destruct (feed_byte_rel p w x out Hb Hr Hout) as (_ & Hr1 & Hd).
  apply delivered_ok in Hd; [|done].
  destruct (feed_byte p x out) as [[e p1] out1]. cbn [fst snd] in *.
  destruct (feed_bytes p1 bs out1) as [[es1 p2] out2] eqn:E1. injection E as <- -> ->.
  destruct (IH p1 _ out1 es1 Hr1 Hd E1) as (a & b & Ha & Hb' & Hab & F & C & M).
  cbn [count_events]. unfold counted in Hc.
  destruct e; cbn [decide decide_rel stream_parser_event_eq_dec] in *.
  - destruct Hc as (Hf & _ & [(_ & Hc & Hm)|(_ & Hc & Hm)]).
    + exists (a + 1), b. tally F C M Hf Hc Hm.
    + exists a, (b + 1). tally F C M Hf Hc Hm.
  - destruct Hc as (Hf & Hc & Hm). exists a, b. tally F C M Hf Hc Hm.
  - destruct Hc as (Hf & Hc & Hm). exists a, b. tally F C M Hf Hc Hm.
Qed.

(** Accounting: after any run from a fresh parser, [frames_ok] counts the
    frames delivered and [crc_errors] and [format_errors] together count the
    error events, exactly as long as these stay below 2^32 (and modulo 2^32
    afterwards). *)
Theorem parser_counters_account bs out es p out' :
  bytes bs -> packet_ok out -> feed_bytes parser_init bs out = (es, p, out') ->
  u32 (frames_ok p) = u32 (Z.of_nat (length (packets es))) /\
  exists a b, a + b = count_events STREAM_EVENT_ERROR es /\
    u32 (crc_errors p) = u32 a /\ u32 (format_errors p) = u32 b /\
    (count_events STREAM_EVENT_ERROR es < 2 ^ 32 -> u32 (crc_errors p) = a /\ u32 (format_errors p) = b).
Proof.
  intros Hbs Hout E.
  destruct (feed_bytes_counted parser_init [] bs out es p out' Hbs parser_init_rel Hout E)
    as (a & b & Ha & Hb & Hab & F & C & M).
  specialize (F 0). specialize (C 0). specialize (M 0). rewrite !Z.add_0_r in *.
  assert (Z.of_nat (length (packets es)) = count_events STREAM_EVENT_FRAME es) as ->.
  { clear. induction es as [|[e o] es IH]; [done|].
    rewrite packets_cons, length_app. cbn [count_events].
    repeat case_decide; try done; cbn [length]; lia. }
  split; [done|]. exists a, b. change (frames_ok parser_init) with 0 in F.
  change (crc_errors parser_init) with 0 in C. change (format_errors parser_init) with 0 in M.
  rewrite C, M. split_and!; [done|done|done|]. intros Hlt.
  rewrite !u32_small by (change (2^32) with 4294967296 in Hlt; width). lia.
Qed.

(** ** Witnesses *)

Lemma stream_parser_refines_spec_witness :
  let '(es, p, _) := feed_bytes parser_init ([0xAA; 0xAA] ++ ping7_frame) zero_packet in
  map fst es = replicate 2 STREAM_EVENT_NONE ++ frame_events 10.
Proof.
  pose proof (stream_parser_refines_spec ([0xAA; 0xAA] ++ ping7_frame) zero_packet) as H.
  destruct (feed_bytes _ _ _) as [[es p] o].
  destruct H as [H _]; [|apply zero_packet_ok|].
  - apply bytes_app. split; [solve_bytes|apply ping7_frame_bytes].
  - rewrite H. vm_compute. reflexivity.
Defined.

Lemma parser_delivers_every_frame_witness :
  let '(es, _, _) := feed_bytes parser_init
    (noisy_stream [([0; 0x55], ping_packet 1); ([], ping_packet 2)]) zero_packet in
  Forall2 same_message (packets es) [ping_packet 1; ping_packet 2].
Proof.
  pose proof (parser_delivers_every_frame
    [([0; 0x55], ping_packet 1); ([], ping_packet 2)] zero_packet) as H.
  destruct (feed_bytes _ _ _) as [[es p] o]. apply H; [apply zero_packet_ok|].
  repeat constructor; cbn [fst snd]; try done; try width;
    try (apply ping_packet_sendable; width).
Defined.

Lemma parser_delivers_only_frames_witness :
  let bs := 0x55 :: ping7_frame in
  exists o q pre,
    (feed_bytes parser_init bs zero_packet).1.1 !! 10%nat =
      Some (STREAM_EVENT_FRAME, o) /\
    sendable q /\ bs = pre ++ frame_of q /\ same_message o q.
Proof.
  intros bs. destruct (feed_bytes parser_init bs zero_packet) as [[es p] o'] eqn:E.
  assert (exists o, es !! 10%nat = Some (STREAM_EVENT_FRAME, o)) as [o Ho].
  { replace es with (feed_bytes parser_init bs zero_packet).1.1 by (rewrite E; done).
    vm_compute. eexists. reflexivity. }
  destruct (parser_delivers_only_frames bs zero_packet es p o' 10 o) as (q & pre & Hq & Ht & Hs);
    [unfold bs; constructor; [width|apply ping7_frame_bytes]|apply zero_packet_ok|done|done|].
  exists o, q, pre. split; [exact Ho|]. split; [exact Hq|]. split; [exact Ht|exact Hs].
Defined.

Lemma parser_recovers_witness :
  let garbage := [0xAA; 0x55; 0x01; 0x01; 0xAA] in
  let '(_, p1, out1) := feed_bytes parser_init (garbage ++ replicate 265 0) zero_packet in
  let '(es, _, _) := feed_bytes p1 (frame_of (ping_packet 7)) out1 in
  Forall2 same_message (packets es) [ping_packet 7].
Proof.
  intros garbage.
  pose proof (parser_recovers garbage (replicate 265 0) (ping_packet 7) zero_packet) as H.
  destruct (feed_bytes parser_init _ _) as [[es1 p1] out1].
  destruct (feed_bytes p1 _ _) as [[es p2] out2]. apply H.
  - unfold garbage. solve_bytes.
  - apply bytes_zeros.
  - apply Forall_replicate. done.
  - vm_compute. lia.
  - apply ping_packet_sendable. width.
  - apply zero_packet_ok.
Defined.

(** 264 bytes of silence are not enough: the frame is swallowed as the end of
    a 266-byte candidate. *)
Example recovery_bound_is_reached :
  let silence := [0x55; 0x01; 0x01; 0; 0; 0x01; 0] ++ replicate 257 0 in
  let '(_, p1, out1) := feed_bytes parser_init (0xAA :: silence) zero_packet in
  let '(es, _, _) := feed_bytes p1 ping7_frame out1 in
  length silence = 264%nat /\ packets es = [].
Proof. vm_compute. done. Qed.

Lemma parser_counters_account_witness :
  let bs := [0xAA; 0x55; 2; 0; 0; 0; 0; 0] ++ ping7_frame in
  let '(_, p, _) := feed_bytes parser_init bs zero_packet in
  frames_ok p = 1 /\ u32 (crc_errors p) + u32 (format_errors p) = 1.
Proof.
  intros bs. destruct (feed_bytes parser_init bs zero_packet) as [[es p] o] eqn:E.
  destruct (parser_counters_account bs zero_packet es p o) as [_ (a & b & Hab & _ & _ & H)].
  - unfold bs. apply bytes_app. split; [solve_bytes|apply ping7_frame_bytes].
  - apply zero_packet_ok.
  - exact E.
  - assert (frames_ok p = 1 /\ count_events STREAM_EVENT_ERROR es = 1) as [H1 H2].
    { replace es with (feed_bytes parser_init bs zero_packet).1.1 by (rewrite E; done).
      replace p with (feed_bytes parser_init bs zero_packet).1.2 by (rewrite E; done).
      vm_compute. split; reflexivity. }
    destruct H as [Hc Hf]; [rewrite H2; lia|]. split; [exact H1|].
    rewrite Hc, Hf, Hab. exact H2.
Defined.
