(* ===== verification/RxRing.v ===== *)
(** * The two interrupt receive rings

    Gateway (g474_gateway/Core/Src/main.c): 512 cells, free-running 16-bit
    head and tail, all 512 cells usable.  Remote node
    (f429_remote_node/App/Src/uart_rx_ring.c): 512 cells, wrapped indices, one
    cell kept free, so 511 usable.  Both are proved to implement the interface
    [ByteRing], a bounded FIFO written by an interrupt and read by a task; the
    concurrency theorem is proved once, against the interface. *)
From S2P Require Import Prelude.
Local Open Scope Z_scope.

(** ** The interface

    The reader's operation is split at its shared accesses, because the
    receive interrupt may run between any two of them: it latches the read
    index, compares it with the write index, reads the cell and releases it. *)
Class ByteRing (R : Type) := {
  ring_capacity : nat;
  ring_wf : R -> Prop;
  ring_contents : R -> list Z;
  ring_push : Z -> R -> bool * R;
  ring_index : R -> Z;
  ring_empty_at : Z -> R -> bool;
  ring_byte_at : Z -> R -> Z;
  ring_release : Z -> R -> R
}.

Class ByteRingLaws (R : Type) `{ByteRing R} := {
  ring_push_law r b : ring_wf r ->
    ring_wf (ring_push b r).2 /\
    (ring_push b r).1 = bool_decide (length (ring_contents r) < ring_capacity)%nat /\
    ring_contents (ring_push b r).2 =
      ring_contents r ++ (if (ring_push b r).1 then [b] else []) /\
    ring_index (ring_push b r).2 = ring_index r;
  ring_empty_law r : ring_wf r ->
    ring_empty_at (ring_index r) r = bool_decide (ring_contents r = []);
  ring_byte_law r b l : ring_wf r -> ring_contents r = b :: l ->
    ring_byte_at (ring_index r) r = b;
  ring_release_law r b l : ring_wf r -> ring_contents r = b :: l ->
    ring_wf (ring_release (ring_index r) r) /\
    ring_contents (ring_release (ring_index r) r) = l;
  ring_bound_law r : ring_wf r -> (length (ring_contents r) <= ring_capacity)%nat
}.

(** The undisturbed pop. *)
Definition ring_pop {R} `{ByteRing R} (r : R) : option Z * R :=
  let t := ring_index r in
  if ring_empty_at t r then (None, r) else (Some (ring_byte_at t r), ring_release t r).

(** ** The gateway ring *)
Definition RS422_RX_RING_CAPACITY : Z := 512.
Definition RS422_RX_RING_MASK : Z := RS422_RX_RING_CAPACITY - 1.

(** [g_rs422_rx_ring], [g_rs422_rx_head], [g_rs422_rx_tail] and
    [g_rs422_rx_overflow_count]. *)
Record rs422_ring := mk_rs422_ring {
  g_rs422_rx_ring : list Z;
  g_rs422_rx_head : Z;
  g_rs422_rx_tail : Z;
  g_rs422_rx_overflow_count : Z
}.

#[export] Instance eta_rs422_ring : Eta rs422_ring := fun r =>
  mk_rs422_ring (g_rs422_rx_ring r) (g_rs422_rx_head r) (g_rs422_rx_tail r)
    (g_rs422_rx_overflow_count r).

Definition rs422_rx_ring_push_from_isr (byte : Z) (r : rs422_ring) : rs422_ring :=
  let head := g_rs422_rx_head r in
  let tail := g_rs422_rx_tail r in
  if u16 (head - tail) >=? RS422_RX_RING_CAPACITY
  then r <| g_rs422_rx_overflow_count := u32 (g_rs422_rx_overflow_count r + 1) |>
  else
    r <| g_rs422_rx_ring :=
           arr_set (g_rs422_rx_ring r) (Z.land head RS422_RX_RING_MASK) byte |>
      <| g_rs422_rx_head := u16 (head + 1) |>.

(** [rs422_rx_ring_pop] with the byte it stores through its pointer. *)
Definition rs422_rx_ring_pop (r : rs422_ring) : option Z * rs422_ring :=
  let tail := g_rs422_rx_tail r in
  if tail =? g_rs422_rx_head r
  then (None, r)
  else
    let byte := arr_get (g_rs422_rx_ring r) (Z.land tail RS422_RX_RING_MASK) in
    (Some byte, r <| g_rs422_rx_tail := u16 (tail + 1) |>).

(** ** The remote node's ring *)
Definition UART_RX_RING_SIZE : Z := 512.

Record uart_rx_ring_t := mk_uart_rx_ring {
  storage : list Z;
  write_index : Z;
  read_index : Z
}.

#[export] Instance eta_uart_rx_ring : Eta uart_rx_ring_t := fun r =>
  mk_uart_rx_ring (storage r) (write_index r) (read_index r).

(** [None] is the NULL pointer. *)
Definition uart_rx_ring_init (ring : option uart_rx_ring_t) : option uart_rx_ring_t :=
  match ring with
  | Some r => Some (r <| write_index := 0 |> <| read_index := 0 |>)
  | None => None
  end.

(** [(uint16_t)(index + 1)], wrapped at the ring size. *)
Definition next_index (i : Z) : Z :=
  let n := u16 (i + 1) in if n >=? UART_RX_RING_SIZE then 0 else n.

Definition uart_rx_ring_push_isr (ring : option uart_rx_ring_t) (byte : Z) :
    Z * option uart_rx_ring_t :=
  match ring with
  | None => (0, None)
  | Some r =>
      let next_write := next_index (write_index r) in
      if next_write =? read_index r
      then (0, Some r)
      else
        (1, Some (r <| storage := arr_set (storage r) (write_index r) byte |>
                    <| write_index := next_write |>))
  end.

(** The second component is the byte the caller's pointer then holds. *)
Definition uart_rx_ring_pop (ring : option uart_rx_ring_t) (byte : option Z) :
    Z * option Z * option uart_rx_ring_t :=
  match ring, byte with
  | Some r, Some _ =>
      if read_index r =? write_index r
      then (0, byte, ring)
      else
        let b := arr_get (storage r) (read_index r) in
        let next_read := next_index (read_index r) in
        (1, Some b, Some (r <| read_index := next_read |>))
  | _, _ => (0, byte, ring)
  end.

(** ** Cells of a 512-cell ring *)

Definition ring_slice (s : list Z) (start : Z) (n : nat) : list Z :=
  map (fun i => arr_get s ((start + Z.of_nat i) mod 512)) (seq 0 n).

Lemma length_ring_slice s t n : length (ring_slice s t n) = n.
Proof. unfold ring_slice. rewrite length_map, length_seq. done. Qed.

Lemma ring_slice_ext s s' t t' n :
  (forall i, (i < n)%nat ->
     arr_get s ((t + Z.of_nat i) mod 512) = arr_get s' ((t' + Z.of_nat i) mod 512)) ->
  ring_slice s t n = ring_slice s' t' n.
Proof.
  intros H. unfold ring_slice. apply map_ext_in. intros i Hi%in_seq. apply H. lia.
Qed.

Lemma ring_slice_cons s t n :
  ring_slice s t (S n) = arr_get s (t mod 512) :: ring_slice s (t + 1) n.
Proof.
  unfold ring_slice. cbn [seq map]. rewrite Z.add_0_r. f_equal.
  rewrite <- seq_shift, map_map. apply map_ext. intros i. do 2 f_equal. lia.
Qed.

Lemma ring_slice_snoc s t n :
  ring_slice s t (S n) = ring_slice s t n ++ [arr_get s ((t + Z.of_nat n) mod 512)].
Proof. unfold ring_slice. rewrite seq_S, map_app. done. Qed.

Lemma ring_slice_write s t n b :
  length s = 512%nat -> (n < 512)%nat ->
  ring_slice (arr_set s ((t + Z.of_nat n) mod 512) b) t (S n) = ring_slice s t n ++ [b].
Proof.
  intros Hs Hn. rewrite ring_slice_snoc. f_equal.
  - apply ring_slice_ext. intros i Hi. apply arr_get_set_ne; lia.
  - f_equal. apply arr_get_set_eq. lia.
Qed.

(** ** The gateway ring implements the interface *)

Lemma land_mask z : Z.land z RS422_RX_RING_MASK = z mod 512.
Proof. change RS422_RX_RING_MASK with (Z.ones 9). rewrite Z.land_ones by lia. done. Qed.

Definition rs422_ring_count (r : rs422_ring) : Z :=
  u16 (g_rs422_rx_head r - g_rs422_rx_tail r).

#[export] Instance rs422_byte_ring : ByteRing rs422_ring := {
  ring_capacity := 512;
  ring_wf r := length (g_rs422_rx_ring r) = 512%nat /\ is_u16 (g_rs422_rx_head r) /\
    is_u16 (g_rs422_rx_tail r) /\ rs422_ring_count r <= 512;
  ring_contents r :=
    ring_slice (g_rs422_rx_ring r) (g_rs422_rx_tail r) (Z.to_nat (rs422_ring_count r));
  ring_push b r :=
    (negb (rs422_ring_count r >=? RS422_RX_RING_CAPACITY), rs422_rx_ring_push_from_isr b r);
  ring_index r := g_rs422_rx_tail r;
  ring_empty_at t r := t =? g_rs422_rx_head r;
  ring_byte_at t r := arr_get (g_rs422_rx_ring r) (Z.land t RS422_RX_RING_MASK);
  ring_release t r := r <| g_rs422_rx_tail := u16 (t + 1) |>
}.

Lemma rs422_count_inv r b l :
  ring_wf r -> ring_contents r = b :: l ->
  0 < rs422_ring_count r <= 512.
Proof.
  intros (_ & _ & _ & H) E. cbn [ring_contents rs422_byte_ring] in E.
  apply (f_equal length) in E. rewrite length_ring_slice in E. cbn [length] in E. lia.
Qed.

Lemma rs422_push_ok b r :
  ring_wf r -> rs422_ring_count r < 512 ->
  let r' := rs422_rx_ring_push_from_isr b r in
  ring_wf r' /\ ring_contents r' = ring_contents r ++ [b] /\
  rs422_ring_count r' = rs422_ring_count r + 1 /\ g_rs422_rx_tail r' = g_rs422_rx_tail r.
Proof.
  intros (Hs & Hh & Ht & Hc) Hlt r'. unfold r', rs422_rx_ring_push_from_isr. cbv zeta.
  destruct (_ >=? _) eqn:E.
  { unfold RS422_RX_RING_CAPACITY, rs422_ring_count in *. zlia. }
  cbn [ring_wf ring_contents rs422_byte_ring set_field]. unfold rs422_ring_count in *.
  cbn [g_rs422_rx_ring g_rs422_rx_head g_rs422_rx_tail].
  assert (u16 (u16 (g_rs422_rx_head r + 1) - g_rs422_rx_tail r) =
          u16 (g_rs422_rx_head r - g_rs422_rx_tail r) + 1) as Hn by width.
  rewrite length_arr_set, Hn, land_mask. split_and!; [done|width|done|lia| |done|done].
  rewrite Z2Nat.inj_add by width. change (Z.to_nat 1) with 1%nat. rewrite Nat.add_1_r.
  replace (g_rs422_rx_head r mod 512) with ((g_rs422_rx_tail r +
    Z.of_nat (Z.to_nat (u16 (g_rs422_rx_head r - g_rs422_rx_tail r)))) mod 512) by width.
  apply ring_slice_write; [done|width].
Qed.

Lemma rs422_push_full b r :
  rs422_ring_count r >= 512 ->
  rs422_rx_ring_push_from_isr b r =
    r <| g_rs422_rx_overflow_count := u32 (g_rs422_rx_overflow_count r + 1) |>.
Proof.
  intros H. unfold rs422_rx_ring_push_from_isr, rs422_ring_count, RS422_RX_RING_CAPACITY in *.
  cbv zeta. destruct (_ >=? _) eqn:E; [done|zlia].
Qed.

#[export] Instance rs422_byte_ring_laws : ByteRingLaws rs422_ring.
Proof.
  split.
  - intros r b Hwf. pose proof Hwf as (Hs & Hh & Ht & Hc).
    cbn [ring_push ring_index ring_capacity rs422_byte_ring fst snd].
    change RS422_RX_RING_CAPACITY with 512.
    assert (length (ring_contents r) = Z.to_nat (rs422_ring_count r)) as Hl
      by apply length_ring_slice.
    rewrite Hl. destruct (rs422_ring_count r >=? 512) eqn:E; cbn [negb].
    + rewrite rs422_push_full by zlia. rewrite bool_decide_false by zlia.
      rewrite app_nil_r. done.
    + destruct (rs422_push_ok b r) as (? & ? & _ & ?); [done|zlia|].
      rewrite bool_decide_true by (unfold rs422_ring_count in *; width). done.
  - intros r (Hs & Hh & Ht & Hc). cbn [ring_empty_at ring_index rs422_byte_ring].
    apply eq_true_iff_eq. rewrite Z.eqb_eq, bool_decide_eq_true. unfold ring_contents.
    cbn. rewrite <- length_zero_iff_nil, length_ring_slice. unfold rs422_ring_count in *.
    width.
  - intros r b l Hwf E. pose proof (rs422_count_inv r b l Hwf E) as Hc.
    cbn [ring_byte_at ring_index rs422_byte_ring]. rewrite land_mask.
    cbn [ring_contents rs422_byte_ring] in E.
    destruct (Z.to_nat (rs422_ring_count r)) eqn:En; [lia|].
    rewrite ring_slice_cons in E. by injection E.
  - intros r b l Hwf E. pose proof (rs422_count_inv r b l Hwf E) as Hc.
    destruct Hwf as (Hs & Hh & Ht & _).
    cbn [ring_release ring_index ring_wf ring_contents rs422_byte_ring set_field] in *.
    unfold rs422_ring_count in *. cbn [g_rs422_rx_ring g_rs422_rx_head g_rs422_rx_tail].
    assert (u16 (g_rs422_rx_head r - u16 (g_rs422_rx_tail r + 1)) =
      u16 (g_rs422_rx_head r - g_rs422_rx_tail r) - 1) as Hn by width.
    rewrite Hn. split; [split_and!; [done|done|width|lia]|].
    destruct (Z.to_nat (u16 (g_rs422_rx_head r - g_rs422_rx_tail r))) eqn:En; [lia|].
    rewrite ring_slice_cons in E. injection E as _ <-.
    replace (Z.to_nat _) with n by lia. apply ring_slice_ext. intros i Hi. f_equal. width.
  - intros r (_ & _ & _ & H). cbn [ring_contents ring_capacity rs422_byte_ring].
    rewrite length_ring_slice. lia.
Qed.

Lemma rs422_rx_ring_pop_is_ring_pop r : rs422_rx_ring_pop r = ring_pop r.
Proof. done. Qed.

(** ** The remote node's ring implements the interface *)

Definition uart_ring_count (r : uart_rx_ring_t) : Z :=
  (write_index r - read_index r) mod 512.

#[export] Instance uart_byte_ring : ByteRing uart_rx_ring_t := {
  ring_capacity := 511;
  ring_wf r := length (storage r) = 512%nat /\ 0 <= write_index r < 512 /\
    0 <= read_index r < 512;
  ring_contents r := ring_slice (storage r) (read_index r) (Z.to_nat (uart_ring_count r));
  ring_push b r :=
    let (ok, r') := uart_rx_ring_push_isr (Some r) b in
    (negb (ok =? 0), default r r');
  ring_index r := read_index r;
  ring_empty_at t r := t =? write_index r;
  ring_byte_at t r := arr_get (storage r) t;
  ring_release t r := r <| read_index := next_index t |>
}.

Lemma next_index_mod i : 0 <= i < 512 -> next_index i = (i + 1) mod 512.
Proof.
  intros H. unfold next_index, UART_RX_RING_SIZE. cbv zeta.
  destruct (_ >=? 512) eqn:E; rewrite Z.geb_leb in E; width.
Qed.

Lemma uart_push_cases b r :
  ring_wf r ->
  ring_push b r =
    if decide (uart_ring_count r = 511) then (false, r)
    else (true, r <| storage := arr_set (storage r) (write_index r) b |>
                  <| write_index := next_index (write_index r) |>).
Proof.
  intros (Hs & Hw & Hr). cbn [ring_push uart_byte_ring]. unfold uart_rx_ring_push_isr.
  cbv zeta. rewrite !next_index_mod by lia. unfold uart_ring_count.
  destruct (_ =? read_index r) eqn:E; case_decide; try done; lia.
Qed.

#[export] Instance uart_byte_ring_laws : ByteRingLaws uart_rx_ring_t.
Proof.
  split.
  - intros r b Hwf. pose proof Hwf as (Hs & Hw & Hr). rewrite uart_push_cases by done.
    assert (length (ring_contents r) = Z.to_nat (uart_ring_count r)) as ->
      by apply length_ring_slice.
    cbn [ring_capacity uart_byte_ring]. case_decide as E.
    + cbn [fst snd]. rewrite bool_decide_false, app_nil_r by lia. done.
    + cbn [fst snd ring_wf ring_contents ring_index uart_byte_ring set_field storage
        write_index read_index]. unfold uart_ring_count in *.
      cbn [storage write_index read_index]. rewrite next_index_mod by done.
      rewrite length_arr_set, bool_decide_true by lia.
      split_and!; [done|lia|lia|lia|lia|done| |done].
      replace (((write_index r + 1) mod 512 - read_index r) mod 512)
        with ((write_index r - read_index r) mod 512 + 1) by lia.
      rewrite Z2Nat.inj_add by lia. change (Z.to_nat 1) with 1%nat. rewrite Nat.add_1_r.
      replace (write_index r) with ((read_index r +
        Z.of_nat (Z.to_nat ((write_index r - read_index r) mod 512))) mod 512) at 1 by lia.
      apply ring_slice_write; [done|lia].
  - intros r (Hs & Hw & Hr). cbn [ring_empty_at ring_index uart_byte_ring].
    apply eq_true_iff_eq. rewrite Z.eqb_eq, bool_decide_eq_true. unfold ring_contents.
    cbn. rewrite <- length_zero_iff_nil, length_ring_slice. unfold uart_ring_count. lia.
  - intros r b l (Hs & Hw & Hr) E. cbn [ring_contents ring_byte_at ring_index uart_byte_ring] in *.
    destruct (Z.to_nat (uart_ring_count r)) eqn:En; [done|].
    rewrite ring_slice_cons, Z.mod_small in E by lia. by injection E.
  - intros r b l (Hs & Hw & Hr) E.
    cbn [ring_release ring_index ring_wf ring_contents uart_byte_ring set_field] in *.
    unfold uart_ring_count in *. cbn [storage write_index read_index].
    rewrite next_index_mod by done. split; [split_and!; lia || done|].
    destruct (Z.to_nat ((write_index r - read_index r) mod 512)) eqn:En; [done|].
    rewrite ring_slice_cons in E. injection E as _ <-.
    replace (Z.to_nat _) with n by lia. apply ring_slice_ext. intros i Hi. f_equal. lia.
  - intros r (Hs & Hw & Hr). cbn [ring_contents ring_capacity uart_byte_ring].
    rewrite length_ring_slice. unfold uart_ring_count. lia.
Qed.

Lemma uart_rx_ring_pop_is_ring_pop r old :
  uart_rx_ring_pop (Some r) (Some old) =
    let (o, r') := ring_pop r in
    (if o is Some _ then 1 else 0, Some (default old o), Some r').
Proof.
  unfold uart_rx_ring_pop, ring_pop. cbn [ring_index ring_empty_at uart_byte_ring].
  destruct (_ =? _); done.
Qed.

(** ** A reader interrupted anywhere by the writer

    [Idle], then the index [t] was latched, then found different from the
    write index, then the byte was read, and last the cell is released. *)
Inductive reader :=
  | Idle
  | Latched (t : Z)
  | NonEmpty (t : Z)
  | HasByte (t b : Z).

Section Interleaving.
Context {R : Type} `{ByteRing R} `{!ByteRingLaws R}.

(** The ring, the task's place in the pop, and the history: the bytes the
    interrupt stored, the bytes it had to drop, the bytes popped. *)
Record ring_system := mk_ring_system {
  sys_ring : R;
  sys_reader : reader;
  sys_stored : list Z;
  sys_dropped : list Z;
  sys_popped : list Z
}.

Definition isr_store (b : Z) (s : ring_system) : ring_system :=
  let (ok, r) := ring_push b (sys_ring s) in
  mk_ring_system r (sys_reader s)
    (sys_stored s ++ if ok then [b] else [])
    (sys_dropped s ++ if ok then [] else [b]) (sys_popped s).

(** One atomic step of the task. *)
Definition reader_step (s : ring_system) : ring_system :=
  let r := sys_ring s in
  match sys_reader s with
  | Idle => mk_ring_system r (Latched (ring_index r)) (sys_stored s) (sys_dropped s) (sys_popped s)
  | Latched t =>
      mk_ring_system r (if ring_empty_at t r then Idle else NonEmpty t)
        (sys_stored s) (sys_dropped s) (sys_popped s)
  | NonEmpty t =>
      mk_ring_system r (HasByte t (ring_byte_at t r)) (sys_stored s) (sys_dropped s) (sys_popped s)
  | HasByte t b =>
      mk_ring_system (ring_release t r) Idle (sys_stored s) (sys_dropped s)
        (sys_popped s ++ [b])
  end.

Inductive ring_step : ring_system -> ring_system -> Prop :=
  | step_isr s b : is_u8 b -> ring_step s (isr_store b s)
  | step_reader s : ring_step s (reader_step s).

Definition ring_start (r : R) : ring_system := mk_ring_system r Idle [] [] [].

Record ring_inv (s : ring_system) : Prop := {
  inv_wf : ring_wf (sys_ring s);
  inv_fifo : sys_stored s = sys_popped s ++ ring_contents (sys_ring s);
  inv_reader :
    match sys_reader s with
    | Idle => True
    | Latched t => t = ring_index (sys_ring s)
    | NonEmpty t => t = ring_index (sys_ring s) /\ ring_contents (sys_ring s) <> []
    | HasByte t b => t = ring_index (sys_ring s) /\
        exists l, ring_contents (sys_ring s) = b :: l
    end
}.

Lemma ring_start_inv r : ring_wf r -> ring_contents r = [] -> ring_inv (ring_start r).
Proof. intros Hw Hc. split; cbn; [done|by rewrite Hc|done]. Qed.

Lemma isr_store_inv b s : ring_inv s -> ring_inv (isr_store b s).
Proof.
  intros [Hw Hf Hr]. destruct (ring_push_law (sys_ring s) b Hw) as (Hw' & _ & Hc & Hi).
  unfold isr_store. destruct (ring_push b (sys_ring s)) as [ok r]. cbn [fst snd] in *.
  split; cbn [sys_ring sys_reader sys_stored sys_popped]; [done| |].
  - rewrite Hc, Hf, app_assoc. done.
  - rewrite Hi, Hc. destruct (sys_reader s); [done|done| |].
    + destruct Hr as [? Hr]. split; [done|]. destruct (ring_contents (sys_ring s)); done.
    + destruct Hr as (? & l & ->). eauto.
Qed.

Lemma reader_step_inv s : ring_inv s -> ring_inv (reader_step s).
Proof.
  intros [Hw Hf Hr]. unfold reader_step.
  destruct (sys_reader s) as [|t|t|t b]; cbn [sys_reader] in *.
  - split; done.
  - subst t. split; cbn [sys_ring sys_reader sys_stored sys_popped]; [done|done|].
    rewrite ring_empty_law by done. case_bool_decide; done.
  - destruct Hr as [-> Hr]. split; cbn [sys_ring sys_reader sys_stored sys_popped]; [done|done|].
    split; [done|]. destruct (ring_contents (sys_ring s)) as [|b l] eqn:E; [done|].
    exists l. rewrite (ring_byte_law _ b l) by done. done.
  - destruct Hr as (-> & l & E). destruct (ring_release_law _ b l Hw E) as [Hw' Hc].
    split; cbn [sys_ring sys_reader sys_stored sys_popped]; [done| |done].
    rewrite Hf, E, Hc, <- app_assoc. done.
Qed.

Lemma ring_reachable_inv r s :
  ring_wf r -> ring_contents r = [] -> rtc ring_step (ring_start r) s -> ring_inv s.
Proof.
  intros Hw Hc Hs. assert (ring_inv (ring_start r)) as Hi by by apply ring_start_inv.
  induction Hs as [|s1 s2 s3 Hstep _ IH]; [done|]. apply IH.
  destruct Hstep; [by apply isr_store_inv|by apply reader_step_inv].
Qed.

(** A byte is refused only by a full ring. *)
Lemma isr_drops_only_when_full b s :
  ring_inv s -> (ring_push b (sys_ring s)).1 = false ->
  length (ring_contents (sys_ring s)) = ring_capacity.
Proof.
  intros [Hw _ _] E. destruct (ring_push_law (sys_ring s) b Hw) as (_ & Ho & _ & _).
  rewrite Ho in E. apply bool_decide_eq_false in E.
  pose proof (ring_bound_law (sys_ring s) Hw). lia.
Qed.
End Interleaving.
Arguments ring_system R : clear implicits.

(** ** Properties *)

Lemma gateway_overflow_counts r s :
  ring_wf r -> ring_contents r = [] -> g_rs422_rx_overflow_count r = 0 ->
  rtc ring_step (ring_start r) s ->
  g_rs422_rx_overflow_count (sys_ring s) = u32 (Z.of_nat (length (sys_dropped s))).
Proof.
  intros Hw Hc H0 Hs. pattern s. eapply rtc_ind_r; [| |exact Hs]; clear s Hs.
  { cbn. rewrite H0. done. }
  intros s1 s2 Hs Hstep IH. destruct (ring_reachable_inv r s1 Hw Hc Hs) as [Hw1 _ _].
  destruct Hstep as [s b Hb|s].
  - unfold isr_store. cbn [ring_push rs422_byte_ring sys_ring sys_dropped].
    change RS422_RX_RING_CAPACITY with 512.
    destruct (rs422_ring_count (sys_ring s) >=? 512) eqn:E;
      cbn [negb fst snd sys_ring sys_dropped].
    + rewrite rs422_push_full by zlia. cbn. rewrite IH, length_app. cbn [length].
      width.
    + rewrite app_nil_r. unfold rs422_rx_ring_push_from_isr.
      fold (rs422_ring_count (sys_ring s)). change RS422_RX_RING_CAPACITY with 512.
      rewrite E. done.
  - unfold reader_step. destruct (sys_reader s); done.
Qed.

(** C14: The gateway's receive ring is a FIFO of 512 bytes under interrupts:
    starting empty, however the receive interrupt is interleaved with the
    separate accesses of the reading task, the bytes the task got followed by
    the bytes still in the ring are exactly the bytes stored, in order; at
    most 512 bytes wait; the overflow counter counts exactly the bytes
    dropped; and a byte is dropped only when 512 bytes are waiting. *)
Theorem gateway_ring_fifo r s :
  length (g_rs422_rx_ring r) = 512%nat -> is_u16 (g_rs422_rx_head r) ->
  g_rs422_rx_tail r = g_rs422_rx_head r -> g_rs422_rx_overflow_count r = 0 ->
  rtc ring_step (ring_start r) s ->
  let n := u16 (g_rs422_rx_head (sys_ring s) - g_rs422_rx_tail (sys_ring s)) in
  sys_stored s = sys_popped s ++
    ring_slice (g_rs422_rx_ring (sys_ring s)) (g_rs422_rx_tail (sys_ring s)) (Z.to_nat n) /\
  n <= 512 /\
  g_rs422_rx_overflow_count (sys_ring s) = u32 (Z.of_nat (length (sys_dropped s))) /\
  (forall b, g_rs422_rx_overflow_count (rs422_rx_ring_push_from_isr b (sys_ring s)) =
     (if decide (n = 512) then u32 (g_rs422_rx_overflow_count (sys_ring s) + 1)
      else g_rs422_rx_overflow_count (sys_ring s))).
Proof.
  intros Hl Hh Ht H0 Hs n.
  assert (rs422_ring_count r = 0) as Hc.
  { unfold rs422_ring_count. rewrite Ht. width. }
  assert (ring_wf r) as Hw.
  { cbn [ring_wf rs422_byte_ring]. rewrite Hc, Ht. split_and!; (done || width). }
  assert (ring_contents r = []) as He.
  { cbn [ring_contents rs422_byte_ring]. rewrite Hc. done. }
  destruct (ring_reachable_inv r s Hw He Hs) as [Hws Hf _].
  split; [exact Hf|]. split; [apply Hws|].
  split; [by apply (gateway_overflow_counts r)|].
  intros b. destruct Hws as (_ & _ & _ & Hn). fold n in Hn |- *.
  unfold rs422_ring_count in Hn. fold n in Hn. case_decide as E.
  - rewrite rs422_push_full; [done|]. unfold rs422_ring_count. fold n. lia.
  - unfold rs422_rx_ring_push_from_isr. fold n. change RS422_RX_RING_CAPACITY with 512.
    destruct (n >=? 512) eqn:E2; [zlia|done].
Qed.

(** The remote node's receive ring is a FIFO of 511 bytes under
    interrupts: after [uart_rx_ring_init], for every interleaving of the
    interrupt with the accesses of the pop, popped bytes followed by waiting
    bytes are exactly the stored bytes, both indices stay below 512, and a
    push fails exactly when 511 bytes are waiting. *)
Theorem uart_ring_fifo r0 r s :
  length (storage r0) = 512%nat -> uart_rx_ring_init (Some r0) = Some r ->
  rtc ring_step (ring_start r) s ->
  let q := sys_ring s in
  let n := (write_index q - read_index q) mod 512 in
  sys_stored s = sys_popped s ++ ring_slice (storage q) (read_index q) (Z.to_nat n) /\
  0 <= write_index q < 512 /\ 0 <= read_index q < 512 /\
  (forall b, (uart_rx_ring_push_isr (Some q) b).1 = if decide (n = 511) then 0 else 1).
Proof.
  intros Hl Hi Hs q n. cbn in Hi. injection Hi as <-.
  match type of Hs with rtc _ (ring_start ?x) _ => set (r := x) in * end.
  assert (ring_wf r) as Hwr by (split_and!; [exact Hl|done..]).
  destruct (ring_reachable_inv r s Hwr eq_refl Hs) as [Hw Hf _].
  split; [exact Hf|]. pose proof Hw as (_ & ? & ?). split; [done|]. split; [done|].
  intros b. pose proof (uart_push_cases b q Hw) as Hp.
  cbn [ring_push uart_byte_ring] in Hp. unfold uart_ring_count in Hp. fold n in Hp.
  revert Hp. unfold uart_rx_ring_push_isr. cbv zeta.
  destruct (_ =? _), (decide (n = 511)); done.
Qed.

(** ** Witnesses *)

Definition empty_rs422_ring (head : Z) : rs422_ring :=
  mk_rs422_ring (replicate 512 0) head head 0.

(** The indices wrap past 65535; the interrupt stores a second byte while the
    task is between its comparison and its read. *)
Lemma gateway_ring_fifo_witness :
  exists s, rtc ring_step (ring_start (empty_rs422_ring 65535)) s /\
    sys_stored s = [17; 34] /\ sys_popped s = [17] /\
    sys_stored s = sys_popped s ++
      ring_slice (g_rs422_rx_ring (sys_ring s)) (g_rs422_rx_tail (sys_ring s)) 1.
Proof.
  set (s := reader_step (reader_step (isr_store 34 (reader_step (reader_step
    (isr_store 17 (ring_start (empty_rs422_ring 65535)))))))).
  assert (rtc ring_step (ring_start (empty_rs422_ring 65535)) s) as Hs.
  { unfold s. do 6 (eapply rtc_r; [|first [apply step_reader | apply step_isr; width]]). apply rtc_refl. }
  exists s. split; [exact Hs|]. split; [vm_compute; reflexivity|].
  split; [vm_compute; reflexivity|].
  apply (gateway_ring_fifo (empty_rs422_ring 65535) s); [done|cbn [g_rs422_rx_head empty_rs422_ring]; width|done|done|exact Hs].
Defined.

Lemma uart_ring_fifo_witness :
  exists r s, uart_rx_ring_init (Some (mk_uart_rx_ring (replicate 512 0) 3 9)) = Some r /\
    rtc ring_step (ring_start r) s /\ sys_popped s = [5] /\
    sys_stored s = sys_popped s ++ ring_slice (storage (sys_ring s)) (read_index (sys_ring s)) 0.
Proof.
  set (r := mk_uart_rx_ring (replicate 512 0) 0 0).
  set (s := reader_step (reader_step (reader_step (reader_step (isr_store 5 (ring_start r)))))).
  assert (rtc ring_step (ring_start r) s) as Hs.
  { unfold s. do 5 (eapply rtc_r; [|first [apply step_reader | apply step_isr; width]]). apply rtc_refl. }
  exists r, s. split; [done|]. split; [exact Hs|]. split; [vm_compute; reflexivity|].
  apply (uart_ring_fifo (mk_uart_rx_ring (replicate 512 0) 3 9) r s); [done|done|exact Hs].
Defined.
