(* ===== verification/RemoteNode.v ===== *)
(** * The F429 remote node (f429_remote_node/App/Src/remote_node.c, App/Inc/remote_node.h)

    The Protocol V1 server at the far end of the RS-422 line: answers PING and
    READ_STATUS, reports errors, sends telemetry and heartbeats.  The platform
    is reached through two callbacks, modelled as functions on the state the
    [user_context] pointer stands for. *)
From S2P Require Import Prelude Crc16 Protocol StreamParser.
Local Open Scope Z_scope.

Definition REMOTE_NODE_HEARTBEAT_PERIOD_MS : Z := 500.
Definition REMOTE_NODE_TELEMETRY_PERIOD_MS : Z := 100.

Inductive remote_node_comm_status_t := COMM_INIT | COMM_OK | COMM_ERROR.
Inductive remote_node_error_code_t :=
  | REMOTE_ERROR_UNKNOWN_MSG
  | REMOTE_ERROR_BAD_LENGTH
  | REMOTE_ERROR_UNSUPPORTED.

#[export] Instance comm_status_eq_dec : EqDecision remote_node_comm_status_t.
Proof. solve_decision. Defined.

Definition comm_status_code (s : remote_node_comm_status_t) : Z :=
  match s with COMM_INIT => 0 | COMM_OK => 1 | COMM_ERROR => 2 end.
Definition error_code_value (e : remote_node_error_code_t) : Z :=
  match e with
  | REMOTE_ERROR_UNKNOWN_MSG => 1
  | REMOTE_ERROR_BAD_LENGTH => 2
  | REMOTE_ERROR_UNSUPPORTED => 3
  end.

Record remote_node_stats_t := mk_stats {
  valid_frame_count : Z;
  parser_error_count : Z;
  crc_error_count : Z;
  unknown_msg_count : Z;
  duplicate_seq_count : Z;
  uart_rx_overflow_count : Z;
  uart_error_count : Z;
  tx_error_count : Z;
  last_rx_seq : Z;
  comm_status : remote_node_comm_status_t
}.

#[export] Instance eta_stats : Eta remote_node_stats_t := fun s =>
  mk_stats (valid_frame_count s) (parser_error_count s) (crc_error_count s)
    (unknown_msg_count s) (duplicate_seq_count s) (uart_rx_overflow_count s)
    (uart_error_count s) (tx_error_count s) (last_rx_seq s) (comm_status s).

(** [U] is the state behind [user_context]; a [None] callback is a NULL
    function pointer.  A callback's result is what it returns and the state
    it leaves; [tx_fn] is given the [frame_length] bytes at [frame]. *)
Record remote_node_t (U : Type) := mk_node {
  parser : stream_parser_t;
  stats : remote_node_stats_t;
  time_fn : option (U -> Z * U);
  tx_fn : option (list Z -> U -> Z * U);
  user_context : U;
  last_heartbeat_ms : Z;
  last_telemetry_ms : Z;
  heartbeat_seq : Z;
  telemetry_seq : Z;
  status_flags : Z;
  last_request_msg_id : Z;
  last_request_seq : Z;
  last_request_valid : Z
}.
Arguments mk_node {U}.
Arguments parser {U}.
Arguments stats {U}.
Arguments time_fn {U}.
Arguments tx_fn {U}.
Arguments user_context {U}.
Arguments last_heartbeat_ms {U}.
Arguments last_telemetry_ms {U}.
Arguments heartbeat_seq {U}.
Arguments telemetry_seq {U}.
Arguments status_flags {U}.
Arguments last_request_msg_id {U}.
Arguments last_request_seq {U}.
Arguments last_request_valid {U}.

#[export] Instance eta_node U : Eta (remote_node_t U) := fun n =>
  mk_node (parser n) (stats n) (time_fn n) (tx_fn n) (user_context n)
    (last_heartbeat_ms n) (last_telemetry_ms n) (heartbeat_seq n) (telemetry_seq n)
    (status_flags n) (last_request_msg_id n) (last_request_seq n) (last_request_valid n).

(** [memset(&packet, 0, sizeof packet)] and the header assignments. *)
Definition fresh_packet (msg_id seq length : Z) : protocol_packet_t :=
  mk_packet PROTOCOL_VERSION msg_id seq length (replicate 256 0).

(** [write_u16_be] is the function of protocol.c. *)
Definition write_u32_be (a : list Z) (dst v : Z) : list Z :=
  arr_set (arr_set (arr_set (arr_set a dst (u8 (Z.land (Z.shiftr v 24) 0xFF)))
    (dst + 1) (u8 (Z.land (Z.shiftr v 16) 0xFF)))
    (dst + 2) (u8 (Z.land (Z.shiftr v 8) 0xFF)))
    (dst + 3) (u8 (Z.land v 0xFF)).

Section Node.
Context {U : Type}.
Implicit Types node : remote_node_t U.

(** [node->stats.f = v] *)
Definition with_stats (f : remote_node_stats_t -> remote_node_stats_t) node : remote_node_t U :=
  node <| stats := f (stats node) |>.

Definition remote_node_now node : Z * remote_node_t U :=
  match time_fn node with
  | None => (0, node)
  | Some f => let (t, u) := f (user_context node) in (t, node <| user_context := u |>)
  end.

(** [stats.tx_error_count++; stats.comm_status = COMM_ERROR] *)
Definition note_tx_error : remote_node_t U -> remote_node_t U :=
  with_stats (fun s => s <| tx_error_count := u32 (tx_error_count s + 1) |>
                         <| comm_status := COMM_ERROR |>).

(** The local array [frame] starts as zeros here; the bytes given to
    [tx_fn] do not depend on it. *)
Definition remote_node_send_packet node (packet : protocol_packet_t) : Z * remote_node_t U :=
  match tx_fn node with
  | None => (-1, node)
  | Some tx =>
      let '(result, frame, frame_length) :=
        protocol_encode (Some packet) (Some (replicate (Z.to_nat PROTOCOL_MAX_FRAME_SIZE) 0))
          PROTOCOL_MAX_FRAME_SIZE (Some 0) in
      if decide (result = PROTO_OK)
      then
        let (status, u) := tx (take (Z.to_nat (default 0 frame_length)) (default [] frame))
                             (user_context node) in
        let node := node <| user_context := u |> in
        if negb (status =? 0) then (-1, note_tx_error node) else (0, node)
      else (-1, note_tx_error node)
  end.

Definition remote_node_send_error node (request_seq : Z)
    (error_code : remote_node_error_code_t) (offending_msg_id : Z) : remote_node_t U :=
  let response := fresh_packet MSG_ERROR request_seq 2 in
  let response := mk_packet (pkt_version response) (pkt_msg_id response) (pkt_seq response)
    (pkt_length response)
    (arr_set (arr_set (pkt_payload response) 0 (u8 (error_code_value error_code)))
       1 offending_msg_id) in
  (remote_node_send_packet node response).2.

Definition remote_node_remember_request node (request : protocol_packet_t) : remote_node_t U :=
  let node :=
    if negb (last_request_valid node =? 0) &&
       (last_request_msg_id node =? pkt_msg_id request) &&
       (last_request_seq node =? pkt_seq request)
    then with_stats (fun s =>
           s <| duplicate_seq_count := u32 (duplicate_seq_count s + 1) |>) node
    else node in
  node <| last_request_msg_id := pkt_msg_id request |>
       <| last_request_seq := pkt_seq request |>
       <| last_request_valid := 1 |>.

Definition remote_node_handle_ping node (request : protocol_packet_t) : remote_node_t U :=
  if negb (pkt_length request =? 0)
  then remote_node_send_error node (pkt_seq request) REMOTE_ERROR_BAD_LENGTH (pkt_msg_id request)
  else
    let node := remote_node_remember_request node request in
    let response := fresh_packet MSG_PONG (pkt_seq request) 0 in
    (remote_node_send_packet node response).2.

Definition remote_node_handle_read_status node (request : protocol_packet_t) :
    remote_node_t U :=
  if negb (pkt_length request =? 0)
  then remote_node_send_error node (pkt_seq request) REMOTE_ERROR_BAD_LENGTH (pkt_msg_id request)
  else
    let node := remote_node_remember_request node request in
    let response := fresh_packet MSG_STATUS_RESP (pkt_seq request) 20 in
    let (now, node) := remote_node_now node in
    let payload := write_u32_be (pkt_payload response) 0 now in
    let payload := write_u32_be payload 4 (valid_frame_count (stats node)) in
    let payload := write_u32_be payload 8 (parser_error_count (stats node)) in
    let payload := write_u32_be payload 12 (crc_error_count (stats node)) in
    let payload := write_u16_be payload 16 (last_rx_seq (stats node)) in
    let payload := arr_set payload 18 (u8 (comm_status_code (comm_status (stats node)))) in
    let payload := arr_set payload 19 0 in
    (remote_node_send_packet node
       (mk_packet (pkt_version response) (pkt_msg_id response) (pkt_seq response)
          (pkt_length response) payload)).2.

Definition remote_node_handle_packet node (packet : protocol_packet_t) : remote_node_t U :=
  let node := with_stats (fun s =>
    s <| valid_frame_count := u32 (valid_frame_count s + 1) |>
      <| last_rx_seq := pkt_seq packet |>
      <| comm_status :=
           if decide (comm_status s = COMM_INIT) then COMM_OK else comm_status s |>) node in
  let id := pkt_msg_id packet in
  if id =? MSG_PING then remote_node_handle_ping node packet
  else if id =? MSG_READ_STATUS then remote_node_handle_read_status node packet
  else if (id =? MSG_PONG) || (id =? MSG_STATUS_RESP) || (id =? MSG_HEARTBEAT) ||
          (id =? MSG_TELEMETRY)
  then remote_node_send_error node (pkt_seq packet) REMOTE_ERROR_UNSUPPORTED id
  else if id =? MSG_ERROR then node
  else
    let node := with_stats (fun s =>
      s <| unknown_msg_count := u32 (unknown_msg_count s + 1) |>) node in
    remote_node_send_error node (pkt_seq packet) REMOTE_ERROR_UNKNOWN_MSG id.

(** [*node] before the call is not read. *)
Definition remote_node_init (time_fn : option (U -> Z * U))
    (tx_fn : option (list Z -> U -> Z * U)) (user_context : U) : remote_node_t U :=
  let node := mk_node parser_init (mk_stats 0 0 0 0 0 0 0 0 0 COMM_INIT)
    time_fn tx_fn user_context 0 0 0 0 0 0 0 0 in
  let (now, node) := remote_node_now node in
  node <| last_heartbeat_ms := now |> <| last_telemetry_ms := now |>.

(** The local [packet] starts as zeros here; only a FRAME event, which fills
    it, leads to a use of it. *)
Definition remote_node_process_byte node (byte : Z) : remote_node_t U :=
  let '(event, p, packet) := feed_byte (parser node) byte zero_packet in
  let node := node <| parser := p |> in
  match event with
  | STREAM_EVENT_FRAME => remote_node_handle_packet node packet
  | STREAM_EVENT_ERROR =>
      if decide (last_error (parser node) = PROTO_ERR_CRC)
      then with_stats (fun s => s <| crc_error_count := u32 (crc_error_count s + 1) |>) node
      else with_stats (fun s => s <| parser_error_count := u32 (parser_error_count s + 1) |>) node
  | STREAM_EVENT_NONE => node
  end.

(** [None] is the NULL pointer. *)
Definition remote_node_process_bytes node (bytes : option (list Z)) (length : Z) :
    remote_node_t U :=
  match bytes with
  | None => node
  | Some bs => fold_left remote_node_process_byte (take (Z.to_nat length) bs) node
  end.

Definition process_telemetry (now : Z) node : remote_node_t U :=
  if u32 (now - last_telemetry_ms node) >=? REMOTE_NODE_TELEMETRY_PERIOD_MS
  then
    let node := node <| last_telemetry_ms := now |>
                     <| telemetry_seq := u16 (telemetry_seq node + 1) |> in
    let payload := write_u32_be (replicate 256 0) 0 now in
    let payload := write_u16_be payload 4 (status_flags node) in
    (remote_node_send_packet node
       (mk_packet PROTOCOL_VERSION MSG_TELEMETRY (telemetry_seq node) 6 payload)).2
  else node.

Definition process_heartbeat (now : Z) node : remote_node_t U :=
  if u32 (now - last_heartbeat_ms node) >=? REMOTE_NODE_HEARTBEAT_PERIOD_MS
  then
    let node := node <| last_heartbeat_ms := now |>
                     <| heartbeat_seq := u16 (heartbeat_seq node + 1) |> in
    let payload := write_u32_be (replicate 256 0) 0 now in
    (remote_node_send_packet node
       (mk_packet PROTOCOL_VERSION MSG_HEARTBEAT (heartbeat_seq node) 4 payload)).2
  else node.

Definition remote_node_process_periodic node : remote_node_t U :=
  let (now, node) := remote_node_now node in
  process_heartbeat now (process_telemetry now node).

Definition remote_node_set_status_flags node (flags : Z) : remote_node_t U :=
  node <| status_flags := flags |>.

Definition remote_node_note_rx_overflow node : remote_node_t U :=
  with_stats (fun s => s <| uart_rx_overflow_count := u32 (uart_rx_overflow_count s + 1) |>
                         <| comm_status := COMM_ERROR |>) node.

Definition remote_node_note_uart_error node : remote_node_t U :=
  with_stats (fun s => s <| uart_error_count := u32 (uart_error_count s + 1) |>
                         <| comm_status := COMM_ERROR |>) node.

(** Every entry point above returns at once when [node] is NULL. *)
Definition on_node (f : remote_node_t U -> remote_node_t U) (node : option (remote_node_t U)) :
    option (remote_node_t U) :=
  match node with None => None | Some n => Some (f n) end.

(** [None] is the NULL pointer. *)
Definition remote_node_get_stats (node : option (remote_node_t U)) :
    option remote_node_stats_t :=
  option_map stats node.
End Node.

(** ** Abstract specification: the reply to a message *)

Definition be32 (v : Z) : list Z :=
  [u8 (Z.land (Z.shiftr v 24) 0xFF); u8 (Z.land (Z.shiftr v 16) 0xFF);
   u8 (Z.land (Z.shiftr v 8) 0xFF); u8 (Z.land v 0xFF)].

(** A packet with the given payload, padded with zeros to the array size. *)
Definition message (msg_id seq : Z) (payload : list Z) : protocol_packet_t :=
  mk_packet PROTOCOL_VERSION msg_id seq (Z.of_nat (length payload))
    (payload ++ replicate (256 - length payload) 0).

Definition error_reply (e : remote_node_error_code_t) (q : protocol_packet_t) :
    protocol_packet_t :=
  message MSG_ERROR (pkt_seq q) [error_code_value e; pkt_msg_id q].

Definition status_reply (now : Z) (s : remote_node_stats_t) (q : protocol_packet_t) :
    protocol_packet_t :=
  message MSG_STATUS_RESP (pkt_seq q)
    (be32 now ++ be32 (valid_frame_count s) ++ be32 (parser_error_count s) ++
     be32 (crc_error_count s) ++ be16 (last_rx_seq s) ++ [comm_status_code (comm_status s); 0]).

(** Membership in a list of message identifiers, as the chain of tests. *)
Fixpoint mem_id (id : Z) (l : list Z) : bool :=
  match l with [] => false | x :: l' => (id =? x) || mem_id id l' end.

(** The reply to [q], given the clock and the statistics with [q] counted. *)
Definition reply_to (now : Z) (s : remote_node_stats_t) (q : protocol_packet_t) :
    option protocol_packet_t :=
  let id := pkt_msg_id q in
  if (id =? MSG_PING) || (id =? MSG_READ_STATUS) then
    if pkt_length q =? 0 then
      Some (if id =? MSG_PING then message MSG_PONG (pkt_seq q) [] else status_reply now s q)
    else Some (error_reply REMOTE_ERROR_BAD_LENGTH q)
  else if mem_id id [MSG_PONG; MSG_STATUS_RESP; MSG_HEARTBEAT; MSG_TELEMETRY]
  then Some (error_reply REMOTE_ERROR_UNSUPPORTED q)
  else if id =? MSG_ERROR then None
  else Some (error_reply REMOTE_ERROR_UNKNOWN_MSG q).

(** The statistics with the reception of [q] counted. *)
Definition count_frame (q : protocol_packet_t) (s : remote_node_stats_t) :
    remote_node_stats_t :=
  s <| valid_frame_count := u32 (valid_frame_count s + 1) |>
    <| last_rx_seq := pkt_seq q |>
    <| comm_status := if decide (comm_status s = COMM_INIT) then COMM_OK else comm_status s |>.

(** Only an accepted READ_STATUS reads the clock. *)
Definition reads_clock (q : protocol_packet_t) : bool :=
  (pkt_msg_id q =? MSG_READ_STATUS) && (pkt_length q =? 0).

(** ** Serialisation of the payload fields *)

Lemma write_u32_be_app l a b c d t v :
  write_u32_be (l ++ a :: b :: c :: d :: t) (Z.of_nat (length l)) v = l ++ be32 v ++ t.
Proof.
  unfold write_u32_be, be32. rewrite arr_set_app.
  cbn [app]. unfold arr_set. rewrite !Z2Nat.inj_add by lia. rewrite !Nat2Z.id.
  change (Z.to_nat 1) with 1%nat. change (Z.to_nat 2) with 2%nat. change (Z.to_nat 3) with 3%nat.
  rewrite !insert_app_r. done.
Qed.

Lemma u8_byte z : is_u8 (u8 z).
Proof. apply u8_range. Qed.

Lemma be32_bytes v : bytes (be32 v).
Proof. unfold be32. solve_bytes. Qed.
#[export] Hint Resolve be32_bytes : width.

Lemma message_sendable id seq payload :
  is_u8 id -> is_u16 seq -> bytes payload -> (length payload <= 256)%nat ->
  sendable (message id seq payload).
Proof.
  intros Hi Hs Hp Hl. split; [split|done|];
    cbn [message pkt_version pkt_msg_id pkt_seq pkt_length pkt_payload];
    try done; try (unfold PROTOCOL_VERSION, PROTOCOL_MAX_PAYLOAD; width).
  - solve_bytes.
  - rewrite length_app, length_replicate. lia.
Qed.

Lemma fresh_packet_message id seq : fresh_packet id seq 0 = message id seq [].
Proof. done. Qed.

Lemma write_u16_be_cells a dst v :
  write_u16_be a dst v =
    arr_set (arr_set a dst (Z.land (Z.shiftr v 8) 0xFF)) (dst + 1) (Z.land v 0xFF).
Proof. unfold write_u16_be. rewrite !u8_land, !(u8_small (_ mod 256)) by width. done. Qed.

(** The READ_STATUS handler builds the reply of the specification. *)
Lemma status_payload_writes now v1 v2 v3 v4 c :
  arr_set (arr_set (write_u16_be (write_u32_be (write_u32_be (write_u32_be (write_u32_be
    (replicate 256 0) 0 now) 4 v1) 8 v2) 12 v3) 16 v4) 18 c) 19 0 =
  (be32 now ++ be32 v1 ++ be32 v2 ++ be32 v3 ++ be16 v4 ++ [c; 0]) ++ replicate 236 0.
Proof. rewrite write_u16_be_cells. reflexivity. Qed.

Section NodeProofs.
Context {U : Type}.
Implicit Types n : remote_node_t U.

(** Handing a frame to the platform, and noting a failure. *)
Definition transmit (tx : list Z -> U -> Z * U) (p : protocol_packet_t) n : remote_node_t U :=
  let (st, u) := tx (frame_of p) (user_context n) in
  if st =? 0 then n <| user_context := u |> else note_tx_error (n <| user_context := u |>).

Lemma send_packet_transmits n tx p :
  tx_fn n = Some tx -> sendable p -> (remote_node_send_packet n p).2 = transmit tx p n.
Proof.
  intros Htx Hp. unfold remote_node_send_packet, transmit. rewrite Htx.
  pose proof Hp as [Hok _ Hl]. unfold PROTOCOL_MAX_PAYLOAD in Hl.
  rewrite protocol_encode_frame;
    [|done|apply bytes_zeros|change PROTOCOL_MAX_FRAME_SIZE with 266; lia|done].
  rewrite decide_True by done. cbn [from_option id].
  rewrite <- (length_frame_of p), Nat2Z.id, take_app_length by done.
  destruct (tx (frame_of p) (user_context n)) as [st u]. destruct (st =? 0); done.
Qed.

Lemma send_packet_no_tx n p : tx_fn n = None -> (remote_node_send_packet n p).2 = n.
Proof. intros H. unfold remote_node_send_packet. rewrite H. done. Qed.

Lemma error_packet seq e id :
  mk_packet PROTOCOL_VERSION MSG_ERROR seq 2
    (arr_set (arr_set (replicate 256 0) 0 (u8 (error_code_value e))) 1 id) =
  message MSG_ERROR seq [error_code_value e; id].
Proof. destruct e; done. Qed.

Lemma error_reply_sendable e q : sendable q -> sendable (error_reply e q).
Proof.
  intros [[? ? ? ? ? ?] _ _]. apply message_sendable; [done|done| |cbn; lia].
  solve_bytes. destruct e; done.
Qed.

Lemma send_error_transmits n tx q e :
  tx_fn n = Some tx -> sendable q ->
  remote_node_send_error n (pkt_seq q) e (pkt_msg_id q) = transmit tx (error_reply e q) n.
Proof.
  intros Htx Hq. unfold remote_node_send_error. cbn [fresh_packet pkt_version pkt_msg_id
    pkt_seq pkt_length pkt_payload].
  rewrite error_packet. apply send_packet_transmits; [done|by apply error_reply_sendable].
Qed.

Lemma pong_sendable q : sendable q -> sendable (message MSG_PONG (pkt_seq q) []).
Proof.
  intros [[? ? ? ? ? ?] _ _]. apply message_sendable; [done|done|apply bytes_nil|cbn; lia].
Qed.

Lemma status_reply_sendable now s q : sendable q -> sendable (status_reply now s q).
Proof.
  intros [[? ? ? ? ? ?] _ _]. apply message_sendable; [done|done| |rewrite !length_app; cbn; lia].
  solve_bytes. destruct (comm_status s); done.
Qed.

Lemma remember_fields n q :
  tx_fn (remote_node_remember_request n q) = tx_fn n /\
  time_fn (remote_node_remember_request n q) = time_fn n /\
  user_context (remote_node_remember_request n q) = user_context n /\
  parser (remote_node_remember_request n q) = parser n /\
  last_request_msg_id (remote_node_remember_request n q) = pkt_msg_id q /\
  last_request_seq (remote_node_remember_request n q) = pkt_seq q.
Proof. unfold remote_node_remember_request. destruct (_ && _); done. Qed.

(** The parser is the only part of the node that a silent byte changes. *)
Lemma process_silent n b p :
  feed_byte (parser n) b zero_packet = (STREAM_EVENT_NONE, p, zero_packet) ->
  remote_node_process_byte n b = n <| parser := p |>.
Proof. intros E. unfold remote_node_process_byte. rewrite E. done. Qed.

Lemma process_frame_suffix q n w bs :
  sendable q -> parser_rel (parser n) w -> bytes bs -> frame_of q = w ++ bs -> bs <> [] ->
  exists p, parser_rel p [] /\
    fold_left remote_node_process_byte bs n =
      remote_node_handle_packet (n <| parser := p |>) (received q zero_packet).
Proof.
  intros Hq Hr Hbs. revert n w Hr. induction Hbs as [|b bs Hb Hbs IH];
    intros n w Hr Hf Hne; [done|].
  destruct (feed_byte_rel (parser n) w b zero_packet Hb Hr zero_packet_ok)
    as (He & Hr1 & Hd).
  destruct (feed_byte (parser n) b zero_packet) as [[e p1] out] eqn:E.
  cbn [fst snd fold_left] in *. destruct bs as [|b' bs].
  - rewrite (spec_step_frame_last q) in He, Hr1, Hd by done. cbn [fst snd] in *. subst e.
    destruct Hd as (q' & Hq' & Hf' & ->). rewrite (frame_of_inj q' q) in E by congruence.
    exists p1. split; [done|]. cbn [fold_left]. unfold remote_node_process_byte.
    rewrite E. done.
  - rewrite (spec_step_frame q w b (b' :: bs)) in He, Hr1, Hd by done.
    cbn [fst snd delivered] in *. subst e out.
    rewrite (process_silent n b p1 E).
    destruct (IH (n <| parser := p1 |>) (w ++ [b])) as (p & Hp & ->);
      [done|rewrite Hf, <- app_assoc; done|done|].
    exists p. done.
Qed.

Lemma process_frame q n :
  sendable q -> parser_rel (parser n) [] ->
  exists p, parser_rel p [] /\
    remote_node_process_bytes n (Some (frame_of q)) (Z.of_nat (length (frame_of q))) =
      remote_node_handle_packet (n <| parser := p |>) (received q zero_packet).
Proof.
  intros Hq Hr. unfold remote_node_process_bytes. rewrite Nat2Z.id, firstn_all.
  apply (process_frame_suffix q n []); try done. apply frame_of_bytes. apply Hq.
Qed.

Lemma received_sendable q out : sendable q -> packet_ok out -> sendable (received q out).
Proof.
  intros Hq Hout. split; [by apply received_ok| |]; apply Hq.
Qed.

Lemma reply_to_received now s q out : reply_to now s (received q out) = reply_to now s q.
Proof. done. Qed.

(** ** What handling a packet does *)

(** The bookkeeping before a reply leaves the callbacks and the parser alone. *)
Record same_platform n n' : Prop := {
  plat_tx : tx_fn n' = tx_fn n;
  plat_time : time_fn n' = time_fn n;
  plat_parser : parser n' = parser n
}.

Lemma transmit_effect tx p n :
  user_context (transmit tx p n) = (tx (frame_of p) (user_context n)).2 /\
  parser (transmit tx p n) = parser n /\
  valid_frame_count (stats (transmit tx p n)) = valid_frame_count (stats n) /\
  last_rx_seq (stats (transmit tx p n)) = last_rx_seq (stats n) /\
  crc_error_count (stats (transmit tx p n)) = crc_error_count (stats n) /\
  parser_error_count (stats (transmit tx p n)) = parser_error_count (stats n).
Proof.
  unfold transmit. destruct (tx (frame_of p) (user_context n)) as [st u].
  destruct (st =? 0); done.
Qed.

(** The node with [q] counted and, for a request, remembered. *)
Definition noted q n : remote_node_t U :=
  let n := with_stats (count_frame q) n in
  if ((pkt_msg_id q =? MSG_PING) || (pkt_msg_id q =? MSG_READ_STATUS)) &&
     (pkt_length q =? 0)
  then remote_node_remember_request n q
  else if mem_id (pkt_msg_id q) [MSG_PING; MSG_READ_STATUS; MSG_PONG; MSG_STATUS_RESP;
            MSG_HEARTBEAT; MSG_TELEMETRY; MSG_ERROR]
  then n
  else with_stats (fun s => s <| unknown_msg_count := u32 (unknown_msg_count s + 1) |>) n.

Lemma remember_stats n q :
  let s := stats (remote_node_remember_request n q) in
  valid_frame_count s = valid_frame_count (stats n) /\
  parser_error_count s = parser_error_count (stats n) /\
  crc_error_count s = crc_error_count (stats n) /\
  last_rx_seq s = last_rx_seq (stats n) /\ comm_status s = comm_status (stats n).
Proof. unfold remote_node_remember_request. destruct (_ && _); done. Qed.

Lemma handle_status n q tx time :
  sendable q -> tx_fn n = Some tx -> time_fn n = Some time -> pkt_length q = 0 ->
  remote_node_handle_read_status n q =
    let n' := remote_node_remember_request n q in
    let (now, u) := time (user_context n) in
    transmit tx (status_reply now (stats n) q) (n' <| user_context := u |>).
Proof.
  intros Hq Htx Htime Hl. unfold remote_node_handle_read_status. rewrite Hl.
  change (negb (0 =? 0)) with false. cbv iota.
  destruct (remember_fields n q) as (Et & Em & Eu & _).
  destruct (remember_stats n q) as (E1 & E2 & E3 & E4 & E5).
  cbv zeta in *. unfold remote_node_now. rewrite Em, Htime, Eu.
  destruct (time (user_context n)) as [now u].
  match goal with |- (remote_node_send_packet ?m ?p).2 = _ =>
    replace p with (status_reply now (stats n) q) end.
  { apply send_packet_transmits; [exact (eq_trans Et Htx)|by apply status_reply_sendable]. }
  unfold status_reply, message.
  cbn [fresh_packet pkt_version pkt_msg_id pkt_seq pkt_length pkt_payload].
  change (stats (set_field _ _ ?m)) with (stats m).
  rewrite E1, E2, E3, E4, E5, status_payload_writes.
  destruct (comm_status (stats n)); done.
Qed.

Lemma same_context n : n <| user_context := user_context n |> = n.
Proof. destruct n. done. Qed.

Lemma noted_fields n q :
  tx_fn (noted q n) = tx_fn n /\ user_context (noted q n) = user_context n /\
  parser (noted q n) = parser n /\
  valid_frame_count (stats (noted q n)) = u32 (valid_frame_count (stats n) + 1) /\
  last_rx_seq (stats (noted q n)) = pkt_seq q /\
  crc_error_count (stats (noted q n)) = crc_error_count (stats n) /\
  parser_error_count (stats (noted q n)) = parser_error_count (stats n).
Proof.
  unfold noted. cbv zeta. destruct (_ && _).
  - destruct (remember_fields (with_stats (count_frame q) n) q) as (-> & _ & -> & -> & _).
    destruct (remember_stats (with_stats (count_frame q) n) q) as (-> & -> & -> & -> & _).
    done.
  - destruct (mem_id _ _); done.
Qed.

Lemma handle_packet_spec n q tx time :
  sendable q -> tx_fn n = Some tx -> time_fn n = Some time ->
  remote_node_handle_packet n q =
    let (now, u) := if reads_clock q then time (user_context n) else (0, user_context n) in
    match reply_to now (count_frame q (stats n)) q with
    | Some r => transmit tx r ((noted q n) <| user_context := u |>)
    | None => noted q n
    end.
Proof.
  intros Hq Htx Htime. unfold remote_node_handle_packet, reads_clock, reply_to.
  set (n1 := with_stats (count_frame q) n).
  assert (user_context (noted q n) = user_context n) as Hu by apply noted_fields.
  assert ((noted q n) <| user_context := user_context n |> = noted q n) as Hsame
    by (rewrite <- Hu; apply same_context).
  assert (tx_fn (noted q n) = Some tx) as Htx1 by (rewrite <- Htx; apply noted_fields).
  cbv zeta. unfold noted in Hsame, Htx1 |- *. cbv zeta in Hsame, Htx1 |- *.
  fold n1 in Hsame, Htx1 |- *. cbn [mem_id] in Hsame, Htx1 |- *.
  unfold remote_node_handle_ping.
  destruct (pkt_msg_id q =? MSG_PING) eqn:E1; cbn [orb andb] in Hsame, Htx1 |- *.
  { assert ((pkt_msg_id q =? MSG_READ_STATUS) = false) as E2
      by (apply Z.eqb_eq in E1; rewrite E1; done).
    rewrite E2. cbn [andb].
    destruct (pkt_length q =? 0) eqn:El; cbn [negb] in *; rewrite Hsame.
    - apply send_packet_transmits; [done|by apply pong_sendable].
    - by apply send_error_transmits. }
  destruct (pkt_msg_id q =? MSG_READ_STATUS) eqn:E2; cbn [orb andb] in Hsame, Htx1 |- *.
  { destruct (pkt_length q =? 0) eqn:El.
    - apply Z.eqb_eq in El. etrans; [by apply (handle_status n1 q tx time)|].
      change (user_context n1) with (user_context n).
      destruct (time (user_context n)) as [now u]. done.
    - rewrite Hsame. unfold remote_node_handle_read_status. rewrite El.
      by apply send_error_transmits. }
  destruct (pkt_msg_id q =? MSG_PONG), (pkt_msg_id q =? MSG_STATUS_RESP),
    (pkt_msg_id q =? MSG_HEARTBEAT), (pkt_msg_id q =? MSG_TELEMETRY);
    cbn [orb] in Hsame, Htx1 |- *;
    try (rewrite Hsame; by apply send_error_transmits).
  destruct (pkt_msg_id q =? MSG_ERROR); cbn [orb] in Hsame, Htx1 |- *; [done|].
  rewrite Hsame. by apply send_error_transmits.
Qed.
End NodeProofs.

(** ** A recording platform: a clock and the frames sent, oldest first *)

Record platform := mk_platform { clock : Z; sent : list (list Z) }.

Definition record_time (u : platform) : Z * platform := (clock u, u).
Definition record_tx (frame : list Z) (u : platform) : Z * platform :=
  (0, mk_platform (clock u) (sent u ++ [frame])).

Record recording (n : remote_node_t platform) : Prop := {
  rec_time : time_fn n = Some record_time;
  rec_tx : tx_fn n = Some record_tx
}.

Lemma transmit_recorded p (n : remote_node_t platform) :
  transmit record_tx p n =
    n <| user_context := mk_platform (clock (user_context n)) (sent (user_context n) ++ [frame_of p]) |>.
Proof. done. Qed.

(** ** Invariants of every operation *)

Section Invariants.
Context {U : Type}.
Implicit Types n : remote_node_t U.

(** A property of the statistics and parser that the transmission
    bookkeeping does not touch is preserved by sending. *)
Lemma send_packet_fields n p :
  let n' := (remote_node_send_packet n p).2 in
  parser n' = parser n /\ valid_frame_count (stats n') = valid_frame_count (stats n) /\
  crc_error_count (stats n') = crc_error_count (stats n) /\
  parser_error_count (stats n') = parser_error_count (stats n) /\
  uart_rx_overflow_count (stats n') = uart_rx_overflow_count (stats n) /\
  (comm_status (stats n') = comm_status (stats n) \/ comm_status (stats n') = COMM_ERROR).
Proof.
  cbv zeta. unfold remote_node_send_packet. destruct (tx_fn n) as [tx|]; [|tauto].
  destruct (protocol_encode _ _ _ _) as [[r f] l]. case_decide; [|cbn; tauto].
  destruct (tx _ _) as [st u]. destruct (st =? 0); cbn; tauto.
Qed.

(** What every message handler keeps. *)
Definition keeps n n' : Prop :=
  parser n' = parser n /\ valid_frame_count (stats n') = valid_frame_count (stats n) /\
  crc_error_count (stats n') = crc_error_count (stats n) /\
  parser_error_count (stats n') = parser_error_count (stats n) /\
  uart_rx_overflow_count (stats n') = uart_rx_overflow_count (stats n) /\
  (comm_status (stats n') = comm_status (stats n) \/ comm_status (stats n') = COMM_ERROR).

Lemma keeps_refl n : keeps n n.
Proof. unfold keeps. tauto. Qed.

Lemma keeps_trans n1 n2 n3 : keeps n1 n2 -> keeps n2 n3 -> keeps n1 n3.
Proof.
  intros (E1 & E2 & E3 & E4 & E5 & E6) (F1 & F2 & F3 & F4 & F5 & F6). unfold keeps.
  rewrite F1, F2, F3, F4, F5, E1, E2, E3, E4, E5. split_and!; try done.
  destruct F6 as [->|]; [done|by right].
Qed.

Lemma keeps_now n : keeps n (remote_node_now n).2.
Proof.
  unfold remote_node_now. destruct (time_fn n) as [f|]; [|apply keeps_refl].
  destruct (f (user_context n)). unfold keeps. cbn. tauto.
Qed.

Lemma keeps_remember n q : keeps n (remote_node_remember_request n q).
Proof. unfold remote_node_remember_request, keeps. destruct (_ && _); cbn; tauto. Qed.

Lemma keeps_send_error n s e id : keeps n (remote_node_send_error n s e id).
Proof. apply send_packet_fields. Qed.

Lemma keeps_ping n q : keeps n (remote_node_handle_ping n q).
Proof.
  unfold remote_node_handle_ping. destruct (negb _); [apply keeps_send_error|].
  eapply keeps_trans; [apply keeps_remember|apply send_packet_fields].
Qed.

Lemma keeps_read_status n q : keeps n (remote_node_handle_read_status n q).
Proof.
  unfold remote_node_handle_read_status. destruct (negb _); [apply keeps_send_error|].
  pose proof (keeps_now (remote_node_remember_request n q)) as H.
  destruct (remote_node_now _) as [now n'].
  eapply keeps_trans; [apply keeps_remember|].
  eapply keeps_trans; [apply H|apply send_packet_fields].
Qed.

(** Counting a frame, then one of the handlers. *)
Lemma handle_packet_keeps n q :
  exists n1, keeps n1 (remote_node_handle_packet n q) /\ parser n1 = parser n /\
    valid_frame_count (stats n1) = u32 (valid_frame_count (stats n) + 1) /\
    crc_error_count (stats n1) = crc_error_count (stats n) /\
    parser_error_count (stats n1) = parser_error_count (stats n) /\
    uart_rx_overflow_count (stats n1) = uart_rx_overflow_count (stats n) /\
    comm_status (stats n1) =
      (if decide (comm_status (stats n) = COMM_INIT) then COMM_OK else comm_status (stats n)).
Proof.
  exists (with_stats (count_frame q) n). split; [|done].
  unfold remote_node_handle_packet. cbv zeta.
  destruct (_ =? MSG_PING); [apply keeps_ping|].
  destruct (_ =? MSG_READ_STATUS); [apply keeps_read_status|].
  destruct (_ || _); [apply keeps_send_error|].
  destruct (_ =? MSG_ERROR); [apply keeps_refl|].
  eapply keeps_trans; [|apply keeps_send_error]. unfold keeps. cbn. tauto.
Qed.

(** The node's counters are the parser's. *)
Record counters_agree n : Prop := {
  agree_frames : valid_frame_count (stats n) = frames_ok (parser n);
  agree_crc : crc_error_count (stats n) = crc_errors (parser n);
  agree_format : parser_error_count (stats n) = format_errors (parser n)
}.

Lemma keeps_agree n n' : keeps n n' -> counters_agree n -> counters_agree n'.
Proof. intros (E1 & E2 & E3 & E4 & _) [A1 A2 A3]. split; congruence. Qed.

Lemma process_byte_agree n w b :
  is_u8 b -> parser_rel (parser n) w -> counters_agree n ->
  parser_rel (parser (remote_node_process_byte n b)) (spec_step w b).2 /\
  counters_agree (remote_node_process_byte n b) /\
  ((spec_step w b).1 <> STREAM_EVENT_FRAME ->
     user_context (remote_node_process_byte n b) = user_context n).
Proof.
  intros Hb Hr [A1 A2 A3].
  destruct (feed_byte_rel (parser n) w b zero_packet Hb Hr zero_packet_ok) as (He & Hr1 & _).
  pose proof (feed_byte_counted (parser n) w b zero_packet Hb Hr zero_packet_ok) as Hc.
  unfold remote_node_process_byte. destruct (feed_byte _ _ _) as [[e p] out].
  cbn [fst snd] in *. subst e. destruct (spec_step w b).1; cbn [counted] in Hc.
  - destruct Hc as (C1 & _ & [(L & C2 & C3)|(L & C2 & C3)]).
    + rewrite decide_True by done. split; [done|]. split; [split; cbn; congruence|done].
    + rewrite decide_False by done. split; [done|]. split; [split; cbn; congruence|done].
  - destruct Hc as (C1 & C2 & C3). split; [done|]. split; [split; cbn; congruence|done].
  - destruct (handle_packet_keeps (n <| parser := p |>) out) as (n1 & K & B1 & B2 & B3 & B4 & _).
    pose proof K as (E & _). cbn in B1, B2, B3, B4. destruct Hc as (C1 & C2 & C3).
    split; [rewrite E, B1; done|]. split; [|done].
    apply (keeps_agree n1); [done|]. split; rewrite ?B1, ?B2, ?B3, ?B4; congruence.
Qed.
End Invariants.

(** ** Periodic messages: the abstract schedule

    Times are unbounded here; the node only sees them modulo 2^32. *)

Record timers := mk_timers { tel_last : Z; tel_seq : Z; hb_last : Z; hb_seq : Z }.

Definition telemetry_message (flags seq t : Z) : protocol_packet_t :=
  message MSG_TELEMETRY seq (be32 (u32 t) ++ be16 flags).
Definition heartbeat_message (seq t : Z) : protocol_packet_t :=
  message MSG_HEARTBEAT seq (be32 (u32 t)).

Definition schedule_step (flags t : Z) (T : timers) : list (Z * protocol_packet_t) * timers :=
  let tel := 100 <=? t - tel_last T in
  let hb := 500 <=? t - hb_last T in
  ((if tel then [(t, telemetry_message flags (u16 (tel_seq T + 1)) t)] else []) ++
   (if hb then [(t, heartbeat_message (u16 (hb_seq T + 1)) t)] else []),
   mk_timers (if tel then t else tel_last T) (if tel then u16 (tel_seq T + 1) else tel_seq T)
             (if hb then t else hb_last T) (if hb then u16 (hb_seq T + 1) else hb_seq T)).

Fixpoint schedule_run (flags : Z) (ts : list Z) (T : timers) :
    list (Z * protocol_packet_t) * timers :=
  match ts with
  | [] => ([], T)
  | t :: ts' =>
      let (l, T1) := schedule_step flags t T in
      let (l', T2) := schedule_run flags ts' T1 in (l ++ l', T2)
  end.

(** Calls of [remote_node_process_periodic] at the times [ts]. *)
Definition set_clock (t : Z) (n : remote_node_t platform) : remote_node_t platform :=
  n <| user_context := mk_platform (u32 t) (sent (user_context n)) |>.
Definition periodic_run (ts : list Z) (n : remote_node_t platform) : remote_node_t platform :=
  fold_left (fun n t => remote_node_process_periodic (set_clock t n)) ts n.

(** The send times of the messages with identifier [id]. *)
Definition send_times (id : Z) (l : list (Z * protocol_packet_t)) : list Z :=
  map fst (List.filter (fun x => pkt_msg_id (snd x) =? id) l).

(** Each time follows the one before by at least [lo] and less than [hi]. *)
Fixpoint spaced (lo hi last : Z) (l : list Z) : Prop :=
  match l with [] => True | t :: l' => lo <= t - last < hi /\ spaced lo hi t l' end.

Record timers_rel (T : timers) (now : Z) (n : remote_node_t platform) : Prop := {
  tr_rec : recording n;
  tr_flags : is_u16 (status_flags n);
  tr_tel : last_telemetry_ms n = u32 (tel_last T);
  tr_tel_seq : telemetry_seq n = tel_seq T;
  tr_hb : last_heartbeat_ms n = u32 (hb_last T);
  tr_hb_seq : heartbeat_seq n = hb_seq T;
  tr_tel_now : 0 <= now - tel_last T < 100;
  tr_hb_now : 0 <= now - hb_last T < 500
}.

Lemma telemetry_packet flags seq now :
  mk_packet PROTOCOL_VERSION MSG_TELEMETRY seq 6
    (write_u16_be (write_u32_be (replicate 256 0) 0 now) 4 flags) =
  message MSG_TELEMETRY seq (be32 now ++ be16 flags).
Proof. rewrite write_u16_be_cells. reflexivity. Qed.

Lemma heartbeat_packet seq now :
  mk_packet PROTOCOL_VERSION MSG_HEARTBEAT seq 4 (write_u32_be (replicate 256 0) 0 now) =
  message MSG_HEARTBEAT seq (be32 now).
Proof. reflexivity. Qed.

Lemma process_telemetry_recorded now n :
  recording n -> is_u16 (status_flags n) ->
  process_telemetry now n =
    if 100 <=? u32 (now - last_telemetry_ms n)
    then n <| last_telemetry_ms := now |> <| telemetry_seq := u16 (telemetry_seq n + 1) |>
           <| user_context := mk_platform (clock (user_context n)) (sent (user_context n) ++
                [frame_of (message MSG_TELEMETRY (u16 (telemetry_seq n + 1))
                             (be32 now ++ be16 (status_flags n)))]) |>
    else n.
Proof.
  intros [_ Htx] Hf. unfold process_telemetry. change REMOTE_NODE_TELEMETRY_PERIOD_MS with 100.
  rewrite Z.geb_leb. destruct (100 <=? _); [|done]. cbv zeta.
  rewrite telemetry_packet. etrans; [apply (send_packet_transmits _ record_tx)|]; [done| |done].
  apply message_sendable; [done|apply u16_range|solve_bytes|cbn; lia].
Qed.

Lemma process_heartbeat_recorded now n :
  recording n ->
  process_heartbeat now n =
    if 500 <=? u32 (now - last_heartbeat_ms n)
    then n <| last_heartbeat_ms := now |> <| heartbeat_seq := u16 (heartbeat_seq n + 1) |>
           <| user_context := mk_platform (clock (user_context n)) (sent (user_context n) ++
                [frame_of (message MSG_HEARTBEAT (u16 (heartbeat_seq n + 1)) (be32 now))]) |>
    else n.
Proof.
  intros [_ Htx]. unfold process_heartbeat. change REMOTE_NODE_HEARTBEAT_PERIOD_MS with 500.
  rewrite Z.geb_leb. destruct (500 <=? _); [|done]. cbv zeta.
  rewrite heartbeat_packet. etrans; [apply (send_packet_transmits _ record_tx)|]; [done| |done].
  apply message_sendable; [done|apply u16_range|solve_bytes|cbn; lia].
Qed.

Lemma u32_elapsed t last : 0 <= t - last < 4294967296 -> u32 (u32 t - u32 last) = t - last.
Proof. intros H. width. Qed.

#[local] Opaque frame_of message be32 be16 u16 u32.

Lemma periodic_step T now t n :
  timers_rel T now n -> 0 <= t - now <= 4294966000 ->
  let n' := remote_node_process_periodic (set_clock t n) in
  timers_rel (schedule_step (status_flags n) t T).2 t n' /\
  status_flags n' = status_flags n /\
  sent (user_context n') =
    sent (user_context n) ++ map (fun x => frame_of x.2) (schedule_step (status_flags n) t T).1.
Proof.
  intros [[Htime Htx] Hf Et Es Eh Ehs Ht Hh] Hd. unfold remote_node_process_periodic, remote_node_now.
  set (n0 := set_clock t n).
  assert (recording n0) as Hrec by by split. rewrite (rec_time _ Hrec).
  change (record_time (user_context n0)) with (u32 t, user_context n0). cbv iota.
  rewrite same_context, process_telemetry_recorded by done.
  change (last_telemetry_ms n0) with (last_telemetry_ms n). rewrite Et, u32_elapsed by lia.
  change (telemetry_seq n0) with (telemetry_seq n). change (status_flags n0) with (status_flags n).
  set (n1 := if 100 <=? t - tel_last T then _ else n0).
  assert (recording n1) as Hrec1 by (subst n1; destruct (100 <=? _); by split).
  rewrite process_heartbeat_recorded by done.
  assert (last_heartbeat_ms n1 = u32 (hb_last T) /\ heartbeat_seq n1 = hb_seq T /\
          clock (user_context n1) = u32 t) as (E1 & E2 & E3)
    by (subst n1; destruct (100 <=? _); done).
  rewrite E1, E2, E3, u32_elapsed by lia.
  unfold schedule_step, telemetry_message, heartbeat_message. rewrite <- Es.
  subst n1. destruct (100 <=? t - tel_last T) eqn:Ea, (500 <=? t - hb_last T) eqn:Eb;
    (split; [split; cbn; first [done|lia]|]); (split; [done|]);
    cbn; rewrite <- ?app_assoc, ?app_nil_r; done.
Qed.

(** Call times: increasing, and never more than [d] apart. *)
Fixpoint calls (d now : Z) (ts : list Z) : Prop :=
  match ts with [] => True | t :: ts' => 0 <= t - now <= d /\ calls d t ts' end.

Lemma periodic_run_rel d T now ts n :
  timers_rel T now n -> d <= 4294966000 -> calls d now ts ->
  let n' := periodic_run ts n in
  sent (user_context n') =
    sent (user_context n) ++ map (fun x => frame_of x.2) (schedule_run (status_flags n) ts T).1 /\
  status_flags n' = status_flags n.
Proof.
  intros Hr Hd. revert T now n Hr. induction ts as [|t ts IH]; intros T now n Hr Hts.
  { cbn. rewrite app_nil_r. done. }
  destruct Hts as [Ht Hts]. cbn [periodic_run fold_left schedule_run].
  destruct (periodic_step T now t n Hr) as (Hr1 & Hf & Hs); [lia|].
  destruct (schedule_step (status_flags n) t T) as [l T1]. cbn [fst snd] in *.
  destruct (IH T1 t _ Hr1 Hts) as [Hs2 Hf2]. unfold periodic_run in Hs2, Hf2.
  rewrite Hs2, Hs, Hf2, Hf. rewrite <- app_assoc, <- map_app.
  destruct (schedule_run (status_flags n) ts T1). done.
Qed.

Lemma send_times_app id l l' : send_times id (l ++ l') = send_times id l ++ send_times id l'.
Proof. unfold send_times. rewrite List.filter_app, map_app. done. Qed.

Lemma schedule_spacing flags d ts T now :
  0 <= d -> calls d now ts -> 0 <= now - tel_last T < 100 -> 0 <= now - hb_last T < 500 ->
  spaced 100 (100 + d) (tel_last T) (send_times MSG_TELEMETRY (schedule_run flags ts T).1) /\
  spaced 500 (500 + d) (hb_last T) (send_times MSG_HEARTBEAT (schedule_run flags ts T).1).
Proof.
  intros Hd. revert T now. induction ts as [|t ts IH]; intros T now Hts Ht Hh; [done|].
  destruct Hts as [Htn Hts]. cbn [schedule_run].
  specialize (IH (schedule_step flags t T).2 t Hts).
  destruct (schedule_step flags t T) as [l T1] eqn:E.
  destruct (schedule_run flags ts T1) as [l' T2] eqn:E'. cbn [fst snd] in *.
  unfold schedule_step in E. injection E as <- <-. rewrite E' in IH. cbn [fst] in IH.
  rewrite !send_times_app.
  destruct (100 <=? t - tel_last T) eqn:Ea, (500 <=? t - hb_last T) eqn:Eb;
    cbn [tel_last hb_last] in IH; (destruct IH as [IH1 IH2]; [lia|lia|]);
    cbn [send_times map List.filter telemetry_message heartbeat_message message pkt_msg_id
      snd fst app spaced Z.eqb Pos.eqb MSG_TELEMETRY MSG_HEARTBEAT]; split; try done; split; try done; lia.
Qed.

#[local] Transparent frame_of message be32 be16 u16 u32.

Lemma process_frame_spec {U} (n : remote_node_t U) q tx time :
  sendable q -> parser_rel (parser n) [] -> tx_fn n = Some tx -> time_fn n = Some time ->
  exists p, parser_rel p [] /\
    remote_node_process_bytes n (Some (frame_of q)) (Z.of_nat (length (frame_of q))) =
      let (now, u) := if reads_clock q then time (user_context n) else (0, user_context n) in
      match reply_to now (count_frame q (stats n)) q with
      | Some r => transmit tx r ((noted q (n <| parser := p |>)) <| user_context := u |>)
      | None => noted q (n <| parser := p |>)
      end.
Proof.
  intros Hq Hr Htx Htime. destruct (process_frame q n Hq Hr) as (p & Hp & ->).
  exists p. split; [done|].
  rewrite (handle_packet_spec _ _ tx time);
    [|apply received_sendable; [done|apply zero_packet_ok]|done|done].
  change (reads_clock (received q zero_packet)) with (reads_clock q).
  change (noted (received q zero_packet)) with (noted (U:=U) q).
  change (user_context (n <| parser := p |>)) with (user_context n).
  destruct (if reads_clock q then _ else _) as [now u]. rewrite reply_to_received. done.
Qed.

Lemma no_reply_no_clock now s q time (u : platform) :
  reply_to now s q = None -> (if reads_clock q then time u else (0, u)) = (0, u).
Proof.
  unfold reads_clock, reply_to. destruct (pkt_msg_id q =? MSG_READ_STATUS) eqn:E1; [|done].
  destruct (pkt_length q =? 0); [|done]. apply Z.eqb_eq in E1. rewrite E1. done.
Qed.

(** ** Properties *)

(** The fields of a STATUS_RESP, as its receiver reads them: numbers in
    big-endian order, of 4, 4, 4, 4, 2, 1 and 1 bytes. *)
Definition be_val (l : list Z) : Z := fold_left (fun a b => a * 256 + b) l 0.
Definition field (p : list Z) (off len : nat) : Z := be_val (take len (drop off p)).
Definition status_fields (r : protocol_packet_t) : list Z :=
  let p := pkt_payload r in
  [field p 0 4; field p 4 4; field p 8 4; field p 12 4; field p 16 2; field p 18 1; field p 19 1].

Lemma be_val_be32 v : be_val (be32 v) = u32 v.
Proof.
  unfold be_val, be32, u8, u32. cbn [fold_left].
  change 0xFF with (Z.ones 8). rewrite !Z.land_ones, !Z.shiftr_div_pow2 by lia.
  change (2 ^ 8) with 256. change (2 ^ 16) with 65536. change (2 ^ 24) with 16777216.
  Z.to_euclidean_division_equations. lia.
Qed.
Lemma be_val_be16 v : is_u16 v -> be_val (be16 v) = v.
Proof. intros Hv. destruct (be16_value v Hv) as (hi & lo & -> & _ & _ & ->). cbn. lia. Qed.

(** The fields of the STATUS_RESP the node makes. *)
Lemma status_reply_fields now s q : is_u16 (last_rx_seq s) ->
  status_fields (status_reply now s q) =
    [u32 now; u32 (valid_frame_count s); u32 (parser_error_count s); u32 (crc_error_count s); last_rx_seq s;
     comm_status_code (comm_status s); 0].
Proof.
  intros Hs. transitivity
    [be_val (be32 now); be_val (be32 (valid_frame_count s)); be_val (be32 (parser_error_count s));
     be_val (be32 (crc_error_count s)); be_val (be16 (last_rx_seq s)); comm_status_code (comm_status s); 0].
  - unfold be16. reflexivity.
  - by rewrite !be_val_be32, be_val_be16.
Qed.

Lemma status_response {U} now (n : remote_node_t U) q :
  sendable q -> reads_clock q = true -> exists r, reply_to now (count_frame q (stats n)) q = Some r /\
    pkt_msg_id r = MSG_STATUS_RESP /\ pkt_seq r = pkt_seq q /\ pkt_length r = 20 /\
    status_fields r =
      [u32 now; u32 (valid_frame_count (stats n) + 1); u32 (parser_error_count (stats n));
       u32 (crc_error_count (stats n)); pkt_seq q;
       comm_status_code (if decide (comm_status (stats n) = COMM_INIT) then COMM_OK else comm_status (stats n)); 0].
Proof.
  intros Hq Hc. apply andb_true_iff in Hc as [Hm Hl]. apply Z.eqb_eq in Hm.
  exists (status_reply now (count_frame q (stats n)) q). split.
  { unfold reply_to. by rewrite Hm, Hl. }
  split; [done|]. split; [done|]. split; [done|].
  rewrite status_reply_fields by apply Hq. change (valid_frame_count (count_frame _ _)) with (u32 (valid_frame_count (stats n) + 1)).
  by rewrite (u32_small (u32 _)) by apply u32_range.
Qed.

(** C17: Replies: a node whose parser is between frames, given the frame of
    any transmittable packet, counts it and transmits exactly one frame, that
    of the reply in the table [reply_to] (PONG or STATUS_RESP for a request
    without payload, ERROR with code 2 for one with payload, with code 3 for
    the other known messages and with code 1 for unknown ones; always with the
    request's sequence number), or nothing when the message is itself an
    ERROR; it is then ready for the next frame.  A STATUS_RESP has the 20 bytes
    that remote_node.c lays out, from which the receiver reads the clock, the
    counts of valid frames (this one included), parser errors and CRC errors,
    the sequence number of the request, the communication status and 0; that
    is not the list of fields in docs/protocol_v1.md, 10.2. *)
Theorem remote_node_replies {U} (n : remote_node_t U) q tx time :
  sendable q -> parser_rel (parser n) [] -> tx_fn n = Some tx -> time_fn n = Some time ->
  let n' := remote_node_process_bytes n (Some (frame_of q)) (Z.of_nat (length (frame_of q))) in
  let (now, ctx) := if reads_clock q then time (user_context n) else (0, user_context n) in
  user_context n' =
    match reply_to now (count_frame q (stats n)) q with
    | Some r => (tx (frame_of r) ctx).2
    | None => user_context n
    end /\
  parser_rel (parser n') [] /\
  valid_frame_count (stats n') = u32 (valid_frame_count (stats n) + 1) /\
  last_rx_seq (stats n') = pkt_seq q /\
  crc_error_count (stats n') = crc_error_count (stats n) /\
  parser_error_count (stats n') = parser_error_count (stats n) /\
  (reads_clock q = true -> exists r, reply_to now (count_frame q (stats n)) q = Some r /\
     pkt_msg_id r = MSG_STATUS_RESP /\ pkt_seq r = pkt_seq q /\ pkt_length r = 20 /\
     status_fields r =
       [u32 now; u32 (valid_frame_count (stats n) + 1); u32 (parser_error_count (stats n));
        u32 (crc_error_count (stats n)); pkt_seq q;
        comm_status_code (if decide (comm_status (stats n) = COMM_INIT) then COMM_OK else comm_status (stats n)); 0]).
Proof.
  intros Hq Hr Htx Htime n'. destruct (process_frame_spec n q tx time) as (p & Hp & E); [done..|].
  subst n'. rewrite E. clear E. set (n0 := n <| parser := p |>).
  destruct (if reads_clock q then _ else _) as [now ctx].
  destruct (noted_fields n0 q) as (_ & F2 & F3 & F4 & F5 & F6 & F7).
  pose proof (status_response now n q Hq) as HS. revert HS.
  destruct (reply_to now _ q) as [r|]; intros HS.
  - match goal with |- context [transmit tx r ?m] =>
      destruct (transmit_effect tx r m) as (-> & -> & -> & -> & -> & ->) end.
    split; [done|]. split; [|repeat (split; [done|]); exact HS].
    change (parser (set_field _ _ ?m)) with (parser m). rewrite F3. exact Hp.
  - split; [done|]. split; [rewrite F3; exact Hp|]. repeat (split; [done|]). exact HS.
Qed.

(** Giving a node a frame. *)
Definition feed_frame_to (n : remote_node_t platform) (f : list Z) : remote_node_t platform :=
  remote_node_process_bytes n (Some f) (Z.of_nat (length f)).

Lemma fed_frame_sends n q :
  sendable q -> recording n -> parser_rel (parser n) [] ->
  sent (user_context n) = [] ->
  exists now, sent (user_context (feed_frame_to n (frame_of q))) =
    match reply_to now (count_frame q (stats n)) q with Some r => [frame_of r] | None => [] end.
Proof.
  intros Hq [Ht Htx] Pn Sn.
  destruct (process_frame_spec n q record_tx record_time) as (p & _ & E); [done..|].
  unfold feed_frame_to. rewrite E. unfold record_time.
  replace (if reads_clock q then (clock (user_context n), user_context n)
           else (0, user_context n))
    with ((if reads_clock q then clock (user_context n) else 0), user_context n)
    by (destruct (reads_clock q); done).
  exists (if reads_clock q then clock (user_context n) else 0).
  destruct (reply_to _ _ q) as [r|].
  - rewrite transmit_recorded. transitivity (sent (user_context n) ++ [frame_of r]); [done|by rewrite Sn].
  - destruct (noted_fields (n <| parser := p |>) q) as (_ & F & _). rewrite F. exact Sn.
Qed.

Lemma fed_nothing_sends n : sent (user_context (feed_frame_to n [])) = sent (user_context n).
Proof. done. Qed.

(** Replies are PONG, STATUS_RESP or ERROR, and ERROR gets none. *)
Lemma reply_of_reply now s q r :
  sendable q -> reply_to now s q = Some r ->
  sendable r /\ forall now' s', reply_to now' s' r = None \/
    reply_to now' s' r = Some (error_reply REMOTE_ERROR_UNSUPPORTED r).
Proof.
  intros Hq. unfold reply_to at 1. destruct (_ || _).
  - destruct (_ =? 0).
    + destruct (_ =? MSG_PING); intros [= <-].
      * split; [by apply pong_sendable|]. by right.
      * split; [by apply status_reply_sendable|]. by right.
    + intros [= <-]. split; [by apply error_reply_sendable|]. by left.
  - destruct (mem_id _ _); [|destruct (_ =? _); [done|]];
      intros [= <-]; (split; [by apply error_reply_sendable|]); by left.
Qed.

(** Error loops cannot happen: when one node's reply is given to a
    second node and that one's reply to a third (or back to the first), the
    third stays silent, whatever the first message was. *)
Theorem remote_node_reply_chain_ends (a b c : remote_node_t platform) q :
  sendable q -> recording a -> recording b -> recording c ->
  parser_rel (parser a) [] -> parser_rel (parser b) [] -> parser_rel (parser c) [] ->
  sent (user_context a) = [] -> sent (user_context b) = [] -> sent (user_context c) = [] ->
  let a' := feed_frame_to a (frame_of q) in
  let b' := feed_frame_to b (concat (sent (user_context a'))) in
  let c' := feed_frame_to c (concat (sent (user_context b'))) in
  sent (user_context c') = [].
Proof.
  intros Hq Ha Hb Hc Pa Pb Pc Sa Sb Sc a' b' c'.
  destruct (fed_frame_sends a q Hq Ha Pa Sa) as [t1 E1]. fold a' in E1.
  destruct (reply_to t1 _ q) as [r1|] eqn:R1.
  2: { subst c' b'. rewrite E1. cbn [concat]. rewrite fed_nothing_sends, Sb. exact Sc. }
  destruct (reply_of_reply _ _ _ _ Hq R1) as [Hr1 Hrr].
  subst c' b'. rewrite E1. cbn [concat]. rewrite app_nil_r.
  destruct (fed_frame_sends b r1 Hr1 Hb Pb Sb) as [t2 ->].
  destruct (Hrr t2 (count_frame r1 (stats b))) as [-> | ->]; [by cbn|].
  cbn [concat]. rewrite app_nil_r.
  assert (sendable (error_reply REMOTE_ERROR_UNSUPPORTED r1)) as Hr2
    by by apply error_reply_sendable.
  destruct (fed_frame_sends c _ Hr2 Hc Pc Sc) as [t3 ->]. done.
Qed.

Lemma process_bytes_agree {U} (n : remote_node_t U) w bs :
  bytes bs -> parser_rel (parser n) w -> counters_agree n ->
  let n' := fold_left remote_node_process_byte bs n in
  counters_agree n' /\
  (Forall (fun e => e <> STREAM_EVENT_FRAME) (spec_run w bs).1 ->
     user_context n' = user_context n).
Proof.
  intros Hbs. revert n w. induction Hbs as [|b bs Hb Hbs IH]; intros n w Hr Ha; [done|].
  destruct (process_byte_agree n w b Hb Hr Ha) as (Hr1 & Ha1 & Hu1).
  cbn [fold_left spec_run]. destruct (spec_step w b) as [e w1]. cbn [fst snd] in *.
  destruct (IH _ w1 Hr1 Ha1) as [Ha2 Hu2]. destruct (spec_run w1 bs) as [es w2].
  split; [done|]. cbn [fst]. intros [He Hes]%Forall_cons_iff. rewrite Hu2; auto.
Qed.

Lemma init_parser {U} time tx (u : U) : parser (remote_node_init time tx u) = parser_init.
Proof.
  unfold remote_node_init, remote_node_now. cbn [RemoteNode.time_fn user_context].
  destruct time as [f|]; [|done]. destruct (f u). done.
Qed.

Lemma init_agree {U} time tx (u : U) : counters_agree (remote_node_init time tx u).
Proof.
  unfold remote_node_init, remote_node_now. cbn [RemoteNode.time_fn user_context].
  destruct time as [f|]; [destruct (f u)|]; by split.
Qed.

(** Damaged input: on an arbitrary byte stream the node's frame, CRC-error
    and format-error counters are exactly those of its parser, and if no
    complete valid frame occurs in the stream, nothing is transmitted and the
    clock is not read: CRC and format errors never cause a reply. *)
Theorem remote_node_counters_and_silence {U} time tx (u : U) bs :
  bytes bs ->
  let n0 := remote_node_init time tx u in
  let n := remote_node_process_bytes n0 (Some bs) (Z.of_nat (length bs)) in
  valid_frame_count (stats n) = frames_ok (parser n) /\
  crc_error_count (stats n) = crc_errors (parser n) /\
  parser_error_count (stats n) = format_errors (parser n) /\
  (Forall (fun e => e <> STREAM_EVENT_FRAME) (spec_run [] bs).1 ->
     user_context n = user_context n0).
Proof.
  intros Hbs n0 n. subst n. unfold remote_node_process_bytes. rewrite Nat2Z.id, firstn_all.
  destruct (process_bytes_agree n0 [] bs Hbs) as [[A1 A2 A3] Hu].
  - unfold n0. rewrite init_parser. apply parser_init_rel.
  - apply init_agree.
  - done.
Qed.

(** C34: Schedule: from the start at time [t0], whatever the call times (each
    at most [d] < 2^32 - 1296 ms after the one before), the frames the
    periodic handler sends are exactly those of the abstract schedule:
    telemetry messages at least 100 and less than 100 + d ms apart,
    heartbeats at least 500 and less than 500 + d ms apart, numbered
    consecutively, across wrap-arounds of the 32-bit clock. *)
Theorem remote_node_periodic_schedule t0 d ts flags :
  is_u16 flags -> 0 <= d <= 4294966000 -> calls d t0 ts ->
  let n0 := remote_node_set_status_flags
    (remote_node_init (Some record_time) (Some record_tx) (mk_platform (u32 t0) [])) flags in
  let n := periodic_run ts n0 in
  let l := (schedule_run flags ts (mk_timers t0 0 t0 0)).1 in
  sent (user_context n) = map (fun x => frame_of x.2) l /\
  spaced 100 (100 + d) t0 (send_times MSG_TELEMETRY l) /\
  spaced 500 (500 + d) t0 (send_times MSG_HEARTBEAT l).
Proof.
  intros Hf Hd Hts n0 n l.
  assert (timers_rel (mk_timers t0 0 t0 0) t0 n0) as Hr
    by (split; try done; cbn [tel_last hb_last]; lia).
  destruct (periodic_run_rel d _ _ ts n0 Hr) as [Hs _]; [lia|done|].
  destruct (schedule_spacing flags d ts (mk_timers t0 0 t0 0) t0) as [S1 S2];
    [lia|done|cbn [tel_last]; lia|cbn [hb_last]; lia|].
  done.
Qed.

(** Every operation of the node. *)
Inductive node_step {U} : remote_node_t U -> remote_node_t U -> Prop :=
  | step_byte n b : node_step n (remote_node_process_byte n b)
  | step_periodic n : node_step n (remote_node_process_periodic n)
  | step_flags n f : node_step n (remote_node_set_status_flags n f)
  | step_overflow n : node_step n (remote_node_note_rx_overflow n)
  | step_uart_error n : node_step n (remote_node_note_uart_error n).

Lemma comm_error_kept {U} (n n' : remote_node_t U) :
  keeps n n' -> comm_status (stats n) = COMM_ERROR -> comm_status (stats n') = COMM_ERROR.
Proof. intros (_ & _ & _ & _ & _ & [-> | ->]); done. Qed.

Lemma keeps_periodic {U} (n : remote_node_t U) : keeps n (remote_node_process_periodic n).
Proof.
  unfold remote_node_process_periodic. pose proof (keeps_now n) as H.
  destruct (remote_node_now n) as [now n1]. cbn [snd] in H.
  eapply keeps_trans; [exact H|]. apply (keeps_trans _ (process_telemetry now n1)).
  - unfold process_telemetry. destruct (_ >=? _); [|apply keeps_refl].
    eapply keeps_trans; [|apply send_packet_fields]. unfold keeps. cbn. tauto.
  - unfold process_heartbeat. destruct (_ >=? _); [|apply keeps_refl].
    eapply keeps_trans; [|apply send_packet_fields]. unfold keeps. cbn. tauto.
Qed.

Lemma node_step_latches {U} (n n' : remote_node_t U) :
  node_step n n' -> comm_status (stats n) = COMM_ERROR -> comm_status (stats n') = COMM_ERROR.
Proof.
  intros [m b|m|m f|m|m] H; try done.
  - unfold remote_node_process_byte. destruct (feed_byte _ _ _) as [[e p] out].
    destruct e; [case_decide; done|done|].
    destruct (handle_packet_keeps (m <| parser := p |>) out) as (n1 & K & _ & _ & _ & _ & _ & Hc).
    apply (comm_error_kept n1); [done|]. rewrite Hc. cbn. rewrite H. done.
  - apply (comm_error_kept m); [apply keeps_periodic|done].
Qed.

(** C40: Latch: once an overflow, a UART error or a failed transmission has
    set the communication status to COMM_ERROR, no operation of the node ever
    leaves it, however much correct traffic follows. *)
Theorem remote_node_comm_error_latches {U} (n n' : remote_node_t U) :
  rtc node_step (remote_node_note_uart_error n) n' ->
  comm_status (stats n') = COMM_ERROR.
Proof.
  intros Hs. assert (comm_status (stats (remote_node_note_uart_error n)) = COMM_ERROR) as H
    by done. revert H. induction Hs as [|n1 n2 n3 Hstep _ IH]; [done|].
  intros H. apply IH. by apply (node_step_latches n1).
Qed.

(** ** Witnesses *)

Definition idle_node : remote_node_t platform :=
  remote_node_init (Some record_time) (Some record_tx) (mk_platform 0x01020304 []).

Lemma idle_node_rel : parser_rel (parser idle_node) [].
Proof. apply parser_init_rel. Qed.

(** PING 7 is answered by PONG 7, byte for byte. *)
Lemma remote_node_replies_witness :
  sent (user_context (remote_node_process_bytes idle_node (Some ping7_frame) 10)) =
    [[0xAA; 0x55; 0x01; 0x81; 0; 7; 0; 0; 0x46; 0xA1]].
Proof.
  assert (frame_of (ping_packet 7) = ping7_frame) as Hf by (vm_compute; reflexivity).
  destruct (remote_node_replies idle_node (ping_packet 7) record_tx record_time) as [H _].
  - apply ping_packet_sendable. width.
  - apply idle_node_rel.
  - reflexivity.
  - reflexivity.
  - rewrite Hf in H. change (Z.of_nat (length ping7_frame)) with 10 in H.
    rewrite H. vm_compute. reflexivity.
Defined.

Lemma remote_node_reply_chain_ends_witness :
  let a' := feed_frame_to idle_node (frame_of (ping_packet 7)) in
  let b' := feed_frame_to idle_node (concat (sent (user_context a'))) in
  let c' := feed_frame_to idle_node (concat (sent (user_context b'))) in
  sent (user_context c') = [].
Proof.
  apply (remote_node_reply_chain_ends idle_node idle_node idle_node (ping_packet 7));
    try reflexivity; try apply idle_node_rel; try (split; reflexivity).
  apply ping_packet_sendable. width.
Defined.

Lemma remote_node_counters_and_silence_witness :
  let bad := [0xAA; 0x55; 0x01; 0x01; 0; 7; 0; 0; 0x64; 0x70] in
  let n0 := remote_node_init (Some record_time) (Some record_tx) (mk_platform 5 []) in
  let n := remote_node_process_bytes n0 (Some bad) 10 in
  crc_error_count (stats n) = 1 /\ sent (user_context n) = [].
Proof.
  intros bad n0 n.
  destruct (remote_node_counters_and_silence (Some record_time) (Some record_tx)
    (mk_platform 5 []) bad) as (_ & Hc & _ & Hu); [unfold bad; solve_bytes|].
  split.
  - etransitivity; [exact Hc|vm_compute; reflexivity].
  - enough (user_context n = user_context n0) as E by (rewrite E; reflexivity).
    apply Hu. vm_compute. repeat (apply Forall_cons_2; [discriminate|]). apply Forall_nil_2.
Defined.

(** The 32-bit clock wraps between the calls. *)
Lemma remote_node_periodic_schedule_witness :
  let ts := [4294967250; 4294967300; 4294967350] in
  calls 100 4294967200 ts /\
  send_times MSG_TELEMETRY (schedule_run 3 ts (mk_timers 4294967200 0 4294967200 0)).1 =
    [4294967300] /\
  spaced 100 200 4294967200
    (send_times MSG_TELEMETRY (schedule_run 3 ts (mk_timers 4294967200 0 4294967200 0)).1).
Proof.
  intros ts. assert (calls 100 4294967200 ts) as Hts by (cbn; lia).
  split; [exact Hts|]. split; [vm_compute; reflexivity|].
  apply (remote_node_periodic_schedule 4294967200 100 ts 3); [width|lia|exact Hts].
Defined.

Lemma remote_node_comm_error_latches_witness :
  comm_status (stats (remote_node_process_periodic (remote_node_note_uart_error idle_node))) =
    COMM_ERROR.
Proof.
  apply (remote_node_comm_error_latches idle_node).
  eapply rtc_l; [apply step_periodic|apply rtc_refl].
Defined.
