(* ===== verification/RemotePort.v ===== *)
(** * The remote node's platform adapter (f429_remote_node/App/Src/remote_node_port.c)

    UART5 interrupts fill the receive ring and two pending counters; the main
    task transfers the counters inside a critical section, empties the ring
    into the node and runs the periodic handler.  The STM32 HAL calls are the
    operations of a class [Hal]: the HAL drives registers and is not
    modelled. *)
From S2P Require Import Prelude Crc16 Protocol StreamParser RxRing RemoteNode.
Local Open Scope Z_scope.

Definition REMOTE_NODE_UART_TX_TIMEOUT_MS : Z := 100.
Definition HAL_OK : Z := 0.

(** The HAL as this file calls it, on a hardware state [U]. *)
Class Hal (U : Type) := {
  HAL_GetTick : U -> Z * U;
  HAL_UART_Transmit : list Z -> Z -> U -> Z * U;
  HAL_UART_Receive_IT : U -> Z * U
}.

(** The file's static variables; the hardware is what the node's callbacks
    act on. *)
Record port (U : Type) := mk_port {
  remote_node : remote_node_t U;
  rx_ring : uart_rx_ring_t;
  rx_byte : Z;
  rx_overflow_pending : Z;
  uart_error_pending : Z
}.
Arguments mk_port {U}.
Arguments remote_node {U}.
Arguments rx_ring {U}.
Arguments rx_byte {U}.
Arguments rx_overflow_pending {U}.
Arguments uart_error_pending {U}.

#[export] Instance eta_port U : Eta (port U) := fun p =>
  mk_port (remote_node p) (rx_ring p) (rx_byte p) (rx_overflow_pending p)
    (uart_error_pending p).

Section Port.
Context {U : Type} `{!Hal U}.
Implicit Types p : port U.

Definition port_get_time_ms (u : U) : Z * U := HAL_GetTick u.

Definition port_transmit (frame : list Z) (u : U) : Z * U :=
  let (status, u) := HAL_UART_Transmit frame REMOTE_NODE_UART_TX_TIMEOUT_MS u in
  (if status =? HAL_OK then 0 else -1, u).

(** [HAL_UART_Receive_IT(&huart5, &rx_byte, 1u)] *)
Definition receive_it p : Z * port U :=
  let (status, u) := HAL_UART_Receive_IT (user_context (remote_node p)) in
  (status, p <| remote_node := (remote_node p) <| user_context := u |> |>).

(** [is_uart5] is [huart5.Instance == UART5]. *)
Definition remote_node_port_init (is_uart5 : bool) (u : U) p : Z * port U :=
  if negb is_uart5 then (-1, p)
  else
    let p := p <| rx_ring := default (rx_ring p) (uart_rx_ring_init (Some (rx_ring p))) |>
               <| remote_node :=
                    remote_node_init (Some port_get_time_ms) (Some port_transmit) u |> in
    let (status, p) := receive_it p in
    if negb (status =? HAL_OK) then (-1, p) else (0, p).

(** The critical section: both counters are read and cleared with the
    interrupts disabled. *)
Definition take_pending p : Z * Z * port U :=
  (rx_overflow_pending p, uart_error_pending p,
   p <| rx_overflow_pending := 0 |> <| uart_error_pending := 0 |>).

(** One round of [while (uart_rx_ring_pop(&rx_ring, &byte) != 0)]: [None]
    when the ring is empty. *)
Definition pop_and_process p : option (port U) :=
  let '(ok, byte, ring) := uart_rx_ring_pop (Some (rx_ring p)) (Some 0) in
  let p := p <| rx_ring := default (rx_ring p) ring |> in
  if negb (ok =? 0)
  then Some (p <| remote_node := remote_node_process_byte (remote_node p) (default 0 byte) |>)
  else None.

Fixpoint drain_ring (fuel : nat) p : option (port U) :=
  match pop_and_process p with
  | None => Some p
  | Some p' => match fuel with O => None | S f => drain_ring f p' end
  end.

(** Without interrupts in between; [None] if the ring never runs empty. *)
Definition remote_node_port_process (fuel : nat) p : option (port U) :=
  let '(overflow_count, error_count, p) := take_pending p in
  let node := Nat.iter (Z.to_nat overflow_count) remote_node_note_rx_overflow (remote_node p) in
  let node := Nat.iter (Z.to_nat error_count) remote_node_note_uart_error node in
  p ← drain_ring fuel (p <| remote_node := node |>);
  Some (p <| remote_node := remote_node_process_periodic (remote_node p) |>).

(** The interrupt callbacks; [is_huart5] is [uart_handle == &huart5]. *)
Definition HAL_UART_RxCpltCallback (is_huart5 : bool) p : port U :=
  if is_huart5
  then
    let (ok, ring) := uart_rx_ring_push_isr (Some (rx_ring p)) (rx_byte p) in
    let p := p <| rx_ring := default (rx_ring p) ring |> in
    let p := if ok =? 0
             then p <| rx_overflow_pending := u32 (rx_overflow_pending p + 1) |> else p in
    let (status, p) := receive_it p in
    if negb (status =? HAL_OK)
    then p <| uart_error_pending := u32 (uart_error_pending p + 1) |> else p
  else p.

Definition HAL_UART_ErrorCallback (is_huart5 : bool) p : port U :=
  if is_huart5
  then
    let p := p <| uart_error_pending := u32 (uart_error_pending p + 1) |> in
    (receive_it p).2
  else p.

(** ** The task interrupted anywhere *)

(** Where the task is in [remote_node_port_process], with its locals. *)
Inductive port_pc :=
  | Waiting
  | NotingOverflows (overflow_count error_count : Z)
  | NotingErrors (error_count : Z)
  | Draining
  | Periodic.

(** The port, the task and the history: bytes stored by the interrupt,
    bytes dropped, bytes given to the node. *)
Record port_system := mk_port_system {
  sys_port : port U;
  sys_pc : port_pc;
  hist_stored : list Z;
  hist_dropped : list Z;
  hist_fed : list Z
}.

Definition rx_interrupt (b : Z) (s : port_system) : port_system :=
  let p := (sys_port s) <| rx_byte := b |> in
  let ok := (uart_rx_ring_push_isr (Some (rx_ring p)) b).1 in
  mk_port_system (HAL_UART_RxCpltCallback true p) (sys_pc s)
    (hist_stored s ++ if ok =? 0 then [] else [b])
    (hist_dropped s ++ if ok =? 0 then [b] else []) (hist_fed s).

Definition error_interrupt (s : port_system) : port_system :=
  mk_port_system (HAL_UART_ErrorCallback true (sys_port s)) (sys_pc s)
    (hist_stored s) (hist_dropped s) (hist_fed s).

Definition on_remote (f : remote_node_t U -> remote_node_t U) (s : port_system)
    (pc : port_pc) : port_system :=
  mk_port_system ((sys_port s) <| remote_node := f (remote_node (sys_port s)) |>) pc
    (hist_stored s) (hist_dropped s) (hist_fed s).

(** One step of the task. *)
Definition task_step (s : port_system) : port_system :=
  match sys_pc s with
  | Waiting =>
      let '(o, e, p) := take_pending (sys_port s) in
      mk_port_system p (NotingOverflows o e) (hist_stored s) (hist_dropped s) (hist_fed s)
  | NotingOverflows o e =>
      if negb (o =? 0) then on_remote remote_node_note_rx_overflow s (NotingOverflows (o - 1) e)
      else on_remote id s (NotingErrors e)
  | NotingErrors e =>
      if negb (e =? 0) then on_remote remote_node_note_uart_error s (NotingErrors (e - 1))
      else on_remote id s Draining
  | Draining =>
      match pop_and_process (sys_port s) with
      | Some p =>
          mk_port_system p Draining (hist_stored s) (hist_dropped s)
            (hist_fed s ++ match (ring_pop (rx_ring (sys_port s))).1 with
                           | Some b => [b] | None => [] end)
      | None => on_remote id s Periodic
      end
  | Periodic => on_remote remote_node_process_periodic s Waiting
  end.

Inductive port_step : port_system -> port_system -> Prop :=
  | port_rx s b : is_u8 b -> port_step s (rx_interrupt b s)
  | port_error s : port_step s (error_interrupt s)
  | port_task s : port_step s (task_step s).
End Port.
Arguments port_system U : clear implicits.

(** ** What each piece does *)

Section PortProofs.
Context {U : Type} `{!Hal U}.
Implicit Types p : port U.

Lemma push_isr_law r b :
  ring_wf r -> is_u8 b ->
  let ok := (uart_rx_ring_push_isr (Some r) b).1 in
  let r' := default r (uart_rx_ring_push_isr (Some r) b).2 in
  ring_wf r' /\
  ring_contents r' = ring_contents r ++ (if ok =? 0 then [] else [b]).
Proof.
  intros Hw Hb. destruct (ring_push_law r b Hw) as (H1 & _ & H3 & _).
  cbn [ring_push uart_byte_ring] in H1, H3.
  destruct (uart_rx_ring_push_isr (Some r) b) as [ok r']. cbn [fst snd] in *.
  split; [done|]. rewrite H3. destruct (ok =? 0); done.
Qed.

Lemma pop_and_process_spec p :
  ring_wf (rx_ring p) ->
  match ring_contents (rx_ring p) with
  | [] => pop_and_process p = None
  | b :: l => exists r, ring_wf r /\ ring_contents r = l /\
      pop_and_process p =
        Some (p <| rx_ring := r |>
                <| remote_node := remote_node_process_byte (remote_node p) b |>) /\
      (ring_pop (rx_ring p)).1 = Some b
  end.
Proof.
  intros Hw. unfold pop_and_process. rewrite uart_rx_ring_pop_is_ring_pop.
  unfold ring_pop. rewrite ring_empty_law by done.
  destruct (ring_contents (rx_ring p)) as [|b l] eqn:E.
  - rewrite bool_decide_true by done. done.
  - rewrite bool_decide_false by done. rewrite (ring_byte_law _ b l) by done.
    destruct (ring_release_law _ b l Hw E) as [H1 H2].
    exists (ring_release (ring_index (rx_ring p)) (rx_ring p)). done.
Qed.

Lemma receive_it_fields p :
  let p' := (receive_it p).2 in
  rx_ring p' = rx_ring p /\ rx_overflow_pending p' = rx_overflow_pending p /\
  uart_error_pending p' = uart_error_pending p /\
  parser (remote_node p') = parser (remote_node p) /\
  stats (remote_node p') = stats (remote_node p).
Proof.
  unfold receive_it. destruct (HAL_UART_Receive_IT _) as [st u]. done.
Qed.

(** The overflow counter moves only in [remote_node_note_rx_overflow]. *)
Lemma keeps_overflows n n' :
  keeps (U:=U) n n' -> uart_rx_overflow_count (stats n') = uart_rx_overflow_count (stats n).
Proof. intros (_ & _ & _ & _ & E & _). done. Qed.

Lemma process_byte_overflows (n : remote_node_t U) b :
  uart_rx_overflow_count (stats (remote_node_process_byte n b)) =
    uart_rx_overflow_count (stats n).
Proof.
  unfold remote_node_process_byte. destruct (feed_byte _ _ _) as [[e q] out].
  destruct e; [case_decide; done|done|].
  destruct (handle_packet_keeps (n <| parser := q |>) out) as (n1 & K & _ & _ & _ & _ & E & _).
  rewrite (keeps_overflows _ _ K), E. done.
Qed.

(** Overflows the task took from the interrupt and has not noted yet. *)
Definition in_flight (pc : port_pc) : Z :=
  match pc with NotingOverflows o _ => o | _ => 0 end.
Definition errors_in_flight (pc : port_pc) : Z :=
  match pc with NotingOverflows _ e => e | NotingErrors e => e | _ => 0 end.

Record port_inv (s : port_system U) : Prop := {
  pi_ring : ring_wf (rx_ring (sys_port s));
  pi_fifo : hist_stored s = hist_fed s ++ ring_contents (rx_ring (sys_port s));
  pi_bytes : bytes (hist_stored s);
  pi_pending : is_u32 (rx_overflow_pending (sys_port s));
  pi_errors : is_u32 (uart_error_pending (sys_port s));
  pi_flight : 0 <= in_flight (sys_pc s) /\ 0 <= errors_in_flight (sys_pc s);
  pi_count : u32 (uart_rx_overflow_count (stats (remote_node (sys_port s))) +
               in_flight (sys_pc s) + rx_overflow_pending (sys_port s)) =
             u32 (Z.of_nat (length (hist_dropped s)));
  pi_parser : parser_rel (parser (remote_node (sys_port s))) (spec_run [] (hist_fed s)).2;
  pi_agree : counters_agree (remote_node (sys_port s))
}.

Lemma rx_interrupt_inv b s : is_u8 b -> port_inv s -> port_inv (rx_interrupt b s).
Proof.
  intros Hb [H1 H2 H3 H4 H5 H6 H7 H8 H9]. unfold rx_interrupt.
  destruct (push_isr_law (rx_ring (sys_port s)) b H1 Hb) as [W1 W2]. cbv zeta in W1, W2.
  unfold HAL_UART_RxCpltCallback.
  change (rx_ring (set_field rx_byte b (sys_port s))) with (rx_ring (sys_port s)).
  change (rx_byte (set_field rx_byte b (sys_port s))) with b.
  destruct (uart_rx_ring_push_isr (Some (rx_ring (sys_port s))) b) as [ok ring].
  cbn [fst snd] in *.
  match goal with |- context [receive_it ?q] => set (p1 := q);
    destruct (receive_it_fields p1) as (E1 & E2 & E3 & E4 & E5) end.
  destruct (receive_it p1) as [st p2]. cbn [snd] in *.
  assert (rx_ring p1 = default (rx_ring (sys_port s)) ring /\
    remote_node p1 = remote_node (sys_port s) /\
    uart_error_pending p1 = uart_error_pending (sys_port s) /\
    rx_overflow_pending p1 = if ok =? 0 then u32 (rx_overflow_pending (sys_port s) + 1)
                             else rx_overflow_pending (sys_port s)) as (F1 & F2 & F3 & F4)
    by (subst p1; destruct (ok =? 0); done).
  set (p3 := if negb (st =? HAL_OK) then _ else p2).
  assert (rx_ring p3 = rx_ring p2 /\ rx_overflow_pending p3 = rx_overflow_pending p2 /\
    remote_node p3 = remote_node p2 /\
    (uart_error_pending p3 = uart_error_pending p2 \/
     uart_error_pending p3 = u32 (uart_error_pending p2 + 1))) as (G1 & G2 & G3 & G4)
    by (subst p3; destruct (negb _); tauto).
  split; cbn [sys_port sys_pc hist_stored hist_dropped hist_fed];
    rewrite ?G1, ?G2, ?G3, ?E1, ?E2, ?E4, ?E5, ?F1, ?F2, ?F4; try done.
  - rewrite W2, H2, app_assoc. done.
  - apply bytes_app. split; [done|]. destruct (ok =? 0); solve_bytes.
  - destruct (ok =? 0); auto with width.
  - destruct G4 as [-> | ->]; rewrite E3, F3; auto with width.
  - rewrite length_app. destruct (ok =? 0); cbn [length]; [|rewrite Nat.add_0_r; done].
    revert H7. width.
  - destruct H9 as [A1 A2 A3]. split; rewrite E5, E4, F2; done.
Qed.

Lemma error_interrupt_inv s : port_inv s -> port_inv (error_interrupt s).
Proof.
  intros [H1 H2 H3 H4 H5 H6 H7 H8 H9]. unfold error_interrupt, HAL_UART_ErrorCallback.
  match goal with |- context [receive_it ?q] => set (p1 := q);
    destruct (receive_it_fields p1) as (E1 & E2 & E3 & E4 & E5) end.
  split; cbn [sys_port sys_pc hist_stored hist_dropped hist_fed];
    rewrite ?E1, ?E2, ?E3, ?E4, ?E5; try done.
  - apply u32_range.
  - destruct H9 as [A1 A2 A3]. split; rewrite E5, E4; done.
Qed.

Lemma node_step_inv f s pc :
  port_inv s -> (forall n, keeps (U:=U) n (f n)) ->
  in_flight pc = in_flight (sys_pc s) -> errors_in_flight pc = errors_in_flight (sys_pc s) ->
  port_inv (on_remote f s pc).
Proof.
  intros [H1 H2 H3 H4 H5 H6 H7 H8 H9] K I1 I2. specialize (K (remote_node (sys_port s))).
  split; cbn -[u32]; try done.
  - rewrite I1, I2. done.
  - rewrite I1, (keeps_overflows _ _ K). done.
  - destruct K as (-> & _). done.
  - apply (keeps_agree _ _ K H9).
Qed.

Lemma task_step_inv s : port_inv s -> port_inv (task_step s).
Proof.
  intros H. pose proof H as [H1 H2 H3 H4 H5 [H6 H6'] H7 H8 H9]. unfold task_step.
  destruct (sys_pc s) as [|o e|e| |] eqn:Epc; cbn [in_flight errors_in_flight] in *.
  - split; cbn -[u32]; try done; [split; width|revert H7; width].
  - destruct (o =? 0) eqn:E; cbn [negb].
    + apply Z.eqb_eq in E as ->. apply node_step_inv; [done|intros; apply keeps_refl| |];
        rewrite Epc; done.
    + split; cbn -[u32]; try done; [lia|revert H7; width|destruct H9; by split].
  - destruct (e =? 0) eqn:E; cbn [negb].
    + apply Z.eqb_eq in E as ->. apply node_step_inv; [done|intros; apply keeps_refl| |];
        rewrite Epc; done.
    + split; cbn -[u32]; try done; [lia|destruct H9; by split].
  - pose proof (pop_and_process_spec (sys_port s) H1) as Hp.
    destruct (ring_contents (rx_ring (sys_port s))) as [|b l] eqn:E.
    + rewrite Hp. apply node_step_inv; [done|intros; apply keeps_refl| |]; rewrite Epc; done.
    + destruct Hp as (r & W1 & W2 & -> & ->).
      assert (is_u8 b) as Hb.
      { rewrite H2, bytes_app, bytes_cons in H3. tauto. }
      destruct (process_byte_agree _ _ b Hb H8 H9) as (R1 & R2 & _).
      split; cbn [sys_port sys_pc hist_stored hist_dropped hist_fed in_flight errors_in_flight];
        try done.
      * rewrite H2, <- app_assoc, <- W2. done.
      * cbn -[u32]. rewrite process_byte_overflows. done.
      * rewrite spec_run_app. cbn [snd spec_run]. destruct (spec_step _ b). done.
  - apply node_step_inv; [done|apply keeps_periodic| |]; rewrite Epc; done.
Qed.

Lemma port_reachable_inv s s' : port_inv s -> rtc port_step s s' -> port_inv s'.
Proof.
  intros Hi Hs. induction Hs as [|s1 s2 s3 Hstep _ IH]; [done|]. apply IH.
  destruct Hstep; [by apply rx_interrupt_inv|by apply error_interrupt_inv|by apply task_step_inv].
Qed.

Definition port_start p : port_system U := mk_port_system p Waiting [] [] [].

Lemma port_init_inv p0 p st u :
  length (storage (rx_ring p0)) = 512%nat ->
  rx_overflow_pending p0 = 0 -> uart_error_pending p0 = 0 ->
  remote_node_port_init true u p0 = (st, p) -> port_inv (port_start p).
Proof.
  intros Hs Ho He. unfold remote_node_port_init. cbn [negb].
  match goal with |- context [receive_it ?q] => set (p1 := q);
    destruct (receive_it_fields p1) as (E1 & E2 & E3 & E4 & E5) end.
  destruct (receive_it p1) as [st1 p2]. cbn [snd] in *. intros E.
  assert (p = p2) as -> by (destruct (negb _) in E; by injection E).
  set (n0 := remote_node_init (Some port_get_time_ms) (Some port_transmit) u) in *.
  assert (remote_node p1 = n0) as F by done. rewrite F in E4, E5.
  split; cbn [port_start sys_port sys_pc hist_stored hist_dropped hist_fed in_flight
    errors_in_flight]; rewrite ?E1, ?E2, ?E3, ?E4, ?E5; try done.
  - apply bytes_nil.
  - change (rx_overflow_pending p1) with (rx_overflow_pending p0). rewrite Ho. width.
  - change (uart_error_pending p1) with (uart_error_pending p0). rewrite He. width.
  - change (rx_overflow_pending p1) with (rx_overflow_pending p0). rewrite Ho.
    subst n0. unfold remote_node_init, remote_node_now. cbn [RemoteNode.time_fn].
    destruct (port_get_time_ms _). done.
  - subst n0. rewrite init_parser. apply parser_init_rel.
  - pose proof (init_agree (Some port_get_time_ms) (Some port_transmit) u) as [A1 A2 A3].
    fold n0 in A1, A2, A3. split; rewrite E4, E5; done.
Qed.

(** Without interrupts the ring empties within its capacity. *)
Lemma drain_ring_spec p fuel :
  ring_wf (rx_ring p) -> (length (ring_contents (rx_ring p)) <= fuel)%nat ->
  exists r, ring_wf r /\ ring_contents r = [] /\
    drain_ring fuel p =
      Some (p <| rx_ring := r |>
              <| remote_node := fold_left remote_node_process_byte
                   (ring_contents (rx_ring p)) (remote_node p) |>).
Proof.
  revert p. induction fuel as [|fuel IH]; intros p Hw Hl;
    pose proof (pop_and_process_spec p Hw) as Hp;
    destruct (ring_contents (rx_ring p)) as [|b l] eqn:E; cbn [length] in Hl; try lia;
    cbn [drain_ring].
  1, 2: exists (rx_ring p); rewrite Hp; destruct p; done.
  destruct Hp as (r & W1 & W2 & -> & _).
  set (p1 := p <| rx_ring := r |> <| remote_node := _ |>).
  destruct (IH p1) as (r' & W1' & W2' & E1); [done|change (rx_ring p1) with r; rewrite W2; lia|].
  change (rx_ring p1) with r in E1. rewrite W2 in E1.
  exists r'. rewrite E1. done.
Qed.
End PortProofs.

(** ** Properties *)

(** C32: No byte and no error is lost track of: from [remote_node_port_init]
    on, for every interleaving of the receive and error interrupts with the
    task, the bytes given to the node followed by those in the ring are
    exactly the bytes the interrupt stored, in order; the node's overflow
    counter, the overflows the task has taken but not yet noted and the
    pending ones add up to the bytes dropped; and the node's parser is in the
    state that the bytes given to it determine. *)
Theorem remote_port_accounts_for_every_byte {U} `{!Hal U} (p0 p : port U) st u s :
  length (storage (rx_ring p0)) = 512%nat ->
  rx_overflow_pending p0 = 0 -> uart_error_pending p0 = 0 ->
  remote_node_port_init true u p0 = (st, p) ->
  rtc port_step (port_start p) s ->
  let r := rx_ring (sys_port s) in
  hist_stored s = hist_fed s ++
    ring_slice (storage r) (read_index r) (Z.to_nat ((write_index r - read_index r) mod 512)) /\
  u32 (uart_rx_overflow_count (stats (remote_node (sys_port s))) + in_flight (sys_pc s) +
       rx_overflow_pending (sys_port s)) = u32 (Z.of_nat (length (hist_dropped s))) /\
  parser_rel (parser (remote_node (sys_port s))) (spec_run [] (hist_fed s)).2.
Proof.
  intros Hs Ho He Hi Hr r.
  destruct (port_reachable_inv _ _ (port_init_inv p0 p st u Hs Ho He Hi) Hr)
    as [H1 H2 _ _ _ _ H7 H8 _].
  split; [exact H2|]. split; [exact H7|exact H8].
Qed.

(** One undisturbed call of [remote_node_port_process] completes: with
    [n] bytes waiting, [n] rounds of its loop suffice; every waiting byte is
    given to the node in order, after the pending errors are noted and before
    the periodic handler runs once; the ring and both counters end empty. *)
Theorem remote_port_process_completes {U} `{!Hal U} (p : port U) fuel :
  length (storage (rx_ring p)) = 512%nat ->
  0 <= write_index (rx_ring p) < 512 -> 0 <= read_index (rx_ring p) < 512 ->
  let r := rx_ring p in
  let n := Z.to_nat ((write_index r - read_index r) mod 512) in
  let noted :=
    Nat.iter (Z.to_nat (uart_error_pending p)) remote_node_note_uart_error
      (Nat.iter (Z.to_nat (rx_overflow_pending p)) remote_node_note_rx_overflow (remote_node p)) in
  (n <= fuel)%nat ->
  exists p', remote_node_port_process fuel p = Some p' /\
    read_index (rx_ring p') = write_index (rx_ring p') /\
    rx_overflow_pending p' = 0 /\ uart_error_pending p' = 0 /\
    remote_node p' = remote_node_process_periodic
      (remote_node_process_bytes noted (Some (ring_slice (storage r) (read_index r) n))
         (Z.of_nat n)).
Proof.
  intros Hs Hw Hr r n noted Hn.
  set (p1 := p <| rx_overflow_pending := 0 |> <| uart_error_pending := 0 |>
               <| remote_node := noted |>).
  destruct (drain_ring_spec p1 fuel) as (r' & W1 & W2 & E).
  { done. }
  { cbn [p1 rx_ring set_field]. cbn [ring_contents uart_byte_ring].
    rewrite length_ring_slice. exact Hn. }
  assert (remote_node_port_process fuel p =
    (p2 ← drain_ring fuel p1;
     Some (p2 <| remote_node := remote_node_process_periodic (remote_node p2) |>))) as -> by done.
  rewrite E. eexists. split; [done|]. split.
  - cbn [rx_ring set_field]. pose proof (ring_empty_law r' W1) as He. rewrite W2 in He.
    cbn [ring_empty_at ring_index uart_byte_ring] in He. apply Z.eqb_eq. rewrite He. done.
  - split; [done|]. split; [done|]. cbn [remote_node set_field p1 rx_ring].
    unfold remote_node_process_bytes. rewrite Nat2Z.id, take_ge; [done|].
    rewrite length_ring_slice. done.
Qed.

(** ** Witnesses: a HAL that always succeeds and records what is sent *)

#[export] Instance demo_hal : Hal platform := {
  HAL_GetTick := record_time;
  HAL_UART_Transmit frame _ u := record_tx frame u;
  HAL_UART_Receive_IT u := (HAL_OK, u)
}.

Definition blank_port : port platform :=
  mk_port (remote_node_init None None (mk_platform 0 []))
    (mk_uart_rx_ring (replicate 512 0) 0 0) 0 0 0.

Lemma remote_port_accounts_for_every_byte_witness :
  exists p s, remote_node_port_init true (mk_platform 0 []) blank_port = (0, p) /\
    rtc port_step (port_start p) s /\ hist_stored s = [0xAA; 0x55] /\ hist_fed s = [0xAA] /\
    parser_rel (parser (remote_node (sys_port s))) (spec_run [] (hist_fed s)).2.
Proof.
  set (p := (remote_node_port_init true (mk_platform 0 []) blank_port).2).
  set (s := rx_interrupt 0x55 (task_step (task_step (task_step (task_step
    (rx_interrupt 0xAA (port_start p))))))).
  assert (remote_node_port_init true (mk_platform 0 []) blank_port = (0, p)) as Hp by reflexivity.
  assert (rtc port_step (port_start p) s) as Hs.
  { unfold s. eapply rtc_r; [|apply port_rx; width].
    do 4 (eapply rtc_r; [|apply port_task]).
    eapply rtc_r; [|apply port_rx; width]. apply rtc_refl. }
  exists p, s. split; [exact Hp|]. split; [exact Hs|].
  split; [vm_compute; reflexivity|]. split; [vm_compute; reflexivity|].
  apply (remote_port_accounts_for_every_byte blank_port p 0 (mk_platform 0 []) s);
    [reflexivity|reflexivity|reflexivity|exact Hp|exact Hs].
Defined.

(** A PING waiting in the ring is answered by one call. *)
Lemma remote_port_process_completes_witness :
  exists p', remote_node_port_process 10
    (mk_port idle_node (mk_uart_rx_ring (ping7_frame ++ replicate 502 0) 10 0) 0 0 0) = Some p' /\
    rx_overflow_pending p' = 0.
Proof.
  destruct (remote_port_process_completes
    (mk_port idle_node (mk_uart_rx_ring (ping7_frame ++ replicate 502 0) 10 0) 0 0 0) 10)
    as (p' & H1 & _ & H2 & _);
    [reflexivity|cbn [write_index rx_ring]; lia|cbn [read_index rx_ring]; lia
    |vm_compute; lia|].
  exists p'. split; [exact H1|exact H2].
Defined.
