(* ===== verification/GwVars.v ===== *)
(** * Gateway constants and global variables (g474_gateway/Core/Src/main.c)

    The [#define]s of the file, and its scalar [static volatile] variables as
    the constructors of three types (by declaration block), each with its C
    width and initial value. *)
From S2P Require Import Prelude.
Local Open Scope Z_scope.

(** ** Constants *)
Definition RS422_BRINGUP_TEST_COUNT : Z := 100.
Definition RS422_BRINGUP_TX_TIMEOUT_MS : Z := 100.
Definition RS422_BRINGUP_PONG_TIMEOUT_MS : Z := 1000.
Definition RS422_BRINGUP_INTER_TEST_DELAY_MS : Z := 20.
Definition RS422_EVENT_RX : Z := 1.
Definition RS422_EVENT_TX_DONE : Z := 2.
Definition RS422_EVENT_CMD_READY : Z := 4.
Definition RS422_EVENT_TCP_CONTEXT_RESET : Z := 8.
Definition RS422_EVENT_MASK : Z := 
  Z.lor (Z.lor (Z.lor RS422_EVENT_RX RS422_EVENT_TX_DONE) RS422_EVENT_CMD_READY)
    RS422_EVENT_TCP_CONTEXT_RESET.
Definition RS422_CMD_QUEUE_DEPTH : Z := 8.
Definition TCP_RESPONSE_QUEUE_DEPTH : Z := 8.
Definition UDP_TELEMETRY_QUEUE_DEPTH : Z := 4.
Definition HEALTH_TASK_PERIOD_MS : Z := 100.
Definition RS422_COMM_TIMEOUT_MS : Z := 1500.
Definition W5500_RESET_DELAY_MS : Z := 2.
Definition W5500_SPI_TIMEOUT_MS : Z := 100.
Definition W5500_VERSIONR_ADDRESS : Z := 0x0039.
Definition W5500_PHYCFGR_ADDRESS : Z := 0x002e.
Definition W5500_PHYCFGR_LNK : Z := 0x01.
Definition W5500_PHY_POLL_PERIOD_MS : Z := 100.
Definition W5500_DATA_SERVICE_PERIOD_MS : Z := 1.
Definition ETHERNET_EVENT_TCP_RESPONSE_READY : Z := 1.
Definition ETHERNET_EVENT_MASK : Z := ETHERNET_EVENT_TCP_RESPONSE_READY.
Definition DIAG_TIMESTAMP_NOT_CAPTURED_MS : Z := UINT32_MAX.
Definition W5500_GAR_ADDRESS : Z := 0x0001.
Definition W5500_SUBR_ADDRESS : Z := 0x0005.
Definition W5500_SHAR_ADDRESS : Z := 0x0009.
Definition W5500_SIPR_ADDRESS : Z := 0x000f.
Definition W5500_GAR_LENGTH : Z := 4.
Definition W5500_SUBR_LENGTH : Z := 4.
Definition W5500_SHAR_LENGTH : Z := 6.
Definition W5500_SIPR_LENGTH : Z := 4.
Definition W5500_NET_MAX_REGISTER_LENGTH : Z := W5500_SHAR_LENGTH.
Definition W5500_COMMON_HEADER_LENGTH : Z := 3.
Definition W5500_COMMON_READ_VDM : Z := 0x00.
Definition W5500_COMMON_WRITE_VDM : Z := 0x04.
Definition W5500_SOCKET0_READ_VDM : Z := 0x08.
Definition W5500_SOCKET0_WRITE_VDM : Z := 0x0c.
Definition W5500_SOCKET0_MR_ADDRESS : Z := 0x0000.
Definition W5500_SOCKET0_CR_ADDRESS : Z := 0x0001.
Definition W5500_SOCKET0_IR_ADDRESS : Z := 0x0002.
Definition W5500_SOCKET0_SR_ADDRESS : Z := 0x0003.
Definition W5500_SOCKET0_PORT_ADDRESS : Z := 0x0004.
Definition W5500_SOCKET0_TX_FSR_ADDRESS : Z := 0x0020.
Definition W5500_SOCKET0_TX_WR_ADDRESS : Z := 0x0024.
Definition W5500_SOCKET0_RX_RSR_ADDRESS : Z := 0x0026.
Definition W5500_SOCKET0_RX_RD_ADDRESS : Z := 0x0028.
Definition W5500_SOCKET0_MAX_DATA_LENGTH : Z := 2.
Definition W5500_SOCKET0_TX_BUFFER_WRITE_VDM : Z := 0x14.
Definition W5500_SOCKET0_RX_BUFFER_READ_VDM : Z := 0x18.
Definition W5500_SOCKET0_TCP_MODE : Z := 0x01.
Definition W5500_SOCKET0_OPEN_COMMAND : Z := 0x01.
Definition W5500_SOCKET0_LISTEN_COMMAND : Z := 0x02.
Definition W5500_SOCKET0_DISCON_COMMAND : Z := 0x08.
Definition W5500_SOCKET0_CLOSE_COMMAND : Z := 0x10.
Definition W5500_SOCKET0_SEND_COMMAND : Z := 0x20.
Definition W5500_SOCKET0_RECV_COMMAND : Z := 0x40.
Definition W5500_SOCKET0_IR_SEND_OK : Z := 0x10.
Definition W5500_SOCKET0_IR_TIMEOUT : Z := 0x08.
Definition W5500_SOCKET0_STATUS_CLOSED : Z := 0x00.
Definition W5500_SOCKET0_STATUS_INIT : Z := 0x13.
Definition W5500_SOCKET0_STATUS_LISTEN : Z := 0x14.
Definition W5500_SOCKET0_STATUS_SYNSENT : Z := 0x15.
Definition W5500_SOCKET0_STATUS_SYNRECV : Z := 0x16.
Definition W5500_SOCKET0_STATUS_ESTABLISHED : Z := 0x17.
Definition W5500_SOCKET0_STATUS_FIN_WAIT : Z := 0x18.
Definition W5500_SOCKET0_STATUS_CLOSING : Z := 0x1a.
Definition W5500_SOCKET0_STATUS_TIME_WAIT : Z := 0x1b.
Definition W5500_SOCKET0_STATUS_CLOSE_WAIT : Z := 0x1c.
Definition W5500_SOCKET0_STATUS_LAST_ACK : Z := 0x1d.
Definition W5500_TCP_SERVER_PORT : Z := 5000.
Definition W5500_SOCKET_STATE_TIMEOUT_MS : Z := 1000.
Definition W5500_SOCKET_STATE_POLL_MS : Z := 10.
Definition W5500_TCP_TRANSIENT_TIMEOUT_MS : Z := 3000.
Definition W5500_TCP_RECOVERY_RETRY_MS : Z := 500.
Definition W5500_TCP_STABLE_READ_ATTEMPTS : Z := 8.
Definition W5500_TCP_RX_CHUNK_SIZE : Z := 64.
Definition W5500_TCP_TX_FREE_TIMEOUT_MS : Z := 1000.
Definition W5500_TCP_SEND_TIMEOUT_MS : Z := 1000.
Definition W5500_TCP_IO_POLL_MS : Z := 10.
Definition W5500_SOCKET_COMMAND_TIMEOUT_MS : Z := 100.
Definition W5500_SOCKET_COMMAND_POLL_MS : Z := 1.
Definition W5500_SOCKET1_READ_VDM : Z := 0x28.
Definition W5500_SOCKET1_WRITE_VDM : Z := 0x2c.
Definition W5500_SOCKET1_TX_BUFFER_WRITE_VDM : Z := 0x34.
Definition W5500_SOCKET1_MR_ADDRESS : Z := 0x0000.
Definition W5500_SOCKET1_CR_ADDRESS : Z := 0x0001.
Definition W5500_SOCKET1_IR_ADDRESS : Z := 0x0002.
Definition W5500_SOCKET1_SR_ADDRESS : Z := 0x0003.
Definition W5500_SOCKET1_PORT_ADDRESS : Z := 0x0004.
Definition W5500_SOCKET1_DIPR_ADDRESS : Z := 0x000c.
Definition W5500_SOCKET1_DPORT_ADDRESS : Z := 0x0010.
Definition W5500_SOCKET1_TX_FSR_ADDRESS : Z := 0x0020.
Definition W5500_SOCKET1_TX_WR_ADDRESS : Z := 0x0024.
Definition W5500_SOCKET1_MAX_DATA_LENGTH : Z := 4.
Definition W5500_SOCKET1_UDP_MODE : Z := 0x02.
Definition W5500_SOCKET1_OPEN_COMMAND : Z := 0x01.
Definition W5500_SOCKET1_SEND_COMMAND : Z := 0x20.
Definition W5500_SOCKET1_IR_SEND_OK : Z := 0x10.
Definition W5500_SOCKET1_IR_TIMEOUT : Z := 0x08.
Definition W5500_SOCKET1_STATUS_CLOSED : Z := 0x00.
Definition W5500_SOCKET1_STATUS_UDP : Z := 0x22.
Definition W5500_UDP_LOCAL_PORT : Z := 5001.
Definition W5500_UDP_DESTINATION_PORT : Z := 5002.
Definition W5500_UDP_PAYLOAD_LENGTH : Z := 6.
Definition W5500_UDP_STABLE_READ_ATTEMPTS : Z := 8.
Definition W5500_UDP_TX_FREE_TIMEOUT_MS : Z := 1000.
Definition W5500_UDP_SEND_TIMEOUT_MS : Z := 1000.
Definition W5500_UDP_IO_POLL_MS : Z := 10.
Definition W5500_UDP_SPI_CHUNK_SIZE : Z := 64.
Definition W5500_UDP_LOCAL_TELEMETRY_ENABLED : Z := 0.
Definition UDP_TELEMETRY_DRAIN_LIMIT : Z := 2.

(** [HAL_StatusTypeDef]. *)
Definition HAL_OK : Z := 0.
Definition HAL_ERROR : Z := 1.
Definition HAL_BUSY : Z := 2.
Definition HAL_TIMEOUT : Z := 3.

(** [rs422_ping_test_result_t] *)
Definition RS422_PING_TEST_NOT_RUN : Z := 0.
Definition RS422_PING_TEST_PASS : Z := 1.
Definition RS422_PING_TEST_ENCODE_FAILURE : Z := -1.
Definition RS422_PING_TEST_TX_FAILURE : Z := -2.
Definition RS422_PING_TEST_PONG_TIMEOUT : Z := -3.
Definition RS422_PING_TEST_RX_FAILURE : Z := -4.

(** [rs422_comm_state_t] *)
Definition COMM_INIT : Z := 0.
Definition COMM_OK : Z := 1.
Definition COMM_TIMEOUT : Z := 2.

(** ** Scalar variables *)

Inductive ctype := U8 | U16 | U32 | I32.

(** Conversion to the type of the variable, as an assignment does it. *)
Definition convert (t : ctype) (z : Z) : Z :=
  match t with U8 => u8 z | U16 => u16 z | U32 => u32 z | I32 => i32 z end.

Inductive rs422_var :=
  | g_rs422_ping_test_result
  | g_rs422_last_msg_id
  | g_rs422_last_seq
  | g_rs422_rx_frame_count
  | g_rs422_test_total
  | g_rs422_test_success
  | g_rs422_test_fail
  | g_rs422_uart_rx_error_count
  | g_rs422_tx_busy
  | g_rs422_tx_complete_count
  | g_rs422_tx_busy_count
  | g_rs422_tx_error_count
  | g_rs422_tx_timeout_count
  | g_rs422_cmd_enqueue_success_count
  | g_rs422_cmd_enqueue_fail_count
  | g_rs422_cmd_dequeue_count
  | g_rs422_forwarded_pong_rx_count
  | g_tcp_response_enqueue_success_count
  | g_tcp_response_enqueue_fail_count
  | g_tcp_response_dequeue_count
  | g_rs422_telemetry_rx_count
  | g_udp_telemetry_enqueue_success_count
  | g_udp_telemetry_enqueue_fail_count
  | g_udp_telemetry_dequeue_count
  | g_rs422_telemetry_forwarding_enabled
  | g_rs422_tcp_ping_pending
  | g_rs422_tcp_ping_pending_seq
  | g_rs422_last_tx_msg_id
  | g_rs422_last_tx_seq
  | g_rs422_last_valid_frame_tick
  | g_rs422_has_valid_frame
  | g_rs422_comm_state
  | g_rs422_comm_timeout_count
  | g_rs422_comm_recovery_count
  | g_rs422_diag_last_valid_frame_ms
  | g_rs422_diag_timeout_transition_ms
  | g_rs422_diag_recovery_first_valid_ms
  | g_rs422_diag_recovery_comm_ok_ms
  | g_rs422_diag_fault_detection_ms
  | g_rs422_diag_recovery_ms
  | g_rs422_diag_timeout_transition_tick
  | g_rs422_diag_recovery_first_valid_tick
  | g_rs422_diag_recovery_comm_ok_tick.

Definition all_rs422_var : list rs422_var := [
  g_rs422_ping_test_result; g_rs422_last_msg_id; g_rs422_last_seq; g_rs422_rx_frame_count;
  g_rs422_test_total; g_rs422_test_success; g_rs422_test_fail; g_rs422_uart_rx_error_count;
  g_rs422_tx_busy; g_rs422_tx_complete_count; g_rs422_tx_busy_count; g_rs422_tx_error_count;
  g_rs422_tx_timeout_count; g_rs422_cmd_enqueue_success_count; g_rs422_cmd_enqueue_fail_count;
  g_rs422_cmd_dequeue_count; g_rs422_forwarded_pong_rx_count;
  g_tcp_response_enqueue_success_count; g_tcp_response_enqueue_fail_count;
  g_tcp_response_dequeue_count; g_rs422_telemetry_rx_count;
  g_udp_telemetry_enqueue_success_count; g_udp_telemetry_enqueue_fail_count;
  g_udp_telemetry_dequeue_count; g_rs422_telemetry_forwarding_enabled;
  g_rs422_tcp_ping_pending; g_rs422_tcp_ping_pending_seq; g_rs422_last_tx_msg_id;
  g_rs422_last_tx_seq; g_rs422_last_valid_frame_tick; g_rs422_has_valid_frame;
  g_rs422_comm_state; g_rs422_comm_timeout_count; g_rs422_comm_recovery_count;
  g_rs422_diag_last_valid_frame_ms; g_rs422_diag_timeout_transition_ms;
  g_rs422_diag_recovery_first_valid_ms; g_rs422_diag_recovery_comm_ok_ms;
  g_rs422_diag_fault_detection_ms; g_rs422_diag_recovery_ms;
  g_rs422_diag_timeout_transition_tick; g_rs422_diag_recovery_first_valid_tick;
  g_rs422_diag_recovery_comm_ok_tick].

Definition rs422_var_index (v : rs422_var) : Z :=
  match v with
  | g_rs422_ping_test_result => 0 | g_rs422_last_msg_id => 1
  | g_rs422_last_seq => 2 | g_rs422_rx_frame_count => 3 | g_rs422_test_total => 4
  | g_rs422_test_success => 5 | g_rs422_test_fail => 6
  | g_rs422_uart_rx_error_count => 7 | g_rs422_tx_busy => 8
  | g_rs422_tx_complete_count => 9 | g_rs422_tx_busy_count => 10
  | g_rs422_tx_error_count => 11 | g_rs422_tx_timeout_count => 12
  | g_rs422_cmd_enqueue_success_count => 13 | g_rs422_cmd_enqueue_fail_count => 14
  | g_rs422_cmd_dequeue_count => 15 | g_rs422_forwarded_pong_rx_count => 16
  | g_tcp_response_enqueue_success_count => 17
  | g_tcp_response_enqueue_fail_count => 18 | g_tcp_response_dequeue_count => 19
  | g_rs422_telemetry_rx_count => 20 | g_udp_telemetry_enqueue_success_count => 21
  | g_udp_telemetry_enqueue_fail_count => 22 | g_udp_telemetry_dequeue_count => 23
  | g_rs422_telemetry_forwarding_enabled => 24 | g_rs422_tcp_ping_pending => 25
  | g_rs422_tcp_ping_pending_seq => 26 | g_rs422_last_tx_msg_id => 27
  | g_rs422_last_tx_seq => 28 | g_rs422_last_valid_frame_tick => 29
  | g_rs422_has_valid_frame => 30 | g_rs422_comm_state => 31
  | g_rs422_comm_timeout_count => 32 | g_rs422_comm_recovery_count => 33
  | g_rs422_diag_last_valid_frame_ms => 34 | g_rs422_diag_timeout_transition_ms => 35
  | g_rs422_diag_recovery_first_valid_ms => 36
  | g_rs422_diag_recovery_comm_ok_ms => 37 | g_rs422_diag_fault_detection_ms => 38
  | g_rs422_diag_recovery_ms => 39 | g_rs422_diag_timeout_transition_tick => 40
  | g_rs422_diag_recovery_first_valid_tick => 41
  | g_rs422_diag_recovery_comm_ok_tick => 42
  end.

(** Width and initial value, where not [uint32_t] and 0. *)
Definition rs422_var_type (v : rs422_var) : ctype :=
  match v with
  | g_rs422_last_msg_id | g_rs422_last_tx_msg_id => U8
  | g_rs422_last_seq | g_rs422_tcp_ping_pending_seq | g_rs422_last_tx_seq => U16
  | g_rs422_ping_test_result => I32
  | _ => U32
  end.

Definition rs422_var_initial (v : rs422_var) : Z :=
  match v with
  | g_rs422_diag_last_valid_frame_ms | g_rs422_diag_timeout_transition_ms
  | g_rs422_diag_recovery_first_valid_ms | g_rs422_diag_recovery_comm_ok_ms
  | g_rs422_diag_fault_detection_ms | g_rs422_diag_recovery_ms
  | g_rs422_diag_timeout_transition_tick | g_rs422_diag_recovery_first_valid_tick
  | g_rs422_diag_recovery_comm_ok_tick => UINT32_MAX
  | _ => 0
  end.

Inductive eth_var :=
  | g_gateway_queue_init_ok
  | g_gateway_free_heap_bytes
  | g_gateway_min_ever_free_heap_bytes
  | g_w5500_version
  | g_w5500_spi_status
  | g_w5500_phycfgr
  | g_w5500_link_up
  | g_w5500_link_down_count
  | g_w5500_link_recovery_count
  | g_w5500_phy_spi_status
  | g_w5500_net_config_ok
  | g_w5500_net_readback_ok
  | g_w5500_net_write_status
  | g_w5500_net_read_status
  | g_w5500_tcp_init_ok
  | g_w5500_tcp_listen_ok
  | g_w5500_socket0_status
  | g_w5500_socket0_spi_status
  | g_w5500_tcp_rx_bytes
  | g_w5500_tcp_tx_bytes
  | g_w5500_tcp_valid_frame_count
  | g_w5500_tcp_ping_count
  | g_w5500_tcp_pong_count
  | g_w5500_tcp_last_rx_msg_id
  | g_w5500_tcp_last_rx_seq
  | g_w5500_tcp_last_tx_msg_id
  | g_w5500_tcp_last_tx_seq
  | g_w5500_tcp_rx_error_count
  | g_w5500_tcp_tx_error_count
  | g_w5500_tcp_last_rx_status
  | g_w5500_tcp_last_tx_status
  | g_w5500_tcp_recovery_pending
  | g_w5500_tcp_recovery_attempt_count
  | g_w5500_tcp_recovery_success_count
  | g_w5500_tcp_recovery_fail_count
  | g_eth_diag_link_down_observed_ms
  | g_eth_diag_link_up_observed_ms
  | g_eth_diag_tcp_service_ready_ms
  | g_eth_diag_first_tcp_pong_tx_success_ms
  | g_eth_diag_first_udp_tx_success_ms
  | g_eth_diag_linkup_to_tcp_service_ready_ms
  | g_eth_diag_linkup_to_tcp_pong_tx_ms
  | g_eth_diag_linkup_to_udp_tx_ms
  | g_eth_diag_recovery_cycle_active
  | g_eth_diag_link_down_tick
  | g_eth_diag_link_up_tick
  | g_eth_diag_tcp_service_ready_tick
  | g_eth_diag_first_tcp_pong_tx_success_tick
  | g_eth_diag_first_udp_tx_success_tick
  | g_w5500_tcp_session_active
  | g_w5500_tcp_stale_response_drop_count
  | g_w5500_data_service_cycle_count
  | g_w5500_data_deadline_miss_count
  | g_w5500_data_overrun_count
  | g_w5500_data_max_start_late_ticks
  | g_w5500_data_max_exec_cycles
  | g_w5500_data_max_exec_us
  | g_w5500_data_cycle_counter_available
  | g_w5500_data_system_core_clock_hz
  | g_w5500_data_kernel_tick_hz
  | g_w5500_data_period_cycles
  | g_w5500_data_timing_reference_valid.

Definition all_eth_var : list eth_var := [
  g_gateway_queue_init_ok; g_gateway_free_heap_bytes; g_gateway_min_ever_free_heap_bytes;
  g_w5500_version; g_w5500_spi_status; g_w5500_phycfgr; g_w5500_link_up;
  g_w5500_link_down_count; g_w5500_link_recovery_count; g_w5500_phy_spi_status;
  g_w5500_net_config_ok; g_w5500_net_readback_ok; g_w5500_net_write_status;
  g_w5500_net_read_status; g_w5500_tcp_init_ok; g_w5500_tcp_listen_ok; g_w5500_socket0_status;
  g_w5500_socket0_spi_status; g_w5500_tcp_rx_bytes; g_w5500_tcp_tx_bytes;
  g_w5500_tcp_valid_frame_count; g_w5500_tcp_ping_count; g_w5500_tcp_pong_count;
  g_w5500_tcp_last_rx_msg_id; g_w5500_tcp_last_rx_seq; g_w5500_tcp_last_tx_msg_id;
  g_w5500_tcp_last_tx_seq; g_w5500_tcp_rx_error_count; g_w5500_tcp_tx_error_count;
  g_w5500_tcp_last_rx_status; g_w5500_tcp_last_tx_status; g_w5500_tcp_recovery_pending;
  g_w5500_tcp_recovery_attempt_count; g_w5500_tcp_recovery_success_count;
  g_w5500_tcp_recovery_fail_count; g_eth_diag_link_down_observed_ms;
  g_eth_diag_link_up_observed_ms; g_eth_diag_tcp_service_ready_ms;
  g_eth_diag_first_tcp_pong_tx_success_ms; g_eth_diag_first_udp_tx_success_ms;
  g_eth_diag_linkup_to_tcp_service_ready_ms; g_eth_diag_linkup_to_tcp_pong_tx_ms;
  g_eth_diag_linkup_to_udp_tx_ms; g_eth_diag_recovery_cycle_active; g_eth_diag_link_down_tick;
  g_eth_diag_link_up_tick; g_eth_diag_tcp_service_ready_tick;
  g_eth_diag_first_tcp_pong_tx_success_tick; g_eth_diag_first_udp_tx_success_tick;
  g_w5500_tcp_session_active; g_w5500_tcp_stale_response_drop_count;
  g_w5500_data_service_cycle_count; g_w5500_data_deadline_miss_count;
  g_w5500_data_overrun_count; g_w5500_data_max_start_late_ticks; g_w5500_data_max_exec_cycles;
  g_w5500_data_max_exec_us; g_w5500_data_cycle_counter_available;
  g_w5500_data_system_core_clock_hz; g_w5500_data_kernel_tick_hz; g_w5500_data_period_cycles;
  g_w5500_data_timing_reference_valid].

Definition eth_var_index (v : eth_var) : Z :=
  match v with
  | g_gateway_queue_init_ok => 0 | g_gateway_free_heap_bytes => 1
  | g_gateway_min_ever_free_heap_bytes => 2 | g_w5500_version => 3
  | g_w5500_spi_status => 4 | g_w5500_phycfgr => 5 | g_w5500_link_up => 6
  | g_w5500_link_down_count => 7 | g_w5500_link_recovery_count => 8
  | g_w5500_phy_spi_status => 9 | g_w5500_net_config_ok => 10
  | g_w5500_net_readback_ok => 11 | g_w5500_net_write_status => 12
  | g_w5500_net_read_status => 13 | g_w5500_tcp_init_ok => 14
  | g_w5500_tcp_listen_ok => 15 | g_w5500_socket0_status => 16
  | g_w5500_socket0_spi_status => 17 | g_w5500_tcp_rx_bytes => 18
  | g_w5500_tcp_tx_bytes => 19 | g_w5500_tcp_valid_frame_count => 20
  | g_w5500_tcp_ping_count => 21 | g_w5500_tcp_pong_count => 22
  | g_w5500_tcp_last_rx_msg_id => 23 | g_w5500_tcp_last_rx_seq => 24
  | g_w5500_tcp_last_tx_msg_id => 25 | g_w5500_tcp_last_tx_seq => 26
  | g_w5500_tcp_rx_error_count => 27 | g_w5500_tcp_tx_error_count => 28
  | g_w5500_tcp_last_rx_status => 29 | g_w5500_tcp_last_tx_status => 30
  | g_w5500_tcp_recovery_pending => 31 | g_w5500_tcp_recovery_attempt_count => 32
  | g_w5500_tcp_recovery_success_count => 33 | g_w5500_tcp_recovery_fail_count => 34
  | g_eth_diag_link_down_observed_ms => 35 | g_eth_diag_link_up_observed_ms => 36
  | g_eth_diag_tcp_service_ready_ms => 37
  | g_eth_diag_first_tcp_pong_tx_success_ms => 38
  | g_eth_diag_first_udp_tx_success_ms => 39
  | g_eth_diag_linkup_to_tcp_service_ready_ms => 40
  | g_eth_diag_linkup_to_tcp_pong_tx_ms => 41 | g_eth_diag_linkup_to_udp_tx_ms => 42
  | g_eth_diag_recovery_cycle_active => 43 | g_eth_diag_link_down_tick => 44
  | g_eth_diag_link_up_tick => 45 | g_eth_diag_tcp_service_ready_tick => 46
  | g_eth_diag_first_tcp_pong_tx_success_tick => 47
  | g_eth_diag_first_udp_tx_success_tick => 48 | g_w5500_tcp_session_active => 49
  | g_w5500_tcp_stale_response_drop_count => 50
  | g_w5500_data_service_cycle_count => 51 | g_w5500_data_deadline_miss_count => 52
  | g_w5500_data_overrun_count => 53 | g_w5500_data_max_start_late_ticks => 54
  | g_w5500_data_max_exec_cycles => 55 | g_w5500_data_max_exec_us => 56
  | g_w5500_data_cycle_counter_available => 57
  | g_w5500_data_system_core_clock_hz => 58 | g_w5500_data_kernel_tick_hz => 59
  | g_w5500_data_period_cycles => 60 | g_w5500_data_timing_reference_valid => 61
  end.

(** Width and initial value, where not [uint32_t] and 0. *)
Definition eth_var_type (v : eth_var) : ctype :=
  match v with
  | g_w5500_version | g_w5500_phycfgr | g_w5500_socket0_status | g_w5500_tcp_last_rx_msg_id
  | g_w5500_tcp_last_tx_msg_id => U8
  | g_w5500_tcp_last_rx_seq | g_w5500_tcp_last_tx_seq => U16
  | g_w5500_spi_status | g_w5500_phy_spi_status | g_w5500_net_write_status
  | g_w5500_net_read_status | g_w5500_socket0_spi_status | g_w5500_tcp_last_rx_status
  | g_w5500_tcp_last_tx_status => I32
  | _ => U32
  end.

Definition eth_var_initial (v : eth_var) : Z :=
  match v with
  | g_w5500_spi_status | g_w5500_phy_spi_status | g_w5500_net_write_status
  | g_w5500_net_read_status | g_w5500_socket0_spi_status | g_w5500_tcp_last_rx_status
  | g_w5500_tcp_last_tx_status => -1
  | g_eth_diag_link_down_observed_ms | g_eth_diag_link_up_observed_ms
  | g_eth_diag_tcp_service_ready_ms | g_eth_diag_first_tcp_pong_tx_success_ms
  | g_eth_diag_first_udp_tx_success_ms | g_eth_diag_linkup_to_tcp_service_ready_ms
  | g_eth_diag_linkup_to_tcp_pong_tx_ms | g_eth_diag_linkup_to_udp_tx_ms
  | g_eth_diag_link_down_tick | g_eth_diag_link_up_tick | g_eth_diag_tcp_service_ready_tick
  | g_eth_diag_first_tcp_pong_tx_success_tick | g_eth_diag_first_udp_tx_success_tick => UINT32_MAX
  | _ => 0
  end.

Inductive diag_var :=
  | g_diag_tcp_established_ms
  | g_diag_first_rx_ready_ms
  | g_diag_first_ping_parsed_ms
  | g_diag_rs422_ping_tx_ms
  | g_diag_matching_pong_rx_ms
  | g_diag_tcp_pong_send_ms
  | g_diag_established_to_rx_ready_ms
  | g_diag_rx_ready_to_ping_parsed_ms
  | g_diag_ping_parsed_to_rs422_tx_ms
  | g_diag_rs422_tx_to_matching_pong_rx_ms
  | g_diag_matching_pong_rx_to_tcp_send_ms
  | g_diag_established_to_tcp_pong_send_ms
  | g_diag_first_ping_seq
  | g_diag_first_ping_seq_valid
  | g_w5500_udp_open_ok
  | g_w5500_udp_socket1_status
  | g_w5500_udp_socket1_spi_status
  | g_w5500_udp_tx_packet_count
  | g_w5500_udp_tx_bytes
  | g_w5500_udp_tx_error_count
  | g_w5500_udp_last_tx_seq
  | g_w5500_udp_last_tx_status
  | g_w5500_udp_next_seq.

Definition all_diag_var : list diag_var := [
  g_diag_tcp_established_ms; g_diag_first_rx_ready_ms; g_diag_first_ping_parsed_ms;
  g_diag_rs422_ping_tx_ms; g_diag_matching_pong_rx_ms; g_diag_tcp_pong_send_ms;
  g_diag_established_to_rx_ready_ms; g_diag_rx_ready_to_ping_parsed_ms;
  g_diag_ping_parsed_to_rs422_tx_ms; g_diag_rs422_tx_to_matching_pong_rx_ms;
  g_diag_matching_pong_rx_to_tcp_send_ms; g_diag_established_to_tcp_pong_send_ms;
  g_diag_first_ping_seq; g_diag_first_ping_seq_valid; g_w5500_udp_open_ok;
  g_w5500_udp_socket1_status; g_w5500_udp_socket1_spi_status; g_w5500_udp_tx_packet_count;
  g_w5500_udp_tx_bytes; g_w5500_udp_tx_error_count; g_w5500_udp_last_tx_seq;
  g_w5500_udp_last_tx_status; g_w5500_udp_next_seq].

Definition diag_var_index (v : diag_var) : Z :=
  match v with
  | g_diag_tcp_established_ms => 0 | g_diag_first_rx_ready_ms => 1
  | g_diag_first_ping_parsed_ms => 2 | g_diag_rs422_ping_tx_ms => 3
  | g_diag_matching_pong_rx_ms => 4 | g_diag_tcp_pong_send_ms => 5
  | g_diag_established_to_rx_ready_ms => 6 | g_diag_rx_ready_to_ping_parsed_ms => 7
  | g_diag_ping_parsed_to_rs422_tx_ms => 8
  | g_diag_rs422_tx_to_matching_pong_rx_ms => 9
  | g_diag_matching_pong_rx_to_tcp_send_ms => 10
  | g_diag_established_to_tcp_pong_send_ms => 11 | g_diag_first_ping_seq => 12
  | g_diag_first_ping_seq_valid => 13 | g_w5500_udp_open_ok => 14
  | g_w5500_udp_socket1_status => 15 | g_w5500_udp_socket1_spi_status => 16
  | g_w5500_udp_tx_packet_count => 17 | g_w5500_udp_tx_bytes => 18
  | g_w5500_udp_tx_error_count => 19 | g_w5500_udp_last_tx_seq => 20
  | g_w5500_udp_last_tx_status => 21 | g_w5500_udp_next_seq => 22
  end.

(** Width and initial value, where not [uint32_t] and 0. *)
Definition diag_var_type (v : diag_var) : ctype :=
  match v with
  | g_w5500_udp_socket1_status => U8
  | g_diag_first_ping_seq | g_w5500_udp_last_tx_seq | g_w5500_udp_next_seq => U16
  | g_w5500_udp_socket1_spi_status | g_w5500_udp_last_tx_status => I32
  | _ => U32
  end.

Definition diag_var_initial (v : diag_var) : Z :=
  match v with
  | g_diag_tcp_established_ms | g_diag_first_rx_ready_ms | g_diag_first_ping_parsed_ms
  | g_diag_rs422_ping_tx_ms | g_diag_matching_pong_rx_ms | g_diag_tcp_pong_send_ms
  | g_diag_established_to_rx_ready_ms | g_diag_rx_ready_to_ping_parsed_ms
  | g_diag_ping_parsed_to_rs422_tx_ms | g_diag_rs422_tx_to_matching_pong_rx_ms
  | g_diag_matching_pong_rx_to_tcp_send_ms | g_diag_established_to_tcp_pong_send_ms => UINT32_MAX
  | g_w5500_udp_socket1_spi_status | g_w5500_udp_last_tx_status => -1
  | g_w5500_udp_next_seq => 1
  | _ => 0
  end.

(** The thread handles: 0 is NULL. *)
Inductive handle_var :=
  | defaultTaskHandle
  | RS422TaskHandle
  | EthernetTaskHandle
  | HealthTaskHandle.

Definition handle_var_index (v : handle_var) : Z :=
  match v with
  | defaultTaskHandle => 0 | RS422TaskHandle => 1
  | EthernetTaskHandle => 2 | HealthTaskHandle => 3
  end.

Inductive gvar :=
  | Rs422Var (v : rs422_var)
  | EthVar (v : eth_var)
  | DiagVar (v : diag_var)
  | HandleVar (v : handle_var).
Coercion Rs422Var : rs422_var >-> gvar.
Coercion EthVar : eth_var >-> gvar.
Coercion DiagVar : diag_var >-> gvar.
Coercion HandleVar : handle_var >-> gvar.

Definition gvar_type (v : gvar) : ctype :=
  match v with
  | Rs422Var v => rs422_var_type v
  | EthVar v => eth_var_type v
  | DiagVar v => diag_var_type v
  | HandleVar _ => U32
  end.

(** The values at program start. *)
Definition gvar_initial (v : gvar) : Z :=
  match v with
  | Rs422Var v => rs422_var_initial v
  | EthVar v => eth_var_initial v
  | DiagVar v => diag_var_initial v
  | HandleVar _ => 0
  end.

Definition all_gvars : list gvar :=
  map Rs422Var all_rs422_var ++ map EthVar all_eth_var ++ map DiagVar all_diag_var ++
  map HandleVar [defaultTaskHandle; RS422TaskHandle; EthernetTaskHandle; HealthTaskHandle].

(** Variables are compared by position in their block. *)
Definition gvar_eqb (a b : gvar) : bool :=
  match a, b with
  | Rs422Var x, Rs422Var y => rs422_var_index x =? rs422_var_index y
  | EthVar x, EthVar y => eth_var_index x =? eth_var_index y
  | DiagVar x, DiagVar y => diag_var_index x =? diag_var_index y
  | HandleVar x, HandleVar y => handle_var_index x =? handle_var_index y
  | _, _ => false
  end.

Lemma index_inj {V} (index : V -> Z) (l : list V) :
  (forall v, l !! Z.to_nat (index v) = Some v) -> forall x y, reflect (x = y) (index x =? index y).
Proof.
  intros H x y. destruct (Z.eqb_spec (index x) (index y)) as [E|E]; constructor; [|congruence].
  pose proof (H x) as Hx. rewrite E, H in Hx. by injection Hx.
Qed.

Lemma gvar_eqb_spec a b : reflect (a = b) (gvar_eqb a b).
Proof.
  destruct a as [x|x|x|x], b as [y|y|y|y]; cbn [gvar_eqb]; try (by constructor).
  - destruct (index_inj rs422_var_index all_rs422_var) with (x := x) (y := y) as [->|];
      [by intros []|by constructor|constructor; congruence].
  - destruct (index_inj eth_var_index all_eth_var) with (x := x) (y := y) as [->|];
      [by intros []|by constructor|constructor; congruence].
  - destruct (index_inj diag_var_index all_diag_var) with (x := x) (y := y) as [->|];
      [by intros []|by constructor|constructor; congruence].
  - destruct (index_inj handle_var_index
      [defaultTaskHandle; RS422TaskHandle; EthernetTaskHandle; HealthTaskHandle])
      with (x := x) (y := y) as [->|];
      [by intros []|by constructor|constructor; congruence].
Qed.

#[export] Instance gvar_eq_dec : EqDecision gvar.
Proof. intros a b. destruct (gvar_eqb_spec a b); [left|right]; done. Defined.

Lemma gvar_eqb_refl a : gvar_eqb a a = true.
Proof. destruct (gvar_eqb_spec a a); done. Qed.
