(* ===== verification/GwMonad.v ===== *)
(** * The gateway's shared state and the kernel services its tasks use

    [gateway] is everything the tasks share: the variables of [GwVars], the
    packets, parsers, arrays and queues, the tasks' notification words, the
    tick counter and, as an abstract type [D], the hardware behind the HAL.
    Task code is a program of the state-and-failure monad [M]; [None] means
    that the fuel of a loop ran out or that a task waits for ever.

    Other tasks, interrupts and the passage of time enter at the kernel and
    HAL calls: there the [World] transforms the state ([env]). *)
From S2P Require Import Prelude Crc16 Protocol StreamParser RxRing.
From S2P Require Export GwVars.
Local Open Scope Z_scope.

(** ** Data *)
Inductive pvar :=
  | g_rs422_ping_packet
  | g_rs422_command_packet
  | g_rs422_received_packet
  | g_tcp_received_packet
  | g_tcp_pong_packet
  | g_udp_telemetry_packet
  | g_udp_forward_packet.
Inductive svar := g_rs422_parser | g_tcp_parser.
Inductive avar :=
  | g_rs422_tx_frame
  | g_w5500_gar_readback
  | g_w5500_subr_readback
  | g_w5500_shar_readback
  | g_w5500_sipr_readback
  | g_w5500_tcp_rx_chunk
  | g_w5500_tcp_rx_dummy
  | g_w5500_tcp_tx_frame
  | g_w5500_udp_tx_frame
  | g_w5500_udp_spi_discard.
Inductive qvar := rs422_cmd_queue | tcp_response_queue | udp_telemetry_queue.
Inductive task := RS422Task | EthernetTask.

#[export] Instance pvar_eq_dec : EqDecision pvar.
Proof. solve_decision. Defined.
#[export] Instance svar_eq_dec : EqDecision svar.
Proof. solve_decision. Defined.
#[export] Instance avar_eq_dec : EqDecision avar.
Proof. solve_decision. Defined.
#[export] Instance qvar_eq_dec : EqDecision qvar.
Proof. solve_decision. Defined.
#[export] Instance task_eq_dec : EqDecision task.
Proof. solve_decision. Defined.

(** [ulNotifiedValue], and whether [ucNotifyState] is
    taskNOTIFICATION_RECEIVED. *)
Record notification := mk_notification { notified_value : Z; notify_received : bool }.

(** The message capacity of each queue. *)
Definition queue_depth (q : qvar) : Z :=
  match q with
  | rs422_cmd_queue => RS422_CMD_QUEUE_DEPTH
  | tcp_response_queue => TCP_RESPONSE_QUEUE_DEPTH
  | udp_telemetry_queue => UDP_TELEMETRY_QUEUE_DEPTH
  end.

(** The declared size of each array. *)
Definition array_size (a : avar) : Z :=
  match a with
  | g_rs422_tx_frame | g_w5500_tcp_tx_frame | g_w5500_udp_tx_frame => PROTOCOL_MAX_FRAME_SIZE
  | g_w5500_gar_readback => W5500_GAR_LENGTH
  | g_w5500_subr_readback => W5500_SUBR_LENGTH
  | g_w5500_shar_readback => W5500_SHAR_LENGTH
  | g_w5500_sipr_readback => W5500_SIPR_LENGTH
  | g_w5500_tcp_rx_chunk | g_w5500_tcp_rx_dummy => W5500_TCP_RX_CHUNK_SIZE
  | g_w5500_udp_spi_discard => W5500_UDP_SPI_CHUNK_SIZE
  end.

(** A NULL queue handle is [None]. *)
Record gateway (D : Type) := mk_gateway {
  var : gvar -> Z;
  packet_of : pvar -> protocol_packet_t;
  parser_of : svar -> stream_parser_t;
  array_of : avar -> list Z;
  queue_of : qvar -> option (list protocol_packet_t);
  notif_of : task -> notification;
  rx_ring : rs422_ring;
  g_uart4_rx_byte : Z;
  tick : Z;
  hw : D;
  epoch : nat
}.
Arguments mk_gateway {D}.
Arguments var {D}.
Arguments packet_of {D}.
Arguments parser_of {D}.
Arguments array_of {D}.
Arguments queue_of {D}.
Arguments notif_of {D}.
Arguments rx_ring {D}.
Arguments g_uart4_rx_byte {D}.
Arguments tick {D}.
Arguments hw {D}.
Arguments epoch {D}.

#[export] Instance eta_gateway D : Eta (gateway D) := fun g =>
  mk_gateway (var g) (packet_of g) (parser_of g) (array_of g) (queue_of g) (notif_of g)
    (rx_ring g) (g_uart4_rx_byte g) (tick g) (hw g) (epoch g).

(** Updating one entry of a store. *)
Definition upd {K A} `{EqDecision K} (k : K) (a : A) (f : K -> A) : K -> A :=
  fun k' => if decide (k = k') then a else f k'.
Definition upd_var (v : gvar) (z : Z) (f : gvar -> Z) : gvar -> Z :=
  fun w => if gvar_eqb v w then convert (gvar_type v) z else f w.

(** ** The hardware and the rest of the system

    [HAL_SPI_Transmit] and [HAL_SPI_TransmitReceive] on SPI2, the W5500 chip
    select and reset pins ([true] is high), [HAL_UART_Transmit_IT] and
    [HAL_UART_Receive_IT] on UART4, the DWT cycle counter, [SystemCoreClock],
    and the FreeRTOS heap figures.  A received byte list has the requested
    length, whatever the status. *)
Class Hardware (D : Type) := {
  cs_pin : bool -> D -> D;
  rst_pin : bool -> D -> D;
  spi_transmit : list Z -> D -> Z * D;
  spi_transmit_receive : list Z -> D -> Z * list Z * D;
  uart_transmit_it : list Z -> D -> Z * D;
  uart_receive_it : D -> Z * D;
  dwt_start : D -> D;
  dwt_running : D -> bool;
  dwt_cyccnt : D -> Z;
  system_core_clock : D -> Z;
  free_heap_size : D -> Z;
  minimum_ever_free_heap_size : D -> Z
}.

(** [env n] is what the other tasks, the interrupts and time do at the [n]-th
    call of the task under study; [rounds] bounds the iterations of each loop
    that only the arrival of events keeps going. *)
Class World (D : Type) := {
  world_hw :: Hardware D;
  env : nat -> gateway D -> gateway D;
  rounds : nat
}.

(** ** The monad *)
Definition M (D A : Type) : Type := gateway D -> option (A * gateway D).

#[export] Instance M_ret D : MRet (M D) := fun A a g => Some (a, g).
#[export] Instance M_bind D : MBind (M D) := fun A B f m g =>
  match m g with Some (a, g') => f a g' | None => None end.

Definition fail {D A} : M D A := fun _ => None.
Definition gets {D A} (f : gateway D -> A) : M D A := fun g => Some (f g, g).
Definition modify {D} (f : gateway D -> gateway D) : M D unit := fun g => Some (tt, f g).
Definition when {D} (b : bool) (m : M D unit) : M D unit := if b then m else mret tt.

Section State.
Context {D : Type}.

Definition put (v : gvar) (z : Z) (g : gateway D) : gateway D :=
  g <| var := upd_var v z (var g) |>.

Definition rd (v : gvar) : M D Z := gets (fun g => var g v).
Definition wr (v : gvar) (z : Z) : M D unit := modify (put v z).
(** [v++] and [v += n] *)
Definition add_to (v : gvar) (n : Z) : M D unit := x ← rd v; wr v (x + n).
Definition incr (v : gvar) : M D unit := add_to v 1.

Definition rd_packet (p : pvar) : M D protocol_packet_t := gets (fun g => packet_of g p).
Definition wr_packet (p : pvar) (x : protocol_packet_t) : M D unit :=
  modify (fun g => g <| packet_of := upd p x (packet_of g) |>).
Definition rd_parser (p : svar) : M D stream_parser_t := gets (fun g => parser_of g p).
Definition wr_parser (p : svar) (x : stream_parser_t) : M D unit :=
  modify (fun g => g <| parser_of := upd p x (parser_of g) |>).
Definition rd_array (a : avar) : M D (list Z) := gets (fun g => array_of g a).
Definition wr_array (a : avar) (x : list Z) : M D unit :=
  modify (fun g => g <| array_of := upd a x (array_of g) |>).
End State.

(** ** Kernel services *)
Definition osOK : Z := 0.
Definition osErrorTimeout : Z := -2.
Definition osErrorResource : Z := -3.
Definition osErrorParameter : Z := -4.
Definition osWaitForever : Z := 0xFFFFFFFF.
Definition osFlagsError : Z := 0x80000000.
Definition osFlagsErrorTimeout : Z := 0xFFFFFFFE.
Definition osFlagsErrorResource : Z := 0xFFFFFFFD.
(** FreeRTOSConfig.h *)
Definition configTICK_RATE_HZ : Z := 1000.

Section Kernel.
Context {D : Type} `{!World D}.

Definition preempt : M D unit := fun g => Some (tt, env (epoch g) (g <| epoch := S (epoch g) |>)).

Definition osKernelGetTickCount : M D Z := preempt;; gets tick.
Definition osKernelGetTickFreq : Z := configTICK_RATE_HZ.

(** The task sleeps [ticks] ticks, on top of the time the others take. *)
Definition osDelay (ticks : Z) : M D unit :=
  preempt;;
  if ticks =? 0 then mret tt else modify (fun g => g <| tick := u32 (tick g + ticks) |>).

(** [vTaskDelayUntil] to an absolute tick that is not past. *)
Definition osDelayUntil (ticks : Z) : M D Z :=
  preempt;;
  tcnt ← gets tick;
  let delay := u32 (ticks - tcnt) in
  if negb (delay =? 0) && (Z.shiftr delay 31 =? 0)
  then modify (fun g => g <| tick := ticks |>);; mret osOK
  else mret osErrorParameter.

(** [HAL_Delay] counts HAL ticks of 1 ms, one more than asked. *)
Definition HAL_Delay (ms : Z) : M D unit := osDelay (ms + 1).

(** Bounded FIFO queues, as every call here uses them: no priority, no wait. *)
Definition osMessageQueuePut (q : qvar) (msg : protocol_packet_t) : M D Z :=
  preempt;;
  o ← gets (fun g => queue_of g q);
  match o with
  | None => mret osErrorParameter
  | Some l =>
      if Z.of_nat (length l) <? queue_depth q
      then modify (fun g => g <| queue_of := upd q (Some (l ++ [msg])) (queue_of g) |>);;
           mret osOK
      else mret osErrorResource
  end.

Definition osMessageQueueGet (q : qvar) (dst : pvar) : M D Z :=
  preempt;;
  o ← gets (fun g => queue_of g q);
  match o with
  | None => mret osErrorParameter
  | Some [] => mret osErrorResource
  | Some (msg :: l) =>
      modify (fun g => g <| queue_of := upd q (Some l) (queue_of g) |>);;
      wr_packet dst msg;;
      mret osOK
  end.

Definition queue_is_null (q : qvar) : M D bool :=
  gets (fun g => match queue_of g q with None => true | Some _ => false end).

(** Task notifications (tasks.c): [xTaskNotify] with eSetBits, and the
    [xTaskNotifyAndQuery] with eNoAction that only marks the notification
    received. *)
Definition notify_set_bits (flags : Z) (n : notification) : notification :=
  mk_notification (Z.lor (notified_value n) flags) true.
Definition notify_no_action (n : notification) : notification :=
  mk_notification (notified_value n) true.

Definition on_notif (t : task) (f : notification -> notification) : M D unit :=
  modify (fun g => g <| notif_of := upd t (f (notif_of g t)) (notif_of g) |>).

(** From a task: the woken task may run between the two notifications. *)
Definition osThreadFlagsSet (t : task) (flags : Z) : M D unit :=
  on_notif t (notify_set_bits flags);;
  preempt;;
  on_notif t notify_no_action.

(** Clears flags of the calling task [t] and returns the old ones. *)
Definition osThreadFlagsClear (t : task) (flags : Z) : M D Z :=
  preempt;;
  on_notif t notify_no_action;;
  n ← gets (fun g => notif_of g t);
  let cflags := notified_value n in
  on_notif t (fun _ => mk_notification (Z.ldiff cflags flags) true);;
  mret cflags.

(** [xTaskNotifyWait(0, clear, &nval, tout)] *)
Definition xTaskNotifyWait (t : task) (clear tout : Z) : M D (bool * Z) :=
  preempt;;
  n ← gets (fun g => notif_of g t);
  (if notify_received n || (tout =? 0) then mret tt
   else
     (* blocked: the others run, and time passes if nothing comes *)
     preempt;;
     n ← gets (fun g => notif_of g t);
     if notify_received n then mret tt
     else if tout =? osWaitForever then fail
     else modify (fun g => g <| tick := u32 (tick g + tout) |>));;
  n ← gets (fun g => notif_of g t);
  let nval := notified_value n in
  if notify_received n
  then on_notif t (fun _ => mk_notification (Z.ldiff nval clear) false);; mret (true, nval)
  else on_notif t (fun n => mk_notification (notified_value n) false);; mret (false, nval).

(** The loop of [osThreadFlagsWait] with [osFlagsWaitAny]. *)
Fixpoint flags_wait_loop (n : nat) (t : task) (flags timeout t0 tout rflags : Z) : M D Z :=
  match n with
  | O => fail
  | S n =>
      '(pass, nval) ← xTaskNotifyWait t flags tout;
      if (pass : bool) then
        let rflags := Z.lor (Z.land rflags flags) nval in
        if negb (Z.land flags rflags =? 0) then mret rflags
        else if timeout =? 0 then mret osFlagsErrorResource
        else
          now ← osKernelGetTickCount;
          let td := u32 (now - t0) in
          let tout := if td >? tout then 0 else tout - td in
          flags_wait_loop n t flags timeout t0 tout rflags
      else mret (if timeout =? 0 then osFlagsErrorResource else osFlagsErrorTimeout)
  end.

Definition osThreadFlagsWait (t : task) (flags timeout : Z) : M D Z :=
  t0 ← osKernelGetTickCount;
  flags_wait_loop (S rounds) t flags timeout t0 timeout 0.

(** ** HAL calls *)
Definition gpio_cs (level : bool) : M D unit :=
  modify (fun g => g <| hw := cs_pin level (hw g) |>).
Definition gpio_rst (level : bool) : M D unit :=
  modify (fun g => g <| hw := rst_pin level (hw g) |>).

Definition HAL_SPI_Transmit (tx : list Z) : M D Z :=
  preempt;;
  '(st, d) ← gets (fun g => spi_transmit tx (hw g));
  modify (fun g => g <| hw := d |>);; mret st.

Definition HAL_SPI_TransmitReceive (tx : list Z) : M D (Z * list Z) :=
  preempt;;
  '(st, rx, d) ← gets (fun g => spi_transmit_receive tx (hw g));
  modify (fun g => g <| hw := d |>);; mret (st, rx).

Definition HAL_UART_Transmit_IT (tx : list Z) : M D Z :=
  preempt;;
  '(st, d) ← gets (fun g => uart_transmit_it tx (hw g));
  modify (fun g => g <| hw := d |>);; mret st.

Definition HAL_UART_Receive_IT : M D Z :=
  preempt;;
  '(st, d) ← gets (fun g => uart_receive_it (hw g));
  modify (fun g => g <| hw := d |>);; mret st.
End Kernel.
