(* ===== verification/GwLogic.v ===== *)
(** * Reasoning about task programs

    [wp m Q g]: from [g], [m] terminates with a result and state satisfying
    [Q].  [runs R m]: from every state [m] terminates, and its initial and
    final states are related by [R].  The rules for the operations of
    [GwMonad] and the tactics that apply them; assumptions on the other tasks
    and the clock. *)
From S2P Require Import Prelude Crc16 Protocol StreamParser RxRing.
From S2P Require Export GwMonad.
Local Open Scope Z_scope.

(** ** Weakest preconditions *)
Definition wp {D A} (m : M D A) (Q : A -> gateway D -> Prop) (g : gateway D) : Prop :=
  match m g with Some (a, g') => Q a g' | None => False end.

Section Wp.
Context {D : Type}.
Implicit Types g : gateway D.

Lemma wp_bind {A B} (m : M D A) (f : A -> M D B) Q g :
  wp m (fun a g' => wp (f a) Q g') g -> wp (m ≫= f) Q g.
Proof. unfold wp, mbind, M_bind. destruct (m g) as [[a g']|]; done. Qed.

Lemma wp_mono {A} (m : M D A) (P Q : A -> gateway D -> Prop) g :
  wp m P g -> (forall a g', P a g' -> Q a g') -> wp m Q g.
Proof. unfold wp. destruct (m g) as [[a g']|]; auto. Qed.

Lemma wp_conj {A} (m : M D A) (P Q : A -> gateway D -> Prop) g :
  wp m P g -> wp m Q g -> wp m (fun a g' => P a g' /\ Q a g') g.
Proof. unfold wp. destruct (m g) as [[a g']|]; auto. Qed.

(** The run itself: to name the state a part of a routine ends in. *)
Lemma wp_run {A} (m : M D A) Q g : wp m Q g -> exists a g', m g = Some (a, g') /\ Q a g'.
Proof. unfold wp. destruct (m g) as [[a g']|]; [|done]. intros H. by exists a, g'. Qed.
Lemma wp_bind_run {A B} (m : M D A) (f : A -> M D B) Q g a g' :
  m g = Some (a, g') -> wp (f a) Q g' -> wp (m ≫= f) Q g.
Proof. intros E H. unfold wp, mbind, M_bind. by rewrite E. Qed.

Lemma wp_ret {A} (a : A) (Q : A -> gateway D -> Prop) g : Q a g -> wp (mret a) Q g.
Proof. done. Qed.

Lemma wp_gets {A} (f : gateway D -> A) Q g : Q (f g) g -> wp (gets f) Q g.
Proof. done. Qed.

Lemma wp_modify (f : gateway D -> gateway D) Q g : Q tt (f g) -> wp (modify f) Q g.
Proof. done. Qed.

Lemma wp_exists {A} (m : M D A) Q g :
  wp m Q g <-> exists a g', m g = Some (a, g') /\ Q a g'.
Proof.
  unfold wp. destruct (m g) as [[a g']|]; split.
  - intros H. exists a, g'. done.
  - intros (? & ? & [= <- <-] & H). done.
  - done.
  - intros (? & ? & ? & _). done.
Qed.
End Wp.

(** ** Partial correctness

    [outcome m Q g]: if [m] ends from [g], its result and state satisfy [Q].
    [sound J m P]: from a state with the invariant [J], whenever [m] ends it
    restores [J] and its result satisfies [P]; [leads I J m P]: the same from
    one invariant to another. *)
Definition outcome {D A} (m : M D A) (Q : A -> gateway D -> Prop) (g : gateway D) : Prop :=
  match m g with Some (a, g') => Q a g' | None => True end.
Definition leads {D A} (I J : gateway D -> Prop) (m : M D A) (P : A -> Prop) : Prop :=
  forall g, I g -> outcome m (fun a g' => J g' /\ P a) g.
Definition sound {D A} (J : gateway D -> Prop) (m : M D A) (P : A -> Prop) : Prop :=
  forall g, J g -> outcome m (fun a g' => J g' /\ P a) g.

Section Outcome.
Context {D : Type}.
Implicit Types g : gateway D.

Lemma outcome_bind {A B} (m : M D A) (f : A -> M D B) Q g :
  outcome m (fun a g' => outcome (f a) Q g') g -> outcome (m ≫= f) Q g.
Proof. unfold outcome, mbind, M_bind. by destruct (m g) as [[a g']|]. Qed.
Lemma outcome_mono {A} (m : M D A) (P Q : A -> gateway D -> Prop) g :
  outcome m P g -> (forall a g', P a g' -> Q a g') -> outcome m Q g.
Proof. unfold outcome. destruct (m g) as [[a g']|]; auto. Qed.
Lemma outcome_ret {A} (a : A) (Q : A -> gateway D -> Prop) g : Q a g -> outcome (mret a) Q g.
Proof. done. Qed.
Lemma outcome_gets {A} (f : gateway D -> A) Q g : Q (f g) g -> outcome (gets f) Q g.
Proof. done. Qed.
Lemma outcome_modify (f : gateway D -> gateway D) Q g : Q tt (f g) -> outcome (modify f) Q g.
Proof. done. Qed.
Lemma wp_outcome {A} (m : M D A) (P Q : A -> gateway D -> Prop) g :
  wp m P g -> outcome m Q g -> wp m (fun a g' => P a g' /\ Q a g') g.
Proof. unfold wp, outcome. destruct (m g) as [[a g']|]; auto. Qed.
End Outcome.

Section Rules.
Context {D : Type} (J : gateway D -> Prop).

Lemma leads_bind {A B} I (m : M D A) (f : A -> M D B) P Q :
  leads I J m P -> (forall a, P a -> sound J (f a) Q) -> leads I J (m ≫= f) Q.
Proof.
  intros Hm Hf g Hg. apply outcome_bind. eapply outcome_mono; [by apply Hm|].
  intros a g1 [H1 Ha]. by apply Hf.
Qed.
Lemma sound_bind {A B} (m : M D A) (f : A -> M D B) P Q :
  sound J m P -> (forall a, P a -> sound J (f a) Q) -> sound J (m ≫= f) Q.
Proof. apply leads_bind. Qed.
Lemma sound_bind_any {A B} (m : M D A) (f : A -> M D B) Q :
  sound J m (fun _ => True) -> (forall a, sound J (f a) Q) -> sound J (m ≫= f) Q.
Proof. intros Hm Hf. by eapply sound_bind; [apply Hm|]. Qed.
Lemma sound_ext {A} (m m' : M D A) P : (forall g, m g = m' g) -> sound J m' P -> sound J m P.
Proof. intros E H g Hg. unfold outcome. rewrite E. by apply H. Qed.
Lemma sound_mono {A} (m : M D A) (P Q : A -> Prop) :
  sound J m P -> (forall a, P a -> Q a) -> sound J m Q.
Proof.
  intros Hm H g Hg. eapply outcome_mono; [by apply Hm|]. intros a g1 [H1 Ha]. auto.
Qed.
Lemma sound_ret {A} (a : A) (P : A -> Prop) : P a -> sound J (mret a) P.
Proof. by intros H g Hg. Qed.
Lemma sound_fail {A} (P : A -> Prop) : sound J fail P.
Proof. by intros g Hg. Qed.
Lemma sound_gets {A} (f : gateway D -> A) (P : A -> Prop) :
  (forall g, J g -> P (f g)) -> sound J (gets f) P.
Proof. intros H g Hg. cbn. auto. Qed.
Lemma sound_modify (f : gateway D -> gateway D) :
  (forall g, J g -> J (f g)) -> sound J (modify f) (fun _ => True).
Proof. intros H g Hg. cbn. auto. Qed.
Lemma sound_when (b : bool) (m : M D unit) :
  (b = true -> sound J m (fun _ => True)) -> sound J (when b m) (fun _ => True).
Proof. intros H. destruct b; [by apply H|by apply sound_ret]. Qed.
End Rules.

(** ** Stores *)

Lemma upd_eq {K A} `{EqDecision K} (k : K) (a : A) f : upd k a f k = a.
Proof. unfold upd. rewrite decide_True; done. Qed.

Lemma upd_ne {K A} `{EqDecision K} (k k' : K) (a : A) f : k <> k' -> upd k a f k' = f k'.
Proof. intros H. unfold upd. rewrite decide_False; done. Qed.

Lemma upd_var_eq v z f : upd_var v z f v = convert (gvar_type v) z.
Proof. unfold upd_var. rewrite gvar_eqb_refl. done. Qed.

Lemma upd_var_ne v w z f : v <> w -> upd_var v z f w = f w.
Proof. intros H. unfold upd_var. destruct (gvar_eqb_spec v w); done. Qed.

Lemma convert_idem t z : convert t (convert t z) = convert t z.
Proof.
  destruct t; cbn [convert].
  - apply u8_small, u8_range.
  - apply u16_small, u16_range.
  - apply u32_small, u32_range.
  - unfold i32. destruct (u32 z <? 2147483648) eqn:E.
    + rewrite (u32_small (u32 z)) by apply u32_range. rewrite E. done.
    + pose proof (u32_range z) as Hz.
      assert (u32 (u32 z - 4294967296) = u32 z) as -> by width. rewrite E. done.
Qed.

(** A variable always holds a value of its type. *)
Definition in_range (t : ctype) (z : Z) : Prop := convert t z = z.

(** Reading a state after an assignment. *)
Section Put.
Context {D : Type} (v : gvar) (z : Z) (g : gateway D).
Lemma var_put w : var (put v z g) w = if gvar_eqb v w then convert (gvar_type v) z else var g w.
Proof. reflexivity. Qed.
Lemma var_put_eq : var (put v z g) v = convert (gvar_type v) z.
Proof. apply upd_var_eq. Qed.
Lemma var_put_ne w : gvar_eqb v w = false -> var (put v z g) w = var g w.
Proof. rewrite var_put. intros ->. done. Qed.
Lemma packet_put : packet_of (put v z g) = packet_of g.
Proof. reflexivity. Qed.
Lemma parser_put : parser_of (put v z g) = parser_of g.
Proof. reflexivity. Qed.
Lemma array_put : array_of (put v z g) = array_of g.
Proof. reflexivity. Qed.
Lemma queue_put : queue_of (put v z g) = queue_of g.
Proof. reflexivity. Qed.
Lemma notif_put : notif_of (put v z g) = notif_of g.
Proof. reflexivity. Qed.
Lemma ring_put : rx_ring (put v z g) = rx_ring g.
Proof. reflexivity. Qed.
Lemma tick_put : tick (put v z g) = tick g.
Proof. reflexivity. Qed.
Lemma hw_put : hw (put v z g) = hw g.
Proof. reflexivity. Qed.
Lemma epoch_put : epoch (put v z g) = epoch g.
Proof. reflexivity. Qed.
End Put.

Create Rewrite HintDb put.
#[export] Hint Rewrite @packet_put @parser_put @array_put @queue_put @notif_put @ring_put
  @tick_put @hw_put @epoch_put : put.

(** Closed comparisons of variables are decided by computation. *)
Ltac gv_simpl :=
  repeat match goal with
  | |- context [var (put ?v ?z ?g) ?w] =>
      first [ rewrite (var_put_ne v z g w eq_refl)
            | rewrite (var_put_eq v z g : var (put v z g) w = _);
              cbn [gvar_type rs422_var_type eth_var_type diag_var_type convert] ]
  end;
  repeat match goal with
  | |- context [upd_var ?v ?z ?f ?w] =>
      let r := eval lazy in (gvar_eqb v w) in
      lazymatch r with
      | true =>
          let t := eval lazy in (gvar_type v) in
          change (upd_var v z f w) with (convert t z); cbn [convert]
      | false => change (upd_var v z f w) with (f w)
      end
  end.
Ltac gv_simpl_in H :=
  repeat match type of H with
  | context [var (put ?v ?z ?g) ?w] =>
      first [ rewrite (var_put_ne v z g w eq_refl) in H
            | rewrite (var_put_eq v z g : var (put v z g) w = _) in H;
              cbn [gvar_type rs422_var_type eth_var_type diag_var_type convert] in H ]
  end;
  repeat match type of H with
  | context [upd_var ?v ?z ?f ?w] =>
      let r := eval lazy in (gvar_eqb v w) in
      lazymatch r with
      | true =>
          let t := eval lazy in (gvar_type v) in
          change (upd_var v z f w) with (convert t z) in H; cbn [convert] in H
      | false => change (upd_var v z f w) with (f w) in H
      end
  end.

(** Projections of an updated state. *)
Ltac st_simpl :=
  autorewrite with put;
  cbn [set_field var packet_of parser_of array_of queue_of notif_of rx_ring
       g_uart4_rx_byte tick hw epoch].
Ltac st_simpl_in H :=
  autorewrite with put in H;
  cbn [set_field var packet_of parser_of array_of queue_of notif_of rx_ring
       g_uart4_rx_byte tick hw epoch] in H.

(** One rule for each primitive that does not call the kernel. *)
Ltac wp_step :=
  lazymatch goal with
  | |- wp (mbind _ _) _ _ => apply wp_bind
  | |- wp (mret _) _ _ => apply wp_ret
  | |- wp (gets _) _ _ => apply wp_gets
  | |- wp (modify _) _ _ => apply wp_modify
  | |- wp (rd _) _ _ => unfold rd
  | |- wp (wr _ _) _ _ => unfold wr
  | |- wp (incr _) _ _ => unfold incr
  | |- wp (add_to _ _) _ _ => unfold add_to
  | |- wp (rd_packet _) _ _ => unfold rd_packet
  | |- wp (wr_packet _ _) _ _ => unfold wr_packet
  | |- wp (rd_parser _) _ _ => unfold rd_parser
  | |- wp (wr_parser _ _) _ _ => unfold wr_parser
  | |- wp (rd_array _) _ _ => unfold rd_array
  | |- wp (wr_array _ _) _ _ => unfold wr_array
  | |- wp (when true _) _ _ => unfold when
  | |- wp (when false _) _ _ => unfold when
  | |- wp (queue_is_null _) _ _ => unfold queue_is_null
  end.
Ltac wp_auto := repeat (wp_step; st_simpl; gv_simpl).

(** ** Assumptions on the rest of the system *)

Definition mem_var (v : gvar) (l : list gvar) : bool := existsb (gvar_eqb v) l.

Section Env.
Context {D : Type} `{!World D}.

(** The others do not write the variables in [l]. *)
Definition env_keeps (l : list gvar) : Prop :=
  forall n g v, mem_var v l = true -> var (env n g) v = var g v.

(** The tick counter is a 32-bit value below its maximum, which the source
    uses as a mark. *)
Definition env_ticks : Prop := forall n g, 0 <= tick (env n g) < UINT32_MAX.

Definition same_vars (l : list gvar) (g g' : gateway D) : Prop :=
  forall v, mem_var v l = true -> var g' v = var g v.

#[export] Instance same_vars_preorder l : PreOrder (same_vars l).
Proof.
  split; [intros g v _; done|].
  intros g1 g2 g3 H1 H2 v Hv. rewrite H2, H1; done.
Qed.

Lemma same_vars_put v z l g g' :
  mem_var v l = false -> same_vars l g g' -> same_vars l g (put v z g').
Proof.
  intros Hv H w Hw. rewrite var_put_ne; [by apply H|].
  apply not_true_is_false. intros Heq. destruct (gvar_eqb_spec v w) as [->|]; congruence.
Qed.

Lemma env_keeps_same l n g :
  env_keeps l -> same_vars l g (env n (g <| epoch := S n |>)).
Proof. intros H v Hv. rewrite H by done. done. Qed.

Lemma wp_preempt Q g :
  Q tt (env (epoch g) (g <| epoch := S (epoch g) |>)) -> wp preempt Q g.
Proof. done. Qed.

Lemma wp_tick Q g :
  (let g' := env (epoch g) (g <| epoch := S (epoch g) |>) in Q (tick g') g') ->
  wp osKernelGetTickCount Q g.
Proof. done. Qed.

(** Reading the clock when the others keep [l]. *)
Lemma wp_tick_keeps l Q g :
  env_keeps l -> env_ticks ->
  (forall g', same_vars l g g' -> 0 <= tick g' < UINT32_MAX -> Q (tick g') g') ->
  wp osKernelGetTickCount Q g.
Proof. intros Hk Ht H. apply wp_tick. apply H; [by apply env_keeps_same|apply Ht]. Qed.
End Env.

Ltac same_puts := repeat (apply same_vars_put; [reflexivity|]).

(** ** The clock and the counters *)
Section Clock.
Context {D : Type}.
Implicit Types g : gateway D.

(** At most [d] ticks passed, modulo 2^32. *)
Definition advanced (d : Z) g g' : Prop :=
  exists e, 0 <= e <= d /\ tick g' = u32 (tick g + e).

Lemma advanced_trans d1 d2 g1 g2 g3 :
  advanced d1 g1 g2 -> advanced d2 g2 g3 -> advanced (d1 + d2) g1 g3.
Proof.
  intros (e1 & H1 & E1) (e2 & H2 & E2). exists (e1 + e2). split; [lia|].
  rewrite E2, E1. width.
Qed.

Lemma advanced_weaken d d' g g' : d <= d' -> advanced d g g' -> advanced d' g g'.
Proof. intros H (e & He & E). exists e. split; [lia|done]. Qed.

(** ** Counters *)

(** The variable [v] went up by [n], modulo 2^32. *)
Definition went_up (v : gvar) (n : Z) g g' : Prop := u32 (var g' v) = u32 (var g v + n).

Lemma went_up_trans v n1 n2 g1 g2 g3 :
  went_up v n1 g1 g2 -> went_up v n2 g2 g3 -> went_up v (n1 + n2) g1 g3.
Proof. unfold went_up. intros H1 H2. rewrite H2. width. Qed.
End Clock.

(** The others take at most [J] ticks at a kernel call. *)
Class Punctual D `{!World D} (J : Z) := punctual n (g : gateway D) : advanced J g (env n g).

(** ** Guarantees

    [runs R m]: from every state, [m] terminates in a state related by [R] to
    the initial one. *)
Definition runs {D A} (R : gateway D -> gateway D -> Prop) (m : M D A) : Prop :=
  forall g, wp m (fun _ g' => R g g') g.

(** What most of the code does to the state: kernel calls, notifications,
    queues, and the variables in [ok]. *)
Class Closed {D} `{!World D} (R : gateway D -> gateway D -> Prop) (ok : gvar -> bool) := {
  closed_preorder : PreOrder R;
  closed_env g : R g (env (epoch g) (g <| epoch := S (epoch g) |>));
  closed_put v z g : ok v = true -> R g (put v z g);
  closed_queue f g : R g (g <| queue_of := f |>);
  closed_notif t f g : t = EthernetTask -> R g (g <| notif_of := upd t f (notif_of g) |>)
}.

Section Runs.
Context {D : Type} `{!World D} (R : gateway D -> gateway D -> Prop) `{!PreOrder R}.

Lemma runs_bind {A B} (m : M D A) (f : A -> M D B) :
  runs R m -> (forall a, runs R (f a)) -> runs R (m ≫= f).
Proof.
  intros Hm Hf g. apply wp_bind. eapply wp_mono; [apply Hm|]. intros a g1 H1.
  eapply wp_mono; [apply Hf|]. intros b g2 H2. exact (transitivity H1 H2).
Qed.
Lemma runs_ret {A} (a : A) : runs R (mret (M := M D) a).
Proof. intros g. apply wp_ret. reflexivity. Qed.
Lemma runs_gets {A} (f : gateway D -> A) : runs R (gets f).
Proof. intros g. apply wp_gets. reflexivity. Qed.
Lemma runs_modify (f : gateway D -> gateway D) : (forall g, R g (f g)) -> runs R (modify f).
Proof. intros H g. apply wp_modify. apply H. Qed.
Lemma runs_when b (m : M D unit) : runs R m -> runs R (when b m).
Proof. intros H. unfold when. destruct b; [done|apply runs_ret]. Qed.
Lemma runs_if {A} (b : bool) (m1 m2 : M D A) : runs R m1 -> runs R m2 -> runs R (if b then m1 else m2).
Proof. by destruct b. Qed.
End Runs.

Section RunsClosed.
Context {D : Type} `{!World D} (R : gateway D -> gateway D -> Prop) (ok : gvar -> bool)
  `{HC : !Closed R ok}.

#[local] Instance closed_pre : PreOrder R.
Proof. exact (@closed_preorder _ _ _ _ HC). Qed.

Lemma runs_rd v : runs R (rd v).
Proof. apply runs_gets; apply _. Qed.
Lemma runs_wr v z : ok v = true -> runs R (wr v z).
Proof. intros H. apply runs_modify. intros g. by apply closed_put. Qed.
Lemma runs_add_to v z : ok v = true -> runs R (add_to v z).
Proof. intros H. apply runs_bind; [apply _|apply runs_rd|]. intros x. by apply runs_wr. Qed.
Lemma runs_incr v : ok v = true -> runs R (incr v).
Proof. apply runs_add_to. Qed.
Lemma runs_preempt : runs R preempt.
Proof. intros g. apply wp_preempt. apply closed_env. Qed.
Lemma runs_tick_count : runs R osKernelGetTickCount.
Proof. apply runs_bind; [apply _|apply runs_preempt|]. intros _. apply runs_gets; apply _. Qed.
Lemma runs_put_message q p : runs R (osMessageQueuePut q p).
Proof.
  apply runs_bind; [apply _|apply runs_preempt|]. intros _.
  apply runs_bind; [apply _|apply runs_gets; apply _|]. intros [l|]; [|apply runs_ret; apply _].
  apply runs_if; [|apply runs_ret; apply _].
  apply runs_bind; [apply _| |intros _; apply runs_ret; apply _].
  apply runs_modify. intros g. apply closed_queue.
Qed.
Lemma runs_flags_set flags : runs R (osThreadFlagsSet EthernetTask flags).
Proof.
  assert (forall f, runs R (on_notif EthernetTask f)) as Hn
    by (intros f; apply runs_modify; intros g; by apply closed_notif).
  apply runs_bind; [apply _|apply Hn|]. intros _.
  apply runs_bind; [apply _|apply runs_preempt|]. intros _. apply Hn.
Qed.
End RunsClosed.

(** Follows the syntax of a program; [leaf] solves what it does not know. *)
Ltac runs_step :=
  match goal with
  | |- runs _ (mbind _ _) => apply runs_bind; [typeclasses eauto| |intros ?]
  | |- runs _ (mret _) => apply runs_ret; typeclasses eauto
  | |- runs _ (when _ _) => apply runs_when; [typeclasses eauto|]
  | |- runs _ (if _ then _ else _) => apply runs_if
  | |- runs _ (match ?x with _ => _ end) => destruct x
  | |- runs _ (let _ := _ in _) => cbv zeta
  | |- runs _ (rd _) => apply runs_gets; typeclasses eauto
  | |- runs _ (gets _) => apply runs_gets; typeclasses eauto
  | |- runs _ (rd_packet _) => apply runs_gets; typeclasses eauto
  | |- runs _ (rd_array _) => apply runs_gets; typeclasses eauto
  | |- runs _ (rd_parser _) => apply runs_gets; typeclasses eauto
  | |- runs _ (queue_is_null _) => apply runs_gets; typeclasses eauto
  | |- runs _ (wr _ _) => eapply runs_wr; [typeclasses eauto|reflexivity]
  | |- runs _ (add_to _ _) => eapply runs_add_to; [typeclasses eauto|reflexivity]
  | |- runs _ (incr _) => eapply runs_incr; [typeclasses eauto|reflexivity]
  | |- runs _ preempt => eapply runs_preempt; typeclasses eauto
  | |- runs _ osKernelGetTickCount => eapply runs_tick_count; typeclasses eauto
  | |- runs _ (osMessageQueuePut _ _) => eapply runs_put_message; typeclasses eauto
  | |- runs _ (osThreadFlagsSet EthernetTask _) => eapply runs_flags_set; typeclasses eauto
  end.
Ltac runs_auto := repeat runs_step.

(** ** A concrete world for the witnesses

    The hardware answers every transfer with HAL_OK and zeros and records
    what is written; everything else only lets the clock advance. *)
Record demo_hw := mk_demo_hw {
  demo_cs : bool;
  demo_spi : list (list Z);
  demo_uart : list (list Z)
}.

#[export] Instance demo_hardware : Hardware demo_hw := {
  cs_pin b d := mk_demo_hw b (demo_spi d) (demo_uart d);
  rst_pin _ d := d;
  spi_transmit tx d := (HAL_OK, mk_demo_hw (demo_cs d) (demo_spi d ++ [tx]) (demo_uart d));
  spi_transmit_receive tx d :=
    (HAL_OK, map (fun _ => 0) tx, mk_demo_hw (demo_cs d) (demo_spi d ++ [tx]) (demo_uart d));
  uart_transmit_it tx d := (HAL_OK, mk_demo_hw (demo_cs d) (demo_spi d) (demo_uart d ++ [tx]));
  uart_receive_it d := (HAL_OK, d);
  dwt_start d := d;
  dwt_running _ := true;
  dwt_cyccnt _ := 0;
  system_core_clock _ := 170000000;
  free_heap_size _ := 4096;
  minimum_ever_free_heap_size _ := 2048
}.

#[export] Instance demo_world : World demo_hw := {
  env _ g :=
    let t := u32 (tick g + 1) in
    g <| tick := if t =? UINT32_MAX then 0 else t |>;
  rounds := 600
}.

Definition demo_gateway : gateway demo_hw := {|
  var := gvar_initial;
  packet_of _ := zero_packet;
  parser_of _ := parser_init;
  array_of _ := replicate 266 0;
  queue_of _ := Some [];
  notif_of _ := mk_notification 0 false;
  rx_ring := empty_rs422_ring 0;
  g_uart4_rx_byte := 0;
  tick := 0;
  hw := mk_demo_hw true [] [];
  epoch := 0
|}.

Lemma demo_env_keeps l : env_keeps (D := demo_hw) l.
Proof. intros n g v _. reflexivity. Qed.

Lemma demo_env_ticks : env_ticks (D := demo_hw).
Proof.
  intros n g. unfold env, demo_world. cbv zeta. st_simpl.
  destruct (u32 (tick g + 1) =? UINT32_MAX) eqn:E; width.
Qed.

#[export] Instance demo_punctual : Punctual demo_hw 2.
Proof.
  intros n g. unfold env, demo_world. cbv zeta. unfold advanced. st_simpl.
  destruct (u32 (tick g + 1) =? UINT32_MAX) eqn:E.
  - exists 2. split; [lia|width].
  - exists 1. split; [lia|done].
Qed.
