(* ===== verification/GwDiag.v ===== *)
(** * Time conversion and diagnostics (g474_gateway/Core/Src/main.c)

    Milliseconds and kernel ticks, the link-recovery time stamps of the
    Ethernet task and those of a TCP session. *)
From S2P Require Import Prelude Crc16 Protocol StreamParser RxRing.
From S2P Require Export GwLogic.
Local Open Scope Z_scope.

(** ** Conversions

    [tick_frequency] is what [osKernelGetTickFreq] returns. *)
Definition u64 (z : Z) : Z := z mod 18446744073709551616.

Definition ms_to_ticks (tick_frequency time_ms : Z) : Z :=
  let ticks := u32 (u64 (u64 (time_ms * tick_frequency) + 999) / 1000) in
  if ticks =? 0 then 1 else ticks.

Definition ticks_to_ms (tick_frequency ticks : Z) : Z :=
  if tick_frequency =? 0 then DIAG_TIMESTAMP_NOT_CAPTURED_MS
  else u32 (u64 (ticks * 1000) / tick_frequency).

Definition rs422_ms_to_kernel_ticks (time_ms : Z) : Z := ms_to_ticks osKernelGetTickFreq time_ms.
Definition rs422_kernel_ticks_to_ms (ticks : Z) : Z := ticks_to_ms osKernelGetTickFreq ticks.

Section Diag.
Context {D : Type} `{!World D}.
Abbreviation M := (M D).

Definition w5500_kernel_uptime_ms : M Z :=
  let tick_frequency := osKernelGetTickFreq in
  if tick_frequency =? 0 then mret 0
  else
    t ← osKernelGetTickCount;
    mret (u32 (u64 (t * 1000) / tick_frequency)).

Definition diagnostic_now_ms : M Z := osKernelGetTickCount.

Definition rs422_diag_record_timeout_transition
    (timeout_tick has_valid_frame last_valid_frame_tick : Z) : M unit :=
  wr g_rs422_diag_timeout_transition_tick timeout_tick;;
  wr g_rs422_diag_timeout_transition_ms (rs422_kernel_ticks_to_ms timeout_tick);;
  wr g_rs422_diag_fault_detection_ms DIAG_TIMESTAMP_NOT_CAPTURED_MS;;
  when (negb (has_valid_frame =? 0)) (
    let fault_detection_ticks := u32 (timeout_tick - last_valid_frame_tick) in
    wr g_rs422_diag_fault_detection_ms (rs422_kernel_ticks_to_ms fault_detection_ticks));;
  wr g_rs422_diag_recovery_first_valid_tick UINT32_MAX;;
  wr g_rs422_diag_recovery_comm_ok_tick UINT32_MAX;;
  wr g_rs422_diag_recovery_first_valid_ms DIAG_TIMESTAMP_NOT_CAPTURED_MS;;
  wr g_rs422_diag_recovery_comm_ok_ms DIAG_TIMESTAMP_NOT_CAPTURED_MS;;
  wr g_rs422_diag_recovery_ms DIAG_TIMESTAMP_NOT_CAPTURED_MS.

Definition ethernet_diag_initialize : M unit :=
  wr g_eth_diag_recovery_cycle_active 0;;
  wr g_eth_diag_link_down_tick UINT32_MAX;;
  wr g_eth_diag_link_up_tick UINT32_MAX;;
  wr g_eth_diag_tcp_service_ready_tick UINT32_MAX;;
  wr g_eth_diag_first_tcp_pong_tx_success_tick UINT32_MAX;;
  wr g_eth_diag_first_udp_tx_success_tick UINT32_MAX;;
  wr g_eth_diag_link_down_observed_ms DIAG_TIMESTAMP_NOT_CAPTURED_MS;;
  wr g_eth_diag_link_up_observed_ms DIAG_TIMESTAMP_NOT_CAPTURED_MS;;
  wr g_eth_diag_tcp_service_ready_ms DIAG_TIMESTAMP_NOT_CAPTURED_MS;;
  wr g_eth_diag_first_tcp_pong_tx_success_ms DIAG_TIMESTAMP_NOT_CAPTURED_MS;;
  wr g_eth_diag_first_udp_tx_success_ms DIAG_TIMESTAMP_NOT_CAPTURED_MS;;
  wr g_eth_diag_linkup_to_tcp_service_ready_ms DIAG_TIMESTAMP_NOT_CAPTURED_MS;;
  wr g_eth_diag_linkup_to_tcp_pong_tx_ms DIAG_TIMESTAMP_NOT_CAPTURED_MS;;
  wr g_eth_diag_linkup_to_udp_tx_ms DIAG_TIMESTAMP_NOT_CAPTURED_MS.

Definition ethernet_diag_arm_recovery (link_down_tick : Z) : M unit :=
  wr g_eth_diag_recovery_cycle_active 0;;
  wr g_eth_diag_link_down_tick link_down_tick;;
  wr g_eth_diag_link_up_tick UINT32_MAX;;
  wr g_eth_diag_tcp_service_ready_tick UINT32_MAX;;
  wr g_eth_diag_first_tcp_pong_tx_success_tick UINT32_MAX;;
  wr g_eth_diag_first_udp_tx_success_tick UINT32_MAX;;
  wr g_eth_diag_link_down_observed_ms (rs422_kernel_ticks_to_ms link_down_tick);;
  wr g_eth_diag_link_up_observed_ms DIAG_TIMESTAMP_NOT_CAPTURED_MS;;
  wr g_eth_diag_tcp_service_ready_ms DIAG_TIMESTAMP_NOT_CAPTURED_MS;;
  wr g_eth_diag_first_tcp_pong_tx_success_ms DIAG_TIMESTAMP_NOT_CAPTURED_MS;;
  wr g_eth_diag_first_udp_tx_success_ms DIAG_TIMESTAMP_NOT_CAPTURED_MS;;
  wr g_eth_diag_linkup_to_tcp_service_ready_ms DIAG_TIMESTAMP_NOT_CAPTURED_MS;;
  wr g_eth_diag_linkup_to_tcp_pong_tx_ms DIAG_TIMESTAMP_NOT_CAPTURED_MS;;
  wr g_eth_diag_linkup_to_udp_tx_ms DIAG_TIMESTAMP_NOT_CAPTURED_MS;;
  wr g_eth_diag_recovery_cycle_active 1.

Definition ethernet_diag_record_link_up (link_up_tick : Z) : M unit :=
  active ← rd g_eth_diag_recovery_cycle_active;
  up ← rd g_eth_diag_link_up_tick;
  if (active =? 0) || negb (up =? UINT32_MAX) then mret tt
  else
    wr g_eth_diag_link_up_observed_ms (rs422_kernel_ticks_to_ms link_up_tick);;
    wr g_eth_diag_link_up_tick link_up_tick.

Definition ethernet_diag_finish_if_complete : M unit :=
  ready ← rd g_eth_diag_tcp_service_ready_tick;
  pong ← rd g_eth_diag_first_tcp_pong_tx_success_tick;
  udp ← rd g_eth_diag_first_udp_tx_success_tick;
  when (negb (ready =? UINT32_MAX) && negb (pong =? UINT32_MAX) && negb (udp =? UINT32_MAX))
    (wr g_eth_diag_recovery_cycle_active 0).

(** The three recorders differ only in the variables they write. *)
Definition ethernet_diag_record (tick_var ms_var elapsed_var : eth_var) : M unit :=
  link_up_tick ← rd g_eth_diag_link_up_tick;
  active ← rd g_eth_diag_recovery_cycle_active;
  recorded ← rd tick_var;
  if (active =? 0) || (link_up_tick =? UINT32_MAX) || negb (recorded =? UINT32_MAX)
  then mret tt
  else
    now ← osKernelGetTickCount;
    let elapsed_ticks := u32 (now - link_up_tick) in
    wr ms_var (rs422_kernel_ticks_to_ms now);;
    wr elapsed_var (rs422_kernel_ticks_to_ms elapsed_ticks);;
    wr tick_var now;;
    ethernet_diag_finish_if_complete.

Definition ethernet_diag_record_tcp_service_ready : M unit :=
  ethernet_diag_record g_eth_diag_tcp_service_ready_tick g_eth_diag_tcp_service_ready_ms
    g_eth_diag_linkup_to_tcp_service_ready_ms.

Definition ethernet_diag_record_tcp_pong_tx_success : M unit :=
  ethernet_diag_record g_eth_diag_first_tcp_pong_tx_success_tick
    g_eth_diag_first_tcp_pong_tx_success_ms g_eth_diag_linkup_to_tcp_pong_tx_ms.

Definition ethernet_diag_record_udp_tx_success : M unit :=
  ethernet_diag_record g_eth_diag_first_udp_tx_success_tick
    g_eth_diag_first_udp_tx_success_ms g_eth_diag_linkup_to_udp_tx_ms.

Definition diagnostic_begin_tcp_session (established_ms : Z) : M unit :=
  wr g_diag_first_ping_seq_valid 0;;
  wr g_diag_tcp_established_ms established_ms;;
  wr g_diag_first_rx_ready_ms DIAG_TIMESTAMP_NOT_CAPTURED_MS;;
  wr g_diag_first_ping_parsed_ms DIAG_TIMESTAMP_NOT_CAPTURED_MS;;
  wr g_diag_rs422_ping_tx_ms DIAG_TIMESTAMP_NOT_CAPTURED_MS;;
  wr g_diag_matching_pong_rx_ms DIAG_TIMESTAMP_NOT_CAPTURED_MS;;
  wr g_diag_tcp_pong_send_ms DIAG_TIMESTAMP_NOT_CAPTURED_MS;;
  wr g_diag_established_to_rx_ready_ms DIAG_TIMESTAMP_NOT_CAPTURED_MS;;
  wr g_diag_rx_ready_to_ping_parsed_ms DIAG_TIMESTAMP_NOT_CAPTURED_MS;;
  wr g_diag_ping_parsed_to_rs422_tx_ms DIAG_TIMESTAMP_NOT_CAPTURED_MS;;
  wr g_diag_rs422_tx_to_matching_pong_rx_ms DIAG_TIMESTAMP_NOT_CAPTURED_MS;;
  wr g_diag_matching_pong_rx_to_tcp_send_ms DIAG_TIMESTAMP_NOT_CAPTURED_MS;;
  wr g_diag_established_to_tcp_pong_send_ms DIAG_TIMESTAMP_NOT_CAPTURED_MS;;
  wr g_diag_first_ping_seq 0.

(** The recurring pattern [if (from != NOT_CAPTURED) to = now - from]. *)
Definition diag_interval (from to : diag_var) (now_ms : Z) : M unit :=
  t0 ← rd from;
  when (negb (t0 =? DIAG_TIMESTAMP_NOT_CAPTURED_MS)) (wr to (now_ms - t0)).
End Diag.

(** ** Conversion lemmas *)

Lemma u64_small z : 0 <= z < 18446744073709551616 -> u64 z = z.
Proof. intros H. unfold u64. apply Z.mod_small. done. Qed.

Lemma ms_to_ticks_value f ms :
  is_u32 f -> is_u32 ms -> ms * f <= 4294967295000 ->
  ms_to_ticks f ms = Z.max 1 ((ms * f + 999) / 1000).
Proof.
  intros Hf Hms Hb. unfold ms_to_ticks.
  assert (0 <= ms * f) as Hp by (unfold is_u32 in *; nia).
  rewrite (u64_small (ms * f)), u64_small by lia. rewrite u32_small by (unfold is_u32; lia).
  cbv zeta. destruct (_ =? 0) eqn:E; lia.
Qed.

(** At the configured 1000 Hz a tick is a millisecond. *)
Lemma kernel_ticks_id ms : 1 <= ms < 4294967296 -> rs422_ms_to_kernel_ticks ms = ms.
Proof.
  intros H. unfold rs422_ms_to_kernel_ticks, osKernelGetTickFreq, configTICK_RATE_HZ.
  rewrite ms_to_ticks_value by (unfold is_u32; lia). lia.
Qed.

Lemma kernel_ms_id t : is_u32 t -> rs422_kernel_ticks_to_ms t = t.
Proof.
  intros H. unfold rs422_kernel_ticks_to_ms, ticks_to_ms, osKernelGetTickFreq, configTICK_RATE_HZ.
  change (1000 =? 0) with false. cbv iota. rewrite u64_small by width.
  rewrite Z.div_mul by lia. apply u32_small. done.
Qed.

(** Time conversion: at every tick frequency for which the result fits 32
    bits, the 64-bit intermediate never overflows, the ticks waited are at
    least one and never shorter than the milliseconds asked, too long by less
    than one tick, and converting back never loses a millisecond; at the
    configured 1000 Hz both conversions are the identity. *)
Theorem tick_conversion_bounds f ms :
  0 < f -> is_u32 f -> is_u32 ms -> ms * f <= 4294967295000 ->
  let t := ms_to_ticks f ms in
  1 <= t < 4294967296 /\ ms * f <= t * 1000 /\ (1 < t -> (t - 1) * 1000 < ms * f) /\
  (ms * 1000 < 4294967296 -> t * 1000 < f * 4294967296 -> ms <= ticks_to_ms f t) /\
  (f = configTICK_RATE_HZ -> rs422_ms_to_kernel_ticks ms = Z.max 1 ms /\
                             rs422_kernel_ticks_to_ms ms = ms).
Proof.
  intros Hf0 Hf Hms Hb t. unfold t. rewrite ms_to_ticks_value by done.
  assert (0 <= ms * f) as Hp by (unfold is_u32 in *; nia).
  split_and!; [lia|lia|lia|lia| |].
  - intros Hm Ht. unfold ticks_to_ms. destruct (f =? 0) eqn:E; [lia|].
    rewrite u64_small by (unfold is_u32 in *; nia).
    assert (Z.max 1 ((ms * f + 999) / 1000) * 1000 / f < 4294967296)
      by (apply Z.div_lt_upper_bound; lia).
    assert (0 <= Z.max 1 ((ms * f + 999) / 1000) * 1000 / f) by (apply Z.div_pos; lia).
    rewrite u32_small by (unfold is_u32; lia).
    apply Z.div_le_lower_bound; lia.
  - intros ->. rewrite kernel_ms_id by done. unfold rs422_ms_to_kernel_ticks.
    change osKernelGetTickFreq with configTICK_RATE_HZ.
    rewrite ms_to_ticks_value by done. unfold configTICK_RATE_HZ in *. split; [lia|done].
Qed.

Lemma tick_conversion_bounds_witness :
  1 <= ms_to_ticks 300 10 < 4294967296 /\ ms_to_ticks 300 10 = 3 /\
  rs422_ms_to_kernel_ticks 1500 = 1500.
Proof.
  destruct (tick_conversion_bounds 300 10) as (H & _ & _ & _); [lia|width|width|lia|].
  split; [exact H|]. split; [reflexivity|].
  apply (tick_conversion_bounds 1000 1500); [lia|width|width|lia|reflexivity].
Defined.

(** ** The link-recovery cycle *)

Inductive diag_event := TcpServiceReady | TcpPongSent | UdpSent.
#[export] Instance diag_event_eq_dec : EqDecision diag_event.
Proof. solve_decision. Defined.

Definition event_tick_var (e : diag_event) : eth_var :=
  match e with
  | TcpServiceReady => g_eth_diag_tcp_service_ready_tick
  | TcpPongSent => g_eth_diag_first_tcp_pong_tx_success_tick
  | UdpSent => g_eth_diag_first_udp_tx_success_tick
  end.
Definition event_ms_var (e : diag_event) : eth_var :=
  match e with
  | TcpServiceReady => g_eth_diag_tcp_service_ready_ms
  | TcpPongSent => g_eth_diag_first_tcp_pong_tx_success_ms
  | UdpSent => g_eth_diag_first_udp_tx_success_ms
  end.
Definition event_elapsed_var (e : diag_event) : eth_var :=
  match e with
  | TcpServiceReady => g_eth_diag_linkup_to_tcp_service_ready_ms
  | TcpPongSent => g_eth_diag_linkup_to_tcp_pong_tx_ms
  | UdpSent => g_eth_diag_linkup_to_udp_tx_ms
  end.

Definition eth_diag_vars : list gvar :=
  map EthVar [g_eth_diag_recovery_cycle_active; g_eth_diag_link_up_tick;
    g_eth_diag_tcp_service_ready_tick; g_eth_diag_first_tcp_pong_tx_success_tick;
    g_eth_diag_first_udp_tx_success_tick; g_eth_diag_linkup_to_tcp_service_ready_ms;
    g_eth_diag_linkup_to_tcp_pong_tx_ms; g_eth_diag_linkup_to_udp_tx_ms].

Section Cycle.
Context {D : Type} `{!World D}.
Implicit Types g : gateway D.

Definition record_event (e : diag_event) : M D unit :=
  match e with
  | TcpServiceReady => ethernet_diag_record_tcp_service_ready
  | TcpPongSent => ethernet_diag_record_tcp_pong_tx_success
  | UdpSent => ethernet_diag_record_udp_tx_success
  end.

Fixpoint record_events (es : list diag_event) : M D unit :=
  match es with [] => mret tt | e :: es' => record_event e;; record_events es' end.

Definition complete (seen : list diag_event) : bool :=
  bool_decide (TcpServiceReady ∈ seen) && bool_decide (TcpPongSent ∈ seen) &&
  bool_decide (UdpSent ∈ seen).

(** The cycle started at link-up tick [up], with the events in [seen]
    recorded. *)
Record cycle (up : Z) (seen : list diag_event) (g : gateway D) : Prop := {
  cycle_active : var g g_eth_diag_recovery_cycle_active =
    if complete seen then 0 else 1;
  cycle_up : var g g_eth_diag_link_up_tick = up;
  cycle_event e :
    if decide (e ∈ seen)
    then 0 <= var g (event_tick_var e) < UINT32_MAX /\
         var g (event_elapsed_var e) = u32 (var g (event_tick_var e) - up)
    else var g (event_tick_var e) = UINT32_MAX
}.

Lemma cycle_same up seen g g' :
  same_vars eth_diag_vars g g' -> cycle up seen g -> cycle up seen g'.
Proof.
  intros H [H1 H2 H3]. split.
  - rewrite H by done. done.
  - rewrite H by done. done.
  - intros e. specialize (H3 e). destruct e; case_decide; cbn in *; rewrite !H by done; done.
Qed.

Lemma cycle_again up seen e g : e ∈ seen -> cycle up seen g -> cycle up (e :: seen) g.
Proof.
  intros He [H1 H2 H3].
  assert (forall x, x ∈ e :: seen <-> x ∈ seen) as Hx.
  { intros x. rewrite elem_of_cons. split; [intros [->|]; done|by right]. }
  split; [|done|].
  - rewrite H1. unfold complete. f_equal.
    by rewrite !(bool_decide_ext _ _ (Hx _)).
  - intros x. specialize (H3 x). case_decide as Hd; case_decide as Hd'; try done.
    + destruct Hd'. by apply Hx.
    + destruct Hd. by apply Hx.
Qed.

Lemma complete_elem seen e : complete seen = true -> e ∈ seen.
Proof.
  unfold complete. intros [[H1 H2]%andb_prop H3]%andb_prop.
  destruct e; by eapply bool_decide_eq_true_1.
Qed.

(** The three assignments, then the completion test. *)
Definition record_at (e : diag_event) (up now : Z) (g : gateway D) : gateway D :=
  let v1 := upd_var (event_ms_var e) (rs422_kernel_ticks_to_ms now) (var g) in
  let v2 := upd_var (event_elapsed_var e) (rs422_kernel_ticks_to_ms (u32 (now - up))) v1 in
  g <| var := upd_var (event_tick_var e) now v2 |>.

Lemma record_at_vars e up now g x :
  0 <= now < UINT32_MAX ->
  var (record_at e up now g) (event_tick_var x) =
    (if decide (x = e) then now else var g (event_tick_var x)) /\
  var (record_at e up now g) (event_elapsed_var x) =
    (if decide (x = e) then u32 (now - up) else var g (event_elapsed_var x)) /\
  var (record_at e up now g) g_eth_diag_recovery_cycle_active =
    var g g_eth_diag_recovery_cycle_active /\
  var (record_at e up now g) g_eth_diag_link_up_tick = var g g_eth_diag_link_up_tick.
Proof.
  intros Hn. unfold record_at. st_simpl.
  assert (u32 now = now) by (apply u32_small; width).
  assert (u32 (rs422_kernel_ticks_to_ms (u32 (now - up))) = u32 (now - up)).
  { rewrite kernel_ms_id by apply u32_range. apply u32_small, u32_range. }
  destruct e, x; cbn [event_tick_var event_elapsed_var event_ms_var]; gv_simpl;
    repeat case_decide; done.
Qed.

Lemma finish_cycle up seen e g :
  var g g_eth_diag_recovery_cycle_active = 1 -> var g g_eth_diag_link_up_tick = up ->
  (forall x, if decide (x ∈ e :: seen)
     then 0 <= var g (event_tick_var x) < UINT32_MAX /\
          var g (event_elapsed_var x) = u32 (var g (event_tick_var x) - up)
     else var g (event_tick_var x) = UINT32_MAX) ->
  wp ethernet_diag_finish_if_complete (fun _ g' => cycle up (e :: seen) g') g.
Proof.
  intros Ha Hu He. unfold ethernet_diag_finish_if_complete. wp_auto.
  assert (forall x, negb (var g (event_tick_var x) =? UINT32_MAX) =
    bool_decide (x ∈ e :: seen)) as Hx.
  { intros x. specialize (He x). case_bool_decide; [rewrite decide_True in He by done; lia|].
    rewrite decide_False in He by done. rewrite He, Z.eqb_refl. done. }
  pose proof (Hx TcpServiceReady) as E1. pose proof (Hx TcpPongSent) as E2.
  pose proof (Hx UdpSent) as E3. cbn [event_tick_var] in E1, E2, E3.
  rewrite E1, E2, E3. fold (complete (e :: seen)).
  destruct (complete (e :: seen)) eqn:Ec; wp_auto.
  - split; [rewrite Ec; st_simpl; gv_simpl; done|st_simpl; gv_simpl; done|].
    intros x. specialize (He x). destruct x; st_simpl; cbn [event_tick_var event_elapsed_var] in *;
      gv_simpl; done.
  - split; [rewrite Ec; done|done|done].
Qed.

(** Recording an event the first time. *)
Lemma record_first e up seen g :
  cycle up seen g -> e ∉ seen -> up <> UINT32_MAX ->
  env_keeps eth_diag_vars -> env_ticks ->
  wp (record_event e) (fun _ g' => cycle up (e :: seen) g') g.
Proof.
  intros Hc He Hup Hk Ht. pose proof Hc as [H1 H2 H3].
  assert (complete seen = false) as Hn.
  { apply not_true_is_false. intros H. apply He. by apply complete_elem. }
  rewrite Hn in H1. pose proof (H3 e) as Hte. rewrite decide_False in Hte by done.
  unfold record_event, ethernet_diag_record_tcp_service_ready,
    ethernet_diag_record_tcp_pong_tx_success, ethernet_diag_record_udp_tx_success.
  enough (wp (ethernet_diag_record (event_tick_var e) (event_ms_var e)
      (event_elapsed_var e)) (fun _ g' => cycle up (e :: seen) g') g) by by destruct e.
  unfold ethernet_diag_record. wp_auto. rewrite H1, H2, Hte.
  change (1 =? 0) with false. rewrite Z.eqb_refl.
  destruct (up =? UINT32_MAX) eqn:E; [lia|]. cbn [orb negb]. wp_auto.
  apply (wp_tick_keeps eth_diag_vars); [done|done|]. intros g1 Hs Hb.
  assert (var g1 g_eth_diag_link_up_tick = up) as Hup1 by (rewrite Hs; done).
  destruct (cycle_same _ _ _ _ Hs Hc) as [K1 K2 K3]. rewrite Hn in K1.
  wp_auto.
  match goal with |- wp _ _ ?g2 => change g2 with (record_at e up (tick g1) g1) end.
  pose proof (fun x => record_at_vars e up (tick g1) g1 x Hb) as V.
  apply finish_cycle; [rewrite (proj1 (proj2 (proj2 (V e)))); done
    |rewrite (proj2 (proj2 (proj2 (V e)))); done|].
  intros x. destruct (V x) as (-> & -> & _). specialize (K3 x).
  destruct (decide (x = e)) as [->|Hne].
  - rewrite decide_True by (by left). done.
  - destruct (decide (x ∈ e :: seen)) as [Hin|Hin].
    + rewrite decide_True in K3; [done|]. apply elem_of_cons in Hin as [|]; done.
    + rewrite decide_False in K3; [done|]. intros H. apply Hin. by right.
Qed.

(** A repeated event does nothing at all. *)
Lemma record_again e up seen g :
  cycle up seen g -> e ∈ seen -> record_event e g = Some (tt, g).
Proof.
  intros [H1 H2 H3] He. specialize (H3 e). rewrite decide_True in H3 by done.
  assert (negb (var g (event_tick_var e) =? UINT32_MAX) = true) as Hne by lia.
  destruct e; cbn [record_event event_tick_var] in *;
    unfold ethernet_diag_record_tcp_service_ready, ethernet_diag_record_tcp_pong_tx_success,
      ethernet_diag_record_udp_tx_success, ethernet_diag_record, mbind, M_bind, rd, gets;
    rewrite Hne, orb_true_r; done.
Qed.

Lemma record_events_cycle es up seen g :
  cycle up seen g -> up <> UINT32_MAX -> env_keeps eth_diag_vars -> env_ticks ->
  wp (record_events es) (fun _ g' => cycle up (rev es ++ seen) g') g.
Proof.
  intros Hc Hup Hk Ht. revert seen g Hc. induction es as [|e es IH]; intros seen g Hc; [done|].
  cbn [record_events rev]. apply wp_bind.
  apply (wp_mono _ (fun _ g' => cycle up (e :: seen) g')).
  - destruct (decide (e ∈ seen)) as [He|He].
    + unfold wp. rewrite (record_again e up seen) by done. by apply cycle_again.
    + by apply record_first.
  - intros _ g' Hc'. rewrite <- app_assoc. by apply IH.
Qed.

Lemma arm_link_up_then {A} (k : M D A) Q down up g :
  0 <= up < UINT32_MAX -> (forall g', cycle up [] g' -> wp k Q g') ->
  wp (ethernet_diag_arm_recovery down;; ethernet_diag_record_link_up up;; k) Q g.
Proof.
  intros Hup Hk. unfold ethernet_diag_arm_recovery, ethernet_diag_record_link_up. wp_auto.
  change ((u32 1 =? 0) || negb (u32 UINT32_MAX =? UINT32_MAX)) with false. wp_auto.
  assert (u32 up = up) by (apply u32_small; width).
  apply Hk. split; [st_simpl; gv_simpl; done|st_simpl; gv_simpl; done|].
  intros e. rewrite decide_False by apply not_elem_of_nil.
  destruct e; st_simpl; cbn [event_tick_var]; gv_simpl; done.
Qed.
End Cycle.

Lemma complete_ext l l' : (forall e, e ∈ l <-> e ∈ l') -> complete l = complete l'.
Proof. intros H. unfold complete. by rewrite !(bool_decide_ext _ _ (H _)). Qed.

(** Link-recovery measurement: after a link loss at tick [down] and the
    link's return at tick [up], whatever sequence of service-ready, PONG-sent
    and UDP-sent events follows, and whatever the clock does in between, each
    event that occurred has its first tick and the time since link-up
    recorded, later occurrences of it change nothing, one that did not occur
    is marked as not captured, and the cycle is closed exactly when all three
    have occurred. *)
Theorem recovery_cycle_measures {D} `{!World D} es down up (g : gateway D) :
  env_keeps eth_diag_vars -> env_ticks -> 0 <= up < UINT32_MAX ->
  wp (ethernet_diag_arm_recovery down;; ethernet_diag_record_link_up up;; record_events es)
    (fun _ g' =>
       var g' g_eth_diag_recovery_cycle_active = (if complete es then 0 else 1) /\
       forall e,
         if decide (e ∈ es)
         then 0 <= var g' (event_tick_var e) < UINT32_MAX /\
              var g' (event_elapsed_var e) = u32 (var g' (event_tick_var e) - up) /\
              record_event e g' = Some (tt, g')
         else var g' (event_tick_var e) = UINT32_MAX) g.
Proof.
  intros Hk Ht Hup.
  apply arm_link_up_then; [done|]. intros g1 Hc1.
  apply (wp_mono _ (fun _ g' => cycle up (rev es ++ []) g')).
  - apply record_events_cycle; [done|lia|done|done].
  - intros _ g' Hc. rewrite app_nil_r in Hc. pose proof Hc as [H1 H2 H3].
    assert (forall e, e ∈ rev es <-> e ∈ es) as Hrev
      by (intros e; rewrite !list_elem_of_In, <- in_rev; done).
    rewrite (complete_ext _ _ Hrev) in H1. split; [done|].
    intros e. specialize (H3 e). destruct (decide (e ∈ es)) as [Hin|Hin].
    + rewrite decide_True in H3 by by apply Hrev. destruct H3 as [H3 H4].
      split; [done|]. split; [done|]. apply (record_again e up (rev es)); [done|by apply Hrev].
    + rewrite decide_False in H3; [done|]. rewrite Hrev. done.
Qed.

Lemma recovery_cycle_measures_witness :
  wp (ethernet_diag_arm_recovery 40;; ethernet_diag_record_link_up 50;;
      record_events [UdpSent; TcpServiceReady; UdpSent])
    (fun _ g' => var g' g_eth_diag_recovery_cycle_active = 1 /\
       var g' g_eth_diag_first_tcp_pong_tx_success_tick = UINT32_MAX) demo_gateway.
Proof.
  eapply wp_mono.
  - apply (recovery_cycle_measures [UdpSent; TcpServiceReady; UdpSent] 40 50 demo_gateway).
    + apply demo_env_keeps.
    + apply demo_env_ticks.
    + width.
  - intros _ g' [H1 H2]. split; [exact H1|]. specialize (H2 TcpPongSent).
    rewrite decide_False in H2; [exact H2|].
    rewrite !elem_of_cons, elem_of_nil. intros [?|[?|[?|[]]]]; discriminate.
Defined.
