(* ===== verification/GwRs422.v ===== *)
(** * The RS-422 task (g474_gateway/Core/Src/main.c)

    Received bytes to parsed frames, PONG and TELEMETRY forwarding, command
    transmission and its completion, the power-on ping test, and the UART
    interrupt callbacks. *)
From S2P Require Import Prelude Crc16 Protocol StreamParser RxRing GwDiag.
From S2P Require Export GwLogic.
Local Open Scope Z_scope.

#[export] Instance eta_packet : Eta protocol_packet_t := fun p =>
  mk_packet (pkt_version p) (pkt_msg_id p) (pkt_seq p) (pkt_length p) (pkt_payload p).

(** [(flags & osFlagsError) != 0] *)
Definition flags_error (flags : Z) : bool := negb (Z.land flags osFlagsError =? 0).

(** What the callbacks look at in a [UART_HandleTypeDef]. *)
Record uart_handle := mk_uart_handle { is_uart4 : bool; rx_state_ready : bool }.

Section Rs422.
Context {D : Type} `{!World D}.
Abbreviation M := (M D).

(** [rs422_rx_ring_pop(&rx_byte)]; the receive interrupt may run before it. *)
Definition rs422_pop_byte : M (option Z) :=
  preempt;;
  '(b, r) ← gets (fun g => rs422_rx_ring_pop (rx_ring g));
  modify (fun g => g <| rx_ring := r |>);;
  mret b.

(** *** rs422_process_rx_buffer, the parts of the loop body *)

(** [queue != NULL && osMessageQueuePut(queue, &packet, 0, 0) == osOK] *)
Definition put_received (q : qvar) : M bool :=
  null ← queue_is_null q;
  if (null : bool) then mret false
  else
    packet ← rd_packet g_rs422_received_packet;
    st ← osMessageQueuePut q packet;
    mret (st =? osOK).

Definition note_valid_frame : M unit :=
  previous_comm_state ← rd g_rs422_comm_state;
  valid_frame_tick ← osKernelGetTickCount;
  incr g_rs422_rx_frame_count;;
  packet ← rd_packet g_rs422_received_packet;
  wr g_rs422_last_msg_id (pkt_msg_id packet);;
  wr g_rs422_last_valid_frame_tick valid_frame_tick;;
  wr g_rs422_diag_last_valid_frame_ms (rs422_kernel_ticks_to_ms valid_frame_tick);;
  first ← rd g_rs422_diag_recovery_first_valid_tick;
  when ((previous_comm_state =? COMM_TIMEOUT) && (first =? UINT32_MAX)) (
    wr g_rs422_diag_recovery_first_valid_tick valid_frame_tick;;
    wr g_rs422_diag_recovery_first_valid_ms (rs422_kernel_ticks_to_ms valid_frame_tick));;
  wr g_rs422_has_valid_frame 1.

Definition forward_telemetry : M unit :=
  packet ← rd_packet g_rs422_received_packet;
  when (pkt_msg_id packet =? MSG_TELEMETRY) (
    incr g_rs422_telemetry_rx_count;;
    enabled ← rd g_rs422_telemetry_forwarding_enabled;
    when (negb (enabled =? 0)) (
      ok ← put_received udp_telemetry_queue;
      if (ok : bool) then incr g_udp_telemetry_enqueue_success_count
      else incr g_udp_telemetry_enqueue_fail_count)).

Definition note_matching_pong : M unit :=
  valid ← rd g_diag_first_ping_seq_valid;
  packet ← rd_packet g_rs422_received_packet;
  seq ← rd g_diag_first_ping_seq;
  pong_ms ← rd g_diag_matching_pong_rx_ms;
  when (negb (valid =? 0) && (pkt_seq packet =? seq) &&
        (pong_ms =? DIAG_TIMESTAMP_NOT_CAPTURED_MS)) (
    now_ms ← diagnostic_now_ms;
    wr g_diag_matching_pong_rx_ms now_ms;;
    diag_interval g_diag_rs422_ping_tx_ms g_diag_rs422_tx_to_matching_pong_rx_ms now_ms).

Definition forward_pong : M unit :=
  packet ← rd_packet g_rs422_received_packet;
  active ← rd g_w5500_tcp_session_active;
  pending ← rd g_rs422_tcp_ping_pending;
  pending_seq ← rd g_rs422_tcp_ping_pending_seq;
  when ((pkt_msg_id packet =? MSG_PONG) && negb (active =? 0) && negb (pending =? 0) &&
        (pkt_seq packet =? pending_seq)) (
    note_matching_pong;;
    wr g_rs422_tcp_ping_pending 0;;
    incr g_rs422_forwarded_pong_rx_count;;
    ok ← put_received tcp_response_queue;
    if (ok : bool) then
      incr g_tcp_response_enqueue_success_count;;
      handle ← rd EthernetTaskHandle;
      when (negb (handle =? 0))
        (osThreadFlagsSet EthernetTask ETHERNET_EVENT_TCP_RESPONSE_READY)
    else incr g_tcp_response_enqueue_fail_count).

Definition rs422_handle_frame (expected_pong_sequence match_pong matching : Z) : M Z :=
  note_valid_frame;;
  forward_telemetry;;
  packet ← rd_packet g_rs422_received_packet;
  let matching :=
    if negb (match_pong =? 0) && (pkt_msg_id packet =? MSG_PONG) &&
       (pkt_seq packet =? expected_pong_sequence)
    then 1 else matching in
  forward_pong;;
  mret matching.

Definition rs422_feed_byte (rx_byte : Z) : M stream_parser_event_t :=
  parser ← rd_parser g_rs422_parser;
  out ← rd_packet g_rs422_received_packet;
  let '(parser_event, parser', out') := feed_byte parser rx_byte out in
  wr_parser g_rs422_parser parser';;
  wr_packet g_rs422_received_packet out';;
  mret parser_event.

Fixpoint rs422_rx_loop (n : nat) (expected_pong_sequence match_pong matching : Z) : M Z :=
  match n with
  | O => fail
  | S n =>
      b ← rs422_pop_byte;
      match b with
      | None => mret matching
      | Some rx_byte =>
          parser_event ← rs422_feed_byte rx_byte;
          matching ←
            (if decide (parser_event = STREAM_EVENT_FRAME)
             then rs422_handle_frame expected_pong_sequence match_pong matching
             else mret matching);
          rs422_rx_loop n expected_pong_sequence match_pong matching
      end
  end.

Definition rs422_process_rx_buffer (expected_pong_sequence match_pong : Z) : M Z :=
  rs422_rx_loop rounds expected_pong_sequence match_pong 0.

(** *** Events *)

Definition rs422_handle_tcp_context_reset_event (flags : Z) : M unit :=
  when (negb (Z.land flags RS422_EVENT_TCP_CONTEXT_RESET =? 0)) (
    wr g_rs422_tcp_ping_pending 0;;
    wr g_rs422_tcp_ping_pending_seq 0).

Definition rs422_handle_tx_done_event (flags : Z) : M unit :=
  when (negb (Z.land flags RS422_EVENT_TX_DONE =? 0)) (
    busy ← rd g_rs422_tx_busy;
    if negb (busy =? 0) then
      wr g_rs422_tx_busy 0;;
      incr g_rs422_tx_complete_count
    else incr g_rs422_tx_error_count).

Definition rs422_handle_events (flags : Z) : M unit :=
  rs422_handle_tcp_context_reset_event flags;;
  rs422_handle_tx_done_event flags.

(** The result code, with the value left in [*matching_pong_received]. *)
Fixpoint rs422_tx_wait_loop (n : nat)
    (expected_pong_sequence timeout_ticks wait_start_ticks matching : Z) : M (Z * Z) :=
  match n with
  | O => fail
  | S n =>
      busy ← rd g_rs422_tx_busy;
      if busy =? 0 then mret (RS422_PING_TEST_PASS, matching)
      else
        m ← rs422_process_rx_buffer expected_pong_sequence 1;
        let matching := Z.lor matching m in
        pending_flags ← osThreadFlagsWait RS422Task RS422_EVENT_MASK 0;
        if flags_error pending_flags && negb (pending_flags =? osFlagsErrorResource) then
          incr g_rs422_tx_error_count;;
          mret (RS422_PING_TEST_TX_FAILURE, matching)
        else
          when (negb (flags_error pending_flags)) (rs422_handle_events pending_flags);;
          busy ← rd g_rs422_tx_busy;
          if busy =? 0 then
            m ← rs422_process_rx_buffer expected_pong_sequence 1;
            mret (RS422_PING_TEST_PASS, Z.lor matching m)
          else
            now ← osKernelGetTickCount;
            let elapsed_ticks := u32 (now - wait_start_ticks) in
            if elapsed_ticks >=? timeout_ticks then
              incr g_rs422_tx_timeout_count;;
              mret (RS422_PING_TEST_TX_FAILURE, matching)
            else
              flags ← osThreadFlagsWait RS422Task RS422_EVENT_MASK
                        (timeout_ticks - elapsed_ticks);
              if flags =? osFlagsErrorTimeout then
                incr g_rs422_tx_timeout_count;;
                mret (RS422_PING_TEST_TX_FAILURE, matching)
              else if flags_error flags then
                incr g_rs422_tx_error_count;;
                mret (RS422_PING_TEST_TX_FAILURE, matching)
              else
                rs422_handle_events flags;;
                rs422_tx_wait_loop n expected_pong_sequence timeout_ticks wait_start_ticks
                  matching
  end.

Definition rs422_wait_for_tx_complete (expected_pong_sequence : Z) : M (Z * Z) :=
  let timeout_ticks := rs422_ms_to_kernel_ticks RS422_BRINGUP_TX_TIMEOUT_MS in
  wait_start_ticks ← osKernelGetTickCount;
  rs422_tx_wait_loop rounds expected_pong_sequence timeout_ticks wait_start_ticks 0.

(** *** Encoding and starting a transmission *)

(** [protocol_encode] of the packet at [p] into [g_rs422_tx_frame]. *)
Definition rs422_encode (p : pvar) : M (protocol_result_t * Z) :=
  packet ← rd_packet p;
  frame ← rd_array g_rs422_tx_frame;
  let '(r, frame', n) :=
    protocol_encode (Some packet) (Some frame) PROTOCOL_MAX_FRAME_SIZE (Some 0) in
  wr_array g_rs422_tx_frame (default frame frame');;
  mret (r, default 0 n).

(** [HAL_UART_Transmit_IT(&huart4, g_rs422_tx_frame, tx_frame_length)] *)
Definition rs422_start_tx (tx_frame_length : Z) : M Z :=
  frame ← rd_array g_rs422_tx_frame;
  HAL_UART_Transmit_IT (take (Z.to_nat (u16 tx_frame_length)) frame).

Definition count_tx_start_error (tx_status : Z) : M unit :=
  if tx_status =? HAL_BUSY then incr g_rs422_tx_busy_count else incr g_rs422_tx_error_count.

(** *** The power-on ping test *)

Fixpoint rs422_pong_wait_loop (n : nat) (sequence pong_timeout_ticks wait_start_ticks : Z) : M Z :=
  match n with
  | O => fail
  | S n =>
      now ← osKernelGetTickCount;
      if negb (u32 (now - wait_start_ticks) <? pong_timeout_ticks)
      then mret RS422_PING_TEST_PONG_TIMEOUT
      else
        m ← rs422_process_rx_buffer sequence 1;
        if negb (m =? 0) then mret RS422_PING_TEST_PASS
        else
          now ← osKernelGetTickCount;
          let elapsed_ticks := u32 (now - wait_start_ticks) in
          if elapsed_ticks >=? pong_timeout_ticks then mret RS422_PING_TEST_PONG_TIMEOUT
          else
            let remaining_ticks := pong_timeout_ticks - elapsed_ticks in
            flags ← osThreadFlagsWait RS422Task RS422_EVENT_MASK remaining_ticks;
            if flags =? osFlagsErrorTimeout then mret RS422_PING_TEST_PONG_TIMEOUT
            else if flags_error flags then mret RS422_PING_TEST_RX_FAILURE
            else
              rs422_handle_events flags;;
              rs422_pong_wait_loop n sequence pong_timeout_ticks wait_start_ticks
  end.

Definition rs422_ping_bringup_test (sequence : Z) : M Z :=
  wr g_rs422_last_seq sequence;;
  busy ← rd g_rs422_tx_busy;
  if negb (busy =? 0) then
    incr g_rs422_tx_busy_count;;
    mret RS422_PING_TEST_TX_FAILURE
  else
    packet ← rd_packet g_rs422_ping_packet;
    wr_packet g_rs422_ping_packet
      (packet <| pkt_version := PROTOCOL_VERSION |> <| pkt_msg_id := MSG_PING |>
              <| pkt_seq := sequence |> <| pkt_length := 0 |>);;
    '(r, tx_frame_length) ← rs422_encode g_rs422_ping_packet;
    if decide (r <> PROTO_OK) then mret RS422_PING_TEST_ENCODE_FAILURE
    else
      cleared ← osThreadFlagsClear RS422Task RS422_EVENT_TX_DONE;
      if flags_error cleared then
        incr g_rs422_tx_error_count;;
        mret RS422_PING_TEST_TX_FAILURE
      else
        wr g_rs422_tx_busy 1;;
        tx_status ← rs422_start_tx tx_frame_length;
        if negb (tx_status =? HAL_OK) then
          wr g_rs422_tx_busy 0;;
          count_tx_start_error tx_status;;
          mret RS422_PING_TEST_TX_FAILURE
        else
          '(result, matching_pong_received) ← rs422_wait_for_tx_complete sequence;
          if negb (result =? RS422_PING_TEST_PASS) then mret RS422_PING_TEST_TX_FAILURE
          else if negb (matching_pong_received =? 0) then mret RS422_PING_TEST_PASS
          else
            let pong_timeout_ticks :=
              rs422_ms_to_kernel_ticks RS422_BRINGUP_PONG_TIMEOUT_MS in
            wait_start_ticks ← osKernelGetTickCount;
            rs422_pong_wait_loop rounds sequence pong_timeout_ticks wait_start_ticks.

(** The [for] loop from [test_index], [n] iterations; [last_failure] after it. *)
Fixpoint rs422_bringup_loop (n : nat) (test_index last_failure : Z) : M Z :=
  match n with
  | O => mret last_failure
  | S n =>
      let sequence := u16 (test_index + 1) in
      test_result ← rs422_ping_bringup_test sequence;
      incr g_rs422_test_total;;
      wr g_rs422_ping_test_result test_result;;
      (if test_result =? RS422_PING_TEST_PASS then incr g_rs422_test_success
       else incr g_rs422_test_fail);;
      let last_failure :=
        if test_result =? RS422_PING_TEST_PASS then last_failure else test_result in
      when (test_index + 1 <? RS422_BRINGUP_TEST_COUNT)
        (HAL_Delay RS422_BRINGUP_INTER_TEST_DELAY_MS);;
      rs422_bringup_loop n (test_index + 1) last_failure
  end.

Definition rs422_ping_bringup_run : M Z :=
  wr g_rs422_ping_test_result RS422_PING_TEST_NOT_RUN;;
  wr g_rs422_last_msg_id 0;;
  wr g_rs422_last_seq 0;;
  wr g_rs422_rx_frame_count 0;;
  wr g_rs422_test_total 0;;
  wr g_rs422_test_success 0;;
  wr g_rs422_test_fail 0;;
  last_failure ←
    rs422_bringup_loop (Z.to_nat RS422_BRINGUP_TEST_COUNT) 0 RS422_PING_TEST_PASS;
  fail_count ← rd g_rs422_test_fail;
  mret (if fail_count =? 0 then RS422_PING_TEST_PASS else last_failure).

(** *** Forwarding a command *)

Definition clear_pending_ping (packet : protocol_packet_t) : M unit :=
  when (pkt_msg_id packet =? MSG_PING) (
    wr g_rs422_tcp_ping_pending 0;;
    wr g_rs422_tcp_ping_pending_seq 0).

Definition note_ping_tx (packet : protocol_packet_t) : M unit :=
  valid ← rd g_diag_first_ping_seq_valid;
  seq ← rd g_diag_first_ping_seq;
  tx_ms ← rd g_diag_rs422_ping_tx_ms;
  when ((pkt_msg_id packet =? MSG_PING) && negb (valid =? 0) && (pkt_seq packet =? seq) &&
        (tx_ms =? DIAG_TIMESTAMP_NOT_CAPTURED_MS)) (
    now_ms ← diagnostic_now_ms;
    wr g_diag_rs422_ping_tx_ms now_ms;;
    diag_interval g_diag_first_ping_parsed_ms g_diag_ping_parsed_to_rs422_tx_ms now_ms).

Definition rs422_forward_packet (packet : option pvar) : M Z :=
  match packet with
  | None =>
      incr g_rs422_tx_error_count;;
      mret RS422_PING_TEST_ENCODE_FAILURE
  | Some p =>
      busy ← rd g_rs422_tx_busy;
      if negb (busy =? 0) then
        incr g_rs422_tx_busy_count;;
        mret RS422_PING_TEST_TX_FAILURE
      else
        '(r, tx_frame_length) ← rs422_encode p;
        if bool_decide (r <> PROTO_OK) || (tx_frame_length =? 0) || (tx_frame_length >? UINT16_MAX)
        then
          incr g_rs422_tx_error_count;;
          mret RS422_PING_TEST_ENCODE_FAILURE
        else
          cleared ← osThreadFlagsClear RS422Task RS422_EVENT_TX_DONE;
          if flags_error cleared then
            incr g_rs422_tx_error_count;;
            mret RS422_PING_TEST_TX_FAILURE
          else
            packet ← rd_packet p;
            active ← rd g_w5500_tcp_session_active;
            when ((pkt_msg_id packet =? MSG_PING) && negb (active =? 0)) (
              wr g_rs422_tcp_ping_pending_seq (pkt_seq packet);;
              wr g_rs422_tcp_ping_pending 1);;
            wr g_rs422_tx_busy 1;;
            tx_status ← rs422_start_tx tx_frame_length;
            packet ← rd_packet p;
            if negb (tx_status =? HAL_OK) then
              wr g_rs422_tx_busy 0;;
              clear_pending_ping packet;;
              count_tx_start_error tx_status;;
              mret RS422_PING_TEST_TX_FAILURE
            else
              note_ping_tx packet;;
              packet ← rd_packet p;
              wr g_rs422_last_tx_msg_id (pkt_msg_id packet);;
              wr g_rs422_last_tx_seq (pkt_seq packet);;
              '(result, _) ← rs422_wait_for_tx_complete (pkt_seq packet);
              if negb (result =? RS422_PING_TEST_PASS) then
                packet ← rd_packet p;
                clear_pending_ping packet;;
                mret RS422_PING_TEST_TX_FAILURE
              else mret RS422_PING_TEST_PASS
  end.

(** *** The task *)

Definition rs422_task_init : M unit :=
  modify (fun g =>
    g <| rx_ring := (rx_ring g) <| g_rs422_rx_head := 0 |> <| g_rs422_rx_tail := 0 |>
                                <| g_rs422_rx_overflow_count := 0 |> |>);;
  wr g_rs422_uart_rx_error_count 0;;
  wr g_rs422_tx_busy 0;;
  wr g_rs422_tx_complete_count 0;;
  wr g_rs422_tx_busy_count 0;;
  wr g_rs422_tx_error_count 0;;
  wr g_rs422_tx_timeout_count 0;;
  wr g_rs422_cmd_dequeue_count 0;;
  wr g_rs422_forwarded_pong_rx_count 0;;
  wr g_tcp_response_enqueue_success_count 0;;
  wr g_tcp_response_enqueue_fail_count 0;;
  wr g_rs422_telemetry_rx_count 0;;
  wr g_udp_telemetry_enqueue_success_count 0;;
  wr g_udp_telemetry_enqueue_fail_count 0;;
  wr g_rs422_telemetry_forwarding_enabled 0;;
  wr g_rs422_tcp_ping_pending 0;;
  wr g_rs422_tcp_ping_pending_seq 0;;
  wr g_rs422_last_tx_msg_id 0;;
  wr g_rs422_last_tx_seq 0;;
  wr g_rs422_last_valid_frame_tick 0;;
  wr g_rs422_has_valid_frame 0;;
  wr g_rs422_diag_last_valid_frame_ms DIAG_TIMESTAMP_NOT_CAPTURED_MS;;
  wr g_rs422_diag_timeout_transition_ms DIAG_TIMESTAMP_NOT_CAPTURED_MS;;
  wr g_rs422_diag_recovery_first_valid_ms DIAG_TIMESTAMP_NOT_CAPTURED_MS;;
  wr g_rs422_diag_recovery_comm_ok_ms DIAG_TIMESTAMP_NOT_CAPTURED_MS;;
  wr g_rs422_diag_fault_detection_ms DIAG_TIMESTAMP_NOT_CAPTURED_MS;;
  wr g_rs422_diag_recovery_ms DIAG_TIMESTAMP_NOT_CAPTURED_MS;;
  wr g_rs422_diag_timeout_transition_tick UINT32_MAX;;
  wr g_rs422_diag_recovery_first_valid_tick UINT32_MAX;;
  wr g_rs422_diag_recovery_comm_ok_tick UINT32_MAX;;
  wr_parser g_rs422_parser parser_init;;
  st ← HAL_UART_Receive_IT;
  (if st =? HAL_OK then
     r ← rs422_ping_bringup_run;
     wr g_rs422_ping_test_result r
   else
     incr g_rs422_uart_rx_error_count;;
     wr g_rs422_ping_test_result RS422_PING_TEST_RX_FAILURE);;
  wr g_rs422_telemetry_forwarding_enabled 1.

Fixpoint rs422_command_loop (n : nat) : M unit :=
  match n with
  | O => fail
  | S n =>
      null ← queue_is_null rs422_cmd_queue;
      if (null : bool) then mret tt
      else
        st ← osMessageQueueGet rs422_cmd_queue g_rs422_command_packet;
        if negb (st =? osOK) then mret tt
        else
          incr g_rs422_cmd_dequeue_count;;
          _ ← rs422_forward_packet (Some g_rs422_command_packet);
          _ ← rs422_process_rx_buffer 0 0;
          rs422_command_loop n
  end.

(** One iteration of the [for (;;)]. *)
Definition rs422_task_iteration : M unit :=
  _ ← rs422_process_rx_buffer 0 0;
  rs422_command_loop rounds;;
  flags ← osThreadFlagsWait RS422Task RS422_EVENT_MASK osWaitForever;
  if negb (flags_error flags) then rs422_handle_events flags
  else incr g_rs422_tx_error_count.

Fixpoint rs422_rounds (n : nat) : M unit :=
  match n with
  | O => mret tt
  | S n => rs422_task_iteration;; rs422_rounds n
  end.

(** [n] rounds of the task's loop. *)
Definition StartRS422Task (n : nat) : M unit := rs422_task_init;; rs422_rounds n.

(** *** Interrupt callbacks *)

Definition isr_signal (flags : Z) : M unit :=
  handle ← rd RS422TaskHandle;
  when (negb (handle =? 0)) (osThreadFlagsSet RS422Task flags).

Definition HAL_UART_TxCpltCallback (huart : option uart_handle) : M unit :=
  match huart with
  | Some h => when (is_uart4 h) (isr_signal RS422_EVENT_TX_DONE)
  | None => mret tt
  end.

Definition HAL_UART_RxCpltCallback (huart : option uart_handle) : M unit :=
  match huart with
  | Some h =>
      when (is_uart4 h) (
        modify (fun g =>
          g <| rx_ring := rs422_rx_ring_push_from_isr (g_uart4_rx_byte g) (rx_ring g) |>);;
        st ← HAL_UART_Receive_IT;
        when (negb (st =? HAL_OK)) (incr g_rs422_uart_rx_error_count);;
        isr_signal RS422_EVENT_RX)
  | None => mret tt
  end.

Definition HAL_UART_ErrorCallback (huart : option uart_handle) : M unit :=
  match huart with
  | Some h =>
      when (is_uart4 h) (
        incr g_rs422_uart_rx_error_count;;
        when (rx_state_ready h) (
          st ← HAL_UART_Receive_IT;
          when (negb (st =? HAL_OK)) (incr g_rs422_uart_rx_error_count));;
        isr_signal RS422_EVENT_RX)
  | None => mret tt
  end.
End Rs422.
