(* ===== verification/GwForwarding.v ===== *)
(** * What draining the receive ring does

    An abstract account of frame forwarding - counters, the pending PING, the
    two queues - and the proof that [rs422_process_rx_buffer] implements it.
    While the drain runs only interrupts can run too: it never blocks, and
    the RS-422 task has the highest priority of the application's tasks. *)
From S2P Require Import Prelude Crc16 Protocol StreamParser RxRing GwDiag GwRs422.
From S2P Require Export GwLogic.
Local Open Scope Z_scope.

(** ** The abstract state *)
Record forwarding := mk_forwarding {
  fw_enabled : Z;
  fw_active : Z;
  fw_pending : Z;
  fw_pending_seq : Z;
  fw_frames : Z;
  fw_telemetry : Z;
  fw_udp_ok : Z;
  fw_udp_fail : Z;
  fw_pongs : Z;
  fw_tcp_ok : Z;
  fw_tcp_fail : Z;
  fw_udp : option (list protocol_packet_t);
  fw_tcp : option (list protocol_packet_t)
}.

#[export] Instance eta_forwarding : Eta forwarding := fun s =>
  mk_forwarding (fw_enabled s) (fw_active s) (fw_pending s) (fw_pending_seq s) (fw_frames s)
    (fw_telemetry s) (fw_udp_ok s) (fw_udp_fail s) (fw_pongs s) (fw_tcp_ok s) (fw_tcp_fail s)
    (fw_udp s) (fw_tcp s).

Definition abs {D} (g : gateway D) : forwarding := {|
  fw_enabled := var g g_rs422_telemetry_forwarding_enabled;
  fw_active := var g g_w5500_tcp_session_active;
  fw_pending := var g g_rs422_tcp_ping_pending;
  fw_pending_seq := var g g_rs422_tcp_ping_pending_seq;
  fw_frames := var g g_rs422_rx_frame_count;
  fw_telemetry := var g g_rs422_telemetry_rx_count;
  fw_udp_ok := var g g_udp_telemetry_enqueue_success_count;
  fw_udp_fail := var g g_udp_telemetry_enqueue_fail_count;
  fw_pongs := var g g_rs422_forwarded_pong_rx_count;
  fw_tcp_ok := var g g_tcp_response_enqueue_success_count;
  fw_tcp_fail := var g g_tcp_response_enqueue_fail_count;
  fw_udp := queue_of g udp_telemetry_queue;
  fw_tcp := queue_of g tcp_response_queue
|}.

(** Room in a queue that exists. *)
Definition accepts (q : qvar) (o : option (list protocol_packet_t)) : bool :=
  match o with Some l => Z.of_nat (length l) <? queue_depth q | None => false end.
Definition offer (q : qvar) (o : option (list protocol_packet_t)) (p : protocol_packet_t) :
    option (list protocol_packet_t) :=
  if accepts q o then option_map (fun l => l ++ [p]) o else o.

Definition is_telemetry (p : protocol_packet_t) : bool := pkt_msg_id p =? MSG_TELEMETRY.
Definition is_pong (p : protocol_packet_t) : bool := pkt_msg_id p =? MSG_PONG.

Definition spec_telemetry (p : protocol_packet_t) (s : forwarding) : forwarding :=
  if is_telemetry p then
    let s := s <| fw_telemetry := u32 (fw_telemetry s + 1) |> in
    if fw_enabled s =? 0 then s
    else
      let q := fw_udp s in
      let s := s <| fw_udp := offer udp_telemetry_queue q p |> in
      if accepts udp_telemetry_queue q
      then s <| fw_udp_ok := u32 (fw_udp_ok s + 1) |>
      else s <| fw_udp_fail := u32 (fw_udp_fail s + 1) |>
  else s.

(** The reply the TCP client waits for. *)
Definition awaited (p : protocol_packet_t) (s : forwarding) : bool :=
  is_pong p && negb (fw_active s =? 0) && negb (fw_pending s =? 0) &&
  (pkt_seq p =? fw_pending_seq s).

Definition spec_pong (p : protocol_packet_t) (s : forwarding) : forwarding :=
  if awaited p s then
    let q := fw_tcp s in
    let s := s <| fw_pending := 0 |> <| fw_pongs := u32 (fw_pongs s + 1) |>
               <| fw_tcp := offer tcp_response_queue q p |> in
    if accepts tcp_response_queue q
    then s <| fw_tcp_ok := u32 (fw_tcp_ok s + 1) |>
    else s <| fw_tcp_fail := u32 (fw_tcp_fail s + 1) |>
  else s.

Definition spec_frame (s : forwarding) (p : protocol_packet_t) : forwarding :=
  spec_pong p (spec_telemetry p (s <| fw_frames := u32 (fw_frames s + 1) |>)).

(** ** Only interrupts interfere *)

Definition isr_bytes (bs : list Z) (r : rs422_ring) : rs422_ring :=
  fold_left (fun r b => rs422_rx_ring_push_from_isr b r) bs r.

Lemma isr_bytes_app bs bs' r : isr_bytes (bs ++ bs') r = isr_bytes bs' (isr_bytes bs r).
Proof. apply fold_left_app. Qed.

Lemma isr_bytes_ring bs r :
  ring_wf r ->
  ring_wf (isr_bytes bs r) /\ exists acc, ring_contents (isr_bytes bs r) = ring_contents r ++ acc.
Proof.
  revert r. induction bs as [|b bs IH]; intros r Hwf.
  - split; [done|]. exists []. rewrite app_nil_r. done.
  - change (isr_bytes (b :: bs) r) with (isr_bytes bs (ring_push b r).2).
    destruct (ring_push_law r b Hwf) as (H1 & _ & H2 & _).
    destruct (IH (ring_push b r).2 H1) as (Hwf' & acc & E). split; [exact Hwf'|].
    eexists. rewrite E, H2, <- app_assoc. reflexivity.
Qed.

Section Isr.
Context {D : Type} (horizon : nat).
Implicit Types g : gateway D.

(** Receive interrupts push bytes, none from the [horizon]-th kernel call on. *)
Definition isr_ring g g' : Prop :=
  (epoch g <= epoch g')%nat /\
  exists bs, rx_ring g' = isr_bytes bs (rx_ring g) /\ ((horizon <= epoch g)%nat -> bs = []).

#[export] Instance isr_ring_preorder : PreOrder isr_ring.
Proof.
  split.
  - intros g. split; [done|]. exists []. done.
  - intros g1 g2 g3 [H1 (b1 & E1 & N1)] [H2 (b2 & E2 & N2)]. split; [lia|].
    exists (b1 ++ b2). rewrite isr_bytes_app, E2, E1. split; [done|].
    intros H. rewrite N1, N2 by lia. done.
Qed.

(** Interrupts push bytes, signal flags and count errors, the clock and the
    hardware move; nothing else changes. *)
Record isr_step g g' : Prop := {
  is_var (v : gvar) : v <> g_rs422_uart_rx_error_count -> var g' v = var g v;
  is_packet : packet_of g' = packet_of g;
  is_parser : parser_of g' = parser_of g;
  is_array : array_of g' = array_of g;
  is_queue : queue_of g' = queue_of g;
  is_ring : isr_ring g g'
}.

(** A byte [b] was popped, after the bytes [acc] had arrived; the ring is now [r]. *)
Definition popped g (b : option Z) (r : rs422_ring) : Prop :=
  ring_wf r /\
  exists acc, ((horizon <= epoch g)%nat -> acc = []) /\
    match b with
    | None => ring_contents (rx_ring g) ++ acc = [] /\ ring_contents r = []
    | Some x => ring_contents (rx_ring g) ++ acc = x :: ring_contents r
    end.

Lemma pop_after_isr g g1 :
  ring_wf (rx_ring g) -> isr_ring g g1 ->
  let '(b, r) := rs422_rx_ring_pop (rx_ring g1) in popped g b r.
Proof.
  intros Hwf [_ (bs & Er & Hq)].
  destruct (isr_bytes_ring bs _ Hwf) as [Hwf1 [acc Hc]]. rewrite <- Er in Hwf1, Hc.
  assert ((horizon <= epoch g)%nat -> acc = []) as Hacc.
  { intros H. rewrite Hq in Er by done. rewrite Er in Hc. cbn [isr_bytes fold_left] in Hc.
    apply (f_equal length) in Hc. rewrite length_app in Hc.
    destruct acc; [done|cbn [length] in Hc; lia]. }
  rewrite rs422_rx_ring_pop_is_ring_pop. unfold ring_pop.
  pose proof (ring_empty_law _ Hwf1) as Hem. cbv zeta.
  destruct (ring_contents (rx_ring g1)) as [|x l] eqn:El.
  - rewrite Hem, bool_decide_true by done. split; [done|]. by exists acc.
  - rewrite Hem, bool_decide_false by done.
    destruct (ring_release_law _ _ _ Hwf1 El) as [Hwf2 E2].
    split; [done|]. exists acc. split; [done|]. by rewrite E2, (ring_byte_law _ _ _ Hwf1 El).
Qed.
End Isr.

Class IsrOnly D `{!World D} (horizon : nat) := isr_only (g : gateway D) :
  let g' := env (epoch g) (g <| epoch := S (epoch g) |>) in
  isr_step horizon g g' /\ epoch g' = S (epoch g) /\ 0 <= tick g' < UINT32_MAX.

(** ** One frame *)
Section Frame.
Context {D : Type} `{!World D} (horizon : nat) `{!IsrOnly D horizon}.
Implicit Types g : gateway D.

Lemma wp_preempt_isr Q g :
  (forall g', isr_step horizon g g' -> epoch g' = S (epoch g) -> 0 <= tick g' < UINT32_MAX ->
     Q tt g') -> wp preempt Q g.
Proof. intros H. destruct (isr_only g) as (H1 & H2 & H3). apply wp_preempt. by apply H. Qed.

Lemma isr_abs g g' : isr_step horizon g g' -> abs g' = abs g.
Proof. intros [Hv _ _ _ Hq _]. unfold abs. rewrite Hq, !Hv by discriminate. done. Qed.

(** What the handling of a frame leaves alone. *)
Record rest g g' : Prop := {
  rest_packet : packet_of g' g_rs422_received_packet = packet_of g g_rs422_received_packet;
  rest_parser : parser_of g' g_rs422_parser = parser_of g g_rs422_parser;
  rest_ring : isr_ring horizon g g'
}.

#[export] Instance rest_preorder : PreOrder rest.
Proof.
  split.
  - intros g. split; [done|done|reflexivity].
  - intros g1 g2 g3 [H1 H2 H3] [K1 K2 K3]. split; [congruence|congruence|by etrans].
Qed.

Lemma isr_rest g g' : isr_step horizon g g' -> rest g g'.
Proof. intros [_ Hp Hs _ _ Hr]. split; [by rewrite Hp|by rewrite Hs|done]. Qed.

(** Writing variables changes nothing else. *)
Lemma rest_vars g f : rest g (g <| var := f |>).
Proof. split; [done|done|]. split; [done|]. exists []. done. Qed.

Lemma rest_put v z g : rest g (put v z g).
Proof. apply rest_vars. Qed.

Lemma rest_queues g f : rest g (g <| queue_of := f |>).
Proof. split; [done|done|]. split; [done|]. exists []. done. Qed.

Lemma rest_notifs g f : rest g (g <| notif_of := f |>).
Proof. split; [done|done|]. split; [done|]. exists []. done. Qed.

Ltac rest_puts := repeat (etrans; [|apply rest_put]).

(** *** The pieces of [rs422_handle_frame] *)

Definition refines g (f : forwarding -> forwarding) (g' : gateway D) : Prop :=
  abs g' = f (abs g) /\ rest g g'.

Lemma refines_trans g1 f1 g2 f2 g3 :
  refines g1 f1 g2 -> refines g2 f2 g3 -> refines g1 (fun s => f2 (f1 s)) g3.
Proof. intros [H1 R1] [H2 R2]. split; [by rewrite H2, H1|by etrans]. Qed.

Lemma note_valid_frame_ok g :
  wp note_valid_frame
    (fun _ => refines g (fun s => s <| fw_frames := u32 (fw_frames s + 1) |>)) g.
Proof.
  unfold note_valid_frame, osKernelGetTickCount. wp_auto.
  apply wp_preempt_isr. intros g1 Hs _ _. pose proof (isr_abs _ _ Hs) as Ha. wp_auto.
  destruct (_ && _); wp_auto.
  all: split; [rewrite <- Ha; unfold abs; st_simpl; gv_simpl; reflexivity|].
  all: rest_puts; by apply isr_rest.
Qed.

Record put_done (q : qvar) (b : bool) g g' : Prop := {
  pd_accepted : b = accepts q (queue_of g q);
  pd_var (v : gvar) : v <> g_rs422_uart_rx_error_count -> var g' v = var g v;
  pd_queue : queue_of g' q = offer q (queue_of g q) (packet_of g g_rs422_received_packet);
  pd_other q' : q' <> q -> queue_of g' q' = queue_of g q';
  pd_rest : rest g g'
}.

Lemma put_received_ok q g : wp (put_received q) (fun b => put_done q b g) g.
Proof.
  unfold put_received, osMessageQueuePut, offer. wp_auto.
  destruct (queue_of g q) as [l|] eqn:El; wp_auto.
  - apply wp_preempt_isr. intros g1 Hs _ _. pose proof (isr_rest _ _ Hs) as Hr.
    destruct Hs as [Hv Hp _ _ Hq _]. wp_auto.
    rewrite Hq, El. change (Z.of_nat (length l) <? queue_depth q) with (accepts q (Some l)).
    destruct (accepts q (Some l)) eqn:E; wp_auto.
    + split; st_simpl; [by rewrite El, E|done| | |].
      * unfold offer. rewrite upd_eq, El, E. done.
      * intros q' Hne. rewrite upd_ne, Hq by done. done.
      * etrans; [done|apply rest_queues].
    + split; [by rewrite El, E|done| |by intros; rewrite Hq|done].
      unfold offer. rewrite Hq, El, E. done.
  - split; [by rewrite El|done|by unfold offer; rewrite El|done|reflexivity].
Qed.

(** The state after a [put_received], as far as [abs] sees it. *)
Lemma put_done_udp b g g' :
  put_done udp_telemetry_queue b g g' ->
  abs g' = (abs g) <| fw_udp := offer udp_telemetry_queue (fw_udp (abs g))
                                 (packet_of g g_rs422_received_packet) |>.
Proof.
  intros [_ Hv Hq Ho _]. unfold abs. cbn [set_field]. rewrite Hq, (Ho tcp_response_queue) by done.
  rewrite !Hv by discriminate. done.
Qed.

Lemma put_done_tcp b g g' :
  put_done tcp_response_queue b g g' ->
  abs g' = (abs g) <| fw_tcp := offer tcp_response_queue (fw_tcp (abs g))
                                 (packet_of g g_rs422_received_packet) |>.
Proof.
  intros [_ Hv Hq Ho _]. unfold abs. cbn [set_field]. rewrite Hq, (Ho udp_telemetry_queue) by done.
  rewrite !Hv by discriminate. done.
Qed.

Lemma spec_telemetry_enabled p s :
  is_telemetry p = true -> (fw_enabled s =? 0) = false ->
  spec_telemetry p s =
    let q := fw_udp s in
    let s := s <| fw_telemetry := u32 (fw_telemetry s + 1) |>
               <| fw_udp := offer udp_telemetry_queue q p |> in
    if accepts udp_telemetry_queue q
    then s <| fw_udp_ok := u32 (fw_udp_ok s + 1) |>
    else s <| fw_udp_fail := u32 (fw_udp_fail s + 1) |>.
Proof.
  intros Ht He. destruct s. cbn [fw_enabled] in He. unfold spec_telemetry. rewrite Ht. cbn.
  rewrite He. done.
Qed.

Lemma spec_telemetry_disabled p s :
  is_telemetry p = true -> (fw_enabled s =? 0) = true ->
  spec_telemetry p s = s <| fw_telemetry := u32 (fw_telemetry s + 1) |>.
Proof.
  intros Ht He. destruct s. cbn [fw_enabled] in He. unfold spec_telemetry. rewrite Ht. cbn.
  rewrite He. done.
Qed.

Lemma forward_telemetry_ok p g :
  packet_of g g_rs422_received_packet = p ->
  wp forward_telemetry (fun _ => refines g (spec_telemetry p)) g.
Proof.
  intros Hp. unfold forward_telemetry. wp_auto. rewrite Hp. fold (is_telemetry p).
  destruct (is_telemetry p) eqn:Et; wp_auto; [|split; [unfold spec_telemetry; by rewrite Et|reflexivity]].
  set (g0 := put _ _ g).
  assert (abs g0 = (abs g) <| fw_telemetry := u32 (fw_telemetry (abs g) + 1) |>) as Ha0 by done.
  destruct (var g g_rs422_telemetry_forwarding_enabled =? 0) eqn:E; cbn [negb]; wp_auto.
  { split; [|apply rest_put]. by rewrite Ha0, spec_telemetry_disabled. }
  eapply wp_mono; [apply put_received_ok|]. intros b g1 Hd.
  pose proof (put_done_udp _ _ _ Hd) as Ha.
  assert (rest g g1) as Hr by (etrans; [|exact (pd_rest _ _ _ _ Hd)]; apply rest_put).
  assert (b = accepts udp_telemetry_queue (fw_udp (abs g))) as Hb by exact (pd_accepted _ _ _ _ Hd).
  change (packet_of g0) with (packet_of g) in Ha. rewrite Ha0, Hp in Ha.
  assert (forall (f : forwarding -> forwarding) g', abs g' = f (abs g1) -> rest g1 g' ->
    f (abs g1) = spec_telemetry p (abs g) -> refines g (spec_telemetry p) g') as Hfin.
  { intros f g' H1 H2 H3. split; [by rewrite H1|by etrans]. }
  destruct b; wp_auto.
  - eapply (Hfin (fun s => s <| fw_udp_ok := u32 (fw_udp_ok s + 1) |>)); [done|apply rest_put|].
    rewrite Ha, spec_telemetry_enabled by done. cbv zeta. rewrite <- Hb. done.
  - eapply (Hfin (fun s => s <| fw_udp_fail := u32 (fw_udp_fail s + 1) |>)); [done|apply rest_put|].
    rewrite Ha, spec_telemetry_enabled by done. cbv zeta. rewrite <- Hb. done.
Qed.

Lemma wp_tick_isr Q g :
  (forall g', isr_step horizon g g' -> 0 <= tick g' < UINT32_MAX -> Q (tick g') g') ->
  wp osKernelGetTickCount Q g.
Proof. intros H. unfold osKernelGetTickCount. wp_auto. apply wp_preempt_isr. intros. by apply H. Qed.

Lemma note_matching_pong_ok g :
  wp note_matching_pong (fun _ => refines g (fun s => s)) g.
Proof.
  unfold note_matching_pong, diagnostic_now_ms, diag_interval. wp_auto.
  destruct (_ && _); wp_auto; [|by split].
  apply wp_tick_isr. intros g1 Hs _. pose proof (isr_abs _ _ Hs) as Ha.
  pose proof (isr_rest _ _ Hs) as Hr. wp_auto. destruct (negb _); wp_auto.
  all: split; [rewrite <- Ha; unfold abs; st_simpl; gv_simpl; reflexivity|].
  all: rest_puts; done.
Qed.

Lemma thread_flags_set_ok t flags g :
  wp (osThreadFlagsSet t flags) (fun _ => refines g (fun s => s)) g.
Proof.
  unfold osThreadFlagsSet, on_notif. wp_auto.
  apply wp_preempt_isr. intros g1 Hs _ _. wp_auto. split.
  - pose proof (isr_abs _ _ Hs) as Ha. exact Ha.
  - etrans; [apply rest_notifs|]. etrans; [by apply isr_rest|apply rest_notifs].
Qed.

Lemma forward_pong_ok p g :
  packet_of g g_rs422_received_packet = p ->
  wp forward_pong (fun _ => refines g (spec_pong p)) g.
Proof.
  intros Hp. unfold forward_pong. wp_auto. rewrite Hp.
  change (_ && _) with (awaited p (abs g)).
  destruct (awaited p (abs g)) eqn:Ea; wp_auto; [|split; [unfold spec_pong; by rewrite Ea|reflexivity]].
  eapply wp_mono; [apply note_matching_pong_ok|]. intros _ g1 [Ha1 Hr1]. wp_auto.
  set (g2 := put _ _ (put _ _ g1)).
  assert (abs g2 = (abs g) <| fw_pending := 0 |> <| fw_pongs := u32 (fw_pongs (abs g) + 1) |>) as Ha2
    by by rewrite <- Ha1.
  assert (rest g g2) as Hr2 by (unfold g2; rest_puts; done).
  eapply wp_mono; [apply put_received_ok|]. intros b g3 Hd.
  pose proof (put_done_tcp _ _ _ Hd) as Ha3. pose proof (pd_accepted _ _ _ _ Hd) as Hb.
  assert (rest g g3) as Hr3 by (etrans; [exact Hr2|exact (pd_rest _ _ _ _ Hd)]).
  rewrite (rest_packet _ _ Hr2), Hp, Ha2 in Ha3.
  change (queue_of g2 tcp_response_queue) with (fw_tcp (abs g2)) in Hb. rewrite Ha2 in Hb.
  change (b = accepts tcp_response_queue (fw_tcp (abs g))) in Hb.
  destruct b; wp_auto.
  - set (g4 := put _ _ g3).
    assert (refines g (spec_pong p) g4) as [Ha4 Hr4].
    { split; [|unfold g4; rest_puts; done].
      transitivity ((abs g3) <| fw_tcp_ok := u32 (fw_tcp_ok (abs g3) + 1) |>); [done|].
      rewrite Ha3. unfold spec_pong. rewrite Ea. cbv zeta. rewrite <- Hb. done. }
    destruct (negb _); wp_auto; [|by split].
    eapply wp_mono; [apply thread_flags_set_ok|]. intros _ g5 [Ha5 Hr5].
    split; [by rewrite Ha5|by etrans].
  - split; [|rest_puts; done].
    transitivity ((abs g3) <| fw_tcp_fail := u32 (fw_tcp_fail (abs g3) + 1) |>); [done|].
    rewrite Ha3. unfold spec_pong. rewrite Ea. cbv zeta. rewrite <- Hb. done.
Qed.

Definition matches (expected_pong_sequence match_pong : Z) (p : protocol_packet_t) : bool :=
  negb (match_pong =? 0) && is_pong p && (pkt_seq p =? expected_pong_sequence).

Lemma handle_frame_ok e m matching p g :
  packet_of g g_rs422_received_packet = p ->
  wp (rs422_handle_frame e m matching)
    (fun r g' => refines g (fun s => spec_frame s p) g' /\
       r = if matches e m p then 1 else matching) g.
Proof.
  intros Hp. unfold rs422_handle_frame. apply wp_bind.
  eapply wp_mono; [apply note_valid_frame_ok|]. intros ? g1 H1. apply wp_bind.
  eapply wp_mono; [apply (forward_telemetry_ok p); by rewrite (rest_packet _ _ (proj2 H1))|].
  intros ? g2 H2. pose proof (refines_trans _ _ _ _ _ H1 H2) as H12. wp_auto.
  assert (packet_of g2 g_rs422_received_packet = p) as Hp2
    by by rewrite (rest_packet _ _ (proj2 H12)).
  rewrite Hp2. eapply wp_mono; [by apply (forward_pong_ok p)|]. intros ? g3 H3. wp_auto.
  split; [|done]. apply (refines_trans _ _ _ _ _ H12 H3).
Qed.

(** *** The whole drain *)

(** The bytes [bs] taken from [g] to [g'] and the result [r]. *)
Record drained (e m matching : Z) (bs : list Z) g (r : Z) (g' : gateway D) : Prop := {
  dr_parse : exists es,
    feed_bytes (parser_of g g_rs422_parser) bs (packet_of g g_rs422_received_packet) =
      (es, parser_of g' g_rs422_parser, packet_of g' g_rs422_received_packet) /\
    abs g' = fold_left spec_frame (packets es) (abs g) /\
    r = if existsb (matches e m) (packets es) then 1 else matching;
  dr_empty : ring_wf (rx_ring g') /\ ring_contents (rx_ring g') = [];
  dr_bytes : exists later, bs = ring_contents (rx_ring g) ++ later /\
    ((horizon <= epoch g)%nat -> later = []);
  dr_epoch : (epoch g < epoch g')%nat
}.

Lemma pop_byte_ok g :
  ring_wf (rx_ring g) ->
  wp rs422_pop_byte (fun b g' =>
    abs g' = abs g /\ parser_of g' = parser_of g /\ packet_of g' = packet_of g /\
    epoch g' = S (epoch g) /\ popped horizon g b (rx_ring g')) g.
Proof.
  intros Hwf. unfold rs422_pop_byte. apply wp_bind. apply wp_preempt_isr. intros g1 Hs He _.
  pose proof (isr_abs _ _ Hs) as Ha. destruct Hs as [_ Hp Hs _ _ Hr].
  pose proof (pop_after_isr _ _ _ Hwf Hr) as Hpop.
  wp_auto. destruct (rs422_rx_ring_pop (rx_ring g1)) as [b r]. wp_auto. done.
Qed.

(** Fuel that is enough: one round per kernel call before the silence, and
    one per byte then waiting. *)
Definition drain_fuel (n : nat) g : Prop :=
  if (epoch g <? horizon)%nat then (horizon - epoch g + 513 <= n)%nat
  else (length (ring_contents (rx_ring g)) < n)%nat.

Lemma drain_fuel_step n x g acc g1 g3 :
  drain_fuel (S n) g -> epoch g1 = S (epoch g) -> ring_wf (rx_ring g1) ->
  ((horizon <= epoch g)%nat -> acc = []) ->
  ring_contents (rx_ring g) ++ acc = x :: ring_contents (rx_ring g1) ->
  isr_ring horizon g1 g3 ->
  drain_fuel n g3 /\ ring_wf (rx_ring g3) /\
  exists acc', ring_contents (rx_ring g3) = ring_contents (rx_ring g1) ++ acc' /\
    ((horizon <= epoch g)%nat -> acc' = []).
Proof.
  intros Hf He Hwf Hq Hc [He3 (bs & Er & Hq3)].
  destruct (isr_bytes_ring bs _ Hwf) as [Hwf3 [acc' Hc3]]. rewrite <- Er in Hwf3, Hc3.
  split; [|split; [done|]; exists acc'; split; [done|]; intros Hh].
  2: { rewrite Er, Hq3 in Hc3 by lia. symmetry in Hc3. apply (app_inv_head (ring_contents (rx_ring g1))).
       by rewrite app_nil_r. }
  pose proof (ring_bound_law _ Hwf3) as Hb. cbn [ring_capacity rs422_byte_ring] in Hb.
  unfold drain_fuel in *.
  destruct (Nat.ltb_spec (epoch g) horizon), (Nat.ltb_spec (epoch g3) horizon); [lia|lia|lia|].
  rewrite Hq in Hc by done. rewrite Er, Hq3 by lia.
  change (isr_bytes [] (rx_ring g1)) with (rx_ring g1).
  rewrite app_nil_r in Hc. rewrite Hc in Hf. cbn [length] in Hf. lia.
Qed.

(** One byte taken, with its frame handled. *)
Definition byte_handled (e m matching x : Z) g1 (r : Z) g3 : Prop :=
  exists ev,
    feed_byte (parser_of g1 g_rs422_parser) x (packet_of g1 g_rs422_received_packet) =
      (ev, parser_of g3 g_rs422_parser, packet_of g3 g_rs422_received_packet) /\
    let ps := packets [(ev, packet_of g3 g_rs422_received_packet)] in
    abs g3 = fold_left spec_frame ps (abs g1) /\
    r = (if existsb (matches e m) ps then 1 else matching) /\ isr_ring horizon g1 g3.

Lemma byte_ok {A} e m matching x (k : Z -> M D A) Q g1 :
  (forall r g3, byte_handled e m matching x g1 r g3 -> wp (k r) Q g3) ->
  wp (parser_event ← rs422_feed_byte x;
      r ← (if decide (parser_event = STREAM_EVENT_FRAME)
           then rs422_handle_frame e m matching else mret matching);
      k r) Q g1.
Proof.
  intros Hk. unfold rs422_feed_byte. wp_auto.
  destruct (feed_byte (parser_of g1 g_rs422_parser) x (packet_of g1 g_rs422_received_packet))
    as [[ev p'] out'] eqn:Ef. wp_auto.
  match goal with |- wp _ _ ?g => set (g2 := g) end.
  assert (parser_of g2 g_rs422_parser = p' /\ packet_of g2 g_rs422_received_packet = out' /\
    abs g2 = abs g1 /\ isr_ring horizon g1 g2) as (P1 & P2 & P3 & P4).
  { split; [apply upd_eq|]. split; [apply upd_eq|]. split; [done|]. split; [done|]. by exists []. }
  destruct (decide _) as [->|Hev].
  - eapply wp_mono; [apply (handle_frame_ok _ _ _ out'); done|].
    intros r g3 [[Ha [R1 R2 R3]] Hr]. apply Hk. exists STREAM_EVENT_FRAME.
    rewrite R1, R2, P1, P2. split; [done|].
    change (packets [(STREAM_EVENT_FRAME, out')]) with [out']. cbn [existsb fold_left].
    split; [by rewrite Ha, P3|]. split; [by rewrite Hr, orb_false_r|]. by etrans.
  - wp_auto. apply Hk. exists ev. rewrite P1, P2, packets_cons, decide_False by done.
    split; [done|]. done.
Qed.

Lemma rx_loop_ok n e m matching g :
  ring_wf (rx_ring g) -> drain_fuel n g ->
  wp (rs422_rx_loop n e m matching) (fun r g' => exists bs, drained e m matching bs g r g') g.
Proof.
  revert matching g. induction n as [|n IH]; intros matching g Hwf Hf.
  { exfalso. unfold drain_fuel in Hf. destruct (_ <? _)%nat; lia. }
  cbn [rs422_rx_loop]. apply wp_bind. eapply wp_mono; [by apply pop_byte_ok|].
  intros b g1 (Ha & Hp & Hk & He & Hwf1 & acc & Hq & Hc). destruct b as [x|]; [|wp_auto].
  - apply byte_ok. intros r1 g3 (ev & Ef & Ha3 & Hr & Hri).
    destruct (drain_fuel_step n x g acc g1 g3 Hf He Hwf1 Hq Hc Hri) as (Hf3 & Hwf3 & acc' & Hc3 & Hq3).
    eapply wp_mono; [by apply IH|].
    intros r g' [bs [(es & E1 & E2 & E3) Hem (later & Eb & Hl) Hep]]. exists (x :: bs). split.
    + exists ((ev, packet_of g3 g_rs422_received_packet) :: es). cbn [feed_bytes].
      rewrite <- Hp, <- Hk, Ef, E1. split; [done|].
      change ((ev, packet_of g3 g_rs422_received_packet) :: es)
        with ([(ev, packet_of g3 g_rs422_received_packet)] ++ es).
      rewrite packets_app, fold_left_app, existsb_app, E2, Ha3, Ha, E3, Hr.
      split; [done|]. destruct (existsb _ (packets es)); [by rewrite orb_true_r|].
      by rewrite orb_false_r.
    + done.
    + exists (acc ++ acc' ++ later). rewrite app_assoc, Hc, Eb, Hc3. cbn. rewrite app_assoc.
      split; [done|]. intros Hh. destruct Hri as [Hri _]. rewrite Hq, Hq3, Hl by (done || lia). done.
    + destruct Hri as [Hri _]. lia.
  - exists []. destruct Hc as [Hc1 Hc2]. apply app_eq_nil in Hc1 as [Hc1 _]. split.
    + exists []. rewrite Ha, Hp, Hk. done.
    + done.
    + exists []. by rewrite Hc1.
    + lia.
Qed.
End Frame.

(** ** What the specification means *)

Lemma spec_telemetry_keeps p s :
  fw_active (spec_telemetry p s) = fw_active s /\ fw_pending (spec_telemetry p s) = fw_pending s /\
  fw_pending_seq (spec_telemetry p s) = fw_pending_seq s /\
  fw_tcp (spec_telemetry p s) = fw_tcp s /\ fw_pongs (spec_telemetry p s) = fw_pongs s.
Proof.
  unfold spec_telemetry. destruct (is_telemetry p), s as [en ? ? ? ? ? ? ? ? ? ? q ?]; cbn; [|done].
  destruct (en =? 0); [done|]. destruct (accepts _ q); done.
Qed.

Lemma spec_frame_pong p s :
  let s' := spec_frame s p in
  let hit := awaited p s in
  fw_active s' = fw_active s /\ fw_pending_seq s' = fw_pending_seq s /\
  fw_pending s' = (if hit then 0 else fw_pending s) /\
  fw_pongs s' = (if hit then u32 (fw_pongs s + 1) else fw_pongs s) /\
  fw_tcp s' = (if hit then offer tcp_response_queue (fw_tcp s) p else fw_tcp s).
Proof.
  cbv zeta. unfold spec_frame.
  set (s0 := s <| fw_frames := _ |>).
  destruct (spec_telemetry_keeps p s0) as (E1 & E2 & E3 & E4 & E5).
  unfold spec_pong. set (s1 := spec_telemetry p s0) in *.
  assert (awaited p s1 = awaited p s) as -> by (unfold awaited; rewrite E1, E2, E3; done).
  change (fw_tcp s0) with (fw_tcp s) in E4. change (fw_pongs s0) with (fw_pongs s) in E5.
  change (fw_active s0) with (fw_active s) in E1. change (fw_pending s0) with (fw_pending s) in E2.
  change (fw_pending_seq s0) with (fw_pending_seq s) in E3.
  destruct (awaited p s); [|done]. cbv zeta. rewrite E4, E5.
  destruct (accepts _ (fw_tcp s)); cbn; rewrite E1, E3; done.
Qed.

Lemma awaited_settled p s : fw_pending s = 0 -> awaited p s = false.
Proof. intros H. unfold awaited. rewrite H. cbn. by rewrite andb_false_r. Qed.

Lemma fold_pong ps s :
  let s' := fold_left spec_frame ps s in
  match find (fun p => awaited p s) ps with
  | Some p => fw_pending s' = 0 /\ fw_pongs s' = u32 (fw_pongs s + 1) /\
              fw_tcp s' = offer tcp_response_queue (fw_tcp s) p
  | None => fw_pending s' = fw_pending s /\ fw_pongs s' = fw_pongs s /\ fw_tcp s' = fw_tcp s
  end.
Proof.
  revert s. induction ps as [|p ps IH]; intros s; [done|]. cbn [fold_left find]. cbv zeta.
  destruct (spec_frame_pong p s) as (E1 & E2 & E3 & E4 & E5). specialize (IH (spec_frame s p)).
  destruct (awaited p s) eqn:Ea.
  - assert (find (fun q => awaited q (spec_frame s p)) ps = None) as Hn.
    { clear IH. induction ps as [|q ps IHp]; [done|]. cbn [find]. rewrite awaited_settled by done. done. }
    cbv zeta in IH. rewrite Hn in IH. destruct IH as (-> & -> & ->). done.
  - assert (forall q, awaited q (spec_frame s p) = awaited q s) as Hq
      by (intros q; unfold awaited; rewrite E1, E2, E3; done).
    cbv zeta in IH. rewrite E3, E4, E5 in IH.
    replace (find (fun q => awaited q (spec_frame s p)) ps) with (find (fun q => awaited q s) ps) in IH
      by (clear -Hq; induction ps as [|q ps IHp]; [done|]; cbn; rewrite Hq, IHp; done).
    done.
Qed.

(** The telemetry a queue with contents [l] takes from [ps]. *)
Definition telemetry_of (ps : list protocol_packet_t) : list protocol_packet_t :=
  List.filter is_telemetry ps.
Definition room (l : list protocol_packet_t) : nat :=
  (Z.to_nat (queue_depth udp_telemetry_queue) - length l)%nat.

Lemma spec_frame_udp p s :
  fw_enabled s <> 0 ->
  let s' := spec_frame s p in
  fw_enabled s' = fw_enabled s /\
  fw_frames s' = u32 (fw_frames s + 1) /\
  if is_telemetry p then
    fw_telemetry s' = u32 (fw_telemetry s + 1) /\
    fw_udp s' = offer udp_telemetry_queue (fw_udp s) p /\
    fw_udp_ok s' = (if accepts udp_telemetry_queue (fw_udp s) then u32 (fw_udp_ok s + 1)
                    else fw_udp_ok s) /\
    fw_udp_fail s' = (if accepts udp_telemetry_queue (fw_udp s) then fw_udp_fail s
                      else u32 (fw_udp_fail s + 1))
  else
    fw_telemetry s' = fw_telemetry s /\ fw_udp s' = fw_udp s /\ fw_udp_ok s' = fw_udp_ok s /\
    fw_udp_fail s' = fw_udp_fail s.
Proof.
  intros He. cbv zeta. unfold spec_frame, spec_pong, spec_telemetry.
  destruct s as [en ac pe ps fr te uo uf po to tf uq tq]. cbn [fw_enabled] in He.
  destruct (is_telemetry p); cbn.
  - destruct (en =? 0) eqn:E; [lia|]. destruct (accepts udp_telemetry_queue uq); cbn.
    all: destruct (awaited p _); [destruct (accepts tcp_response_queue tq)|]; cbn; done.
  - destruct (awaited p _); [destruct (accepts tcp_response_queue tq)|]; cbn; done.
Qed.

Lemma room_full l : room l = 0%nat -> accepts udp_telemetry_queue (Some l) = false.
Proof. unfold room, accepts. intros H. lia. Qed.

Lemma room_left l n p :
  room l = S n -> accepts udp_telemetry_queue (Some l) = true /\ room (l ++ [p]) = n.
Proof. unfold room, accepts. rewrite length_app. cbn [length]. intros H. split; lia. Qed.

Lemma fold_udp ps s l :
  fw_enabled s <> 0 -> fw_udp s = Some l ->
  let s' := fold_left spec_frame ps s in
  let tl := telemetry_of ps in
  let k := Nat.min (room l) (length tl) in
  fw_udp s' = Some (l ++ take (room l) tl) /\
  u32 (fw_frames s') = u32 (fw_frames s + Z.of_nat (length ps)) /\
  u32 (fw_telemetry s') = u32 (fw_telemetry s + Z.of_nat (length tl)) /\
  u32 (fw_udp_ok s') = u32 (fw_udp_ok s + Z.of_nat k) /\
  u32 (fw_udp_fail s') = u32 (fw_udp_fail s + Z.of_nat (length tl - k)).
Proof.
  revert s l. induction ps as [|p ps IH]; intros s l He Hl; cbv zeta.
  { cbn. rewrite take_nil, app_nil_r, !Nat.min_0_r. cbn. rewrite !Z.add_0_r. done. }
  destruct (spec_frame_udp p s He) as (E1 & E2 & E3). cbn [fold_left].
  unfold telemetry_of in *. cbn [List.filter length].
  destruct (is_telemetry p).
  - destruct E3 as (E3 & E4 & E5 & E6). rewrite Hl in E4, E5, E6. unfold offer in E4.
    destruct (room l) as [|n] eqn:Er.
    + rewrite room_full in E4, E5, E6 by done. destruct (IH (spec_frame s p) l) as (F1 & F2 & F3 & F4 & F5);
        [by rewrite E1|done|]. rewrite Er in F1, F4, F5. cbn [Nat.min take] in *.
      rewrite F1, F2, F3, F4, F5, E2, E3, E5, E6. split; [done|]. cbn [length]. unfold u32. lia.
    + destruct (room_left l n p Er) as [Ea Er']. rewrite Ea in E4, E5, E6.
      destruct (IH (spec_frame s p) (l ++ [p])) as (F1 & F2 & F3 & F4 & F5);
        [by rewrite E1|done|]. rewrite Er' in F1, F4, F5. cbn [length Nat.min take].
      rewrite F1, F2, F3, F4, F5, E2, E3, E5, E6. split; [by rewrite <- app_assoc|].
      unfold u32. lia.
  - destruct E3 as (E3 & E4 & E5 & E6).
    destruct (IH (spec_frame s p) l) as (F1 & F2 & F3 & F4 & F5); [by rewrite E1|by rewrite E4|].
    rewrite F1, F2, F3, F4, F5, E2, E3, E5, E6. split; [done|]. cbn [length]. unfold u32. lia.
Qed.

(** ** Theorems *)
Section Drain.
Context {D : Type} `{!World D} (horizon : nat) `{!IsrOnly D horizon}.
Implicit Types g : gateway D.

(** The drain, with the bytes it takes and the events they cause. *)
Lemma drain_ok e m g Q :
  ring_wf (rx_ring g) -> (horizon - epoch g + 513 <= rounds)%nat ->
  (forall es later r g',
     feed_bytes (parser_of g g_rs422_parser) (ring_contents (rx_ring g) ++ later)
       (packet_of g g_rs422_received_packet) =
       (es, parser_of g' g_rs422_parser, packet_of g' g_rs422_received_packet) ->
     abs g' = fold_left spec_frame (packets es) (abs g) ->
     r = (if existsb (matches e m) (packets es) then 1 else 0) ->
     ring_contents (rx_ring g') = [] -> ((horizon <= epoch g)%nat -> later = []) ->
     Q r g') ->
  wp (rs422_process_rx_buffer e m) Q g.
Proof.
  intros Hwf Hr HQ. eapply wp_mono.
  - apply (rx_loop_ok horizon); [done|]. unfold drain_fuel.
    pose proof (ring_bound_law _ Hwf) as Hb. cbn [ring_capacity rs422_byte_ring] in Hb.
    destruct (_ <? _)%nat; lia.
  - intros r g' [bs [(es & E1 & E2 & E3) [_ Hem] (later & -> & Hl) _]]. by eapply HQ.
Qed.
End Drain.

(** The frames the parser delivers from [g] to [g'] are [ps]: it is fed every
    byte that was waiting, then those that arrived. *)
Definition frames_drained {D} (g g' : gateway D) (ps : list protocol_packet_t) : Prop :=
  exists later es,
    feed_bytes (parser_of g g_rs422_parser) (ring_contents (rx_ring g) ++ later)
      (packet_of g g_rs422_received_packet) =
      (es, parser_of g' g_rs422_parser, packet_of g' g_rs422_received_packet) /\
    ps = packets es.

(** C2: Draining the receive ring: with interrupts pushing further bytes
    meanwhile, [rs422_process_rx_buffer] terminates with the ring empty, after
    feeding the parser every byte that was waiting, in order, and then those
    that arrived; its effect on the counters, the pending PING and the two
    queues is that of the abstract specification on the frames the parser
    delivers, one after the other; and it reports a match exactly when a match
    was asked for and one of these frames is a PONG with that sequence number. *)
Theorem rs422_drain_refines {D} `{!World D} horizon `{!IsrOnly D horizon} expected match_pong
    (g : gateway D) :
  ring_wf (rx_ring g) -> (horizon - epoch g + 513 <= rounds)%nat ->
  wp (rs422_process_rx_buffer expected match_pong) (fun r g' =>
    ring_contents (rx_ring g') = [] /\
    exists ps, frames_drained g g' ps /\
      abs g' = fold_left spec_frame ps (abs g) /\
      (r = 1 <-> match_pong <> 0 /\
                 exists p, In p ps /\ pkt_msg_id p = MSG_PONG /\ pkt_seq p = expected)) g.
Proof.
  intros Hwf Hr. apply (drain_ok horizon); [done|done|]. intros es later r g' E1 E2 E3 E4 _.
  split; [done|]. exists (packets es). split; [by exists later, es|]. split; [done|]. rewrite E3.
  destruct (existsb _ _) eqn:Ex.
  - apply existsb_exists in Ex as (p & Hp & Hm). unfold matches, is_pong in Hm.
    split; [intros _|done]. split; [lia|]. exists p. split; [done|]. lia.
  - split; [done|]. intros (Hm & p & Hp & H1 & H2).
    rewrite <- not_true_iff_false, existsb_exists in Ex. destruct Ex. exists p. split; [done|].
    unfold matches, is_pong. lia.
Qed.

(** C5: PONG forwarding: while a PING of the TCP client is pending in an active
    session, the first received PONG with its sequence number goes to the TCP
    response queue (if it has room) and settles the PING, so that no later
    PONG of the drain is forwarded; otherwise nothing is. *)
Theorem pong_forwarded_at_most_once {D} `{!World D} horizon `{!IsrOnly D horizon}
    expected match_pong (g : gateway D) :
  ring_wf (rx_ring g) -> (horizon - epoch g + 513 <= rounds)%nat ->
  wp (rs422_process_rx_buffer expected match_pong) (fun _ g' =>
    exists ps, frames_drained g g' ps /\
    match find (fun p => is_pong p && negb (var g g_w5500_tcp_session_active =? 0) &&
                 negb (var g g_rs422_tcp_ping_pending =? 0) &&
                 (pkt_seq p =? var g g_rs422_tcp_ping_pending_seq)) ps with
    | Some p =>
        var g' g_rs422_tcp_ping_pending = 0 /\
        var g' g_rs422_forwarded_pong_rx_count = u32 (var g g_rs422_forwarded_pong_rx_count + 1) /\
        queue_of g' tcp_response_queue = offer tcp_response_queue (queue_of g tcp_response_queue) p
    | None =>
        var g' g_rs422_tcp_ping_pending = var g g_rs422_tcp_ping_pending /\
        var g' g_rs422_forwarded_pong_rx_count = var g g_rs422_forwarded_pong_rx_count /\
        queue_of g' tcp_response_queue = queue_of g tcp_response_queue
    end) g.
Proof.
  intros Hwf Hr. apply (drain_ok horizon); [done|done|]. intros es later r g' E1 E2 _ _ _.
  exists (packets es). split; [by exists later, es|].
  pose proof (fold_pong (packets es) (abs g)) as H. rewrite <- E2 in H. exact H.
Qed.

(** C31: Telemetry forwarding, once enabled: the telemetry frames received join
    the UDP queue in order until it is full and the rest are dropped, and the
    counters account for every frame received, queued and dropped. *)
Theorem telemetry_queued_or_counted {D} `{!World D} horizon `{!IsrOnly D horizon}
    expected match_pong (g : gateway D) l :
  ring_wf (rx_ring g) -> (horizon - epoch g + 513 <= rounds)%nat ->
  var g g_rs422_telemetry_forwarding_enabled <> 0 -> queue_of g udp_telemetry_queue = Some l ->
  wp (rs422_process_rx_buffer expected match_pong) (fun _ g' =>
    exists ps, frames_drained g g' ps /\
    let tl := telemetry_of ps in
    let k := Nat.min (room l) (length tl) in
    queue_of g' udp_telemetry_queue = Some (l ++ take k tl) /\
    u32 (var g' g_rs422_rx_frame_count) =
      u32 (var g g_rs422_rx_frame_count + Z.of_nat (length ps)) /\
    u32 (var g' g_rs422_telemetry_rx_count) =
      u32 (var g g_rs422_telemetry_rx_count + Z.of_nat (length tl)) /\
    u32 (var g' g_udp_telemetry_enqueue_success_count) =
      u32 (var g g_udp_telemetry_enqueue_success_count + Z.of_nat k) /\
    u32 (var g' g_udp_telemetry_enqueue_fail_count) =
      u32 (var g g_udp_telemetry_enqueue_fail_count + Z.of_nat (length tl - k))) g.
Proof.
  intros Hwf Hr He Hl. apply (drain_ok horizon); [done|done|]. intros es later r g' E1 E2 _ _ _.
  exists (packets es). split; [by exists later, es|].
  pose proof (fold_udp (packets es) (abs g) l He Hl) as H. rewrite <- E2 in H. cbv zeta in *.
  destruct H as (H1 & H). split; [|exact H].
  replace (take _ _) with (take (room l) (telemetry_of (packets es))); [exact H1|].
  destruct (Nat.min_spec (room l) (length (telemetry_of (packets es)))) as [[_ ->]|[Hle ->]]; [done|].
  rewrite !take_ge by done. done.
Qed.

(** ** Witnesses: a PONG and a telemetry frame are waiting *)

#[export] Instance demo_isr_only : IsrOnly demo_hw 0.
Proof.
  intros g. cbv zeta. split; [|split; [done|]].
  - split; [done|done|done|done|done|]. split; [cbn; lia|]. by exists [].
  - apply (demo_env_ticks (epoch g) (g <| epoch := S (epoch g) |>)).
Qed.

Definition empty_message (id seq : Z) : protocol_packet_t := mk_packet 1 id seq 0 (replicate 256 0).

(** A session with PING [seq] pending and [bs] in the ring. *)
Definition demo_waiting (seq : Z) (bs : list Z) : gateway demo_hw :=
  put g_w5500_tcp_session_active 1 (put g_rs422_tcp_ping_pending 1
    (put g_rs422_tcp_ping_pending_seq seq (put g_rs422_telemetry_forwarding_enabled 1
      (demo_gateway <| rx_ring := isr_bytes bs (empty_rs422_ring 0) |>
                    <| parser_of := fun _ => parser_init |>)))).

Lemma demo_ring_wf bs : ring_wf (isr_bytes bs (empty_rs422_ring 0)).
Proof.
  apply isr_bytes_ring. split; [reflexivity|]. split; [by vm_compute|]. split; by vm_compute.
Qed.

Lemma rs422_drain_refines_witness :
  wp (rs422_process_rx_buffer 7 1) (fun _ g' => ring_contents (rx_ring g') = [])
    (demo_waiting 7 (frame_of (empty_message MSG_PONG 7))).
Proof.
  eapply wp_mono.
  - apply (rs422_drain_refines 0); [apply demo_ring_wf|apply Nat.leb_le; reflexivity].
  - intros r g' [H _]. exact H.
Defined.

Lemma pong_forwarded_at_most_once_witness :
  wp (rs422_process_rx_buffer 0 0)
    (fun _ g' => queue_of g' tcp_response_queue <> None)
    (demo_waiting 7 (frame_of (empty_message MSG_PONG 7))).
Proof.
  eapply wp_mono.
  - apply (pong_forwarded_at_most_once 0); [apply demo_ring_wf|apply Nat.leb_le; reflexivity].
  - intros r g' (ps & _ & H). destruct (find _ ps) in H.
    + destruct H as (_ & _ & E). rewrite E. discriminate.
    + destruct H as (_ & _ & E). rewrite E. discriminate.
Defined.

Lemma telemetry_queued_or_counted_witness :
  wp (rs422_process_rx_buffer 0 0)
    (fun _ g' => exists tl, queue_of g' udp_telemetry_queue = Some tl)
    (demo_waiting 7 (frame_of (empty_message MSG_TELEMETRY 3))).
Proof.
  eapply wp_mono.
  - apply (telemetry_queued_or_counted 0 _ _ _ []);
      [apply demo_ring_wf|apply Nat.leb_le; reflexivity|discriminate|reflexivity].
  - intros r g' (ps & _ & E & _). eexists. exact E.
Defined.

(** The PONG reaches the queue, and a second copy of it is not forwarded. *)
Example pong_forwarded_once :
  let f := frame_of (empty_message MSG_PONG 7) in
  match rs422_process_rx_buffer 0 0 (demo_waiting 7 (f ++ f)) with
  | Some (_, g) => (option_map (@length _) (queue_of g tcp_response_queue),
                    var g g_rs422_rx_frame_count) = (Some 1%nat, 2)
  | None => False
  end.
Proof. vm_compute. reflexivity. Qed.
