(* ===== verification/GwTransmit.v ===== *)
(** * Transmission on the RS-422 line

    Waiting for notifications, waiting for the end of a transmission,
    forwarding a command and the power-on ping test: that they end, what they
    send and what state they leave, while interrupts and the other tasks run. *)
From S2P Require Import Prelude Crc16 Protocol StreamParser RxRing GwDiag GwRs422 GwForwarding.
From S2P Require Export GwLogic.
Local Open Scope Z_scope.

(** ** What is assumed of the hardware and the other tasks *)

(** The frames handed to the UART, as the hardware state remembers them. *)
Class UartLog D `{!World D} := {
  uart_log : D -> list (list Z);
  uart_log_tx tx d : uart_log (uart_transmit_it tx d).2 = uart_log d ++ [tx];
  uart_tx_status tx d : 0 <= (uart_transmit_it tx d).1
}.

(** Variables that only the RS-422 task writes: the tests of the power-on run,
    and the account of transmissions. *)
Definition test_vars : list gvar :=
  map Rs422Var [g_rs422_test_total; g_rs422_test_success; g_rs422_test_fail].
Definition count_vars : list gvar :=
  map Rs422Var [g_rs422_tx_complete_count; g_rs422_tx_error_count;
    g_rs422_tx_timeout_count; g_rs422_tx_busy_count].
Definition quiet_vars : list gvar := count_vars ++ test_vars.
Definition tx_vars : list gvar := Rs422Var g_rs422_tx_busy :: quiet_vars.

Definition flag_range (z : Z) : Prop := 0 <= z < 2147483648.

(** The RS-422 task's notification was left alone, or flags were set before
    the [horizon]. *)
Definition notif_step {D} (horizon : nat) (g g' : gateway D) : Prop :=
  notif_of g' RS422Task = notif_of g RS422Task \/
  (epoch g < horizon)%nat /\
  exists f, flag_range f /\ notif_of g' RS422Task = notify_set_bits f (notif_of g RS422Task).

Definition rs422_packet (p : pvar) : bool :=
  match p with
  | g_rs422_ping_packet | g_rs422_command_packet | g_rs422_received_packet => true
  | _ => false
  end.

(** A kernel call: interrupts push bytes and set flags, the other tasks set
    flags; none of them touches what belongs to this task. *)
Record rs_step {D} `{!World D} `{!UartLog D} (horizon : nat) (g g' : gateway D) : Prop := {
  rs_epoch : epoch g' = S (epoch g);
  rs_ring : isr_ring horizon g g';
  rs_notif : notif_step horizon g g';
  rs_vars : same_vars tx_vars g g';
  rs_packets p : rs422_packet p = true -> packet_of g' p = packet_of g p;
  rs_frame : array_of g' g_rs422_tx_frame = array_of g g_rs422_tx_frame;
  rs_log : uart_log (hw g') = uart_log (hw g)
}.

Class RsWorld D `{!World D} `{!UartLog D} (horizon : nat) := rs_world (g : gateway D) :
  rs_step horizon g (env (epoch g) (g <| epoch := S (epoch g) |>)).

(** ** Flag arithmetic *)

Lemma flag_bits z : flag_range z <-> 0 <= z /\ forall n, 31 <= n -> Z.testbit z n = false.
Proof.
  unfold flag_range. change 2147483648 with (2 ^ 31). split.
  - intros Hz. split; [lia|]. intros n Hn. destruct (Z.eq_dec z 0) as [->|]; [apply Z.bits_0|].
    apply Z.bits_above_log2; [lia|]. assert (Z.log2 z < 31) by (apply Z.log2_lt_pow2; lia). lia.
  - intros [Hz Hb]. assert (z mod 2 ^ 31 = z) as E.
    { apply Z.bits_inj'. intros n Hn. destruct (Z.lt_ge_cases n 31).
      - apply Z.mod_pow2_bits_low. done.
      - rewrite Z.mod_pow2_bits_high, Hb by lia. done. }
    pose proof (Z.mod_pos_bound z (2 ^ 31)). lia.
Qed.

Lemma flag_lor a b : flag_range a -> flag_range b -> flag_range (Z.lor a b).
Proof.
  rewrite !flag_bits. intros [Ha Ba] [Hb Bb]. split; [by apply Z.lor_nonneg|].
  intros n Hn. rewrite Z.lor_spec, Ba, Bb by done. done.
Qed.

Lemma flag_land a b : flag_range a -> flag_range (Z.land a b).
Proof.
  rewrite !flag_bits. intros [Ha Ba]. split; [apply Z.land_nonneg; auto|].
  intros n Hn. rewrite Z.land_spec, Ba by done. done.
Qed.

Lemma flag_ldiff a b : flag_range a -> flag_range (Z.ldiff a b).
Proof.
  rewrite !flag_bits. intros [Ha Ba]. split; [apply Z.ldiff_nonneg; auto|].
  intros n Hn. rewrite Z.ldiff_spec, Ba by done. done.
Qed.

Lemma flags_error_range z : flag_range z -> flags_error z = false.
Proof.
  intros [Hz Hb]%flag_bits. unfold flags_error.
  assert (Z.land z osFlagsError = 0) as ->; [|done].
  apply Z.bits_inj'. intros n Hn. rewrite Z.land_spec, Z.bits_0.
  change osFlagsError with (2 ^ 31). destruct (Z.eq_dec n 31) as [->|Hne].
  - rewrite Hb by done. done.
  - rewrite Z.pow2_bits_false, andb_false_r by done. done.
Qed.

Lemma flag_zero : flag_range 0.
Proof. unfold flag_range. lia. Qed.

(** ** What the task's routines leave alone *)
Section Transmit.
Context {D : Type} `{!World D} `{!UartLog D} (horizon : nat) `{!RsWorld D horizon}.
Hypothesis enough : (2 * horizon + 514 <= rounds)%nat.
Implicit Types g : gateway D.

Definition flags_of g : notification := notif_of g RS422Task.

(** The messages under transmission. *)
Definition tx_packet (p : pvar) : bool :=
  match p with g_rs422_ping_packet | g_rs422_command_packet => true | _ => false end.

(** A bound on how often a wait can still be ended by flags. *)
Definition patience g : nat :=
  2 * (horizon - epoch g) + (if notify_received (flags_of g) then 1 else 0).

(** The variables [l], the messages and what was transmitted stay; ring and
    flags stay well-formed. *)
Record steady (l : list gvar) g g' : Prop := {
  st_ring : ring_wf (rx_ring g) -> ring_wf (rx_ring g');
  st_flags : flag_range (notified_value (flags_of g)) -> flag_range (notified_value (flags_of g'));
  st_vars : same_vars l g g';
  st_packets p : tx_packet p = true -> packet_of g' p = packet_of g p;
  st_frame : array_of g' g_rs422_tx_frame = array_of g g_rs422_tx_frame;
  st_log : uart_log (hw g') = uart_log (hw g)
}.

(** The same, and no more flags to come than before. *)
Record leaves (l : list gvar) g g' : Prop := {
  lv_steady : steady l g g';
  lv_epoch : (epoch g <= epoch g')%nat;
  lv_patience : (patience g' <= patience g)%nat
}.

#[export] Instance steady_preorder l : PreOrder (steady l).
Proof.
  split; [by intros g; split|]. intros g1 g2 g3 [R1 F1 V1 P1 A1 L1] [R2 F2 V2 P2 A2 L2].
  split; [auto|auto|by etrans| |congruence|congruence]. intros p Hp. by rewrite P2, P1.
Qed.
#[export] Instance leaves_preorder l : PreOrder (leaves l).
Proof.
  split; [by intros g; split|]. intros g1 g2 g3 [S1 E1 B1] [S2 E2 B2]. split; [by etrans|lia|lia].
Qed.

Lemma lv_vars l g g' : leaves l g g' -> same_vars l g g'.
Proof. intros L. apply L. Qed.

Lemma steady_fewer l l' g g' :
  (forall v, mem_var v l' = true -> mem_var v l = true) -> steady l g g' -> steady l' g g'.
Proof. intros H [R F V P A L]. split; try done. intros v Hv. by apply V, H. Qed.

Lemma leaves_env g : leaves tx_vars g (env (epoch g) (g <| epoch := S (epoch g) |>)).
Proof.
  destruct (rs_world g) as [E [_ (bs & R & _)] N V P A L]. split; [split; try done|lia|].
  - intros Hwf. rewrite R. by apply isr_bytes_ring.
  - unfold flags_of. destruct N as [->|(_ & f & Hf & ->)]; [done|]. by intros; apply flag_lor.
  - intros p Hp. apply P. by destruct p.
  - unfold patience, flags_of. rewrite E. destruct N as [->|(Hh & f & Hf & ->)]; [destruct (notify_received _); lia|].
    cbn. lia.
Qed.

Lemma leaves_put l v z g : mem_var v l = false -> leaves l g (put v z g).
Proof. intros H. split; [split; try done|done|done]. by apply same_vars_put. Qed.

(** While a frame is handled the ring only grows. *)
Definition handling g g' : Prop := leaves tx_vars g g' /\ isr_ring horizon g g'.
Definition not_tx (v : gvar) : bool := negb (mem_var v tx_vars).

#[export] Instance handling_closed : Closed handling not_tx.
Proof.
  split.
  - split; [by intros g; split|]. intros g1 g2 g3 [L1 R1] [L2 R2]. split; by etrans.
  - intros g. split; [apply leaves_env|]. apply (rs_world g).
  - intros v z g Hv. split; [by apply leaves_put, negb_true_iff|]. split; [done|]. by exists [].
  - intros f g. split; [by split; [split| |]|]. split; [done|]. by exists [].
  - intros t f g ->. split; [by split; [split| |]|]. split; [done|]. by exists [].
Qed.
#[local] Instance handling_preorder : PreOrder handling.
Proof. apply (closed_preorder (R := handling) (ok := not_tx)). Qed.

Lemma handle_frame_handling e m matching : runs handling (rs422_handle_frame (D := D) e m matching).
Proof.
  unfold rs422_handle_frame, note_valid_frame, forward_telemetry, forward_pong, note_matching_pong,
    put_received, diagnostic_now_ms, diag_interval. runs_auto.
Qed.

Lemma feed_byte_handling x : runs handling (rs422_feed_byte (D := D) x).
Proof.
  intros g. unfold rs422_feed_byte. wp_auto. destruct (feed_byte _ _ _) as [[ev p] o]. wp_auto.
  split; [|split; [done|by exists []]]. split; [split; try done|done|done].
  intros q Hq. st_simpl. apply upd_ne. by destruct q.
Qed.

Lemma pop_leaves g :
  ring_wf (rx_ring g) ->
  wp rs422_pop_byte (fun b g' =>
    leaves tx_vars g g' /\ epoch g' = S (epoch g) /\ popped horizon g b (rx_ring g')) g.
Proof.
  intros Hwf. unfold rs422_pop_byte. apply wp_bind, wp_preempt.
  pose proof (leaves_env g) as L. pose proof (rs_world g) as [E Hr _ _ _ _ _].
  set (g1 := env _ _) in *. pose proof (pop_after_isr _ _ _ Hwf Hr) as Hpop.
  wp_auto. destruct (rs422_rx_ring_pop (rx_ring g1)) as [b r]. wp_auto.
  split; [|done]. destruct L as [[R1 F1 V1 P1 A1 L1] E1 B1]. split; [split; try done|done|done].
  intros _. apply Hpop.
Qed.

(** The drain: a byte less, or the interrupts nearer to their end, at each round. *)
Lemma rx_loop_leaves n e m matching g :
  ring_wf (rx_ring g) -> drain_fuel horizon n g ->
  wp (rs422_rx_loop n e m matching) (fun _ g' => leaves tx_vars g g') g.
Proof.
  revert matching g. induction n as [|n IH]; intros matching g Hwf Hf.
  { exfalso. unfold drain_fuel in Hf. destruct (_ <? _)%nat; lia. }
  cbn [rs422_rx_loop]. apply wp_bind. eapply wp_mono; [by apply pop_leaves|].
  intros b g1 (L1 & E1 & Hwf1 & acc & Hq & Hc). destruct b as [x|]; [|by apply wp_ret].
  apply wp_bind. eapply wp_mono; [apply feed_byte_handling|]. intros ev g2 H2. apply wp_bind.
  assert (runs handling (if decide (ev = STREAM_EVENT_FRAME) then rs422_handle_frame (D := D) e m matching
                         else mret matching)) as Hh
    by (destruct (decide _); [apply handle_frame_handling|apply runs_ret; apply _]).
  eapply wp_mono; [apply Hh|].
  intros r g3 H3. pose proof (transitivity (R := handling) H2 H3) as [L3 R3].
  destruct (drain_fuel_step horizon n x g acc g1 g3 Hf E1 Hwf1 Hq Hc R3) as (Hf3 & Hwf3 & _).
  eapply wp_mono; [by apply IH|]. cbn beta. intros _ g4 L4. etrans; [exact L1|]. by etrans.
Qed.

Lemma process_rx_leaves e m g :
  ring_wf (rx_ring g) -> wp (rs422_process_rx_buffer e m) (fun _ g' => leaves tx_vars g g') g.
Proof.
  intros Hwf. apply rx_loop_leaves; [done|].
  pose proof (ring_bound_law _ Hwf) as Hb. cbn [ring_capacity rs422_byte_ring] in Hb.
  unfold drain_fuel. destruct (Nat.ltb_spec (epoch g) horizon); lia.
Qed.

(** ** Waiting for flags *)

Definition task_ok g : Prop := ring_wf (rx_ring g) /\ flag_range (notified_value (flags_of g)).

Lemma steady_ok l g g' : steady l g g' -> task_ok g -> task_ok g'.
Proof. intros L [Hr Hf]. split; [by apply (st_ring _ _ _ L)|by apply (st_flags _ _ _ L)]. Qed.
Lemma leaves_ok l g g' : leaves l g g' -> task_ok g -> task_ok g'.
Proof. intros L. apply (steady_ok _ _ _ (lv_steady _ _ _ L)). Qed.

(** The notification was consumed: flags in [clear] are gone. *)
Lemma leaves_consumed n g :
  (flag_range (notified_value (flags_of g)) -> flag_range (notified_value n)) ->
  notify_received n = false ->
  leaves tx_vars g (g <| notif_of := upd RS422Task n (notif_of g) |>).
Proof.
  intros Hf Hn. split; [split; try done| |]; unfold patience, flags_of; st_simpl; rewrite ?upd_eq; try done.
  rewrite Hn. destruct (notify_received _); lia.
Qed.

Lemma leaves_ticks t g : leaves tx_vars g (g <| tick := t |>).
Proof. by split; [split| |]. Qed.

(** The result of [xTaskNotifyWait]: flags, and one wait less to come, or none. *)
Definition notified g (r : bool * Z) g' : Prop :=
  leaves tx_vars g g' /\ notify_received (flags_of g') = false /\ (epoch g < epoch g')%nat /\
  (r.1 = true ->
    (flag_range (notified_value (flags_of g)) -> flag_range r.2) /\ (patience g' < patience g)%nat).

Lemma notified_end clear g g2 :
  leaves tx_vars g g2 -> (epoch g < epoch g2)%nat ->
  (notify_received (flags_of g2) = true -> (horizon <= epoch g)%nat -> notify_received (flags_of g) = true) ->
  wp (n ← gets (fun g => notif_of g RS422Task);
      let nval := notified_value n in
      if notify_received n
      then on_notif RS422Task (fun _ => mk_notification (Z.ldiff nval clear) false);; mret (true, nval)
      else on_notif RS422Task (fun n => mk_notification (notified_value n) false);; mret (false, nval))
    (notified g) g2.
Proof.
  intros L2 E2 H2. apply wp_bind, wp_gets. change (notif_of g2 RS422Task) with (flags_of g2).
  pose proof (st_flags _ _ _ (lv_steady _ _ _ L2)) as F2.
  destruct (notify_received (flags_of g2)) eqn:En; unfold on_notif; apply wp_bind, wp_modify, wp_ret;
    change (notif_of g2 RS422Task) with (flags_of g2).
  - assert (leaves tx_vars g2 (g2 <| notif_of :=
      upd RS422Task (mk_notification (Z.ldiff (notified_value (flags_of g2)) clear) false) (notif_of g2) |>)) as L3
      by (apply leaves_consumed; [apply flag_ldiff|done]).
    split; [by etrans|]. split; [unfold flags_of; st_simpl; by rewrite upd_eq|]. split; [done|].
    intros _. split; [done|]. unfold patience, flags_of. st_simpl. rewrite upd_eq. cbn [notify_received].
    destruct (Nat.ltb_spec (epoch g) horizon); [lia|].
    change (notif_of g RS422Task) with (flags_of g). rewrite H2 by done. lia.
  - assert (leaves tx_vars g2 (g2 <| notif_of :=
      upd RS422Task (mk_notification (notified_value (flags_of g2)) false) (notif_of g2) |>)) as L3
      by (by apply leaves_consumed).
    split; [by etrans|]. split; [unfold flags_of; st_simpl; by rewrite upd_eq|]. by split.
Qed.

Lemma received_env g :
  let g' := env (epoch g) (g <| epoch := S (epoch g) |>) in
  notify_received (flags_of g') = true -> (horizon <= epoch g)%nat -> notify_received (flags_of g) = true.
Proof.
  cbv zeta. unfold flags_of. destruct (rs_notif _ _ _ (rs_world g)) as [->|[Hh _]]; [done|lia].
Qed.

Lemma notify_wait_ok clear tout g :
  tout <> osWaitForever -> wp (xTaskNotifyWait RS422Task clear tout) (notified g) g.
Proof.
  intros Ht. unfold xTaskNotifyWait. apply wp_bind, wp_preempt.
  pose proof (leaves_env g) as L1. pose proof (rs_epoch _ _ _ (rs_world g)) as E1.
  pose proof (received_env g) as N1. set (g1 := env _ _) in *. cbv zeta in N1.
  apply wp_bind, wp_gets. change (notif_of g1 RS422Task) with (flags_of g1). apply wp_bind.
  destruct (notify_received (flags_of g1) || (tout =? 0)).
  { apply wp_ret. apply notified_end; [done|lia|done]. }
  apply wp_bind, wp_preempt.
  pose proof (leaves_env g1) as L2. pose proof (rs_epoch _ _ _ (rs_world g1)) as E2.
  pose proof (received_env g1) as N2. set (g2 := env (epoch g1) _) in *. cbv zeta in N2.
  assert (leaves tx_vars g g2) as L by by etrans.
  assert (notify_received (flags_of g2) = true -> (horizon <= epoch g)%nat ->
    notify_received (flags_of g) = true) as N by (intros H3 H4; apply N1; [apply N2; [done|lia]|done]).
  apply wp_bind, wp_gets. change (notif_of g2 RS422Task) with (flags_of g2).
  destruct (notify_received (flags_of g2)) eqn:En.
  { apply wp_ret. apply notified_end; [done|lia|by rewrite En]. }
  replace (tout =? osWaitForever) with false by zlia. apply wp_modify.
  apply notified_end; [by etrans; [exact L|apply leaves_ticks]|st_simpl; lia|].
  change (flags_of (g2 <| tick := u32 (tick g2 + tout) |>)) with (flags_of g2). by rewrite En.
Qed.

(** [osThreadFlagsWait]: flags of the mask, or a time-out, and then none are left. *)
Definition waited g (r : Z) g' : Prop :=
  leaves tx_vars g g' /\ notify_received (flags_of g') = false /\ (epoch g < epoch g')%nat /\
  ((flag_range r /\ (patience g' < patience g)%nat) \/
   r = osFlagsErrorResource \/ r = osFlagsErrorTimeout).

Lemma flags_wait_loop_ok n flags timeout t0 tout rflags g :
  (patience g < n)%nat -> task_ok g -> flag_range rflags -> 0 <= tout < osWaitForever ->
  wp (flags_wait_loop n RS422Task flags timeout t0 tout rflags) (waited g) g.
Proof.
  revert tout rflags g. induction n as [|n IH]; intros tout rflags g Hn Hok Hr Ht; [lia|].
  cbn [flags_wait_loop]. apply wp_bind.
  eapply wp_mono; [apply notify_wait_ok; unfold osWaitForever in *; lia|].
  intros [pass nval] g1 (L1 & N1 & E1 & Hp). cbn [fst snd] in Hp. destruct pass.
  2: { apply wp_ret. split; [done|]. split; [done|]. split; [done|]. destruct (timeout =? 0); auto. }
  destruct Hp as [Hv Hp]; [done|]. specialize (Hv (proj2 Hok)). cbv zeta.
  assert (flag_range (Z.lor (Z.land rflags flags) nval)) as Hr1 by (apply flag_lor; [by apply flag_land|done]).
  destruct (negb _). { apply wp_ret. repeat split; try apply L1; auto. }
  destruct (timeout =? 0). { apply wp_ret. repeat split; try apply L1; auto. }
  apply wp_bind, wp_tick. pose proof (leaves_env g1) as L2. set (g2 := env _ _) in *. cbv zeta.
  assert (leaves tx_vars g g2) as L12 by by etrans.
  pose proof (lv_patience _ _ _ L2) as P2. pose proof (lv_epoch _ _ _ L2) as E2.
  eapply wp_mono; [apply IH; [lia|by eapply leaves_ok|done|]|].
  - destruct (Z.gtb_spec (u32 (tick g2 - t0)) tout); [lia|].
    assert (is_u32 (u32 (tick g2 - t0))) as Hu by width. unfold is_u32 in Hu. lia.
  - cbn beta. intros r g3 (L3 & N3 & E3 & H3). split; [by etrans|]. split; [done|]. split; [lia|].
    destruct H3 as [[H3 H4]|H3]; [|auto]. left. split; [done|lia].
Qed.

Lemma flags_wait_ok flags timeout g :
  task_ok g -> 0 <= timeout < osWaitForever ->
  wp (osThreadFlagsWait RS422Task flags timeout) (waited g) g.
Proof.
  intros Hok Ht. unfold osThreadFlagsWait. apply wp_bind, wp_tick.
  pose proof (leaves_env g) as L1. set (g1 := env _ _) in *. cbv zeta.
  eapply wp_mono; [apply flags_wait_loop_ok; [|by eapply leaves_ok|apply flag_zero|done]|].
  - unfold patience. destruct (notify_received _); lia.
  - cbn beta. intros r g3 (L3 & N3 & E3 & H3). split; [by etrans|]. split; [done|].
    pose proof (lv_epoch _ _ _ L1). pose proof (lv_patience _ _ _ L1). split; [lia|].
    destruct H3 as [[H3 H4]|H3]; [|auto]. left. split; [done|lia].
Qed.

(** ** The account of a transmission *)

(** Exactly one counter goes up: completions, or one of the failures. *)
Record tx_account (pass : bool) g g' : Prop := {
  xa_busy : pass = true -> var g' g_rs422_tx_busy = 0;
  xa_complete : went_up g_rs422_tx_complete_count (if pass then 1 else 0) g g';
  xa_failed : exists errors timeouts busy, 0 <= errors /\ 0 <= timeouts /\ 0 <= busy /\
    errors + timeouts + busy = (if pass then 0 else 1) /\
    went_up g_rs422_tx_error_count errors g g' /\
    went_up g_rs422_tx_timeout_count timeouts g g' /\
    went_up g_rs422_tx_busy_count busy g g'
}.

Lemma account_shift pass g1 g2 g3 g4 :
  same_vars count_vars g1 g2 -> tx_account pass g2 g3 -> same_vars tx_vars g3 g4 -> tx_account pass g1 g4.
Proof.
  intros V [B C (a & b & c & H)] V'. split; unfold went_up in *.
  - intros Hp. rewrite V' by done. auto.
  - by rewrite (V' g_rs422_tx_complete_count), <- (V g_rs422_tx_complete_count) by done.
  - exists a, b, c. by rewrite !V', <- (V g_rs422_tx_error_count), <- (V g_rs422_tx_timeout_count),
      <- (V g_rs422_tx_busy_count) by done.
Qed.

Lemma same_fewer l l' g g' :
  (forall v, mem_var v l' = true -> mem_var v l = true) -> same_vars l g g' -> same_vars l' g g'.
Proof. intros H V v Hv. by apply V, H. Qed.

Lemma quiet_tests v : mem_var v test_vars = true -> mem_var v quiet_vars = true.
Proof. unfold quiet_vars, mem_var. intros Hv. by rewrite existsb_app, Hv, orb_true_r. Qed.
Lemma quiet_counts v : mem_var v count_vars = true -> mem_var v quiet_vars = true.
Proof. unfold quiet_vars, mem_var. intros Hv. by rewrite existsb_app, Hv. Qed.
Lemma tx_quiet v : mem_var v quiet_vars = true -> mem_var v tx_vars = true.
Proof. unfold tx_vars, mem_var. intros Hv. cbn [existsb]. by rewrite Hv, orb_true_r. Qed.

Lemma steady_tests g g' : steady tx_vars g g' -> steady test_vars g g'.
Proof. apply steady_fewer. intros v Hv. by apply tx_quiet, quiet_tests. Qed.
Lemma same_counts g g' : same_vars tx_vars g g' -> same_vars count_vars g g'.
Proof. apply same_fewer. intros v Hv. by apply tx_quiet, quiet_counts. Qed.

(** What a routine that ends a transmission did. *)
Definition transmitted (pass : bool) g g' : Prop := steady test_vars g g' /\ tx_account pass g g'.

Lemma transmitted_steady pass g1 g2 g3 g4 :
  steady tx_vars g1 g2 -> transmitted pass g2 g3 -> steady tx_vars g3 g4 -> transmitted pass g1 g4.
Proof.
  intros L1 [L A] L2. split; [|eapply account_shift; [apply same_counts, L1|exact A|apply L2]].
  etrans; [by apply steady_tests|]. etrans; [exact L|by apply steady_tests].
Qed.
Lemma transmitted_shift pass g1 g2 g3 g4 :
  leaves tx_vars g1 g2 -> transmitted pass g2 g3 -> leaves tx_vars g3 g4 -> transmitted pass g1 g4.
Proof. intros [L1 _ _] T [L2 _ _]. by eapply transmitted_steady. Qed.

(** A failure counted, and only that. *)
Lemma failed_transmission v g :
  v = Rs422Var g_rs422_tx_error_count \/ v = Rs422Var g_rs422_tx_timeout_count \/
  v = Rs422Var g_rs422_tx_busy_count ->
  transmitted false g (put v (var g v + 1) g).
Proof.
  intros Hv. split; [by apply leaves_put; destruct Hv as [->|[->| ->]]|].
  assert (forall w, went_up w (if gvar_eqb v w then 1 else 0) g (put v (var g v + 1) g)) as H.
  { intros w. unfold went_up. rewrite var_put. destruct (gvar_eqb_spec v w) as [<-|]; [|by rewrite Z.add_0_r].
    destruct Hv as [->|[->| ->]]; cbn; width. }
  split; [done| |].
  - specialize (H g_rs422_tx_complete_count). by destruct Hv as [->|[->| ->]].
  - exists (if gvar_eqb v g_rs422_tx_error_count then 1 else 0),
      (if gvar_eqb v g_rs422_tx_timeout_count then 1 else 0),
      (if gvar_eqb v g_rs422_tx_busy_count then 1 else 0).
    split_and!; try (by apply H); by destruct Hv as [->|[->| ->]].
Qed.

Lemma count_failure v (r : Z) g1 g :
  leaves tx_vars g1 g -> r <> RS422_PING_TEST_PASS ->
  v = Rs422Var g_rs422_tx_error_count \/ v = Rs422Var g_rs422_tx_timeout_count \/
  v = Rs422Var g_rs422_tx_busy_count ->
  forall {A} (x : A), wp (incr v;; mret (r, x)) (fun '(r, _) => transmitted (r =? RS422_PING_TEST_PASS) g1) g.
Proof.
  intros L Hr Hv A x. wp_auto. rewrite (proj2 (Z.eqb_neq r _)) by done.
  eapply transmitted_shift; [exact L|by apply failed_transmission|reflexivity].
Qed.

(** Flags while a transmission is under way: it is over, or nothing changed. *)
Lemma handle_events_ok flags g :
  var g g_rs422_tx_busy <> 0 ->
  wp (rs422_handle_events flags) (fun _ g' => leaves tx_vars g g' \/ transmitted true g g') g.
Proof.
  intros Hb. unfold rs422_handle_events, rs422_handle_tcp_context_reset_event, rs422_handle_tx_done_event.
  apply wp_bind. eapply (wp_mono _ (fun _ g' => leaves tx_vars g g')).
  { destruct (negb _); wp_auto; [|reflexivity]. etrans; by apply leaves_put. }
  intros _ g1 L1. destruct (negb (Z.land flags RS422_EVENT_TX_DONE =? 0)); cbn [when].
  2: { apply wp_ret. by left. }
  apply wp_bind, wp_gets. rewrite (lv_vars _ _ _ L1) by done. rewrite (proj2 (Z.eqb_neq _ _)) by done. cbn [negb].
  wp_auto. right. eapply (transmitted_shift _ _ _ _ _ L1); [|reflexivity]. split.
  - etrans; by apply leaves_put.
  - split; unfold went_up; st_simpl; rewrite ?var_put; cbn [gvar_eqb]; cbn.
    + done.
    + width.
    + exists 0, 0, 0. rewrite !Z.add_0_r. done.
Qed.

Lemma wait_loop_ok n e timeout start matching g :
  (patience g < n)%nat -> task_ok g -> var g g_rs422_tx_busy <> 0 -> 0 <= timeout < osWaitForever ->
  wp (rs422_tx_wait_loop n e timeout start matching)
    (fun '(r, _) => transmitted (r =? RS422_PING_TEST_PASS) g) g.
Proof.
  revert matching g. induction n as [|n IH]; intros matching g Hn Hok Hb Ht; [lia|].
  cbn [rs422_tx_wait_loop]. apply wp_bind, wp_gets. rewrite (proj2 (Z.eqb_neq _ _)) by done.
  apply wp_bind. eapply wp_mono; [apply process_rx_leaves, Hok|]. cbn beta. intros m g1 L1. cbv zeta.
  assert (task_ok g1) as Hok1 by by eapply leaves_ok.
  apply wp_bind. eapply wp_mono; [apply flags_wait_ok; [done|unfold osWaitForever; lia]|].
  cbn beta. intros fl g2 (L2 & N2 & E2 & H2). assert (leaves tx_vars g g2) as L12 by by etrans.
  destruct (flags_error fl && _). { by apply count_failure; auto. }
  apply wp_bind. assert (var g2 g_rs422_tx_busy <> 0) as Hb2 by by rewrite (lv_vars _ _ _ L12).
  eapply (wp_mono _ (fun _ g' => leaves tx_vars g2 g' \/ transmitted true g2 g')).
  { destruct (negb _); [by apply handle_events_ok|]. apply wp_ret. left. reflexivity. }
  intros _ g3 [L3|[L3 A3]]; apply wp_bind, wp_gets.
  2: { rewrite (xa_busy _ _ _ A3) by done. cbn [Z.eqb]. apply wp_bind.
       eapply wp_mono; [apply process_rx_leaves; eapply steady_ok; [exact L3|by eapply leaves_ok]|].
       intros m' g4 L4. apply wp_ret. by eapply transmitted_shift; [exact L12|split|exact L4]. }
  rewrite (lv_vars _ _ _ L3) by done. rewrite (proj2 (Z.eqb_neq _ _)) by done.
  apply wp_bind, wp_tick. pose proof (leaves_env g3) as L4. set (g4 := env _ _) in *. cbv zeta.
  assert (leaves tx_vars g g4) as L14 by (etrans; [exact L12|]; by etrans).
  destruct (Z.geb_spec (u32 (tick g4 - start)) timeout) as [|Hto]. { by apply count_failure; auto. }
  assert (is_u32 (u32 (tick g4 - start))) as Hu by width. unfold is_u32 in Hu.
  apply wp_bind. eapply wp_mono; [apply flags_wait_ok; [by eapply leaves_ok|unfold osWaitForever in *; lia]|].
  cbn beta. intros fl' g5 (L5 & N5 & E5 & H5). assert (leaves tx_vars g g5) as L15 by by etrans.
  destruct (fl' =? osFlagsErrorTimeout) eqn:E1. { by apply count_failure; auto. }
  destruct (flags_error fl') eqn:E6. { by apply count_failure; auto. }
  assert ((patience g5 < n)%nat) as Hn5.
  { destruct H5 as [[_ H5]|[->| ->]]; [|done|done]. pose proof (lv_patience _ _ _ L14). lia. }
  apply wp_bind. assert (var g5 g_rs422_tx_busy <> 0) as Hb5 by by rewrite (lv_vars _ _ _ L15).
  eapply wp_mono; [by apply handle_events_ok|]. cbn beta. intros _ g6 [L6|[L6 A6]].
  - assert (leaves tx_vars g g6) as L16 by by etrans. pose proof (lv_patience _ _ _ L6).
    eapply wp_mono; [apply IH; [lia|by eapply leaves_ok|by rewrite (lv_vars _ _ _ L16)|done]|].
    intros [r x] g7 H7. by eapply transmitted_shift; [exact L16|exact H7|reflexivity].
  - destruct n as [|n]; [lia|]. cbn [rs422_tx_wait_loop]. apply wp_bind, wp_gets.
    rewrite (xa_busy _ _ _ A6) by done. cbn [Z.eqb]. apply wp_ret.
    by eapply transmitted_shift; [exact L15|split|reflexivity].
Qed.

Lemma wait_for_tx_ok e g :
  task_ok g -> var g g_rs422_tx_busy <> 0 ->
  wp (rs422_wait_for_tx_complete e) (fun '(r, _) => transmitted (r =? RS422_PING_TEST_PASS) g) g.
Proof.
  intros Hok Hb. unfold rs422_wait_for_tx_complete. apply wp_bind, wp_tick.
  pose proof (leaves_env g) as L1. set (g1 := env _ _) in *. cbv zeta.
  eapply wp_mono; [apply wait_loop_ok; [|by eapply leaves_ok|by rewrite (lv_vars _ _ _ L1)|done]|].
  - unfold patience. destruct (notify_received _); lia.
  - intros [r x] g2 H2. by eapply transmitted_shift; [exact L1|exact H2|reflexivity].
Qed.

(** ** Starting a transmission *)

(** What a routine hands to the UART, [fs], and what it keeps. *)
Record sends (fs : list (list Z)) g g' : Prop := {
  sd_ok : task_ok g -> task_ok g';
  sd_tests : same_vars test_vars g g';
  sd_buffer : full_buffer (array_of g g_rs422_tx_frame) -> full_buffer (array_of g' g_rs422_tx_frame);
  sd_log : uart_log (hw g') = uart_log (hw g) ++ fs
}.

Lemma steady_sends g g' : steady test_vars g g' -> sends [] g g'.
Proof.
  intros L. split; [by apply (steady_ok _ _ _ L)|apply L|by rewrite (st_frame _ _ _ L)|].
  by rewrite (st_log _ _ _ L), app_nil_r.
Qed.

Lemma sends_trans fs1 fs2 g1 g2 g3 : sends fs1 g1 g2 -> sends fs2 g2 g3 -> sends (fs1 ++ fs2) g1 g3.
Proof.
  intros [O1 V1 B1 L1] [O2 V2 B2 L2]. split; [auto|by etrans|auto|]. by rewrite L2, L1, app_assoc.
Qed.

(** The frame buffer after [rs422_encode] of [p]. *)
Lemma encode_ok p (K : protocol_result_t * Z -> gateway D -> Prop) g :
  packet_ok (packet_of g p) -> full_buffer (array_of g g_rs422_tx_frame) ->
  (forall r n buf, encoded (packet_of g p) r n buf ->
     K (r, n) (g <| array_of := upd g_rs422_tx_frame buf (array_of g) |>)) ->
  wp (rs422_encode p) K g.
Proof.
  intros Hp Hb HK. unfold rs422_encode. apply wp_bind, wp_gets, wp_bind, wp_gets.
  destruct (protocol_encode_full _ _ Hp Hb) as (r & buf & n & -> & H).
  apply wp_bind, wp_modify, wp_ret. by apply HK.
Qed.

Lemma flags_clear_ok flags g :
  task_ok g ->
  wp (osThreadFlagsClear RS422Task flags) (fun r g' => flags_error r = false /\ steady tx_vars g g') g.
Proof.
  intros Hok. unfold osThreadFlagsClear, on_notif. apply wp_bind, wp_preempt.
  pose proof (leaves_env g) as L1. set (g1 := env _ _) in *.
  assert (task_ok g1) as [Hr1 Hf1] by by eapply leaves_ok.
  wp_auto. rewrite upd_eq. cbn [notify_no_action notified_value].
  split; [by apply flags_error_range|]. etrans; [apply L1|]. split; try done.
  intros _. unfold flags_of. st_simpl. rewrite upd_eq. by apply flag_ldiff.
Qed.

Lemma start_tx_ok n g :
  wp (rs422_start_tx n) (fun _ g' => exists g1 d, steady tx_vars g g1 /\ g' = g1 <| hw := d |> /\
    uart_log d = uart_log (hw g) ++ [take (Z.to_nat (u16 n)) (array_of g g_rs422_tx_frame)]) g.
Proof.
  unfold rs422_start_tx, HAL_UART_Transmit_IT. apply wp_bind, wp_gets, wp_bind, wp_preempt.
  pose proof (leaves_env g) as [L1 _ _]. set (g1 := env _ _) in *. wp_auto.
  pose proof (uart_log_tx (take (Z.to_nat (u16 n)) (array_of g g_rs422_tx_frame)) (hw g1)) as Hlog.
  destruct (uart_transmit_it _ _) as [st d]. wp_auto. exists g1, d. split; [done|]. split; [done|].
  cbn [snd] in Hlog. by rewrite Hlog, (st_log _ _ _ L1).
Qed.

(** ** Forwarding a command *)

Lemma var_put_out l v z g w :
  mem_var v l = true -> mem_var w l = false -> var (put v z g) w = var g w.
Proof.
  intros Hv Hw. apply var_put_ne. destruct (gvar_eqb_spec v w) as [->|]; [congruence|done].
Qed.

Lemma start_error_ok st g :
  wp (count_tx_start_error st;; mret RS422_PING_TEST_TX_FAILURE)
    (fun r g' => r = RS422_PING_TEST_TX_FAILURE /\ transmitted false g g' /\
       forall v, mem_var v count_vars = false -> var g' v = var g v) g.
Proof.
  unfold count_tx_start_error. destruct (st =? HAL_BUSY).
  all: wp_auto; split; [done|]; split; [apply failed_transmission; auto|].
  all: intros v Hv; by apply (var_put_out count_vars).
Qed.

Lemma note_ping_steady packet : runs (steady tx_vars) (note_ping_tx (D := D) packet).
Proof.
  assert (runs handling (note_ping_tx (D := D) packet)) as H
    by (unfold note_ping_tx, diagnostic_now_ms, diag_interval; runs_auto).
  intros g. eapply wp_mono; [apply H|]. intros _ g' [[L _ _] _]. exact L.
Qed.

Definition is_ping_message (p : protocol_packet_t) : bool := pkt_msg_id p =? MSG_PING.

(** Forwarding [p]: the frames handed over, the account, and no PING pending after a failure. *)
Definition forwarded (p : protocol_packet_t) (go : bool) g (r : Z) g' : Prop :=
  sends (if go then [frame_of p] else []) g g' /\
  tx_account (r =? RS422_PING_TEST_PASS) g g' /\
  (go = true -> is_ping_message p = true -> r <> RS422_PING_TEST_PASS ->
   var g' g_rs422_tcp_ping_pending = 0).

(** A PING that was not transmitted is no longer waited for. *)
Lemma clear_pending_ok packet g :
  wp (clear_pending_ping (D := D) packet) (fun _ g' => steady tx_vars g g' /\
    (is_ping_message packet = true -> var g' g_rs422_tcp_ping_pending = 0)) g.
Proof.
  unfold clear_pending_ping. fold (is_ping_message packet). destruct (is_ping_message packet); wp_auto.
  - split; [etrans; by apply leaves_put|]. done.
  - split; [reflexivity|done].
Qed.

(** From the start of the transmission to its end. *)
Lemma forward_end p st g :
  tx_packet p = true -> task_ok g -> var g g_rs422_tx_busy <> 0 ->
  wp (packet ← rd_packet p;
      if negb (st =? HAL_OK) then
        wr g_rs422_tx_busy 0;;
        clear_pending_ping packet;;
        count_tx_start_error st;;
        mret RS422_PING_TEST_TX_FAILURE
      else
        note_ping_tx packet;;
        packet ← rd_packet p;
        wr g_rs422_last_tx_msg_id (pkt_msg_id packet);;
        wr g_rs422_last_tx_seq (pkt_seq packet);;
        '(result, _) ← rs422_wait_for_tx_complete (pkt_seq packet);
        if negb (result =? RS422_PING_TEST_PASS) then
          packet ← rd_packet p;
          clear_pending_ping packet;;
          mret RS422_PING_TEST_TX_FAILURE
        else mret RS422_PING_TEST_PASS)
    (fun r g' => transmitted (r =? RS422_PING_TEST_PASS) g g' /\
       (is_ping_message (packet_of g p) = true -> r <> RS422_PING_TEST_PASS ->
        var g' g_rs422_tcp_ping_pending = 0)) g.
Proof.
  intros Hp Hok Hb. apply wp_bind, wp_gets. destruct (st =? HAL_OK); cbn [negb].
  2: { apply wp_bind, wp_modify. set (g1 := put _ _ g). apply wp_bind.
       eapply wp_mono; [apply clear_pending_ok|]. cbn beta. intros _ g2 [L2 Hpend].
       eapply wp_mono; [apply start_error_ok|]. cbn beta. intros r g3 (-> & [L3 A3] & Hv).
       split; [|intros Hm _; rewrite Hv by done; auto]. split.
       - transitivity g1; [by apply leaves_put|]. etrans; [by apply steady_tests|exact L3].
       - eapply account_shift; [|exact A3|reflexivity].
         transitivity g1; [by apply (leaves_put count_vars)|apply same_counts, L2]. }
  apply wp_bind. eapply wp_mono; [apply note_ping_steady|]. cbn beta. intros _ g1 L1.
  apply wp_bind, wp_gets. rewrite (st_packets _ _ _ L1) by done.
  do 2 (apply wp_bind, wp_modify). set (g2 := put _ _ (put _ _ g1)).
  assert (steady tx_vars g g2) as L2 by (etrans; [exact L1|]; etrans; by apply leaves_put).
  apply wp_bind. eapply wp_mono; [apply wait_for_tx_ok; [by eapply steady_ok|by rewrite (st_vars _ _ _ L2)]|].
  intros [r x] g3 T3. assert (packet_of g3 p = packet_of g p) as Hp3
    by by rewrite (st_packets _ _ _ (proj1 T3)), (st_packets _ _ _ L2).
  destruct (r =? RS422_PING_TEST_PASS) eqn:Er; cbn [negb].
  - apply wp_ret. split; [|done]. by eapply transmitted_steady; [exact L2|exact T3|reflexivity].
  - apply wp_bind, wp_gets, wp_bind. eapply wp_mono; [apply clear_pending_ok|]. cbn beta.
    intros _ g4 [L4 Hpend]. apply wp_ret. rewrite Hp3 in Hpend. split; [|auto].
    by eapply transmitted_steady; [exact L2|exact T3|exact L4].
Qed.

(** The frame in the buffer, handed over while the transmitter is marked busy. *)
Lemma launch_ok n F (K : Z -> gateway D -> Prop) g1 g2 :
  steady tx_vars g1 g2 -> task_ok g1 -> 10 <= n <= 266 ->
  take (Z.to_nat n) (array_of g1 g_rs422_tx_frame) = F ->
  (forall st g', sends [F] g1 g' -> same_vars count_vars g1 g' -> var g' g_rs422_tx_busy = 1 ->
     (forall p, tx_packet p = true -> packet_of g' p = packet_of g1 p) -> K st g') ->
  wp (rs422_start_tx n) K (put g_rs422_tx_busy 1 g2).
Proof.
  intros L2 Hok Hn HF HK. eapply wp_mono; [apply start_tx_ok|]. cbn beta.
  intros st g' (g3 & d & L3 & -> & Hlog). set (g2' := put _ _ g2) in *.
  assert (steady quiet_vars g2 g2') as L2' by by apply leaves_put.
  replace (u16 n) with n in Hlog by width.
  rewrite (st_frame _ _ _ L2'), (st_frame _ _ _ L2), HF, (st_log _ _ _ L2'), (st_log _ _ _ L2) in Hlog.
  assert (steady quiet_vars g1 g3) as L13.
  { transitivity g2; [apply (steady_fewer tx_vars _ _ _ tx_quiet), L2|].
    transitivity g2'; [exact L2'|apply (steady_fewer tx_vars _ _ _ tx_quiet), L3]. }
  apply HK.
  - split; [|apply (same_fewer quiet_vars _ _ _ quiet_tests), L13| |exact Hlog].
    + intros H. by destruct (steady_ok _ _ _ L13 H).
    + cbn [set_field array_of]. by rewrite (st_frame _ _ _ L13).
  - apply (same_fewer quiet_vars _ _ _ quiet_counts), L13.
  - transitivity (var g3 g_rs422_tx_busy); [done|]. by rewrite (st_vars _ _ _ L3).
  - apply L13.
Qed.

Lemma forward_ok p g :
  tx_packet p = true -> task_ok g -> packet_ok (packet_of g p) ->
  full_buffer (array_of g g_rs422_tx_frame) ->
  wp (rs422_forward_packet (Some p))
    (forwarded (packet_of g p) ((var g g_rs422_tx_busy =? 0) && can_send (packet_of g p)) g) g.
Proof.
  intros Hp Hok Hpk Hb. unfold rs422_forward_packet. apply wp_bind, wp_gets.
  set (P := packet_of g p) in *.
  destruct (var g g_rs422_tx_busy =? 0) eqn:Hbusy; cbn [negb andb].
  2: { wp_auto. destruct (failed_transmission (Rs422Var g_rs422_tx_busy_count) g) as [L A]; [auto|].
       split; [by apply steady_sends|]. by split. }
  apply wp_bind, encode_ok; [done|done|]. intros r n buf [Hbuf H]. fold P in H.
  set (g1 := g <| array_of := _ |>).
  assert (sends [] g g1 /\ same_vars tx_vars g g1) as [S1 V1].
  { split; [|done]. split; [done|done| |by rewrite app_nil_r]. intros _. unfold g1. st_simpl. by rewrite upd_eq. }
  destruct (can_send P) eqn:Ec.
  2: { rewrite bool_decide_true by done. cbn [orb]. wp_auto.
       destruct (failed_transmission (Rs422Var g_rs422_tx_error_count) g1) as [L A]; [auto|].
       split; [|split; [|done]]; [apply (sends_trans [] [] g g1); [done|by apply steady_sends]|].
       by eapply account_shift; [apply same_counts, V1|exact A|reflexivity]. }
  destruct H as (-> & Hn & Hr & Hf). rewrite bool_decide_false by (intros C; by apply C).
  replace (_ || _ || _) with false by (unfold UINT16_MAX; zlia).
  apply wp_bind. eapply wp_mono; [apply flags_clear_ok; by apply S1|]. cbn beta. intros fl g2 [-> L2].
  apply wp_bind, wp_gets. assert (packet_of g2 p = P) as Hp2 by by apply L2. rewrite Hp2.
  apply wp_bind, wp_gets, wp_bind.
  eapply (wp_mono _ (fun _ g' => steady tx_vars g2 g')).
  { destruct (_ && _); wp_auto; [|reflexivity]. etrans; by apply leaves_put. }
  intros _ g3 L3. apply wp_bind, wp_modify, wp_bind.
  apply (launch_ok n (frame_of P) _ g1); [by etrans|by apply S1|done|unfold g1; st_simpl; by rewrite upd_eq|].
  intros st g4 S4 V4 Hb4 P4. assert (packet_of g4 p = P) as Hp4 by by rewrite P4.
  eapply wp_mono; [apply (forward_end p); [done|by apply S4, S1|by rewrite Hb4]|]. cbn beta.
  intros r g5 ([L5 A5] & Hpend). rewrite Hp4 in Hpend. split; [|split; [|auto]].
  - apply (sends_trans [] _ g g1); [done|]. rewrite <- (app_nil_r [_]). eapply sends_trans; [exact S4|].
    by apply steady_sends.
  - eapply account_shift; [|exact A5|reflexivity]. transitivity g1; [apply same_counts, V1|exact V4].
Qed.

(** ** The power-on ping test *)

Lemma handle_events_leaves flags g :
  wp (rs422_handle_events flags) (fun _ g' => leaves test_vars g g') g.
Proof.
  unfold rs422_handle_events, rs422_handle_tcp_context_reset_event, rs422_handle_tx_done_event.
  apply wp_bind. eapply (wp_mono _ (fun _ g' => leaves test_vars g g')).
  { destruct (negb _); wp_auto; [|reflexivity]. etrans; by apply leaves_put. }
  intros _ g1 L1. destruct (negb (Z.land flags RS422_EVENT_TX_DONE =? 0)); cbn [when]; [|by apply wp_ret].
  wp_auto. destruct (negb _); wp_auto; (etrans; [exact L1|]); [etrans|]; by apply leaves_put.
Qed.

Lemma pong_wait_loop_ok n s timeout start g :
  (patience g < n)%nat -> task_ok g -> 0 <= timeout < osWaitForever ->
  wp (rs422_pong_wait_loop n s timeout start) (fun _ g' => steady test_vars g g') g.
Proof.
  revert g. induction n as [|n IH]; intros g Hn Hok Ht; [lia|].
  cbn [rs422_pong_wait_loop]. apply wp_bind, wp_tick. pose proof (leaves_env g) as L1.
  set (g1 := env _ _) in *. cbv zeta. destruct (negb _). { apply wp_ret, steady_tests, L1. }
  apply wp_bind. eapply wp_mono; [apply process_rx_leaves; by eapply leaves_ok|].
  cbn beta. intros m g2 L2. assert (leaves tx_vars g g2) as L12 by by etrans.
  destruct (negb _). { apply wp_ret, steady_tests, L12. }
  apply wp_bind, wp_tick. pose proof (leaves_env g2) as L3. set (g3 := env (epoch g2) _) in *. cbv zeta.
  assert (leaves tx_vars g g3) as L13 by by etrans.
  destruct (Z.geb_spec (u32 (tick g3 - start)) timeout) as [|Hto]. { apply wp_ret, steady_tests, L13. }
  assert (is_u32 (u32 (tick g3 - start))) as Hu by width. unfold is_u32 in Hu.
  apply wp_bind. eapply wp_mono; [apply flags_wait_ok; [by eapply leaves_ok|unfold osWaitForever in *; lia]|].
  cbn beta. intros fl g4 (L4 & _ & _ & H4). assert (leaves tx_vars g g4) as L14 by by etrans.
  destruct (fl =? osFlagsErrorTimeout) eqn:E1. { apply wp_ret, steady_tests, L14. }
  destruct (flags_error fl) eqn:E2. { apply wp_ret, steady_tests, L14. }
  apply wp_bind. eapply wp_mono; [apply handle_events_leaves|]. cbn beta. intros _ g5 L5.
  pose proof (lv_patience _ _ _ L5). pose proof (lv_patience _ _ _ L13).
  assert (steady test_vars g g5) as L15 by (transitivity g4; [apply steady_tests, L14|apply L5]).
  eapply wp_mono; [apply IH; [|by eapply steady_ok|done]|].
  - destruct H4 as [[_ H4]|[->| ->]]; [lia|done|done].
  - cbn beta. intros _ g6 L6. by etrans.
Qed.

Lemma frame_of_ping s payload :
  frame_of (mk_packet PROTOCOL_VERSION MSG_PING s 0 payload) = frame_of (ping_packet s).
Proof. reflexivity. Qed.

(** What one test of the run needs, and does. *)
Definition test_ok g : Prop :=
  task_ok g /\ full_buffer (array_of g g_rs422_tx_frame) /\ packet_ok (packet_of g g_rs422_ping_packet).

Definition tested (s : Z) g (r : Z) g' : Prop :=
  test_ok g' /\
  exists fs, sends fs g g' /\
    (fs = [frame_of (ping_packet s)] \/ fs = [] /\ r <> RS422_PING_TEST_PASS).

Lemma bringup_end s st g :
  task_ok g -> var g g_rs422_tx_busy <> 0 ->
  wp (if negb (st =? HAL_OK) then
        wr g_rs422_tx_busy 0;;
        count_tx_start_error st;;
        mret RS422_PING_TEST_TX_FAILURE
      else
        '(result, matching_pong_received) ← rs422_wait_for_tx_complete s;
        if negb (result =? RS422_PING_TEST_PASS) then mret RS422_PING_TEST_TX_FAILURE
        else if negb (matching_pong_received =? 0) then mret RS422_PING_TEST_PASS
        else
          let pong_timeout_ticks := rs422_ms_to_kernel_ticks RS422_BRINGUP_PONG_TIMEOUT_MS in
          wait_start_ticks ← osKernelGetTickCount;
          rs422_pong_wait_loop rounds s pong_timeout_ticks wait_start_ticks)
    (fun _ g' => steady test_vars g g') g.
Proof.
  intros Hok Hb. destruct (negb _).
  { apply wp_bind, wp_modify. set (g1 := put _ _ g).
    eapply wp_mono; [apply start_error_ok|]. cbn beta. intros r g2 (_ & [L _] & _).
    transitivity g1; [by apply leaves_put|exact L]. }
  apply wp_bind. eapply wp_mono; [by apply wait_for_tx_ok|]. intros [r m] g1 [L1 _].
  destruct (negb _); [by apply wp_ret|]. destruct (negb _); [by apply wp_ret|]. cbv zeta.
  apply wp_bind, wp_tick. pose proof (leaves_env g1) as [L2 _ _]. set (g2 := env _ _) in *. cbv zeta.
  assert (steady test_vars g g2) as L12 by (etrans; [exact L1|by apply steady_tests]).
  eapply wp_mono; [apply pong_wait_loop_ok; [|by eapply steady_ok|done]|].
  - unfold patience. destruct (notify_received _); lia.
  - cbn beta. intros _ g3 L3. by etrans.
Qed.

Lemma bringup_test_ok s g :
  is_u16 s -> test_ok g -> wp (rs422_ping_bringup_test s) (tested s g) g.
Proof.
  intros Hs (Hok & Hb & Hp). unfold rs422_ping_bringup_test. apply wp_bind, wp_modify.
  set (g1 := put _ _ g). assert (steady test_vars g g1) as L1 by by apply leaves_put.
  apply wp_bind, wp_gets. destruct (negb _).
  { wp_auto. set (g2 := put _ _ g1). assert (steady test_vars g1 g2) as L2 by by apply leaves_put.
    assert (steady test_vars g g2) as L12 by by etrans. split; [by split; [by eapply steady_ok|]|].
    exists []. split; [by apply steady_sends|by right]. }
  apply wp_bind, wp_gets, wp_bind, wp_modify. set (g2 := g1 <| packet_of := _ |>).
  assert (packet_of g2 g_rs422_ping_packet =
    mk_packet PROTOCOL_VERSION MSG_PING s 0 (pkt_payload (packet_of g g_rs422_ping_packet))) as Hp2
    by (unfold g2; st_simpl; by rewrite upd_eq).
  assert (packet_ok (packet_of g2 g_rs422_ping_packet)) as Hpk2.
  { rewrite Hp2. destruct Hp as [_ _ _ _ Hp Hl]. by split. }
  apply wp_bind, encode_ok; [done|done|]. rewrite Hp2. intros r n buf [Hbuf (-> & _ & Hn & Hf)].
  rewrite decide_False by (intros C; by apply C). set (g3 := g2 <| array_of := _ |>).
  assert (sends [] g g3) as S3.
  { split; [done|by apply same_vars_put| |by rewrite app_nil_r]. intros _. unfold g3. st_simpl. by rewrite upd_eq. }
  assert (array_of g3 g_rs422_tx_frame = buf) as Hbuf3 by (unfold g3; st_simpl; by rewrite upd_eq).
  apply wp_bind. eapply wp_mono; [apply flags_clear_ok; by apply S3|]. cbn beta. intros fl g4 [-> L4].
  apply wp_bind, wp_modify, wp_bind.
  apply (launch_ok n (frame_of (ping_packet s)) _ g3); [done|by apply S3|done|by rewrite Hbuf3, Hf|].
  intros st g5 S5 _ Hb5 P5. eapply wp_mono; [apply bringup_end; [by apply S5, S3|by rewrite Hb5]|].
  cbn beta. intros r g6 L6.
  assert (sends [frame_of (ping_packet s)] g g6) as S6.
  { apply (sends_trans [] _ g g3); [done|]. apply (sends_trans [_] [] g3 g5); [done|by apply steady_sends]. }
  split; [|by exists [frame_of (ping_packet s)]; auto].
  split; [by apply S6|]. split; [by apply S6|].
  rewrite (st_packets _ _ _ L6), P5 by done. exact Hpk2.
Qed.

Lemma delay_ok ms g : wp (HAL_Delay ms) (fun _ g' => steady tx_vars g g') g.
Proof.
  unfold HAL_Delay, osDelay. apply wp_bind, wp_preempt. pose proof (leaves_env g) as [L _ _].
  set (g1 := env _ _) in *. destruct (_ =? 0); wp_auto; [done|]. etrans; [exact L|].
  exact (lv_steady _ _ _ (leaves_ticks _ g1)).
Qed.

Definition ping_frames (seqs : list Z) : list (list Z) := map (fun s => frame_of (ping_packet s)) seqs.

(** [passed] and [failed] tests so far. *)
Definition tally (passed failed : Z) g : Prop :=
  var g g_rs422_test_total = passed + failed /\ var g g_rs422_test_success = passed /\
  var g g_rs422_test_fail = failed /\ 0 <= passed /\ 0 <= failed /\ passed + failed <= RS422_BRINGUP_TEST_COUNT.

Lemma tally_same passed failed g g' : same_vars test_vars g g' -> tally passed failed g -> tally passed failed g'.
Proof. intros V (T & S & F & H). unfold tally. by rewrite !V by done. Qed.

Definition counted (r passed failed : Z) g : Prop :=
  if r =? RS422_PING_TEST_PASS then tally (passed + 1) failed g else tally passed (failed + 1) g.

(** The end of a round: its result counted, and the pause. *)
Lemma count_test_ok {B} (k : M D B) Q r passed failed next g :
  tally passed failed g -> passed + failed < RS422_BRINGUP_TEST_COUNT ->
  (forall g', steady [] g g' -> counted r passed failed g' -> wp k Q g') ->
  wp (incr g_rs422_test_total;;
      wr g_rs422_ping_test_result r;;
      (if r =? RS422_PING_TEST_PASS then incr g_rs422_test_success else incr g_rs422_test_fail);;
      when next (HAL_Delay RS422_BRINGUP_INTER_TEST_DELAY_MS);;
      k) Q g.
Proof.
  intros (T & S & F & Hp & Hf & Hc) Hlt Hk. change RS422_BRINGUP_TEST_COUNT with 100 in *.
  do 2 (apply wp_bind, wp_modify). set (g1 := put _ _ (put _ _ g)).
  assert (steady [] g g1) as L1 by (etrans; by apply leaves_put). apply wp_bind.
  eapply (wp_mono _ (fun _ g' => steady [] g g' /\ counted r passed failed g')).
  { unfold counted, tally. change RS422_BRINGUP_TEST_COUNT with 100.
    destruct (r =? RS422_PING_TEST_PASS); wp_auto; (split; [etrans; [exact L1|by apply leaves_put]|]).
    all: unfold g1; rewrite ?var_put; cbn [gvar_eqb]; cbn; rewrite ?T, ?S, ?F; split_and!; try lia; width. }
  intros _ g2 [L2 T2]. apply wp_bind. destruct next; cbn [when]; [|by apply wp_ret, Hk].
  eapply wp_mono; [apply delay_ok|]. cbn beta. intros _ g3 L3.
  apply Hk; [etrans; [exact L2|]; revert L3; by apply steady_fewer|].
  pose proof (st_vars _ _ _ (steady_tests _ _ L3)) as V3. unfold counted in *.
  destruct (r =? _); by apply (tally_same _ _ g2).
Qed.

(** [n] tests from the sequence number [first] on. *)
Record test_run (n : nat) (first last passed failed : Z) g (result : Z) g' : Prop := {
  tr_ok : test_ok g';
  tr_tally : exists p f, 0 <= p /\ 0 <= f /\ p + f = Z.of_nat n /\ tally (passed + p) (failed + f) g' /\
    (if f =? 0 then result = last else result <> RS422_PING_TEST_PASS) /\
    exists seqs, sublist seqs (seqZ first (Z.of_nat n)) /\ p <= Z.of_nat (length seqs) /\
      uart_log (hw g') = uart_log (hw g) ++ ping_frames seqs
}.

(** A round before the others. *)
Lemma test_run_cons n first last passed failed r fs g g1 g2 result g' :
  sends fs g g1 -> uart_log (hw g2) = uart_log (hw g1) ->
  fs = [frame_of (ping_packet first)] \/ fs = [] /\ r <> RS422_PING_TEST_PASS ->
  (if r =? RS422_PING_TEST_PASS
   then test_run n (first + 1) last (passed + 1) failed g2 result g'
   else test_run n (first + 1) r passed (failed + 1) g2 result g') ->
  test_run (S n) first last passed failed g result g'.
Proof.
  intros [_ _ _ Hlog] Hlog2 Hfs H.
  assert (seqZ first (Z.of_nat (S n)) = first :: seqZ (first + 1) (Z.of_nat n)) as Hseq.
  { rewrite seqZ_cons by lia. do 2 f_equal; lia. }
  assert (forall p seqs, sublist seqs (seqZ (first + 1) (Z.of_nat n)) -> p <= Z.of_nat (length seqs) ->
    uart_log (hw g') = uart_log (hw g2) ++ ping_frames seqs ->
    exists seqs', sublist seqs' (seqZ first (Z.of_nat (S n))) /\
      p + (if r =? RS422_PING_TEST_PASS then 1 else 0) <= Z.of_nat (length seqs') /\
      uart_log (hw g') = uart_log (hw g) ++ ping_frames seqs') as Hlogs.
  { intros p seqs Hs Hl Hg. rewrite Hseq. rewrite Hlog2, Hlog, <- app_assoc in Hg.
    destruct Hfs as [->|[-> Hr]].
    - exists (first :: seqs). split; [by constructor|]. split; [cbn [length]; destruct (_ =? _); lia|done].
    - exists seqs. split; [by constructor|]. apply Z.eqb_neq in Hr. rewrite Hr. split; [lia|done]. }
  destruct (Z.eqb_spec r RS422_PING_TEST_PASS) as [->|Hr];
    destruct H as [Hok (p & f & Hp & Hf & Hs & Ht & Hr' & seqs & H1 & H2 & H3)];
    (split; [done|]); destruct (Hlogs p seqs H1 H2 H3) as (seqs' & K1 & K2 & K3).
  - exists (p + 1), f. split_and!; try lia; [|done|by exists seqs'].
    by replace (passed + (p + 1)) with (passed + 1 + p) by lia.
  - exists p, (f + 1). split_and!; try lia.
    + by replace (failed + (f + 1)) with (failed + 1 + f) by lia.
    + rewrite (proj2 (Z.eqb_neq (f + 1) 0)) by lia. destruct (f =? 0); [by subst|done].
    + exists seqs'. rewrite Z.add_0_r in K2. done.
Qed.

Lemma bringup_loop_ok n last passed failed g :
  test_ok g -> tally passed failed g -> passed + failed + Z.of_nat n <= RS422_BRINGUP_TEST_COUNT ->
  wp (rs422_bringup_loop n (passed + failed) last)
    (test_run n (passed + failed + 1) last passed failed g) g.
Proof.
  revert last passed failed g. induction n as [|n IH]; intros last passed failed g Hok Ht Hn.
  { cbn [rs422_bringup_loop]. apply wp_ret. split; [done|]. exists 0, 0. rewrite !Z.add_0_r. split_and!; try done.
    exists []. split; [constructor|]. split; [done|]. by rewrite app_nil_r. }
  pose proof Ht as (_ & _ & _ & Hp & Hf & _). change RS422_BRINGUP_TEST_COUNT with 100 in Hn.
  cbn [rs422_bringup_loop]. cbv zeta. replace (u16 (passed + failed + 1)) with (passed + failed + 1) by width.
  apply wp_bind. eapply wp_mono; [apply bringup_test_ok; [unfold is_u16; lia|done]|].
  cbn beta. intros r g1 (Hok1 & fs & S1 & Hfs). apply (count_test_ok _ _ r passed failed).
  { apply (tally_same _ _ g); [apply S1|done]. }
  { change RS422_BRINGUP_TEST_COUNT with 100. lia. }
  intros g2 L2 T2. assert (test_ok g2) as Hok2.
  { destruct Hok1 as (H1 & H2 & H3). split; [by eapply steady_ok|].
    by rewrite (st_frame _ _ _ L2), (st_packets _ _ _ L2). }
  eapply wp_mono with (P := fun result g' =>
    if r =? RS422_PING_TEST_PASS
    then test_run n (passed + failed + 1 + 1) last (passed + 1) failed g2 result g'
    else test_run n (passed + failed + 1 + 1) r passed (failed + 1) g2 result g').
  - unfold counted in T2. destruct (r =? RS422_PING_TEST_PASS).
    + replace (passed + failed + 1) with (passed + 1 + failed) by lia. apply IH; [done|done|].
      change RS422_BRINGUP_TEST_COUNT with 100. lia.
    + replace (passed + failed + 1) with (passed + (failed + 1)) by lia. apply IH; [done|done|].
      change RS422_BRINGUP_TEST_COUNT with 100. lia.
  - intros result g' H. eapply test_run_cons; [exact S1|apply L2|exact Hfs|exact H].
Qed.

Lemma bringup_run_ok g :
  test_ok g ->
  wp rs422_ping_bringup_run (fun r g' => exists p f, 0 <= p /\ 0 <= f /\ p + f = RS422_BRINGUP_TEST_COUNT /\
    tally p f g' /\ (r = RS422_PING_TEST_PASS <-> f = 0) /\
    exists seqs, sublist seqs (seqZ 1 RS422_BRINGUP_TEST_COUNT) /\ p <= Z.of_nat (length seqs) /\
      uart_log (hw g') = uart_log (hw g) ++ ping_frames seqs) g.
Proof.
  intros Hok. unfold rs422_ping_bringup_run. do 7 (apply wp_bind, wp_modify).
  set (g1 := put g_rs422_test_fail 0 _). assert (steady [] g g1) as L1.
  { unfold g1. repeat (etrans; [|apply leaves_put; reflexivity]). reflexivity. }
  assert (test_ok g1) as Hok1.
  { destruct Hok as (H1 & H2 & H3). split; [by eapply steady_ok|].
    by rewrite (st_frame _ _ _ L1), (st_packets _ _ _ L1). }
  assert (tally 0 0 g1) as T1 by (unfold tally, g1; rewrite ?var_put; cbn; done).
  apply wp_bind. eapply wp_mono; [by apply (bringup_loop_ok _ _ 0 0)|]. cbn beta.
  intros last g2 [_ (p & f & Hp & Hf & Hsum & T2 & Hl & seqs & Hs & Hlen & Hlog)].
  rewrite !Z.add_0_l in T2. pose proof T2 as (_ & _ & F2 & _).
  apply wp_bind, wp_gets, wp_ret. exists p, f. rewrite F2. split_and!; try done.
  - destruct (Z.eqb_spec f 0) as [->|Hf0]; [done|]. split; [intros ->|]; done.
  - exists seqs. rewrite Hlog, (st_log _ _ _ L1). done.
Qed.
End Transmit.

(** ** Properties *)

(** C22: Transmitting a command: [rs422_forward_packet] ends, whatever flags and
    bytes the interrupts and the other tasks bring.  A command that Protocol V1
    can carry is handed to the UART as exactly its frame, once, when no
    transmission is under way; otherwise nothing is handed over.  Success means
    that the end of the transmission was signalled, the transmitter is free
    again and exactly one completion was counted; any failure counts exactly
    one error, time-out or refusal, and a PING that was not transmitted is no
    longer waited for. *)
Theorem command_transmitted {D} `{!World D} `{!UartLog D} (horizon : nat) `{!RsWorld D horizon}
    (g : gateway D) :
  let P := packet_of g g_rs422_command_packet in
  let go := (var g g_rs422_tx_busy =? 0) && can_send P in
  (2 * horizon + 514 <= rounds)%nat -> task_ok g -> packet_ok P ->
  full_buffer (array_of g g_rs422_tx_frame) ->
  wp (rs422_forward_packet (Some g_rs422_command_packet)) (fun r g' =>
    task_ok g' /\
    uart_log (hw g') = uart_log (hw g) ++ (if go then [frame_of P] else []) /\
    tx_account (r =? RS422_PING_TEST_PASS) g g' /\
    (go = true -> pkt_msg_id P = MSG_PING -> r <> RS422_PING_TEST_PASS ->
     var g' g_rs422_tcp_ping_pending = 0)) g.
Proof.
  cbv zeta. intros Hr Hok Hp Hb. eapply wp_mono; [by apply (forward_ok horizon Hr)|].
  intros r g' (S & A & Hpend). split; [by apply S|]. split; [apply S|]. split; [done|].
  intros Hgo Hm. apply Hpend; [done|]. by apply Z.eqb_eq.
Qed.

(** C38: The power-on test: [rs422_ping_bringup_run] ends and reports on exactly
    [RS422_BRINGUP_TEST_COUNT] tests, each counted as a success or a failure; it
    returns PASS exactly if none failed.  The UART was handed PING frames with
    pairwise different sequence numbers from 1 to 100, in increasing order, at least
    one for each success, and nothing else. *)
Theorem power_on_test_runs {D} `{!World D} `{!UartLog D} (horizon : nat) `{!RsWorld D horizon}
    (g : gateway D) :
  (2 * horizon + 514 <= rounds)%nat -> task_ok g -> packet_ok (packet_of g g_rs422_ping_packet) ->
  full_buffer (array_of g g_rs422_tx_frame) ->
  wp rs422_ping_bringup_run (fun r g' => exists p f, 0 <= p /\ 0 <= f /\
    p + f = RS422_BRINGUP_TEST_COUNT /\ tally p f g' /\ (r = RS422_PING_TEST_PASS <-> f = 0) /\
    exists seqs, sublist seqs (seqZ 1 RS422_BRINGUP_TEST_COUNT) /\ p <= Z.of_nat (length seqs) /\
      uart_log (hw g') = uart_log (hw g) ++ ping_frames seqs) g.
Proof. intros Hr Hok Hp Hb. by apply (bringup_run_ok horizon Hr). Qed.

(** ** A line for the witnesses

    The UART logs what it is given, and for a while every kernel call finds the
    transmission complete. *)
Record line := mk_line { line_log : list (list Z) }.

#[export] Instance line_hardware : Hardware line := {
  cs_pin _ d := d;
  rst_pin _ d := d;
  spi_transmit _ d := (HAL_OK, d);
  spi_transmit_receive tx d := (HAL_OK, tx, d);
  uart_transmit_it tx d := (HAL_OK, mk_line (line_log d ++ [tx]));
  uart_receive_it d := (HAL_OK, d);
  dwt_start d := d;
  dwt_running _ := true;
  dwt_cyccnt _ := 0;
  system_core_clock _ := 170000000;
  free_heap_size _ := 4096;
  minimum_ever_free_heap_size _ := 2048
}.

#[export] Instance line_world : World line := {
  env n g :=
    let g := g <| tick := u32 (tick g + 1) |> in
    if (n <? 40)%nat
    then g <| notif_of := upd RS422Task (notify_set_bits RS422_EVENT_TX_DONE (notif_of g RS422Task)) (notif_of g) |>
    else g;
  rounds := 600
}.

#[export] Instance line_uart : UartLog line := {
  uart_log := line_log;
  uart_log_tx _ _ := eq_refl;
  uart_tx_status _ _ := Z.le_refl 0
}.

#[export] Instance line_steps : RsWorld line 40.
Proof.
  intros g. unfold env, line_world. destruct (Nat.ltb_spec (epoch g) 40); split; try done.
  - split; [st_simpl; lia|]. by exists [].
  - right. split; [done|]. exists RS422_EVENT_TX_DONE. split; [done|]. st_simpl. apply upd_eq.
  - split; [st_simpl; lia|]. by exists [].
  - by left.
Qed.

Definition line_gateway (p : protocol_packet_t) : gateway line := {|
  var := gvar_initial;
  packet_of _ := p;
  parser_of _ := parser_init;
  array_of _ := replicate 266 0;
  queue_of _ := Some [];
  notif_of _ := mk_notification 0 false;
  rx_ring := empty_rs422_ring 0;
  g_uart4_rx_byte := 0;
  tick := 0;
  hw := mk_line [];
  epoch := 0
|}.

Lemma line_task_ok p : task_ok (line_gateway p).
Proof. split; [apply (demo_ring_wf [])|apply flag_zero]. Qed.

Lemma command_transmitted_witness :
  wp (rs422_forward_packet (Some g_rs422_command_packet)) (fun r g' =>
    task_ok g' /\ uart_log (hw g') = [frame_of (ping_packet 7)] /\
    tx_account (r =? RS422_PING_TEST_PASS) (line_gateway (ping_packet 7)) g' /\
    (true = true -> MSG_PING = MSG_PING -> r <> RS422_PING_TEST_PASS ->
     var g' g_rs422_tcp_ping_pending = 0)) (line_gateway (ping_packet 7)) /\
  match rs422_forward_packet (Some g_rs422_command_packet) (line_gateway (ping_packet 7)) with
  | Some (r, g') => r = RS422_PING_TEST_PASS /\ var g' g_rs422_tx_complete_count = 1
  | None => False
  end.
Proof.
  split; [|vm_compute; done].
  eapply wp_mono; [apply (command_transmitted 40 (line_gateway (ping_packet 7)))|].
  - apply Nat.leb_le. reflexivity.
  - apply line_task_ok.
  - by apply ping_packet_sendable.
  - split; [by apply Forall_replicate|done].
  - cbv zeta. intros r g' (H1 & H2 & H3 & H4). split; [exact H1|]. split; [exact H2|]. split; [exact H3|].
    intros _ _. by apply H4.
Defined.

Lemma power_on_test_runs_witness :
  let g := line_gateway zero_packet in
  wp rs422_ping_bringup_run (fun r g' => exists p f, 0 <= p /\ 0 <= f /\
    p + f = RS422_BRINGUP_TEST_COUNT /\ tally p f g' /\ (r = RS422_PING_TEST_PASS <-> f = 0) /\
    exists seqs, sublist seqs (seqZ 1 RS422_BRINGUP_TEST_COUNT) /\ p <= Z.of_nat (length seqs) /\
      uart_log (hw g') = uart_log (hw g) ++ ping_frames seqs) g /\
  match rs422_ping_bringup_run g with
  | Some (r, g') => r = RS422_PING_TEST_TX_FAILURE /\ var g' g_rs422_test_fail = 100
  | None => False
  end.
Proof.
  intros g. split; [|vm_compute; done].
  apply (power_on_test_runs 40 g).
  - apply Nat.leb_le. reflexivity.
  - apply line_task_ok.
  - apply zero_packet_ok.
  - split; [by apply Forall_replicate|done].
Defined.
