(* ===== verification/GwUart.v ===== *)
(** * The HAL's UART driver

    stm32g4xx_hal_uart.c, as far as the gateway's RS-422 line uses it:
    interrupt-driven sending and receiving on UART4 with 8-bit words, without
    parity and without the FIFO, and the interrupt handler that calls the
    gateway's callbacks.  It is shown to refine a simple line: frames go out
    whole, once and in order, every received byte reaches the ring, every
    error is counted, and the receiver is always armed.  Not modelled: DMA,
    reception until an idle line, and the routines for 9-bit words and the
    FIFO; where the handler would enter them the model fails, which is proved
    never to happen. *)
From S2P Require Import Prelude Crc16 Protocol StreamParser RxRing GwRs422.
From S2P Require Export GwLogic.
Local Open Scope Z_scope.

(** ** Registers *)
Definition USART_CR1_IDLEIE : Z := 0x00000010.
Definition USART_CR1_RXNEIE_RXFNEIE : Z := 0x00000020.
Definition USART_CR1_TCIE : Z := 0x00000040.
Definition USART_CR1_TXEIE_TXFNFIE : Z := 0x00000080.
Definition USART_CR1_PEIE : Z := 0x00000100.
Definition USART_CR1_PCE : Z := 0x00000400.
Definition USART_CR1_M0 : Z := 0x00001000.
Definition USART_CR1_RTOIE : Z := 0x04000000.
Definition USART_CR1_M1 : Z := 0x10000000.
Definition USART_CR1_FIFOEN : Z := 0x20000000.
Definition USART_CR1_TXFEIE : Z := 0x40000000.
Definition USART_CR1_RXFFIE : Z := 0x80000000.
Definition USART_CR2_RTOEN : Z := 0x00800000.
Definition USART_CR3_EIE : Z := 0x00000001.
Definition USART_CR3_DMAR : Z := 0x00000040.
Definition USART_CR3_WUFIE : Z := 0x00400000.
Definition USART_CR3_TXFTIE : Z := 0x00800000.
Definition USART_CR3_RXFTIE : Z := 0x10000000.
Definition USART_RQR_RXFRQ : Z := 0x00000008.
Definition USART_ISR_PE : Z := 0x00000001.
Definition USART_ISR_FE : Z := 0x00000002.
Definition USART_ISR_NE : Z := 0x00000004.
Definition USART_ISR_ORE : Z := 0x00000008.
Definition USART_ISR_IDLE : Z := 0x00000010.
Definition USART_ISR_RXNE_RXFNE : Z := 0x00000020.
Definition USART_ISR_TC : Z := 0x00000040.
Definition USART_ISR_TXE_TXFNF : Z := 0x00000080.
Definition USART_ISR_RTOF : Z := 0x00000800.
Definition USART_ISR_WUF : Z := 0x00100000.
Definition USART_ISR_TXFE : Z := 0x00800000.
Definition USART_ISR_RXFF : Z := 0x01000000.
Definition UART_CLEAR_PEF : Z := 0x00000001.
Definition UART_CLEAR_FEF : Z := 0x00000002.
Definition UART_CLEAR_NEF : Z := 0x00000004.
Definition UART_CLEAR_OREF : Z := 0x00000008.
Definition UART_CLEAR_RTOF : Z := 0x00000800.
Definition UART_CLEAR_WUF : Z := 0x00100000.
Definition UART_RXDATA_FLUSH_REQUEST : Z := USART_RQR_RXFRQ.

Definition UART_WORDLENGTH_7B : Z := USART_CR1_M1.
Definition UART_WORDLENGTH_8B : Z := 0.
Definition UART_WORDLENGTH_9B : Z := USART_CR1_M0.
Definition UART_PARITY_NONE : Z := 0.
Definition UART_FIFOMODE_DISABLE : Z := 0.
Definition UART_FIFOMODE_ENABLE : Z := USART_CR1_FIFOEN.
Definition HAL_UART_STATE_READY : Z := 0x20.
Definition HAL_UART_STATE_BUSY_TX : Z := 0x21.
Definition HAL_UART_STATE_BUSY_RX : Z := 0x22.
Definition HAL_UART_ERROR_NONE : Z := 0x00.
Definition HAL_UART_ERROR_PE : Z := 0x01.
Definition HAL_UART_ERROR_NE : Z := 0x02.
Definition HAL_UART_ERROR_FE : Z := 0x04.
Definition HAL_UART_ERROR_ORE : Z := 0x08.
Definition HAL_UART_ERROR_RTO : Z := 0x20.
Definition HAL_UART_RECEPTION_STANDARD : Z := 0.
Definition HAL_UART_RECEPTION_TOIDLE : Z := 1.
Definition HAL_UART_RXEVENT_TC : Z := 0.

(** [(r & m) != 0] *)
Definition has (r m : Z) : bool := negb (Z.land r m =? 0).

Lemma lor_zero a b : (Z.lor a b =? 0) = (a =? 0) && (b =? 0).
Proof.
  apply eq_true_iff_eq. rewrite andb_true_iff, !Z.eqb_eq. apply Z.lor_eq_0_iff.
Qed.
Lemma has_or r m m' : has r (Z.lor m m') = has r m || has r m'.
Proof. unfold has. by rewrite Z.land_lor_distr_r, lor_zero, negb_andb. Qed.
Lemma has_set r m m' : has (Z.lor r m) m' = has r m' || has m m'.
Proof. unfold has. by rewrite Z.land_lor_distr_l, lor_zero, negb_andb. Qed.
Lemma has_clear r m m' : has m' (Z.lnot m) = false -> has (Z.ldiff r m) m' = false.
Proof.
  unfold has. intros H%negb_false_iff%Z.eqb_eq. apply negb_false_iff, Z.eqb_eq.
  by rewrite Z.ldiff_land, <- Z.land_assoc, (Z.land_comm (Z.lnot m)), H, Z.land_0_r.
Qed.
Lemma has_keep r m m' : has m m' = false -> has (Z.ldiff r m) m' = has r m'.
Proof.
  unfold has. intros H%negb_false_iff%Z.eqb_eq. f_equal. f_equal. apply Z.bits_inj'. intros n _.
  apply (f_equal (fun z => Z.testbit z n)) in H. rewrite Z.land_spec, Z.bits_0 in H.
  rewrite !Z.land_spec, Z.ldiff_spec. by destruct (Z.testbit r n), (Z.testbit m n), (Z.testbit m' n).
Qed.

(** A received byte, masked. *)
Lemma received_byte rdr : u8 (Z.land (u16 rdr) (u8 0xFF)) = u8 rdr.
Proof. change (u8 0xFF) with (Z.ones 8). rewrite Z.land_ones by lia. change (2 ^ 8) with 256. width. Qed.
Lemma sent_byte b : is_u8 b -> u8 (Z.land b 0xFF) = b.
Proof. intros H. change 0xFF with (Z.ones 8). rewrite Z.land_ones by lia. change (2 ^ 8) with 256. width. Qed.

(** Bits of registers that were set and cleared. *)
Ltac bits :=
  repeat first
    [ rewrite has_set
    | rewrite has_clear by reflexivity
    | rewrite has_keep by reflexivity ];
  repeat match goal with
  | |- context [has ?r ?m] =>
      is_const r; let b := eval vm_compute in (has r m) in
      lazymatch b with true => change (has r m) with true | false => change (has r m) with false end
  end;
  rewrite ?orb_true_r, ?orb_false_r.

(** ** The handle

    With the registers of [Instance]: of the write-only ones, [TDR], [ICR] and
    [RQR], all that was written, in order.  [pTxBuffPtr] is the bytes it
    points to; [pRxBuffPtr] is relative to [&g_uart4_rx_byte]. *)
Inductive rx_routine := RxISR_8BIT | RxISR_16BIT | RxISR_8BIT_FIFOEN | RxISR_16BIT_FIFOEN.
Inductive tx_routine := TxISR_8BIT | TxISR_16BIT | TxISR_8BIT_FIFOEN | TxISR_16BIT_FIFOEN.

Record UART_HandleTypeDef := mk_uart {
  CR1 : Z;
  CR2 : Z;
  CR3 : Z;
  TDR : list Z;
  ICR : list Z;
  RQR : list Z;
  WordLength : Z;
  Parity : Z;
  FifoMode : Z;
  NbRxDataToProcess : Z;
  pTxBuffPtr : list Z;
  TxXferSize : Z;
  TxXferCount : Z;
  pRxBuffPtr : Z;
  RxXferSize : Z;
  RxXferCount : Z;
  Mask : Z;
  ReceptionType : Z;
  RxEventType : Z;
  RxISR : option rx_routine;
  TxISR : option tx_routine;
  gState : Z;
  RxState : Z;
  ErrorCode : Z
}.
#[export] Instance eta_uart : Eta UART_HandleTypeDef := fun h =>
  mk_uart (CR1 h) (CR2 h) (CR3 h) (TDR h) (ICR h) (RQR h) (WordLength h) (Parity h) (FifoMode h)
    (NbRxDataToProcess h) (pTxBuffPtr h) (TxXferSize h) (TxXferCount h) (pRxBuffPtr h) (RxXferSize h)
    (RxXferCount h) (Mask h) (ReceptionType h) (RxEventType h) (RxISR h) (TxISR h) (gState h)
    (RxState h) (ErrorCode h).

(** [ATOMIC_SET_BIT] and [ATOMIC_CLEAR_BIT] *)
Definition set_CR1 (m : Z) (h : UART_HandleTypeDef) := h <| CR1 := Z.lor (CR1 h) m |>.
Definition clear_CR1 (m : Z) (h : UART_HandleTypeDef) := h <| CR1 := Z.ldiff (CR1 h) m |>.
Definition set_CR3 (m : Z) (h : UART_HandleTypeDef) := h <| CR3 := Z.lor (CR3 h) m |>.
Definition clear_CR3 (m : Z) (h : UART_HandleTypeDef) := h <| CR3 := Z.ldiff (CR3 h) m |>.

(** ** Starting a transfer; a NULL buffer is [None]. *)
Definition HAL_UART_Transmit_IT (pData : option (list Z)) (Size : Z) (h : UART_HandleTypeDef) :
    Z * UART_HandleTypeDef :=
  if gState h =? HAL_UART_STATE_READY then
    match pData with
    | None => (HAL_ERROR, h)
    | Some data =>
        if Size =? 0 then (HAL_ERROR, h)
        else
          let h := h <| pTxBuffPtr := data |> <| TxXferSize := Size |> <| TxXferCount := Size |>
                     <| TxISR := None |> <| ErrorCode := HAL_UART_ERROR_NONE |>
                     <| gState := HAL_UART_STATE_BUSY_TX |> in
          let nine := (WordLength h =? UART_WORDLENGTH_9B) && (Parity h =? UART_PARITY_NONE) in
          if FifoMode h =? UART_FIFOMODE_ENABLE then
            let h := h <| TxISR := Some (if nine then TxISR_16BIT_FIFOEN else TxISR_8BIT_FIFOEN) |> in
            (HAL_OK, set_CR3 USART_CR3_TXFTIE h)
          else
            let h := h <| TxISR := Some (if nine then TxISR_16BIT else TxISR_8BIT) |> in
            (HAL_OK, set_CR1 USART_CR1_TXEIE_TXFNFIE h)
    end
  else (HAL_BUSY, h).

Definition UART_MASK_COMPUTATION (h : UART_HandleTypeDef) : UART_HandleTypeDef :=
  h <| Mask :=
    if WordLength h =? UART_WORDLENGTH_9B then (if Parity h =? UART_PARITY_NONE then 0x01FF else 0x00FF)
    else if WordLength h =? UART_WORDLENGTH_8B then (if Parity h =? UART_PARITY_NONE then 0x00FF else 0x007F)
    else if WordLength h =? UART_WORDLENGTH_7B then (if Parity h =? UART_PARITY_NONE then 0x007F else 0x003F)
    else 0 |>.

Definition UART_Start_Receive_IT (pData Size : Z) (h : UART_HandleTypeDef) : Z * UART_HandleTypeDef :=
  let h := h <| pRxBuffPtr := pData |> <| RxXferSize := Size |> <| RxXferCount := Size |>
             <| RxISR := None |> in
  let h := UART_MASK_COMPUTATION h in
  let h := h <| ErrorCode := HAL_UART_ERROR_NONE |> <| RxState := HAL_UART_STATE_BUSY_RX |> in
  let h := set_CR3 USART_CR3_EIE h in
  let nine := (WordLength h =? UART_WORDLENGTH_9B) && (Parity h =? UART_PARITY_NONE) in
  if (FifoMode h =? UART_FIFOMODE_ENABLE) && (Size >=? NbRxDataToProcess h) then
    let h := h <| RxISR := Some (if nine then RxISR_16BIT_FIFOEN else RxISR_8BIT_FIFOEN) |> in
    let h := if negb (Parity h =? UART_PARITY_NONE) then set_CR1 USART_CR1_PEIE h else h in
    (HAL_OK, set_CR3 USART_CR3_RXFTIE h)
  else
    let h := h <| RxISR := Some (if nine then RxISR_16BIT else RxISR_8BIT) |> in
    if negb (Parity h =? UART_PARITY_NONE)
    then (HAL_OK, set_CR1 (Z.lor USART_CR1_PEIE USART_CR1_RXNEIE_RXFNEIE) h)
    else (HAL_OK, set_CR1 USART_CR1_RXNEIE_RXFNEIE h).

(** UART4 is no LPUART. *)
Definition HAL_UART_Receive_IT (pData : option Z) (Size : Z) (h : UART_HandleTypeDef) :
    Z * UART_HandleTypeDef :=
  if RxState h =? HAL_UART_STATE_READY then
    match pData with
    | None => (HAL_ERROR, h)
    | Some data =>
        if Size =? 0 then (HAL_ERROR, h)
        else
          let h := h <| ReceptionType := HAL_UART_RECEPTION_STANDARD |> in
          let h := if has (CR2 h) USART_CR2_RTOEN then set_CR1 USART_CR1_RTOIE h else h in
          UART_Start_Receive_IT data Size h
    end
  else (HAL_BUSY, h).

Definition UART_EndRxTransfer (h : UART_HandleTypeDef) : UART_HandleTypeDef :=
  let h := clear_CR1 (Z.lor USART_CR1_RXNEIE_RXFNEIE USART_CR1_PEIE) h in
  let h := clear_CR3 (Z.lor USART_CR3_EIE USART_CR3_RXFTIE) h in
  let h := if ReceptionType h =? HAL_UART_RECEPTION_TOIDLE then clear_CR1 USART_CR1_IDLEIE h else h in
  h <| RxState := HAL_UART_STATE_READY |> <| ReceptionType := HAL_UART_RECEPTION_STANDARD |>
    <| RxISR := None |>.

Definition UART_TxISR_8BIT (h : UART_HandleTypeDef) : UART_HandleTypeDef :=
  if gState h =? HAL_UART_STATE_BUSY_TX then
    if TxXferCount h =? 0 then set_CR1 USART_CR1_TCIE (clear_CR1 USART_CR1_TXEIE_TXFNFIE h)
    else
      h <| TDR := TDR h ++ [u8 (Z.land (arr_get (pTxBuffPtr h) 0) 0xFF)] |>
        <| pTxBuffPtr := drop 1 (pTxBuffPtr h) |>
        <| TxXferCount := u16 (TxXferCount h - 1) |>
  else h.

(** ** The board: UART4's handle, and the rest of the hardware [E] *)
Record board (E : Type) := mk_board { huart4 : UART_HandleTypeDef; others : E }.
Arguments mk_board {E}.
Arguments huart4 {E}.
Arguments others {E}.

Section Board.
Context {E : Type} (other_hw : Hardware E).

Definition on_others (f : E -> E) (d : board E) : board E := mk_board (huart4 d) (f (others d)).

(** The calls of main.c on UART4 are the HAL's; the frame to send and the
    receive buffer of one byte are not NULL. *)
Definition uart_hardware : Hardware (board E) := {|
  cs_pin b := on_others (cs_pin b);
  rst_pin b := on_others (rst_pin b);
  spi_transmit tx d := let '(st, e) := spi_transmit tx (others d) in (st, mk_board (huart4 d) e);
  spi_transmit_receive tx d :=
    let '(st, rx, e) := spi_transmit_receive tx (others d) in (st, rx, mk_board (huart4 d) e);
  uart_transmit_it tx d :=
    let '(st, h) := HAL_UART_Transmit_IT (Some tx) (u16 (Z.of_nat (length tx))) (huart4 d) in
    (st, mk_board h (others d));
  uart_receive_it d :=
    let '(st, h) := HAL_UART_Receive_IT (Some 0) 1 (huart4 d) in (st, mk_board h (others d));
  dwt_start := on_others dwt_start;
  dwt_running d := dwt_running (others d);
  dwt_cyccnt d := dwt_cyccnt (others d);
  system_core_clock d := system_core_clock (others d);
  free_heap_size d := free_heap_size (others d);
  minimum_ever_free_heap_size d := minimum_ever_free_heap_size (others d)
|}.

Context (rest_env : nat -> gateway (board E) -> gateway (board E)) (loop_rounds : nat).

Definition uart_world : World (board E) := {|
  world_hw := uart_hardware; env := rest_env; rounds := loop_rounds
|}.
#[local] Existing Instance uart_world.
Abbreviation M := (M (board E)).

(** ** The interrupt handler *)
Definition huart : M UART_HandleTypeDef := gets (fun g => huart4 (hw g)).
Definition update (f : UART_HandleTypeDef -> UART_HandleTypeDef) : M unit :=
  modify (fun g => g <| hw := mk_board (f (huart4 (hw g))) (others (hw g)) |>).

(** What the callbacks see of the handle; it is [&huart4]. *)
Definition handle_of (h : UART_HandleTypeDef) : uart_handle :=
  mk_uart_handle true (RxState h =? HAL_UART_STATE_READY).

Definition clear_flag (flag : Z) (h : UART_HandleTypeDef) : UART_HandleTypeDef := h <| ICR := ICR h ++ [flag] |>.

Definition UART_EndTransmit_IT : M unit :=
  update (fun h => (clear_CR1 USART_CR1_TCIE h) <| gState := HAL_UART_STATE_READY |> <| TxISR := None |>);;
  h ← huart;
  HAL_UART_TxCpltCallback (Some (handle_of h)).

(** [rdr]: what a read of [RDR] returns. *)
Definition UART_RxISR_8BIT (rdr : Z) : M unit :=
  h ← huart;
  if RxState h =? HAL_UART_STATE_BUSY_RX then
    let uhMask := Mask h in
    let uhdata := u16 rdr in
    (if pRxBuffPtr h =? 0
     then modify (fun g => g <| g_uart4_rx_byte := u8 (Z.land uhdata (u8 uhMask)) |>)
     else fail);;
    update (fun h => h <| pRxBuffPtr := pRxBuffPtr h + 1 |> <| RxXferCount := u16 (RxXferCount h - 1) |>);;
    h ← huart;
    when (RxXferCount h =? 0) (
      update (fun h =>
        let h := clear_CR1 (Z.lor USART_CR1_RXNEIE_RXFNEIE USART_CR1_PEIE) h in
        let h := clear_CR3 USART_CR3_EIE h in
        let h := h <| RxState := HAL_UART_STATE_READY |> <| RxISR := None |>
                   <| RxEventType := HAL_UART_RXEVENT_TC |> in
        if has (CR2 h) USART_CR2_RTOEN then clear_CR1 USART_CR1_RTOIE h else h);;
      h ← huart;
      if ReceptionType h =? HAL_UART_RECEPTION_TOIDLE then fail
      else HAL_UART_RxCpltCallback (Some (handle_of h)))
  else update (fun h => h <| RQR := RQR h ++ [UART_RXDATA_FLUSH_REQUEST] |>).

(** [if (huart->RxISR != NULL) { huart->RxISR(huart); }], and [TxISR] *)
Definition call_RxISR (rdr : Z) : M unit :=
  h ← huart;
  match RxISR h with
  | None => mret tt
  | Some RxISR_8BIT => UART_RxISR_8BIT rdr
  | Some _ => fail
  end.
Definition call_TxISR : M unit :=
  h ← huart;
  match TxISR h with
  | None => mret tt
  | Some TxISR_8BIT => update UART_TxISR_8BIT
  | Some _ => fail
  end.

(** A flag of an enabled error interrupt is cleared and noted. *)
Definition note_error (flagged : bool) (clear code : Z) : M unit :=
  when flagged (update (fun h => (clear_flag clear h) <| ErrorCode := Z.lor (ErrorCode h) code |>)).

Definition note_errors (isrflags cr1its cr3its : Z) : M unit :=
  note_error (has isrflags USART_ISR_PE && has cr1its USART_CR1_PEIE) UART_CLEAR_PEF HAL_UART_ERROR_PE;;
  note_error (has isrflags USART_ISR_FE && has cr3its USART_CR3_EIE) UART_CLEAR_FEF HAL_UART_ERROR_FE;;
  note_error (has isrflags USART_ISR_NE && has cr3its USART_CR3_EIE) UART_CLEAR_NEF HAL_UART_ERROR_NE;;
  note_error (has isrflags USART_ISR_ORE &&
              (has cr1its USART_CR1_RXNEIE_RXFNEIE || has cr3its (Z.lor USART_CR3_RXFTIE USART_CR3_EIE)))
    UART_CLEAR_OREF HAL_UART_ERROR_ORE;;
  note_error (has isrflags USART_ISR_RTOF && has cr1its USART_CR1_RTOIE) UART_CLEAR_RTOF HAL_UART_ERROR_RTO.

(** "If some errors occur": [rx] tells whether a byte is waiting, too. *)
Definition uart_errors (isrflags cr1its cr3its rdr : Z) (rx : bool) : M unit :=
  note_errors isrflags cr1its cr3its;;
  h ← huart;
  when (negb (ErrorCode h =? HAL_UART_ERROR_NONE)) (
    when rx (call_RxISR rdr);;
    h ← huart;
    let errorcode := ErrorCode h in
    if has (CR3 h) USART_CR3_DMAR || has errorcode (Z.lor HAL_UART_ERROR_RTO HAL_UART_ERROR_ORE) then
      update UART_EndRxTransfer;;
      h ← huart;
      if has (CR3 h) USART_CR3_DMAR then fail
      else HAL_UART_ErrorCallback (Some (handle_of h))
    else
      HAL_UART_ErrorCallback (Some (handle_of h));;
      update (fun h => h <| ErrorCode := HAL_UART_ERROR_NONE |>)).

(** [isrflags]: what the read of [ISR] returns.  The callbacks for a wake-up
    and for the FIFO are the HAL's own, which do nothing. *)
Definition HAL_UART_IRQHandler (isrflags rdr : Z) : M unit :=
  h ← huart;
  let cr1its := CR1 h in
  let cr3its := CR3 h in
  let error := has isrflags (Z.lor USART_ISR_PE (Z.lor USART_ISR_FE
    (Z.lor USART_ISR_ORE (Z.lor USART_ISR_NE USART_ISR_RTOF)))) in
  let rx := has isrflags USART_ISR_RXNE_RXFNE &&
    (has cr1its USART_CR1_RXNEIE_RXFNEIE || has cr3its USART_CR3_RXFTIE) in
  if negb error && rx then call_RxISR rdr
  else if error && (has cr3its (Z.lor USART_CR3_RXFTIE USART_CR3_EIE) ||
      has cr1its (Z.lor USART_CR1_RXNEIE_RXFNEIE (Z.lor USART_CR1_PEIE USART_CR1_RTOIE)))
  then uart_errors isrflags cr1its cr3its rdr rx
  else if (ReceptionType h =? HAL_UART_RECEPTION_TOIDLE) && has isrflags USART_ISR_IDLE &&
      has cr1its USART_ISR_IDLE
  then fail
  else if has isrflags USART_ISR_WUF && has cr3its USART_CR3_WUFIE then update (clear_flag UART_CLEAR_WUF)
  else if has isrflags USART_ISR_TXE_TXFNF &&
      (has cr1its USART_CR1_TXEIE_TXFNFIE || has cr3its USART_CR3_TXFTIE)
  then call_TxISR
  else if has isrflags USART_ISR_TC && has cr1its USART_CR1_TCIE then UART_EndTransmit_IT
  else mret tt.
(** ** The line

    What the driver promises: at any time it is idle, has bytes left to put
    on the wire, or waits for the last one to leave. *)
Inductive tx_phase := Idle | Sending (bs : list Z) | Draining.

(** [given]: the frames accepted; [completed]: how many of them were reported
    as sent; [wire]: the bytes sent; [cleared]: the error flags cleared;
    [flags]: the RS-422 task's notification, which exists if [task_known]. *)
Record rs422_line := mk_line {
  phase : tx_phase;
  given : list (list Z);
  completed : nat;
  wire : list Z;
  ring : rs422_ring;
  errors : Z;
  cleared : list Z;
  flags : notification;
  task_known : bool
}.
#[local] Instance eta_line : Eta rs422_line := fun l =>
  mk_line (phase l) (given l) (completed l) (wire l) (ring l) (errors l) (cleared l) (flags l) (task_known l).

Definition signal (bits : Z) (l : rs422_line) : rs422_line :=
  if task_known l then l <| flags := notify_no_action (notify_set_bits bits (flags l)) |> else l.
Definition line_receive (rdr : Z) (l : rs422_line) : rs422_line :=
  signal RS422_EVENT_RX (l <| ring := rs422_rx_ring_push_from_isr (u8 rdr) (ring l) |>).
Definition add_if (b : bool) (fl : Z) : list Z := if b then [fl] else [].
Definition error_flags (isrflags : Z) : list Z :=
  add_if (has isrflags USART_ISR_FE) UART_CLEAR_FEF ++ add_if (has isrflags USART_ISR_NE) UART_CLEAR_NEF ++
  add_if (has isrflags USART_ISR_ORE) UART_CLEAR_OREF.
Definition line_error (l : rs422_line) : rs422_line :=
  signal RS422_EVENT_RX (l <| errors := u32 (errors l + 1) |>).
Definition line_sends (isrflags : Z) (l : rs422_line) : rs422_line :=
  match phase l with
  | Idle => l
  | Sending [] => if has isrflags USART_ISR_TXE_TXFNF then l <| phase := Draining |> else l
  | Sending (b :: bs) =>
      if has isrflags USART_ISR_TXE_TXFNF
      then l <| phase := Sending bs |> <| wire := wire l ++ [b] |> else l
  | Draining =>
      if has isrflags USART_ISR_TC
      then signal RS422_EVENT_TX_DONE (l <| phase := Idle |> <| completed := S (completed l) |>) else l
  end.

(** One interrupt: a byte that arrived is taken, errors are cleared and
    counted once; if there was neither, the transmitter is served. *)
Definition line_interrupt (isrflags rdr : Z) (l : rs422_line) : rs422_line :=
  let rx := has isrflags USART_ISR_RXNE_RXFNE in
  match error_flags isrflags with
  | [] => if rx then line_receive rdr l else line_sends isrflags l
  | fl =>
      let l := l <| cleared := cleared l ++ fl |> in
      line_error (if rx then line_receive rdr l else l)
  end.

Definition line_transmit (tx : list Z) (l : rs422_line) : Z * rs422_line :=
  match phase l, tx with
  | Idle, [] => (HAL_ERROR, l)
  | Idle, _ => (HAL_OK, l <| phase := Sending tx |> <| given := given l ++ [tx] |>)
  | _, _ => (HAL_BUSY, l)
  end.

(** ** Events: the interrupt; a task hands a frame over; other code reads the
    ring or handles the notification. *)
Inductive uart_event :=
  | Interrupt (isrflags rdr : Z)
  | Transmit (tx : list Z)
  | Elsewhere (r : rs422_ring) (n : notification).

Definition uart_do (e : uart_event) : M Z :=
  match e with
  | Interrupt isrflags rdr => HAL_UART_IRQHandler isrflags rdr;; mret 0
  | Transmit tx => GwMonad.HAL_UART_Transmit_IT tx
  | Elsewhere r n =>
      modify (fun g => g <| rx_ring := r |> <| notif_of := upd RS422Task n (notif_of g) |>);; mret 0
  end.
Fixpoint uart_run (es : list uart_event) : M (list Z) :=
  match es with
  | [] => mret []
  | e :: es => r ← uart_do e; rs ← uart_run es; mret (r :: rs)
  end.

Definition line_do (e : uart_event) (l : rs422_line) : Z * rs422_line :=
  match e with
  | Interrupt isrflags rdr => (0, line_interrupt isrflags rdr l)
  | Transmit tx => line_transmit tx l
  | Elsewhere r n => (0, l <| ring := r |> <| flags := n |>)
  end.
Fixpoint line_run (es : list uart_event) (l : rs422_line) : list Z * rs422_line :=
  match es with
  | [] => ([], l)
  | e :: es =>
      let '(r, l) := line_do e l in
      let '(rs, l) := line_run es l in (r :: rs, l)
  end.

(** Without parity and receiver time-out the hardware never flags them; a
    frame fits the driver's 16-bit count. *)
Definition event_ok (e : uart_event) : Prop :=
  match e with
  | Interrupt isrflags _ => has isrflags USART_ISR_PE = false /\ has isrflags USART_ISR_RTOF = false
  | Transmit tx => bytes tx /\ Z.of_nat (length tx) < 65536
  | Elsewhere _ _ => True
  end.
(** ** What the driver keeps

    The settings of [MX_UART4_Init] and the interrupts that stay disabled. *)
Record configured (h : UART_HandleTypeDef) : Prop := {
  cf_word : WordLength h = UART_WORDLENGTH_8B;
  cf_parity : Parity h = UART_PARITY_NONE;
  cf_fifo : FifoMode h = UART_FIFOMODE_DISABLE;
  cf_reception : ReceptionType h = HAL_UART_RECEPTION_STANDARD;
  cf_rtoen : has (CR2 h) USART_CR2_RTOEN = false;
  cf_peie : has (CR1 h) USART_CR1_PEIE = false;
  cf_rtoie : has (CR1 h) USART_CR1_RTOIE = false;
  cf_rxftie : has (CR3 h) USART_CR3_RXFTIE = false;
  cf_txftie : has (CR3 h) USART_CR3_TXFTIE = false;
  cf_dmar : has (CR3 h) USART_CR3_DMAR = false;
  cf_wufie : has (CR3 h) USART_CR3_WUFIE = false
}.

(** Ready to receive one byte into [g_uart4_rx_byte]; or not receiving. *)
Record armed (h : UART_HandleTypeDef) : Prop := {
  ar_state : RxState h = HAL_UART_STATE_BUSY_RX;
  ar_routine : RxISR h = Some RxISR_8BIT;
  ar_buffer : pRxBuffPtr h = 0;
  ar_count : RxXferCount h = 1;
  ar_mask : Mask h = 0xFF;
  ar_rxneie : has (CR1 h) USART_CR1_RXNEIE_RXFNEIE = true;
  ar_eie : has (CR3 h) USART_CR3_EIE = true
}.
Definition stopped (h : UART_HandleTypeDef) : Prop := RxState h = HAL_UART_STATE_READY.

(** The transmitter's part of the handle. *)
Definition tx_part (h : UART_HandleTypeDef) :=
  (gState h, TxISR h, pTxBuffPtr h, TxXferCount h, has (CR1 h) USART_CR1_TXEIE_TXFNFIE, has (CR1 h) USART_CR1_TCIE).
Definition tx_in (p : tx_phase) (h : UART_HandleTypeDef) : Prop :=
  match p with
  | Idle => exists r bs n, tx_part h = (HAL_UART_STATE_READY, r, bs, n, false, false)
  | Sending bs => bytes bs /\ Z.of_nat (length bs) < 65536 /\
      tx_part h = (HAL_UART_STATE_BUSY_TX, Some TxISR_8BIT, bs, Z.of_nat (length bs), true, false)
  | Draining => exists bs n, tx_part h = (HAL_UART_STATE_BUSY_TX, Some TxISR_8BIT, bs, n, false, true)
  end.

(** What a step of the receiver leaves alone. *)
Record rx_only (h h' : UART_HandleTypeDef) : Prop := {
  ro_configured : configured h -> configured h';
  ro_tx : tx_part h' = tx_part h;
  ro_tdr : TDR h' = TDR h;
  ro_icr : ICR h' = ICR h
}.

(** Projections of an updated handle, and closed comparisons. *)
Ltac uart_simpl :=
  unfold set_CR1, clear_CR1, set_CR3, clear_CR3, clear_flag;
  cbn [set_field CR1 CR2 CR3 TDR ICR RQR WordLength Parity FifoMode NbRxDataToProcess pTxBuffPtr
    TxXferSize TxXferCount pRxBuffPtr RxXferSize RxXferCount Mask ReceptionType RxEventType RxISR
    TxISR gState RxState ErrorCode].
Ltac closed_tests :=
  repeat match goal with
  | |- context [?a =? ?b] =>
      let r := eval vm_compute in (a =? b) in
      lazymatch r with true => change (a =? b) with true | false => change (a =? b) with false end
  end;
  cbn [andb orb negb]; cbv iota.

Lemma rearm h : configured h -> stopped h ->
  let '(st, h') := HAL_UART_Receive_IT (Some 0) 1 h in
  st = HAL_OK /\ armed h' /\ ErrorCode h' = HAL_UART_ERROR_NONE /\ rx_only h h'.
Proof.
  intros [] Hs. unfold HAL_UART_Receive_IT, UART_Start_Receive_IT, UART_MASK_COMPUTATION. rewrite Hs.
  cbv zeta. uart_simpl. rewrite cf_rtoen0. uart_simpl. rewrite cf_word0, cf_parity0, cf_fifo0. closed_tests.
  split; [done|]. split; [split; uart_simpl; try done; by bits|]. split; [done|].
  split; [|unfold tx_part; uart_simpl; by bits|done|done]. intros _. split; uart_simpl; try done; by bits.
Qed.
Lemma rx_only_trans h1 h2 h3 : rx_only h1 h2 -> rx_only h2 h3 -> rx_only h1 h3.
Proof. intros [C1 T1 D1 I1] [C2 T2 D2 I2]. split; [auto|congruence..]. Qed.

Lemma end_rx h : configured h -> rx_only h (UART_EndRxTransfer h) /\ stopped (UART_EndRxTransfer h).
Proof.
  intros []. unfold UART_EndRxTransfer. cbv zeta. uart_simpl. rewrite cf_reception0. closed_tests.
  split; [|done]. split; [|unfold tx_part; uart_simpl; by bits|done|done].
  intros _. split; uart_simpl; try done; by bits.
Qed.

(** ** The state of the gateway during the handler

    Assumed: while a kernel call is made from the handler or from a call that
    hands a frame over, nothing else touches what the line consists of; what
    others do to it in between is an event ([Elsewhere]). *)
Hypothesis quiet : forall n (g : gateway (board E)), let g' := rest_env n g in
  hw g' = hw g /\ rx_ring g' = rx_ring g /\ g_uart4_rx_byte g' = g_uart4_rx_byte g /\
  notif_of g' RS422Task = notif_of g RS422Task /\
  var g' g_rs422_uart_rx_error_count = var g g_rs422_uart_rx_error_count /\
  var g' RS422TaskHandle = var g RS422TaskHandle.

(** The gateway is in the state of the line [l], its handle in one of [P]. *)
Record agrees (P : UART_HandleTypeDef -> Prop) (l : rs422_line) (g : gateway (board E)) : Prop := {
  ag_handle : P (huart4 (hw g));
  ag_configured : configured (huart4 (hw g));
  ag_phase : tx_in (phase l) (huart4 (hw g));
  ag_wire : TDR (huart4 (hw g)) = wire l;
  ag_cleared : ICR (huart4 (hw g)) = cleared l;
  ag_ring : rx_ring g = ring l;
  ag_errors : var g g_rs422_uart_rx_error_count = errors l;
  ag_flags : notif_of g RS422Task = flags l;
  ag_task : negb (var g RS422TaskHandle =? 0) = task_known l
}.

Lemma agrees_env P l n g : agrees P l g -> agrees P l (rest_env n g).
Proof.
  intros [H C F W I R Er Fl T]. destruct (quiet n g) as (Q1 & Q2 & Q3 & Q4 & Q5 & Q6).
  by split; rewrite ?Q1, ?Q2, ?Q4, ?Q5, ?Q6.
Qed.

Lemma agrees_rx P P' l g f :
  agrees P l g -> rx_only (huart4 (hw g)) (f (huart4 (hw g))) -> P' (f (huart4 (hw g))) ->
  agrees P' l (g <| hw := mk_board (f (huart4 (hw g))) (others (hw g)) |>).
Proof.
  intros [H C F W I R Er Fl T] [RC RT RD RI] HP. split; st_simpl; cbn [huart4]; try done; [auto| |congruence..].
  unfold tx_in in *. by destruct (phase l); rewrite RT.
Qed.

Lemma agrees_mono P P' l g : agrees P l g -> (forall h, configured h -> P h -> P' h) -> agrees P' l g.
Proof. intros [] H. split; auto. Qed.

Lemma wp_update P P' f l g Q :
  agrees P l g -> (forall h, configured h -> P h -> rx_only h (f h) /\ P' (f h)) ->
  (forall g', agrees P' l g' -> g_uart4_rx_byte g' = g_uart4_rx_byte g -> Q tt g') -> wp (update f) Q g.
Proof.
  intros A Hf HQ. destruct (Hf _ (ag_configured _ _ _ A) (ag_handle _ _ _ A)) as [Ho HP].
  apply wp_modify, HQ; [|done]. by eapply agrees_rx.
Qed.
(** ** The callbacks *)
Definition ready (h : UART_HandleTypeDef) : Prop := armed h /\ ErrorCode h = HAL_UART_ERROR_NONE.

Lemma signal_ok P l g bits :
  agrees P l g -> wp (isr_signal bits) (fun _ => agrees P (signal bits l)) g.
Proof.
  intros A. pose proof (ag_task _ _ _ A) as T. unfold isr_signal. apply wp_bind. unfold rd. apply wp_gets.
  unfold signal. rewrite T. destruct (task_known l) eqn:K; [|by apply wp_ret]. unfold when, osThreadFlagsSet, on_notif.
  apply wp_bind, wp_modify, wp_bind, wp_preempt, wp_modify. st_simpl.
  set (g1 := env _ _). assert (agrees P (l <| flags := notify_set_bits bits (flags l) |>) g1) as A1.
  { subst g1. apply agrees_env. destruct A as [H C F W I R Er Fl _]. split; st_simpl; cbn [set_field flags task_known]; try done.
    - by rewrite upd_eq, Fl.
    - by rewrite K. }
  clearbody g1. destruct A1 as [H C F W I R Er Fl T1].
  split; st_simpl; cbn [set_field flags]; try done. rewrite upd_eq, Fl. done.
Qed.

Lemma receive_ok l g :
  agrees stopped l g ->
  wp GwMonad.HAL_UART_Receive_IT (fun st g' => st = HAL_OK /\ agrees ready l g') g.
Proof.
  intros A. unfold GwMonad.HAL_UART_Receive_IT. apply wp_bind, wp_preempt.
  set (g1 := env _ _). assert (agrees stopped l g1) as A1.
  { subst g1. apply agrees_env. by destruct A. }
  clearbody g1. apply wp_bind, wp_gets. cbn [uart_receive_it world_hw uart_world uart_hardware].
  pose proof (rearm _ (ag_configured _ _ _ A1) (ag_handle _ _ _ A1)) as H.
  destruct (HAL_UART_Receive_IT _ _ _) as [st h']. destruct H as (-> & Ha & He & Ho).
  apply wp_bind, wp_modify, wp_ret. split; [done|].
  by apply (agrees_rx stopped ready l g1 (fun _ => h')).
Qed.

Lemma rx_callback_ok l g b :
  agrees stopped l g ->
  wp (HAL_UART_RxCpltCallback (Some (mk_uart_handle true b)))
    (fun _ => agrees ready (signal RS422_EVENT_RX
       (l <| ring := rs422_rx_ring_push_from_isr (g_uart4_rx_byte g) (ring l) |>))) g.
Proof.
  intros A. cbn [HAL_UART_RxCpltCallback is_uart4]. unfold when at 1. apply wp_bind, wp_modify, wp_bind.
  eapply wp_mono; [apply (receive_ok (l <| ring := rs422_rx_ring_push_from_isr (g_uart4_rx_byte g) (ring l) |>))|].
  { destruct A as [H C F W I R Er Fl T]. split; st_simpl; try done. cbn [set_field ring]. by rewrite R. }
  intros st g' [-> A1]. apply wp_bind, wp_ret. by apply signal_ok.
Qed.

Lemma count_ok P l g :
  agrees P l g ->
  wp (incr g_rs422_uart_rx_error_count) (fun _ => agrees P (l <| errors := u32 (errors l + 1) |>)) g.
Proof.
  intros [H C F W I R Er Fl T]. wp_auto. split; st_simpl; cbn [set_field errors]; try done. gv_simpl. by rewrite Er.
Qed.

Lemma error_callback_ok l g h :
  huart4 (hw g) = h -> agrees stopped l g \/ agrees armed l g ->
  wp (HAL_UART_ErrorCallback (Some (handle_of h)))
    (fun _ g' => if RxState h =? HAL_UART_STATE_READY
                 then agrees ready (line_error l) g' else agrees armed (line_error l) g') g.
Proof.
  intros <- Ho. unfold HAL_UART_ErrorCallback, handle_of. cbn [is_uart4 rx_state_ready]. unfold when at 1.
  apply wp_bind. destruct Ho as [A|A].
  - pose proof (ag_handle _ _ _ A) as Hs. rewrite Hs. closed_tests.
    eapply wp_mono; [apply count_ok, A|]. intros [] g1 A1. apply wp_bind. unfold when at 1. apply wp_bind.
    eapply wp_mono; [apply receive_ok, A1|]. intros st g2 [-> A2]. apply wp_ret. by apply signal_ok.
  - pose proof (ar_state _ (ag_handle _ _ _ A)) as Hs. rewrite Hs. closed_tests.
    eapply wp_mono; [apply count_ok, A|]. intros [] g1 A1. apply wp_bind, wp_ret. by apply signal_ok.
Qed.
(** ** The routines of the handler *)
Lemma rx_routine_ok l g rdr :
  agrees armed l g -> wp (call_RxISR rdr) (fun _ => agrees ready (line_receive rdr l)) g.
Proof.
  intros A. destruct (ag_handle _ _ _ A) as [S R B N K Rx Ei].
  pose proof (ag_configured _ _ _ A) as C. destruct C.
  unfold call_RxISR. apply wp_bind, wp_gets. rewrite R. unfold UART_RxISR_8BIT.
  apply wp_bind, wp_gets. rewrite S, K, B. closed_tests. apply wp_bind, wp_modify, wp_bind.
  set (g1 := set_field g_uart4_rx_byte _ g). assert (agrees armed l g1) as A1 by by destruct A.
  eapply (wp_update armed (fun h => RxXferCount h = 0) _ l g1); [done| |].
  { intros h [] []. uart_simpl. rewrite ar_count0. split; [|done]. by split; [intros []|..]. }
  intros g2 A2 Hb2. apply wp_bind, wp_gets. rewrite (ag_handle _ _ _ A2). closed_tests. unfold when at 1. apply wp_bind.
  eapply (wp_update _ stopped _ l g2); [done| |].
  { intros h [] _. uart_simpl. rewrite cf_rtoen1. split; [|done].
    split; [|unfold tx_part; uart_simpl; by bits|done|done]. intros _. split; uart_simpl; try done; by bits. }
  intros g3 A3 Hb3. apply wp_bind, wp_gets. rewrite (cf_reception _ (ag_configured _ _ _ A3)). closed_tests.
  eapply wp_mono; [apply rx_callback_ok, A3|]. cbv beta. intros [] g4 A4. unfold line_receive. revert A4.
  rewrite Hb3, Hb2. subst g1. st_simpl.
  by rewrite received_byte.
Qed.
(** What is noted about errors: the code, and the flags cleared. *)
Definition noted (e : Z) (h : UART_HandleTypeDef) : Prop := armed h /\ ErrorCode h = e.

Lemma note_ok e l c g b clear code :
  agrees (noted e) (l <| cleared := c |>) g ->
  wp (note_error b clear code)
    (fun _ => agrees (noted (if b then Z.lor e code else e)) (l <| cleared := c ++ add_if b clear |>)) g.
Proof.
  intros A. unfold note_error, when. destruct b; cbn [add_if].
  - apply wp_modify. destruct A as [[Ha He] C F W I R Er Fl T].
    split; st_simpl; cbn [huart4 set_field cleared phase wire ring errors flags task_known]; try done.
    + split; [by destruct Ha|]. uart_simpl. by rewrite He.
    + by destruct C.
    + uart_simpl. by rewrite I.
  - apply wp_ret. by rewrite app_nil_r.
Qed.

(** The transmitter is served. *)
Record tx_only (h h' : UART_HandleTypeDef) : Prop := {
  to_configured : configured h -> configured h';
  to_ready : ready h -> ready h';
  to_icr : ICR h' = ICR h
}.
Lemma agrees_tx l g f p w :
  agrees ready l g -> let h := huart4 (hw g) in
  tx_only h (f h) -> tx_in p (f h) -> TDR (f h) = w ->
  agrees ready (l <| phase := p |> <| wire := w |>) (g <| hw := mk_board (f h) (others (hw g)) |>).
Proof.
  intros [H C F W I R Er Fl T] h [] Hp Hw. subst h. split; st_simpl; cbn [huart4 set_field phase wire cleared ring errors flags task_known];
    [auto..|congruence|done|done|done|done].
Qed.

Lemma tx_routine_ok l g isrflags :
  agrees ready l g -> has isrflags USART_ISR_TXE_TXFNF = true -> has (CR1 (huart4 (hw g))) USART_CR1_TXEIE_TXFNFIE = true ->
  wp call_TxISR (fun _ => agrees ready (line_sends isrflags l)) g.
Proof.
  intros A Hf Hi. pose proof (ag_phase _ _ _ A) as Hp. unfold line_sends. rewrite Hf.
  destruct (phase l) as [|bs|] eqn:Ep; cbn [tx_in] in Hp; unfold tx_part in Hp.
  - destruct Hp as (r & bs & n & [= _ _ _ _ Ex _]). congruence.
  - destruct Hp as (Hb & Hn & [= Eg Er El Ec E1 E2]). unfold call_TxISR. apply wp_bind, wp_gets. rewrite Er.
    apply wp_modify. pose proof (ag_wire _ _ _ A) as W. destruct bs as [|b bs].
    + apply (agrees_tx l g UART_TxISR_8BIT Draining (wire l)); [done|..]; unfold UART_TxISR_8BIT;
        rewrite Eg, Ec; cbn [length Z.of_nat]; closed_tests.
      * split; [|intros [[] He]; split; [|exact He]|reflexivity]; [intros []|]; split; uart_simpl; try assumption; by bits.
      * exists [], 0. unfold tx_part. uart_simpl. rewrite Eg, Er, El, Ec. by bits.
      * done.
    + apply (agrees_tx l g UART_TxISR_8BIT (Sending bs) (wire l ++ [b])); [done|..]; unfold UART_TxISR_8BIT; rewrite Eg, Ec;
        rewrite (proj2 (Z.eqb_neq _ 0)) by (cbn [length]; lia); closed_tests.
      * split; [by intros []|intros [[] He]; by split|done].
      * apply Forall_cons in Hb as [Hb Hbs]. split; [done|]. cbn [length] in Hn. split; [lia|]. unfold tx_part. uart_simpl.
        rewrite Eg, Er, E1, E2, El.
        cbn [length drop]. rewrite drop_0. do 3 f_equal. rewrite u16_small by (unfold is_u16; cbn [length]; lia). lia.
      * apply Forall_cons in Hb as [Hb Hbs]. uart_simpl. rewrite W, El. unfold arr_get. cbn [Z.to_nat nth default lookup list_lookup].
        by rewrite sent_byte.
  - destruct Hp as (bs & n & [= _ _ _ _ Ex _]). congruence.
Qed.
Lemma end_transmit_ok l g isrflags :
  agrees ready l g -> has isrflags USART_ISR_TC = true -> has (CR1 (huart4 (hw g))) USART_CR1_TCIE = true ->
  wp UART_EndTransmit_IT (fun _ => agrees ready (line_sends isrflags l)) g.
Proof.
  intros A Hf Hi. pose proof (ag_phase _ _ _ A) as Hp. unfold line_sends. rewrite Hf.
  destruct (phase l) as [|bs|] eqn:Ep; cbn [tx_in] in Hp; unfold tx_part in Hp.
  - destruct Hp as (r & bs & n & [= _ _ _ _ _ Ex]). congruence.
  - destruct Hp as (_ & _ & [= _ _ _ _ _ Ex]). congruence.
  - destruct Hp as (bs & n & [= Eg Er El Ec E1 E2]). unfold UART_EndTransmit_IT.
    apply wp_bind, wp_modify. pose proof (ag_wire _ _ _ A) as W.
    set (f := fun h => (clear_CR1 USART_CR1_TCIE h) <| gState := HAL_UART_STATE_READY |> <| TxISR := None |>).
    assert (agrees ready (l <| phase := Idle |> <| completed := S (completed l) |>)
      (g <| hw := mk_board (f (huart4 (hw g))) (others (hw g)) |>)) as A1.
    { destruct (agrees_tx l g f Idle (wire l) A) as [H C F W1 I R Fr Fl T]; subst f.
      - split; [|intros [[] He]; split; [|exact He]|reflexivity]; [intros []|]; split; uart_simpl; try assumption; by bits.
      - exists None, bs, n. unfold tx_part. uart_simpl. rewrite El, Ec. bits. by rewrite E1.
      - done.
      - by split. }
    apply wp_bind, wp_gets. unfold HAL_UART_TxCpltCallback, handle_of. cbn [is_uart4]. unfold when. by apply signal_ok.
Qed.

(** Interrupts with errors. *)
Definition error_code (isrflags : Z) : Z :=
  Z.lor (Z.lor (if has isrflags USART_ISR_FE then HAL_UART_ERROR_FE else 0)
               (if has isrflags USART_ISR_NE then HAL_UART_ERROR_NE else 0))
        (if has isrflags USART_ISR_ORE then HAL_UART_ERROR_ORE else 0).

Lemma noted_flags l g isrflags :
  agrees ready l g -> has isrflags USART_ISR_PE = false -> has isrflags USART_ISR_RTOF = false ->
  wp (note_errors isrflags (CR1 (huart4 (hw g))) (CR3 (huart4 (hw g))))
    (fun _ => agrees (noted (error_code isrflags))
       (l <| cleared := cleared l ++ error_flags isrflags |>)) g.
Proof.
  intros A Hpe Hrto. unfold note_errors. pose proof (ag_configured _ _ _ A) as []. pose proof (ag_handle _ _ _ A) as [[] _].
  rewrite Hpe, Hrto, ar_eie0, ar_rxneie0, !andb_true_r. cbn [andb orb]. rewrite ?andb_true_r.
  assert (agrees (noted 0) (l <| cleared := cleared l |>) g) as A0 by (by destruct A as [[]]). clear - quiet A0.
  apply wp_bind; eapply wp_mono; [apply note_ok, A0|]; intros [] g1 A1.
  apply wp_bind; eapply wp_mono; [apply note_ok, A1|]; intros [] g2 A2.
  apply wp_bind; eapply wp_mono; [apply note_ok, A2|]; intros [] g3 A3.
  apply wp_bind; eapply wp_mono; [apply note_ok, A3|]; intros [] g4 A4.
  eapply wp_mono; [apply note_ok, A4|]; intros [] g5 A5. clear - A5. revert A5.
  rewrite <- !app_assoc, app_nil_r. unfold error_flags, error_code.
  by destruct (has isrflags USART_ISR_FE), (has isrflags USART_ISR_NE), (has isrflags USART_ISR_ORE).
Qed.
Lemma error_code_none isrflags : (error_code isrflags =? HAL_UART_ERROR_NONE) = match error_flags isrflags with [] => true | _ => false end.
Proof.
  unfold error_code, error_flags.
  by destruct (has isrflags USART_ISR_FE), (has isrflags USART_ISR_NE), (has isrflags USART_ISR_ORE).
Qed.
Lemma error_flagged isrflags : has isrflags USART_ISR_PE = false -> has isrflags USART_ISR_RTOF = false ->
  has isrflags (Z.lor USART_ISR_PE (Z.lor USART_ISR_FE (Z.lor USART_ISR_ORE (Z.lor USART_ISR_NE USART_ISR_RTOF)))) =
  match error_flags isrflags with [] => false | _ => true end.
Proof.
  intros Hp Hr. rewrite !has_or, Hp, Hr. unfold error_flags.
  by destruct (has isrflags USART_ISR_FE), (has isrflags USART_ISR_NE), (has isrflags USART_ISR_ORE).
Qed.

(** An error that does not stop the receiver is reported. *)
Lemma nonblocking_ok l g :
  agrees armed l g ->
  wp (HAL_UART_ErrorCallback (Some (handle_of (huart4 (hw g))));;
      update (fun h => h <| ErrorCode := HAL_UART_ERROR_NONE |>)) (fun _ => agrees ready (line_error l)) g.
Proof.
  intros A. apply wp_bind. eapply wp_mono; [by apply (error_callback_ok l g _ eq_refl); right|].
  cbv beta. rewrite (ar_state _ (ag_handle _ _ _ A)). closed_tests. intros [] g1 A1.
  eapply (wp_update armed ready); [done| |by intros]. intros h [] Ha. split; [by split; [intros []|..]|].
  split; [by destruct Ha|done].
Qed.

Lemma errors_ok l g isrflags rdr :
  agrees ready l g -> event_ok (Interrupt isrflags rdr) -> error_flags isrflags <> [] ->
  let rx := has isrflags USART_ISR_RXNE_RXFNE in
  wp (uart_errors isrflags (CR1 (huart4 (hw g))) (CR3 (huart4 (hw g))) rdr rx)
    (fun _ => agrees ready (line_interrupt isrflags rdr l)) g.
Proof.
  intros A [Hp Hr] Hne. cbv zeta. unfold uart_errors. apply wp_bind.
  eapply wp_mono; [by apply noted_flags|]. intros [] g1 A1. cbv beta in A1.
  unfold line_interrupt. pose proof (error_code_none isrflags) as Hc. destruct (error_flags isrflags) as [|fl fls]; [done|].
  set (l1 := l <| cleared := _ |>) in *. cbv zeta. apply wp_bind, wp_gets. rewrite (proj2 (ag_handle _ _ _ A1)), Hc. cbn [negb].
  unfold when at 1. apply wp_bind. destruct (has isrflags USART_ISR_RXNE_RXFNE); unfold when at 1.
  - assert (agrees armed l1 g1) as A2 by (eapply agrees_mono; [done|by intros h _ []]).
    eapply wp_mono; [by apply rx_routine_ok|]. intros [] g2 A3. apply wp_bind, wp_gets.
    pose proof (ag_handle _ _ _ A3) as [_ ->]. rewrite (cf_dmar _ (ag_configured _ _ _ A3)).
    change (has HAL_UART_ERROR_NONE _) with false. cbn [orb]. apply nonblocking_ok.
    eapply agrees_mono; [done|by intros h _ []].
  - apply wp_ret, wp_bind, wp_gets. rewrite (cf_dmar _ (ag_configured _ _ _ A1)). cbn [orb].
    assert (agrees armed l1 g1) as A2 by (eapply agrees_mono; [done|by intros h _ []]).
    destruct (has (ErrorCode _) _); [|by apply nonblocking_ok].
    apply wp_bind. eapply (wp_update armed stopped); [done|by intros h C _; apply end_rx|].
    intros g2 A3 _. apply wp_bind, wp_gets. rewrite (cf_dmar _ (ag_configured _ _ _ A3)).
    eapply wp_mono; [by apply (error_callback_ok l1 g2 _ eq_refl); left|]. cbv beta.
    pose proof (ag_handle _ _ _ A3) as ->. closed_tests. done.
Qed.

Lemma interrupt_ok l g isrflags rdr :
  agrees ready l g -> event_ok (Interrupt isrflags rdr) ->
  wp (HAL_UART_IRQHandler isrflags rdr) (fun _ => agrees ready (line_interrupt isrflags rdr l)) g.
Proof.
  intros A Hok. pose proof Hok as [Hp Hr]. pose proof (ag_configured _ _ _ A) as []. pose proof (ag_handle _ _ _ A) as [Ha _].
  pose proof Ha as []. unfold HAL_UART_IRQHandler. apply wp_bind, wp_gets. cbv zeta.
  rewrite error_flagged, ar_rxneie0, !has_or, ar_eie0, cf_rxftie0, cf_txftie0, cf_wufie0, cf_reception0 by done.
  closed_tests. rewrite orb_false_r, !andb_true_r, andb_false_r. cbv iota.
  pose proof (errors_ok l g isrflags rdr A Hok) as He. cbv zeta in He.
  assert (error_flags isrflags = [] -> line_interrupt isrflags rdr l =
    if has isrflags USART_ISR_RXNE_RXFNE then line_receive rdr l else line_sends isrflags l) as Hi
    by (unfold line_interrupt; by intros ->).
  destruct (error_flags isrflags) as [|fl fls]; cbn [negb andb]; [|by apply He]. rewrite (Hi eq_refl). clear He Hi.
  destruct (has isrflags USART_ISR_RXNE_RXFNE).
  { apply rx_routine_ok. eapply agrees_mono; [done|by intros h _ []]. }
  destruct (has isrflags USART_ISR_TXE_TXFNF && _) eqn:E1.
  { apply andb_true_iff in E1 as [E1 E2]. by apply tx_routine_ok. }
  destruct (has isrflags USART_ISR_TC && _) eqn:E2.
  { apply andb_true_iff in E2 as [E2 E3]. by apply end_transmit_ok. }
  apply wp_ret. replace (line_sends isrflags l) with l; [done|]. pose proof (ag_phase _ _ _ A) as Ht. unfold line_sends.
  destruct (phase l) as [|bs|]; [done| |]; cbn [tx_in] in Ht; unfold tx_part in Ht.
  - destruct Ht as (_ & _ & [= _ _ _ _ Ex _]). rewrite Ex, andb_true_r in E1. rewrite E1. by destruct bs.
  - destruct Ht as (bs & n & [= _ _ _ _ _ Ex]). rewrite Ex, andb_true_r in E2. by rewrite E2.
Qed.
(** The handle after a frame was accepted. *)
Definition started (tx : list Z) (h : UART_HandleTypeDef) : UART_HandleTypeDef :=
  set_CR1 USART_CR1_TXEIE_TXFNFIE (h <| pTxBuffPtr := tx |>
    <| TxXferSize := Z.of_nat (length tx) |> <| TxXferCount := Z.of_nat (length tx) |>
    <| TxISR := Some TxISR_8BIT |> <| ErrorCode := HAL_UART_ERROR_NONE |> <| gState := HAL_UART_STATE_BUSY_TX |>).

Lemma start_transmit h tx : configured h -> event_ok (Transmit tx) ->
  HAL_UART_Transmit_IT (Some tx) (u16 (Z.of_nat (length tx))) h =
  if gState h =? HAL_UART_STATE_READY then match tx with [] => (HAL_ERROR, h) | _ => (HAL_OK, started tx h) end
  else (HAL_BUSY, h).
Proof.
  intros [] [_ Hn]. rewrite u16_small by (unfold is_u16; lia). unfold HAL_UART_Transmit_IT.
  destruct (_ =? HAL_UART_STATE_READY); [|done]. destruct tx as [|b tx]; [done|].
  rewrite (proj2 (Z.eqb_neq _ 0)) by (cbn [length]; lia). destruct h. cbn [WordLength Parity FifoMode] in *. by subst.
Qed.

Lemma started_ok h tx : ErrorCode h = HAL_UART_ERROR_NONE -> bytes tx -> Z.of_nat (length tx) < 65536 ->
  tx_in Idle h -> tx_only h (started tx h) /\ tx_in (Sending tx) (started tx h).
Proof.
  intros He Hb Hn (r & bs & n & Hp). unfold tx_part in Hp. injection Hp as Eg Er El Ec E1 E2. unfold started. split.
  - split; [|intros [[] _]; split; [|reflexivity]|reflexivity]; [intros []|]; split; uart_simpl; try assumption; by bits.
  - split; [done|]. split; [done|]. unfold tx_part. uart_simpl. bits. by rewrite E2.
Qed.

Lemma transmit_ok l g tx :
  agrees ready l g -> event_ok (Transmit tx) ->
  wp (GwMonad.HAL_UART_Transmit_IT tx)
    (fun st g' => let '(r, l') := line_transmit tx l in st = r /\ agrees ready l' g') g.
Proof.
  intros A Hok. unfold GwMonad.HAL_UART_Transmit_IT. apply wp_bind, wp_preempt.
  set (g1 := env _ _). assert (agrees ready l g1) as A1.
  { subst g1. apply agrees_env. by destruct A. }
  clearbody g1. clear A g. apply wp_bind, wp_gets. cbn [uart_transmit_it world_hw uart_world uart_hardware].
  pose proof (ag_phase _ _ _ A1) as Hp. rewrite start_transmit by (done || apply A1). unfold line_transmit.
  assert (agrees ready l (g1 <| hw := mk_board (huart4 (hw g1)) (others (hw g1)) |>)) as A2 by by destruct A1.
  destruct (phase l) as [|bs|] eqn:Ep.
  - destruct Hok as [Hb Hn]. pose proof Hp as (r & bs & n & [= Eg _ _ _ _ _]). rewrite Eg. closed_tests.
    destruct tx as [|b tx]; [by apply wp_bind, wp_modify, wp_ret|]. apply wp_bind, wp_modify, wp_ret. split; [done|].
    destruct (started_ok (huart4 (hw g1)) (b :: tx)) as [Ht Hs]; [apply (ag_handle _ _ _ A1)|done..|].
    by destruct (agrees_tx l g1 (started (b :: tx)) (Sending (b :: tx)) (wire l) A1 Ht Hs (ag_wire _ _ _ A1)).
  - destruct Hp as (_ & _ & [= -> _ _ _ _ _]). by apply wp_bind, wp_modify, wp_ret.
  - destruct Hp as (bs & n & [= -> _ _ _ _ _]). by apply wp_bind, wp_modify, wp_ret.
Qed.

(** ** Runs *)
Lemma event_step l g e :
  agrees ready l g -> event_ok e ->
  wp (uart_do e) (fun r g' => let '(r', l') := line_do e l in r = r' /\ agrees ready l' g') g.
Proof.
  intros A He. destruct e as [isrflags rdr|tx|r n]; cbn [uart_do line_do].
  - apply wp_bind. eapply wp_mono; [by apply interrupt_ok|]. intros [] g1 A1. by apply wp_ret.
  - by apply transmit_ok.
  - apply wp_bind, wp_modify, wp_ret. split; [done|]. destruct A as [H C F W I R Er Fl T].
    split; st_simpl; cbn [set_field ring flags]; try done.
Qed.

Lemma run_ok es l g :
  agrees ready l g -> Forall event_ok es ->
  wp (uart_run es) (fun rs g' => let '(rs', l') := line_run es l in rs = rs' /\ agrees ready l' g') g.
Proof.
  revert l g. induction es as [|e es IH]; intros l g A H; [by apply wp_ret|]. apply Forall_cons in H as [He H].
  cbn [uart_run line_run]. apply wp_bind. eapply wp_mono; [by apply event_step|]. intros r g1 H1. cbv beta in H1.
  destruct (line_do e l) as [r' l1]. destruct H1 as [-> A1]. apply wp_bind.
  eapply wp_mono; [by apply (IH l1)|]. intros rs g2 H2. cbv beta in H2.
  destruct (line_run es l1) as [rs' l2]. destruct H2 as [-> A2]. by apply wp_ret.
Qed.
(** ** What goes out *)
Definition outgoing (l : rs422_line) := (phase l, given l, completed l, wire l).

Lemma outgoing_signal bits l : outgoing (signal bits l) = outgoing l.
Proof. unfold signal. by destruct (task_known l). Qed.
Lemma outgoing_receive rdr l : outgoing (line_receive rdr l) = outgoing l.
Proof. unfold line_receive. by rewrite outgoing_signal. Qed.
Lemma outgoing_error l : outgoing (line_error l) = outgoing l.
Proof. unfold line_error. by rewrite outgoing_signal. Qed.
Lemma outgoing_interrupt isrflags rdr l :
  outgoing (line_interrupt isrflags rdr l) = outgoing l \/
  outgoing (line_interrupt isrflags rdr l) = outgoing (line_sends isrflags l) /\
  error_flags isrflags = [] /\ has isrflags USART_ISR_RXNE_RXFNE = false.
Proof.
  unfold line_interrupt. destruct (error_flags isrflags), (has isrflags USART_ISR_RXNE_RXFNE); [left|by right|left|left];
    by rewrite ?outgoing_error, ?outgoing_receive.
Qed.

(** All accepted frames but the last are on the wire, and of the last what is
    no longer left. *)
Definition accounted (l : rs422_line) : Prop :=
  match phase l with
  | Idle => completed l = length (given l) /\ wire l = concat (given l)
  | Sending bs => exists fs pre, given l = fs ++ [pre ++ bs] /\ completed l = length fs /\ wire l = concat fs ++ pre
  | Draining => exists fs f, given l = fs ++ [f] /\ completed l = length fs /\ wire l = concat (given l)
  end.
Lemma accounted_same l l' : outgoing l' = outgoing l -> accounted l -> accounted l'.
Proof. intros [= E1 E2 E3 E4]. unfold accounted. by rewrite E1, E2, E3, E4. Qed.

Lemma sends_accounted isrflags l : accounted l -> accounted (line_sends isrflags l).
Proof.
  unfold accounted, line_sends. intros H. destruct (phase l) as [|[|b bs]|] eqn:Ep.
  - by rewrite Ep.
  - destruct (has _ _); [cbn|by rewrite Ep]. destruct H as (fs & pre & E1 & E2 & E3). exists fs, pre.
    rewrite app_nil_r in E1. split; [done|]. split; [done|]. rewrite E1, E3, concat_app. cbn. by rewrite app_nil_r.
  - destruct (has _ _); [cbn|by rewrite Ep]. destruct H as (fs & pre & E1 & E2 & E3). exists fs, (pre ++ [b]).
    by rewrite E1, E3, <- !app_assoc.
  - destruct (has _ _); [|by rewrite Ep]. destruct H as (fs & f & E1 & E2 & E3).
    eapply accounted_same; [apply outgoing_signal|]. unfold accounted. cbn. split; [|done].
    rewrite E1, E2, length_app. cbn. lia.
Qed.

Lemma do_accounted e l : accounted l -> accounted (line_do e l).2.
Proof.
  intros H. destruct e as [isrflags rdr|tx|r n]; cbn [line_do snd]; [| |done].
  - destruct (outgoing_interrupt isrflags rdr l) as [E1|[E1 _]].
    + by apply (accounted_same l).
    + by apply (accounted_same (line_sends isrflags l)), sends_accounted.
  - unfold line_transmit. destruct (phase l) eqn:Ep; [|done|done]. destruct tx as [|b tx]; [done|].
    unfold accounted in H. rewrite Ep in H. destruct H as [E1 E2]. exists (given l), []. cbn. by rewrite app_nil_r.
Qed.
Lemma run_accounted es l : accounted l -> accounted (line_run es l).2.
Proof.
  revert l. induction es as [|e es IH]; intros l H; [done|]. cbn [line_run].
  apply (do_accounted e) in H. destruct (line_do e l) as [r l1]. specialize (IH l1 H).
  by destruct (line_run es l1).
Qed.

Lemma accounted_wire l : accounted l -> exists part, wire l = concat (take (completed l) (given l)) ++ part.
Proof.
  unfold accounted. destruct (phase l).
  - intros [-> ->]. exists []. by rewrite firstn_all, app_nil_r.
  - intros (fs & pre & -> & -> & ->). exists pre. by rewrite take_app_length.
  - intros (fs & f & -> & -> & ->). exists f. rewrite take_app_length, concat_app. cbn. by rewrite app_nil_r.
Qed.

Lemma accounted_rest l : accounted l -> exists rest, concat (given l) = wire l ++ rest.
Proof.
  unfold accounted. destruct (phase l) as [|bs|].
  - intros [_ ->]. exists []. by rewrite app_nil_r.
  - intros (fs & pre & -> & _ & ->). exists bs. rewrite concat_app. cbn. by rewrite app_nil_r, app_assoc.
  - intros (fs & f & -> & _ & ->). exists []. by rewrite app_nil_r.
Qed.
Lemma frame_on_wire l before tx after :
  accounted l -> given l = before ++ [tx] ++ after -> (length before < completed l)%nat ->
  exists later, wire l = concat before ++ tx ++ later.
Proof.
  intros H Hg Hc. destruct (accounted_wire l H) as [part ->]. rewrite Hg.
  replace (completed l) with (length before + S (completed l - length before - 1))%nat by lia.
  rewrite firstn_app_2. cbn [app take firstn]. rewrite concat_app. cbn [concat]. rewrite <- !app_assoc. by eexists.
Qed.

(** Interrupts that serve the transmitter: nothing received, no error, and
    the transmitter is ready for more. *)
Definition serves (e : uart_event) : bool :=
  match e with
  | Interrupt isrflags _ =>
      match error_flags isrflags with [] => negb (has isrflags USART_ISR_RXNE_RXFNE) | _ => false end &&
      has isrflags USART_ISR_TXE_TXFNF && has isrflags USART_ISR_TC
  | _ => false
  end.
Definition served (es : list uart_event) : nat := length (filter (fun e => serves e = true) es).
Definition work (p : tx_phase) : nat := match p with Idle => 0 | Sending bs => length bs + 2 | Draining => 1 end.

(** From [l] to [l'] nothing was taken back, and [n] times the transmitter
    was served. *)
Definition progress (n : nat) (l l' : rs422_line) : Prop :=
  given l `prefix_of` given l' /\ (completed l <= completed l')%nat /\
  (phase l <> Idle ->
   (completed l < completed l')%nat \/ phase l' <> Idle /\ (work (phase l') + n <= work (phase l))%nat).

Lemma progress_same l l' : outgoing l' = outgoing l -> progress 0 l l'.
Proof.
  intros [= E1 E2 E3 E4]. unfold progress. rewrite E1, E2, E3. split; [done|]. split; [done|]. intros H. right. split; [done|lia].
Qed.
Lemma progress_outgoing n l l1 l' : outgoing l' = outgoing l1 -> progress n l l1 -> progress n l l'.
Proof. intros [= E1 E2 E3 E4]. unfold progress. by rewrite E1, E2, E3. Qed.
Lemma progress_trans n m l1 l2 l3 : progress n l1 l2 -> progress m l2 l3 -> progress (n + m) l1 l3.
Proof.
  intros (G1 & C1 & W1) (G2 & C2 & W2). split; [by etrans|]. split; [lia|]. intros H.
  destruct (W1 H) as [?|[H2 ?]]; [left; lia|]. destruct (W2 H2) as [?|[H3 ?]]; [left; lia|right]. split; [done|lia].
Qed.

Lemma sends_progress isrflags l :
  progress (if has isrflags USART_ISR_TXE_TXFNF && has isrflags USART_ISR_TC then 1 else 0) l (line_sends isrflags l).
Proof.
  unfold line_sends. destruct (phase l) as [|[|b bs]|] eqn:Ep.
  - split; [done|]. split; [done|]. by rewrite Ep.
  - destruct (has isrflags USART_ISR_TXE_TXFNF); cbn [andb]; [|by apply progress_same].
    split; [done|]. split; [done|]. intros _. right. split; [done|]. rewrite Ep. cbn. destruct (has _ _); lia.
  - destruct (has isrflags USART_ISR_TXE_TXFNF); cbn [andb]; [|by apply progress_same].
    split; [done|]. split; [done|]. intros _. right. split; [done|]. rewrite Ep. cbn. destruct (has _ _); lia.
  - destruct (has isrflags USART_ISR_TC); [|rewrite andb_false_r; by apply progress_same].
    eapply progress_outgoing; [apply outgoing_signal|]. split; [done|]. split; [cbn; lia|]. intros _. left. cbn. lia.
Qed.

Lemma do_progress e l : progress (if serves e then 1 else 0) l (line_do e l).2.
Proof.
  destruct e as [isrflags rdr|tx|r n]; cbn [line_do snd serves].
  - pose proof (sends_progress isrflags l) as Hs.
    destruct (outgoing_interrupt isrflags rdr l) as [E1|(E1 & Hf & Hr)].
    + unfold line_interrupt in *. destruct (error_flags isrflags); [|cbn [andb]; by apply progress_same].
      destruct (has isrflags USART_ISR_RXNE_RXFNE); [by apply progress_same|done].
    + rewrite Hf, Hr. cbn [negb andb]. by eapply progress_outgoing.
  - unfold line_transmit. destruct (phase l) eqn:Ep; [|by apply progress_same|by apply progress_same].
    destruct tx; [by apply progress_same|]. split; [by eexists|]. split; [done|]. by rewrite Ep.
  - by apply progress_same.
Qed.
Lemma run_progress es l : progress (served es) l (line_run es l).2.
Proof.
  revert l. induction es as [|e es IH]; intros l; [by apply progress_same|]. cbn [line_run].
  pose proof (do_progress e l) as H1. destruct (line_do e l) as [r l1]. specialize (IH l1).
  destruct (line_run es l1) as [rs l2]. cbn [snd] in *.
  replace (served (e :: es)) with ((if serves e then 1 else 0) + served es)%nat; [by eapply progress_trans|].
  unfold served. rewrite filter_cons. case_decide as Hd; [by rewrite Hd|]. by rewrite (not_true_is_false _ Hd).
Qed.

(** The frames that were accepted, by the results of the run. *)
Fixpoint accepted (es : list uart_event) (rs : list Z) : list (list Z) :=
  match es, rs with
  | Transmit tx :: es, r :: rs => if r =? HAL_OK then tx :: accepted es rs else accepted es rs
  | _ :: es, _ :: rs => accepted es rs
  | _, _ => []
  end.
Lemma run_given es l : let '(rs, l') := line_run es l in given l' = given l ++ accepted es rs.
Proof.
  revert l. induction es as [|e es IH]; intros l; [by cbn; rewrite app_nil_r|]. cbn [line_run].
  assert (given (line_do e l).2 = given l ++ match e with
    | Transmit tx => if (line_do e l).1 =? HAL_OK then [tx] else [] | _ => [] end) as He.
  { destruct e as [isrflags rdr|tx|r n]; cbn [line_do fst snd]; [|unfold line_transmit|by rewrite app_nil_r].
    - rewrite app_nil_r. destruct (outgoing_interrupt isrflags rdr l) as [[= _ -> _ _]|[[= _ -> _ _] _]]; [done|].
      unfold line_sends, signal. destruct (phase l) as [|[]|]; try done; destruct (has _ _); try done.
      cbn. by destruct (task_known l).
    - destruct (phase l); [destruct tx|..]; cbn; by rewrite ?app_nil_r. }
  destruct (line_do e l) as [r l1]. cbn [fst snd] in He. specialize (IH l1). destruct (line_run es l1) as [rs l2].
  rewrite IH, He, <- app_assoc. f_equal. destruct e as [isrflags rdr|tx|r' n]; cbn; try done. by destruct (r =? HAL_OK).
Qed.
(** C12: The HAL's UART driver implements the line.  Once the driver is
    initialised and the gateway has started to receive, whatever sequence of
    interrupts - with any flags but the two that the configuration excludes -,
    frames handed over and other code follows: no branch outside the
    configured mode is entered, each frame handed over is answered as the line
    answers it, and afterwards the handle, the registers, the receive ring,
    the error count and the task's notification are those of the line: every
    byte that arrived was put into the ring, every interrupt with an error
    counted once and its flags cleared, and the receiver is armed again. *)
Theorem uart_driver_refines_line l g es :
  agrees stopped l g -> Forall event_ok es ->
  wp (st ← GwMonad.HAL_UART_Receive_IT; rs ← uart_run es; mret (st, rs))
    (fun '(st, rs) g' =>
       let '(rs', l') := line_run es l in
       st = HAL_OK /\ rs = rs' /\ agrees ready l' g') g.
Proof.
  intros A Hes. apply wp_bind. eapply wp_mono; [by apply receive_ok|]. intros st g1 [-> A1]. apply wp_bind.
  eapply wp_mono; [by apply run_ok|]. intros rs g2 H. apply wp_ret. cbv beta in *. destruct (line_run es l). by destruct H.
Qed.

(** C13: Frames go out whole, once and in order.  After any run from the
    initialised driver, the bytes written to the data register are the frames
    accepted so far, in order, the last one possibly in part; and when a frame
    of [n] bytes was accepted, then after [n + 2] further interrupts that
    serve the transmitter - among any other interrupts, receptions, errors
    and attempts to send - it is on the wire completely, behind all frames
    accepted before it, and its completion has been reported. *)
Theorem uart_frames_go_out l g es1 tx es2 :
  agrees stopped l g -> phase l = Idle -> given l = [] -> completed l = O -> wire l = [] ->
  Forall event_ok es1 -> event_ok (Transmit tx) -> Forall event_ok es2 ->
  wp (GwMonad.HAL_UART_Receive_IT;;
      rs1 ← uart_run es1; r ← uart_do (Transmit tx); rs2 ← uart_run es2; mret (rs1, r, rs2))
    (fun '(rs1, r, rs2) g' =>
       let before := accepted es1 rs1 in
       let frames := before ++ (if r =? HAL_OK then [tx] else []) ++ accepted es2 rs2 in
       (exists rest, concat frames = TDR (huart4 (hw g')) ++ rest) /\
       (r = HAL_OK -> (length tx + 2 <= served es2)%nat ->
        (exists later, TDR (huart4 (hw g')) = concat before ++ tx ++ later) /\
        let l' := (line_run es2 (line_transmit tx (line_run es1 l).2).2).2 in
        (length before < completed l')%nat /\ agrees ready l' g')) g.
Proof.
  intros A Hp Hg Hc Hw H1 Ht H2. assert (accounted l) as A0 by (unfold accounted; by rewrite Hp, Hg, Hc, Hw).
  apply wp_bind. eapply wp_mono; [by apply receive_ok|]. intros st g1 [-> A1].
  apply wp_bind. eapply wp_mono; [by apply run_ok|]. intros rs1 g2 R1. cbv beta in R1.
  pose proof (run_accounted es1 l A0) as C1. pose proof (run_given es1 l) as G1. destruct (line_run es1 l) as [rs1' l1].
  destruct R1 as [-> A2]. apply wp_bind. eapply wp_mono; [by apply (event_step l1)|]. intros r g3 R2. cbv beta in R2.
  cbn [line_do snd] in *. pose proof (do_accounted (Transmit tx) l1 C1) as C2. cbn [line_do] in C2.
  assert (given (line_transmit tx l1).2 = given l1 ++ (if (line_transmit tx l1).1 =? HAL_OK then [tx] else []) /\
    ((line_transmit tx l1).1 = HAL_OK -> phase l1 = Idle /\ phase (line_transmit tx l1).2 = Sending tx /\
       completed (line_transmit tx l1).2 = completed l1)) as [G2 S2].
  { unfold line_transmit. destruct (phase l1); [destruct tx|..]; cbn; by rewrite ?app_nil_r. }
  destruct (line_transmit tx l1) as [r' l2]. destruct R2 as [-> A3]. cbn [fst snd] in *.
  apply wp_bind. eapply wp_mono; [by apply run_ok|]. intros rs2 g4 R3. apply wp_ret. cbv beta in *.
  pose proof (run_accounted es2 l2 C2) as C3. pose proof (run_given es2 l2) as G3. pose proof (run_progress es2 l2) as P.
  destruct (line_run es2 l2) as [rs2' l3]. destruct R3 as [-> A4]. cbn [snd] in *. cbv zeta.
  rewrite Hg in G1. cbn [app] in G1. rewrite G1 in G2. rewrite G2, <- app_assoc in G3. rewrite (ag_wire _ _ _ A4).
  split; [apply accounted_rest in C3; by rewrite G3 in C3|]. intros -> Hserved. destruct (S2 eq_refl) as (P1 & P2 & E2).
  unfold accounted in C1. rewrite P1, G1 in C1. destruct C1 as [C1 _].
  assert (length (accepted es1 rs1') < completed l3)%nat as Hdone.
  { destruct P as (_ & _ & [P|[P3 P]]); rewrite ?P2 in *; [done|lia|]. cbn [work] in P. destruct (phase l3); cbn [work] in P; [done|lia|lia]. }
  split; [|done]. apply (frame_on_wire l3 _ tx _ C3 G3 Hdone).
Qed.
End Board.

(** ** Examples

    UART4 after [MX_UART4_Init], with UE, TE and RE set; time passes. *)
Definition uart4_ready : UART_HandleTypeDef :=
  mk_uart 0x0D 0 0 [] [] [] UART_WORDLENGTH_8B UART_PARITY_NONE UART_FIFOMODE_DISABLE 1 [] 0 0 0 0 0 0
    HAL_UART_RECEPTION_STANDARD HAL_UART_RXEVENT_TC None None HAL_UART_STATE_READY HAL_UART_STATE_READY
    HAL_UART_ERROR_NONE.
Definition uart_env (n : nat) (g : gateway (board demo_hw)) : gateway (board demo_hw) :=
  g <| tick := u32 (tick g + 1) |>.
Definition uart_gateway : gateway (board demo_hw) := put RS422TaskHandle 1 {|
  var := gvar_initial;
  packet_of _ := zero_packet;
  parser_of _ := parser_init;
  array_of _ := replicate 266 0;
  queue_of _ := Some [];
  notif_of _ := mk_notification 0 false;
  rx_ring := empty_rs422_ring 0;
  g_uart4_rx_byte := 0;
  tick := 0;
  hw := mk_board uart4_ready (hw demo_gateway);
  epoch := 0
|}.
Definition idle_line : rs422_line :=
  mk_line Idle [] 0 [] (empty_rs422_ring 0) 0 [] (mk_notification 0 false) true.

Lemma uart_gateway_idle : agrees stopped idle_line uart_gateway.
Proof. split; try done. by exists None, [], 0. Qed.

(** A byte arrives; two bytes are sent, while another frame is refused and
    an overrun is reported together with a byte. *)
Definition uart_first : list uart_event := [Interrupt 0xE0 0x1AA].
Definition uart_frame : list Z := [0xAA; 0x55].
Definition uart_then : list uart_event :=
  [Interrupt 0xC0 0; Transmit [1]; Interrupt 0xE8 0x07; Interrupt 0xC8 0; Interrupt 0xC0 0; Interrupt 0xC0 0;
   Interrupt 0xC2 0; Interrupt 0xC0 0].

Lemma uart_driver_refines_line_witness :
  let es := uart_first ++ Transmit uart_frame :: uart_then in
  wp (D := board demo_hw)
    (st ← @GwMonad.HAL_UART_Receive_IT _ (uart_world demo_hardware uart_env 10);
     rs ← uart_run demo_hardware uart_env 10 es; mret (st, rs))
    (fun '(st, rs) g' =>
       let '(rs', l') := line_run es idle_line in
       st = HAL_OK /\ rs = rs' /\ agrees ready l' g') uart_gateway /\
  (let '(rs, l) := line_run es idle_line in
   rs = [0; HAL_OK; 0; HAL_BUSY; 0; 0; 0; 0; 0; 0] /\ phase l = Idle /\ wire l = uart_frame /\ completed l = 1%nat /\
   errors l = 3 /\ cleared l = [8; 8; 2] /\ g_rs422_rx_head (ring l) = 2).
Proof.
  split; [|vm_compute; done].
  apply (uart_driver_refines_line demo_hardware uart_env 10); [by intros n g|apply uart_gateway_idle|].
  repeat apply Forall_cons_2; try apply Forall_nil_2; split; try done; unfold uart_frame; solve_bytes.
Defined.

Lemma uart_frames_go_out_witness :
  served uart_then = 4%nat /\
  wp (D := board demo_hw)
    (@GwMonad.HAL_UART_Receive_IT _ (uart_world demo_hardware uart_env 10);;
     rs1 ← uart_run demo_hardware uart_env 10 uart_first;
     r ← uart_do demo_hardware uart_env 10 (Transmit uart_frame);
     rs2 ← uart_run demo_hardware uart_env 10 uart_then; mret (rs1, r, rs2))
    (fun '(rs1, r, rs2) g' =>
       let before := accepted uart_first rs1 in
       let frames := before ++ (if r =? HAL_OK then [uart_frame] else []) ++ accepted uart_then rs2 in
       (exists rest, concat frames = TDR (huart4 (hw g')) ++ rest) /\
       (r = HAL_OK -> (length uart_frame + 2 <= served uart_then)%nat ->
        (exists later, TDR (huart4 (hw g')) = concat before ++ uart_frame ++ later) /\
        let l' := (line_run uart_then (line_transmit uart_frame (line_run uart_first idle_line).2).2).2 in
        (length before < completed l')%nat /\ agrees ready l' g')) uart_gateway.
Proof.
  split; [vm_compute; done|].
  apply (uart_frames_go_out demo_hardware uart_env 10); try done; [apply uart_gateway_idle|..].
  - repeat apply Forall_cons_2; try apply Forall_nil_2; split; done.
  - split; [unfold uart_frame; solve_bytes|done].
  - repeat apply Forall_cons_2; try apply Forall_nil_2; split; try done; solve_bytes.
Defined.
