(* ===== verification/GwHealth.v ===== *)
(** * The health task (g474_gateway/Core/Src/main.c)

    Every 100 ms: the RS-422 communication state from the age of the last
    valid frame, and the heap figures. *)
From S2P Require Import Prelude Crc16 Protocol StreamParser RxRing GwDiag.
From S2P Require Export GwLogic.
Local Open Scope Z_scope.

Definition health_period_ticks : Z := rs422_ms_to_kernel_ticks HEALTH_TASK_PERIOD_MS.
Definition comm_timeout_ticks : Z := rs422_ms_to_kernel_ticks RS422_COMM_TIMEOUT_MS.

Section Health.
Context {D : Type} `{!World D}.
Abbreviation M := (M D).

(** A variable the higher-priority RS-422 task writes: it may run first. *)
Definition rd_volatile (v : gvar) : M Z := preempt;; rd v.

Definition health_init : M Z :=
  health_start_tick ← osKernelGetTickCount;
  wr g_rs422_comm_state COMM_INIT;;
  wr g_rs422_comm_timeout_count 0;;
  wr g_rs422_comm_recovery_count 0;;
  mret health_start_tick.

Definition enter_timeout (current_tick has_valid_frame last_valid_frame_tick : Z) : M unit :=
  state ← rd g_rs422_comm_state;
  when (negb (state =? COMM_TIMEOUT)) (
    rs422_diag_record_timeout_transition current_tick has_valid_frame last_valid_frame_tick;;
    incr g_rs422_comm_timeout_count;;
    wr g_rs422_comm_state COMM_TIMEOUT).

Definition enter_ok (current_tick : Z) : M unit :=
  state ← rd g_rs422_comm_state;
  when (negb (state =? COMM_OK)) (
    when (state =? COMM_TIMEOUT) (
      recovery_first_valid_tick ← rd_volatile g_rs422_diag_recovery_first_valid_tick;
      wr g_rs422_diag_recovery_comm_ok_tick current_tick;;
      wr g_rs422_diag_recovery_comm_ok_ms (rs422_kernel_ticks_to_ms current_tick);;
      wr g_rs422_diag_recovery_ms DIAG_TIMESTAMP_NOT_CAPTURED_MS;;
      when (negb (recovery_first_valid_tick =? UINT32_MAX)) (
        let recovery_ticks := u32 (current_tick - recovery_first_valid_tick) in
        wr g_rs422_diag_recovery_ms (rs422_kernel_ticks_to_ms recovery_ticks));;
      incr g_rs422_comm_recovery_count);;
    wr g_rs422_comm_state COMM_OK).

Definition health_check (health_start_tick current_tick has_valid_frame
    last_valid_frame_tick : Z) : M unit :=
  if negb (has_valid_frame =? 0) then
    if u32 (current_tick - last_valid_frame_tick) >=? comm_timeout_ticks
    then enter_timeout current_tick has_valid_frame last_valid_frame_tick
    else enter_ok current_tick
  else
    when (u32 (current_tick - health_start_tick) >=? comm_timeout_ticks)
      (enter_timeout current_tick has_valid_frame last_valid_frame_tick).

(** One iteration of the [for (;;)]: [next_wake_tick] after it. *)
Definition health_iteration (health_start_tick next_wake_tick : Z) : M Z :=
  let next_wake_tick := u32 (next_wake_tick + health_period_ticks) in
  _ ← osDelayUntil next_wake_tick;
  current_tick ← osKernelGetTickCount;
  has_valid_frame ← rd_volatile g_rs422_has_valid_frame;
  last_valid_frame_tick ← rd_volatile g_rs422_last_valid_frame_tick;
  health_check health_start_tick current_tick has_valid_frame last_valid_frame_tick;;
  free ← gets (fun g => free_heap_size (hw g));
  wr g_gateway_free_heap_bytes free;;
  min_free ← gets (fun g => minimum_ever_free_heap_size (hw g));
  wr g_gateway_min_ever_free_heap_bytes min_free;;
  mret next_wake_tick.

Fixpoint health_iterations (n : nat) (health_start_tick next_wake_tick : Z) : M Z :=
  match n with
  | O => mret next_wake_tick
  | S n =>
      next ← health_iteration health_start_tick next_wake_tick;
      health_iterations n health_start_tick next
  end.

(** The task, for [n] iterations. *)
Definition health_task (n : nat) : M Z :=
  health_start_tick ← health_init;
  health_iterations n health_start_tick health_start_tick.

(** The same run, with the communication state after each iteration: what the
    other tasks see while this one sleeps. *)
Fixpoint watched_iterations (n : nat) (health_start_tick next_wake_tick : Z) : M (Z * list Z) :=
  match n with
  | O => mret (next_wake_tick, [])
  | S n =>
      next ← health_iteration health_start_tick next_wake_tick;
      state ← rd g_rs422_comm_state;
      '(wake, states) ← watched_iterations n health_start_tick next;
      mret (wake, state :: states)
  end.
Definition watched_task (n : nat) : M (Z * list Z) :=
  health_start_tick ← health_init;
  watched_iterations n health_start_tick health_start_tick.
End Health.

(** ** The state machine *)

(** The next state, from the age of the last valid frame (if any) and the time
    since the task started. *)
Definition comm_next (state has_valid_frame age uptime : Z) : Z :=
  if negb (has_valid_frame =? 0)
  then if age >=? comm_timeout_ticks then COMM_TIMEOUT else COMM_OK
  else if uptime >=? comm_timeout_ticks then COMM_TIMEOUT else state.

(** The steps of the state machine; INIT is never entered again. *)
Fixpoint comm_path (s : Z) (states : list Z) : Prop :=
  match states with
  | [] => True
  | s' :: states => (s' = s \/ s' = COMM_OK \/ s' = COMM_TIMEOUT) /\ comm_path s' states
  end.
(** How often TIMEOUT is entered and left on the way from [s] through [states]. *)
Fixpoint timeouts_entered (s : Z) (states : list Z) : Z :=
  match states with
  | [] => 0
  | s' :: states =>
      (if (s' =? COMM_TIMEOUT) && negb (s =? COMM_TIMEOUT) then 1 else 0) + timeouts_entered s' states
  end.
Fixpoint timeouts_left (s : Z) (states : list Z) : Z :=
  match states with
  | [] => 0
  | s' :: states =>
      (if (s =? COMM_TIMEOUT) && negb (s' =? COMM_TIMEOUT) then 1 else 0) + timeouts_left s' states
  end.

(** The variables only this task writes. *)
Definition health_vars : list gvar :=
  map Rs422Var [g_rs422_comm_state; g_rs422_comm_timeout_count; g_rs422_comm_recovery_count;
    g_rs422_diag_timeout_transition_tick; g_rs422_diag_timeout_transition_ms;
    g_rs422_diag_fault_detection_ms].

(** What the RS-422 task tells it. *)
Definition frame_vars : list gvar :=
  map Rs422Var [g_rs422_has_valid_frame; g_rs422_last_valid_frame_tick].

Fixpoint last_state (s : Z) (states : list Z) : Z :=
  match states with [] => s | s' :: states => last_state s' states end.

Definition bump (b : bool) (z : Z) : Z := if b then u32 (z + 1) else z.
Lemma bump_range b z : is_u32 z -> is_u32 (bump b z).
Proof. intros H. destruct b; [apply u32_range|done]. Qed.
Lemma bump_count b z k : u32 (bump b z + k) = u32 (z + ((if b then 1 else 0) + k)).
Proof. unfold bump. destruct b; width. Qed.

(** TIMEOUT is entered and left in turn. *)
Lemma timeouts_alternate s states :
  timeouts_entered s states + (if s =? COMM_TIMEOUT then 1 else 0) =
  timeouts_left s states + (if last_state s states =? COMM_TIMEOUT then 1 else 0).
Proof.
  revert s. induction states as [|s' states IH]; intros s; cbn; [lia|]. specialize (IH s').
  destruct (s =? COMM_TIMEOUT), (s' =? COMM_TIMEOUT); cbn; lia.
Qed.
Lemma path_states s states :
  comm_path s states -> In s [COMM_INIT; COMM_OK; COMM_TIMEOUT] ->
  In (last_state s states) [COMM_INIT; COMM_OK; COMM_TIMEOUT].
Proof.
  revert s. induction states as [|s' states IH]; intros s H Hs; [done|]. destruct H as [H Hp]. apply IH; [done|].
  destruct H as [-> | [-> | ->]]; [done|cbn; tauto..].
Qed.

Section HealthProofs.
Context {D : Type} `{!World D}.
Implicit Types g : gateway D.

(** From [g] to [g'] the state became [s]: the transitions are counted and a
    transition to COMM_TIMEOUT leaves its detection time. *)
Record transition (s : Z) (detection : Z) g g' : Prop := {
  tr_state : var g' g_rs422_comm_state = s;
  tr_timeouts : var g' g_rs422_comm_timeout_count =
    bump ((s =? COMM_TIMEOUT) && negb (var g g_rs422_comm_state =? COMM_TIMEOUT))
      (var g g_rs422_comm_timeout_count);
  tr_recoveries : var g' g_rs422_comm_recovery_count =
    bump ((var g g_rs422_comm_state =? COMM_TIMEOUT) && negb (s =? COMM_TIMEOUT))
      (var g g_rs422_comm_recovery_count);
  tr_detection : var g' g_rs422_diag_fault_detection_ms =
    if (s =? COMM_TIMEOUT) && negb (var g g_rs422_comm_state =? COMM_TIMEOUT) then detection
    else var g g_rs422_diag_fault_detection_ms
}.

Lemma transition_same s det g0 g g' :
  same_vars health_vars g0 g -> transition s det g g' -> transition s det g0 g'.
Proof. intros H [H1 H2 H3 H4]. rewrite !H in H2, H3, H4 by done. by split. Qed.

Lemma transition_then s det g g' g'' :
  transition s det g g' -> same_vars health_vars g' g'' -> transition s det g g''.
Proof. intros [H1 H2 H3 H4] H. by split; rewrite H by done. Qed.

Lemma stays det g : transition (var g g_rs422_comm_state) det g g.
Proof.
  split; [done| | |]; unfold bump;
    destruct (var g g_rs422_comm_state =? COMM_TIMEOUT); done.
Qed.

Lemma enter_timeout_ok cur has last g :
  wp (enter_timeout cur has last) (fun _ g' =>
    transition COMM_TIMEOUT
      (if negb (has =? 0) then u32 (cur - last) else DIAG_TIMESTAMP_NOT_CAPTURED_MS) g g' /\
    tick g' = tick g /\ same_vars frame_vars g g') g.
Proof.
  unfold enter_timeout, rs422_diag_record_timeout_transition. wp_auto.
  destruct (var g g_rs422_comm_state =? COMM_TIMEOUT) eqn:E; cbn [negb]; wp_auto.
  { assert (COMM_TIMEOUT = var g g_rs422_comm_state) as -> by lia. split; [apply stays|done]. }
  destruct (negb (has =? 0)) eqn:Eh; wp_auto.
  all: split; [|split; [st_simpl; done|by same_puts]].
  all: split; st_simpl; gv_simpl; rewrite ?E; try done.
  rewrite kernel_ms_id by apply u32_range. cbn. apply u32_small, u32_range.
Qed.

(** Time passes, and the RS-422 task leaves its variables alone if the
    world does. *)
Definition waited (d : Z) g g' : Prop :=
  advanced d g g' /\ (env_keeps (D := D) frame_vars -> same_vars frame_vars g g').

Lemma waited_trans d1 d2 g1 g2 g3 : waited d1 g1 g2 -> waited d2 g2 g3 -> waited (d1 + d2) g1 g3.
Proof.
  intros [H1 K1] [H2 K2]. split; [by eapply advanced_trans|]. intros Hk. etrans; eauto.
Qed.

Lemma waited_put v z d g g' :
  mem_var v frame_vars = false -> waited d g g' -> waited d g (put v z g').
Proof.
  intros Hv [H K]. split; [exact H|]. intros Hk. apply same_vars_put; auto.
Qed.

Context (J : Z) `{!Punctual D J} (HJ : 0 <= J) (Hk : env_keeps (D := D) health_vars).

Lemma wp_preempt_health Q g :
  (forall g', same_vars health_vars g g' -> waited J g g' -> Q tt g') -> wp preempt Q g.
Proof.
  intros H. apply wp_preempt. apply H; [by apply env_keeps_same|]. split.
  - destruct (punctual (epoch g) (g <| epoch := S (epoch g) |>)) as (e & He & E). by exists e.
  - intros Hf. by apply env_keeps_same.
Qed.

Lemma waited_refl g : is_u32 (tick g) -> waited J g g.
Proof. intros H. split; [|done]. exists 0. split; [lia|]. rewrite Z.add_0_r. symmetry. by apply u32_small. Qed.

Lemma enter_ok_ok cur det g :
  is_u32 (tick g) ->
  wp (enter_ok cur) (fun _ g' => transition COMM_OK det g g' /\ waited J g g') g.
Proof.
  intros Ht. unfold enter_ok, rd_volatile. wp_auto.
  destruct (var g g_rs422_comm_state =? COMM_OK) eqn:E; cbn [negb]; wp_auto.
  { assert (COMM_OK = var g g_rs422_comm_state) as -> by lia. split; [apply stays|by apply waited_refl]. }
  destruct (var g g_rs422_comm_state =? COMM_TIMEOUT) eqn:Et; wp_auto.
  - apply wp_preempt_health. intros g1 Hs Hw. wp_auto. destruct (negb _); wp_auto.
    all: split; [|repeat (apply waited_put; [reflexivity|]); done].
    all: split; gv_simpl; rewrite ?Et, ?Hs by done; done.
  - split; [|apply waited_put; [reflexivity|by apply waited_refl]].
    split; gv_simpl; rewrite ?Et; done.
Qed.

Definition fault_age (has age : Z) : Z :=
  if negb (has =? 0) then age else DIAG_TIMESTAMP_NOT_CAPTURED_MS.

Lemma waited_tick d g g' : waited d g g' -> is_u32 (tick g').
Proof. intros [(e & _ & ->) _]. apply u32_range. Qed.

Lemma health_check_ok h cur has last g :
  is_u32 (tick g) ->
  wp (health_check h cur has last) (fun _ g' =>
    transition (comm_next (var g g_rs422_comm_state) has (u32 (cur - last)) (u32 (cur - h)))
      (fault_age has (u32 (cur - last))) g g' /\ waited J g g') g.
Proof.
  intros Ht. unfold health_check, comm_next, fault_age.
  assert (wp (enter_timeout cur has last) (fun _ g' =>
    transition COMM_TIMEOUT
      (if negb (has =? 0) then u32 (cur - last) else DIAG_TIMESTAMP_NOT_CAPTURED_MS) g g' /\
    waited J g g') g) as Hto.
  { eapply wp_mono; [apply enter_timeout_ok|]. intros ? g' (H1 & H2 & H3). split; [done|].
    split; [|done]. exists 0. split; [lia|]. rewrite H2, Z.add_0_r. symmetry.
    by apply u32_small. }
  destruct (negb (has =? 0)).
  - destruct (_ >=? _); [exact Hto|by apply enter_ok_ok].
  - destruct (_ >=? _); [exact Hto|]. wp_auto. split; [apply stays|by apply waited_refl].
Qed.

Lemma delay_until_ok t Q g :
  is_u32 t ->
  (forall st g1, same_vars health_vars g g1 ->
     (env_keeps (D := D) frame_vars -> same_vars frame_vars g g1) -> is_u32 (tick g1) ->
     (forall e, tick g = u32 (t - 100 + e) -> 0 <= e -> e + J < 100 -> tick g1 = t) ->
     Q st g1) -> wp (osDelayUntil t) Q g.
Proof.
  intros Ht H. unfold osDelayUntil. wp_auto. apply wp_preempt_health. intros g1 Hs [(d & Hd & E) Hf].
  wp_auto. destruct (_ && _) eqn:Ec; wp_auto.
  - apply H; [done|exact Hf|done|done].
  - apply H; [done|exact Hf|rewrite E; apply u32_range|]. intros e He H0 H1. exfalso.
    assert (u32 (t - tick g1) = 100 - e - d) as Ed by (rewrite E, He; width).
    rewrite Ed in Ec. assert (Z.shiftr (100 - e - d) 31 = 0) as Es.
    { rewrite Z.shiftr_div_pow2 by lia. apply Z.div_small. lia. }
    rewrite Es in Ec. lia.
Qed.

(** One iteration: what it samples, the transition it makes, and its timing
    when it starts within the period after the wake-up tick [W]. *)
Record iterated (h W : Z) g (W' : Z) g' : Prop := {
  it_wake : W' = u32 (W + 100);
  it_tick : is_u32 (tick g');
  it_step : exists cur has last,
    transition (comm_next (var g g_rs422_comm_state) has (u32 (cur - last)) (u32 (cur - h)))
      (fault_age has (u32 (cur - last))) g g' /\
    (env_keeps (D := D) frame_vars -> same_vars frame_vars g g' /\
       has = var g g_rs422_has_valid_frame /\ last = var g g_rs422_last_valid_frame_tick) /\
    (forall e, tick g = u32 (W + e) -> 0 <= e -> e + J < 100 ->
       exists d e', 0 <= d <= J /\ cur = u32 (W + 100 + d) /\
                    0 <= e' <= 4 * J /\ tick g' = u32 (W' + e'))
}.

Lemma health_iteration_ok h W g :
  wp (health_iteration h W) (iterated h W g) g.
Proof.
  unfold health_iteration, osKernelGetTickCount, rd_volatile.
  change health_period_ticks with 100. cbv zeta. apply wp_bind.
  apply delay_until_ok; [apply u32_range|]. intros st g1 Hs1 Hf1 Ht1 Htime. wp_auto.
  apply wp_preempt_health. intros g2 Hs2 Hw2. wp_auto.
  apply wp_preempt_health. intros g3 Hs3 Hw3. wp_auto.
  apply wp_preempt_health. intros g4 Hs4 Hw4. wp_auto.
  eapply wp_mono; [apply health_check_ok; by eapply waited_tick|].
  intros ? g5 [Htr Hw5]. wp_auto.
  pose proof (waited_trans _ _ _ _ _ (waited_trans _ _ _ _ _ (waited_trans _ _ _ _ _ Hw2 Hw3) Hw4) Hw5)
    as [(e5 & He5 & E5) Hf5].
  assert (same_vars health_vars g g4) as Hs by (etrans; [done|]; etrans; [done|]; by etrans).
  split; [done|st_simpl; rewrite E5; apply u32_range|].
  exists (tick g2), (var g3 g_rs422_has_valid_frame), (var g4 g_rs422_last_valid_frame_tick).
  split; [|split].
  - rewrite <- (Hs g_rs422_comm_state) by done.
    eapply transition_then; [by eapply transition_same|].
    by same_puts.
  - intros Hfk. destruct Hw2 as [_ Hf2], Hw3 as [_ Hf3], Hw4 as [_ Hf4].
    specialize (Hf1 Hfk); specialize (Hf2 Hfk); specialize (Hf3 Hfk); specialize (Hf4 Hfk);
    specialize (Hf5 Hfk). split; [|split].
    + same_puts. etrans; [exact Hf1|exact Hf5].
    + rewrite Hf3, Hf2, Hf1 by done. done.
    + rewrite Hf4, Hf3, Hf2, Hf1 by done. done.
  - intros e He H0 H1. st_simpl.
    assert (tick g1 = u32 (W + 100)) as Et1 by (apply (Htime e); [rewrite He; width|lia|lia]).
    destruct Hw2 as [(d & Hd & Ed) _]. exists d, e5.
    rewrite Ed, E5, Et1. split; [done|]. split; [width|]. split; [lia|width].
Qed.

Lemma comm_next_cases s has age up :
  comm_next s has age up = COMM_TIMEOUT \/ comm_next s has age up = COMM_OK \/
  comm_next s has age up = s.
Proof.
  unfold comm_next. destruct (negb _); [destruct (age >=? _)|destruct (up >=? _)]; auto.
Qed.

Lemma watched_same n h W g :
  health_iterations n h W g = match watched_iterations n h W g with Some ((w, _), g') => Some (w, g') | None => None end.
Proof.
  revert W g. induction n as [|n IH]; intros W g; [done|]. cbn [health_iterations watched_iterations].
  unfold mbind, M_bind. destruct (health_iteration h W g) as [[W' g1]|]; [|done]. rewrite IH. cbn.
  by destruct (watched_iterations n h W' g1) as [[[w ss] g2]|].
Qed.

(** The counters count the transitions of the states seen. *)
Record counted (n : nat) (states : list Z) g g' : Prop := {
  co_length : length states = n;
  co_path : comm_path (var g g_rs422_comm_state) states;
  co_state : var g' g_rs422_comm_state = last_state (var g g_rs422_comm_state) states;
  co_timeouts : var g' g_rs422_comm_timeout_count =
    u32 (var g g_rs422_comm_timeout_count + timeouts_entered (var g g_rs422_comm_state) states);
  co_recoveries : var g' g_rs422_comm_recovery_count =
    u32 (var g g_rs422_comm_recovery_count + timeouts_left (var g g_rs422_comm_state) states)
}.

Lemma watched_counted n h W g :
  is_u32 (var g g_rs422_comm_timeout_count) -> is_u32 (var g g_rs422_comm_recovery_count) ->
  wp (watched_iterations n h W) (fun p g' => counted n p.2 g g') g.
Proof.
  revert W g. induction n as [|n IH]; intros W g Ht Hr; cbn [watched_iterations].
  { apply wp_ret. split; try done; cbn; by rewrite Z.add_0_r, u32_small. }
  apply wp_bind. eapply wp_mono; [apply health_iteration_ok|].
  intros W' g1 [_ _ (cur & has & last & [T1 T2 T3 _] & _)]. apply wp_bind, wp_gets, wp_bind.
  assert (is_u32 (var g1 g_rs422_comm_timeout_count)) as Ht1 by (rewrite T2; by apply bump_range).
  assert (is_u32 (var g1 g_rs422_comm_recovery_count)) as Hr1 by (rewrite T3; by apply bump_range).
  eapply wp_mono; [by apply IH|]. intros [w states] g' [L P S C R]. cbn [snd] in *. apply wp_ret. cbn [snd].
  split.
  - cbn. by rewrite L.
  - split; [|done]. rewrite T1. destruct (comm_next_cases (var g g_rs422_comm_state) has
      (u32 (cur - last)) (u32 (cur - h))) as [-> | [-> | ->]]; auto.
  - done.
  - rewrite C, T2. cbn [timeouts_entered]. rewrite T1. by apply bump_count.
  - rewrite R, T3. cbn [timeouts_left]. rewrite T1. by apply bump_count.
Qed.

(** The link fell silent: [s] was the frame's age when the wake-up tick was
    [W - 100 * k].  The state is right until 2^32 ms are over. *)
Record silent (s W : Z) (k : Z) g0 g : Prop := {
  si_has : var g g_rs422_has_valid_frame = var g0 g_rs422_has_valid_frame;
  si_last : var g g_rs422_last_valid_frame_tick = var g0 g_rs422_last_valid_frame_tick;
  si_age : u32 (W - var g g_rs422_last_valid_frame_tick) = u32 (s + 100 * k);
  si_time : exists e, 0 <= e <= 4 * J /\ tick g = u32 (W + e);
  si_state :
    (var g g_rs422_comm_state <> COMM_TIMEOUT /\ s + 100 * k < 1500 /\
     var g g_rs422_comm_timeout_count = var g0 g_rs422_comm_timeout_count /\
     var g g_rs422_comm_recovery_count = var g0 g_rs422_comm_recovery_count) \/
    (var g g_rs422_comm_state = COMM_TIMEOUT /\ 1500 <= s + 100 * k + J /\ s + 100 * k < 4294967296 /\
     var g g_rs422_comm_timeout_count = u32 (var g0 g_rs422_comm_timeout_count + 1) /\
     var g g_rs422_comm_recovery_count = var g0 g_rs422_comm_recovery_count /\
     1500 <= var g g_rs422_diag_fault_detection_ms < 1600 + J) \/
    (var g g_rs422_comm_state = COMM_OK /\ 4294967296 <= s + 100 * k + J /\
     var g g_rs422_comm_timeout_count = u32 (var g0 g_rs422_comm_timeout_count + 1) /\
     var g g_rs422_comm_recovery_count = u32 (var g0 g_rs422_comm_recovery_count + 1))
}.

Lemma silent_step h s W k g0 g :
  J < 20 -> env_keeps (D := D) frame_vars -> var g0 g_rs422_has_valid_frame <> 0 ->
  0 <= s -> 0 <= k -> s + 100 * (k + 1) + J < 4294967296 + 1500 ->
  silent s W k g0 g ->
  wp (health_iteration h W) (fun W' g' => silent s W' (k + 1) g0 g') g.
Proof.
  intros HJ20 Hf Hhas0 Hs Hk0 Hb [Hhas Hlast Hage (e & He & Et) Hst].
  eapply wp_mono; [apply health_iteration_ok|].
  intros W' g' [HW _ (cur & has & last & [T1 T2 T3 T4] & Hsame & Htime)].
  destruct (Hsame Hf) as (Hsv & -> & ->). clear Hsame.
  destruct (Htime e Et) as (d & e' & Hd & Hcur & He' & Et'); [lia|lia|]. clear Htime.
  assert (u32 (cur - var g g_rs422_last_valid_frame_tick) = u32 (s + 100 * (k + 1) + d)) as Ha.
  { rewrite Hcur. clear - Hage. width. }
  rewrite Ha in T1, T2, T3, T4. unfold comm_next, fault_age in T1, T2, T3, T4.
  change comm_timeout_ticks with 1500 in *. rewrite Hhas in T1, T2, T3, T4.
  assert (negb (var g0 g_rs422_has_valid_frame =? 0) = true) as En by lia.
  rewrite En in T1, T2, T3, T4.
  split.
  - rewrite <- Hhas. by apply Hsv.
  - rewrite <- Hlast. by apply Hsv.
  - rewrite Hsv by done. rewrite HW. clear - Hage. width.
  - by exists e'.
  - rewrite T1, T2, T3, T4. unfold COMM_TIMEOUT, COMM_OK, bump in *. clear T1 T2 T3 T4 Hage Ha Hcur.
    destruct (Z.ltb_spec (s + 100 * (k + 1) + d) 4294967296) as [Hlow|Hhigh].
    + rewrite (u32_small (s + 100 * (k + 1) + d)) by (unfold is_u32; lia).
      destruct (_ >=? 1500) eqn:Ed; rewrite Z.geb_leb in Ed.
      * right. left. destruct Hst as [(Hn & Hlt & -> & ->)|[(Hn & Hlt & Hlt' & -> & -> & Hr)|(Hn & Hge & _)]]; [| |lia].
        -- destruct (var g g_rs422_comm_state =? 2) eqn:E2; [lia|]. cbn. split_and!; [done|lia|lia|done|done|lia|lia].
        -- rewrite Hn. cbn. split_and!; [done|lia|lia|done|done|lia|lia].
      * left. destruct Hst as [(Hn & Hlt & -> & ->)|[(Hn & Hlt & _)|(Hn & Hge & _)]]; [|lia|lia].
        destruct (var g g_rs422_comm_state =? 2) eqn:E2; [lia|]. cbn. split_and!; [done|lia|done|done].
    + replace (u32 (s + 100 * (k + 1) + d)) with (s + 100 * (k + 1) + d - 4294967296) by (clear - Hhigh Hb Hd; width).
      destruct (_ >=? 1500) eqn:Ed; rewrite Z.geb_leb in Ed; [lia|]. right. right.
      destruct Hst as [(Hn & Hlt & _)|[(Hn & Hlt & Hlt' & -> & -> & _)|(Hn & Hge & -> & ->)]]; [lia| |];
        rewrite Hn; cbn; (split_and!; [done|lia|done|done]).
Qed.

Lemma silent_run n h s W k g0 g :
  J < 20 -> env_keeps (D := D) frame_vars -> var g0 g_rs422_has_valid_frame <> 0 -> 0 <= s -> 0 <= k ->
  s + 100 * (k + Z.of_nat n) + J < 4294967296 + 1500 -> silent s W k g0 g ->
  wp (health_iterations n h W) (fun W' g' => silent s W' (k + Z.of_nat n) g0 g') g.
Proof.
  intros HJ20 Hf Hhas Hs. revert W k g. induction n as [|n IH]; intros W k g Hk0 Hb Hsi.
  - cbn [health_iterations Z.of_nat]. rewrite Z.add_0_r. done.
  - cbn [health_iterations]. apply wp_bind.
    eapply wp_mono; [apply (silent_step h s W k g0); [done|done|done|done|done|lia|done]|].
    intros W' g' Hsi'. rewrite Nat2Z.inj_succ.
    replace (k + Z.succ (Z.of_nat n)) with (k + 1 + Z.of_nat n) by lia.
    apply IH; [lia|lia|done].
Qed.

(** The start of the silence. *)
Lemma silent_start wake s e g :
  var g g_rs422_comm_state <> COMM_TIMEOUT ->
  u32 (wake - var g g_rs422_last_valid_frame_tick) = s -> s < 1500 ->
  tick g = u32 (wake + e) -> 0 <= e <= 4 * J -> silent s wake 0 g g.
Proof.
  intros Hst Hs Hs15 Ht He. split; [done|done| |by exists e|].
  - rewrite Z.add_0_r, <- Hs. width.
  - left. split; [done|]. split; [lia|done].
Qed.
End HealthProofs.

(** C15: The communication state machine: whatever the RS-422 task and the
    clock do, the health task completes any number of iterations, and the
    states it is in after each of them - while it sleeps, and the other tasks
    run - start from INIT and never return to it; the timeouts counted are
    exactly the entries into TIMEOUT among these states and the recoveries
    counted exactly the exits from it, so that the timeouts exceed the
    recoveries by one in TIMEOUT and by none otherwise.  (Within an iteration a
    counter is written before the state: there it can be ahead by one.) *)
Theorem health_counts_transitions {D} `{!World D} J `{!Punctual D J} n (g : gateway D) :
  0 <= J -> env_keeps (D := D) health_vars ->
  exists wake states g',
    health_task n g = Some (wake, g') /\ watched_task n g = Some ((wake, states), g') /\
    length states = n /\ comm_path COMM_INIT states /\
    var g' g_rs422_comm_state = last_state COMM_INIT states /\
    var g' g_rs422_comm_timeout_count = u32 (timeouts_entered COMM_INIT states) /\
    var g' g_rs422_comm_recovery_count = u32 (timeouts_left COMM_INIT states) /\
    In (var g' g_rs422_comm_state) [COMM_INIT; COMM_OK; COMM_TIMEOUT] /\
    u32 (var g' g_rs422_comm_timeout_count) =
      u32 (var g' g_rs422_comm_recovery_count +
           (if var g' g_rs422_comm_state =? COMM_TIMEOUT then 1 else 0)).
Proof.
  intros HJ Hk.
  assert (wp (watched_task n) (fun p g' => exists g0, var g0 g_rs422_comm_state = COMM_INIT /\
    var g0 g_rs422_comm_timeout_count = 0 /\ var g0 g_rs422_comm_recovery_count = 0 /\ counted n p.2 g0 g') g) as H.
  { unfold watched_task, health_init, osKernelGetTickCount. wp_auto. apply wp_preempt. wp_auto.
    eapply wp_mono; [apply (watched_counted J); [done..|by rewrite !var_put_ne by done|by gv_simpl]|].
    intros p g' Hc. eexists. split; [|split; [|split; [|exact Hc]]]; by gv_simpl. }
  assert (health_task n g = match watched_task n g with Some ((w, _), g') => Some (w, g') | None => None end) as E.
  { unfold health_task, watched_task, mbind, M_bind. destruct (health_init g) as [[h g1]|]; [apply watched_same|done]. }
  rewrite E. unfold wp in H. destruct (watched_task n g) as [[[w states] g']|]; [|done].
  destruct H as (g0 & E1 & E2 & E3 & [L P S C R]). rewrite E1, E2, E3 in *. cbn [snd] in *.
  pose proof (timeouts_alternate COMM_INIT states) as Halt. rewrite <- S in Halt.
  exists w, states, g'. split; [done|]. split; [done|]. split; [done|]. split; [done|]. split; [done|].
  split; [done|]. split; [done|]. split; [rewrite S; apply path_states; [done|by left]|].
  rewrite C, R. cbn in Halt. destruct (var g' g_rs422_comm_state =? COMM_TIMEOUT); width.
Qed.

(** C16: Loss detection: when no further frame arrives and the scheduler delays
    the task by less than 20 ms at a time, the timeout is raised at a
    check at least 1500 and at most 1600 ms (plus the delay) after the last
    frame, it is counted once, that latency is recorded, the state stays
    TIMEOUT, and no timeout is raised before 1500 ms. *)
Theorem comm_loss_detected {D} `{!World D} J `{!Punctual D J} n start wake s e (g : gateway D) :
  0 <= J < 20 -> env_keeps (D := D) health_vars -> env_keeps (D := D) frame_vars ->
  var g g_rs422_has_valid_frame <> 0 -> var g g_rs422_comm_state <> COMM_TIMEOUT ->
  u32 (wake - var g g_rs422_last_valid_frame_tick) = s -> s < 1500 ->
  tick g = u32 (wake + e) -> 0 <= e <= 4 * J -> s + 100 * Z.of_nat n < 4294960000 ->
  wp (health_iterations n start wake) (fun _ g' =>
    (1500 <= s + 100 * Z.of_nat n ->
       var g' g_rs422_comm_state = COMM_TIMEOUT /\
       var g' g_rs422_comm_timeout_count = u32 (var g g_rs422_comm_timeout_count + 1) /\
       1500 <= var g' g_rs422_diag_fault_detection_ms < 1600 + J) /\
    (s + 100 * Z.of_nat n + J < 1500 ->
       var g' g_rs422_comm_state <> COMM_TIMEOUT /\
       var g' g_rs422_comm_timeout_count = var g g_rs422_comm_timeout_count)) g.
Proof.
  intros HJ Hk Hf Hhas Hst Hs Hs15 Ht He Hb.
  eapply wp_mono.
  - apply (silent_run J ltac:(lia) Hk n start s wake 0 g g); [lia|done|done|width|lia|lia|].
    by eapply silent_start.
  - intros W' g' [_ _ _ _ Hcase]. split; intros H.
    + destruct Hcase as [(_ & Hlt & _)|[(H1 & _ & _ & H2 & _ & H3)|(_ & Hge & _)]]; [lia|done|lia].
    + destruct Hcase as [(H1 & _ & H2 & _)|[(_ & Hlt & _)|(_ & Hge & _)]]; [done|lia|lia].
Qed.

Lemma health_counts_transitions_witness :
  exists wake states g', health_task 20 demo_gateway = Some (wake, g') /\
    watched_task 20 demo_gateway = Some ((wake, states), g') /\
    var g' g_rs422_comm_timeout_count = u32 (timeouts_entered COMM_INIT states).
Proof.
  destruct (health_counts_transitions 2 20 demo_gateway) as (w & ss & g' & H1 & H2 & _ & _ & _ & H3 & _);
    [lia|apply demo_env_keeps|].
  exists w, ss, g'. split; [exact H1|]. split; [exact H2|exact H3].
Defined.

(** A frame at tick 100, communication OK, and silence: TIMEOUT by tick 1700. *)
Definition demo_silent : gateway demo_hw :=
  put g_rs422_has_valid_frame 1 (put g_rs422_last_valid_frame_tick 100
    (put g_rs422_comm_state COMM_OK (demo_gateway <| tick := 200 |>))).

Lemma comm_loss_detected_witness :
  wp (health_iterations 15 0 200) (fun _ g' => var g' g_rs422_comm_state = COMM_TIMEOUT) demo_silent.
Proof.
  eapply wp_mono.
  - apply (comm_loss_detected 2 15 0 200 100 0 demo_silent);
      [lia|apply demo_env_keeps|apply demo_env_keeps|discriminate|discriminate|reflexivity|lia
      |reflexivity|lia|lia].
  - intros ? g' [H _]. apply H. lia.
Defined.

(** ** The age of the last frame wraps

    The age is a 32-bit difference between two values read one after the other.
    The two reads can be separated by the RS-422 task: when a frame arrives in
    between and its tick lies ahead of the sampled one, the age wraps below
    zero; and after 2^32 ms of silence it wraps above. *)
Section Wrap.
Context {D : Type} `{!World D} (J : Z) `{!Punctual D J}.
Implicit Types g : gateway D.

(** A frame arrives during the call of the kernel or preemption number [n],
    its tick [d] after the clock at that time, and no other right after. *)
Record late_frame (n : nat) (d : Z) : Prop := {
  lf_epoch m g : epoch (env m g) = epoch g;
  lf_has g : var (env n g) g_rs422_has_valid_frame <> 0;
  lf_tick g : var (env n g) g_rs422_last_valid_frame_tick = u32 (tick g + d);
  lf_last g : same_vars frame_vars g (env (S n) g)
}.

Lemma late_frame_lost start wake d g :
  0 <= J -> env_keeps (D := D) health_vars -> late_frame (2 + epoch g) d -> 0 < d <= 4294967296 - 1500 ->
  var g g_rs422_comm_state <> COMM_TIMEOUT ->
  wp (health_iteration start wake) (fun _ g' =>
    var g' g_rs422_comm_state = COMM_TIMEOUT /\
    var g' g_rs422_comm_timeout_count = u32 (var g g_rs422_comm_timeout_count + 1) /\
    var g' g_rs422_diag_fault_detection_ms = 4294967296 - d) g.
Proof.
  intros HJ Hk [He Hh Ht Hl] Hd Hst. unfold health_iteration, osKernelGetTickCount, rd_volatile.
  change health_period_ticks with 100. cbv zeta.
  assert (forall n m g', same_vars health_vars g' (env n (g' <| epoch := m |>))) as Hsame
    by (intros n m g' v Hv; by rewrite Hk).
  apply wp_bind. eapply wp_mono with (P := fun _ g1 => epoch g1 = S (epoch g) /\ same_vars health_vars g g1).
  { unfold osDelayUntil. apply wp_bind, wp_preempt. set (g1 := env _ _).
    assert (epoch g1 = S (epoch g)) as E1 by (unfold g1; by rewrite He).
    assert (same_vars health_vars g g1) as S1 by apply Hsame.
    wp_auto. by destruct (_ && _); wp_auto. }
  cbn beta. intros _ g1 [E1 S1].
  apply wp_bind, wp_bind, wp_preempt. set (g2 := env _ _). apply wp_gets.
  assert (epoch g2 = S (S (epoch g))) as E2 by (unfold g2; rewrite He; cbn; by rewrite E1).
  assert (same_vars health_vars g g2) as S2 by (etrans; [exact S1|by apply Hsame]). clearbody g2.
  apply wp_bind, wp_bind, wp_preempt. rewrite E2. set (g3 := env _ _). apply wp_gets.
  assert (epoch g3 = S (S (S (epoch g)))) as E3 by (unfold g3; by rewrite He).
  assert (var g3 g_rs422_has_valid_frame <> 0) as Hhas by apply Hh.
  assert (var g3 g_rs422_last_valid_frame_tick = u32 (tick g2 + d)) as Hlast
    by exact (Ht (g2 <| epoch := S (S (S (epoch g))) |>)).
  assert (same_vars health_vars g g3) as S3 by (etrans; [exact S2|by apply Hsame]). clearbody g3.
  apply wp_bind, wp_bind, wp_preempt. rewrite E3. set (g4 := env _ _). apply wp_gets.
  assert (var g4 g_rs422_last_valid_frame_tick = u32 (tick g2 + d)) as Hlast4
    by (rewrite <- Hlast; exact (Hl (g3 <| epoch := S (S (S (S (epoch g)))) |>) g_rs422_last_valid_frame_tick eq_refl)).
  assert (same_vars health_vars g g4) as S4 by (etrans; [exact S3|by apply Hsame]). clearbody g4.
  rewrite Hlast4. apply wp_bind. unfold health_check.
  assert (u32 (tick g2 - u32 (tick g2 + d)) = 4294967296 - d) as Ha by (clear - Hd; width).
  rewrite Ha. replace (negb (var g3 g_rs422_has_valid_frame =? 0)) with true by lia.
  change comm_timeout_ticks with 1500. destruct (Z.geb_spec (4294967296 - d) 1500) as [_|?]; [|lia].
  eapply wp_mono; [apply enter_timeout_ok|]. rewrite Ha.
  replace (negb (var g3 g_rs422_has_valid_frame =? 0)) with true by lia.
  intros _ g5 ([T1 T2 _ T4] & _ & _). wp_auto. gv_simpl. rewrite T1, T2, T4, !S4 by done.
  replace (negb (var g g_rs422_comm_state =? COMM_TIMEOUT)) with true by (change COMM_TIMEOUT with 2 in *; lia).
  done.
Qed.
End Wrap.

(** C35: The age of the last frame wraps, in both directions.  First: when the
    link has fallen silent, the state is TIMEOUT at every check from 1500 ms on,
    but only until 2^32 ms; at every check in the 1500 ms after that (less the
    scheduling delay) it is OK again and a recovery has been counted, although
    no frame arrived.  Second: when a frame arrives between the task's sampling
    of the clock and its reading of the frame's tick, with a tick [d] later than
    the sampled one, the link that just delivered a frame is declared lost, the
    timeout is counted, and the age recorded for it is 2^32 - d ms. *)
Theorem comm_age_wraps {D} `{!World D} J `{!Punctual D J} start wake (g : gateway D) :
  0 <= J < 20 -> env_keeps (D := D) health_vars ->
  var g g_rs422_has_valid_frame <> 0 -> var g g_rs422_comm_state <> COMM_TIMEOUT ->
  (forall n s e, env_keeps (D := D) frame_vars ->
     u32 (wake - var g g_rs422_last_valid_frame_tick) = s -> s < 1500 ->
     tick g = u32 (wake + e) -> 0 <= e <= 4 * J -> s + 100 * Z.of_nat n + J < 4294967296 + 1500 ->
     wp (health_iterations n start wake) (fun _ g' =>
       var g' g_rs422_last_valid_frame_tick = var g g_rs422_last_valid_frame_tick /\
       let age := s + 100 * Z.of_nat n in
       (1500 <= age -> age + J < 4294967296 ->
          var g' g_rs422_comm_state = COMM_TIMEOUT /\
          var g' g_rs422_comm_recovery_count = var g g_rs422_comm_recovery_count) /\
       (4294967296 <= age ->
          var g' g_rs422_comm_state = COMM_OK /\
          var g' g_rs422_comm_recovery_count = u32 (var g g_rs422_comm_recovery_count + 1))) g) /\
  (forall d, late_frame (2 + epoch g) d -> 0 < d <= 4294967296 - 1500 ->
     wp (health_iteration start wake) (fun _ g' =>
       var g' g_rs422_comm_state = COMM_TIMEOUT /\
       var g' g_rs422_comm_timeout_count = u32 (var g g_rs422_comm_timeout_count + 1) /\
       var g' g_rs422_diag_fault_detection_ms = 4294967296 - d) g).
Proof.
  intros HJ Hk Hhas Hst. split; [|intros d Hd Hd'; by apply (late_frame_lost J); try lia].
  intros n s e Hf Hs Hs15 Ht He Hb. eapply wp_mono.
  - apply (silent_run J ltac:(lia) Hk n start s wake 0 g g); [lia|done|done|width|lia|lia|].
    by eapply silent_start.
  - intros W' g' [_ Hlast _ _ Hcase]. split; [done|]. cbv zeta. split; intros H.
    + intros H'. destruct Hcase as [(_ & Hlt & _)|[(H1 & _ & _ & _ & H2 & _)|(_ & Hge & _)]]; [lia|done|lia].
    + destruct Hcase as [(_ & Hlt & _)|[(_ & _ & Hlt & _)|(H1 & _ & _ & H2)]]; [lia|lia|done].
Qed.

(** A frame arrives between the two reads of the first iteration. *)
Definition racing_world : World demo_hw := {|
  env n g :=
    let g' := env (World := demo_world) n g in
    if (n =? 2)%nat
    then put g_rs422_has_valid_frame 1 (put g_rs422_last_valid_frame_tick (u32 (tick g + 1)) g')
    else g';
  rounds := 600
|}.

Lemma racing_punctual : Punctual (World0 := racing_world) demo_hw 2.
Proof.
  intros n g. destruct (demo_punctual n g) as (e & He & E). exists e. split; [done|]. rewrite <- E.
  unfold env at 1, racing_world. by destruct (n =? 2)%nat.
Qed.
Lemma racing_keeps : env_keeps (World0 := racing_world) health_vars.
Proof.
  intros n g v Hv. unfold env at 1, racing_world. destruct (n =? 2)%nat; [|done].
  revert v Hv. do 2 (apply same_vars_put; [reflexivity|]). done.
Qed.
Lemma racing_late : late_frame (World0 := racing_world) 2 1.
Proof.
  split; intros.
  - unfold env, racing_world. by destruct (m =? 2)%nat.
  - discriminate.
  - apply u32_small, u32_range.
  - intros v _. reflexivity.
Qed.

Lemma comm_age_wraps_witness :
  wp (health_iterations (World0 := demo_world) (Z.to_nat 42949672) 0 200) (fun _ g' =>
    var g' g_rs422_comm_state = COMM_OK /\ var g' g_rs422_comm_recovery_count = 1 /\
    var g' g_rs422_last_valid_frame_tick = 100) demo_silent /\
  wp (health_iteration (World0 := racing_world) 0 200) (fun _ g' =>
    var g' g_rs422_comm_state = COMM_TIMEOUT /\ var g' g_rs422_diag_fault_detection_ms = 4294967295) demo_silent.
Proof.
  split.
  - destruct (comm_age_wraps 2 0 200 demo_silent) as [H _]; [lia|apply demo_env_keeps|discriminate|discriminate|].
    eapply wp_mono; [apply (H (Z.to_nat 42949672) 100 0); [apply demo_env_keeps|reflexivity|lia|reflexivity|lia|lia]|].
    intros _ g' (H1 & _ & H2). destruct H2 as [H2 H3]; [lia|]. split; [exact H2|]. split; [exact H3|exact H1].
  - destruct (comm_age_wraps (World0 := racing_world) (Punctual0 := racing_punctual) 2 0 200 demo_silent) as [_ H];
      [lia|exact racing_keeps|discriminate|discriminate|].
    eapply wp_mono; [apply (H 1); [exact racing_late|lia]|]. intros _ g' (H1 & _ & H2). split; [exact H1|exact H2].
Defined.
