(* ===== verification/GwW5500.v ===== *)
(** * W5500 access over SPI2 (g474_gateway/Core/Src/main.c)

    Register and buffer transfers in variable-length data mode, commands,
    stable 16-bit reads, reset, and the network configuration.  The source
    has one copy of each routine per register block; the copies differ in
    the constants named here. *)
From S2P Require Import Prelude Crc16 Protocol StreamParser RxRing GwDiag.
From S2P Require Export GwLogic.
Local Open Scope Z_scope.

(** The address and control phases. *)
Definition spi_header (address vdm : Z) : list Z :=
  [u8 (Z.shiftr address 8); u8 (Z.land address 0xff); vdm].

Definition g_w5500_net_gateway : list Z := [0; 0; 0; 0].
Definition g_w5500_net_subnet : list Z := [255; 255; 255; 0].
Definition g_w5500_net_mac : list Z := [0x02; 0x00; 0x00; 0x00; 0x00; 0x02].
Definition g_w5500_net_ip : list Z := [192; 168; 77; 2].

Section W5500.
Context {D : Type} `{!World D}.
Abbreviation M := (M D).

Definition w5500_hardware_reset : M unit :=
  let delay_ticks := u32 (u32 (u64 (W5500_RESET_DELAY_MS * osKernelGetTickFreq + 999) / 1000) + 1) in
  gpio_cs true;;
  gpio_rst false;;
  osDelay delay_ticks;;
  gpio_rst true;;
  osDelay delay_ticks.

(** *** Register access *)

(** [HAL_SPI_Transmit] and [HAL_SPI_TransmitReceive] of one whole buffer
    with the chip selected. *)
Definition spi_write_frame (tx : list Z) : M Z :=
  gpio_cs false;;
  status ← HAL_SPI_Transmit tx;
  gpio_cs true;;
  mret status.

Definition spi_read_frame (tx : list Z) : M (Z * list Z) :=
  gpio_cs false;;
  '(status, rx) ← HAL_SPI_TransmitReceive tx;
  gpio_cs true;;
  mret (status, rx).

(** The three write routines: [vdm] is the control byte, [max_length] the
    room for data in the local buffer. *)
Definition write_registers (vdm max_length address : Z) (data : option (list Z)) (length : Z) :
    M Z :=
  match data with
  | Some data =>
      if (length =? 0) || (length >? max_length) then mret HAL_ERROR
      else spi_write_frame (spi_header address vdm ++ take (Z.to_nat length) data)
  | None => mret HAL_ERROR
  end.

(** The multi-byte reads: the status and the contents of [*data]. *)
Definition read_registers (vdm max_length address : Z) (data : option (list Z)) (length : Z) :
    M (Z * option (list Z)) :=
  match data with
  | Some d =>
      if (length =? 0) || (length >? max_length) then mret (HAL_ERROR, data)
      else
        '(status, rx) ← spi_read_frame (spi_header address vdm ++ replicate (Z.to_nat length) 0);
        mret (status,
              if status =? HAL_OK
              then Some (memcpy d 0 (drop (Z.to_nat W5500_COMMON_HEADER_LENGTH) rx) length)
              else data)
  | None => mret (HAL_ERROR, data)
  end.

(** The single-byte reads: the status and the new [*value]. *)
Definition read_byte_frame (vdm address value : Z) : M (Z * Z) :=
  '(status, rx) ← spi_read_frame (spi_header address vdm ++ [0]);
  mret (status, if status =? HAL_OK then arr_get rx 3 else value).

Definition read_register (vdm address : Z) (value : option Z) : M (Z * option Z) :=
  match value with
  | Some v => '(status, v') ← read_byte_frame vdm address v; mret (status, Some v')
  | None => mret (HAL_ERROR, None)
  end.

Definition w5500_read_common_register (address value : Z) : M (Z * Z) :=
  read_byte_frame W5500_COMMON_READ_VDM address value.
Definition w5500_read_version (version : Z) : M (Z * Z) :=
  w5500_read_common_register W5500_VERSIONR_ADDRESS version.

Definition w5500_write_common_registers := write_registers W5500_COMMON_WRITE_VDM W5500_NET_MAX_REGISTER_LENGTH.
Definition w5500_read_common_registers := read_registers W5500_COMMON_READ_VDM W5500_NET_MAX_REGISTER_LENGTH.
Definition w5500_socket0_write_registers := write_registers W5500_SOCKET0_WRITE_VDM W5500_SOCKET0_MAX_DATA_LENGTH.
Definition w5500_socket0_read_registers := read_registers W5500_SOCKET0_READ_VDM W5500_SOCKET0_MAX_DATA_LENGTH.
Definition w5500_socket0_read_register := read_register W5500_SOCKET0_READ_VDM.
Definition w5500_socket1_write_registers := write_registers W5500_SOCKET1_WRITE_VDM W5500_SOCKET1_MAX_DATA_LENGTH.
Definition w5500_socket1_read_registers := read_registers W5500_SOCKET1_READ_VDM W5500_SOCKET1_MAX_DATA_LENGTH.
Definition w5500_socket1_read_register := read_register W5500_SOCKET1_READ_VDM.

(** *** 16-bit reads *)

Definition be_u16 (data : list Z) : Z :=
  u16 (Z.lor (Z.shiftl (arr_get data 0) 8) (arr_get data 1)).

(** [read_registers] is the block's routine. *)
Definition read_u16 (read_registers : Z -> option (list Z) -> Z -> M (Z * option (list Z)))
    (address : Z) (value : option Z) : M (Z * option Z) :=
  match value with
  | Some _ =>
      '(status, data) ← read_registers address (Some [0; 0]) 2;
      mret (status, if status =? HAL_OK then Some (be_u16 (default [] data)) else value)
  | None => mret (HAL_ERROR, None)
  end.

(** The attempts from [attempt] on, [n] of them. *)
Fixpoint stable_loop (read : option Z -> M (Z * option Z)) (n : nat)
    (attempt previous_value current_value : Z) (value : option Z) : M (Z * option Z) :=
  match n with
  | O => mret (HAL_TIMEOUT, value)
  | S n =>
      '(status, current) ← read (Some current_value);
      let current_value := default current_value current in
      if negb (status =? HAL_OK) then mret (status, value)
      else if negb (attempt =? 0) && (current_value =? previous_value)
      then mret (HAL_OK, Some current_value)
      else stable_loop read n (attempt + 1) current_value current_value value
  end.

Definition read_stable_u16 (read : Z -> option Z -> M (Z * option Z)) (attempts address : Z)
    (value : option Z) : M (Z * option Z) :=
  match value with
  | Some _ => stable_loop (read address) (Z.to_nat attempts) 0 0 0 value
  | None => mret (HAL_ERROR, None)
  end.

Definition w5500_socket0_read_u16 := read_u16 w5500_socket0_read_registers.
Definition w5500_socket0_read_stable_u16 := read_stable_u16 w5500_socket0_read_u16 W5500_TCP_STABLE_READ_ATTEMPTS.
Definition w5500_socket1_read_u16 := read_u16 w5500_socket1_read_registers.
Definition w5500_socket1_read_stable_u16 := read_stable_u16 w5500_socket1_read_u16 W5500_UDP_STABLE_READ_ATTEMPTS.

(** *** Buffer access *)

(** The [while] loop: data bytes from [offset] on, in chunks; what comes
    back goes to [discard]. *)
Fixpoint tx_chunk_loop (n : nat) (data discard : avar) (chunk_size length offset status : Z) :
    M Z :=
  if (status =? HAL_OK) && (offset <? length) then
    match n with
    | O => fail
    | S n =>
        let remaining := u16 (length - offset) in
        let chunk_length := if remaining >? chunk_size then chunk_size else remaining in
        d ← rd_array data;
        '(status, rx) ← HAL_SPI_TransmitReceive
           (take (Z.to_nat chunk_length) (drop (Z.to_nat offset) d));
        old ← rd_array discard;
        wr_array discard (memcpy old 0 rx chunk_length);;
        tx_chunk_loop n data discard chunk_size length (u16 (offset + chunk_length)) status
    end
  else mret status.

Definition write_tx_buffer (vdm chunk_size : Z) (discard : avar) (address : Z)
    (data : option avar) (length : Z) : M Z :=
  match data with
  | Some data =>
      if (length =? 0) || (length >? PROTOCOL_MAX_FRAME_SIZE) then mret HAL_ERROR
      else
        gpio_cs false;;
        '(status, _) ← HAL_SPI_TransmitReceive (spi_header address vdm);
        status ← tx_chunk_loop (Z.to_nat length) data discard chunk_size length 0 status;
        gpio_cs true;;
        mret status
  | None => mret HAL_ERROR
  end.

Definition w5500_socket0_write_tx_buffer :=
  write_tx_buffer W5500_SOCKET0_TX_BUFFER_WRITE_VDM W5500_TCP_RX_CHUNK_SIZE g_w5500_tcp_rx_dummy.
Definition w5500_socket1_write_tx_buffer :=
  write_tx_buffer W5500_SOCKET1_TX_BUFFER_WRITE_VDM W5500_UDP_SPI_CHUNK_SIZE g_w5500_udp_spi_discard.

Definition w5500_socket0_read_rx_buffer (address : Z) (data : option avar) (length : Z) : M Z :=
  match data with
  | Some data =>
      if (length =? 0) || (length >? W5500_TCP_RX_CHUNK_SIZE) then mret HAL_ERROR
      else
        gpio_cs false;;
        '(status, _) ← HAL_SPI_TransmitReceive
           (spi_header address W5500_SOCKET0_RX_BUFFER_READ_VDM);
        status ←
          (if status =? HAL_OK then
             dummy ← rd_array g_w5500_tcp_rx_dummy;
             '(status, rx) ← HAL_SPI_TransmitReceive (take (Z.to_nat length) dummy);
             old ← rd_array data;
             wr_array data (memcpy old 0 rx length);;
             mret status
           else mret status);
        gpio_cs true;;
        mret status
  | None => mret HAL_ERROR
  end.

(** *** Polling

    The shape of all the wait loops: [body] is one poll, [Some st] to
    return [st]; otherwise give up after [timeout_ticks] or sleep
    [poll_ticks] and poll again. *)
Fixpoint poll_loop (n : nat) (body : M (option Z)) (timeout_ticks poll_ticks start_tick : Z) :
    M Z :=
  match n with
  | O => fail
  | S n =>
      r ← body;
      match r with
      | Some status => mret status
      | None =>
          now ← osKernelGetTickCount;
          if u32 (now - start_tick) >=? timeout_ticks then mret HAL_TIMEOUT
          else
            osDelay poll_ticks;;
            poll_loop n body timeout_ticks poll_ticks start_tick
      end
  end.

(** Each round sleeps at least a tick, so [timeout_ticks + 1] rounds do. *)
Definition poll (body : M (option Z)) (timeout_ms poll_ms : Z) : M Z :=
  let timeout_ticks := rs422_ms_to_kernel_ticks timeout_ms in
  let poll_ticks := rs422_ms_to_kernel_ticks poll_ms in
  start_tick ← osKernelGetTickCount;
  poll_loop (S (Z.to_nat timeout_ticks)) body timeout_ticks poll_ticks start_tick.

(** One read of the command register. *)
Definition command_poll (read_register : Z -> option Z -> M (Z * option Z)) (cr command : Z) :
    M (option Z) :=
  '(status, command_register) ← read_register cr (Some command);
  mret (if negb (status =? HAL_OK) then Some status
        else if default command command_register =? 0 then Some HAL_OK
        else None).

Definition execute_command (write_registers : Z -> option (list Z) -> Z -> M Z)
    (read_register : Z -> option Z -> M (Z * option Z)) (cr command : Z) : M Z :=
  status ← write_registers cr (Some [command]) 1;
  if negb (status =? HAL_OK) then mret status
  else
    poll (command_poll read_register cr command)
      W5500_SOCKET_COMMAND_TIMEOUT_MS W5500_SOCKET_COMMAND_POLL_MS.

Definition w5500_socket0_execute_command :=
  execute_command w5500_socket0_write_registers w5500_socket0_read_register W5500_SOCKET0_CR_ADDRESS.
Definition w5500_socket1_execute_command :=
  execute_command w5500_socket1_write_registers w5500_socket1_read_register W5500_SOCKET1_CR_ADDRESS.

(** *** Network configuration *)

(** [if (status == HAL_OK) status = m] *)
Definition and_then (status : Z) (m : M Z) : M Z :=
  if status =? HAL_OK then m else mret status.

Definition w5500_write_network_config : M Z :=
  status ← w5500_write_common_registers W5500_GAR_ADDRESS (Some g_w5500_net_gateway) W5500_GAR_LENGTH;
  status ← and_then status
    (w5500_write_common_registers W5500_SUBR_ADDRESS (Some g_w5500_net_subnet) W5500_SUBR_LENGTH);
  status ← and_then status
    (w5500_write_common_registers W5500_SHAR_ADDRESS (Some g_w5500_net_mac) W5500_SHAR_LENGTH);
  and_then status
    (w5500_write_common_registers W5500_SIPR_ADDRESS (Some g_w5500_net_ip) W5500_SIPR_LENGTH).

(** [w5500_read_common_registers(address, a, length)] with [a] global. *)
Definition read_common_into (address : Z) (a : avar) (length : Z) : M Z :=
  old ← rd_array a;
  '(status, data) ← w5500_read_common_registers address (Some old) length;
  wr_array a (default old data);;
  mret status.

Definition w5500_read_network_config : M Z :=
  status ← read_common_into W5500_GAR_ADDRESS g_w5500_gar_readback W5500_GAR_LENGTH;
  status ← and_then status (read_common_into W5500_SUBR_ADDRESS g_w5500_subr_readback W5500_SUBR_LENGTH);
  status ← and_then status (read_common_into W5500_SHAR_ADDRESS g_w5500_shar_readback W5500_SHAR_LENGTH);
  and_then status (read_common_into W5500_SIPR_ADDRESS g_w5500_sipr_readback W5500_SIPR_LENGTH).

(** [a[index] == b[index]] for every [index < length]. *)
Definition cells_equal (a b : list Z) (length : Z) : bool :=
  forallb (fun i => arr_get a (Z.of_nat i) =? arr_get b (Z.of_nat i)) (seq 0 (Z.to_nat length)).

Definition w5500_network_readback_matches : M Z :=
  gar ← rd_array g_w5500_gar_readback;
  subr ← rd_array g_w5500_subr_readback;
  shar ← rd_array g_w5500_shar_readback;
  sipr ← rd_array g_w5500_sipr_readback;
  mret (if cells_equal gar g_w5500_net_gateway W5500_GAR_LENGTH &&
           cells_equal subr g_w5500_net_subnet W5500_GAR_LENGTH &&
           cells_equal sipr g_w5500_net_ip W5500_GAR_LENGTH &&
           cells_equal shar g_w5500_net_mac W5500_SHAR_LENGTH
        then 1 else 0).
End W5500.
