(* ===== verification/GwTcp.v ===== *)
(** * The TCP server on socket 0 (g474_gateway/Core/Src/main.c)

    Sending a frame, receiving and parsing, the responses queue, and opening,
    listening, restarting and abandoning the connection. *)
From S2P Require Import Prelude Crc16 Protocol StreamParser RxRing GwDiag GwW5500.
From S2P Require Export GwLogic.
Local Open Scope Z_scope.

Definition w5500_tcp_is_transient_state (socket_status : Z) : Z :=
  if (socket_status =? W5500_SOCKET0_STATUS_SYNSENT) ||
     (socket_status =? W5500_SOCKET0_STATUS_SYNRECV) ||
     (socket_status =? W5500_SOCKET0_STATUS_FIN_WAIT) ||
     (socket_status =? W5500_SOCKET0_STATUS_CLOSING) ||
     (socket_status =? W5500_SOCKET0_STATUS_TIME_WAIT) ||
     (socket_status =? W5500_SOCKET0_STATUS_LAST_ACK)
  then 1 else 0.

(** The two bytes of a 16-bit register, high first. *)
Definition u16_bytes (v : Z) : list Z := [u8 (Z.shiftr v 8); u8 (Z.land v 0xff)].

Section Tcp.
Context {D : Type} `{!World D}.
Abbreviation M := (M D).

(** *** Shared with the UDP socket, which repeats these routines *)

(** One poll of the transmit free size. *)
Definition tx_free_poll (read_stable_u16 : Z -> option Z -> M (Z * option Z))
    (address required_size : Z) : M (option Z) :=
  '(status, free_size) ← read_stable_u16 address (Some 0);
  mret (if negb (status =? HAL_OK) then Some status
        else if default 0 free_size >=? required_size then Some HAL_OK
        else None).

(** One poll of the interrupt register for the outcome of a SEND. *)
Definition send_result_poll (read_register : Z -> option Z -> M (Z * option Z))
    (write_registers : Z -> option (list Z) -> Z -> M Z) (ir send_ok timeout : Z) :
    M (option Z) :=
  '(status, socket_interrupt) ← read_register ir (Some 0);
  if negb (status =? HAL_OK) then mret (Some status)
  else
    let send_result := Z.land (default 0 socket_interrupt) (Z.lor send_ok timeout) in
    if negb (send_result =? 0) then
      status ← write_registers ir (Some [send_result]) 1;
      mret (if negb (status =? HAL_OK) then Some status
            else if negb (Z.land send_result timeout =? 0) then Some HAL_TIMEOUT
            else Some HAL_OK)
    else mret None.

(** The routines of one socket that sending a frame calls. *)
Record socket_ops := {
  so_wait_for_tx_free : Z -> M Z;
  so_read_u16 : Z -> option Z -> M (Z * option Z);
  so_write_tx_buffer : Z -> option avar -> Z -> M Z;
  so_write_registers : Z -> option (list Z) -> Z -> M Z;
  so_execute_command : Z -> M Z;
  so_wait_for_send_result : M Z;
  so_tx_wr : Z;
  so_ir : Z;
  so_send_bits : Z;
  so_send : Z
}.

Definition send_frame (s : socket_ops) (frame : option avar) (frame_length : Z) : M Z :=
  match frame with
  | None => mret HAL_ERROR
  | Some _ =>
      if (frame_length =? 0) || (frame_length >? PROTOCOL_MAX_FRAME_SIZE) then mret HAL_ERROR
      else
        status ← so_wait_for_tx_free s frame_length;
        if negb (status =? HAL_OK) then mret status
        else
          '(status, p) ← so_read_u16 s (so_tx_wr s) (Some 0);
          let tx_write_pointer := default 0 p in
          if negb (status =? HAL_OK) then mret status
          else
            status ← so_write_tx_buffer s tx_write_pointer frame frame_length;
            if negb (status =? HAL_OK) then mret status
            else
              let new_tx_write_pointer := u16 (tx_write_pointer + frame_length) in
              status ← so_write_registers s (so_tx_wr s)
                         (Some (u16_bytes new_tx_write_pointer)) 2;
              if negb (status =? HAL_OK) then mret status
              else
                status ← so_write_registers s (so_ir s) (Some [so_send_bits s]) 1;
                if negb (status =? HAL_OK) then mret status
                else
                  status ← so_execute_command s (so_send s);
                  if negb (status =? HAL_OK) then mret status
                  else so_wait_for_send_result s
  end.

(** One poll of the status register, published in the globals. *)
Definition status_poll (read_register : Z -> option Z -> M (Z * option Z))
    (spi_status_var status_var : gvar) (sr closed expected_status : Z) : M (option Z) :=
  '(spi_status, s) ← read_register sr (Some closed);
  wr spi_status_var spi_status;;
  if negb (spi_status =? HAL_OK) then mret (Some spi_status)
  else
    let socket_status := default closed s in
    wr status_var socket_status;;
    mret (if socket_status =? expected_status then Some HAL_OK else None).

(** *** Sending *)

Definition w5500_tcp_wait_for_tx_free (required_size : Z) : M Z :=
  poll (tx_free_poll w5500_socket0_read_stable_u16 W5500_SOCKET0_TX_FSR_ADDRESS required_size)
    W5500_TCP_TX_FREE_TIMEOUT_MS W5500_TCP_IO_POLL_MS.

Definition w5500_tcp_wait_for_send_result : M Z :=
  poll (send_result_poll w5500_socket0_read_register w5500_socket0_write_registers
          W5500_SOCKET0_IR_ADDRESS W5500_SOCKET0_IR_SEND_OK W5500_SOCKET0_IR_TIMEOUT)
    W5500_TCP_SEND_TIMEOUT_MS W5500_TCP_IO_POLL_MS.

Definition socket0_ops : socket_ops := {|
  so_wait_for_tx_free := w5500_tcp_wait_for_tx_free;
  so_read_u16 := w5500_socket0_read_u16;
  so_write_tx_buffer := w5500_socket0_write_tx_buffer;
  so_write_registers := w5500_socket0_write_registers;
  so_execute_command := w5500_socket0_execute_command;
  so_wait_for_send_result := w5500_tcp_wait_for_send_result;
  so_tx_wr := W5500_SOCKET0_TX_WR_ADDRESS;
  so_ir := W5500_SOCKET0_IR_ADDRESS;
  so_send_bits := Z.lor W5500_SOCKET0_IR_SEND_OK W5500_SOCKET0_IR_TIMEOUT;
  so_send := W5500_SOCKET0_SEND_COMMAND
|}.

Definition w5500_tcp_send_frame : option avar -> Z -> M Z := send_frame socket0_ops.

(** [protocol_encode] of the packet at [p] into the transmit frame [a]. *)
Definition encode_into (p : pvar) (a : avar) : M (protocol_result_t * Z) :=
  packet ← rd_packet p;
  frame ← rd_array a;
  let '(r, frame', n) :=
    protocol_encode (Some packet) (Some frame) PROTOCOL_MAX_FRAME_SIZE (Some 0) in
  wr_array a (default frame frame');;
  mret (r, default 0 n).

Definition note_pong_send (packet : protocol_packet_t) : M unit :=
  valid ← rd g_diag_first_ping_seq_valid;
  seq ← rd g_diag_first_ping_seq;
  send_ms ← rd g_diag_tcp_pong_send_ms;
  when ((pkt_msg_id packet =? MSG_PONG) && negb (valid =? 0) && (pkt_seq packet =? seq) &&
        (send_ms =? DIAG_TIMESTAMP_NOT_CAPTURED_MS)) (
    now_ms ← diagnostic_now_ms;
    wr g_diag_tcp_pong_send_ms now_ms;;
    diag_interval g_diag_matching_pong_rx_ms g_diag_matching_pong_rx_to_tcp_send_ms now_ms;;
    diag_interval g_diag_tcp_established_ms g_diag_established_to_tcp_pong_send_ms now_ms).

Definition w5500_tcp_send_response_packet (packet : option pvar) : M unit :=
  let refuse :=
    wr g_w5500_tcp_last_tx_status HAL_ERROR;;
    incr g_w5500_tcp_tx_error_count in
  match packet with
  | None => refuse
  | Some p =>
      '(r, frame_length) ← encode_into p g_w5500_tcp_tx_frame;
      if bool_decide (r <> PROTO_OK) || (frame_length =? 0) || (frame_length >? UINT16_MAX)
      then refuse
      else
        packet ← rd_packet p;
        note_pong_send packet;;
        status ← w5500_tcp_send_frame (Some g_w5500_tcp_tx_frame) (u16 frame_length);
        wr g_w5500_tcp_last_tx_status status;;
        if negb (status =? HAL_OK) then incr g_w5500_tcp_tx_error_count
        else
          add_to g_w5500_tcp_tx_bytes frame_length;;
          packet ← rd_packet p;
          wr g_w5500_tcp_last_tx_msg_id (pkt_msg_id packet);;
          wr g_w5500_tcp_last_tx_seq (pkt_seq packet);;
          when (pkt_msg_id packet =? MSG_PONG) (
            incr g_w5500_tcp_pong_count;;
            ethernet_diag_record_tcp_pong_tx_success)
  end.

(** *** Receiving *)

Definition note_ping_parsed (packet : protocol_packet_t) : M unit :=
  parsed_ms ← rd g_diag_first_ping_parsed_ms;
  when (parsed_ms =? DIAG_TIMESTAMP_NOT_CAPTURED_MS) (
    now_ms ← diagnostic_now_ms;
    wr g_diag_first_ping_seq (pkt_seq packet);;
    wr g_diag_first_ping_parsed_ms now_ms;;
    diag_interval g_diag_first_rx_ready_ms g_diag_rx_ready_to_ping_parsed_ms now_ms;;
    wr g_diag_first_ping_seq_valid 1).

(** [rs422_cmd_queue != NULL && osMessageQueuePut(...) == osOK] *)
Definition put_command : M bool :=
  null ← queue_is_null rs422_cmd_queue;
  if (null : bool) then mret false
  else
    packet ← rd_packet g_tcp_received_packet;
    st ← osMessageQueuePut rs422_cmd_queue packet;
    mret (st =? osOK).

Definition w5500_tcp_handle_valid_frame : M unit :=
  incr g_w5500_tcp_valid_frame_count;;
  packet ← rd_packet g_tcp_received_packet;
  wr g_w5500_tcp_last_rx_msg_id (pkt_msg_id packet);;
  wr g_w5500_tcp_last_rx_seq (pkt_seq packet);;
  when (pkt_msg_id packet =? MSG_PING) (
    note_ping_parsed packet;;
    incr g_w5500_tcp_ping_count;;
    ok ← put_command;
    if (ok : bool) then
      incr g_rs422_cmd_enqueue_success_count;;
      handle ← rd RS422TaskHandle;
      when (negb (handle =? 0)) (osThreadFlagsSet RS422Task RS422_EVENT_CMD_READY)
    else incr g_rs422_cmd_enqueue_fail_count).

(** The [for] loop over the received bytes, [index] and the [n] following. *)
Fixpoint tcp_parse_loop (n : nat) (index : Z) : M unit :=
  match n with
  | O => mret tt
  | S n =>
      chunk ← rd_array g_w5500_tcp_rx_chunk;
      parser ← rd_parser g_tcp_parser;
      out ← rd_packet g_tcp_received_packet;
      let '(parser_event, parser', out') := feed_byte parser (arr_get chunk index) out in
      wr_parser g_tcp_parser parser';;
      wr_packet g_tcp_received_packet out';;
      match parser_event with
      | STREAM_EVENT_FRAME => w5500_tcp_handle_valid_frame
      | STREAM_EVENT_ERROR => incr g_w5500_tcp_rx_error_count
      | STREAM_EVENT_NONE => mret tt
      end;;
      tcp_parse_loop n (index + 1)
  end.

Definition note_rx_ready : M unit :=
  ready_ms ← rd g_diag_first_rx_ready_ms;
  when (ready_ms =? DIAG_TIMESTAMP_NOT_CAPTURED_MS) (
    now_ms ← diagnostic_now_ms;
    wr g_diag_first_rx_ready_ms now_ms;;
    diag_interval g_diag_tcp_established_ms g_diag_established_to_rx_ready_ms now_ms).

Definition w5500_tcp_process_rx : M Z :=
  '(status, size) ← w5500_socket0_read_stable_u16 W5500_SOCKET0_RX_RSR_ADDRESS (Some 0);
  let received_size := default 0 size in
  if negb (status =? HAL_OK) || (received_size =? 0) then mret status
  else
    note_rx_ready;;
    let read_length :=
      if received_size >? W5500_TCP_RX_CHUNK_SIZE then W5500_TCP_RX_CHUNK_SIZE
      else received_size in
    '(status, p) ← w5500_socket0_read_u16 W5500_SOCKET0_RX_RD_ADDRESS (Some 0);
    let rx_read_pointer := default 0 p in
    if negb (status =? HAL_OK) then mret status
    else
      status ← w5500_socket0_read_rx_buffer rx_read_pointer (Some g_w5500_tcp_rx_chunk)
                 read_length;
      if negb (status =? HAL_OK) then mret status
      else
        let new_rx_read_pointer := u16 (rx_read_pointer + read_length) in
        status ← w5500_socket0_write_registers W5500_SOCKET0_RX_RD_ADDRESS
                   (Some (u16_bytes new_rx_read_pointer)) 2;
        if negb (status =? HAL_OK) then mret status
        else
          status ← w5500_socket0_execute_command W5500_SOCKET0_RECV_COMMAND;
          if negb (status =? HAL_OK) then mret status
          else
            add_to g_w5500_tcp_rx_bytes read_length;;
            tcp_parse_loop (Z.to_nat read_length) 0;;
            mret HAL_OK.

(** *** Socket life cycle *)

Definition w5500_wait_for_socket0_status (expected_status timeout_ms : Z) : M Z :=
  poll (status_poll w5500_socket0_read_register g_w5500_socket0_spi_status
          g_w5500_socket0_status W5500_SOCKET0_SR_ADDRESS W5500_SOCKET0_STATUS_CLOSED
          expected_status)
    timeout_ms W5500_SOCKET_STATE_POLL_MS.

Definition w5500_listen_tcp_server : M Z :=
  status ← w5500_socket0_execute_command W5500_SOCKET0_LISTEN_COMMAND;
  wr g_w5500_socket0_spi_status status;;
  status ← and_then status
    (w5500_wait_for_socket0_status W5500_SOCKET0_STATUS_LISTEN W5500_SOCKET_STATE_TIMEOUT_MS);
  wr g_w5500_socket0_spi_status status;;
  when (status =? HAL_OK) (
    wr g_w5500_tcp_listen_ok 1;;
    ethernet_diag_record_tcp_service_ready);;
  mret status.

(** [if (status == HAL_OK) { status = m; g_w5500_socket0_spi_status = status; }] *)
Definition and_then_publish (status : Z) (m : M Z) : M Z :=
  if status =? HAL_OK then status ← m; wr g_w5500_socket0_spi_status status;; mret status
  else mret status.

Definition w5500_start_tcp_server : M Z :=
  wr g_w5500_tcp_init_ok 0;;
  wr g_w5500_tcp_listen_ok 0;;
  status ← w5500_socket0_write_registers W5500_SOCKET0_MR_ADDRESS
             (Some [W5500_SOCKET0_TCP_MODE]) 1;
  wr g_w5500_socket0_spi_status status;;
  status ← and_then_publish status
    (w5500_socket0_write_registers W5500_SOCKET0_PORT_ADDRESS
       (Some (u16_bytes W5500_TCP_SERVER_PORT)) 2);
  status ← and_then_publish status
    (w5500_socket0_execute_command W5500_SOCKET0_OPEN_COMMAND);
  status ← and_then status
    (w5500_wait_for_socket0_status W5500_SOCKET0_STATUS_INIT W5500_SOCKET_STATE_TIMEOUT_MS);
  if negb (status =? HAL_OK) then
    wr g_w5500_socket0_spi_status status;;
    mret status
  else
    wr g_w5500_tcp_init_ok 1;;
    w5500_listen_tcp_server.

(** Up to [n] responses taken off the queue, [handle] run on each. *)
Fixpoint response_loop (n : nat) (handle : M unit) : M unit :=
  match n with
  | O => mret tt
  | S n =>
      st ← osMessageQueueGet tcp_response_queue g_tcp_pong_packet;
      if negb (st =? osOK) then mret tt
      else handle;; response_loop n handle
  end.

Definition for_responses (handle : M unit) : M unit :=
  null ← queue_is_null tcp_response_queue;
  if (null : bool) then mret tt
  else response_loop (Z.to_nat TCP_RESPONSE_QUEUE_DEPTH) handle.

Definition w5500_tcp_discard_stale_responses : M unit :=
  for_responses (incr g_w5500_tcp_stale_response_drop_count).

Definition w5500_tcp_drain_response_queue : M unit :=
  for_responses (
    incr g_tcp_response_dequeue_count;;
    w5500_tcp_send_response_packet (Some g_tcp_pong_packet)).

Definition w5500_tcp_invalidate_connection_context : M unit :=
  wr g_w5500_tcp_session_active 0;;
  wr_parser g_tcp_parser parser_init;;
  handle ← rd RS422TaskHandle;
  when (negb (handle =? 0)) (osThreadFlagsSet RS422Task RS422_EVENT_TCP_CONTEXT_RESET);;
  w5500_tcp_discard_stale_responses.

Definition w5500_restart_tcp_server : M Z :=
  wr g_w5500_tcp_init_ok 0;;
  wr g_w5500_tcp_listen_ok 0;;
  w5500_tcp_invalidate_connection_context;;
  status ← w5500_socket0_execute_command W5500_SOCKET0_CLOSE_COMMAND;
  wr g_w5500_socket0_spi_status status;;
  status ← and_then status
    (w5500_wait_for_socket0_status W5500_SOCKET0_STATUS_CLOSED W5500_SOCKET_STATE_TIMEOUT_MS);
  status ← and_then status w5500_start_tcp_server;
  wr g_w5500_socket0_spi_status status;;
  w5500_tcp_discard_stale_responses;;
  mret status.
End Tcp.
