(* ===== verification/GwUdp.v ===== *)
(** * The UDP telemetry socket (g474_gateway/Core/Src/main.c)

    Socket 1: its status, sending a frame, opening, and forwarding a packet.
    [w5500_udp_send_telemetry] is compiled out of the task by
    [W5500_UDP_LOCAL_TELEMETRY_ENABLED] but modelled all the same. *)
From S2P Require Import Prelude Crc16 Protocol StreamParser RxRing GwDiag GwW5500 GwTcp.
From S2P Require Export GwLogic.
Local Open Scope Z_scope.

Definition g_w5500_udp_destination_ip : list Z := [192; 168; 77; 1].

Section Udp.
Context {D : Type} `{!World D}.
Abbreviation M := (M D).

Definition w5500_wait_for_socket1_status (expected_status timeout_ms : Z) : M Z :=
  poll (status_poll w5500_socket1_read_register g_w5500_udp_socket1_spi_status
          g_w5500_udp_socket1_status W5500_SOCKET1_SR_ADDRESS W5500_SOCKET1_STATUS_CLOSED
          expected_status)
    timeout_ms W5500_SOCKET_STATE_POLL_MS.

Definition w5500_udp_wait_for_tx_free (required_size : Z) : M Z :=
  poll (tx_free_poll w5500_socket1_read_stable_u16 W5500_SOCKET1_TX_FSR_ADDRESS required_size)
    W5500_UDP_TX_FREE_TIMEOUT_MS W5500_UDP_IO_POLL_MS.

Definition w5500_udp_wait_for_send_result : M Z :=
  poll (send_result_poll w5500_socket1_read_register w5500_socket1_write_registers
          W5500_SOCKET1_IR_ADDRESS W5500_SOCKET1_IR_SEND_OK W5500_SOCKET1_IR_TIMEOUT)
    W5500_UDP_SEND_TIMEOUT_MS W5500_UDP_IO_POLL_MS.

Definition socket1_ops : socket_ops (D := D) := {|
  so_wait_for_tx_free := w5500_udp_wait_for_tx_free;
  so_read_u16 := w5500_socket1_read_u16;
  so_write_tx_buffer := w5500_socket1_write_tx_buffer;
  so_write_registers := w5500_socket1_write_registers;
  so_execute_command := w5500_socket1_execute_command;
  so_wait_for_send_result := w5500_udp_wait_for_send_result;
  so_tx_wr := W5500_SOCKET1_TX_WR_ADDRESS;
  so_ir := W5500_SOCKET1_IR_ADDRESS;
  so_send_bits := Z.lor W5500_SOCKET1_IR_SEND_OK W5500_SOCKET1_IR_TIMEOUT;
  so_send := W5500_SOCKET1_SEND_COMMAND
|}.

Definition w5500_udp_send_frame : option avar -> Z -> M Z := send_frame socket1_ops.

Definition w5500_start_udp_socket : M Z :=
  status ← w5500_socket1_write_registers W5500_SOCKET1_MR_ADDRESS
             (Some [W5500_SOCKET1_UDP_MODE]) 1;
  status ← and_then status
    (w5500_socket1_write_registers W5500_SOCKET1_PORT_ADDRESS
       (Some (u16_bytes W5500_UDP_LOCAL_PORT)) 2);
  status ← and_then status (w5500_socket1_execute_command W5500_SOCKET1_OPEN_COMMAND);
  status ← and_then status
    (w5500_wait_for_socket1_status W5500_SOCKET1_STATUS_UDP W5500_SOCKET_STATE_TIMEOUT_MS);
  status ← and_then status
    (w5500_socket1_write_registers W5500_SOCKET1_DIPR_ADDRESS
       (Some g_w5500_udp_destination_ip) 4);
  and_then status
    (w5500_socket1_write_registers W5500_SOCKET1_DPORT_ADDRESS
       (Some (u16_bytes W5500_UDP_DESTINATION_PORT)) 2).

Definition note_udp_error (status : Z) : M unit :=
  wr g_w5500_udp_last_tx_status status;;
  incr g_w5500_udp_tx_error_count.

Definition encode_failed (r : protocol_result_t) (encoded_length : Z) : bool :=
  bool_decide (r <> PROTO_OK) || (encoded_length =? 0) || (encoded_length >? UINT16_MAX).

Definition telemetry_payload (uptime_ms : Z) (payload : list Z) : list Z :=
  let p := arr_set payload 0 (u8 (Z.shiftr uptime_ms 24)) in
  let p := arr_set p 1 (u8 (Z.shiftr uptime_ms 16)) in
  let p := arr_set p 2 (u8 (Z.shiftr uptime_ms 8)) in
  let p := arr_set p 3 (u8 (Z.land uptime_ms 0xff)) in
  let p := arr_set p 4 0 in
  arr_set p 5 0.

Definition w5500_udp_send_telemetry : M unit :=
  sequence ← rd g_w5500_udp_next_seq;
  uptime_ms ← w5500_kernel_uptime_ms;
  packet ← rd_packet g_udp_telemetry_packet;
  wr_packet g_udp_telemetry_packet
    (mk_packet PROTOCOL_VERSION MSG_TELEMETRY sequence W5500_UDP_PAYLOAD_LENGTH
       (telemetry_payload uptime_ms (pkt_payload packet)));;
  '(encode_status, encoded_length) ← encode_into g_udp_telemetry_packet g_w5500_udp_tx_frame;
  if encode_failed encode_status encoded_length
  then note_udp_error (protocol_result_code encode_status)
  else
    send_status ← w5500_udp_send_frame (Some g_w5500_udp_tx_frame) (u16 encoded_length);
    wr g_w5500_udp_last_tx_status send_status;;
    wr g_w5500_udp_socket1_spi_status send_status;;
    if send_status =? HAL_OK then
      incr g_w5500_udp_tx_packet_count;;
      add_to g_w5500_udp_tx_bytes encoded_length;;
      wr g_w5500_udp_last_tx_seq sequence;;
      wr g_w5500_udp_next_seq (sequence + 1)
    else incr g_w5500_udp_tx_error_count.

Definition w5500_udp_forward_packet (packet : option pvar) : M Z :=
  match packet with
  | None => note_udp_error HAL_ERROR;; mret HAL_ERROR
  | Some p =>
      packet ← rd_packet p;
      if negb (pkt_msg_id packet =? MSG_TELEMETRY) then
        note_udp_error HAL_ERROR;; mret HAL_ERROR
      else
        '(encode_status, encoded_length) ← encode_into p g_w5500_udp_tx_frame;
        if encode_failed encode_status encoded_length then
          note_udp_error (protocol_result_code encode_status);;
          mret HAL_ERROR
        else
          send_status ← w5500_udp_send_frame (Some g_w5500_udp_tx_frame) (u16 encoded_length);
          wr g_w5500_udp_last_tx_status send_status;;
          wr g_w5500_udp_socket1_spi_status send_status;;
          (if send_status =? HAL_OK then
             incr g_w5500_udp_tx_packet_count;;
             add_to g_w5500_udp_tx_bytes encoded_length;;
             packet ← rd_packet p;
             wr g_w5500_udp_last_tx_seq (pkt_seq packet);;
             ethernet_diag_record_udp_tx_success
           else incr g_w5500_udp_tx_error_count);;
          mret send_status
  end.
End Udp.
