(* ===== verification/GwEthernet.v ===== *)
(** * The Ethernet task (g474_gateway/Core/Src/main.c)

    Start-up, and one iteration of the service loop over the task's locals:
    link supervision and TCP life cycle every 100 ms, the data service every
    millisecond, TCP responses and UDP telemetry, and the wait. *)
From S2P Require Import Prelude Crc16 Protocol StreamParser RxRing GwDiag GwRs422 GwW5500.
From S2P Require Import GwTcp GwUdp.
From S2P Require Export GwLogic.
Local Open Scope Z_scope.

(** The locals that live across iterations. *)
Record eth_locals := mk_eth_locals {
  tcp_lifecycle_restart_pending : Z;
  next_phy_tick : Z;
  next_data_service_tick : Z;
  next_tcp_restart_tick : Z;
  socket_state_enter_tick : Z;
  phy_link_state_initialized : Z;
  phy_link_was_established : Z;
  previous_link_up : Z;
  socket_state_initialized : Z;
  graceful_disconnect_pending : Z;
  pending_ethernet_events : Z;
  previous_socket_status : Z
}.

#[export] Instance eta_eth_locals : Eta eth_locals := fun l =>
  mk_eth_locals (tcp_lifecycle_restart_pending l) (next_phy_tick l) (next_data_service_tick l)
    (next_tcp_restart_tick l) (socket_state_enter_tick l) (phy_link_state_initialized l)
    (phy_link_was_established l) (previous_link_up l) (socket_state_initialized l)
    (graceful_disconnect_pending l) (pending_ethernet_events l) (previous_socket_status l).

Definition phy_period_ticks : Z := rs422_ms_to_kernel_ticks W5500_PHY_POLL_PERIOD_MS.
Definition data_service_period_ticks : Z := rs422_ms_to_kernel_ticks W5500_DATA_SERVICE_PERIOD_MS.
Definition tcp_transient_timeout_ticks : Z :=
  rs422_ms_to_kernel_ticks W5500_TCP_TRANSIENT_TIMEOUT_MS.
Definition tcp_recovery_retry_ticks : Z := rs422_ms_to_kernel_ticks W5500_TCP_RECOVERY_RETRY_MS.

Definition data_service_period_cycles (system_core_clock_hz : Z) : Z :=
  let kernel_tick_hz := osKernelGetTickFreq in
  if negb (kernel_tick_hz =? 0)
  then u32 (u64 (u64 (system_core_clock_hz * data_service_period_ticks) + u32 (kernel_tick_hz - 1))
            / kernel_tick_hz)
  else 0.

(** [(int32_t)(now - deadline) >= 0] *)
Definition reached (now deadline : Z) : bool := 0 <=? i32 (now - deadline).

(** [do next += period; while ((int32_t)(now - next) >= 0);], at most [n] rounds. *)
Fixpoint deadline_loop (n : nat) (now period next : Z) : option Z :=
  match n with
  | O => None
  | S n =>
      let next := u32 (next + period) in
      if reached now next then deadline_loop n now period next else Some next
  end.

(** The rounds it takes when [next] is at most 2^31 ticks before [now]. *)
Definition next_deadline (now period next : Z) : option Z :=
  deadline_loop (Z.to_nat (Z.max 0 (i32 (now - next)) / period + 1)) now period next.

(** What the task waits, from the two deadlines. *)
Definition eth_wait_ticks (wait_start_tick next_data_service_tick next_phy_tick : Z) : Z :=
  let data_wait := i32 (next_data_service_tick - wait_start_tick) in
  let phy_wait := i32 (next_phy_tick - wait_start_tick) in
  if (data_wait >? 0) && (phy_wait >? 0)
  then if u32 data_wait <? u32 phy_wait then u32 data_wait else u32 phy_wait
  else 0.

Section Ethernet.
Context {D : Type} `{!World D}.
Abbreviation M := (M D).

Definition lift_option {A} (o : option A) : M A :=
  match o with Some a => mret a | None => fail end.

Definition dwt_cycles : M Z := preempt;; gets (fun g => dwt_cyccnt (hw g)).

(** *** Start-up *)

Definition eth_reset_globals : M unit :=
  wr g_w5500_net_config_ok 0;;
  wr g_w5500_net_readback_ok 0;;
  wr g_w5500_net_write_status (-1);;
  wr g_w5500_net_read_status (-1);;
  wr g_w5500_tcp_init_ok 0;;
  wr g_w5500_tcp_listen_ok 0;;
  wr g_w5500_socket0_status W5500_SOCKET0_STATUS_CLOSED;;
  wr g_w5500_socket0_spi_status (-1);;
  wr g_w5500_tcp_rx_bytes 0;;
  wr g_w5500_tcp_tx_bytes 0;;
  wr g_w5500_tcp_valid_frame_count 0;;
  wr g_w5500_tcp_ping_count 0;;
  wr g_w5500_tcp_pong_count 0;;
  wr g_w5500_tcp_last_rx_msg_id 0;;
  wr g_w5500_tcp_last_rx_seq 0;;
  wr g_w5500_tcp_last_tx_msg_id 0;;
  wr g_w5500_tcp_last_tx_seq 0;;
  wr g_w5500_tcp_rx_error_count 0;;
  wr g_w5500_tcp_tx_error_count 0;;
  wr g_w5500_tcp_last_rx_status (-1);;
  wr g_w5500_tcp_last_tx_status (-1);;
  wr g_w5500_phycfgr 0;;
  wr g_w5500_link_up 0;;
  wr g_w5500_link_down_count 0;;
  wr g_w5500_link_recovery_count 0;;
  wr g_w5500_tcp_recovery_pending 0;;
  wr g_w5500_tcp_recovery_attempt_count 0;;
  wr g_w5500_tcp_recovery_success_count 0;;
  wr g_w5500_tcp_recovery_fail_count 0;;
  ethernet_diag_initialize;;
  wr g_w5500_tcp_session_active 0;;
  wr g_w5500_tcp_stale_response_drop_count 0;;
  wr g_w5500_data_service_cycle_count 0;;
  wr g_w5500_data_deadline_miss_count 0;;
  wr g_w5500_data_overrun_count 0;;
  wr g_w5500_data_max_start_late_ticks 0;;
  wr g_w5500_data_max_exec_cycles 0;;
  wr g_w5500_data_max_exec_us 0;;
  wr g_w5500_data_cycle_counter_available 0;;
  wr g_w5500_data_system_core_clock_hz 0;;
  wr g_w5500_data_kernel_tick_hz 0;;
  wr g_w5500_data_period_cycles 0;;
  wr g_w5500_data_timing_reference_valid 0;;
  wr g_rs422_cmd_enqueue_success_count 0;;
  wr g_rs422_cmd_enqueue_fail_count 0;;
  wr g_tcp_response_dequeue_count 0;;
  wr g_w5500_udp_open_ok 0;;
  wr g_w5500_udp_socket1_status W5500_SOCKET1_STATUS_CLOSED;;
  wr g_w5500_udp_socket1_spi_status (-1);;
  wr g_w5500_udp_tx_packet_count 0;;
  wr g_w5500_udp_tx_bytes 0;;
  wr g_w5500_udp_tx_error_count 0;;
  wr g_w5500_udp_last_tx_seq 0;;
  wr g_w5500_udp_last_tx_status (-1);;
  wr g_w5500_udp_next_seq 1;;
  wr g_udp_telemetry_dequeue_count 0;;
  wr_parser g_tcp_parser parser_init;;
  wr_array g_w5500_gar_readback (replicate (Z.to_nat W5500_GAR_LENGTH) 0);;
  wr_array g_w5500_subr_readback (replicate (Z.to_nat W5500_GAR_LENGTH) 0);;
  wr_array g_w5500_sipr_readback (replicate (Z.to_nat W5500_GAR_LENGTH) 0);;
  wr_array g_w5500_shar_readback (replicate (Z.to_nat W5500_SHAR_LENGTH) 0).

(** The cycle counter, the chip reset and the network configuration. *)
Definition eth_bring_up : M unit :=
  modify (fun g => g <| hw := dwt_start (hw g) |>);;
  running ← gets (fun g => dwt_running (hw g));
  when running (wr g_w5500_data_cycle_counter_available 1);;
  w5500_hardware_reset;;
  '(status, version) ← w5500_read_version 0;
  wr g_w5500_version version;;
  wr g_w5500_spi_status status;;
  when ((status =? HAL_OK) && (version =? 0x04)) (
    write_status ← w5500_write_network_config;
    wr g_w5500_net_write_status write_status;;
    when (write_status =? HAL_OK) (
      wr g_w5500_net_config_ok 1;;
      read_status ← w5500_read_network_config;
      wr g_w5500_net_read_status read_status;;
      matches ← w5500_network_readback_matches;
      when ((read_status =? HAL_OK) && negb (matches =? 0)) (wr g_w5500_net_readback_ok 1))).

Definition eth_network_ok : M bool :=
  config ← rd g_w5500_net_config_ok;
  readback ← rd g_w5500_net_readback_ok;
  mret (negb (config =? 0) && negb (readback =? 0)).

(** The value of [tcp_lifecycle_restart_pending] after it. *)
Definition eth_open_sockets : M Z :=
  ok ← eth_network_ok;
  restart_pending ←
    (if (ok : bool) then
       status ← w5500_start_tcp_server;
       mret (if negb (status =? HAL_OK) then 1 else 0)
     else mret 0);
  ok ← eth_network_ok;
  when ok (
    udp_open_status ← w5500_start_udp_socket;
    wr g_w5500_udp_socket1_spi_status udp_open_status;;
    when (udp_open_status =? HAL_OK) (wr g_w5500_udp_open_ok 1));;
  mret restart_pending.

Definition eth_timing_reference : M unit :=
  clock ← gets (fun g => system_core_clock (hw g));
  wr g_w5500_data_system_core_clock_hz clock;;
  wr g_w5500_data_kernel_tick_hz osKernelGetTickFreq;;
  wr g_w5500_data_period_cycles (data_service_period_cycles clock);;
  when (negb (clock =? 0) && negb (osKernelGetTickFreq =? 0) &&
        negb (data_service_period_cycles clock =? 0))
    (wr g_w5500_data_timing_reference_valid 1).

Definition eth_task_init : M eth_locals :=
  eth_reset_globals;;
  eth_bring_up;;
  restart_pending ← eth_open_sockets;
  eth_timing_reference;;
  now ← osKernelGetTickCount;
  mret {|
    tcp_lifecycle_restart_pending := restart_pending;
    next_phy_tick := now;
    next_data_service_tick := now;
    next_tcp_restart_tick := now;
    socket_state_enter_tick := now;
    phy_link_state_initialized := 0;
    phy_link_was_established := 0;
    previous_link_up := 0;
    socket_state_initialized := 0;
    graceful_disconnect_pending := 0;
    pending_ethernet_events := 0;
    previous_socket_status := W5500_SOCKET0_STATUS_CLOSED
  |}.

(** *** Link supervision *)

(** The established link was lost. *)
Definition phy_link_lost (l : eth_locals) : M eth_locals :=
  incr g_w5500_link_down_count;;
  now ← osKernelGetTickCount;
  ethernet_diag_arm_recovery now;;
  wr g_w5500_tcp_recovery_pending 1;;
  wr g_w5500_tcp_init_ok 0;;
  wr g_w5500_tcp_listen_ok 0;;
  w5500_tcp_invalidate_connection_context;;
  mret (l <| tcp_lifecycle_restart_pending := 0 |>
          <| graceful_disconnect_pending := 0 |>
          <| socket_state_initialized := 0 |>).

Definition phy_link_found (l : eth_locals) : M eth_locals :=
  if phy_link_was_established l =? 0 then
    now ← osKernelGetTickCount;
    mret (l <| phy_link_was_established := 1 |> <| next_tcp_restart_tick := now |>)
  else
    recovery_pending ← rd g_w5500_tcp_recovery_pending;
    if negb (recovery_pending =? 0) then
      incr g_w5500_link_recovery_count;;
      now ← osKernelGetTickCount;
      ethernet_diag_record_link_up now;;
      now ← osKernelGetTickCount;
      mret (l <| next_tcp_restart_tick := now |>)
    else mret l.

Definition phy_sample (current_link_up : Z) (l : eth_locals) : M eth_locals :=
  if phy_link_state_initialized l =? 0 then
    let l := l <| phy_link_state_initialized := 1 |> <| previous_link_up := current_link_up |> in
    mret (if negb (current_link_up =? 0) then l <| phy_link_was_established := 1 |> else l)
  else if negb (current_link_up =? previous_link_up l) then
    l ← (if current_link_up =? 0 then
           if negb (phy_link_was_established l =? 0) then phy_link_lost l else mret l
         else phy_link_found l);
    mret (l <| previous_link_up := current_link_up |>)
  else mret l.

Definition phy_service (l : eth_locals) : M eth_locals :=
  '(phy_status, phycfgr) ← w5500_read_common_register W5500_PHYCFGR_ADDRESS 0;
  l ← (if phy_status =? HAL_OK then
         let current_link_up := if negb (Z.land phycfgr W5500_PHYCFGR_LNK =? 0) then 1 else 0 in
         wr g_w5500_phycfgr phycfgr;;
         wr g_w5500_link_up current_link_up;;
         phy_sample current_link_up l
       else mret l);
  wr g_w5500_phy_spi_status phy_status;;
  mret l.

(** *** TCP life cycle *)

(** The socket is listening again. *)
Definition listening_again (l : eth_locals) : M eth_locals :=
  now ← osKernelGetTickCount;
  mret (l <| graceful_disconnect_pending := 0 |>
          <| socket_state_initialized := 1 |>
          <| previous_socket_status := W5500_SOCKET0_STATUS_LISTEN |>
          <| socket_state_enter_tick := now |>).

Definition retry_later (l : eth_locals) : M eth_locals :=
  now ← osKernelGetTickCount;
  mret (l <| next_tcp_restart_tick := u32 (now + tcp_recovery_retry_ticks) |>
          <| socket_state_initialized := 0 |>).

Definition recovery_service (socket_tick : Z) (l : eth_locals) : M eth_locals :=
  if reached socket_tick (next_tcp_restart_tick l) then
    incr g_w5500_tcp_recovery_attempt_count;;
    recovery_status ← w5500_restart_tcp_server;
    if recovery_status =? HAL_OK then
      wr g_w5500_tcp_recovery_pending 0;;
      incr g_w5500_tcp_recovery_success_count;;
      listening_again (l <| tcp_lifecycle_restart_pending := 0 |>)
    else
      incr g_w5500_tcp_recovery_fail_count;;
      retry_later l
  else mret l.

Definition restart_service (socket_tick : Z) (l : eth_locals) : M eth_locals :=
  if reached socket_tick (next_tcp_restart_tick l) then
    restart_status ← w5500_restart_tcp_server;
    if restart_status =? HAL_OK
    then listening_again (l <| tcp_lifecycle_restart_pending := 0 |>)
    else retry_later l
  else mret l.

(** Ask for a restart at [tick]. *)
Definition restart_at (tick : Z) (l : eth_locals) : eth_locals :=
  l <| tcp_lifecycle_restart_pending := 1 |>
    <| next_tcp_restart_tick := tick |>
    <| graceful_disconnect_pending := 0 |>.

Definition close_wait_service (socket_tick : Z) (l : eth_locals) : M eth_locals :=
  if graceful_disconnect_pending l =? 0 then
    wr g_w5500_tcp_init_ok 0;;
    wr g_w5500_tcp_listen_ok 0;;
    disconnect_status ← w5500_socket0_execute_command W5500_SOCKET0_DISCON_COMMAND;
    wr g_w5500_socket0_spi_status disconnect_status;;
    if disconnect_status =? HAL_OK then
      now ← osKernelGetTickCount;
      mret (l <| graceful_disconnect_pending := 1 |> <| socket_state_enter_tick := now |>)
    else
      now ← osKernelGetTickCount;
      mret (l <| tcp_lifecycle_restart_pending := 1 |>
              <| next_tcp_restart_tick := u32 (now + tcp_recovery_retry_ticks) |>)
  else if u32 (socket_tick - socket_state_enter_tick l) >=? tcp_transient_timeout_ticks
  then mret (restart_at socket_tick l)
  else mret l.

(** [start] brought the socket to LISTEN or failed. *)
Definition after_start (ok_work : M unit) (status : Z) (l : eth_locals) : M eth_locals :=
  if status =? HAL_OK then
    ok_work;;
    l ← listening_again l;
    w5500_tcp_discard_stale_responses;;
    mret l
  else
    retry_later (l <| tcp_lifecycle_restart_pending := 1 |>).

Definition other_state_service (socket_status socket_tick : Z) (l : eth_locals) : M eth_locals :=
  if (w5500_tcp_is_transient_state socket_status =? 0) ||
     (u32 (socket_tick - socket_state_enter_tick l) >=? tcp_transient_timeout_ticks)
  then
    wr g_w5500_tcp_init_ok 0;;
    wr g_w5500_tcp_listen_ok 0;;
    mret (restart_at socket_tick l)
  else mret l.

Definition socket_state_service (socket_status socket_tick : Z) (l : eth_locals) :
    M eth_locals :=
  if socket_status =? W5500_SOCKET0_STATUS_ESTABLISHED
  then mret (l <| graceful_disconnect_pending := 0 |>)
  else if socket_status =? W5500_SOCKET0_STATUS_CLOSE_WAIT
  then close_wait_service socket_tick l
  else if socket_status =? W5500_SOCKET0_STATUS_CLOSED
  then status ← w5500_start_tcp_server; after_start (mret tt) status l
  else if socket_status =? W5500_SOCKET0_STATUS_INIT
  then
    wr g_w5500_tcp_listen_ok 0;;
    status ← w5500_listen_tcp_server;
    after_start (wr g_w5500_tcp_init_ok 1) status l
  else if socket_status =? W5500_SOCKET0_STATUS_LISTEN
  then
    wr g_w5500_tcp_init_ok 1;;
    wr g_w5500_tcp_listen_ok 1;;
    mret (l <| graceful_disconnect_pending := 0 |>)
  else other_state_service socket_status socket_tick l.

Definition tcp_lifecycle_service (l : eth_locals) : M eth_locals :=
  ok ← eth_network_ok;
  spi_status ← rd g_w5500_socket0_spi_status;
  if (ok : bool) && (spi_status =? HAL_OK) then
    socket_status ← rd g_w5500_socket0_status;
    socket_tick ← osKernelGetTickCount;
    link_up ← rd g_w5500_link_up;
    if negb (link_up =? 0) then
      recovery_pending ← rd g_w5500_tcp_recovery_pending;
      if negb (recovery_pending =? 0) then recovery_service socket_tick l
      else if negb (tcp_lifecycle_restart_pending l =? 0) then restart_service socket_tick l
      else socket_state_service socket_status socket_tick l
    else mret l
  else mret l.

Definition control_service (l : eth_locals) : M eth_locals :=
  l ← phy_service l;
  l ← tcp_lifecycle_service l;
  deadline_now ← osKernelGetTickCount;
  next ← lift_option (next_deadline deadline_now phy_period_ticks (next_phy_tick l));
  mret (l <| next_phy_tick := next |>).

(** *** Data service *)

(** Accounts for the start; [data_cycle_start_cycles]. *)
Definition data_service_start (l : eth_locals) : M Z :=
  now ← osKernelGetTickCount;
  let start_late_ticks := i32 (now - next_data_service_tick l) in
  incr g_w5500_data_service_cycle_count;;
  when (start_late_ticks >? 0) (
    incr g_w5500_data_deadline_miss_count;;
    max_late ← rd g_w5500_data_max_start_late_ticks;
    when (u32 start_late_ticks >? max_late)
      (wr g_w5500_data_max_start_late_ticks start_late_ticks));;
  available ← rd g_w5500_data_cycle_counter_available;
  if negb (available =? 0) then dwt_cycles else mret 0.

Definition begin_session (socket_tick : Z) : M unit :=
  diagnostic_begin_tcp_session socket_tick;;
  wr_parser g_tcp_parser parser_init;;
  w5500_tcp_discard_stale_responses;;
  wr g_w5500_tcp_session_active 1.

(** Reads the socket status and follows the session. *)
Definition session_service (l : eth_locals) : M eth_locals :=
  '(socket_spi_status, s) ←
    w5500_socket0_read_register W5500_SOCKET0_SR_ADDRESS (Some W5500_SOCKET0_STATUS_CLOSED);
  let socket_status := default W5500_SOCKET0_STATUS_CLOSED s in
  wr g_w5500_socket0_spi_status socket_spi_status;;
  if socket_spi_status =? HAL_OK then
    socket_tick ← osKernelGetTickCount;
    wr g_w5500_socket0_status socket_status;;
    let l :=
      if (socket_state_initialized l =? 0) ||
         negb (socket_status =? previous_socket_status l)
      then l <| socket_state_initialized := 1 |>
             <| previous_socket_status := socket_status |>
             <| socket_state_enter_tick := socket_tick |>
      else l in
    active ← rd g_w5500_tcp_session_active;
    if socket_status =? W5500_SOCKET0_STATUS_ESTABLISHED then
      when (active =? 0) (begin_session socket_tick);;
      mret (l <| graceful_disconnect_pending := 0 |>)
    else
      when (negb (active =? 0)) (
        wr g_w5500_tcp_init_ok 0;;
        wr g_w5500_tcp_listen_ok 0;;
        w5500_tcp_invalidate_connection_context);;
      mret l
  else mret l.

Definition tcp_data_service (data_service_due tcp_response_event : bool) : M unit :=
  link_up ← rd g_w5500_link_up;
  active ← rd g_w5500_tcp_session_active;
  socket_status ← rd g_w5500_socket0_status;
  when ((data_service_due || tcp_response_event) && negb (link_up =? 0) &&
        negb (active =? 0) && (socket_status =? W5500_SOCKET0_STATUS_ESTABLISHED)) (
    when data_service_due (
      rx_status ← w5500_tcp_process_rx;
      wr g_w5500_tcp_last_rx_status rx_status;;
      when (negb (rx_status =? HAL_OK)) (incr g_w5500_tcp_rx_error_count));;
    w5500_tcp_drain_response_queue).

Fixpoint udp_drain_loop (n : nat) : M unit :=
  match n with
  | O => mret tt
  | S n =>
      null ← queue_is_null udp_telemetry_queue;
      if (null : bool) then mret tt
      else
        st ← osMessageQueueGet udp_telemetry_queue g_udp_forward_packet;
        if negb (st =? osOK) then mret tt
        else
          incr g_udp_telemetry_dequeue_count;;
          status ← w5500_udp_forward_packet (Some g_udp_forward_packet);
          if negb (status =? HAL_OK) then mret tt else udp_drain_loop n
  end.

Definition udp_data_service : M unit :=
  '(udp_socket_spi_status, s) ←
    w5500_socket1_read_register W5500_SOCKET1_SR_ADDRESS (Some W5500_SOCKET1_STATUS_CLOSED);
  let udp_socket_status := default W5500_SOCKET1_STATUS_CLOSED s in
  wr g_w5500_udp_socket1_spi_status udp_socket_spi_status;;
  when (udp_socket_spi_status =? HAL_OK) (
    wr g_w5500_udp_socket1_status udp_socket_status;;
    link_up ← rd g_w5500_link_up;
    when ((udp_socket_status =? W5500_SOCKET1_STATUS_UDP) && negb (link_up =? 0)) (
      when (negb (W5500_UDP_LOCAL_TELEMETRY_ENABLED =? 0)) w5500_udp_send_telemetry;;
      udp_drain_loop (Z.to_nat UDP_TELEMETRY_DRAIN_LIMIT))).

Definition elapsed_microseconds (elapsed_cycles clock_hz : Z) : Z :=
  u32 (u64 (u64 (elapsed_cycles * 1000000) + u32 (clock_hz - 1)) / clock_hz).

Definition data_service_account (data_cycle_start_cycles : Z) : M unit :=
  available ← rd g_w5500_data_cycle_counter_available;
  when (negb (available =? 0)) (
    cycles ← dwt_cycles;
    let elapsed_cycles := u32 (cycles - data_cycle_start_cycles) in
    valid ← rd g_w5500_data_timing_reference_valid;
    period ← rd g_w5500_data_period_cycles;
    when (negb (valid =? 0) && (elapsed_cycles >=? period)) (incr g_w5500_data_overrun_count);;
    max_cycles ← rd g_w5500_data_max_exec_cycles;
    clock ← rd g_w5500_data_system_core_clock_hz;
    when (elapsed_cycles >? max_cycles) (
      wr g_w5500_data_max_exec_us
        (if negb (valid =? 0) then elapsed_microseconds elapsed_cycles clock else 0);;
      wr g_w5500_data_max_exec_cycles elapsed_cycles)).

(** *** One iteration *)

Definition eth_wait (l : eth_locals) : M eth_locals :=
  wait_start_tick ← osKernelGetTickCount;
  wait_flags ← osThreadFlagsWait EthernetTask ETHERNET_EVENT_MASK
    (eth_wait_ticks wait_start_tick (next_data_service_tick l) (next_phy_tick l));
  mret (if negb (flags_error wait_flags)
        then l <| pending_ethernet_events := wait_flags |> else l).

Definition eth_task_iteration (l : eth_locals) : M eth_locals :=
  current_tick ← osKernelGetTickCount;
  let control_service_due := reached current_tick (next_phy_tick l) in
  let data_service_due := reached current_tick (next_data_service_tick l) in
  let tcp_response_event :=
    negb (Z.land (pending_ethernet_events l) ETHERNET_EVENT_TCP_RESPONSE_READY =? 0) in
  let l := l <| pending_ethernet_events := 0 |> in
  l ← (if control_service_due then control_service l else mret l);
  data_cycle_start_cycles ← (if data_service_due then data_service_start l else mret 0);
  ok ← eth_network_ok;
  link_up ← rd g_w5500_link_up;
  l ← (if data_service_due && (ok : bool) && negb (link_up =? 0)
       then session_service l else mret l);
  tcp_data_service data_service_due tcp_response_event;;
  udp_open ← rd g_w5500_udp_open_ok;
  when (data_service_due && negb (udp_open =? 0)) udp_data_service;;
  when data_service_due (data_service_account data_cycle_start_cycles);;
  l ← (if data_service_due then
         deadline_now ← osKernelGetTickCount;
         next ← lift_option (next_deadline deadline_now data_service_period_ticks
                               (next_data_service_tick l));
         mret (l <| next_data_service_tick := next |>)
       else mret l);
  eth_wait l.

(** The first [n] rounds of the [for] loop. *)
Fixpoint eth_iterations (n : nat) (l : eth_locals) : M eth_locals :=
  match n with
  | O => mret l
  | S n => l ← eth_task_iteration l; eth_iterations n l
  end.

Definition StartEthernetTask (n : nat) : M eth_locals :=
  l ← eth_task_init; eth_iterations n l.
End Ethernet.

(** ** Deadlines *)

(** Ticks from [t] to [u], as the code compares them. *)
Definition ahead (t u : Z) : Z := i32 (u - t).

Lemma i32_of z d m : - 2147483648 <= d < 2147483648 -> d = z + m * 4294967296 -> i32 z = d.
Proof.
  intros H ->. unfold i32, u32. destruct (_ <? _) eqn:E.
  - assert (m = - (z / 4294967296)) by lia. lia.
  - assert (m = - (z / 4294967296) - 1) by lia. lia.
Qed.

Lemma i32_as z : exists m, i32 z = z + m * 4294967296 /\ - 2147483648 <= i32 z < 2147483648.
Proof.
  unfold i32, u32. destruct (_ <? _) eqn:E.
  - exists (- (z / 4294967296)). lia.
  - exists (- (z / 4294967296) - 1). lia.
Qed.

Lemma ahead_range t u : - 2147483648 <= ahead t u < 2147483648.
Proof. unfold ahead. destruct (i32_as (u - t)) as (m & _ & H). exact H. Qed.

Lemma ahead_shift t u k :
  - 2147483648 <= ahead t u + k < 2147483648 -> ahead t (u32 (u + k)) = ahead t u + k.
Proof.
  unfold ahead. destruct (i32_as (u - t)) as (m & E & _). intros H.
  apply i32_of with (m + (u + k) / 4294967296); [done|]. rewrite E. unfold u32.
  pose proof (Z.div_mod (u + k) 4294967296). lia.
Qed.

Lemma ahead_back t u : is_u32 u -> u32 (t + ahead t u) = u.
Proof.
  intros H. unfold ahead. destruct (i32_as (u - t)) as (m & -> & _).
  replace (t + _) with (u + m * 4294967296) by lia. unfold u32.
  rewrite Z_mod_plus_full. by apply u32_small.
Qed.

Lemma ahead_opp t u : ahead t u <> - 2147483648 -> i32 (t - u) = - ahead t u.
Proof.
  unfold ahead. destruct (i32_as (u - t)) as (m & E & R). intros H.
  apply i32_of with (- m); lia.
Qed.

Lemma reached_ahead now next :
  ahead now next <> - 2147483648 -> reached now next = (ahead now next <=? 0).
Proof. intros H. unfold reached. rewrite ahead_opp by done. lia. Qed.

(** The loop steps over the deadlines that are not after [now]. *)
Lemma deadline_loop_ok n now period next :
  0 < period < 2147483648 -> - 2147483648 < ahead now next <= 0 -> (- ahead now next / period < Z.of_nat n) ->
  let k := - ahead now next / period + 1 in
  deadline_loop n now period next = Some (u32 (next + k * period)).
Proof.
  revert next. induction n as [|n IH]; intros next Hp Ha Hn k.
  { pose proof (Z.div_pos (- ahead now next) period). lia. }
  cbn [deadline_loop]. assert (0 <= - ahead now next / period) by (apply Z.div_pos; lia).
  assert (ahead now (u32 (next + period)) = ahead now next + period) as Hs
    by (apply ahead_shift; lia).
  rewrite reached_ahead by lia. rewrite Hs.
  destruct (Z.leb_spec (ahead now next + period) 0) as [Hle|Hgt].
  - assert (- ahead now next / period = - (ahead now next + period) / period + 1) as Hk.
    { replace (- ahead now next) with (- (ahead now next + period) + 1 * period) by lia.
      rewrite Z.div_add by lia. reflexivity. }
    rewrite IH; rewrite ?Hs; [|lia..].
    f_equal. unfold k. rewrite Hk. unfold u32. rewrite Zplus_mod_idemp_l. f_equal. lia.
  - assert (k = 1) as ->; [|f_equal; f_equal; lia].
    unfold k. rewrite Z.div_small by lia. done.
Qed.

Lemma next_deadline_ok now period next :
  0 < period < 2147483648 -> - 2147483648 < ahead now next <= 0 ->
  let k := - ahead now next / period + 1 in
  next_deadline now period next = Some (u32 (next + k * period)) /\ 1 <= k /\
  0 < ahead now (u32 (next + k * period)) <= period /\
  forall j, 0 <= j < k -> ahead now (u32 (next + j * period)) <= 0.
Proof.
  intros Hp Ha k. assert (0 <= - ahead now next / period) by (apply Z.div_pos; lia).
  assert (k * period = period * (- ahead now next / period) + period) as Hkp by (unfold k; lia).
  pose proof (Z.mul_div_le (- ahead now next) period).
  pose proof (Z.mul_succ_div_gt (- ahead now next) period).
  split; [|split; [lia|]].
  - unfold next_deadline. replace (Z.max 0 (i32 (now - next))) with (- ahead now next).
    { apply deadline_loop_ok; lia. }
    rewrite ahead_opp; lia.
  - rewrite ahead_shift by lia. split; [lia|].
    intros j Hj. assert (j * period <= (- ahead now next / period) * period) by nia.
    rewrite ahead_shift by nia. nia.
Qed.

Lemma eth_wait_ticks_ok now data phy :
  let wait := eth_wait_ticks now data phy in
  (0 < ahead now data -> 0 < ahead now phy -> wait = Z.min (ahead now data) (ahead now phy)) /\
  (ahead now data <= 0 \/ ahead now phy <= 0 -> wait = 0).
Proof.
  intros wait. subst wait. unfold eth_wait_ticks.
  change (i32 (data - now)) with (ahead now data). change (i32 (phy - now)) with (ahead now phy).
  pose proof (ahead_range now data). pose proof (ahead_range now phy).
  split; [intros H1 H2|intros H1; destruct (_ && _) eqn:E; [zlia|done]].
  replace ((ahead now data >? 0) && (ahead now phy >? 0)) with true by zlia.
  rewrite !u32_small by (unfold is_u32; lia). destruct (Z.ltb_spec (ahead now data) (ahead now phy)); lia.
Qed.

(** C39: Deadlines: a deadline that is due, by up to 2^31 - 1 ticks and across
    the wrap-around of the tick counter, is moved on by the least number of
    whole periods that puts it in the future, at most one period ahead; the
    loop always ends.  The task then sleeps exactly until the nearer of its
    two deadlines: never past one, and not at all only if one is already
    due. *)
Theorem deadlines_kept now period next data phy :
  is_u32 data -> is_u32 phy -> 0 < period < 2147483648 ->
  - 2147483648 < ahead now next <= 0 ->
  (exists k next', next_deadline now period next = Some next' /\
     1 <= k /\ next' = u32 (next + k * period) /\ 0 < ahead now next' <= period /\
     forall j, 0 <= j < k -> ahead now (u32 (next + j * period)) <= 0) /\
  let wait := eth_wait_ticks now data phy in
  (0 < ahead now data -> 0 < ahead now phy ->
     wait = Z.min (ahead now data) (ahead now phy) /\
     u32 (now + wait) = (if ahead now data <=? ahead now phy then data else phy)) /\
  (ahead now data <= 0 \/ ahead now phy <= 0 -> wait = 0).
Proof.
  intros Hd Hf Hp Ha. split.
  - destruct (next_deadline_ok now period next Hp Ha) as (H1 & H2 & H3 & H4). by eexists _, _.
  - destruct (eth_wait_ticks_ok now data phy) as [W1 W2]. split; [|exact W2]. intros H1 H2.
    rewrite W1 by done. split; [done|]. destruct (Z.leb_spec (ahead now data) (ahead now phy)).
    + rewrite Z.min_l by done. by apply ahead_back.
    + rewrite Z.min_r by lia. by apply ahead_back.
Qed.

Lemma deadlines_kept_witness :
  next_deadline 3 100 4294967200 = Some 4 /\ eth_wait_ticks 3 4 104 = 1.
Proof.
  destruct (deadlines_kept 3 100 4294967200 4 104) as [(k & n & H & _ & -> & _) Hw];
    [width..|lia|vm_compute; split; [reflexivity|discriminate]|].
  split; [reflexivity|]. destruct Hw as [Hw _]. destruct Hw as [Hw _]; [reflexivity..|]. exact Hw.
Defined.
