(* ===== verification/GwSpiTrace.v ===== *)
(** * What the W5500 driver does on the SPI bus

    The driver's routines against a record of the bus: chip-select windows
    and the transfers in them.  [spi T P m g]: from [g], [m] ends within [T]
    ticks, and the windows [ws] it made and its result satisfy [P]. *)
From S2P Require Import Prelude Crc16 Protocol StreamParser RxRing GwDiag GwW5500 GwTcp GwUdp.
From S2P Require Export GwLogic.
Local Open Scope Z_scope.

(** ** The bus *)

(** One HAL call: the bytes asked to be sent, its status, and for a
    full-duplex transfer what came back. *)
Record transfer := mk_transfer { tx_bytes : list Z; tx_status : Z; rx_bytes : list Z }.
Inductive bus_event :=
  | ChipSelect (level : bool)
  | Transfer (t : transfer).
(** The transfers made between selecting and deselecting the chip. *)
Definition window : Type := list transfer.
Definition window_events (w : window) : list bus_event :=
  ChipSelect false :: map Transfer w ++ [ChipSelect true].

(** The hardware state remembers what happened on the bus. *)
Class SpiBus D `{!World D} := {
  bus : D -> list bus_event;
  bus_cs b d : bus (cs_pin b d) = bus d ++ [ChipSelect b];
  bus_transmit tx d :
    bus (spi_transmit tx d).2 =
      bus d ++ [Transfer (mk_transfer tx (spi_transmit tx d).1 [])];
  bus_transmit_receive tx d :
    let '(st, rx, d') := spi_transmit_receive tx d in
    bus d' = bus d ++ [Transfer (mk_transfer tx st rx)] /\ length rx = length tx
}.

(** The Ethernet task alone uses the bus; the other tasks leave the driver's
    buffers alone. *)
Class SpiOwner D `{!World D} `{!SpiBus D} := {
  owner_bus n g : bus (hw (env n g)) = bus (hw g);
  owner_arrays n g a : a <> g_rs422_tx_frame -> array_of (env n g) a = array_of g a
}.

(** Buffers for bytes nobody reads. *)
Definition dummy_array (a : avar) : bool :=
  match a with g_w5500_tcp_rx_dummy | g_w5500_udp_spi_discard => true | _ => false end.

(** A relation that the driver's work respects: the other tasks, the
    hardware, time, the dummy buffers and the variables in [ok]. *)
Class SpiClosed {D} `{!World D} (R : gateway D -> gateway D -> Prop) (ok : gvar -> bool) := {
  spi_preorder : PreOrder R;
  spi_env g : R g (env (epoch g) (g <| epoch := S (epoch g) |>));
  spi_hw d g : R g (g <| hw := d |>);
  spi_tick t g : R g (g <| tick := t |>);
  spi_dummy a x g : dummy_array a = true -> R g (g <| array_of := upd a x (array_of g) |>);
  spi_put v z g : ok v = true -> R g (put v z g)
}.

Section Trace.
Context {D : Type} `{!World D} `{!SpiBus D} `{!SpiOwner D} (J : Z) `{!Punctual D J}.
Context (R : gateway D -> gateway D -> Prop) (ok : gvar -> bool) `{HR : !SpiClosed R ok}.
Implicit Types g : gateway D.
Implicit Types ws : list window.

#[local] Instance spi_pre : PreOrder R.
Proof. exact (@spi_preorder _ _ _ _ HR). Qed.

(** At most [T] ticks passed. *)
Definition within (T : Z) g g' : Prop :=
  exists e, 0 <= e <= T /\ u32 (tick g') = u32 (tick g + e).

Record traced (T : Z) ws g g' : Prop := {
  tr_bus : bus (hw g') = bus (hw g) ++ flat_map window_events ws;
  tr_time : within T g g';
  tr_arrays a : a <> g_rs422_tx_frame -> dummy_array a = false -> array_of g' a = array_of g a;
  tr_rest : R g g'
}.

Definition spi {A} (T : Z) (P : A -> list window -> Prop) (m : M D A) g : Prop :=
  wp m (fun r g' => exists ws, traced T ws g g' /\ P r ws) g.

Lemma within_same g g' : tick g' = tick g -> within 0 g g'.
Proof. intros E. exists 0. split; [lia|]. rewrite E, Z.add_0_r. done. Qed.

Lemma within_weaken T T' g g' : T <= T' -> within T g g' -> within T' g g'.
Proof. intros H (e & He & E). exists e. split; [lia|done]. Qed.

Lemma within_trans T1 T2 g1 g2 g3 : within T1 g1 g2 -> within T2 g2 g3 -> within (T1 + T2) g1 g3.
Proof.
  intros (e1 & H1 & E1) (e2 & H2 & E2). exists (e1 + e2). split; [lia|].
  rewrite E2. unfold u32 in *. rewrite <- Zplus_mod_idemp_l, E1, Zplus_mod_idemp_l. f_equal. lia.
Qed.

Lemma within_env n g : within J g (env n g).
Proof.
  destruct (punctual (J := J) n g) as (e & He & E). exists e. split; [done|].
  rewrite E. unfold u32. apply Zmod_mod.
Qed.

Lemma within_preempt g : within J g (env (epoch g) (g <| epoch := S (epoch g) |>)).
Proof. pose proof (within_env (epoch g) (g <| epoch := S (epoch g) |>)) as H. exact H. Qed.

Lemma traced_trans T1 ws1 g1 g2 T2 ws2 g3 :
  traced T1 ws1 g1 g2 -> traced T2 ws2 g2 g3 -> traced (T1 + T2) (ws1 ++ ws2) g1 g3.
Proof.
  intros [B1 A1 M1 R1] [B2 A2 M2 R2]. split.
  - rewrite B2, B1, flat_map_app, app_assoc. done.
  - by eapply within_trans.
  - intros a Ha Hd. by rewrite M2, M1.
  - by etrans.
Qed.

Lemma traced_weaken T T' ws g g' : T <= T' -> traced T ws g g' -> traced T' ws g g'.
Proof. intros H [B A1 M1 R1]. split; [done| |done|done]. by eapply within_weaken. Qed.

Lemma spi_mono {A} T T' (P Q : A -> list window -> Prop) m g :
  spi T P m g -> T <= T' -> (forall r ws, P r ws -> Q r ws) -> spi T' Q m g.
Proof.
  intros H HT HP. eapply wp_mono; [exact H|]. intros r g' (ws & Ht & H1).
  exists ws. split; [by eapply traced_weaken|auto].
Qed.

Lemma spi_bind {A B} T1 T2 (P : A -> list window -> Prop) (Q : B -> list window -> Prop) m f g :
  spi T1 P m g ->
  (forall r ws g1, traced T1 ws g g1 -> P r ws -> spi T2 (fun r' ws' => Q r' (ws ++ ws')) (f r) g1) ->
  spi (T1 + T2) Q (m ≫= f) g.
Proof.
  intros H Hf. apply wp_bind. eapply wp_mono; [exact H|]. intros r g1 (ws & Ht & H1).
  eapply wp_mono; [by eapply Hf|]. intros r' g2 (ws' & Ht' & H2).
  exists (ws ++ ws'). split; [by eapply traced_trans|done].
Qed.

Lemma spi_ret {A} (a : A) P g : P a [] -> spi 0 P (mret (M := M D) a) g.
Proof.
  intros H. apply wp_ret. exists []. split; [|done].
  split; [by rewrite app_nil_r|by apply within_same|done|reflexivity].
Qed.

Lemma spi_gets {A} (f : gateway D -> A) P g : P (f g) [] -> spi 0 P (gets f) g.
Proof.
  intros H. apply wp_gets. exists []. split; [|done].
  split; [by rewrite app_nil_r|by apply within_same|done|reflexivity].
Qed.

(** A change of state that neither takes time nor uses the bus. *)
Lemma spi_modify (f : gateway D -> gateway D) P g :
  P tt [] -> bus (hw (f g)) = bus (hw g) -> tick (f g) = tick g ->
  array_of (f g) = array_of g -> R g (f g) -> spi 0 P (modify f) g.
Proof.
  intros H Hb Ht Ha Hr. apply wp_modify. exists []. split; [|done].
  split; [by rewrite Hb, app_nil_r|by apply within_same|by rewrite Ha|done].
Qed.

Lemma spi_wr v z P g : ok v = true -> P tt [] -> spi 0 P (wr v z) g.
Proof. intros Hv H. apply spi_modify; [done..|by apply spi_put]. Qed.

Lemma spi_preempt P g : P tt [] -> spi J P preempt g.
Proof.
  intros H. apply wp_preempt. exists []. split; [|done]. split.
  - rewrite owner_bus, app_nil_r. done.
  - apply within_preempt.
  - intros a Ha _. by rewrite owner_arrays.
  - apply spi_env.
Qed.

Lemma spi_tick_count P g : (forall t, P t []) -> spi J P osKernelGetTickCount g.
Proof.
  intros H. replace J with (J + 0) by lia. eapply (spi_bind _ _ (fun _ ws => ws = [])).
  - by apply spi_preempt.
  - intros [] ws g1 _ ->. apply spi_gets. apply H.
Qed.

(** ** Whole windows *)

(** [xs] more transfers in the open window. *)
Record sending (T : Z) (xs : window) g g' : Prop := {
  sd_bus : bus (hw g') = bus (hw g) ++ map Transfer xs;
  sd_time : within T g g';
  sd_arrays a : a <> g_rs422_tx_frame -> dummy_array a = false -> array_of g' a = array_of g a;
  sd_rest : R g g'
}.

Lemma sending_refl g : sending 0 [] g g.
Proof. split; [by rewrite app_nil_r|by apply within_same|done|reflexivity]. Qed.

Lemma sending_trans T1 xs1 g1 g2 T2 xs2 g3 :
  sending T1 xs1 g1 g2 -> sending T2 xs2 g2 g3 -> sending (T1 + T2) (xs1 ++ xs2) g1 g3.
Proof.
  intros [B1 A1 M1 R1] [B2 A2 M2 R2]. split.
  - rewrite B2, B1, map_app, app_assoc. done.
  - by eapply within_trans.
  - intros a Ha Hd. by rewrite M2, M1.
  - by etrans.
Qed.

Lemma wp_spi_transmit tx Q g :
  (forall st g', sending J [mk_transfer tx st []] g g' -> Q st g') -> wp (HAL_SPI_Transmit tx) Q g.
Proof.
  intros H. unfold HAL_SPI_Transmit. apply wp_bind, wp_preempt.
  set (g1 := env _ _). wp_auto.
  pose proof (bus_transmit tx (hw g1)) as Hb.
  destruct (spi_transmit tx (hw g1)) as [st d] eqn:E. cbn [fst snd] in Hb. wp_auto. apply H. split.
  - st_simpl. rewrite Hb. unfold g1. rewrite owner_bus. done.
  - apply within_preempt.
  - intros a Ha _. unfold g1. st_simpl. by rewrite owner_arrays.
  - etrans; [apply spi_env|apply spi_hw].
Qed.

Lemma wp_spi_transmit_receive tx Q g :
  (forall st rx g', sending J [mk_transfer tx st rx] g g' -> length rx = length tx -> Q (st, rx) g') ->
  wp (HAL_SPI_TransmitReceive tx) Q g.
Proof.
  intros H. unfold HAL_SPI_TransmitReceive. apply wp_bind, wp_preempt.
  set (g1 := env _ _). wp_auto.
  pose proof (bus_transmit_receive tx (hw g1)) as Hb.
  destruct (spi_transmit_receive tx (hw g1)) as [[st rx] d] eqn:E. destruct Hb as [Hb Hl].
  wp_auto. apply H; [|done]. split.
  - st_simpl. rewrite Hb. unfold g1. rewrite owner_bus. done.
  - apply within_preempt.
  - intros a Ha _. unfold g1. st_simpl. by rewrite owner_arrays.
  - etrans; [apply spi_env|apply spi_hw].
Qed.

(** Selecting the chip, [m], and deselecting it. *)
Lemma spi_window {A} T (P : A -> list window -> Prop) (m : M D A) g :
  (forall g0, R g g0 -> array_of g0 = array_of g ->
     wp m (fun r g' => exists w, sending T w g0 g' /\ P r [w]) g0) ->
  spi T P (gpio_cs false;; r ← m; gpio_cs true;; mret r) g.
Proof.
  intros H. unfold gpio_cs. apply wp_bind, wp_modify. apply wp_bind.
  set (g0 := g <| hw := _ |>).
  eapply wp_mono; [apply H; [apply spi_hw|done]|]. intros r g1 (w & [B A1 M1 R1] & HP). wp_auto.
  exists [w]. split; [|done]. split.
  - st_simpl. rewrite bus_cs, B. unfold g0. st_simpl. rewrite bus_cs.
    cbn [flat_map]. unfold window_events. rewrite app_nil_r, <- !app_assoc. done.
  - exact A1.
  - exact M1.
  - etrans; [|apply spi_hw]. etrans; [apply (spi_hw (ok := ok))|exact R1].
Qed.

Lemma spi_write_frame_ok tx g :
  spi J (fun st ws => ws = [[mk_transfer tx st []]]) (spi_write_frame tx) g.
Proof.
  apply spi_window. intros g0 _ _. apply wp_spi_transmit. intros st g' H. by eexists.
Qed.

Lemma spi_read_frame_ok tx g :
  spi J (fun '(st, rx) ws => ws = [[mk_transfer tx st rx]] /\ length rx = length tx)
    (spi_read_frame tx) g.
Proof.
  assert (forall Q, spi J Q (gpio_cs false;; r ← HAL_SPI_TransmitReceive tx; gpio_cs true;; mret r) g ->
    spi J Q (spi_read_frame tx) g) as H.
  { intros Q. unfold spi, spi_read_frame, wp, mbind, M_bind.
    destruct (gpio_cs false g) as [[? g1]|]; [|done].
    destruct (HAL_SPI_TransmitReceive tx g1) as [[[] ?]|]; done. }
  apply H, spi_window. intros g0 _ _. apply wp_spi_transmit_receive. intros st rx g' Hs Hl.
  by eexists.
Qed.

Lemma J_nonneg (g : gateway D) : 0 <= J.
Proof. destruct (punctual (J := J) O g) as (e & H & _). lia. Qed.

(** ** Registers *)

(** A read of [n] bytes at [address] that came back as [rx]. *)
Definition read_window (vdm address : Z) (n : nat) (st : Z) (rx : list Z) : window :=
  [mk_transfer (spi_header address vdm ++ replicate n 0) st rx].
Definition write_window (vdm address : Z) (data : list Z) (st : Z) : window :=
  [mk_transfer (spi_header address vdm ++ data) st []].

Definition bad_length (length max_length : Z) : bool := (length =? 0) || (length >? max_length).

Definition write_spec (vdm max_length address : Z) (data : option (list Z)) (length : Z)
    (st : Z) ws : Prop :=
  match data with
  | Some d =>
      if bad_length length max_length then st = HAL_ERROR /\ ws = []
      else ws = [write_window vdm address (take (Z.to_nat length) d) st]
  | None => st = HAL_ERROR /\ ws = []
  end.

(** The value left behind the pointer. *)
Definition read_spec (vdm max_length address : Z) (data : option (list Z)) (length : Z)
    (r : Z * option (list Z)) ws : Prop :=
  match data with
  | Some d =>
      if bad_length length max_length then r = (HAL_ERROR, data) /\ ws = []
      else exists rx, List.length rx = (3 + Z.to_nat length)%nat /\
        ws = [read_window vdm address (Z.to_nat length) r.1 rx] /\
        r.2 = Some (if r.1 =? HAL_OK then memcpy d 0 (drop 3 rx) length else d)
  | None => r = (HAL_ERROR, None) /\ ws = []
  end.

Definition read_register_spec (vdm address : Z) (value : option Z) (r : Z * option Z) ws : Prop :=
  match value with
  | Some v => exists rx, length rx = 4%nat /\ ws = [read_window vdm address 1 r.1 rx] /\
      r.2 = Some (if r.1 =? HAL_OK then arr_get rx 3 else v)
  | None => r = (HAL_ERROR, None) /\ ws = []
  end.

Lemma spi_ret_in {A} T (a : A) (P : A -> list window -> Prop) g :
  0 <= T -> P a [] -> spi T P (mret (M := M D) a) g.
Proof. intros HT H. eapply spi_mono; [by apply spi_ret|exact HT|done]. Qed.

Lemma spi_fits {A} (a : A) (P : A -> list window -> Prop) g : P a [] -> spi J P (mret (M := M D) a) g.
Proof. intros H. by apply spi_ret_in; [apply (J_nonneg g)|]. Qed.

Lemma write_registers_ok vdm max_length address data length g :
  spi J (write_spec vdm max_length address data length)
    (write_registers vdm max_length address data length) g.
Proof.
  unfold write_registers, write_spec. destruct data as [d|]; [|by apply spi_fits].
  fold (bad_length length max_length). destruct (bad_length _ _); [by apply spi_fits|].
  apply spi_write_frame_ok.
Qed.

Lemma read_registers_ok vdm max_length address data length g :
  spi J (read_spec vdm max_length address data length)
    (read_registers vdm max_length address data length) g.
Proof.
  unfold read_registers, read_spec. destruct data as [d|]; [|by apply spi_fits].
  fold (bad_length length max_length). destruct (bad_length _ _); [by apply spi_fits|].
  replace J with (J + 0) by lia. eapply spi_bind; [apply spi_read_frame_ok|].
  intros [st rx] ws g1 _ [-> Hl]. apply spi_ret. rewrite length_app, length_replicate in Hl.
  exists rx. cbn [fst snd]. split; [done|]. split; [by rewrite app_nil_r|].
  destruct (st =? HAL_OK); done.
Qed.

Lemma read_byte_frame_ok vdm address v g :
  spi J (fun r ws => exists rx, length rx = 4%nat /\ ws = [read_window vdm address 1 r.1 rx] /\
           r.2 = if r.1 =? HAL_OK then arr_get rx 3 else v)
    (read_byte_frame vdm address v) g.
Proof.
  unfold read_byte_frame. replace J with (J + 0) by lia. eapply spi_bind; [apply spi_read_frame_ok|].
  intros [st rx] ws g1 _ [-> Hl]. apply spi_ret. exists rx. split; [exact Hl|].
  split; [by rewrite app_nil_r|done].
Qed.

Lemma read_register_ok vdm address value g :
  spi J (read_register_spec vdm address value) (read_register vdm address value) g.
Proof.
  unfold read_register, read_register_spec. destruct value as [v|]; [|by apply spi_fits].
  replace J with (J + 0) by lia. eapply spi_bind; [apply read_byte_frame_ok|].
  intros [st v'] ws g1 _ (rx & Hl & -> & Hv). cbn [fst snd] in *. apply spi_ret.
  exists rx. split; [done|]. split; [by rewrite app_nil_r|]. cbn [fst snd]. by rewrite Hv.
Qed.

(** ** 16-bit reads *)

Definition u16_of (rx : list Z) : Z := be_u16 (drop 3 rx).

Definition read_u16_spec (vdm address : Z) (value : option Z) (r : Z * option Z) ws : Prop :=
  match value with
  | Some v => exists rx, length rx = 5%nat /\ ws = [read_window vdm address 2 r.1 rx] /\
      r.2 = Some (if r.1 =? HAL_OK then u16_of rx else v)
  | None => r = (HAL_ERROR, None) /\ ws = []
  end.

Lemma read_u16_ok vdm max_length address value g :
  2 <= max_length ->
  spi J (read_u16_spec vdm address value)
    (read_u16 (read_registers vdm max_length) address value) g.
Proof.
  intros Hm. unfold read_u16, read_u16_spec. destruct value as [v|]; [|by apply spi_fits].
  replace J with (J + 0) by lia. eapply spi_bind; [apply read_registers_ok|].
  intros [st data] ws g1 _. unfold read_spec, bad_length.
  replace (_ || _) with false by (cbn; zlia). intros (rx & Hl & -> & Hd).
  apply spi_ret. exists rx. cbn [fst snd] in *. split; [done|]. split; [by rewrite app_nil_r|].
  rewrite Hd. destruct (st =? HAL_OK); [|done].
  destruct rx as [|? [|? [|? [|? [|? [|]]]]]]; done.
Qed.

(** A successful read of the value [x]. *)
Definition reads (vdm address x : Z) (w : window) : Prop :=
  exists rx, length rx = 5%nat /\ w = read_window vdm address 2 HAL_OK rx /\ u16_of rx = x.
Definition is_read (vdm address : Z) (n : nat) (w : window) : Prop :=
  exists st rx, w = read_window vdm address n st rx.

(** Two consecutive reads agreed; or an error, or no two agreed, and the
    caller's value is untouched. *)
Definition stable_spec (vdm address attempts : Z) (v : Z) (r : Z * option Z) ws : Prop :=
  Forall (is_read vdm address 2) ws /\ Z.of_nat (length ws) <= attempts /\
  if r.1 =? HAL_OK
  then exists x pre a b, r.2 = Some x /\ ws = pre ++ [a; b] /\ reads vdm address x a /\
         reads vdm address x b
  else r.2 = Some v.

Lemma stable_loop_ok vdm max_length address v n attempt previous current g :
  2 <= max_length -> 0 <= attempt ->
  spi (J * Z.of_nat n)
    (fun r ws => Forall (is_read vdm address 2) ws /\ (length ws <= n)%nat /\
       if r.1 =? HAL_OK
       then exists x b, r.2 = Some x /\ reads vdm address x b /\
         ((exists pre a, ws = pre ++ [a; b] /\ reads vdm address x a) \/
          ws = [b] /\ attempt <> 0 /\ x = previous)
       else r.2 = Some v)
    (stable_loop (read_u16 (read_registers vdm max_length) address) n attempt previous current
       (Some v)) g.
Proof.
  intros Hm. revert attempt previous current g.
  induction n as [|n IH]; intros attempt previous current g Ha; cbn [stable_loop].
  { apply spi_ret_in; [lia|]. done. }
  pose proof (J_nonneg g) as HJ.
  replace (J * Z.of_nat (S n)) with (J + J * Z.of_nat n) by lia.
  eapply spi_bind; [by apply read_u16_ok|]. intros [st c] ws g1 _ (rx & Hl & -> & Hc).
  cbn [fst snd] in *. subst c. cbn [default from_option id]. set (w := read_window _ _ _ _ _).
  assert (is_read vdm address 2 w) as Hr by (by exists st, rx).
  destruct (st =? HAL_OK) eqn:Est; cbn [negb]; cbv zeta.
  - apply Z.eqb_eq in Est as ->. assert (reads vdm address (u16_of rx) w) as Hw by (by exists rx).
    destruct (negb (attempt =? 0) && (u16_of rx =? previous)) eqn:E.
    + apply andb_true_iff in E as [E1 E2]. apply spi_ret_in; [lia|].
      split; [by constructor|]. split; [cbn; lia|]. cbn [fst snd].
      exists (u16_of rx), w. split; [done|]. split; [done|]. right. split; [done|]. lia.
    + eapply spi_mono; [apply (IH (attempt + 1)); lia|lia|].
      intros [st' v'] ws' (HF & Hn & H). split; [by constructor|]. split; [cbn; lia|].
      cbn [fst snd] in *. destruct (st' =? HAL_OK); [|done].
      destruct H as (x & b & Hx & Hb & H). exists x, b. split; [done|]. split; [done|]. left.
      destruct H as [(pre & a & -> & Hra)|(-> & _ & ->)]; [by exists ([w] ++ pre), a|by exists [], w].
  - apply spi_ret_in; [lia|]. split; [by constructor|]. split; [cbn; lia|].
    cbn [fst snd]. by rewrite Est.
Qed.

Lemma read_stable_u16_ok vdm max_length attempts address v g :
  2 <= max_length -> 0 <= attempts ->
  spi (J * attempts) (stable_spec vdm address attempts v)
    (read_stable_u16 (read_u16 (read_registers vdm max_length)) attempts address (Some v)) g.
Proof.
  intros Hm Ha. unfold read_stable_u16, stable_spec.
  eapply spi_mono; [by apply stable_loop_ok|by rewrite Z2Nat.id|]. intros r ws (HF & Hn & H).
  split; [done|]. split; [lia|]. destruct (r.1 =? HAL_OK); [|done].
  destruct H as (x & b & Hx & Hb & [(pre & a & -> & Hra)|(_ & [] & _)]); [|done].
  by exists x, pre, a, b.
Qed.

(** ** Buffers *)

Definition sent (w : window) : list Z := concat (map tx_bytes w).
Definition succeeded (w : window) : Prop := Forall (fun x => tx_status x = HAL_OK) w.

(** The transfers [xs] went well up to the one that ended with [st], if that
    is not HAL_OK; they carry [bs], or the part of it sent until then. *)
Definition streams (bs : list Z) (st : Z) (xs : window) : Prop :=
  if st =? HAL_OK then succeeded xs /\ sent xs = bs
  else exists ys y, xs = ys ++ [y] /\ succeeded ys /\ tx_status y = st /\
         sent xs `prefix_of` bs.

Lemma streams_cons x bs st xs :
  tx_status x = HAL_OK -> streams bs st xs -> streams (tx_bytes x ++ bs) st (x :: xs).
Proof.
  intros Hx. unfold streams. destruct (st =? HAL_OK).
  - intros [Hs <-]. split; [by constructor|done].
  - intros (ys & y & -> & Hs & Hy & Hp). exists (x :: ys), y. split; [done|].
    split; [by constructor|]. split; [done|]. cbn [sent map concat app] in *. by apply prefix_app.
Qed.

Lemma streams_fail x bs : tx_status x <> HAL_OK -> tx_bytes x `prefix_of` bs ->
  streams bs (tx_status x) [x].
Proof.
  intros Hx Hp. unfold streams. rewrite (proj2 (Z.eqb_neq _ _)) by done.
  exists [], x. split; [done|]. split; [constructor|]. split; [done|].
  unfold sent. cbn [map concat]. by rewrite app_nil_r.
Qed.

Definition chunk_count (chunk_size length : Z) : Z := (length + chunk_size - 1) / chunk_size.

Lemma chunk_count_step c r : 0 < c -> c < r -> chunk_count c r = 1 + chunk_count c (r - c).
Proof.
  intros H1 H2. unfold chunk_count.
  replace (r + c - 1) with (r - c + c - 1 + 1 * c) by lia. rewrite Z.div_add by lia. lia.
Qed.

Lemma chunk_count_last c r : 0 < r <= c -> chunk_count c r = 1.
Proof.
  intros H. unfold chunk_count. replace (r + c - 1) with (r - 1 + 1 * c) by lia.
  rewrite Z.div_add by lia. rewrite Z.div_small by lia. done.
Qed.

Lemma sending_dummy a x g :
  dummy_array a = true -> sending 0 [] g (g <| array_of := upd a x (array_of g) |>).
Proof.
  intros Ha. split; [by rewrite app_nil_r|by apply within_same| |by apply spi_dummy].
  intros b _ Hb. st_simpl. apply upd_ne. congruence.
Qed.

Lemma sending_weaken T T' xs g g' : T <= T' -> sending T xs g g' -> sending T' xs g g'.
Proof. intros H [B A1 M1 R1]. split; [done|by eapply within_weaken|done|done]. Qed.

Lemma tx_chunk_loop_fail n data discard c length offset st (g : gateway D) :
  st <> HAL_OK -> tx_chunk_loop n data discard c length offset st g = Some (st, g).
Proof. intros H. destruct n; cbn [tx_chunk_loop]; by rewrite (proj2 (Z.eqb_neq _ _)). Qed.

Definition chunked (c : Z) (xs : window) : Prop :=
  Forall (fun x => Z.of_nat (length (tx_bytes x)) <= c) xs.

Lemma tx_chunk_loop_ok data discard c length frame n offset g :
  data <> g_rs422_tx_frame -> dummy_array data = false -> dummy_array discard = true ->
  0 < c -> length <= Z.of_nat (List.length frame) -> length < 65536 ->
  array_of g data = frame -> 0 <= offset <= length -> length - offset <= Z.of_nat n ->
  wp (tx_chunk_loop n data discard c length offset HAL_OK) (fun st g' => exists xs,
    sending (J * chunk_count c (length - offset)) xs g g' /\ chunked c xs /\
    streams (drop (Z.to_nat offset) (take (Z.to_nat length) frame)) st xs) g.
Proof.
  intros Hd1 Hd2 Hd3 Hc Hlen Hw. revert offset g. induction n as [|n IH]; intros offset g Ha Ho Hn.
  all: cbn [tx_chunk_loop]; change (HAL_OK =? HAL_OK) with true; cbn [andb].
  all: pose proof (J_nonneg g) as HJ; destruct (Z.ltb_spec offset length) as [Hlt|Hge].
  1: lia.
  1,3: replace offset with length by lia; wp_auto; exists [];
    rewrite Z.sub_diag; unfold chunk_count; rewrite Z.div_small by lia; rewrite Z.mul_0_r;
    split; [apply sending_refl|split; [by apply List.Forall_nil|]];
    rewrite drop_ge by (rewrite length_take; lia); split; [by apply List.Forall_nil|done].
  rewrite (u16_small (length - offset)) by (unfold is_u16; lia). cbv zeta.
  set (k := if length - offset >? c then c else length - offset).
  assert (0 < k <= length - offset /\ k <= c /\ chunk_count c (length - offset) = 1 + chunk_count c (length - offset - k))
    as (Hk & Hkc & Hcc).
  { unfold k. destruct (Z.gtb_spec (length - offset) c).
    - rewrite chunk_count_step by lia. lia.
    - rewrite chunk_count_last by lia. rewrite Z.sub_diag. unfold chunk_count.
      rewrite Z.div_small by lia. lia. }
  wp_auto. rewrite Ha. set (bytes := take _ _).
  assert (List.length bytes = Z.to_nat k) as Hlb by (unfold bytes; rewrite length_take, length_drop; lia).
  assert (drop (Z.to_nat offset) (take (Z.to_nat length) frame) =
    bytes ++ drop (Z.to_nat (offset + k)) (take (Z.to_nat length) frame)) as Hsplit.
  { unfold bytes. rewrite !skipn_firstn_comm.
    replace (Z.to_nat length - Z.to_nat offset)%nat with
      (Z.to_nat k + (Z.to_nat length - Z.to_nat (offset + k)))%nat by lia.
    rewrite <- take_take_drop, drop_drop.
    replace (Z.to_nat offset + Z.to_nat k)%nat with (Z.to_nat (offset + k)) by lia. done. }
  apply wp_spi_transmit_receive. intros st rx g1 Hs Hrx. wp_auto.
  rewrite u16_small by (unfold is_u16; lia).
  match goal with |- wp _ _ ?g => set (g2 := g) end.
  assert (sending J [mk_transfer bytes st rx] g g2) as Hs2.
  { replace J with (J + 0) by lia. eapply (sending_trans _ [_] _ _ _ []); [exact Hs|by apply sending_dummy]. }
  rewrite Hcc, Z.mul_add_distr_l, Z.mul_1_r, Hsplit. destruct (Z.eqb_spec st HAL_OK) as [->|Hst].
  - eapply wp_mono; [apply (IH (offset + k)); [|lia|lia]|].
    { rewrite (sd_arrays _ _ _ _ Hs2) by done. exact Ha. }
    intros st' g' (xs & Hs' & Hch & Hst). exists (mk_transfer bytes HAL_OK rx :: xs).
    replace (length - (offset + k)) with (length - offset - k) in Hs' by lia.
    split; [exact (sending_trans _ [_] _ _ _ _ _ Hs2 Hs')|]. split; [|by apply (streams_cons (mk_transfer bytes HAL_OK rx))].
    apply List.Forall_cons; [cbn [tx_bytes]; lia|done].
  - unfold wp. rewrite tx_chunk_loop_fail by done. exists [mk_transfer bytes st rx].
    assert (0 <= chunk_count c (length - offset - k)) by (unfold chunk_count; apply Z.div_pos; lia).
    split; [eapply sending_weaken; [|exact Hs2]; nia|].
    split; [apply List.Forall_cons; [cbn [tx_bytes]; lia|by apply List.Forall_nil]|].
    apply (streams_fail (mk_transfer bytes st rx)); [done|]. by apply prefix_app_r.
Qed.

(** The window of a buffer write: the header, then the data. *)
Definition data_window (vdm address c : Z) (bs : list Z) (st : Z) (w : window) : Prop :=
  exists h xs, w = h :: xs /\ tx_bytes h = spi_header address vdm /\ chunked c xs /\
    if tx_status h =? HAL_OK then streams bs st xs else xs = [] /\ st = tx_status h.

Lemma write_tx_buffer_ok vdm c discard address data length g :
  data <> g_rs422_tx_frame -> dummy_array data = false -> dummy_array discard = true ->
  0 < c -> 0 <= length <= Z.of_nat (List.length (array_of g data)) ->
  spi (J * (1 + chunk_count c (Z.max 0 length)))
    (fun st ws =>
       if bad_length length PROTOCOL_MAX_FRAME_SIZE then st = HAL_ERROR /\ ws = []
       else exists w, ws = [w] /\
              data_window vdm address c (take (Z.to_nat length) (array_of g data)) st w)
    (write_tx_buffer vdm c discard address (Some data) length) g.
Proof.
  intros Hd1 Hd2 Hd3 Hc Hlen. unfold write_tx_buffer. pose proof (J_nonneg g) as HJ.
  fold (bad_length length PROTOCOL_MAX_FRAME_SIZE).
  assert (0 <= chunk_count c (Z.max 0 length)) by (unfold chunk_count; apply Z.div_pos; lia).
  destruct (bad_length _ _) eqn:Eb; [by apply spi_ret_in; [nia|]|].
  unfold bad_length in Eb. change PROTOCOL_MAX_FRAME_SIZE with 266 in *.
  set (body := '(status, _) ← HAL_SPI_TransmitReceive (spi_header address vdm);
               tx_chunk_loop (Z.to_nat length) data discard c length 0 status).
  assert (forall Q, spi (J * (1 + chunk_count c (Z.max 0 length))) Q
    (gpio_cs false;; r ← body; gpio_cs true;; mret r) g ->
    spi (J * (1 + chunk_count c (Z.max 0 length))) Q
    (gpio_cs false;; '(status, _) ← HAL_SPI_TransmitReceive (spi_header address vdm);
     status ← tx_chunk_loop (Z.to_nat length) data discard c length 0 status;
     gpio_cs true;; mret status) g) as Hassoc.
  { intros Q. unfold spi, wp, body, mbind, M_bind. destruct (gpio_cs false g) as [[? g1]|]; [|done].
    destruct (HAL_SPI_TransmitReceive _ g1) as [[[] ?]|]; done. }
  apply Hassoc. clear Hassoc. apply spi_window. intros g0 _ Harr. unfold body. apply wp_bind.
  apply wp_spi_transmit_receive. intros st rx g1 Hs _. set (h := mk_transfer (spi_header address vdm) st rx).
  destruct (Z.eq_dec length 0) as [->|Hl0]; [cbn in Eb; lia|].
  destruct (Z.eqb_spec st HAL_OK) as [->|Hst].
  - eapply wp_mono; [apply (tx_chunk_loop_ok data discard c length (array_of g data)); try done; try zlia|].
    + rewrite (sd_arrays _ _ _ _ Hs), Harr by done. done.
    + intros st g2 (xs & Hs2 & Hch & Hx). exists (h :: xs). split.
      * replace (J * _) with (J + J * chunk_count c (length - 0)).
        { exact (sending_trans _ [h] _ _ _ _ _ Hs Hs2). }
        rewrite Z.sub_0_r. replace (Z.max 0 length) with length by zlia. lia.
      * exists (h :: xs). split; [done|]. exists h, xs. done.
  - unfold wp. rewrite tx_chunk_loop_fail by done. exists [h].
    split; [eapply sending_weaken; [|exact Hs]; nia|].
    exists [h]. split; [done|]. exists h, []. cbn [tx_status h].
    rewrite (proj2 (Z.eqb_neq _ _)) by done. split_and!; try done. by apply List.Forall_nil.
Qed.

(** ** Polling *)

Lemma traced_exact T ws g g' :
  traced T ws g g' ->
  exists e, 0 <= e <= T /\ u32 (tick g') = u32 (tick g + e) /\ traced e ws g g'.
Proof.
  intros [B (e & He & E) M1 R1]. exists e. split; [done|]. split; [done|].
  split; [done| |done|done]. by exists e; split; [lia|].
Qed.

Lemma wp_tick_traced Q g :
  (forall g', traced J [] g g' -> Q (tick g') g') -> wp osKernelGetTickCount Q g.
Proof.
  intros H. apply wp_tick. cbv zeta. apply H. split.
  - rewrite owner_bus, app_nil_r. done.
  - apply within_preempt.
  - intros a Ha _. by rewrite owner_arrays.
  - apply spi_env.
Qed.

Lemma wp_delay_traced d Q g :
  0 < d ->
  (forall g' e, d <= e <= d + J -> u32 (tick g') = u32 (tick g + e) -> traced e [] g g' -> Q tt g') ->
  wp (osDelay d) Q g.
Proof.
  intros Hd H. unfold osDelay. apply wp_bind, wp_preempt. set (g1 := env _ _).
  rewrite (proj2 (Z.eqb_neq _ _)) by lia. apply wp_modify. set (g2 := g1 <| tick := _ |>).
  destruct (within_preempt g) as (e & He & E). fold g1 in E.
  assert (u32 (tick g2) = u32 (tick g + (e + d))) as E2.
  { unfold g2. st_simpl. unfold u32 in *. rewrite Zmod_mod, <- Zplus_mod_idemp_l, E,
      Zplus_mod_idemp_l. f_equal. lia. }
  apply (H g2 (e + d)); [lia|done|]. split.
  - unfold g2, g1. st_simpl. by rewrite owner_bus, app_nil_r.
  - exists (e + d). split; [lia|done].
  - intros a Ha _. unfold g2, g1. st_simpl. by rewrite owner_arrays.
  - etrans; [apply spi_env|apply (spi_tick (ok := ok))].
Qed.

Lemma elapsed t s e : u32 t = u32 (s + e) -> 0 <= e < 4294967296 -> u32 (t - s) = e.
Proof.
  intros H He. unfold u32 in *. rewrite <- Zminus_mod_idemp_l, H, Zminus_mod_idemp_l.
  replace (s + e - s) with e by lia. by apply Z.mod_small.
Qed.

Lemma elapsed_more t s e t' e' : u32 t = u32 (s + e) -> u32 t' = u32 (t + e') ->
  u32 t' = u32 (s + (e + e')).
Proof.
  intros H H'. rewrite H'. unfold u32 in *. rewrite <- Zplus_mod_idemp_l, H, Zplus_mod_idemp_l.
  f_equal. lia.
Qed.

(** All rounds but the last had nothing to report; the last one gave the
    result, or time was up, [e] ticks after the start. *)
Definition polled (B : option Z -> list window -> Prop) (timeout e st : Z) ws : Prop :=
  exists rounds last, ws = concat rounds ++ last /\ Forall (B None) rounds /\
    (B (Some st) last \/ st = HAL_TIMEOUT /\ B None last /\ timeout <= e).

Lemma polled_more (B : option Z -> list window -> Prop) timeout e st ws ws' :
  B None ws -> polled B timeout e st ws' -> polled B timeout e st (ws ++ ws').
Proof.
  intros H (rounds & last & -> & HF & Hl). exists (ws :: rounds), last.
  split; [cbn; by rewrite <- app_assoc|]. split; [by constructor|done].
Qed.

Lemma poll_loop_ok (B : option Z -> list window -> Prop) c body timeout d n start e0 g :
  (forall g, spi c B body g) -> 0 <= c -> 0 < d -> 0 <= timeout ->
  timeout + d + c + 2 * J < 4294967296 -> 0 <= e0 <= timeout + d + J ->
  u32 (tick g) = u32 (start + e0) -> (0 < n)%nat -> timeout - e0 < Z.of_nat n ->
  wp (poll_loop n body timeout d start) (fun st g' => exists ws e,
    e0 <= e <= timeout + d + c + 2 * J /\ traced (e - e0) ws g g' /\ polled B timeout e st ws) g.
Proof.
  intros Hb Hc Hd Ht Hsum. pose proof (J_nonneg g) as HJ. revert e0 g.
  induction n as [|n IH]; intros e0 g He0 Htick Hn Hfuel; [lia|]. cbn [poll_loop].
  apply wp_bind. eapply wp_mono; [apply Hb|]. intros r g1 (ws & Htr & HB).
  apply traced_exact in Htr as (e1 & He1 & Ht1 & Htr). pose proof (elapsed_more _ _ _ _ _ Htick Ht1) as E1.
  destruct r as [st|].
  { apply wp_ret. exists ws, (e0 + e1). split; [lia|].
    replace (e0 + e1 - e0) with e1 by lia. split; [done|]. exists [], ws. auto. }
  apply wp_bind, wp_tick_traced. intros g2 Htr2.
  apply traced_exact in Htr2 as (e2 & He2 & Ht2 & Htr2).
  pose proof (elapsed_more _ _ _ _ _ E1 Ht2) as E2. rewrite (elapsed _ _ _ E2) by lia.
  pose proof (traced_trans _ _ _ _ _ _ _ Htr Htr2) as Htr3. rewrite app_nil_r in Htr3.
  destruct (Z.geb_spec (e0 + e1 + e2) timeout) as [Hover|Hmore].
  { apply wp_ret. exists ws, (e0 + e1 + e2). split; [lia|].
    replace (e0 + e1 + e2 - e0) with (e1 + e2) by lia. split; [done|].
    exists [], ws. split; [done|]. split; [constructor|]. right. split; [done|]. split; [done|lia]. }
  apply wp_bind, wp_delay_traced; [done|]. intros g3 e3 He3 Ht3 Htr4.
  pose proof (elapsed_more _ _ _ _ _ E2 Ht3) as E3.
  pose proof (traced_trans _ _ _ _ _ _ _ Htr3 Htr4) as Htr5. rewrite app_nil_r in Htr5.
  eapply wp_mono; [apply (IH (e0 + e1 + e2 + e3)); [lia|done|lia|lia]|].
  intros st g' (ws' & e & He & Htr' & Hp). exists (ws ++ ws'), e. split; [lia|].
  split; [|by apply polled_more]. replace (e - e0) with (e1 + e2 + e3 + (e - (e0 + e1 + e2 + e3))) by lia.
  by eapply traced_trans.
Qed.

(** The time a poll takes at most. *)
Definition poll_time (c timeout_ms poll_ms : Z) : Z := timeout_ms + poll_ms + c + 3 * J.

Lemma poll_ok (B : option Z -> list window -> Prop) c body timeout_ms poll_ms g :
  (forall g, spi c B body g) -> 0 <= c -> 1 <= poll_ms -> 1 <= timeout_ms ->
  timeout_ms + poll_ms + c + 2 * J < 4294967296 ->
  wp (poll body timeout_ms poll_ms) (fun st g' => exists ws e,
    0 <= e <= timeout_ms + poll_ms + c + 2 * J /\
    traced (J + e) ws g g' /\ polled B timeout_ms e st ws) g.
Proof.
  intros Hb Hc Hp Ht Hsum. unfold poll. pose proof (J_nonneg g) as HJ.
  rewrite !kernel_ticks_id by lia. apply wp_bind, wp_tick_traced. intros g1 Htr1.
  eapply wp_mono.
  { apply (poll_loop_ok B c body timeout_ms poll_ms _ (tick g1) 0); try done; try lia.
    by rewrite Z.add_0_r. }
  intros st g' (ws & e & He & Htr & H). rewrite Z.sub_0_r in Htr. exists ws, e.
  split; [done|]. split; [|done]. exact (traced_trans _ _ _ _ _ _ _ Htr1 Htr).
Qed.

Lemma spi_poll (B : option Z -> list window -> Prop) c body timeout_ms poll_ms g :
  (forall g, spi c B body g) -> 0 <= c -> 1 <= poll_ms -> 1 <= timeout_ms ->
  timeout_ms + poll_ms + c + 2 * J < 4294967296 ->
  spi (poll_time c timeout_ms poll_ms) (fun st ws => exists e, polled B timeout_ms e st ws)
    (poll body timeout_ms poll_ms) g.
Proof.
  intros Hb Hc Hp Ht Hsum. eapply wp_mono; [by apply (poll_ok B c)|].
  intros st g' (ws & e & He & Htr & H). exists ws. split; [|by exists e].
  eapply traced_weaken; [|exact Htr]. unfold poll_time. lia.
Qed.
End Trace.

(** ** A chip for the witnesses

    It has the version and configuration the driver wants, 2048 bytes free,
    reports every SEND as successful, always has one
    PING frame of 10 bytes waiting, and answers everything else with zeros. *)
Record chip := mk_chip { chip_log : list bus_event }.

Definition chip_answer (tx : list Z) : list Z :=
  match tx with
  | [_; 0x20; _; _; _] => [0; 0; 0; 8; 0]
  | [_; 0x26; _; _; _] => [0; 0; 0; 0; 10]
  | [_; 2; _; _] => [0; 0; 0; 0x10]
  | [_; 0x39; _; _] => [0; 0; 0; 4]
  | [_; 5; _; _; _; _; _] => [0; 0; 0; 255; 255; 255; 0]
  | [_; 9; _; _; _; _; _; _; _] => [0; 0; 0; 2; 0; 0; 0; 0; 2]
  | [_; 0x0f; _; _; _; _; _] => [0; 0; 0; 192; 168; 77; 2]
  | [_; _; _; _; _; _; _; _; _; _] => ping7_frame
  | _ => map (fun _ => 0) tx
  end.

#[export] Instance chip_hardware : Hardware chip := {
  cs_pin b d := mk_chip (chip_log d ++ [ChipSelect b]);
  rst_pin _ d := d;
  spi_transmit tx d := (HAL_OK, mk_chip (chip_log d ++ [Transfer (mk_transfer tx HAL_OK [])]));
  spi_transmit_receive tx d :=
    (HAL_OK, chip_answer tx,
     mk_chip (chip_log d ++ [Transfer (mk_transfer tx HAL_OK (chip_answer tx))]));
  uart_transmit_it tx d := (HAL_OK, d);
  uart_receive_it d := (HAL_OK, d);
  dwt_start d := d;
  dwt_running _ := true;
  dwt_cyccnt _ := 0;
  system_core_clock _ := 170000000;
  free_heap_size _ := 4096;
  minimum_ever_free_heap_size _ := 2048
}.

#[export] Instance chip_world : World chip := {
  env _ g :=
    let t := u32 (tick g + 1) in
    g <| tick := if t =? UINT32_MAX then 0 else t |>;
  rounds := 600
}.

Lemma chip_answer_length tx : length (chip_answer tx) = length tx.
Proof.
  unfold chip_answer.
  repeat match goal with |- context [match ?x with _ => _ end] => destruct x end;
    by rewrite ?length_map.
Qed.

#[export] Instance chip_bus : SpiBus chip := {
  bus := chip_log;
  bus_cs _ _ := eq_refl;
  bus_transmit _ _ := eq_refl;
  bus_transmit_receive tx _ := conj eq_refl (chip_answer_length tx)
}.

#[export] Instance chip_owner : SpiOwner chip := {
  owner_bus _ _ := eq_refl;
  owner_arrays _ _ _ _ := eq_refl
}.

#[export] Instance chip_punctual : Punctual chip 2.
Proof.
  intros n g. unfold env, chip_world. cbv zeta. unfold advanced. st_simpl.
  destruct (u32 (tick g + 1) =? UINT32_MAX) eqn:E.
  - exists 2. split; [lia|width].
  - exists 1. split; [lia|done].
Qed.

Definition chip_gateway : gateway chip := {|
  var := gvar_initial;
  packet_of _ := zero_packet;
  parser_of _ := parser_init;
  array_of _ := replicate 266 0;
  queue_of _ := Some [];
  notif_of _ := mk_notification 0 false;
  rx_ring := empty_rs422_ring 0;
  g_uart4_rx_byte := 0;
  tick := 0;
  hw := mk_chip [];
  epoch := 0
|}.
