(* ===== verification/GwSend.v ===== *)
(** * Sending a frame through the W5500

    Commands, waiting for room and for the outcome, and the order of the
    accesses that send a frame, as windows on the SPI bus.  What sending
    needs of a socket's routines is an interface ([socket_laws]) that both
    sockets implement. *)
From S2P Require Import Prelude Crc16 Protocol StreamParser RxRing GwDiag GwW5500 GwTcp GwUdp.
From S2P Require Export GwSpiTrace.
Local Open Scope Z_scope.

(** ** The registers of a socket block *)
Record socket_regs := {
  rg_read : Z;
  rg_write : Z;
  rg_tx_buffer : Z;
  rg_chunk : Z;
  rg_cr : Z;
  rg_ir : Z;
  rg_tx_fsr : Z;
  rg_tx_wr : Z;
  rg_send : Z;
  rg_send_ok : Z;
  rg_timeout : Z
}.

Definition socket0_regs : socket_regs := {|
  rg_read := W5500_SOCKET0_READ_VDM;
  rg_write := W5500_SOCKET0_WRITE_VDM;
  rg_tx_buffer := W5500_SOCKET0_TX_BUFFER_WRITE_VDM;
  rg_chunk := W5500_TCP_RX_CHUNK_SIZE;
  rg_cr := W5500_SOCKET0_CR_ADDRESS;
  rg_ir := W5500_SOCKET0_IR_ADDRESS;
  rg_tx_fsr := W5500_SOCKET0_TX_FSR_ADDRESS;
  rg_tx_wr := W5500_SOCKET0_TX_WR_ADDRESS;
  rg_send := W5500_SOCKET0_SEND_COMMAND;
  rg_send_ok := W5500_SOCKET0_IR_SEND_OK;
  rg_timeout := W5500_SOCKET0_IR_TIMEOUT
|}.

Definition socket1_regs : socket_regs := {|
  rg_read := W5500_SOCKET1_READ_VDM;
  rg_write := W5500_SOCKET1_WRITE_VDM;
  rg_tx_buffer := W5500_SOCKET1_TX_BUFFER_WRITE_VDM;
  rg_chunk := W5500_UDP_SPI_CHUNK_SIZE;
  rg_cr := W5500_SOCKET1_CR_ADDRESS;
  rg_ir := W5500_SOCKET1_IR_ADDRESS;
  rg_tx_fsr := W5500_SOCKET1_TX_FSR_ADDRESS;
  rg_tx_wr := W5500_SOCKET1_TX_WR_ADDRESS;
  rg_send := W5500_SOCKET1_SEND_COMMAND;
  rg_send_ok := W5500_SOCKET1_IR_SEND_OK;
  rg_timeout := W5500_SOCKET1_IR_TIMEOUT
|}.

(** ** Specifications *)
Section Specs.
Context (rg : socket_regs).
Implicit Types ws : list window.

(** The command was written; it was accepted if the register read 0. *)
Definition command_spec (command st : Z) ws : Prop :=
  exists st0 polls, ws = write_window (rg_write rg) (rg_cr rg) [command] st0 :: polls /\
    Forall (is_read (rg_read rg) (rg_cr rg) 1) polls /\
    (st = HAL_OK -> st0 = HAL_OK /\ exists pre rx,
       polls = pre ++ [read_window (rg_read rg) (rg_cr rg) 1 HAL_OK rx] /\ arr_get rx 3 = 0).

(** Two consecutive reads of the free size showed enough room. *)
Definition free_spec (required st : Z) ws : Prop :=
  Forall (is_read (rg_read rg) (rg_tx_fsr rg) 2) ws /\
  (st = HAL_OK -> exists pre a b x, ws = pre ++ [a; b] /\ required <= x /\
     reads (rg_read rg) (rg_tx_fsr rg) x a /\ reads (rg_read rg) (rg_tx_fsr rg) x b).

(** The interrupt register was polled; on success it showed SEND_OK without
    TIMEOUT and the bits shown were cleared. *)
Definition result_spec (st : Z) ws : Prop :=
  Forall (fun w => is_read (rg_read rg) (rg_ir rg) 1 w \/
                   exists v st, w = write_window (rg_write rg) (rg_ir rg) [v] st) ws /\
  (st = HAL_OK -> exists pre rx,
     let bits := Z.land (arr_get rx 3) (Z.lor (rg_send_ok rg) (rg_timeout rg)) in
     ws = pre ++ [read_window (rg_read rg) (rg_ir rg) 1 HAL_OK rx;
                  write_window (rg_write rg) (rg_ir rg) [bits] HAL_OK] /\
     bits <> 0 /\ Z.land bits (rg_timeout rg) = 0).

(** A window that writes SEND to the command register. *)
Definition issues_send (w : window) : bool :=
  match w with
  | x :: _ => bool_decide (tx_bytes x = spi_header (rg_cr rg) (rg_write rg) ++ [rg_send rg])
  | [] => false
  end.

(** Either SEND was not issued and the frame is refused; or there was room,
    the whole frame went into the buffer at the write pointer, the pointer
    was moved past it, stale results were cleared, and then SEND was issued,
    once, and its outcome awaited. *)
Definition send_spec (bs : list Z) (st : Z) ws : Prop :=
  (st <> HAL_OK /\ Forall (fun w => issues_send w = false) ws) \/
  exists free rx data command sent result,
    let p := u16_of rx in
    let len := Z.of_nat (length bs) in
    ws = free ++
      [read_window (rg_read rg) (rg_tx_wr rg) 2 HAL_OK rx; data;
       write_window (rg_write rg) (rg_tx_wr rg) (u16_bytes (u16 (p + len))) HAL_OK;
       write_window (rg_write rg) (rg_ir rg) [Z.lor (rg_send_ok rg) (rg_timeout rg)] HAL_OK] ++
      command ++ result /\
    free_spec len HAL_OK free /\
    data_window (rg_tx_buffer rg) p (rg_chunk rg) bs HAL_OK data /\
    command_spec (rg_send rg) sent command /\
    if sent =? HAL_OK then result_spec st result else st = sent /\ result = [].
End Specs.

(** ** What sending needs of the routines *)
Section Send.
Context {D : Type} `{!World D} `{!SpiBus D} `{!SpiOwner D} (J : Z) `{!Punctual D J}.
Context (R : gateway D -> gateway D -> Prop) (ok : gvar -> bool) `{HR : !SpiClosed R ok}.
Hypothesis short_calls : 11 * J < 4000000000.
Implicit Types g : gateway D.
Implicit Types ws : list window.

Definition command_time : Z := J + poll_time J J 100 1.
Definition free_time : Z := poll_time J (8 * J) 1000 10.
Definition result_time : Z := poll_time J (2 * J) 1000 10.
Definition send_time : Z := free_time + (J + (J * 6 + (J + (J + (command_time + result_time))))).

Record socket_laws (s : socket_ops (D := D)) (rg : socket_regs) : Prop := {
  law_tx_wr : so_tx_wr s = rg_tx_wr rg;
  law_ir : so_ir s = rg_ir rg;
  law_send_bits : so_send_bits s = Z.lor (rg_send_ok rg) (rg_timeout rg);
  law_send : so_send s = rg_send rg;
  law_free n g : spi R free_time (free_spec rg n) (so_wait_for_tx_free s n) g;
  law_read_u16 address v g :
    spi R J (read_u16_spec (rg_read rg) address (Some v)) (so_read_u16 s address (Some v)) g;
  law_write_tx address a length g :
    a <> g_rs422_tx_frame -> dummy_array a = false ->
    0 < length <= 266 -> length <= Z.of_nat (List.length (array_of g a)) ->
    spi R (J * 6) (fun st ws => exists w, ws = [w] /\
        data_window (rg_tx_buffer rg) address (rg_chunk rg)
          (take (Z.to_nat length) (array_of g a)) st w)
      (so_write_tx_buffer s address (Some a) length) g;
  law_write address data length g : 0 < length <= 2 ->
    spi R J (fun st ws => ws =
        [write_window (rg_write rg) address (take (Z.to_nat length) data) st])
      (so_write_registers s address (Some data) length) g;
  law_command g : spi R command_time (command_spec rg (rg_send rg)) (so_execute_command s (rg_send rg)) g;
  law_result g : spi R result_time (result_spec rg) (so_wait_for_send_result s) g;
  law_distinct : rg_read rg <> rg_write rg /\ rg_tx_buffer rg <> rg_write rg /\
    u8 (Z.land (rg_ir rg) 0xff) <> u8 (Z.land (rg_cr rg) 0xff)
}.

(** ** Sending *)

Lemma read_no_send rg address n st rx :
  rg_read rg <> rg_write rg -> issues_send rg (read_window (rg_read rg) address n st rx) = false.
Proof. intros H. apply bool_decide_false. intros E. by injection E. Qed.

Lemma data_no_send rg address c bs st w :
  rg_tx_buffer rg <> rg_write rg -> data_window (rg_tx_buffer rg) address c bs st w ->
  issues_send rg w = false.
Proof.
  intros H (h & xs & -> & Hh & _). apply bool_decide_false. rewrite Hh. intros E. by injection E.
Qed.

Lemma write_no_send rg address data st :
  length data <> 1%nat \/ u8 (Z.land address 0xff) <> u8 (Z.land (rg_cr rg) 0xff) ->
  issues_send rg (write_window (rg_write rg) address data st) = false.
Proof.
  intros H. apply bool_decide_false. cbn [tx_bytes app]. intros E. injection E as E1 E2 E3.
  destruct H as [H|H]; [subst; done|done].
Qed.

Lemma free_no_send rg required st ws :
  rg_read rg <> rg_write rg -> free_spec rg required st ws ->
  Forall (fun w => issues_send rg w = false) ws.
Proof.
  intros H [HF _]. eapply Forall_impl; [exact HF|]. intros w (st' & rx & ->). by apply read_no_send.
Qed.

Lemma times_nonneg (g : gateway D) : 0 <= free_time /\ 0 <= result_time /\ 0 <= command_time /\ 0 <= J.
Proof.
  pose proof (J_nonneg J g). unfold free_time, result_time, command_time, poll_time. lia.
Qed.

(** A refusal before SEND. *)
Ltac refuse :=
  apply (spi_ret_in R ok); [lia|]; left; split; [done|];
  repeat first [assumption | apply Forall_app_2 | apply List.Forall_cons | apply List.Forall_nil].

Lemma send_frame_ok s rg a length g :
  socket_laws s rg -> a <> g_rs422_tx_frame -> dummy_array a = false ->
  0 < length <= 266 -> length <= Z.of_nat (List.length (array_of g a)) ->
  spi R send_time (send_spec rg (take (Z.to_nat length) (array_of g a)))
    (send_frame s (Some a) length) g.
Proof.
  intros L Ha Hd Hl Hlen. destruct (law_distinct _ _ L) as (N1 & N2 & N3).
  pose proof (times_nonneg g) as (T1 & T2 & T3 & T4).
  set (bs := take _ _). assert (Z.of_nat (List.length bs) = length) as Hbs
    by (unfold bs; rewrite length_take; lia).
  unfold send_frame. replace (_ || _) with false
    by (change PROTOCOL_MAX_FRAME_SIZE with 266; zlia).
  eapply (spi_bind R ok); [apply (law_free _ _ L)|]. intros st free g1 Tr1 Hfree.
  pose proof (free_no_send _ _ _ _ N1 Hfree) as F1.
  destruct (Z.eqb_spec st HAL_OK) as [->|]; cbn [negb]; [|refuse].
  eapply (spi_bind R ok); [apply (law_read_u16 _ _ L)|]. intros [st p] ws g2 Tr2 (rx & Hrx & -> & Hp).
  cbn [fst snd] in *. subst p. rewrite (law_tx_wr _ _ L).
  pose proof (read_no_send rg (rg_tx_wr rg) 2 st rx N1) as F2.
  destruct (Z.eqb_spec st HAL_OK) as [->|]; cbn [negb]; [|refuse].
  cbn [default from_option id]. set (p := u16_of rx) in *.
  assert (array_of g2 a = array_of g a) as Harr
    by (by rewrite (tr_arrays _ _ _ _ _ Tr2), (tr_arrays _ _ _ _ _ Tr1)).
  eapply (spi_bind R ok); [apply (law_write_tx _ _ L); [done|done|lia|by rewrite Harr]|].
  rewrite Harr. fold bs. intros st ws g3 _ (data & -> & Hdata).
  pose proof (data_no_send _ _ _ _ _ _ N2 Hdata) as F3.
  destruct (Z.eqb_spec st HAL_OK) as [->|]; cbn [negb]; [|refuse].
  eapply (spi_bind R ok); [apply (law_write _ _ L); lia|]. intros st ws g4 _ ->.
  rewrite (take_ge (u16_bytes _)) by (cbn; lia).
  assert (issues_send rg (write_window (rg_write rg) (rg_tx_wr rg) (u16_bytes (u16 (p + length))) st) = false)
    as F4 by (apply write_no_send; by left).
  destruct (Z.eqb_spec st HAL_OK) as [->|]; cbn [negb]; [|refuse].
  eapply (spi_bind R ok); [apply (law_write _ _ L); lia|]. intros st ws g5 _ ->.
  rewrite (law_ir _ _ L), (law_send_bits _ _ L). rewrite (take_ge [_]) by (cbn; lia).
  assert (issues_send rg (write_window (rg_write rg) (rg_ir rg) [Z.lor (rg_send_ok rg) (rg_timeout rg)] st) = false)
    as F5 by (apply write_no_send; by right).
  destruct (Z.eqb_spec st HAL_OK) as [->|]; cbn [negb]; [|refuse].
  rewrite (law_send _ _ L).
  eapply (spi_bind R ok); [apply (law_command _ _ L)|]. intros st command g6 _ Hcmd.
  assert (forall st' result,
    (if st =? HAL_OK then result_spec rg st' result else st' = st /\ result = []) ->
    send_spec rg bs st' (free ++ [read_window (rg_read rg) (rg_tx_wr rg) 2 HAL_OK rx] ++ [data] ++
      [write_window (rg_write rg) (rg_tx_wr rg) (u16_bytes (u16 (p + length))) HAL_OK] ++
      [write_window (rg_write rg) (rg_ir rg) [Z.lor (rg_send_ok rg) (rg_timeout rg)] HAL_OK] ++
      command ++ result)) as Hdone.
  { intros st' result H. right. exists free, rx, data, command, st, result. rewrite Hbs. done. }
  destruct (Z.eqb_spec st HAL_OK) as [->|Hst]; cbn [negb].
  - eapply spi_mono; [apply (law_result _ _ L)|lia|]. intros st' result Hr. by apply Hdone.
  - apply (spi_ret_in R ok); [lia|]. apply Hdone. done.
Qed.

(** ** The routines of the two sockets *)

Ltac poll_side :=
  cbv delta [W5500_SOCKET_COMMAND_TIMEOUT_MS W5500_SOCKET_COMMAND_POLL_MS
    W5500_TCP_TX_FREE_TIMEOUT_MS W5500_TCP_SEND_TIMEOUT_MS W5500_TCP_IO_POLL_MS
    W5500_UDP_TX_FREE_TIMEOUT_MS W5500_UDP_SEND_TIMEOUT_MS W5500_UDP_IO_POLL_MS]; lia.

(** All windows of a poll, and the last round, when it reported. *)
Lemma polled_windows (B : option Z -> list window -> Prop) (P : window -> Prop) timeout e st ws :
  polled B timeout e st ws -> (forall r ws, B r ws -> Forall P ws) -> Forall P ws.
Proof.
  intros (rounds & last & -> & HF & Hl) HB. apply Forall_app_2.
  - apply Forall_concat. eapply Forall_impl; [exact HF|]. intros ws' Hw. by eapply HB.
  - destruct Hl as [Hl|(_ & Hl & _)]; by eapply HB.
Qed.

Lemma polled_ok (B : option Z -> list window -> Prop) timeout e ws :
  polled B timeout e HAL_OK ws -> exists pre last, ws = pre ++ last /\ B (Some HAL_OK) last.
Proof.
  intros (rounds & last & -> & _ & [Hl|(Hl & _)]); [|done]. by exists (concat rounds), last.
Qed.

Definition command_round (rd cr : Z) (r : option Z) ws : Prop :=
  exists st rx, ws = [read_window rd cr 1 st rx] /\
    r = if negb (st =? HAL_OK) then Some st else if arr_get rx 3 =? 0 then Some HAL_OK else None.

Lemma command_poll_ok rd cr command g :
  spi R J (command_round rd cr) (command_poll (read_register rd) cr command) g.
Proof.
  unfold command_poll. replace J with (J + 0) by lia.
  eapply (spi_bind R ok); [by apply (read_register_ok J R ok)|].
  intros [st v] ws g1 _ (rx & Hl & -> & Hv). cbn [fst snd] in *. subst v. apply (spi_ret R ok).
  exists st, rx. rewrite app_nil_r. split; [done|]. by destruct (st =? HAL_OK).
Qed.

Lemma execute_command_ok rg max_length command g :
  1 <= max_length ->
  spi R command_time (command_spec rg command)
    (execute_command (write_registers (rg_write rg) max_length) (read_register (rg_read rg))
       (rg_cr rg) command) g.
Proof.
  intros Hm. pose proof (times_nonneg g) as (T1 & T2 & T3 & T4). unfold execute_command, command_time.
  eapply (spi_bind R ok); [by apply (write_registers_ok J R ok)|].
  intros st ws g1 _. unfold write_spec, bad_length. replace (_ || _) with false by zlia.
  intros ->. rewrite (take_ge [command]) by (cbn; lia).
  destruct (Z.eqb_spec st HAL_OK) as [->|Hst]; cbn [negb].
  - eapply spi_mono; [apply (spi_poll J R ok (command_round (rg_read rg) (rg_cr rg)) J)|apply Z.le_refl|];
      [intros; apply command_poll_ok|poll_side..|].
    intros st' polls (e & Hp). exists HAL_OK, polls. split; [done|]. split.
    + eapply polled_windows; [exact Hp|]. intros r ws (st & rx & -> & _).
      apply List.Forall_cons; [by exists st, rx|by apply List.Forall_nil].
    + intros ->. split; [done|]. destruct (polled_ok _ _ _ _ Hp) as (pre & last & -> & st & rx & -> & Hr).
      exists pre, rx. destruct (Z.eqb_spec st HAL_OK) as [->|]; [|by injection Hr].
      destruct (Z.eqb_spec (arr_get rx 3) 0) as [H0|]; done.
  - apply (spi_ret_in R ok); [unfold poll_time; lia|]. exists st, []. rewrite app_nil_r.
    split; [done|]. split; [by apply List.Forall_nil|done].
Qed.

Definition free_round (rd fsr required : Z) (r : option Z) ws : Prop :=
  exists st v, stable_spec rd fsr 8 0 (st, Some v) ws /\
    r = if negb (st =? HAL_OK) then Some st else if v >=? required then Some HAL_OK else None.

Lemma tx_free_poll_ok rd max_length fsr required g :
  2 <= max_length ->
  spi R (8 * J) (free_round rd fsr required)
    (tx_free_poll (read_stable_u16 (read_u16 (read_registers rd max_length)) 8) fsr required) g.
Proof.
  intros Hm. unfold tx_free_poll. replace (8 * J) with (J * 8 + 0) by lia.
  eapply (spi_bind R ok); [by apply (read_stable_u16_ok J R ok)|].
  intros [st v] ws g1 _ Hs. apply (spi_ret R ok). rewrite app_nil_r. unfold free_round.
  destruct Hs as (H1 & H2 & H3). cbn [fst snd] in *.
  assert (exists x, v = Some x) as [x ->].
  { destruct (st =? HAL_OK); [|by eauto]. destruct H3 as (x & ? & ? & ? & -> & _). by eauto. }
  exists st, x. done.
Qed.

Lemma wait_for_tx_free_ok rg max_length required g :
  2 <= max_length ->
  spi R free_time (free_spec rg required)
    (poll (tx_free_poll (read_stable_u16 (read_u16 (read_registers (rg_read rg) max_length)) 8)
             (rg_tx_fsr rg) required) 1000 10) g.
Proof.
  intros Hm. pose proof (times_nonneg g) as (T1 & T2 & T3 & T4).
  eapply spi_mono;
    [apply (spi_poll J R ok (free_round (rg_read rg) (rg_tx_fsr rg) required) (8 * J))|apply Z.le_refl|];
    [intros; by apply tx_free_poll_ok|lia..|].
  intros st ws (e & Hp). split.
  - eapply polled_windows; [exact Hp|]. by intros r ws' (st' & v & (HF & _) & _).
  - intros ->. destruct (polled_ok _ _ _ _ Hp) as (pre & last & -> & st & v & (_ & _ & H) & Hr).
    cbn [fst snd] in H. destruct (Z.eqb_spec st HAL_OK) as [->|]; [|by injection Hr].
    destruct H as (x & pre' & a & b & [= ->] & -> & Ha & Hb). cbn [negb] in Hr.
    destruct (Z.geb_spec x required); [|done].
    exists (pre ++ pre'), a, b, x. rewrite app_assoc. done.
Qed.

Definition result_round (rd wt ir send_ok timeout : Z) (r : option Z) ws : Prop :=
  exists st rx, let bits := Z.land (arr_get rx 3) (Z.lor send_ok timeout) in
    (r = (if negb (st =? HAL_OK) then Some st else None) /\ ws = [read_window rd ir 1 st rx]) \/
    (st = HAL_OK /\ bits <> 0 /\ exists st',
       ws = [read_window rd ir 1 st rx; write_window wt ir [bits] st'] /\
       r = Some (if negb (st' =? HAL_OK) then st'
                 else if negb (Z.land bits timeout =? 0) then HAL_TIMEOUT else HAL_OK)).

Lemma send_result_poll_ok rd wt max_length ir send_ok timeout g :
  1 <= max_length ->
  spi R (2 * J) (result_round rd wt ir send_ok timeout)
    (send_result_poll (read_register rd) (write_registers wt max_length) ir send_ok timeout) g.
Proof.
  intros Hm. pose proof (J_nonneg J g). unfold send_result_poll. replace (2 * J) with (J + J) by lia.
  eapply (spi_bind R ok); [by apply (read_register_ok J R ok)|].
  intros [st v] ws g1 _ (rx & Hl & -> & Hv). cbn [fst snd] in *. subst v.
  destruct (Z.eqb_spec st HAL_OK) as [->|Hst]; cbn [negb default from_option id].
  - set (bits := Z.land _ _). destruct (Z.eqb_spec bits 0) as [Hb|Hb]; cbn [negb].
    + apply (spi_ret_in R ok); [lia|]. rewrite app_nil_r. exists HAL_OK, rx. by left.
    + replace J with (J + 0) at 1 by lia. eapply (spi_bind R ok); [by apply (write_registers_ok J R ok)|].
      intros st' ws g2 _. unfold write_spec, bad_length. replace (_ || _) with false by zlia.
      intros ->. rewrite (take_ge [bits]) by (cbn; lia). apply (spi_ret R ok).
      exists HAL_OK, rx. right. split; [done|]. split; [done|]. exists st'.
      split; [by rewrite app_nil_r|]. destruct (_ =? _); [|done]. cbn [negb]. by destruct (_ =? _).
  - apply (spi_ret_in R ok); [lia|]. rewrite app_nil_r. exists st, rx. left.
    by rewrite (proj2 (Z.eqb_neq _ _)).
Qed.

Lemma wait_for_send_result_ok rg max_length g :
  1 <= max_length ->
  spi R result_time (result_spec rg)
    (poll (send_result_poll (read_register (rg_read rg)) (write_registers (rg_write rg) max_length)
             (rg_ir rg) (rg_send_ok rg) (rg_timeout rg)) 1000 10) g.
Proof.
  intros Hm. pose proof (times_nonneg g) as (T1 & T2 & T3 & T4).
  eapply spi_mono; [apply (spi_poll J R ok
      (result_round (rg_read rg) (rg_write rg) (rg_ir rg) (rg_send_ok rg) (rg_timeout rg)) (2 * J))
    |apply Z.le_refl|]; [intros; by apply send_result_poll_ok|lia..|].
  intros st ws (e & Hp). split.
  - eapply polled_windows; [exact Hp|]. intros r ws' (st' & rx & [[_ ->]|(_ & _ & st2 & -> & _)]).
    + apply List.Forall_cons; [left; by exists st', rx|by apply List.Forall_nil].
    + apply List.Forall_cons; [left; by exists st', rx|].
      apply List.Forall_cons; [right; by eexists _, st2|by apply List.Forall_nil].
  - intros ->. destruct (polled_ok _ _ _ _ Hp) as (pre & last & -> & st & rx & [[Hr ->]|(-> & Hb & st2 & -> & Hr)]).
    + destruct (Z.eqb_spec st HAL_OK) as [->|]; [done|by injection Hr].
    + exists pre, rx. destruct (Z.eqb_spec st2 HAL_OK) as [->|]; [|by injection Hr].
      split; [done|]. split; [done|]. destruct (Z.eqb_spec (Z.land (Z.land (arr_get rx 3)
        (Z.lor (rg_send_ok rg) (rg_timeout rg))) (rg_timeout rg)) 0) as [H0|H0]; done.
Qed.
(** *** Waiting for a socket state *)

Lemma status_poll_ok (spi_status_var status_var : gvar) vdm sr closed expected g :
  ok spi_status_var = true -> ok status_var = true ->
  spi R J (fun _ ws => Forall (is_read vdm sr 1) ws)
    (status_poll (read_register vdm) spi_status_var status_var sr closed expected) g.
Proof.
  intros H1 H2. unfold status_poll. replace J with (J + (0 + 0)) by lia.
  eapply (spi_bind R ok); [apply (read_register_ok J R ok)|].
  intros [st v] ws g1 _ (rx & _ & -> & _). cbn [fst]. set (w := read_window _ _ _ _ _).
  assert (Forall (is_read vdm sr 1) [w]) as Hw
    by (apply List.Forall_cons; [by exists st, rx|by apply List.Forall_nil]).
  eapply (spi_bind R ok _ _ (fun _ ws => ws = [])).
  { by apply (spi_wr R ok). }
  intros _ ws g2 _ ->. destruct (negb _); [by apply (spi_ret R ok)|].
  change 0 with (0 + 0). eapply (spi_bind R ok _ _ (fun _ ws => ws = [])).
  { by apply (spi_wr R ok). }
  intros _ ws g3 _ ->. by apply (spi_ret R ok).
Qed.
End Send.

Section Sockets.
Context {D : Type} `{!World D} `{!SpiBus D} `{!SpiOwner D} (J : Z) `{!Punctual D J}.
Context (R : gateway D -> gateway D -> Prop) (ok : gvar -> bool) `{HR : !SpiClosed R ok}.
Hypothesis short_calls : 11 * J < 4000000000.
Implicit Types g : gateway D.

Lemma write_tx_law vdm discard address a length g :
  dummy_array discard = true -> a <> g_rs422_tx_frame -> dummy_array a = false ->
  0 < length <= 266 -> length <= Z.of_nat (List.length (array_of g a)) ->
  spi R (J * 6) (fun st ws => exists w, ws = [w] /\
      data_window vdm address 64 (take (Z.to_nat length) (array_of g a)) st w)
    (write_tx_buffer vdm 64 discard address (Some a) length) g.
Proof.
  intros Hdd Ha Hd Hl Hlen. pose proof (J_nonneg J g).
  eapply spi_mono; [apply (write_tx_buffer_ok J R ok); try done; lia| |].
  - rewrite Z.max_r by lia. unfold chunk_count.
    assert ((length + 64 - 1) / 64 <= 5) by lia. nia.
  - intros st ws. unfold bad_length. change PROTOCOL_MAX_FRAME_SIZE with 266.
    by replace (_ || _) with false by zlia.
Qed.

Lemma write_law vdm max_length address data length g :
  2 <= max_length -> 0 < length <= 2 ->
  spi R J (fun st ws => ws = [write_window vdm address (take (Z.to_nat length) data) st])
    (write_registers vdm max_length address (Some data) length) g.
Proof.
  intros Hm Hl. eapply spi_mono; [apply (write_registers_ok J R ok)|apply Z.le_refl|].
  intros st ws. unfold write_spec, bad_length. by replace (_ || _) with false by zlia.
Qed.

Lemma socket0_laws : socket_laws J R socket0_ops socket0_regs.
Proof.
  split; cbn [so_tx_wr so_ir so_send_bits so_send so_wait_for_tx_free so_read_u16 so_write_tx_buffer
    so_write_registers so_execute_command so_wait_for_send_result socket0_ops]; try reflexivity.
  - intros n g. unfold w5500_tcp_wait_for_tx_free, w5500_socket0_read_stable_u16,
      w5500_socket0_read_u16, w5500_socket0_read_registers.
    exact (wait_for_tx_free_ok J R ok short_calls socket0_regs 2 n g ltac:(lia)).
  - intros address v g. unfold w5500_socket0_read_u16, w5500_socket0_read_registers.
    exact (read_u16_ok J R ok _ 2 address (Some v) g ltac:(lia)).
  - intros address a length g ????. unfold w5500_socket0_write_tx_buffer. by apply write_tx_law.
  - intros address data length g ?. unfold w5500_socket0_write_registers. by apply write_law.
  - intros g. unfold w5500_socket0_execute_command.
    exact (execute_command_ok J R ok short_calls socket0_regs 2 _ g ltac:(lia)).
  - intros g. unfold w5500_tcp_wait_for_send_result.
    exact (wait_for_send_result_ok J R ok short_calls socket0_regs 2 g ltac:(lia)).
  - split_and!; discriminate.
Qed.

Lemma socket1_laws : socket_laws J R socket1_ops socket1_regs.
Proof.
  split; cbn [so_tx_wr so_ir so_send_bits so_send so_wait_for_tx_free so_read_u16 so_write_tx_buffer
    so_write_registers so_execute_command so_wait_for_send_result socket1_ops]; try reflexivity.
  - intros n g. unfold w5500_udp_wait_for_tx_free, w5500_socket1_read_stable_u16,
      w5500_socket1_read_u16, w5500_socket1_read_registers.
    exact (wait_for_tx_free_ok J R ok short_calls socket1_regs 4 n g ltac:(lia)).
  - intros address v g. unfold w5500_socket1_read_u16, w5500_socket1_read_registers.
    exact (read_u16_ok J R ok _ 4 address (Some v) g ltac:(lia)).
  - intros address a length g ????. unfold w5500_socket1_write_tx_buffer. by apply write_tx_law.
  - intros address data length g ?. unfold w5500_socket1_write_registers. by apply write_law.
  - intros g. unfold w5500_socket1_execute_command.
    exact (execute_command_ok J R ok short_calls socket1_regs 4 _ g ltac:(lia)).
  - intros g. unfold w5500_udp_wait_for_send_result.
    exact (wait_for_send_result_ok J R ok short_calls socket1_regs 4 g ltac:(lia)).
  - split_and!; discriminate.
Qed.

End Sockets.

(** ** Properties *)

(** Nothing is said about the state. *)
Definition anything {D} (g g' : gateway D) : Prop := True.

#[export] Instance anything_closed D `{!World D} : SpiClosed (D := D) anything (fun _ => true).
Proof. split; [split|..]; done. Qed.

Section Properties.
Context {D : Type} `{!World D} `{!SpiBus D} `{!SpiOwner D} (J : Z) `{!Punctual D J}.
Hypothesis short_calls : 11 * J < 4000000000.

(** C36: Register access: a NULL pointer or a bad length is refused without
    touching the bus; otherwise the routines of every register block make
    exactly one chip-select window of one transfer, the address, the control
    byte and the data, and the caller's value changes only if the transfer
    succeeded, to the bytes after the header.  A stable 16-bit read returns
    HAL_OK only when two consecutive reads of that register gave the value
    returned; it makes at most its number of attempts and otherwise leaves
    the caller's value alone. *)
Theorem register_access_exact vdm max_length address data length value v attempts (g : gateway D) :
  2 <= max_length -> 0 <= attempts ->
  spi anything J (write_spec vdm max_length address data length)
    (write_registers vdm max_length address data length) g /\
  spi anything J (read_spec vdm max_length address data length)
    (read_registers vdm max_length address data length) g /\
  spi anything J (read_register_spec vdm address value) (read_register vdm address value) g /\
  spi anything (J * attempts) (stable_spec vdm address attempts v)
    (read_stable_u16 (read_u16 (read_registers vdm max_length)) attempts address (Some v)) g.
Proof.
  intros Hm Ha. split_and!.
  - apply (write_registers_ok J anything (fun _ => true)).
  - apply (read_registers_ok J anything (fun _ => true)).
  - apply (read_register_ok J anything (fun _ => true)).
  - by apply (read_stable_u16_ok J anything (fun _ => true)).
Qed.

(** C37: Waiting: every wait loop of the driver ends, whatever the chip
    answers: with the result of the first poll that has one, or with
    HAL_TIMEOUT when the last poll had none and the time-out has passed; it
    never gives up earlier, and it takes at most the time-out, one sleep, one
    poll and two kernel calls. *)
Theorem polling_ends (B : option Z -> list window -> Prop) c body timeout_ms poll_ms (g : gateway D) :
  (forall g, spi anything c B body g) -> 0 <= c -> 1 <= poll_ms -> 1 <= timeout_ms ->
  timeout_ms + poll_ms + c + 2 * J < 4294967296 ->
  wp (poll body timeout_ms poll_ms) (fun st g' => exists ws e,
    0 <= e <= timeout_ms + poll_ms + c + 2 * J /\
    traced anything (J + e) ws g g' /\ polled B timeout_ms e st ws) g.
Proof. intros Hb Hc Hp Ht Hs. by apply (poll_ok J anything (fun _ => true) B c). Qed.

(** C27: Sending, on either socket, ends within 2121 ms plus thirty kernel
    calls, whatever the chip answers, and the bus shows this order: two
    agreeing reads of enough free space; the write pointer; the whole frame,
    byte for byte, to the buffer at that pointer in one chip-select window;
    the pointer moved on by the frame's length modulo 2^16; stale SEND
    results cleared; and only then SEND, whose outcome is awaited; HAL_OK is
    returned only after SEND_OK without TIMEOUT.  If a step before SEND
    fails, SEND is not issued.  A NULL frame or a bad length is refused
    without touching the bus. *)
Theorem frame_sent_in_order (a : avar) length (g : gateway D) :
  a <> g_rs422_tx_frame -> dummy_array a = false ->
  0 <= length < 65536 -> (266 <= List.length (array_of g a))%nat ->
  let bs := take (Z.to_nat length) (array_of g a) in
  let refused st ws := st = HAL_ERROR /\ ws = [] in
  (if bad_length length PROTOCOL_MAX_FRAME_SIZE
   then spi anything 0 refused (w5500_tcp_send_frame (Some a) length) g /\
        spi anything 0 refused (w5500_udp_send_frame (Some a) length) g
   else spi anything (2121 + 30 * J) (send_spec socket0_regs bs)
          (w5500_tcp_send_frame (Some a) length) g /\
        spi anything (2121 + 30 * J) (send_spec socket1_regs bs)
          (w5500_udp_send_frame (Some a) length) g) /\
  spi anything 0 refused (w5500_tcp_send_frame None length) g /\
  spi anything 0 refused (w5500_udp_send_frame None length) g.
Proof.
  intros Ha Hd Hl Hlen bs refused. split; [|split; by apply (spi_ret anything (fun _ => true))].
  unfold w5500_tcp_send_frame, w5500_udp_send_frame. unfold bad_length.
  destruct (_ || _) eqn:E.
  - unfold send_frame. rewrite E. split; by apply (spi_ret anything (fun _ => true)).
  - change PROTOCOL_MAX_FRAME_SIZE with 266 in E.
    assert (send_time J <= 2121 + 30 * J)
      by (unfold send_time, free_time, command_time, result_time, poll_time; lia).
    split; (eapply spi_mono; [apply (send_frame_ok J anything (fun _ => true)); try done; try zlia| |]);
      try done; [by apply (socket0_laws _ _ (fun _ => true))|by apply (socket1_laws _ _ (fun _ => true))].
Qed.
End Properties.

Lemma register_access_exact_witness :
  spi anything 2 (write_spec 0x0c 2 1 (Some [0x20]) 1)
    (w5500_socket0_write_registers 1 (Some [0x20]) 1) chip_gateway /\
  exists g', w5500_socket0_read_stable_u16 0x20 (Some 0) chip_gateway = Some ((HAL_OK, Some 2048), g').
Proof.
  split.
  - apply (register_access_exact 2 0x0c 2 1 (Some [0x20]) 1 None 0 8 chip_gateway); lia.
  - eexists. vm_compute. reflexivity.
Defined.

Lemma polling_ends_witness :
  wp (poll (command_poll w5500_socket0_read_register 1 0x20) 100 1) (fun st g' => exists ws e,
    0 <= e <= 107 /\ traced anything (2 + e) ws chip_gateway g' /\
    polled (command_round 0x08 1) 100 e st ws) chip_gateway.
Proof.
  apply (polling_ends 2 (command_round 0x08 1) 2); try lia.
  intros g. apply (command_poll_ok 2 anything (fun _ => true)).
Defined.

Lemma frame_sent_in_order_witness :
  spi anything 2181 (send_spec socket0_regs (replicate 10 0))
    (w5500_tcp_send_frame (Some g_w5500_tcp_tx_frame) 10) chip_gateway /\
  exists g', w5500_tcp_send_frame (Some g_w5500_tcp_tx_frame) 10 chip_gateway = Some (HAL_OK, g').
Proof.
  split.
  - destruct (frame_sent_in_order 2 eq_refl g_w5500_tcp_tx_frame 10 chip_gateway) as [[H _] _];
      [discriminate|reflexivity|lia|apply Nat.leb_le; reflexivity|]. exact H.
  - eexists. vm_compute. reflexivity.
Defined.
