(* ===== verification/GwNetwork.v ===== *)
(** * Bringing the W5500 up

    Reset, version, network configuration and its read-back, and the sockets
    that are opened only on a chip that answered all of it as expected. *)
From S2P Require Import Prelude Crc16 Protocol StreamParser RxRing GwDiag GwW5500 GwTcp GwUdp.
From S2P Require Export GwEthernet GwSend.
Local Open Scope Z_scope.

(** Only the Ethernet task says that the network is configured. *)
Definition net_vars : list gvar := map EthVar [g_w5500_net_config_ok; g_w5500_net_readback_ok].

Class NetRely D `{!World D} := net_keeps : env_keeps (D := D) net_vars.

(** The reset pin and the cycle counter are not on the SPI bus. *)
Class OffBus D `{!World D} `{!SpiBus D} := {
  off_rst b d : bus (rst_pin b d) = bus d;
  off_dwt d : bus (dwt_start d) = bus d
}.

(** ** Specifications *)

(** The configuration: register, value, and the array it is read back to. *)
Definition net_regs : list (Z * list Z * avar) := [
  (W5500_GAR_ADDRESS, g_w5500_net_gateway, g_w5500_gar_readback);
  (W5500_SUBR_ADDRESS, g_w5500_net_subnet, g_w5500_subr_readback);
  (W5500_SHAR_ADDRESS, g_w5500_net_mac, g_w5500_shar_readback);
  (W5500_SIPR_ADDRESS, g_w5500_net_ip, g_w5500_sipr_readback)
].

(** The register at [address] was written with [value]. *)
Definition configures (r : Z * list Z * avar) (w : window) : Prop :=
  w = write_window W5500_COMMON_WRITE_VDM r.1.1 r.1.2 HAL_OK.
(** It was read and answered [value]. *)
Definition answers (r : Z * list Z * avar) (w : window) : Prop :=
  exists rx, w = read_window W5500_COMMON_READ_VDM r.1.1 (length r.1.2) HAL_OK rx /\ drop 3 rx = r.1.2.

(** The block that the control byte of a window's header selects: block 0 is
    that of the common registers, all others belong to a socket. *)
Definition block_select (w : window) : Z :=
  match w with
  | t :: _ => Z.shiftr (nth 2 (tx_bytes t) 0) 3
  | [] => 0
  end.
Definition common_access (w : window) : Prop := block_select w = 0.
Definition socket_access (w : window) : Prop := block_select w <> 0.

(** The chip has the version expected, was configured, and confirmed it. *)
Definition verified (boot : list window) : Prop :=
  exists rx writes reads, boot =
    [read_window W5500_COMMON_READ_VDM W5500_VERSIONR_ADDRESS 1 HAL_OK rx] ++ writes ++ reads /\
  arr_get rx 3 = 4 /\ Forall2 configures net_regs writes /\ Forall2 answers net_regs reads.

Section Network.
Context {D : Type} `{!World D} `{!SpiBus D} `{!SpiOwner D} (J : Z) `{!Punctual D J} `{!NetRely D} `{!OffBus D}.
Hypothesis short_calls : 11 * J < 4000000000.
Implicit Types g : gateway D.
Implicit Types ws : list window.

Definition same_net : gateway D -> gateway D -> Prop := same_vars net_vars.
Definition not_net (v : gvar) : bool := negb (mem_var v net_vars).

#[export] Instance same_net_closed : SpiClosed same_net not_net.
Proof.
  split; try done.
  - apply _.
  - intros g. apply env_keeps_same, net_keeps.
  - intros v z g H. apply same_vars_put; [by apply negb_true_iff|done].
Qed.

(** ** Opening the sockets *)

Lemma block_read vdm address n st rx : block_select (read_window vdm address n st rx) = Z.shiftr vdm 3.
Proof. done. Qed.
Lemma block_write vdm address data st : block_select (write_window vdm address data st) = Z.shiftr vdm 3.
Proof. done. Qed.
Lemma socket_reads vdm address n ws :
  Z.shiftr vdm 3 <> 0 -> Forall (is_read vdm address n) ws -> Forall socket_access ws.
Proof. intros Hv F. eapply Forall_impl; [exact F|]. by intros w (st & rx & ->). Qed.

(** [m] ends, and on the bus there are only whole windows, all on sockets. *)
Definition driven {A} (m : M D A) : Prop :=
  forall g, wp m (fun _ g' => exists T ws, traced same_net T ws g g' /\ Forall socket_access ws) g.

Lemma driven_bind {A B} (m : M D A) (f : A -> M D B) : driven m -> (forall a, driven (f a)) -> driven (m ≫= f).
Proof.
  intros Hm Hf g. apply wp_bind. eapply wp_mono; [apply Hm|]. intros a g1 (T1 & ws1 & H1 & F1).
  eapply wp_mono; [apply Hf|]. intros b g2 (T2 & ws2 & H2 & F2). exists (T1 + T2), (ws1 ++ ws2).
  split; [by apply (traced_trans same_net not_net T1 ws1 g g1)|by apply Forall_app].
Qed.

Lemma driven_spi {A} T P (m : M D A) :
  (forall g, spi same_net T P m g) -> (forall a ws, P a ws -> Forall socket_access ws) -> driven m.
Proof.
  intros H HP g. eapply wp_mono; [apply H|]. intros a g' (ws & Tr & Hws). exists T, ws. split; [done|by eapply HP].
Qed.
Lemma driven_silent {A} T (m : M D A) : (forall g, spi same_net T (fun _ ws => ws = []) m g) -> driven m.
Proof. intros H. eapply driven_spi; [exact H|]. intros _ ws ->. by apply List.Forall_nil. Qed.

Lemma driven_ret {A} (a : A) : driven (mret a).
Proof. apply (driven_silent 0). intros g. by apply (spi_ret same_net not_net). Qed.
Lemma driven_gets {A} (f : gateway D -> A) : driven (gets f).
Proof. apply (driven_silent 0). intros g. by apply (spi_gets same_net not_net). Qed.
Lemma driven_wr v z : not_net v = true -> driven (wr v z).
Proof. intros H. apply (driven_silent 0). intros g. by apply (spi_wr same_net not_net). Qed.
Lemma driven_tick : driven osKernelGetTickCount.
Proof. apply (driven_silent J). intros g. by apply (spi_tick_count J same_net not_net). Qed.
Lemma driven_if {A} (b : bool) (m1 m2 : M D A) : driven m1 -> driven m2 -> driven (if b then m1 else m2).
Proof. by destruct b. Qed.
Lemma driven_when b (m : M D unit) : driven m -> driven (when b m).
Proof. destruct b; [done|]. intros _. apply driven_ret. Qed.
Lemma driven_write vdm max_length address data length :
  Z.shiftr vdm 3 <> 0 -> driven (write_registers vdm max_length address data length).
Proof.
  intros Hv. eapply driven_spi; [intros g; apply (write_registers_ok J same_net not_net)|].
  intros st ws H. unfold write_spec in H. destruct data as [d|]; [destruct (bad_length _ _)|].
  2: subst ws; apply List.Forall_cons; [by unfold socket_access; rewrite block_write|by apply List.Forall_nil].
  all: destruct H as [_ ->]; by apply List.Forall_nil.
Qed.
Lemma driven_command rg max_length command :
  Z.shiftr (rg_write rg) 3 <> 0 -> Z.shiftr (rg_read rg) 3 <> 0 -> 1 <= max_length ->
  driven (execute_command (write_registers (rg_write rg) max_length) (read_register (rg_read rg)) (rg_cr rg) command).
Proof.
  intros Hw Hr Hm. eapply driven_spi; [intros g; by apply (execute_command_ok J same_net not_net short_calls)|].
  intros st ws (st0 & polls & -> & Hp & _). apply List.Forall_cons; [by unfold socket_access; rewrite block_write|].
  by eapply socket_reads.
Qed.

Lemma driven_wait spi_status_var status_var vdm sr closed expected :
  Z.shiftr vdm 3 <> 0 -> not_net spi_status_var = true -> not_net status_var = true ->
  driven (poll (status_poll (read_register vdm) spi_status_var status_var sr closed expected)
            W5500_SOCKET_STATE_TIMEOUT_MS W5500_SOCKET_STATE_POLL_MS).
Proof.
  intros Hv H1 H2 g. pose proof (J_nonneg J g) as HJ. cbv delta [W5500_SOCKET_STATE_TIMEOUT_MS W5500_SOCKET_STATE_POLL_MS].
  eapply wp_mono; [apply (spi_poll J same_net not_net (fun _ ws => Forall (is_read vdm sr 1) ws) J)|]; try lia.
  - intros g0. by apply (status_poll_ok J same_net not_net).
  - intros a g' (ws & Tr & e & Hp). exists (poll_time J J 1000 10), ws. split; [done|].
    eapply polled_windows; [exact Hp|]. intros r ws'. by apply socket_reads.
Qed.

Ltac driven_step :=
  lazymatch goal with
  | |- driven (mbind _ _) => apply driven_bind; [|intros ?]
  | |- driven (mret _) => apply driven_ret
  | |- driven (rd _) => apply driven_gets
  | |- driven (wr _ _) => apply driven_wr; reflexivity
  | |- driven (when _ _) => apply driven_when
  | |- driven (and_then _ _) => apply driven_if
  | |- driven (and_then_publish _ _) => apply driven_if
  | |- driven (if _ then _ else _) => apply driven_if
  | |- driven (let _ := _ in _) => cbv zeta
  | |- driven osKernelGetTickCount => apply driven_tick
  | |- driven (w5500_socket0_write_registers _ _ _) => by apply driven_write
  | |- driven (w5500_socket1_write_registers _ _ _) => by apply driven_write
  | |- driven (w5500_socket0_execute_command _) => by apply (driven_command socket0_regs)
  | |- driven (w5500_socket1_execute_command _) => by apply (driven_command socket1_regs)
  | |- driven (w5500_wait_for_socket0_status _ _) => by apply driven_wait
  | |- driven (w5500_wait_for_socket1_status _ _) => by apply driven_wait
  end.

Lemma driven_start_tcp : driven w5500_start_tcp_server.
Proof.
  unfold w5500_start_tcp_server, w5500_listen_tcp_server, ethernet_diag_record_tcp_service_ready,
    ethernet_diag_record, ethernet_diag_finish_if_complete.
  repeat driven_step.
Qed.
Lemma driven_start_udp : driven w5500_start_udp_socket.
Proof. unfold w5500_start_udp_socket. repeat driven_step. Qed.

(** Without a verified network the sockets are left alone. *)
Lemma open_sockets_ok g :
  wp eth_open_sockets (fun _ g' => exists T ws, traced same_net T ws g g' /\ Forall socket_access ws /\
    (var g g_w5500_net_config_ok = 0 \/ var g g_w5500_net_readback_ok = 0 -> ws = [])) g.
Proof.
  destruct (negb (var g g_w5500_net_config_ok =? 0) && negb (var g g_w5500_net_readback_ok =? 0)) eqn:E.
  - assert (driven eth_open_sockets) as H.
    { unfold eth_open_sockets, eth_network_ok.
      repeat lazymatch goal with
        | |- driven w5500_start_tcp_server => apply driven_start_tcp
        | |- driven w5500_start_udp_socket => apply driven_start_udp
        | |- _ => driven_step
        end. }
    eapply wp_mono; [apply H|]. intros a g' (T & ws & Tr & F). exists T, ws. split; [done|]. split; [done|]. lia.
  - unfold eth_open_sockets, eth_network_ok. wp_auto. rewrite E. wp_auto. rewrite E. wp_auto.
    exists 0, []. split; [|split; [by apply List.Forall_nil|done]].
    split; [by rewrite app_nil_r|by apply within_same|done|done].
Qed.

(** ** The configuration *)

(** The arrays have the size of what is read into them. *)
Definition arrays_sized g : Prop := Forall (fun r => length (array_of g r.2) = length r.1.2) net_regs.

Lemma net_reg_ok r : r ∈ net_regs ->
  r.2 <> g_rs422_tx_frame /\ dummy_array r.2 = false /\
  1 <= Z.of_nat (length r.1.2) <= W5500_NET_MAX_REGISTER_LENGTH.
Proof. intros H. repeat (apply elem_of_cons in H as [->|H]; [done|]). by apply elem_of_nil in H. Qed.

Lemma same_sized g g' :
  (forall b, b <> g_rs422_tx_frame -> dummy_array b = false -> length (array_of g' b) = length (array_of g b)) ->
  arrays_sized g -> arrays_sized g'.
Proof.
  intros H. unfold arrays_sized. rewrite !Forall_forall. intros Hs r Hr.
  destruct (net_reg_ok r Hr) as (H1 & H2 & _). by rewrite H, Hs.
Qed.

(** Windows on the bus, none on a socket; the network variables and the size
    of the arrays kept. *)
Record wired ws g g' : Prop := {
  wi_bus : bus (hw g') = bus (hw g) ++ flat_map window_events ws;
  wi_common : Forall common_access ws;
  wi_vars : same_net g g';
  wi_sized : arrays_sized g -> arrays_sized g'
}.

Lemma wired_trans ws1 ws2 g1 g2 g3 : wired ws1 g1 g2 -> wired ws2 g2 g3 -> wired (ws1 ++ ws2) g1 g3.
Proof.
  intros [B1 F1 V1 S1] [B2 F2 V2 S2].
  split; [by rewrite B2, B1, flat_map_app, app_assoc|by apply Forall_app|by etrans|auto].
Qed.

Lemma wired_refl g : wired [] g g.
Proof. split; [by rewrite app_nil_r|by apply List.Forall_nil|done|done]. Qed.

Lemma traced_wired T ws g g' : Forall common_access ws -> traced same_net T ws g g' -> wired ws g g'.
Proof.
  intros F Tr. split; [apply Tr|exact F|apply Tr|]. apply same_sized. intros b Hb Hd.
  by rewrite (tr_arrays _ _ _ _ _ Tr).
Qed.

Lemma write_common_ok address value n g :
  n = Z.of_nat (length value) -> 1 <= n <= W5500_NET_MAX_REGISTER_LENGTH ->
  wp (w5500_write_common_registers address (Some value) n)
    (fun st g' => wired [write_window W5500_COMMON_WRITE_VDM address value st] g g') g.
Proof.
  intros -> Hn. eapply wp_mono; [apply (write_registers_ok J same_net not_net)|]. cbn beta.
  intros st g' (ws & Tr & H). unfold write_spec, bad_length in H.
  replace (_ || _) with false in H by zlia. rewrite Nat2Z.id, take_ge in H by done. subst ws.
  eapply traced_wired; [by repeat constructor|done].
Qed.

Definition configured (rs : list (Z * list Z * avar)) ws (st : Z) : Prop :=
  st = HAL_OK -> Forall2 configures rs ws.

Lemma configure_step r rs ws st g0 g :
  configured rs ws st -> wired ws g0 g -> 
  1 <= Z.of_nat (length r.1.2) <= W5500_NET_MAX_REGISTER_LENGTH ->
  wp (and_then st (w5500_write_common_registers r.1.1 (Some r.1.2) (Z.of_nat (length r.1.2))))
    (fun st' g' => exists ws', wired ws' g0 g' /\ configured (rs ++ [r]) ws' st') g.
Proof.
  intros Hc Hw Hn. unfold and_then. destruct (Z.eqb_spec st HAL_OK) as [->|Hst].
  - eapply wp_mono; [by apply write_common_ok|]. cbn beta. intros st' g' W.
    exists (ws ++ [write_window W5500_COMMON_WRITE_VDM r.1.1 r.1.2 st']).
    split; [by eapply wired_trans|]. intros ->. apply Forall2_app; [by apply Hc|by repeat constructor].
  - apply wp_ret. exists ws. split; [done|]. by intros ->.
Qed.

Lemma write_config_ok g :
  wp w5500_write_network_config (fun st g' => exists ws, wired ws g g' /\ configured net_regs ws st) g.
Proof.
  pose proof (wired_refl g) as W0.
  unfold w5500_write_network_config. apply wp_bind.
  eapply wp_mono; [apply (configure_step (W5500_GAR_ADDRESS, g_w5500_net_gateway, g_w5500_gar_readback) [] [] HAL_OK g g); [intros _; constructor|done|done]|].
  cbn beta. intros st1 g1 (ws1 & W1 & C1). apply wp_bind.
  eapply wp_mono; [eapply (configure_step (W5500_SUBR_ADDRESS, g_w5500_net_subnet, g_w5500_subr_readback)); [exact C1|exact W1|done]|].
  cbn beta. intros st2 g2 (ws2 & W2 & C2). apply wp_bind.
  eapply wp_mono; [eapply (configure_step (W5500_SHAR_ADDRESS, g_w5500_net_mac, g_w5500_shar_readback)); [exact C2|exact W2|done]|].
  cbn beta. intros st3 g3 (ws3 & W3 & C3).
  eapply wp_mono; [eapply (configure_step (W5500_SIPR_ADDRESS, g_w5500_net_ip, g_w5500_sipr_readback)); [exact C3|exact W3|done]|done].
Qed.

(** ** The read-back *)

Lemma read_common_ok address a n g :
  1 <= n <= W5500_NET_MAX_REGISTER_LENGTH -> a <> g_rs422_tx_frame -> dummy_array a = false ->
  Z.of_nat (length (array_of g a)) = n ->
  wp (read_common_into address a n) (fun st g' => exists rx,
    wired [read_window W5500_COMMON_READ_VDM address (Z.to_nat n) st rx] g g' /\
    (forall b, b <> g_rs422_tx_frame -> dummy_array b = false -> b <> a -> array_of g' b = array_of g b) /\
    (st = HAL_OK -> array_of g' a = drop 3 rx)) g.
Proof.
  intros Hn Ha Hd Hl. unfold read_common_into. apply wp_bind, wp_gets, wp_bind.
  eapply wp_mono; [apply (read_registers_ok J same_net not_net)|]. cbn beta.
  intros [st data] g1 (ws & Tr & H). unfold read_spec, bad_length in H.
  replace (_ || _) with false in H by zlia. destruct H as (rx & Hrx & -> & Hdata). cbn [fst snd] in *. subst data.
  apply wp_bind, wp_modify, wp_ret. cbn [default from_option id]. exists rx. set (g2 := g1 <| array_of := _ |>).
  assert (length (drop 3 rx) = Z.to_nat n) as Hdrop by (rewrite length_drop; lia).
  assert (forall b, b <> g_rs422_tx_frame -> dummy_array b = false -> b <> a -> array_of g2 b = array_of g b) as Ho.
  { intros b Hb Hbd Hne. unfold g2. st_simpl. rewrite upd_ne by done. by apply (tr_arrays _ _ _ _ _ Tr). }
  split; [split|split].
  - exact (tr_bus _ _ _ _ _ Tr).
  - by repeat constructor.
  - exact (tr_rest _ _ _ _ _ Tr).
  - apply same_sized. intros b Hb Hbd. destruct (decide (b = a)) as [->|]; [|by rewrite Ho].
    unfold g2. st_simpl. rewrite upd_eq. destruct (st =? HAL_OK); [|done]. apply length_memcpy; lia.
  - exact Ho.
  - intros ->. unfold g2. st_simpl. rewrite upd_eq. cbn [Z.eqb]. unfold memcpy. rewrite take_0, take_ge by lia.
    rewrite (drop_ge (array_of g a)) by lia. cbn. by rewrite app_nil_r.
Qed.

Definition read_back (r : Z * list Z * avar) g (w : window) : Prop :=
  exists rx, w = read_window W5500_COMMON_READ_VDM r.1.1 (length r.1.2) HAL_OK rx /\ array_of g r.2 = drop 3 rx.

(** The registers [rs] were read, and the arrays hold the answers. *)
Record reading rs ws (st : Z) g0 g : Prop := {
  re_wired : wired ws g0 g;
  re_values : st = HAL_OK -> Forall2 (fun r w => read_back r g w) rs ws
}.

Lemma readback_step r rs ws st g0 g :
  arrays_sized g0 -> reading rs ws st g0 g -> r ∈ net_regs -> Forall (fun r' => r'.2 <> r.2) rs ->
  Forall (fun r' => r' ∈ net_regs) rs ->
  wp (and_then st (read_common_into r.1.1 r.2 (Z.of_nat (length r.1.2))))
    (fun st' g' => exists ws', reading (rs ++ [r]) ws' st' g0 g') g.
Proof.
  intros S0 [W V] Hr Hne Hrs. unfold and_then. destruct (net_reg_ok r Hr) as (Ha & Hd & Hn).
  destruct (Z.eqb_spec st HAL_OK) as [->|Hst].
  2: { apply wp_ret. exists ws. split; [done|]. by intros ->. }
  pose proof (wi_sized _ _ _ W S0) as S. unfold arrays_sized in S. rewrite Forall_forall in S.
  eapply wp_mono; [apply read_common_ok; [done|done|done|by rewrite S]|].
  cbn beta. intros st' g' (rx & W' & Harr & Hval). rewrite Nat2Z.id in W'. eexists.
  split; [by eapply wired_trans|]. intros ->. apply Forall2_app.
  - specialize (V eq_refl). clear W. induction V as [|r' w rs' ws' Hrw _ IH]; [constructor|].
    apply Forall_cons in Hne as [Hne1 Hne], Hrs as [Hrs1 Hrs].
    constructor; [|by apply IH]. destruct Hrw as (rx' & -> & Hv).
    destruct (net_reg_ok r' Hrs1) as (Ha' & Hd' & _). exists rx'. by rewrite Harr.
  - constructor; [|constructor]. exists rx. split; [done|]. by apply Hval.
Qed.

Ltac each := cbn [app]; repeat (apply List.Forall_cons || apply List.Forall_nil).
Ltac among_net := unfold net_regs; by repeat constructor.
Ltac readback r st S :=
  eapply wp_mono; [eapply (readback_step r _ _ st); [done|exact S|among_net|each; done|each; among_net]|].

Lemma read_config_ok g :
  arrays_sized g ->
  wp w5500_read_network_config (fun st g' => exists ws, reading net_regs ws st g g') g.
Proof.
  intros Hs. assert (reading [] [] HAL_OK g g) as S0.
  { split; [apply wired_refl|constructor]. }
  unfold w5500_read_network_config. apply wp_bind.
  readback (W5500_GAR_ADDRESS, g_w5500_net_gateway, g_w5500_gar_readback) HAL_OK S0.
  cbn beta. intros st1 g1 (ws1 & S1). apply wp_bind.
  readback (W5500_SUBR_ADDRESS, g_w5500_net_subnet, g_w5500_subr_readback) st1 S1.
  cbn beta. intros st2 g2 (ws2 & S2). apply wp_bind.
  readback (W5500_SHAR_ADDRESS, g_w5500_net_mac, g_w5500_shar_readback) st2 S2.
  cbn beta. intros st3 g3 (ws3 & S3).
  readback (W5500_SIPR_ADDRESS, g_w5500_net_ip, g_w5500_sipr_readback) st3 S3. done.
Qed.

Lemma cells_equal_eq a b :
  length a = length b -> cells_equal a b (Z.of_nat (length b)) = true -> a = b.
Proof.
  intros Hl H. unfold cells_equal in H. rewrite forallb_forall, Nat2Z.id in H.
  apply list_eq_same_length with (n := length b); [done|done|]. intros i x y Hi Hx Hy.
  assert (In i (seq 0 (length b))) as Hin by (apply in_seq; lia). specialize (H i Hin).
  unfold arr_get in H. rewrite Nat2Z.id, Hx, Hy in H. cbn in H. lia.
Qed.

Lemma readback_matches_ok ws g0 g :
  arrays_sized g0 -> reading net_regs ws HAL_OK g0 g ->
  wp w5500_network_readback_matches (fun r g' => g' = g /\ (r <> 0 -> Forall2 answers net_regs ws)) g.
Proof.
  intros Hs [W Hv]. apply (wi_sized _ _ _ W) in Hs. unfold w5500_network_readback_matches. do 4 (apply wp_bind, wp_gets). apply wp_ret.
  split; [done|]. destruct (_ && _) eqn:E; [intros _|done].
  specialize (Hv eq_refl). unfold arrays_sized, net_regs in *.
  rewrite !Forall_cons in Hs. cbn [fst snd] in Hs. destruct Hs as (L1 & L2 & L3 & L4 & _).
  apply andb_true_iff in E as [E E3]. apply andb_true_iff in E as [E E4].
  apply andb_true_iff in E as [E1 E2].
  apply cells_equal_eq in E1, E2, E3, E4; try done.
  repeat (apply Forall2_cons_inv_l in Hv as (? & ? & (? & -> & ?) & Hv & ->)).
  apply Forall2_nil_inv_l in Hv as ->. cbn [fst snd] in *.
  repeat constructor; eexists; (split; [reflexivity|]); cbn [fst snd]; congruence.
Qed.

Definition set_up g : Prop := var g g_w5500_net_config_ok <> 0 /\ var g g_w5500_net_readback_ok <> 0.

Lemma hardware_reset_ok g :
  wp w5500_hardware_reset (fun _ g' => bus (hw g') = bus (hw g) ++ [ChipSelect true] /\ same_net g g' /\
    forall a, a <> g_rs422_tx_frame -> array_of g' a = array_of g a) g.
Proof.
  assert (forall d g0, wp (osDelay d) (fun _ g' => bus (hw g') = bus (hw g0) /\ same_net g0 g' /\
    forall a, a <> g_rs422_tx_frame -> array_of g' a = array_of g0 a) g0) as Hdelay.
  { intros d g0. unfold osDelay. apply wp_bind, wp_preempt. set (g1 := env _ _).
    assert (bus (hw g1) = bus (hw g0)) as B1 by (unfold g1; by rewrite owner_bus).
    assert (same_net g0 g1) as V1 by apply env_keeps_same, net_keeps.
    assert (forall a, a <> g_rs422_tx_frame -> array_of g1 a = array_of g0 a) as A1
      by (intros a Ha; unfold g1; by rewrite owner_arrays).
    destruct (d =? 0); wp_auto; done. }
  unfold w5500_hardware_reset, gpio_cs, gpio_rst. do 2 (apply wp_bind, wp_modify).
  apply wp_bind. eapply wp_mono; [apply Hdelay|]. cbn beta. intros _ g1 (B1 & V1 & A1).
  apply wp_bind, wp_modify. eapply wp_mono; [apply Hdelay|]. cbn beta. intros _ g2 (B2 & V2 & A2).
  split; [|split].
  - rewrite B2. st_simpl. rewrite off_rst, B1. st_simpl. by rewrite off_rst, bus_cs.
  - transitivity g1; [exact V1|exact V2].
  - intros a Ha. transitivity (array_of g1 a); [by apply A2|by apply A1].
Qed.

(** What start-up shows on the bus: the chip select's idle level, and windows. *)
Definition booted ws g g' : Prop :=
  bus (hw g') = bus (hw g) ++ ChipSelect true :: flat_map window_events ws.

Lemma booted_more ws ws' g1 g2 g3 : booted ws g1 g2 -> wired ws' g2 g3 -> booted (ws ++ ws') g1 g3.
Proof. intros B [B' _]. unfold booted in *. by rewrite B', B, flat_map_app, <- app_assoc. Qed.

Lemma configure_network_ok g :
  var g g_w5500_net_readback_ok = 0 -> arrays_sized g ->
  wp (write_status ← w5500_write_network_config;
      wr g_w5500_net_write_status write_status;;
      when (write_status =? HAL_OK) (
        wr g_w5500_net_config_ok 1;;
        read_status ← w5500_read_network_config;
        wr g_w5500_net_read_status read_status;;
        matches ← w5500_network_readback_matches;
        when ((read_status =? HAL_OK) && negb (matches =? 0)) (wr g_w5500_net_readback_ok 1)))
    (fun _ g' => exists writes reads,
      bus (hw g') = bus (hw g) ++ flat_map window_events (writes ++ reads) /\
      Forall common_access (writes ++ reads) /\
      (set_up g' -> Forall2 configures net_regs writes /\ Forall2 answers net_regs reads)) g.
Proof.
  intros Hr Hs. apply wp_bind. eapply wp_mono; [apply write_config_ok|]. cbn beta.
  intros st g1 (writes & W1 & C1). apply wp_bind, wp_modify. set (g2 := put _ _ g1).
  assert (var g1 g_w5500_net_readback_ok = 0) as R1 by by rewrite (wi_vars _ _ _ W1).
  destruct (Z.eqb_spec st HAL_OK) as [->|Hst]; cbn [when].
  2: { apply wp_ret. exists writes, []. rewrite app_nil_r. split; [apply W1|]. split; [apply W1|]. by intros [_ ?]. }
  apply wp_bind, wp_modify. set (g3 := put _ _ g2). apply wp_bind.
  assert (arrays_sized g3) as S3 by exact (wi_sized _ _ _ W1 Hs).
  eapply wp_mono; [by apply read_config_ok|]. cbn beta. intros st g4 (reads & Hread).
  pose proof (re_wired _ _ _ _ _ Hread) as W4.
  apply wp_bind, wp_modify. set (g5 := put _ _ g4). apply wp_bind.
  assert (bus (hw g5) = bus (hw g) ++ flat_map window_events (writes ++ reads)) as B5.
  { rewrite flat_map_app, app_assoc, <- (wi_bus _ _ _ W1). apply W4. }
  assert (Forall common_access (writes ++ reads)) as F5 by (apply Forall_app; split; [apply W1|apply W4]).
  assert (var g5 g_w5500_net_readback_ok = 0) as R5.
  { transitivity (var g4 g_w5500_net_readback_ok); [done|]. by rewrite (wi_vars _ _ _ W4). }
  destruct (Z.eqb_spec st HAL_OK) as [->|Hst].
  - eapply wp_mono; [apply (readback_matches_ok reads g3); [done|]|].
    { destruct Hread as [[B F V S] Hv]. split; [split; [exact B|exact F|by apply same_vars_put|exact S]|exact Hv]. }
    cbn beta. intros m g6 [-> Hm]. destruct (Z.eqb_spec m 0) as [->|Hm0]; cbn [negb andb when].
    + apply wp_ret. exists writes, reads. split; [done|]. split; [done|]. by intros [_ ?].
    + apply wp_modify. exists writes, reads. split; [done|]. split; [done|]. intros _. split; [by apply C1|by apply Hm].
  - unfold w5500_network_readback_matches. do 4 (apply wp_bind, wp_gets). apply wp_ret. cbn [andb when].
    apply wp_ret. exists writes, reads. split; [done|]. split; [done|]. by intros [_ ?].
Qed.

Lemma bring_up_ok g :
  var g g_w5500_net_config_ok = 0 -> var g g_w5500_net_readback_ok = 0 -> arrays_sized g ->
  wp eth_bring_up (fun _ g' => exists ws, booted ws g g' /\ Forall common_access ws /\ (set_up g' -> verified ws)) g.
Proof.
  intros Hc Hr Hs. unfold eth_bring_up. apply wp_bind, wp_modify, wp_bind, wp_gets. apply wp_bind.
  set (g1 := g <| hw := _ |>). assert (bus (hw g1) = bus (hw g)) as B1 by apply off_dwt.
  eapply (wp_mono _ (fun _ g' => bus (hw g') = bus (hw g) /\ same_net g g' /\ array_of g' = array_of g)).
  { destruct (dwt_running _); wp_auto; [|done]. split; [done|]. split; [by apply same_vars_put|done]. }
  intros _ g2 (B2 & V2 & A2). apply wp_bind. eapply wp_mono; [apply hardware_reset_ok|]. cbn beta.
  intros _ g3 (B3 & V3 & A3). apply wp_bind.
  eapply wp_mono; [apply (read_byte_frame_ok J same_net not_net)|]. cbn beta.
  intros [st version] g4 (ws4 & Tr4 & rx & Hrx & -> & Hv). cbn [fst snd] in *.
  set (vw := read_window _ _ _ _ _) in *. assert (booted [vw] g g4) as B4.
  { unfold booted. rewrite (tr_bus _ _ _ _ _ Tr4), B3, B2, <- app_assoc. done. }
  assert (Forall common_access [vw]) as F4 by by repeat constructor.
  assert (same_net g g4) as V4 by (etrans; [exact V2|]; etrans; [exact V3|exact (tr_rest _ _ _ _ _ Tr4)]).
  do 2 (apply wp_bind, wp_modify). set (g5 := put _ _ (put _ _ g4)).
  assert (var g5 g_w5500_net_readback_ok = 0) as R5.
  { transitivity (var g4 g_w5500_net_readback_ok); [done|]. by rewrite V4. }
  destruct ((st =? HAL_OK) && (version =? 4)) eqn:E; cbn [when].
  2: { apply wp_ret. exists [vw]. split; [exact B4|]. split; [exact F4|]. by intros [_ ?]. }
  assert (st = HAL_OK) as -> by (change HAL_OK with 0 in *; lia). cbn in Hv.
  assert (arrays_sized g5) as S5.
  { revert Hs. apply same_sized. intros b Hb Hd. transitivity (length (array_of g4 b)); [done|].
    by rewrite (tr_arrays _ _ _ _ _ Tr4), A3, A2. }
  eapply wp_mono; [by apply configure_network_ok|]. cbn beta. intros _ g6 (writes & reads & B6 & F6 & H6).
  exists ([vw] ++ writes ++ reads). split; [|split; [by apply Forall_app|]].
  - unfold booted in *. change (bus (hw g5)) with (bus (hw g4)) in B6.
    by rewrite B6, B4, (flat_map_app _ [vw]), <- app_assoc.
  - intros Hup. destruct (H6 Hup) as [H7 H8]. exists rx, writes, reads. split; [done|]. split; [lia|done].
Qed.

(** ** The start of the task *)

(** Neither the bus nor the network variables change. *)
Definition still g g' : Prop := bus (hw g') = bus (hw g) /\ same_net g g'.

Lemma still_wr v z (m : M D unit) Q g0 g :
  not_net v = true -> still g0 g -> (forall g', still g0 g' -> wp m Q g') -> wp (wr v z;; m) Q g.
Proof.
  intros Hv [B V] Hm. apply wp_bind, wp_modify, Hm. split; [done|].
  apply same_vars_put; [by apply negb_true_iff|done].
Qed.

Lemma diag_initialize_still (m : M D unit) Q g0 g :
  still g0 g -> (forall g', still g0 g' -> wp m Q g') -> wp (ethernet_diag_initialize;; m) Q g.
Proof.
  intros H Hm. apply wp_bind. unfold ethernet_diag_initialize.
  revert g H. repeat (intros g H; eapply still_wr; [reflexivity|exact H|clear g H]).
  exact Hm.
Qed.

Lemma reset_globals_ok g :
  wp eth_reset_globals (fun _ g' => bus (hw g') = bus (hw g) /\ arrays_sized g' /\
    var g' g_w5500_net_config_ok = 0 /\ var g' g_w5500_net_readback_ok = 0) g.
Proof.
  unfold eth_reset_globals. do 2 (apply wp_bind, wp_modify). set (g0 := put _ _ (put _ _ g)).
  assert (still g0 g0) as H by done. revert H. generalize g0 at 2 3.
  repeat (intros g1 H; first [eapply still_wr; [reflexivity|exact H|]|eapply diag_initialize_still; [exact H|]]; clear g1 H).
  intros g1 [B V]. unfold wr_parser, wr_array. wp_auto.
  split; [done|]. split; [by repeat constructor|]. by rewrite !V.
Qed.

Lemma task_init_ok g :
  wp eth_task_init (fun _ g' => exists boot ws,
    booted (boot ++ ws) g g' /\ Forall common_access boot /\ Forall socket_access ws /\ (ws <> [] -> verified boot) /\ (set_up g' -> verified boot)) g.
Proof.
  unfold eth_task_init. apply wp_bind. eapply wp_mono; [apply reset_globals_ok|]. cbn beta.
  intros _ g1 (B1 & S1 & C1 & R1). apply wp_bind. eapply wp_mono; [by apply bring_up_ok|]. cbn beta.
  intros _ g2 (boot & B2 & F2 & H2). apply wp_bind. eapply wp_mono; [apply open_sockets_ok|]. cbn beta.
  intros rp g3 (T & ws & Tr3 & F3 & Hnone).
  assert (booted (boot ++ ws) g g3) as B3.
  { unfold booted in *. by rewrite (tr_bus _ _ _ _ _ Tr3), B2, B1, flat_map_app, <- app_assoc. }
  assert (same_net g2 g3) as V3 by exact (tr_rest _ _ _ _ _ Tr3).
  assert (ws <> [] -> verified boot) as Hws.
  { intros Hne. apply H2. destruct (decide (set_up g2)) as [|Hn]; [done|]. exfalso. apply Hne, Hnone.
    unfold set_up in Hn. lia. }
  unfold eth_timing_reference. apply wp_bind. eapply (wp_mono _ (fun _ g' => bus (hw g') = bus (hw g3) /\ same_net g3 g')).
  { wp_auto. destruct (_ && _); wp_auto; split; try done; same_puts; done. }
  intros _ g4 (B4 & V4). apply wp_bind, wp_tick. set (g5 := env _ _). cbv zeta. apply wp_ret.
  assert (same_net g4 g5) as V5 by apply env_keeps_same, net_keeps.
  exists boot, ws. split; [|split; [done|split; [done|split; [done|]]]].
  - unfold booted in *. unfold g5. rewrite owner_bus. st_simpl. by rewrite B4, B3.
  - intros [U1 U2]. rewrite V5, V4, V3 in U1, U2 by done. apply H2. by split.
Qed.
End Network.

(** ** Properties *)

(** C24: Starting the Ethernet task: whatever the bus answers, start-up ends, and
    the bus shows the reset level of the chip select and then whole windows: first
    only accesses of the common registers, then only accesses of sockets.  If
    there is any access of a socket, the common accesses before it verified the
    chip: its version register read 4, the gateway, subnet, MAC and IP
    registers were each written with the configured values, in this order, and
    then each was read back, in this order, with exactly these values.  The two
    variables that report a configured network are set only in that case. *)
Theorem sockets_need_verified_chip {D} `{!World D} `{!SpiBus D} `{!SpiOwner D} (J : Z) `{!Punctual D J}
    `{!NetRely D} `{!OffBus D} (g : gateway D) :
  11 * J < 4000000000 ->
  wp eth_task_init (fun _ g' => exists boot sockets,
    bus (hw g') = bus (hw g) ++ ChipSelect true :: flat_map window_events (boot ++ sockets) /\
    Forall common_access boot /\ Forall socket_access sockets /\
    (sockets <> [] -> verified boot) /\ (set_up g' -> verified boot)) g.
Proof. intros HJ. apply (task_init_ok J HJ). Qed.

(** *** A chip that keeps its configuration *)

#[export] Instance chip_net : NetRely chip.
Proof. by intros n g v. Qed.
#[export] Instance chip_off : OffBus chip.
Proof. split; reflexivity. Qed.

Lemma sockets_need_verified_chip_witness :
  wp eth_task_init (fun _ g' => exists boot sockets,
    bus (hw g') = bus (hw chip_gateway) ++ ChipSelect true :: flat_map window_events (boot ++ sockets) /\
    Forall common_access boot /\ Forall socket_access sockets /\
    (sockets <> [] -> verified boot) /\ (set_up g' -> verified boot)) chip_gateway /\
  match eth_task_init chip_gateway with
  | Some (_, g') => var g' g_w5500_net_config_ok = 1 /\ var g' g_w5500_net_readback_ok = 1
  | None => False
  end.
Proof. split; [apply (sockets_need_verified_chip 2); lia|vm_compute; done]. Defined.
