(* ===== verification/GwDeliver.v ===== *)
(** * Delivering messages to the PC

    A response on the TCP connection and a telemetry datagram: what of the
    packet goes onto the bus, and how the outcome is accounted for. *)
From S2P Require Import Prelude Crc16 Protocol StreamParser RxRing GwDiag GwW5500 GwTcp GwUdp.
From S2P Require Export GwSend.
Local Open Scope Z_scope.

(** What the Ethernet task keeps about its transmissions. *)
Definition deliver_vars : list gvar :=
  map EthVar [g_w5500_tcp_tx_error_count; g_w5500_tcp_tx_bytes; g_w5500_tcp_pong_count;
    g_w5500_tcp_last_tx_status; g_w5500_tcp_last_tx_msg_id; g_w5500_tcp_last_tx_seq] ++
  map DiagVar [g_w5500_udp_tx_error_count; g_w5500_udp_tx_bytes; g_w5500_udp_tx_packet_count;
    g_w5500_udp_last_tx_status; g_w5500_udp_last_tx_seq].

Definition deliver_packet (p : pvar) : bool :=
  match p with g_tcp_pong_packet | g_udp_forward_packet => true | _ => false end.

Class DeliverRely D `{!World D} := {
  deliver_keeps : env_keeps (D := D) deliver_vars;
  deliver_packets n (g : gateway D) p : deliver_packet p = true -> packet_of (env n g) p = packet_of g p
}.

Section Deliver.
Context {D : Type} `{!World D} `{!SpiBus D} `{!SpiOwner D} (J : Z) `{!Punctual D J} `{!DeliverRely D}.
Hypothesis short_calls : 11 * J < 4000000000.
Implicit Types g : gateway D.
Implicit Types ws : list window.

(** Neither the account nor the messages change. *)
Record unaccounted g g' : Prop := {
  ua_vars : same_vars deliver_vars g g';
  ua_packets p : deliver_packet p = true -> packet_of g' p = packet_of g p
}.

#[export] Instance unaccounted_preorder : PreOrder unaccounted.
Proof.
  split; [by intros g; split|]. intros g1 g2 g3 [V1 P1] [V2 P2].
  split; [by etrans|]. intros p Hp. by rewrite P2, P1.
Qed.

Lemma unaccounted_env g : unaccounted g (env (epoch g) (g <| epoch := S (epoch g) |>)).
Proof. split; [by apply env_keeps_same, deliver_keeps|]. intros p Hp. by rewrite deliver_packets. Qed.

Definition no_account (v : gvar) : bool := negb (mem_var v deliver_vars).

Lemma unaccounted_put v z g : no_account v = true -> unaccounted g (put v z g).
Proof. intros H. split; [|done]. apply same_vars_put; [by apply negb_true_iff|done]. Qed.

#[export] Instance unaccounted_closed : SpiClosed unaccounted no_account.
Proof.
  split; try (intros; by split); [apply _|apply unaccounted_env|].
  intros v z g. apply unaccounted_put.
Qed.

(** The bus and the frame buffers are left alone as well. *)
Record idle g g' : Prop := {
  id_account : unaccounted g g';
  id_bus : bus (hw g') = bus (hw g);
  id_arrays a : a <> g_rs422_tx_frame -> array_of g' a = array_of g a
}.
#[export] Instance idle_preorder : PreOrder idle.
Proof.
  split; [by intros g; split|]. intros g1 g2 g3 [U1 B1 A1] [U2 B2 A2].
  split; [by etrans|congruence|]. intros a Ha. by rewrite A2, A1.
Qed.

Lemma idle_wr v z : no_account v = true -> runs idle (wr (D := D) v z).
Proof. intros H. apply runs_modify. intros g. split; [by apply unaccounted_put|done..]. Qed.
Lemma idle_tick : runs idle (osKernelGetTickCount (D := D)).
Proof.
  intros g. apply wp_tick. split; [apply unaccounted_env|by rewrite owner_bus|].
  intros a Ha. by rewrite owner_arrays.
Qed.
Ltac idle_step :=
  first
    [ apply idle_tick
    | apply runs_when; [apply _|]
    | apply runs_if
    | apply runs_bind; [apply _| |intros ?]
    | apply runs_gets; apply _
    | apply runs_ret; apply _
    | apply idle_wr; reflexivity ].

Lemma idle_note_pong packet : runs idle (note_pong_send (D := D) packet).
Proof. unfold note_pong_send, diag_interval, diagnostic_now_ms. repeat idle_step. Qed.

Lemma idle_pong_sent : runs idle (ethernet_diag_record_tcp_pong_tx_success (D := D)).
Proof.
  unfold ethernet_diag_record_tcp_pong_tx_success, ethernet_diag_record, ethernet_diag_finish_if_complete.
  repeat idle_step.
Qed.
Lemma idle_udp_sent : runs idle (ethernet_diag_record_udp_tx_success (D := D)).
Proof.
  unfold ethernet_diag_record_udp_tx_success, ethernet_diag_record, ethernet_diag_finish_if_complete.
  repeat idle_step.
Qed.

(** *** Encoding *)

(** The frame at the front of the buffer, or an error and nothing. *)
Lemma encode_into_ok p a (K : protocol_result_t * Z -> gateway D -> Prop) g :
  packet_ok (packet_of g p) -> full_buffer (array_of g a) ->
  (forall r n g', unaccounted g g' -> bus (hw g') = bus (hw g) -> packet_of g' = packet_of g ->
     encoded (packet_of g p) r n (array_of g' a) -> K (r, n) g') ->
  wp (encode_into p a) K g.
Proof.
  intros Hp Hb HK. unfold encode_into. apply wp_bind, wp_gets, wp_bind, wp_gets.
  destruct (protocol_encode_full _ _ Hp Hb) as (r & buf & n & -> & H).
  apply wp_bind, wp_modify, wp_ret. apply HK; [by split|done|done|]. st_simpl. by rewrite upd_eq.
Qed.

(** *** The account of a transmission *)

(** The number of frames, if all went well. *)
Definition if_ok (st n : Z) : Z := if st =? HAL_OK then n else 0.

Record tcp_account (p : protocol_packet_t) (st : Z) g g' : Prop := {
  ta_status : var g' g_w5500_tcp_last_tx_status = convert I32 st;
  ta_errors : went_up g_w5500_tcp_tx_error_count (1 - if_ok st 1) g g';
  ta_bytes : went_up g_w5500_tcp_tx_bytes (if_ok st (10 + pkt_length p)) g g';
  ta_pongs : went_up g_w5500_tcp_pong_count (if pkt_msg_id p =? MSG_PONG then if_ok st 1 else 0) g g';
  ta_msg_id : var g' g_w5500_tcp_last_tx_msg_id =
    if st =? HAL_OK then pkt_msg_id p else var g g_w5500_tcp_last_tx_msg_id;
  ta_seq : var g' g_w5500_tcp_last_tx_seq =
    if st =? HAL_OK then pkt_seq p else var g g_w5500_tcp_last_tx_seq
}.

Record udp_account (p : protocol_packet_t) (st : Z) g g' : Prop := {
  ud_errors : went_up g_w5500_udp_tx_error_count (1 - if_ok st 1) g g';
  ud_bytes : went_up g_w5500_udp_tx_bytes (if_ok st (10 + pkt_length p)) g g';
  ud_packets : went_up g_w5500_udp_tx_packet_count (if_ok st 1) g g';
  ud_seq : var g' g_w5500_udp_last_tx_seq =
    if st =? HAL_OK then pkt_seq p else var g g_w5500_udp_last_tx_seq
}.

Lemma ua_var v g g' : unaccounted g g' -> no_account v = false -> var g' v = var g v.
Proof. intros [V _] H. apply V. unfold no_account in H. by apply negb_false_iff in H. Qed.

Lemma tcp_account_later p st g g1 g2 :
  tcp_account p st g g1 -> unaccounted g1 g2 -> tcp_account p st g g2.
Proof.
  intros [? ? ? ? ? ?] U. split; unfold went_up in *; by rewrite (ua_var _ _ _ U).
Qed.
Lemma udp_account_later p st g g1 g2 :
  udp_account p st g g1 -> unaccounted g1 g2 -> udp_account p st g g2.
Proof. intros [? ? ? ?] U. split; unfold went_up in *; by rewrite (ua_var _ _ _ U). Qed.

Ltac account U :=
  split; unfold went_up; st_simpl; rewrite ?var_put; cbn [gvar_eqb];
    rewrite ?(ua_var _ _ _ U) by reflexivity; unfold if_ok;
    repeat match goal with H : (_ =? HAL_OK) = _ |- _ => rewrite ?H; clear H end; cbn;
    repeat match goal with |- context [if ?b then 0 else 0] => replace (if b then 0 else 0) with 0 by (by destruct b) end;
    rewrite ?Z.add_0_r; try done; try width.

Lemma tcp_refused p g g0 :
  unaccounted g g0 ->
  wp (wr g_w5500_tcp_last_tx_status HAL_ERROR;; incr g_w5500_tcp_tx_error_count)
    (fun _ g' => tcp_account p HAL_ERROR g g' /\ bus (hw g') = bus (hw g0)) g0.
Proof. intros U. wp_auto. split; [|done]. account U. Qed.

Lemma tcp_sent p n st g g0 :
  unaccounted g g0 -> packet_ok (packet_of g0 p) -> n = 10 + pkt_length (packet_of g0 p) ->
  wp (wr g_w5500_tcp_last_tx_status st;;
      if negb (st =? HAL_OK) then incr g_w5500_tcp_tx_error_count
      else
        add_to g_w5500_tcp_tx_bytes n;;
        packet ← rd_packet p;
        wr g_w5500_tcp_last_tx_msg_id (pkt_msg_id packet);;
        wr g_w5500_tcp_last_tx_seq (pkt_seq packet);;
        when (pkt_msg_id packet =? MSG_PONG) (
          incr g_w5500_tcp_pong_count;;
          ethernet_diag_record_tcp_pong_tx_success))
    (fun _ g' => tcp_account (packet_of g0 p) st g g' /\ bus (hw g') = bus (hw g0)) g0.
Proof.
  intros U [_ Hm Hs _ _ _] ->.
  destruct (st =? HAL_OK) eqn:Hst; cbn [negb].
  2: { wp_auto. split; [|done]. account U. }
  wp_auto. destruct (pkt_msg_id (packet_of g0 p) =? MSG_PONG) eqn:E; cbn [when].
  - wp_auto. match goal with |- wp _ _ ?x => set (g1 := x) end.
    assert (tcp_account (packet_of g0 p) st g g1) as A1.
    { subst g1. unfold is_u8, is_u16 in *. account U; rewrite E. width. }
    eapply wp_mono; [apply idle_pong_sent|]. intros _ g2 [U2 B2 _]. split; [by eapply tcp_account_later|].
    by rewrite B2.
  - apply wp_ret. split; [|done]. account U; rewrite E; width.
Qed.

Lemma udp_refused code p g g0 :
  unaccounted g g0 ->
  wp (note_udp_error code;; mret HAL_ERROR)
    (fun st g' => st = HAL_ERROR /\ udp_account p st g g' /\ bus (hw g') = bus (hw g0)) g0.
Proof. intros U. unfold note_udp_error. wp_auto. split; [done|]. split; [|done]. account U. Qed.

Lemma udp_sent p n st g g0 :
  unaccounted g g0 -> packet_ok (packet_of g0 p) -> n = 10 + pkt_length (packet_of g0 p) ->
  wp (wr g_w5500_udp_last_tx_status st;;
      wr g_w5500_udp_socket1_spi_status st;;
      (if st =? HAL_OK then
         incr g_w5500_udp_tx_packet_count;;
         add_to g_w5500_udp_tx_bytes n;;
         packet ← rd_packet p;
         wr g_w5500_udp_last_tx_seq (pkt_seq packet);;
         ethernet_diag_record_udp_tx_success
       else incr g_w5500_udp_tx_error_count);;
      mret st)
    (fun r g' => r = st /\ udp_account (packet_of g0 p) st g g' /\ bus (hw g') = bus (hw g0)) g0.
Proof.
  intros U [_ _ Hs _ _ _] ->.
  destruct (st =? HAL_OK) eqn:Hst.
  2: { wp_auto. split; [done|]. split; [|done]. account U. }
  wp_auto. match goal with |- wp _ _ ?x => set (g1 := x) end.
  assert (udp_account (packet_of g0 p) st g g1) as A1.
  { subst g1. unfold is_u16 in *. account U. }
  eapply wp_mono; [apply idle_udp_sent|]. intros _ g2 [U2 B2 _]. apply wp_ret.
  split; [done|]. split; [by eapply udp_account_later|]. by rewrite B2.
Qed.

(** *** The two senders *)

(** What a delivery over the socket [rg] did, [p] being the packet and [go] whether it is sent. *)
Definition delivered (rg : socket_regs) (go : bool) (p : protocol_packet_t) (st : Z)
    (account : gateway D -> gateway D -> Prop) g g' : Prop :=
  (exists ws, bus (hw g') = bus (hw g) ++ flat_map window_events ws /\
     if go then send_spec rg (frame_of p) st ws else ws = [] /\ st = HAL_ERROR) /\
  account g g'.

Lemma tcp_response_ok p g :
  deliver_packet p = true -> packet_ok (packet_of g p) -> full_buffer (array_of g g_w5500_tcp_tx_frame) ->
  wp (w5500_tcp_send_response_packet (Some p)) (fun _ g' => exists st,
    delivered socket0_regs (can_send (packet_of g p)) (packet_of g p) st
      (tcp_account (packet_of g p) st) g g') g.
Proof.
  intros Hd Hp Hb. unfold w5500_tcp_send_response_packet. apply wp_bind.
  apply encode_into_ok; [done|done|]. intros r n g1 U1 B1 P1 [[_ Hl] H].
  destruct (can_send (packet_of g p)) eqn:E.
  2: { rewrite bool_decide_true by done. cbn [orb].
       eapply wp_mono; [by apply (tcp_refused (packet_of g p) g)|]. cbn beta. intros _ g' [A B].
       exists HAL_ERROR. split; [|done]. exists []. cbn. rewrite app_nil_r. split; [congruence|done]. }
  destruct H as (-> & Hn & Hr & Hf). rewrite bool_decide_false by (intros C; by apply C).
  replace (_ || _ || _) with false by (unfold UINT16_MAX; zlia).
  apply wp_bind, wp_gets, wp_bind. eapply wp_mono; [apply idle_note_pong|]. intros _ g2 [U2 B2 A2].
  assert (array_of g2 g_w5500_tcp_tx_frame = array_of g1 g_w5500_tcp_tx_frame) as A2' by by apply A2.
  replace (u16 n) with n by width. apply wp_bind.
  eapply wp_mono; [apply (send_frame_ok J unaccounted no_account socket0_ops socket0_regs);
    [by apply (socket0_laws _ _ no_account)|done|done|lia|rewrite A2'; lia]|].
  cbn beta. intros st g3 (ws & Tr & Hsend). rewrite A2', Hf in Hsend.
  assert (unaccounted g g3) as U3 by (etrans; [exact U1|]; etrans; [exact U2|]; exact (tr_rest _ _ _ _ _ Tr)).
  assert (packet_of g3 p = packet_of g p) as P3 by by apply U3.
  eapply wp_mono; [apply (tcp_sent p n st g g3); [done|by rewrite P3|by rewrite P3]|].
  cbn beta. intros _ g4 [A B]. rewrite P3 in A. exists st. split; [|done]. exists ws.
  split; [|done]. rewrite B, (tr_bus _ _ _ _ _ Tr). congruence.
Qed.

Lemma udp_forward_ok p g :
  deliver_packet p = true -> packet_ok (packet_of g p) -> full_buffer (array_of g g_w5500_udp_tx_frame) ->
  wp (w5500_udp_forward_packet (Some p)) (fun st g' =>
    delivered socket1_regs ((pkt_msg_id (packet_of g p) =? MSG_TELEMETRY) && can_send (packet_of g p))
      (packet_of g p) st (udp_account (packet_of g p) st) g g') g.
Proof.
  intros Hd Hp Hb. unfold w5500_udp_forward_packet. apply wp_bind, wp_gets.
  assert (forall code g0, unaccounted g g0 -> bus (hw g0) = bus (hw g) ->
    wp (note_udp_error code;; mret HAL_ERROR) (fun st g' =>
      delivered socket1_regs false (packet_of g p) st (udp_account (packet_of g p) st) g g') g0) as Hrefuse.
  { intros code g0 U B. eapply wp_mono; [by apply (udp_refused code (packet_of g p) g)|]. cbn beta.
    intros st g' (-> & A & B'). split; [|done]. exists []. cbn. rewrite app_nil_r. split; [congruence|done]. }
  destruct (pkt_msg_id (packet_of g p) =? MSG_TELEMETRY); cbn [negb andb]; [|by apply Hrefuse].
  apply wp_bind. apply encode_into_ok; [done|done|]. intros r n g1 U1 B1 P1 [[_ Hl] H]. unfold encode_failed.
  destruct (can_send (packet_of g p)) eqn:E.
  2: { rewrite bool_decide_true by done. cbn [orb]. by apply Hrefuse. }
  destruct H as (-> & Hn & Hr & Hf). rewrite bool_decide_false by (intros C; by apply C).
  replace (_ || _ || _) with false by (unfold UINT16_MAX; zlia).
  replace (u16 n) with n by width. apply wp_bind.
  eapply wp_mono; [apply (send_frame_ok J unaccounted no_account socket1_ops socket1_regs);
    [by apply (socket1_laws _ _ no_account)|done|done|lia|lia]|].
  cbn beta. intros st g3 (ws & Tr & Hsend). rewrite Hf in Hsend.
  assert (unaccounted g g3) as U3 by (etrans; [exact U1|]; exact (tr_rest _ _ _ _ _ Tr)).
  assert (packet_of g3 p = packet_of g p) as P3 by by apply U3.
  eapply wp_mono; [apply (udp_sent p n st g g3); [done|by rewrite P3|by rewrite P3]|].
  cbn beta. intros r g4 (-> & A & B). rewrite P3 in A. split; [|done]. exists ws.
  split; [|done]. rewrite B, (tr_bus _ _ _ _ _ Tr). congruence.
Qed.
End Deliver.

(** ** Properties *)

(** C21: Delivering to the PC: for a packet of the Ethernet task, sending a TCP
    response and forwarding a telemetry datagram both end.  A packet that
    Protocol V1 can carry (and, over UDP, that is telemetry) goes onto the bus
    as exactly its frame, by the sequence of accesses of the socket's SEND; any
    other packet touches the bus not at all and is an error.  The byte, frame
    and PONG counters, and the last message id and sequence number, advance
    exactly when the W5500 reported the frame sent, and otherwise exactly the
    error counter does. *)
Theorem messages_delivered {D} `{!World D} `{!SpiBus D} `{!SpiOwner D} (J : Z) `{!Punctual D J}
    `{!DeliverRely D} (p : pvar) (g : gateway D) :
  11 * J < 4000000000 -> deliver_packet p = true -> packet_ok (packet_of g p) ->
  full_buffer (array_of g g_w5500_tcp_tx_frame) -> full_buffer (array_of g g_w5500_udp_tx_frame) ->
  wp (w5500_tcp_send_response_packet (Some p)) (fun _ g' => exists st,
    delivered socket0_regs (can_send (packet_of g p)) (packet_of g p) st
      (tcp_account (packet_of g p) st) g g') g /\
  wp (w5500_udp_forward_packet (Some p)) (fun st g' =>
    delivered socket1_regs ((pkt_msg_id (packet_of g p) =? MSG_TELEMETRY) && can_send (packet_of g p))
      (packet_of g p) st (udp_account (packet_of g p) st) g g') g.
Proof. intros HJ Hd Hp Ht Hu. split; [by apply (tcp_response_ok J)|by apply (udp_forward_ok J)]. Qed.

#[export] Instance chip_deliver : DeliverRely chip.
Proof. split; [by intros n g v|done]. Qed.

Definition chip_pong : gateway chip :=
  chip_gateway <| packet_of := fun _ => mk_packet PROTOCOL_VERSION MSG_PONG 7 0 (replicate 256 0) |>.

Lemma chip_pong_ok : packet_ok (packet_of chip_pong g_tcp_pong_packet).
Proof. split; [done..|by apply Forall_replicate|done]. Qed.
Lemma chip_frame_ok a : full_buffer (array_of chip_pong a).
Proof. split; [by apply Forall_replicate|done]. Qed.

Lemma messages_delivered_witness :
  wp (w5500_tcp_send_response_packet (Some g_tcp_pong_packet)) (fun _ g' => exists st,
    delivered socket0_regs true (packet_of chip_pong g_tcp_pong_packet) st
      (tcp_account (packet_of chip_pong g_tcp_pong_packet) st) chip_pong g') chip_pong /\
  match w5500_tcp_send_response_packet (Some g_tcp_pong_packet) chip_pong with
  | Some (_, g') => var g' g_w5500_tcp_pong_count = 1 /\ var g' g_w5500_tcp_tx_bytes = 10
  | None => False
  end.
Proof.
  split; [|vm_compute; done].
  destruct (messages_delivered 2 g_tcp_pong_packet chip_pong) as [H _];
    [lia|reflexivity|exact chip_pong_ok|exact (chip_frame_ok _)..|exact H].
Defined.
