(* ===== verification/GwTask.v ===== *)
(** * The Ethernet task as a whole

    Every routine of the Ethernet task ends in bounded time, whatever the
    chip answers and the other tasks do, and keeps the task's invariant
    ([task_inv]).  [timed P R T Q m]: from a state in [P], [m] ends within
    [T] ticks with a result in [Q] and a state related by [R]. *)
From S2P Require Import Prelude Crc16 Protocol StreamParser RxRing GwDiag GwRs422 GwW5500.
From S2P Require Import GwTcp GwUdp.
From S2P Require Export GwEthernet GwSend.
Local Open Scope Z_scope.

(** ** Timed runs *)

(** [R] is what the code may do and it does not lead out of [P]. *)
Class Stable {D} (P : gateway D -> Prop) (R : gateway D -> gateway D -> Prop) := {
  stable_preorder : PreOrder R;
  stable_closed g g' : P g -> R g g' -> P g'
}.

Definition timed {D A} (P : gateway D -> Prop) (R : gateway D -> gateway D -> Prop) (T : Z)
    (Q : A -> Prop) (m : M D A) : Prop :=
  forall g, P g -> wp m (fun a g' => Q a /\ within T g g' /\ R g g') g.

Section Timed.
Context {D : Type} (P : gateway D -> Prop) (R : gateway D -> gateway D -> Prop) `{HS : !Stable P R}.

#[local] Instance timed_pre : PreOrder R.
Proof. exact (@stable_preorder _ _ _ HS). Qed.

Lemma timed_mono {A} T T' (Q Q' : A -> Prop) (m : M D A) :
  timed P R T Q m -> T <= T' -> (forall a, Q a -> Q' a) -> timed P R T' Q' m.
Proof.
  intros H HT HQ g Hg. eapply wp_mono; [by apply H|]. intros a g' (Ha & Hw & HR).
  split; [auto|]. split; [by eapply within_weaken|done].
Qed.

Lemma timed_within {A} T T' (Q : A -> Prop) (m : M D A) :
  timed P R T Q m -> T <= T' -> timed P R T' Q m.
Proof. intros H HT. by eapply timed_mono. Qed.

Lemma timed_bind {A B} T1 T2 (Q1 : A -> Prop) (Q : B -> Prop) (m : M D A) (f : A -> M D B) :
  timed P R T1 Q1 m -> (forall a, Q1 a -> timed P R T2 Q (f a)) -> timed P R (T1 + T2) Q (m ≫= f).
Proof.
  intros Hm Hf g Hg. apply wp_bind. eapply wp_mono; [by apply Hm|]. intros a g1 (Ha & Hw & HR).
  eapply wp_mono; [by apply Hf; [|eapply stable_closed]|]. intros b g2 (Hb & Hw2 & HR2).
  split; [done|]. split; [by eapply within_trans|by etrans].
Qed.

Lemma timed_ret {A} (a : A) (Q : A -> Prop) : Q a -> timed P R 0 Q (mret (M := M D) a).
Proof. intros H g _. apply wp_ret. split; [done|]. split; [by apply within_same|reflexivity]. Qed.

Lemma timed_gets {A} (f : gateway D -> A) (Q : A -> Prop) :
  (forall g, P g -> Q (f g)) -> timed P R 0 Q (gets f).
Proof.
  intros H g Hg. apply wp_gets. split; [auto|]. split; [by apply within_same|reflexivity].
Qed.

Lemma timed_modify (f : gateway D -> gateway D) (Q : unit -> Prop) :
  (forall g, P g -> R g (f g)) -> (forall g, tick (f g) = tick g) -> Q tt ->
  timed P R 0 Q (modify f).
Proof.
  intros H Ht HQ g Hg. apply wp_modify. split; [done|]. split; [by apply within_same|auto].
Qed.

Lemma timed_when b T (m : M D unit) (Q : unit -> Prop) :
  Q tt -> timed P R T Q m -> timed P R (Z.max 0 T) Q (when b m).
Proof.
  intros HQ H. destruct b; cbn [when].
  - eapply timed_mono; [exact H|lia|done].
  - eapply timed_mono; [by apply timed_ret|lia|done].
Qed.

Lemma timed_if {A} (b : bool) T1 T2 (m1 m2 : M D A) Q :
  timed P R T1 Q m1 -> timed P R T2 Q m2 ->
  timed P R (Z.max T1 T2) Q (if b then m1 else m2).
Proof.
  intros H1 H2. destruct b; eapply timed_mono; [exact H1|lia|done|exact H2|lia|done].
Qed.

(** The same in fewer states, or with a weaker guarantee. *)
Lemma timed_lift {A} (P' : gateway D -> Prop) (R' : gateway D -> gateway D -> Prop) T Q (m : M D A) :
  timed P R T Q m -> (forall g, P' g -> P g) -> (forall g g', P' g -> R g g' -> R' g g') ->
  timed P' R' T Q m.
Proof.
  intros H HP HR g Hg. eapply wp_mono; [by apply H, HP|]. intros a g' (Ha & Hw & Hr). auto.
Qed.
End Timed.

(** ** The state of a session *)

(** What the others may do to an optional queue of an idle session is
    nothing; the task itself only takes from it. *)
Definition shrinks (o o' : option (list protocol_packet_t)) : Prop :=
  match o, o' with
  | Some q, Some q' => q' `suffix_of` q
  | None, None => True
  | _, _ => False
  end.

#[export] Instance shrinks_preorder : PreOrder shrinks.
Proof.
  split; [by intros [q|]; cbn|]. intros [q1|] [q2|] [q3|]; cbn; try done. intros H1 H2. by etrans.
Qed.

Section Session.
Context {D : Type}.
Implicit Types g : gateway D.

Definition depth_ok g : Prop :=
  match queue_of g tcp_response_queue with
  | Some q => Z.of_nat (length q) <= TCP_RESPONSE_QUEUE_DEPTH
  | None => True
  end.

(** A notification of the task that is due carries a flag it waits for. *)
Definition flags_ok g : Prop :=
  notify_received (notif_of g EthernetTask) = true ->
  Z.land ETHERNET_EVENT_MASK (notified_value (notif_of g EthernetTask)) <> 0.

(** While no session is active, no response waits and nothing of an earlier
    stream is left in the parser. *)
Definition no_response g : Prop :=
  match queue_of g tcp_response_queue with Some q => q = [] | None => True end.
Definition idle_clean g : Prop :=
  var g g_w5500_tcp_session_active = 0 -> parser_of g g_tcp_parser = parser_init /\ no_response g.

(** What most of the task does to it. *)
Record kept g g' : Prop := {
  kp_active : var g' g_w5500_tcp_session_active = var g g_w5500_tcp_session_active;
  kp_depth : depth_ok g -> depth_ok g';
  kp_flags : flags_ok g -> flags_ok g';
  kp_parser : var g g_w5500_tcp_session_active = 0 ->
    parser_of g' g_tcp_parser = parser_of g g_tcp_parser \/ parser_of g' g_tcp_parser = parser_init;
  kp_queue : var g g_w5500_tcp_session_active = 0 ->
    shrinks (queue_of g tcp_response_queue) (queue_of g' tcp_response_queue)
}.

#[export] Instance kept_preorder : PreOrder kept.
Proof.
  split.
  - intros g. split; try done. by left.
  - intros g1 g2 g3 [A1 D1 N1 P1 Q1] [A2 D2 N2 P2 Q2]. split.
    + congruence.
    + auto.
    + auto.
    + intros H. destruct P2 as [-> | ->]; [congruence|by apply P1|by right].
    + intros H. etrans; [by apply Q1|]. apply Q2. congruence.
Qed.

(** What the routines rely on. *)
Record ready g : Prop := {
  rd_depth : depth_ok g;
  rd_flags : flags_ok g
}.

Definition in_session g : Prop := ready g /\ var g g_w5500_tcp_session_active <> 0.

(** The invariant of the task. *)
Record task_inv g : Prop := { inv_ready : ready g; inv_idle : idle_clean g }.
Definition invariant g g' : Prop := task_inv g -> task_inv g'.

Lemma kept_ready g g' : ready g -> kept g g' -> ready g'.
Proof.
  intros [Dp N] K. split; [by apply (kp_depth _ _ K)|by apply (kp_flags _ _ K)].
Qed.

Lemma kept_idle g g' : idle_clean g -> kept g g' -> idle_clean g'.
Proof.
  intros H K E. rewrite (kp_active _ _ K) in E. destruct (H E) as [Hp Hq]. split.
  - destruct (kp_parser _ _ K E) as [-> | ->]; done.
  - pose proof (kp_queue _ _ K E) as Hs. unfold no_response in *.
    destruct (queue_of g _) as [q|], (queue_of g' _) as [q'|]; try done.
    subst q. by apply suffix_nil_inv.
Qed.

Lemma kept_invariant g g' : kept g g' -> invariant g g'.
Proof. intros K [H1 H2]. split; [by eapply kept_ready|by eapply kept_idle]. Qed.

#[export] Instance kept_stable : Stable ready kept.
Proof. split; [apply _|]. apply kept_ready. Qed.
#[export] Instance in_session_stable : Stable in_session kept.
Proof.
  split; [apply _|]. intros g g' [H1 H2] K. split; [by eapply kept_ready|].
  by rewrite (kp_active _ _ K).
Qed.

(** States in which all routines of the task may run. *)
Class SessionState (P : gateway D -> Prop) := {
  state_stable :: Stable P kept;
  state_ready g : P g -> ready g
}.
#[export] Instance ready_state : SessionState ready.
Proof. split; [apply _|done]. Qed.
#[export] Instance in_session_state : SessionState in_session.
Proof. split; [apply _|]. by intros g [H _]. Qed.

#[export] Instance invariant_preorder : PreOrder invariant.
Proof. split; [by intros g H|]. intros g1 g2 g3 H1 H2 H. auto. Qed.
#[export] Instance invariant_stable : Stable task_inv invariant.
Proof. split; [apply _|]. by intros g g' H HR; apply HR. Qed.
End Session.

Definition session_vars : list gvar :=
  [EthVar g_w5500_tcp_session_active; EthVar g_w5500_tcp_stale_response_drop_count].

(** The other tasks respect the session: they leave its variables and its parser
    alone, add no response while it is idle (the RS-422 task, which has the
    higher priority, checks and adds in one go), and notify the task only of
    events it waits for. *)
Class SessionRely D `{!World D} := {
  rely_vars : env_keeps (D := D) session_vars;
  rely_parser n (g : gateway D) : parser_of (env n g) g_tcp_parser = parser_of g g_tcp_parser;
  rely_queue n (g : gateway D) : var g g_w5500_tcp_session_active = 0 ->
    queue_of (env n g) tcp_response_queue = queue_of g tcp_response_queue;
  rely_depth n (g : gateway D) : depth_ok g -> depth_ok (env n g);
  rely_flags n (g : gateway D) : flags_ok g -> flags_ok (env n g)
}.

(** ** The routines keep the session *)
Section Routines.
Context {D : Type} `{!World D} `{!SpiBus D} `{!SpiOwner D} (J : Z) `{!Punctual D J} `{!SessionRely D}.
Hypothesis short_calls : 11 * J < 4000000000.
Implicit Types g : gateway D.

Definition not_mark (v : gvar) : bool := negb (gvar_eqb v g_w5500_tcp_session_active).

Lemma kept_put v z g : not_mark v = true -> kept g (put v z g).
Proof.
  intros H. split; try done.
  - apply var_put_ne, negb_true_iff, H.
  - by left.
Qed.

Lemma kept_env n g : kept g (env n g).
Proof.
  split.
  - by apply rely_vars.
  - apply rely_depth.
  - apply rely_flags.
  - left. apply rely_parser.
  - intros H. rewrite rely_queue by done. reflexivity.
Qed.

(** Nothing the session is made of changes. *)
Lemma kept_same g g' :
  var g' = var g ->
  queue_of g' tcp_response_queue = queue_of g tcp_response_queue ->
  notif_of g' EthernetTask = notif_of g EthernetTask -> parser_of g' = parser_of g -> kept g g'.
Proof.
  intros Hv Hq Hn Hp. split; try done.
  - by rewrite Hv.
  - unfold depth_ok. by rewrite Hq.
  - unfold flags_ok. by rewrite Hn.
  - left. by rewrite Hp.
  - intros _. rewrite Hq. reflexivity.
Qed.

Lemma kept_preempt g : kept g (env (epoch g) (g <| epoch := S (epoch g) |>)).
Proof. etrans; [|apply kept_env]. by apply kept_same. Qed.

#[export] Instance kept_closed : SpiClosed kept not_mark.
Proof.
  split; try (intros; by apply kept_same).
  - apply _.
  - apply kept_preempt.
  - intros v z g Hv. by apply kept_put.
Qed.

(** *** Primitives *)
Context (P : gateway D -> Prop) `{HP : !SessionState P}.
Abbreviation timed := (timed P kept).
Abbreviation any := (fun _ => True).

Lemma timed_rd v : timed 0 any (rd v).
Proof. by apply (timed_gets P kept). Qed.

Lemma timed_wr v z : not_mark v = true -> timed 0 any (wr v z).
Proof. intros H. apply (timed_modify P kept); [intros g _; by apply kept_put|done|done]. Qed.

Lemma timed_add_to v z : not_mark v = true -> timed 0 any (add_to v z).
Proof.
  intros H. change 0 with (0 + 0). eapply (timed_bind P kept); [apply timed_rd|].
  intros x _. by apply timed_wr.
Qed.

Lemma timed_incr v : not_mark v = true -> timed 0 any (incr v).
Proof. apply timed_add_to. Qed.

Lemma timed_preempt : timed J any preempt.
Proof.
  intros g _. apply wp_preempt. split; [done|]. split; [by apply within_preempt|apply kept_preempt].
Qed.

Lemma timed_tick : timed J any osKernelGetTickCount.
Proof.
  replace J with (J + 0) by lia. eapply (timed_bind P kept); [apply timed_preempt|].
  intros _ _. by apply (timed_gets P kept).
Qed.

Lemma timed_put_message p : timed J any (osMessageQueuePut rs422_cmd_queue p).
Proof.
  intros g _. unfold osMessageQueuePut. apply wp_bind, wp_preempt. wp_auto.
  set (g1 := env _ _). assert (within J g g1 /\ kept g g1) as [Hw Hk]
    by (split; [by apply within_preempt|apply kept_preempt]).
  destruct (queue_of g1 rs422_cmd_queue) as [q|]; [|by wp_auto].
  destruct (_ <? _); wp_auto; split_and!; try done. etrans; [exact Hk|]. by apply kept_same.
Qed.

(** Taking from a queue is allowed but for the responses of an idle session. *)
Lemma timed_get_message q p : timed J any (osMessageQueueGet q p).
Proof.
  intros g _. unfold osMessageQueueGet. apply wp_bind, wp_preempt. wp_auto.
  set (g1 := env _ _). assert (within J g g1 /\ kept g g1) as [Hw Hk]
    by (split; [by apply within_preempt|apply kept_preempt]).
  destruct (queue_of g1 q) as [[|x l]|] eqn:E; [by wp_auto| |by wp_auto].
  wp_auto. split; [done|]. split; [exact Hw|]. etrans; [exact Hk|].
  assert (forall f, f tcp_response_queue = queue_of g1 tcp_response_queue \/
    q = tcp_response_queue /\ f tcp_response_queue = Some l ->
    kept g1 (g1 <| queue_of := f |>)) as H.
  { intros f Hf. split; try done.
    - intros Hd. unfold depth_ok in *. st_simpl. destruct Hf as [-> |[-> ->]]; [done|].
      rewrite E in Hd. cbn [length] in Hd. lia.
    - by left.
    - intros _. st_simpl. destruct Hf as [-> |[-> ->]]; [reflexivity|]. rewrite E. cbn.
      by apply suffix_cons_r. }
  etrans; [apply (H (upd q (Some l) (queue_of g1)))|by apply kept_same].
  destruct (decide (q = tcp_response_queue)) as [->|Hne]; [right; by rewrite upd_eq|left; by apply upd_ne].
Qed.

Lemma timed_flags_set flags : timed J any (osThreadFlagsSet RS422Task flags).
Proof.
  assert (forall f, timed 0 any (on_notif RS422Task f)) as Hn.
  { intros f. apply (timed_modify P kept); [|done|done]. intros g _. by apply kept_same. }
  replace J with (0 + (J + 0)) by lia. eapply (timed_bind P kept); [apply Hn|]. intros _ _.
  eapply (timed_bind P kept); [apply timed_preempt|]. intros _ _. apply Hn.
Qed.

Lemma timed_wr_packet p x : timed 0 any (wr_packet p x).
Proof. apply (timed_modify P kept); [|done|done]. intros g _. by apply kept_same. Qed.

Lemma timed_wr_parser_init : timed 0 any (wr_parser g_tcp_parser parser_init).
Proof.
  apply (timed_modify P kept); [|done|done]. intros g _. split; try done.
  right. st_simpl. by rewrite upd_eq.
Qed.

Lemma timed_delay d : 0 < d -> timed (d + J) any (osDelay d).
Proof.
  intros Hd g _. apply (wp_delay_traced J kept not_mark); [done|].
  intros g' e He _ Tr. split; [done|]. split; [|exact (tr_rest _ _ _ _ _ Tr)].
  eapply within_weaken; [|exact (tr_time _ _ _ _ _ Tr)]. lia.
Qed.

Lemma timed_spi {A} T (Q : A -> list window -> Prop) (m : M D A) :
  (forall g, P g -> spi kept T Q m g) -> timed T any m.
Proof.
  intros H g Hg. eapply wp_mono; [by apply H|]. intros a g' (ws & [_ Hw _ Hk] & _). done.
Qed.
Lemma timed_dwt_cycles : timed J any dwt_cycles.
Proof.
  replace J with (J + 0) by lia. eapply (timed_bind P kept); [apply timed_preempt|].
  intros _ _. by apply (timed_gets P kept).
Qed.

(** *** The driver *)

Lemma timed_write_registers vdm max_length address data length :
  timed J any (write_registers vdm max_length address data length).
Proof. eapply timed_spi. intros g _. apply (write_registers_ok J kept not_mark). Qed.
Lemma timed_read_registers vdm max_length address data length :
  timed J any (read_registers vdm max_length address data length).
Proof. eapply timed_spi. intros g _. apply (read_registers_ok J kept not_mark). Qed.
Lemma timed_read_register vdm address value : timed J any (read_register vdm address value).
Proof. eapply timed_spi. intros g _. apply (read_register_ok J kept not_mark). Qed.
Lemma timed_read_byte_frame vdm address v : timed J any (read_byte_frame vdm address v).
Proof. eapply timed_spi. intros g _. apply (read_byte_frame_ok J kept not_mark). Qed.
Lemma timed_socket0_read_u16 address v :
  timed J any (w5500_socket0_read_u16 address (Some v)).
Proof.
  unfold w5500_socket0_read_u16, w5500_socket0_read_registers. eapply timed_spi. intros g _.
  by apply (read_u16_ok J kept not_mark).
Qed.
Lemma timed_socket0_read_stable_u16 address v :
  timed (J * 8) any (w5500_socket0_read_stable_u16 address (Some v)).
Proof.
  unfold w5500_socket0_read_stable_u16, w5500_socket0_read_u16, w5500_socket0_read_registers.
  eapply timed_spi. intros g _. by apply (read_stable_u16_ok J kept not_mark).
Qed.
Lemma timed_socket0_command command :
  timed (command_time J) any (w5500_socket0_execute_command command).
Proof.
  unfold w5500_socket0_execute_command. eapply timed_spi. intros g _.
  by apply (execute_command_ok J kept not_mark short_calls socket0_regs 2).
Qed.
Lemma timed_socket1_command command :
  timed (command_time J) any (w5500_socket1_execute_command command).
Proof.
  unfold w5500_socket1_execute_command. eapply timed_spi. intros g _.
  by apply (execute_command_ok J kept not_mark short_calls socket1_regs 4).
Qed.

Lemma timed_wr_array a x : timed 0 any (wr_array a x).
Proof. apply (timed_modify P kept); [|done|done]. intros g _. by apply kept_same. Qed.

Lemma timed_gpio b : timed 0 any (gpio_cs b).
Proof. apply (timed_modify P kept); [|done|done]. intros g _. by apply kept_same. Qed.
Lemma timed_gpio_rst b : timed 0 any (gpio_rst b).
Proof. apply (timed_modify P kept); [|done|done]. intros g _. by apply kept_same. Qed.

Lemma timed_transfer tx : timed J any (HAL_SPI_TransmitReceive tx).
Proof.
  intros g _. apply (wp_spi_transmit_receive J kept not_mark). intros st rx g' [_ Hw _ Hk] _. done.
Qed.
End Routines.

Create HintDb timed discriminated.
#[export] Hint Constants Opaque : timed.
#[export] Hint Resolve timed_rd timed_wr timed_add_to timed_incr timed_preempt timed_tick
  timed_put_message timed_get_message timed_flags_set timed_wr_packet timed_wr_parser_init
  timed_dwt_cycles timed_write_registers timed_read_registers timed_read_register
  timed_read_byte_frame timed_socket0_read_u16 timed_socket0_read_stable_u16
  timed_socket0_command timed_socket1_command timed_wr_array timed_gpio timed_gpio_rst
  timed_transfer : timed.
#[export] Hint Extern 1 (not_mark _ = true) => reflexivity : timed.
#[export] Hint Unfold w5500_socket0_write_registers w5500_socket0_read_registers
  w5500_socket0_read_register w5500_socket1_write_registers w5500_socket1_read_registers
  w5500_socket1_read_register w5500_write_common_registers w5500_read_common_registers
  w5500_read_common_register w5500_read_version : timed.

(** Follows the syntax of a program down to routines in the database. *)
Ltac timed_step :=
  lazymatch goal with
  | |- timed ?P ?R _ _ (mret _) => apply (timed_ret P R); try done
  | |- timed ?P ?R _ _ (mbind _ _) =>
      eapply (timed_bind P R _ _ (fun _ => True)); [|intros ? _]
  | |- timed ?P ?R _ _ (gets _) => apply (timed_gets P R); done
  | |- timed ?P ?R _ _ (when _ _) => eapply (timed_when P R); [done|]
  | |- timed _ _ _ _ (let _ := _ in _) => cbv zeta
  | |- timed ?P ?R _ _ (if ?b then _ else _) => eapply (timed_if P R)
  | |- timed _ _ _ _ (match ?x with (_, _) => _ end) => destruct x
  | |- timed _ _ _ _ (rd_packet _) => unfold rd_packet
  | |- timed _ _ _ _ (rd_array _) => unfold rd_array
  | |- timed _ _ _ _ (rd_parser _) => unfold rd_parser
  | |- timed _ _ _ _ (queue_is_null _) => unfold queue_is_null
  | |- timed _ _ _ _ (and_then _ _) => unfold and_then
  | |- timed _ _ _ _ (and_then_publish _ _) => unfold and_then_publish
  | |- timed _ _ _ _ _ => solve [typeclasses eauto 3 with timed typeclass_instances nocore]
  end.
Ltac timed_auto :=
  lazymatch goal with
  | |- timed ?P ?R _ _ _ => eapply (timed_within P R); [repeat timed_step|]
  end.

(** ** The services *)
Section Services.
Context {D : Type} `{!World D} `{!SpiBus D} `{!SpiOwner D} (J : Z) `{!Punctual D J} `{!SessionRely D}.
Hypothesis (short_calls : 11 * J < 4000000000) (J_nonneg : 0 <= J).
Context (P : gateway D -> Prop) `{HP : !SessionState P}.
Implicit Types g : gateway D.
Abbreviation timed := (timed P kept).
Abbreviation any := (fun _ => True).

(** *** Waiting for a socket state *)

Definition state_time : Z := poll_time J J 1000 10.

Lemma timed_poll c (B : option Z -> list window -> Prop) body timeout_ms poll_ms :
  (forall g, spi kept c B body g) -> 0 <= c -> 1 <= poll_ms -> 1 <= timeout_ms ->
  timeout_ms + poll_ms + c + 2 * J < 4294967296 ->
  timed (poll_time J c timeout_ms poll_ms) any (poll body timeout_ms poll_ms).
Proof.
  intros Hb Hc Hp Ht Hs. eapply timed_spi. intros g _. by apply (spi_poll J kept not_mark B c).
Qed.

Lemma timed_wait_for_socket0_status expected :
  timed state_time any (w5500_wait_for_socket0_status expected W5500_SOCKET_STATE_TIMEOUT_MS).
Proof.
  eapply timed_poll; [intros g; by apply (status_poll_ok J kept not_mark)|..]; cbv delta
    [W5500_SOCKET_STATE_TIMEOUT_MS W5500_SOCKET_STATE_POLL_MS]; lia.
Qed.
Lemma timed_wait_for_socket1_status expected :
  timed state_time any (w5500_wait_for_socket1_status expected W5500_SOCKET_STATE_TIMEOUT_MS).
Proof.
  eapply timed_poll; [intros g; by apply (status_poll_ok J kept not_mark)|..]; cbv delta
    [W5500_SOCKET_STATE_TIMEOUT_MS W5500_SOCKET_STATE_POLL_MS]; lia.
Qed.

(** *** Sending *)

Lemma timed_chunk_loop data discard c n length offset st :
  0 < c -> 0 <= offset -> length < 65536 -> length - offset <= Z.of_nat n ->
  timed (J * chunk_count c (Z.max 0 (length - offset))) any
    (tx_chunk_loop n data discard c length offset st).
Proof.
  intros Hc. revert offset st. induction n as [|n IH]; intros offset st Ho Hl Hn; cbn [tx_chunk_loop];
    assert (0 <= J * chunk_count c (Z.max 0 (length - offset)))
      by (unfold chunk_count; apply Z.mul_nonneg_nonneg; [done|apply Z.div_pos; lia]);
    (destruct ((st =? HAL_OK) && (offset <? length)) eqn:E;
     [apply andb_true_iff in E as [_ E]|timed_auto; done]).
  { lia. }
  assert (offset < length) as Hlt by lia. rewrite Z.max_r by lia.
  rewrite (u16_small (length - offset)) by (unfold is_u16; lia). cbv zeta.
  set (k := if length - offset >? c then c else length - offset).
  assert (0 < k <= length - offset /\
    chunk_count c (length - offset) = 1 + chunk_count c (Z.max 0 (length - (offset + k)))) as [Hk ->].
  { unfold k. destruct (Z.gtb_spec (length - offset) c).
    - rewrite chunk_count_step, Z.max_r by lia. split; [lia|]. f_equal. f_equal. lia.
    - rewrite chunk_count_last by lia. split; [lia|].
      replace (Z.max 0 _) with 0 by lia. unfold chunk_count. rewrite Z.div_small by lia. done. }
  rewrite (u16_small (offset + k)) by (unfold is_u16; lia).
  timed_auto.
  - apply IH; lia.
  - lia.
Qed.

Lemma timed_write_tx_buffer vdm discard address data length :
  timed (6 * J) any (write_tx_buffer vdm 64 discard address (Some data) length).
Proof.
  unfold write_tx_buffer. fold (bad_length length PROTOCOL_MAX_FRAME_SIZE).
  destruct (bad_length length PROTOCOL_MAX_FRAME_SIZE) eqn:E; [timed_auto; lia|].
  unfold bad_length in E. change PROTOCOL_MAX_FRAME_SIZE with 266 in E. cbn [orb] in E.
  destruct (Z.ltb_spec length 0) as [Hneg|Hpos].
  - timed_auto; [|instantiate (1 := 0); lia]. destruct (Z.to_nat length) eqn:En; [|lia].
    cbn [tx_chunk_loop]. rewrite (proj2 (Z.ltb_ge 0 length)) by lia.
    rewrite andb_false_r. by apply timed_ret; [apply _|].
  - timed_auto; [apply timed_chunk_loop; try done; zlia|].
    assert (chunk_count 64 (Z.max 0 (length - 0)) <= 5) by (unfold chunk_count; zlia). nia.
Qed.
Lemma timed_socket0_write_tx address data length :
  timed (6 * J) any (w5500_socket0_write_tx_buffer address (Some data) length).
Proof. exact (timed_write_tx_buffer _ _ _ _ _). Qed.
Lemma timed_socket1_write_tx address data length :
  timed (6 * J) any (w5500_socket1_write_tx_buffer address (Some data) length).
Proof. exact (timed_write_tx_buffer _ _ _ _ _). Qed.
#[local] Hint Resolve timed_wait_for_socket0_status timed_wait_for_socket1_status
  timed_socket0_write_tx timed_socket1_write_tx : timed.

Lemma timed_tcp_wait_for_tx_free required :
  timed (free_time J) any (w5500_tcp_wait_for_tx_free required).
Proof. eapply timed_spi; intros g _. apply (law_free _ _ _ _ (socket0_laws J kept not_mark short_calls)). Qed.
Lemma timed_udp_wait_for_tx_free required :
  timed (free_time J) any (w5500_udp_wait_for_tx_free required).
Proof. eapply timed_spi; intros g _. apply (law_free _ _ _ _ (socket1_laws J kept not_mark short_calls)). Qed.
Lemma timed_tcp_wait_for_send_result : timed (result_time J) any w5500_tcp_wait_for_send_result.
Proof. eapply timed_spi; intros g _. apply (law_result _ _ _ _ (socket0_laws J kept not_mark short_calls)). Qed.
Lemma timed_udp_wait_for_send_result : timed (result_time J) any w5500_udp_wait_for_send_result.
Proof. eapply timed_spi; intros g _. apply (law_result _ _ _ _ (socket1_laws J kept not_mark short_calls)). Qed.
Lemma timed_socket1_read_u16 address v : timed J any (w5500_socket1_read_u16 address (Some v)).
Proof. eapply timed_spi; intros g _. apply (law_read_u16 _ _ _ _ (socket1_laws J kept not_mark short_calls)). Qed.
#[local] Hint Resolve timed_tcp_wait_for_tx_free timed_udp_wait_for_tx_free
  timed_tcp_wait_for_send_result timed_udp_wait_for_send_result timed_socket1_read_u16 : timed.

Ltac times := unfold send_time, state_time, free_time, result_time, command_time, poll_time; lia.

Lemma timed_tcp_send_frame a length : timed (send_time J) any (w5500_tcp_send_frame (Some a) length).
Proof.
  unfold w5500_tcp_send_frame, send_frame.
  cbn [so_tx_wr so_ir so_send_bits so_send so_wait_for_tx_free so_read_u16 so_write_tx_buffer
    so_write_registers so_execute_command so_wait_for_send_result socket0_ops].
  timed_auto. times.
Qed.
Lemma timed_udp_send_frame a length : timed (send_time J) any (w5500_udp_send_frame (Some a) length).
Proof.
  unfold w5500_udp_send_frame, send_frame.
  cbn [so_tx_wr so_ir so_send_bits so_send so_wait_for_tx_free so_read_u16 so_write_tx_buffer
    so_write_registers so_execute_command so_wait_for_send_result socket1_ops].
  timed_auto. times.
Qed.
#[local] Hint Resolve timed_tcp_send_frame timed_udp_send_frame : timed.

Lemma timed_encode_into p a : timed 0 any (encode_into p a).
Proof. unfold encode_into. timed_auto. done. Qed.
Lemma timed_now_ms : timed J any diagnostic_now_ms.
Proof. unfold diagnostic_now_ms, w5500_kernel_uptime_ms. timed_auto. lia. Qed.
Lemma timed_interval from (to : diag_var) now : timed 0 any (diag_interval from to now).
Proof. unfold diag_interval. timed_auto. lia. Qed.
Lemma timed_diag_record (tick_var ms_var elapsed_var : eth_var) :
  not_mark tick_var = true -> not_mark ms_var = true -> not_mark elapsed_var = true ->
  timed J any (ethernet_diag_record tick_var ms_var elapsed_var).
Proof. intros ???. unfold ethernet_diag_record, ethernet_diag_finish_if_complete. timed_auto. lia. Qed.
#[local] Hint Resolve timed_encode_into timed_now_ms timed_interval timed_diag_record : timed.
#[local] Hint Unfold ethernet_diag_record_tcp_service_ready ethernet_diag_record_tcp_pong_tx_success
  ethernet_diag_record_udp_tx_success : timed.

Lemma timed_note_pong_send packet : timed J any (note_pong_send packet).
Proof. unfold note_pong_send. timed_auto. lia. Qed.
#[local] Hint Resolve timed_note_pong_send : timed.

Definition response_time : Z := send_time J + 2 * J.
Lemma timed_send_response p : timed response_time any (w5500_tcp_send_response_packet (Some p)).
Proof. unfold w5500_tcp_send_response_packet. timed_auto. unfold response_time. times. Qed.

Lemma timed_udp_forward p : timed response_time any (w5500_udp_forward_packet (Some p)).
Proof. unfold w5500_udp_forward_packet, note_udp_error. timed_auto. unfold response_time. times. Qed.
Lemma timed_udp_telemetry : timed response_time any w5500_udp_send_telemetry.
Proof.
  unfold w5500_udp_send_telemetry, note_udp_error, w5500_kernel_uptime_ms. timed_auto.
  unfold response_time. times.
Qed.
#[local] Hint Resolve timed_send_response timed_udp_forward timed_udp_telemetry : timed.

Lemma timed_handle_frame : timed (3 * J) any w5500_tcp_handle_valid_frame.
Proof. unfold w5500_tcp_handle_valid_frame, note_ping_parsed, put_command. timed_auto. lia. Qed.
Lemma timed_note_rx_ready : timed J any note_rx_ready.
Proof. unfold note_rx_ready. timed_auto. lia. Qed.
#[local] Hint Resolve timed_handle_frame timed_note_rx_ready : timed.

Lemma timed_response_loop n T handle :
  0 <= T -> timed T any handle -> timed (Z.of_nat n * (T + J)) any (response_loop n handle).
Proof.
  intros HT Hh. induction n as [|n IH]; cbn [response_loop]; [timed_auto; lia|].
  timed_auto. nia.
Qed.

Definition drain_time : Z := 8 * (response_time + J).
Lemma timed_drain_responses : timed drain_time any w5500_tcp_drain_response_queue.
Proof.
  unfold w5500_tcp_drain_response_queue, for_responses, drain_time.
  assert (0 <= response_time) by (unfold response_time; times).
  timed_auto; [apply (timed_response_loop _ response_time); [done|timed_auto; lia]|];
    change (Z.of_nat (Z.to_nat TCP_RESPONSE_QUEUE_DEPTH)) with 8; lia.
Qed.
Lemma timed_discard : timed (8 * J) any w5500_tcp_discard_stale_responses.
Proof.
  unfold w5500_tcp_discard_stale_responses, for_responses.
  timed_auto; [apply (timed_response_loop _ 0); [done|timed_auto; lia]|].
  change (Z.of_nat (Z.to_nat TCP_RESPONSE_QUEUE_DEPTH)) with 8. lia.
Qed.
#[local] Hint Resolve timed_drain_responses timed_discard : timed.

(** *** Opening the sockets *)

Definition listen_time : Z := command_time J + state_time + J.
Lemma timed_listen : timed listen_time any w5500_listen_tcp_server.
Proof. unfold w5500_listen_tcp_server. timed_auto. unfold listen_time. times. Qed.
#[local] Hint Resolve timed_listen : timed.

Definition start_time : Z := 2 * J + command_time J + state_time + listen_time.
Lemma timed_start : timed start_time any w5500_start_tcp_server.
Proof. unfold w5500_start_tcp_server. timed_auto. unfold start_time, listen_time. times. Qed.
Lemma timed_start_udp : timed start_time any w5500_start_udp_socket.
Proof. unfold w5500_start_udp_socket. timed_auto. unfold start_time, listen_time. times. Qed.
#[local] Hint Resolve timed_start timed_start_udp : timed.
End Services.
#[export] Hint Resolve timed_wait_for_socket0_status timed_wait_for_socket1_status
  timed_encode_into timed_now_ms timed_interval timed_diag_record timed_udp_forward
  timed_udp_telemetry timed_handle_frame timed_note_rx_ready timed_drain_responses timed_discard
  timed_listen timed_start timed_start_udp : timed.
#[export] Hint Unfold ethernet_diag_record_tcp_service_ready ethernet_diag_record_tcp_pong_tx_success
  ethernet_diag_record_udp_tx_success : timed.

Ltac times := unfold drain_time, response_time, start_time, listen_time, send_time, state_time,
  free_time, result_time, command_time, poll_time; lia.

(** ** The data service *)
Section DataService.
Context {D : Type} `{!World D} `{!SpiBus D} `{!SpiOwner D} (J : Z) `{!Punctual D J} `{!SessionRely D}.
Hypothesis (short_calls : 11 * J < 4000000000) (J_nonneg : 0 <= J).
Implicit Types g : gateway D.
Abbreviation any := (fun _ => True).

(** The parser advances only during a session. *)
Lemma timed_wr_parser x : timed in_session kept 0 any (wr_parser (D := D) g_tcp_parser x).
Proof.
  apply (timed_modify in_session kept); [|done|done]. intros g [_ Ha]. split; try done.
Qed.
#[local] Hint Resolve timed_wr_parser : timed.

Lemma timed_parse_loop n index :
  timed in_session kept (Z.of_nat n * (3 * J)) any (tcp_parse_loop (D := D) n index).
Proof.
  revert index. induction n as [|n IH]; intros index; cbn [tcp_parse_loop]; [timed_auto; lia|].
  timed_auto; [|instantiate (1 := 3 * J); lia]. case_match; timed_auto; lia.
Qed.

Lemma timed_parse_chunk n index :
  (n <= 64)%nat -> timed in_session kept (192 * J) any (tcp_parse_loop (D := D) n index).
Proof. intros Hn. eapply (timed_within in_session kept); [apply timed_parse_loop|nia]. Qed.

Lemma timed_read_rx_buffer address a length :
  timed in_session kept (2 * J) any (w5500_socket0_read_rx_buffer (D := D) address (Some a) length).
Proof. unfold w5500_socket0_read_rx_buffer. timed_auto. lia. Qed.
#[local] Hint Resolve timed_read_rx_buffer : timed.

Definition rx_time : Z := command_time J + 300 * J.
Lemma timed_process_rx : timed in_session kept rx_time any (w5500_tcp_process_rx (D := D)).
Proof.
  unfold w5500_tcp_process_rx. timed_auto; [apply timed_parse_chunk|].
  - change W5500_TCP_RX_CHUNK_SIZE with 64. case_match; lia.
  - unfold rx_time. times.
Qed.
#[local] Hint Resolve timed_process_rx : timed.

(** *** UDP and accounting *)

Lemma timed_udp_drain n :
  timed ready kept (Z.of_nat n * (J + response_time J)) any (udp_drain_loop (D := D) n).
Proof.
  assert (0 <= response_time J) by times.
  induction n as [|n IH]; cbn [udp_drain_loop]; timed_auto; nia.
Qed.

Definition udp_time : Z := 3 * response_time J + 3 * J.
Lemma timed_udp_service : timed ready kept udp_time any (udp_data_service (D := D)).
Proof.
  unfold udp_data_service. timed_auto; [apply timed_udp_drain|].
  change (Z.of_nat (Z.to_nat UDP_TELEMETRY_DRAIN_LIMIT)) with 2. unfold udp_time. times.
Qed.

Lemma timed_service_start l : timed ready kept (2 * J) any (data_service_start (D := D) l).
Proof. unfold data_service_start. timed_auto. lia. Qed.
Lemma timed_service_account c : timed ready kept J any (data_service_account (D := D) c).
Proof. unfold data_service_account. timed_auto. lia. Qed.

(** Receiving and answering, in a session only. *)
Definition tcp_time : Z := rx_time + drain_time J.
Lemma timed_tcp_service due event : timed ready kept tcp_time any (tcp_data_service (D := D) due event).
Proof.
  assert (timed in_session kept tcp_time any
    (when due (rx_status ← w5500_tcp_process_rx;
       wr g_w5500_tcp_last_rx_status rx_status;;
       when (negb (rx_status =? HAL_OK)) (incr g_w5500_tcp_rx_error_count));;
     w5500_tcp_drain_response_queue (D := D))) as Hs.
  { timed_auto. unfold tcp_time, rx_time. times. }
  assert (0 <= tcp_time) by (unfold tcp_time, rx_time; times).
  intros g Hg. unfold tcp_data_service. wp_auto. unfold when at 1.
  destruct (_ && _) eqn:E; [|by apply (timed_within ready kept 0); [apply timed_ret; [apply _|done]| |]].
  apply Hs. split; [done|]. intros Ha. rewrite Ha in E. cbn in E. by rewrite !andb_false_r in E.
Qed.
End DataService.

(** ** The session *)
Section Sessions.
Context {D : Type} `{!World D} `{!SpiBus D} `{!SpiOwner D} (J : Z) `{!Punctual D J} `{!SessionRely D}.
Hypothesis (short_calls : 11 * J < 4000000000) (J_nonneg : 0 <= J).
Implicit Types g : gateway D.
Abbreviation any := (fun _ => True).
Abbreviation dropped g := (var g g_w5500_tcp_stale_response_drop_count).

(** Discarding while idle leaves no response and counts each one. *)
Lemma discard_loop_ok n q g :
  var g g_w5500_tcp_session_active = 0 -> queue_of g tcp_response_queue = Some q ->
  (length q <= n)%nat ->
  wp (response_loop n (incr g_w5500_tcp_stale_response_drop_count)) (fun _ g' =>
    no_response g' /\ u32 (dropped g') = u32 (dropped g + Z.of_nat (length q))) g.
Proof.
  revert q g. induction n as [|n IH]; intros q g Ha Hq Hn; cbn [response_loop].
  { destruct q; [|cbn in Hn; lia]. apply wp_ret. unfold no_response. rewrite Hq.
    split; [done|]. by rewrite Z.add_0_r. }
  unfold osMessageQueueGet. apply wp_bind, wp_bind, wp_preempt. set (g1 := env _ _).
  assert (queue_of g1 tcp_response_queue = Some q) as Hq1 by (unfold g1; by rewrite rely_queue).
  assert (var g1 g_w5500_tcp_session_active = 0) as Ha1 by (unfold g1; by rewrite rely_vars).
  assert (dropped g1 = dropped g) as Hd1 by (unfold g1; by rewrite rely_vars).
  wp_auto. rewrite Hq1. destruct q as [|x l].
  - wp_auto. change (osErrorResource =? osOK) with false. cbn [negb]. wp_auto.
    unfold no_response. rewrite Hq1. split; [done|]. by rewrite Hd1, Z.add_0_r.
  - wp_auto. change (osOK =? osOK) with true. cbn [negb]. wp_auto.
    set (g2 := put _ _ _). eapply wp_mono; [apply (IH l)|].
    + unfold g2. by gv_simpl.
    + unfold g2. st_simpl. by rewrite upd_eq.
    + cbn [length] in Hn. lia.
    + intros _ g' [H1 H2]. split; [done|]. rewrite H2. unfold g2. gv_simpl. st_simpl.
      rewrite Hd1. cbn [length]. width.
Qed.

(** Responses waiting. *)
Definition waiting g : Z := Z.of_nat (length (default [] (queue_of g tcp_response_queue))).

(** An idle session, cleared, with [n] more responses counted as dropped. *)
Record cleared (n : Z) g g' : Prop := {
  cl_parser : parser_of g' g_tcp_parser = parser_init;
  cl_queue : no_response g';
  cl_dropped : u32 (dropped g') = u32 (dropped g + n);
  cl_ready : ready g'
}.

Lemma discard_ok g :
  ready g -> var g g_w5500_tcp_session_active = 0 -> parser_of g g_tcp_parser = parser_init ->
  wp w5500_tcp_discard_stale_responses (fun _ g' =>
    within (8 * J) g g' /\ kept g g' /\ cleared (waiting g) g g') g.
Proof.
  intros Hr Ha Hp. eapply wp_mono.
  - apply wp_conj; [by apply (timed_discard J short_calls J_nonneg ready)|].
    instantiate (1 := fun _ g' => no_response g' /\ u32 (dropped g') = u32 (dropped g + waiting g)).
    unfold w5500_tcp_discard_stale_responses, for_responses, waiting. wp_auto.
    destruct (queue_of g tcp_response_queue) as [q|] eqn:Eq.
    + apply discard_loop_ok; [done|done|].
      pose proof (rd_depth _ Hr) as Hd. unfold depth_ok in Hd. rewrite Eq in Hd.
      change TCP_RESPONSE_QUEUE_DEPTH with 8 in *. cbn [default from_option id]. lia.
    + wp_auto. unfold no_response. rewrite Eq. cbn. by rewrite Z.add_0_r.
  - intros _ g' [(_ & Hw & Hk) [Hn Hd]]. split; [done|]. split; [done|]. split; try done.
    + destruct (kp_parser _ _ Hk Ha) as [-> | ->]; done.
    + by eapply kept_ready.
Qed.

(** Changes of state that leave the queues and notifications alone. *)
Lemma same_ready g g' :
  queue_of g' = queue_of g -> notif_of g' = notif_of g -> ready g -> ready g'.
Proof. intros Hq Hn [H1 H2]. split; unfold depth_ok, flags_ok in *; [by rewrite Hq|by rewrite Hn]. Qed.

Lemma invalidate_ok g :
  ready g ->
  wp w5500_tcp_invalidate_connection_context (fun _ g' =>
    within (9 * J) g g' /\ var g' g_w5500_tcp_session_active = 0 /\ cleared (waiting g) g g') g.
Proof.
  intros Hr. unfold w5500_tcp_invalidate_connection_context. wp_auto.
  set (g1 := put _ _ _).
  match goal with |- wp _ _ ?s => set (g2 := s) end.
  assert (ready g2) as H2 by (by apply (same_ready g)).
  assert (var g2 g_w5500_tcp_session_active = 0) as Ha2 by (unfold g2, g1; by gv_simpl).
  assert (parser_of g2 g_tcp_parser = parser_init) as Hp2 by (unfold g2; st_simpl; by rewrite upd_eq).
  assert (dropped g2 = dropped g) as Hd2 by (unfold g2, g1; by gv_simpl).
  assert (wp (when (negb (var g RS422TaskHandle =? 0))
      (osThreadFlagsSet RS422Task RS422_EVENT_TCP_CONTEXT_RESET)) (fun _ g3 =>
    (within J g2 g3 /\ kept g2 g3) /\ dropped g3 = dropped g2 /\
    queue_of g3 tcp_response_queue = queue_of g2 tcp_response_queue) g2) as Hset.
  { apply wp_conj.
    - eapply wp_mono; [apply (timed_when ready kept _ J _ (fun _ => True)); [done| |exact H2]|].
      + typeclasses eauto with timed typeclass_instances.
      + intros _ g3 (_ & Hw & Hk). split; [|done]. eapply within_weaken; [|exact Hw]. lia.
    - destruct (negb _); [|by wp_auto]. unfold osThreadFlagsSet, on_notif. cbn [when]. wp_auto.
      apply wp_preempt. wp_auto. by rewrite rely_vars, rely_queue. }
  eapply wp_mono; [exact Hset|]. intros _ g3 ((Hw & Hk) & Hd3 & Hq3).
  assert (waiting g3 = waiting g) as Hq by (unfold waiting; by rewrite Hq3).
  assert (var g3 g_w5500_tcp_session_active = 0) as Ha3 by (by rewrite (kp_active _ _ Hk)).
  eapply wp_mono; [apply discard_ok; [by eapply kept_ready|done|]|].
  - destruct (kp_parser _ _ Hk Ha2) as [-> | ->]; done.
  - intros _ g' (Hw' & Hk' & [P Q Dr Rd]). split; [|split].
    + replace (9 * J) with (J + 8 * J) by lia. eapply within_trans; [|exact Hw']. exact Hw.
    + by rewrite (kp_active _ _ Hk').
    + split; try done. by rewrite Dr, Hd3, Hd2, Hq.
Qed.

Lemma begin_session_ok socket_tick g :
  ready g -> var g g_w5500_tcp_session_active = 0 ->
  wp (begin_session socket_tick) (fun _ g' =>
    within (8 * J) g g' /\ var g' g_w5500_tcp_session_active = 1 /\ cleared (waiting g) g g') g.
Proof.
  intros Hr Ha. unfold begin_session, diagnostic_begin_tcp_session. wp_auto.
  match goal with |- wp _ _ ?s => set (g1 := s) end.
  assert (ready g1) as H1 by (by apply (same_ready g)).
  assert (var g1 g_w5500_tcp_session_active = 0) as Ha1 by (unfold g1; st_simpl; by gv_simpl).
  assert (dropped g1 = dropped g) as Hd1 by (unfold g1; st_simpl; by gv_simpl).
  eapply wp_mono; [apply discard_ok; [done|done|]|].
  - unfold g1. st_simpl. by rewrite upd_eq.
  - intros _ g' (Hw' & Hk' & [P Q Dr Rd]). wp_auto. split; [exact Hw'|]. split; [by gv_simpl|].
    split; try done. by apply (same_ready g').
Qed.
End Sessions.
