(* ===== verification/GwSession.v ===== *)
(** * Sessions follow the socket

    What [session_service] makes of the socket status it reads: when a TCP
    session starts and ends, and what is left of the one before. *)
From S2P Require Import Prelude Crc16 Protocol StreamParser RxRing GwDiag GwRs422 GwW5500 GwTcp GwUdp.
From S2P Require Export GwTask.
Local Open Scope Z_scope.

Section FollowSocket.
Context {D : Type} `{!World D} `{!SpiBus D} `{!SpiOwner D} (J : Z) `{!Punctual D J} `{!SessionRely D}.
Hypothesis (short_calls : J <= 100000) (J_nonneg : 0 <= J).
Implicit Types g : gateway D.
Implicit Types l : eth_locals.

(** Neither the session nor, while it is idle, the responses change. *)
Record undisturbed g g' : Prop := {
  un_kept : kept g g';
  un_parser : parser_of g' g_tcp_parser = parser_of g g_tcp_parser;
  un_dropped : var g' g_w5500_tcp_stale_response_drop_count =
               var g g_w5500_tcp_stale_response_drop_count;
  un_waiting : var g g_w5500_tcp_session_active = 0 ->
    queue_of g' tcp_response_queue = queue_of g tcp_response_queue
}.

Definition not_session_var (v : gvar) : bool := negb (mem_var v session_vars).

Lemma not_session_mark v : not_session_var v = true -> not_mark v = true.
Proof.
  unfold not_session_var, not_mark, session_vars, mem_var. cbn [existsb].
  destruct (gvar_eqb v g_w5500_tcp_session_active); done.
Qed.

#[export] Instance undisturbed_preorder : PreOrder undisturbed.
Proof.
  split; [by intros g; split|].
  intros g1 g2 g3 [K1 P1 D1 W1] [K2 P2 D2 W2]. split; [by etrans|congruence|congruence|].
  intros H. rewrite W2, W1; [done|done|by rewrite (kp_active _ _ K1)].
Qed.

#[export] Instance undisturbed_closed : SpiClosed undisturbed not_session_var.
Proof.
  split; try (intros; split; [by apply kept_same|done..]).
  - apply _.
  - intros g. split; [apply kept_preempt|by rewrite rely_parser|by rewrite rely_vars|].
    intros H. by rewrite rely_queue.
  - intros v z g Hv. split; [by apply kept_put, not_session_mark|done| |done].
    apply var_put_ne. unfold not_session_var, mem_var, session_vars in Hv. cbn [existsb] in Hv.
    destruct (gvar_eqb v g_w5500_tcp_stale_response_drop_count); [|done].
    by rewrite orb_true_r in Hv.
Qed.

(** The status register was read, with the status [st] and the answer [rx],
    and [g1] is the state in which the task acts upon it: the state after the
    read and, if it succeeded, after the clock was read. *)
Definition acts_in st rx g g1 : Prop :=
  exists g0,
    w5500_socket0_read_register W5500_SOCKET0_SR_ADDRESS (Some W5500_SOCKET0_STATUS_CLOSED) g =
      Some ((st, Some (if st =? HAL_OK then arr_get rx 3 else W5500_SOCKET0_STATUS_CLOSED)), g0) /\
    traced undisturbed J
      [read_window W5500_SOCKET0_READ_VDM W5500_SOCKET0_SR_ADDRESS 1 st rx] g g0 /\
    let g0' := put g_w5500_socket0_spi_status st g0 in
    if st =? HAL_OK then
      exists now g2, osKernelGetTickCount g0' = Some (now, g2) /\
        g1 = put g_w5500_socket0_status (arr_get rx 3) g2
    else g1 = g0'.

(** What [session_service] made of a read of the status register that ended
    with [st] and showed [s], acting in [g]. *)
Definition followed st s l l' g g' : Prop :=
  if st =? HAL_OK then
    previous_socket_status l' = s /\ socket_state_initialized l' <> 0 /\
    if s =? W5500_SOCKET0_STATUS_ESTABLISHED then
      graceful_disconnect_pending l' = 0 /\
      if var g g_w5500_tcp_session_active =? 0
      then var g' g_w5500_tcp_session_active = 1 /\ cleared (waiting g) g g'
      else g' = g
    else
      var g' g_w5500_tcp_session_active = 0 /\
      if var g g_w5500_tcp_session_active =? 0 then g' = g
      else cleared (waiting g) g g'
  else l' = l /\ g' = g.

(** The part after the status was read. *)
Lemma follow_ok s tick l (K : eth_locals -> gateway D -> Prop) g :
  ready g ->
  (forall l' g', within (9 * J) g g' ->
     (if s =? W5500_SOCKET0_STATUS_ESTABLISHED then
        l' = l <| graceful_disconnect_pending := 0 |> /\
        if var g g_w5500_tcp_session_active =? 0
        then var g' g_w5500_tcp_session_active = 1 /\ cleared (waiting g) g g'
        else g' = g
      else
        l' = l /\ var g' g_w5500_tcp_session_active = 0 /\
        if var g g_w5500_tcp_session_active =? 0 then g' = g
        else cleared (waiting g) g g') -> K l' g') ->
  wp (active ← rd g_w5500_tcp_session_active;
      if s =? W5500_SOCKET0_STATUS_ESTABLISHED then
        when (active =? 0) (begin_session tick);;
        mret (l <| graceful_disconnect_pending := 0 |>)
      else
        when (negb (active =? 0)) (
          wr g_w5500_tcp_init_ok 0;;
          wr g_w5500_tcp_listen_ok 0;;
          w5500_tcp_invalidate_connection_context);;
        mret l) K g.
Proof.
  intros Hr HK. assert (11 * J < 4000000000) as Hs by lia. apply wp_bind, wp_gets.
  assert (within (9 * J) g g) as W0 by (eapply within_weaken; [|by apply within_same]; lia).
  destruct (s =? _), (Z.eqb_spec (var g g_w5500_tcp_session_active) 0) as [Ha|Ha]; cbn [when negb];
    apply wp_bind.
  - eapply wp_mono; [by apply (begin_session_ok J)|]. intros _ g' (W & Ha' & Hc). apply wp_ret, HK; [|done].
    eapply within_weaken; [|exact W]. lia.
  - by apply wp_ret, wp_ret, HK.
  - by apply wp_ret, wp_ret, HK.
  - wp_auto. match goal with |- wp _ _ ?x => set (g2 := x) end.
    eapply wp_mono; [apply (invalidate_ok J Hs J_nonneg); by apply (same_ready g)|].
    intros _ g' (W & Ha' & [P Q Dr Rd]). apply wp_ret, HK; [exact W|]. split; [done|]. split; [done|].
    by split.
Qed.
End FollowSocket.

(** ** Properties *)
Section Properties.
Context {D : Type} `{!World D} `{!SpiBus D} `{!SpiOwner D} (J : Z) `{!Punctual D J} `{!SessionRely D}.
Hypothesis (short_calls : J <= 100000).

(** C19: The session follows the socket: [session_service] reads the status
    register once, and until it acts upon the result - in [g1], the state after
    this read and the sampling of the clock - the session, its parser, the
    count of discarded responses and, while idle, the responses are left alone.
    If the read failed, it does nothing more.  On ESTABLISHED it starts a
    session unless one is active; on any other state it ends the active one;
    otherwise it changes nothing.  Whenever a session starts or ends, the parser
    is as new, no response of another connection is left in the queue, and
    exactly the responses that waited in [g1] are counted as discarded. *)
Theorem session_follows_socket l (g : gateway D) :
  ready g ->
  wp (session_service l) (fun l' g' => exists st rx g1,
    acts_in J st rx g g1 /\ undisturbed g g1 /\ within (2 * J) g g1 /\
    within (9 * J) g1 g' /\ followed st (arr_get rx 3) l l' g1 g') g.
Proof.
  intros Hr. pose proof (J_nonneg J g) as HJ. unfold session_service.
  destruct (wp_run _ _ g (read_register_ok J undisturbed not_session_var W5500_SOCKET0_READ_VDM
    W5500_SOCKET0_SR_ADDRESS (Some W5500_SOCKET0_STATUS_CLOSED) g)) as ([st v] & g1 & Erun & ws & Tr & rx & Hrx & -> & Hv).
  cbn [fst snd] in *. subst v. eapply wp_bind_run; [exact Erun|].
  pose proof (tr_rest _ _ _ _ _ Tr) as U1. pose proof (tr_time _ _ _ _ _ Tr) as W1.
  apply wp_bind, wp_modify. cbn [default from_option id]. set (g2 := put g_w5500_socket0_spi_status st g1).
  assert (undisturbed g1 g2) as U2 by (by apply (spi_put (ok := not_session_var))).
  destruct (st =? HAL_OK) eqn:Est.
  - destruct (wp_run _ _ g2 (wp_tick_traced J undisturbed not_session_var
      (fun _ g' => traced undisturbed J [] g2 g') g2 (fun g' H => H))) as (now & g3 & Etick & Tr3).
    eapply wp_bind_run; [exact Etick|]. apply wp_bind, wp_modify. cbv zeta. set (l1 := if _ || _ then _ else l).
    assert (previous_socket_status l1 = arr_get rx 3 /\ socket_state_initialized l1 <> 0) as [E1 E2].
    { unfold l1. destruct (_ || _) eqn:E; [done|]. cbn in E. lia. }
    set (g4 := put g_w5500_socket0_status (arr_get rx 3) g3).
    assert (undisturbed g2 g4) as U4
      by (etrans; [exact (tr_rest _ _ _ _ _ Tr3)|by apply (spi_put (ok := not_session_var))]).
    assert (within J g2 g4) as W4 by exact (tr_time _ _ _ _ _ Tr3).
    assert (undisturbed g g4) as U by (etrans; [exact U1|]; by etrans).
    apply (follow_ok J); [done|lia|by eapply kept_ready; [|apply U]|].
    intros l' g' W' F. exists st, rx, g4. split.
    { exists g1. rewrite Est. split; [exact Erun|]. split; [exact Tr|]. cbv zeta. exists now, g3. by split. }
    split; [exact U|]. split; [replace (2 * J) with (J + J) by lia; by eapply (within_trans J J _ g1)|].
    split; [exact W'|]. unfold followed. rewrite Est.
    destruct (_ =? W5500_SOCKET0_STATUS_ESTABLISHED).
    + destruct F as [-> F]. done.
    + destruct F as (-> & F1 & F2). done.
  - apply wp_ret. exists st, rx, g2. split.
    { exists g1. rewrite Est. done. }
    split; [by etrans|]. split; [eapply within_weaken; [|exact W1]; lia|].
    split; [eapply within_weaken; [|by apply within_same]; lia|]. unfold followed. by rewrite Est.
Qed.
End Properties.

(** ** The chip of the witnesses respects sessions *)
#[export] Instance chip_rely : SessionRely chip.
Proof. by split. Qed.

(** A session in progress, with a response waiting, whose socket is closed. *)
Definition chip_session : gateway chip :=
  put g_w5500_tcp_session_active 1 (chip_gateway <| queue_of := fun _ => Some [zero_packet] |>).

Lemma chip_session_ready : ready chip_session.
Proof. split; [by vm_compute|discriminate]. Qed.

Definition demo_locals : eth_locals :=
  mk_eth_locals 0 0 0 0 0 0 0 0 1 0 0 W5500_SOCKET0_STATUS_ESTABLISHED.

Lemma session_follows_socket_witness :
  wp (session_service demo_locals) (fun l' g' => exists st rx g1,
    acts_in 2 st rx chip_session g1 /\ undisturbed chip_session g1 /\ within (2 * 2) chip_session g1 /\
    within (9 * 2) g1 g' /\ followed st (arr_get rx 3) demo_locals l' g1 g') chip_session.
Proof. apply (session_follows_socket 2); [lia|exact chip_session_ready]. Defined.
