(* ===== verification/GwService.v ===== *)
(** * The service loop of the Ethernet task

    Supervision, session, data service and wait composed: every iteration
    ends in bounded time, keeps the task's invariant and its deadlines, so
    the task never stops. *)
From S2P Require Import Prelude Crc16 Protocol StreamParser RxRing GwDiag GwRs422 GwW5500 GwTcp GwUdp.
From S2P Require Export GwSession.
Local Open Scope Z_scope.

(** Nothing but [control_service] and the end of an iteration moves the
    deadlines. *)
Definition same_deadlines (l l' : eth_locals) : Prop :=
  next_phy_tick l' = next_phy_tick l /\ next_data_service_tick l' = next_data_service_tick l.

Section Loop.
Context {D : Type} `{!World D} `{!SpiBus D} `{!SpiOwner D} (J : Z) `{!Punctual D J} `{!SessionRely D}.
Hypothesis (short_calls : 11 * J < 4000000000) (J_nonneg : 0 <= J).
Implicit Types g : gateway D.
Abbreviation timed := (timed task_inv (invariant (D := D))).
Abbreviation any := (fun _ => True).

Lemma timed_up {A} T (Q : A -> Prop) (m : M D A) : GwTask.timed ready kept T Q m -> timed T Q m.
Proof.
  intros H. eapply timed_lift; [exact H| |]; [by intros g []|]. intros g g' _ Hk. by apply kept_invariant.
Qed.

Lemma timed_bind_locals {A} T1 T2 l (Q : A -> Prop) (m : M D eth_locals) (f : eth_locals -> M D A) :
  timed T1 (same_deadlines l) m -> (forall l', same_deadlines l l' -> timed T2 Q (f l')) ->
  timed (T1 + T2) Q (m ≫= f).
Proof. intros H1 H2. by eapply (timed_bind task_inv invariant). Qed.

(** *** Sessions *)

Lemma idle_inv n g g' :
  var g' g_w5500_tcp_session_active = 0 -> cleared n g g' -> task_inv g'.
Proof. intros Ha [P Q _ R]. split; [done|]. intros _. done. Qed.

Lemma timed_invalidate : timed (9 * J) any (w5500_tcp_invalidate_connection_context (D := D)).
Proof.
  intros g [Hr Hi]. eapply wp_mono; [by apply invalidate_ok|]. intros _ g' (Hw & Ha & Hc).
  split; [done|]. split; [done|]. intros _. by eapply idle_inv.
Qed.

Lemma timed_begin_session socket_tick g :
  task_inv g -> var g g_w5500_tcp_session_active = 0 ->
  wp (begin_session socket_tick) (fun _ g' => True /\ within (8 * J) g g' /\ invariant g g') g.
Proof.
  intros [Hr Hi] Ha. eapply wp_mono; [by apply begin_session_ok|]. intros _ g' (Hw & Ha' & Hc).
  split; [done|]. split; [done|]. intros _. split; [by apply (cl_ready _ _ _ Hc)|].
  intros H. rewrite Ha' in H. done.
Qed.
End Loop.
#[export] Hint Resolve timed_up | 10 : timed.
#[export] Hint Resolve timed_invalidate : timed.
#[export] Hint Extern 2 (same_deadlines _ _) => solve [unfold same_deadlines in *; repeat case_match; cbn; intuition congruence] : timed.

Ltac locals_step :=
  lazymatch goal with
  | |- timed ?P ?R _ (same_deadlines ?l) (@mbind _ _ eth_locals _ _ _) =>
      eapply (timed_bind_locals _ _ l); [|intros ? ?]
  | |- timed ?P ?R _ (same_deadlines _) (mret _) =>
      apply (timed_ret P R); solve [unfold same_deadlines in *; repeat case_match; cbn; intuition congruence]
  | _ => timed_step
  end.
Ltac locals_auto :=
  lazymatch goal with
  | |- timed ?P ?R _ _ _ => eapply (timed_within P R); [repeat locals_step|]
  end.

Section Supervision.
Context {D : Type} `{!World D} `{!SpiBus D} `{!SpiOwner D} (J : Z) `{!Punctual D J} `{!SessionRely D}.
Hypothesis (short_calls : 11 * J < 4000000000) (J_nonneg : 0 <= J).
Implicit Types g : gateway D.
Implicit Types l : eth_locals.
Abbreviation M := (M D).
Abbreviation timed := (timed task_inv (invariant (D := D))).
Abbreviation any := (fun _ => True).

(** *** The link *)

Lemma timed_link_lost l0 l :
  same_deadlines l0 l -> timed (10 * J) (same_deadlines l0) (phy_link_lost l).
Proof. intros Hl. unfold phy_link_lost, ethernet_diag_arm_recovery. locals_auto. lia. Qed.
#[local] Hint Resolve timed_link_lost : timed.

Lemma timed_phy_sample up l0 l :
  same_deadlines l0 l -> timed (12 * J) (same_deadlines l0) (phy_sample up l).
Proof.
  intros Hl. unfold phy_sample, phy_link_found, ethernet_diag_record_link_up. locals_auto. lia.
Qed.
#[local] Hint Resolve timed_phy_sample : timed.

Lemma timed_phy_service l : timed (13 * J) (same_deadlines l) (phy_service l).
Proof.
  unfold phy_service. eapply (timed_within task_inv invariant).
  - eapply (timed_bind task_inv invariant _ _ (fun _ => True)); [repeat locals_step|].
    intros [st v] _. repeat locals_step.
  - lia.
Qed.
#[local] Hint Resolve timed_phy_service : timed.

(** *** The TCP life cycle *)

Definition restart_time : Z := 17 * J + command_time J + state_time J + start_time J.
Lemma timed_restart : timed restart_time any (w5500_restart_tcp_server (D := D)).
Proof. unfold w5500_restart_tcp_server. timed_auto. unfold restart_time. times. Qed.
#[local] Hint Resolve timed_restart : timed.

Lemma timed_listening_again l0 l :
  same_deadlines l0 l -> timed J (same_deadlines l0) (listening_again l).
Proof. intros Hl. unfold listening_again. locals_auto. lia. Qed.
Lemma timed_retry_later l0 l : same_deadlines l0 l -> timed J (same_deadlines l0) (retry_later l).
Proof. intros Hl. unfold retry_later. locals_auto. lia. Qed.
#[local] Hint Resolve timed_listening_again timed_retry_later : timed.

Lemma timed_network_ok : timed 0 any (eth_network_ok (D := D)).
Proof. unfold eth_network_ok. locals_auto. lia. Qed.
#[local] Hint Resolve timed_network_ok : timed.

Definition lifecycle_time : Z := restart_time + 10 * J.

Lemma timed_lifecycle l : timed lifecycle_time (same_deadlines l) (tcp_lifecycle_service l).
Proof.
  unfold tcp_lifecycle_service, recovery_service, restart_service, socket_state_service,
    close_wait_service, other_state_service, restart_at, after_start.
  locals_auto. unfold lifecycle_time, restart_time. times.
Qed.
#[local] Hint Resolve timed_lifecycle : timed.

(** *** The session *)

(** Starting or ending the session, the mark read first. *)
Lemma timed_follow status tick l0 l :
  same_deadlines l0 l ->
  timed (9 * J) (same_deadlines l0)
    (active ← rd g_w5500_tcp_session_active;
     if status =? W5500_SOCKET0_STATUS_ESTABLISHED then
       when (active =? 0) (begin_session tick);;
       mret (l <| graceful_disconnect_pending := 0 |>)
     else
       when (negb (active =? 0)) (
         wr g_w5500_tcp_init_ok 0;;
         wr g_w5500_tcp_listen_ok 0;;
         w5500_tcp_invalidate_connection_context);;
       mret l).
Proof.
  intros Hl g Hg. apply wp_bind, wp_gets. destruct (status =? _).
  - assert (forall g', within (8 * J) g g' -> invariant g g' ->
      same_deadlines l0 (l <| graceful_disconnect_pending := 0 |>) /\ within (9 * J) g g' /\
      invariant g g') as Hdone.
    { intros g' Hw Hi. split; [done|]. split; [|done]. eapply within_weaken; [|exact Hw]. lia. }
    destruct (var g g_w5500_tcp_session_active =? 0) eqn:Ea; cbn [when].
    + apply wp_bind. eapply wp_mono; [apply (timed_begin_session J); try done; lia|].
      intros _ g' (_ & Hw & Hi). apply wp_ret. by apply Hdone.
    + wp_auto. apply Hdone; [|reflexivity]. eapply within_weaken; [|by apply within_same]. lia.
  - assert (forall b, timed (9 * J) (same_deadlines l0)
      (when b (wr g_w5500_tcp_init_ok 0;; wr g_w5500_tcp_listen_ok 0;;
               w5500_tcp_invalidate_connection_context);; mret l)) as Hend
      by (intros b; locals_auto; lia).
    by apply Hend.
Qed.

Definition session_time : Z := 11 * J.
Lemma timed_session l0 l :
  same_deadlines l0 l -> timed session_time (same_deadlines l0) (session_service l).
Proof.
  intros Hl. unfold session_service. eapply (timed_within task_inv invariant).
  - eapply (timed_bind task_inv invariant _ _ (fun _ => True)); [repeat locals_step|].
    intros [st v] _. locals_step; [locals_step|].
    locals_step; [|locals_step]. do 2 (locals_step; [locals_step|]).
    apply timed_follow. unfold same_deadlines in *. destruct (_ || _); done.
  - unfold session_time. lia.
Qed.
End Supervision.

(** ** Deadlines on a clock that wraps *)
Section Ahead.
Context {D : Type}.
Implicit Types g : gateway D.

Lemma ahead_mod t t' u : u32 t = u32 t' -> ahead t u = ahead t' u.
Proof.
  intros H. assert (exists m, t' = t + m * 4294967296) as [m ->].
  { exists (t' / 4294967296 - t / 4294967296). unfold u32 in H.
    pose proof (Z.div_mod t 4294967296). pose proof (Z.div_mod t' 4294967296). lia. }
  unfold ahead. destruct (i32_as (u - (t + m * 4294967296))) as (k & E & R).
  rewrite E. apply i32_of with (k - m); lia.
Qed.

(** [e] ticks later. *)
Lemma ahead_later t t' u e :
  u32 t' = u32 (t + e) -> - 2147483648 <= ahead t u - e < 2147483648 ->
  ahead t' u = ahead t u - e.
Proof.
  intros Ht H. rewrite (ahead_mod t' (t + e)) by done. unfold ahead in *.
  destruct (i32_as (u - t)) as (m & E & R). apply i32_of with m; lia.
Qed.

(** The deadline [u] is at most [B] ticks past and at most [U] ahead. *)
Definition timely (B U u : Z) g : Prop := - B <= ahead (tick g) u <= U.

Lemma timely_within T B U u g g' :
  within T g g' -> timely B U u g -> U < 2147483648 -> B + T <= 2147483648 -> timely (B + T) U u g'.
Proof.
  intros (e & He & E) [H1 H2] HU Hb. unfold timely.
  rewrite (ahead_later (tick g) _ _ e) by (done || lia). lia.
Qed.
Lemma timely_later T U u g g' :
  within T g g' -> timely 0 U u g -> U < 2147483648 -> T <= 2147483648 -> timely T U u g'.
Proof. intros W H HU HT. by apply (timely_within T 0 U u g). Qed.
End Ahead.

Section Iteration.
Context {D : Type} `{!World D} `{!SpiBus D} `{!SpiOwner D} (J : Z) `{!Punctual D J} `{!SessionRely D}.
Hypothesis (short_calls : J <= 100000) (J_nonneg : 0 <= J).
Implicit Types g : gateway D.
Implicit Types l : eth_locals.
Abbreviation M := (M D).
Abbreviation timed := (timed task_inv (invariant (D := D))).
Abbreviation any := (fun _ => True).

Lemma wp_timed {A B} T (Q : A -> Prop) (m : M A) (f : A -> M B) (K : B -> gateway D -> Prop) g :
  timed T Q m -> task_inv g ->
  (forall a g', Q a -> within T g g' -> task_inv g' -> wp (f a) K g') -> wp (m ≫= f) K g.
Proof.
  intros Hm Hg Hf. apply wp_bind. eapply wp_mono; [by apply Hm|]. intros a g' (Ha & Hw & Hi).
  apply Hf; auto.
Qed.

(** The next deadline, after the work, is in the future. *)
Lemma wp_next_deadline period next {B} (f : Z -> M B) K g :
  0 < period < 2147483648 -> task_inv g -> 
  (forall g1, within J g g1 -> task_inv g1 -> - 2147483648 < ahead (tick g1) next <= 0) ->
  (forall next' g', within J g g' -> task_inv g' -> 0 < ahead (tick g') next' <= period ->
     wp (f next') K g') ->
  wp (now ← osKernelGetTickCount; next' ← lift_option (next_deadline now period next); f next') K g.
Proof.
  intros Hp Hg Hpast Hf. apply wp_bind, wp_tick. cbv zeta. set (g1 := env _ _).
  assert (within J g g1) as Hw by (by apply within_preempt).
  assert (task_inv g1) as Hi by (by apply (kept_invariant g), Hg; apply kept_preempt).
  destruct (next_deadline_ok (tick g1) period next) as (Hn & _ & Ha & _); [done|auto|].
  rewrite Hn. cbn [lift_option]. wp_auto. by apply Hf.
Qed.

(** *** The wait *)

Lemma kept_consumed v g :
  kept g (g <| notif_of := upd EthernetTask (mk_notification v false) (notif_of g) |>).
Proof.
  split; try done. by left.
Qed.

(** Consuming the notification: it carries a flag, or time was up. *)
Lemma wp_notify_wait tout (K : bool * Z -> gateway D -> Prop) g :
  0 <= tout < osWaitForever -> task_inv g ->
  (forall pass nval g', within (2 * J + tout) g g' -> task_inv g' ->
     (pass = true -> Z.land ETHERNET_EVENT_MASK nval <> 0) -> K (pass, nval) g') ->
  wp (xTaskNotifyWait EthernetTask ETHERNET_EVENT_MASK tout) K g.
Proof.
  intros Ht Hg HK. unfold xTaskNotifyWait. apply wp_bind, wp_preempt. set (g1 := env _ _).
  assert (kept g g1) as K1 by apply kept_preempt.
  assert (within J g g1) as W1 by (by apply within_preempt). wp_auto.
  assert (forall g2, within (2 * J + tout) g g2 -> kept g g2 ->
    wp (n ← gets (fun g => notif_of g EthernetTask);
        let nval := notified_value n in
        if notify_received n
        then on_notif EthernetTask (fun _ => mk_notification (Z.ldiff nval ETHERNET_EVENT_MASK) false);;
             mret (true, nval)
        else on_notif EthernetTask (fun n => mk_notification (notified_value n) false);;
             mret (false, nval)) K g2) as Hend.
  { intros g2 W2 K2. assert (task_inv g2) as H2 by (by apply (kept_invariant g)).
    pose proof (rd_flags _ (inv_ready _ H2)) as Hf. unfold flags_ok in Hf.
    unfold on_notif. wp_auto. destruct (notify_received (notif_of g2 EthernetTask)); wp_auto.
    all: apply HK; [exact W2| |by auto].
    all: apply (kept_invariant g2), H2; apply kept_consumed. }
  destruct (_ || _) eqn:E.
  - apply wp_ret, Hend; [eapply within_weaken; [|exact W1]; lia|done].
  - apply orb_false_iff in E as [_ E]. apply wp_bind, wp_preempt. set (g2 := env _ _).
    assert (kept g g2) as K2 by (etrans; [exact K1|apply kept_preempt]).
    assert (within (J + J) g g2) as W2 by (eapply within_trans; [exact W1|by apply within_preempt]).
    wp_auto. destruct (notify_received _).
    + apply wp_ret, Hend; [eapply within_weaken; [|exact W2]; lia|done].
    + rewrite (proj2 (Z.eqb_neq tout osWaitForever)) by lia. apply wp_modify, Hend.
      * replace (2 * J + tout) with (J + J + tout) by lia. eapply within_trans; [exact W2|].
        exists tout. split; [lia|]. st_simpl. unfold u32. by rewrite Zmod_mod.
      * etrans; [exact K2|]. by apply kept_same.
Qed.

Lemma wp_flags_wait timeout (K : Z -> gateway D -> Prop) g :
  0 <= timeout < osWaitForever -> task_inv g ->
  (forall r g', within (3 * J + timeout) g g' -> task_inv g' -> K r g') ->
  wp (osThreadFlagsWait EthernetTask ETHERNET_EVENT_MASK timeout) K g.
Proof.
  intros Ht Hg HK. unfold osThreadFlagsWait. eapply wp_timed; [apply timed_up, (timed_tick J ready)|done|].
  intros t0 g1 _ W1 H1. cbn [flags_wait_loop]. apply wp_bind, wp_notify_wait; [done|done|].
  intros pass nval g2 W2 H2 Hp.
  assert (within (3 * J + timeout) g g2) as W.
  { replace (3 * J + timeout) with (J + (2 * J + timeout)) by lia. by eapply within_trans. }
  destruct pass; [|wp_auto; by apply HK].
  rewrite (proj2 (Z.eqb_neq _ 0)); [wp_auto; by apply HK|]. rewrite Z.land_0_l, Z.lor_0_l. auto.
Qed.

Lemma eth_wait_ok l (K : eth_locals -> gateway D -> Prop) g :
  task_inv g ->
  (forall l' g1 g', within J g g1 ->
     within (3 * J + eth_wait_ticks (tick g1) (next_data_service_tick l) (next_phy_tick l)) g1 g' ->
     task_inv g' -> same_deadlines l l' -> K l' g') ->
  wp (eth_wait l) K g.
Proof.
  intros Hg HK. unfold eth_wait. apply wp_bind, wp_tick. cbv zeta. set (g1 := env _ _).
  assert (within J g g1) as W1 by (by apply within_preempt).
  assert (task_inv g1) as H1 by (by apply (kept_invariant g), Hg; apply kept_preempt).
  apply wp_bind, wp_flags_wait; [|done|].
  - pose proof (eth_wait_ticks_ok (tick g1) (next_data_service_tick l) (next_phy_tick l)) as [A1 A2].
    pose proof (ahead_range (tick g1) (next_data_service_tick l)).
    pose proof (ahead_range (tick g1) (next_phy_tick l)). unfold osWaitForever.
    destruct (Z.le_gt_cases (ahead (tick g1) (next_data_service_tick l)) 0); [rewrite A2; lia|].
    destruct (Z.le_gt_cases (ahead (tick g1) (next_phy_tick l)) 0); [rewrite A2; lia|].
    rewrite A1; lia.
  - intros r g' W' H'. apply wp_ret. eapply HK; [exact W1|exact W'|done|].
    by destruct (negb _).
Qed.

(** *** Supervision and its deadline *)

Definition control_time : Z := 14 * J + lifecycle_time J.

Lemma control_ok B l (K : eth_locals -> gateway D -> Prop) g :
  task_inv g -> timely B 0 (next_phy_tick l) g -> B + control_time < 2147483648 ->
  (forall l' g', next_data_service_tick l' = next_data_service_tick l -> within control_time g g' ->
     task_inv g' -> timely 0 100 (next_phy_tick l') g' -> K l' g') ->
  wp (control_service l) K g.
Proof.
  intros Hg Hd Hb HK. unfold control_service.
  assert (11 * J < 4000000000) as Hs by lia.
  eapply wp_timed; [by apply (timed_phy_service J)|done|]. intros l1 g1 [P1 D1] W1 H1.
  eapply wp_timed; [by apply (timed_lifecycle J)|done|]. intros l2 g2 [P2 D2] W2 H2.
  apply (wp_next_deadline phy_period_ticks); [vm_compute; done|done| |].
  - intros g3 W3 _.
    assert (within control_time g g3) as W.
    { replace control_time with (13 * J + (lifecycle_time J + J)) by (unfold control_time; lia).
      eapply within_trans; [exact W1|]. by eapply within_trans. }
    assert (timely (B + control_time) 0 (next_phy_tick l2) g3) as [X1 X2].
    { rewrite P2, P1. eapply timely_within; [exact W|done|lia|lia]. }
    lia.
  - intros next' g3 W3 H3 Hn. apply wp_ret. apply HK; cbn; [congruence| |done|].
    + replace control_time with (13 * J + (lifecycle_time J + J)) by (unfold control_time; lia).
      eapply within_trans; [exact W1|]. by eapply within_trans.
    + unfold timely. change phy_period_ticks with 100 in Hn. lia.
Qed.

(** *** One iteration *)

(** The longest an iteration works before it waits, and how late the next
    one may find its deadlines. *)
Definition busy_time : Z := control_time + tcp_time J + udp_time J + 16 * J.
Definition slack : Z := busy_time + 4 * J.

Definition on_time l g : Prop :=
  timely slack 100 (next_phy_tick l) g /\ timely slack 1 (next_data_service_tick l) g.

Ltac sizes := unfold slack, busy_time, control_time, lifecycle_time, restart_time, tcp_time, rx_time,
  udp_time, drain_time, response_time, start_time, listen_time, send_time, state_time, free_time,
  result_time, command_time, poll_time in *; lia.

Lemma slack_small : 4 * J <= busy_time /\ slack + busy_time < 2147483000.
Proof. split; sizes. Qed.

(** Whether a deadline was due shows where it is. *)
Lemma due_or_not B U next g :
  timely B U next g -> 0 <= U -> 0 <= B < 2147483648 ->
  if reached (tick g) next then timely B 0 next g else timely 0 U next g.
Proof.
  intros [H1 H2] HU HB. rewrite reached_ahead by lia. unfold timely.
  destruct (Z.leb_spec (ahead (tick g) next) 0); lia.
Qed.

Lemma after_wait l g1 g' :
  timely (busy_time + J) 100 (next_phy_tick l) g1 ->
  timely (busy_time + J) 1 (next_data_service_tick l) g1 ->
  within (3 * J + eth_wait_ticks (tick g1) (next_data_service_tick l) (next_phy_tick l)) g1 g' ->
  on_time l g' /\ within (3 * J + 1) g1 g'.
Proof.
  intros Hp Hd W. pose proof slack_small as [S1 S2].
  destruct (eth_wait_ticks_ok (tick g1) (next_data_service_tick l) (next_phy_tick l)) as [A1 A2].
  assert (slack = busy_time + J + 3 * J) as Hs by (unfold slack; lia).
  assert (0 <= busy_time) by sizes.
  unfold timely in Hp, Hd. destruct W as (e & He & E).
  assert (forall U next, ahead (tick g1) next <= U -> U <= 100 ->
    - slack <= ahead (tick g1) next - e -> timely slack U next g') as Hlater.
  { intros U next H1 H2 H3. unfold timely. rewrite (ahead_later (tick g1) _ _ e) by (done || lia). lia. }
  set (w := eth_wait_ticks _ _ _) in *.
  assert ((w = 0 \/ 0 <= w <= 1 /\ w <= ahead (tick g1) (next_phy_tick l) /\
           w <= ahead (tick g1) (next_data_service_tick l))) as Hw.
  { destruct (Z.le_gt_cases (ahead (tick g1) (next_data_service_tick l)) 0); [left; auto|].
    destruct (Z.le_gt_cases (ahead (tick g1) (next_phy_tick l)) 0); [left; auto|].
    right. rewrite A1 by done. lia. }
  split; [split; apply Hlater; lia|]. exists e. split; [lia|done].
Qed.

Lemma timed_option {A} (b : bool) T (Q : A -> Prop) (m : M A) a :
  0 <= T -> Q a -> timed T Q m -> timed T Q (if b then m else mret a).
Proof.
  intros HT Ha Hm. destruct b; [done|]. eapply (timed_within task_inv invariant); [|exact HT].
  by apply (timed_ret task_inv invariant).
Qed.

(** The data service, between supervision and its deadline. *)
Definition data_service (due event : bool) (l : eth_locals) : M eth_locals :=
  data_cycle_start_cycles ← (if due then data_service_start l else mret 0);
  ok ← eth_network_ok;
  link_up ← rd g_w5500_link_up;
  l ← (if due && (ok : bool) && negb (link_up =? 0) then session_service l else mret l);
  tcp_data_service due event;;
  udp_open ← rd g_w5500_udp_open_ok;
  when (due && negb (udp_open =? 0)) udp_data_service;;
  when due (data_service_account data_cycle_start_cycles);;
  mret l.

Definition service_time : Z := tcp_time J + udp_time J + 14 * J.

Lemma timed_data_service due event l :
  timed service_time (same_deadlines l) (data_service due event l).
Proof.
  assert (11 * J < 4000000000) as Hs by lia.
  unfold data_service. eapply (timed_within task_inv invariant).
  - eapply (timed_bind task_inv invariant _ _ any).
    { apply (timed_option _ (2 * J)); [lia|done|]. by apply timed_up, (timed_service_start J). }
    intros c _. eapply (timed_bind task_inv invariant _ _ any); [apply timed_network_ok|]. intros ok _.
    eapply (timed_bind task_inv invariant _ _ any); [locals_step|]. intros link _.
    eapply timed_bind_locals.
    { apply (timed_option _ (session_time J)); [unfold session_time; lia|done|]. by apply (timed_session J). }
    intros l1 Hl1. eapply (timed_bind task_inv invariant _ _ any).
    { by apply timed_up, (timed_tcp_service J). }
    intros _ _. eapply (timed_bind task_inv invariant _ _ any); [locals_step|]. intros udp _.
    eapply (timed_bind task_inv invariant _ _ any).
    { apply (timed_when task_inv invariant); [done|]. by apply timed_up, (timed_udp_service J). }
    intros _ _. eapply (timed_bind task_inv invariant _ _ any).
    { apply (timed_when task_inv invariant); [done|]. by apply timed_up, (timed_service_account J). }
    intros _ _. by apply (timed_ret task_inv invariant).
  - unfold service_time, session_time. assert (0 <= udp_time J) by sizes. lia.
Qed.

(** An iteration is its parts in order. *)
Lemma iteration_parts l g :
  eth_task_iteration l g =
  (current_tick ← osKernelGetTickCount;
   let due := reached current_tick (next_data_service_tick l) in
   let event := negb (Z.land (pending_ethernet_events l) ETHERNET_EVENT_TCP_RESPONSE_READY =? 0) in
   l' ← (if reached current_tick (next_phy_tick l)
         then control_service (l <| pending_ethernet_events := 0 |>)
         else mret (l <| pending_ethernet_events := 0 |>));
   l' ← data_service due event l';
   l' ← (if due then
           deadline_now ← osKernelGetTickCount;
           next ← lift_option (next_deadline deadline_now data_service_period_ticks
                                 (next_data_service_tick l'));
           mret (l' <| next_data_service_tick := next |>)
         else mret l');
   eth_wait l') g.
Proof.
  unfold eth_task_iteration, data_service, mbind, M_bind, mret, M_ret.
  repeat (case_match; simplify_eq; try done).
Qed.

(** Being late by [B] or early by [U], [T] ticks before and after. *)
Lemma timely_weaken B B' U U' u g :
  timely B U u g -> B <= B' -> U <= U' -> timely B' U' u g.
Proof. unfold timely. lia. Qed.

Definition iteration_time : Z := slack + 1.

(** Supervision, when due: the PHY deadline is in the future after it. *)
Lemma supervision_ok B l (K : eth_locals -> gateway D -> Prop) g :
  task_inv g -> timely B 100 (next_phy_tick l) g -> 0 <= B -> B + control_time < 2147483648 ->
  (forall l' g', next_data_service_tick l' = next_data_service_tick l -> within control_time g g' ->
     task_inv g' -> timely 0 100 (next_phy_tick l') g' -> K l' g') ->
  wp (if reached (tick g) (next_phy_tick l) then control_service l else mret l) K g.
Proof.
  intros Hg Hp HB Hb HK. assert (0 <= control_time) by sizes.
  pose proof (due_or_not _ _ _ _ Hp ltac:(lia) ltac:(lia)) as Hd.
  destruct (reached _ _); [by apply (control_ok B)|].
  apply wp_ret, HK; [done| |done|done]. by eapply within_weaken; [|apply within_same].
Qed.

(** The data deadline, moved when it was due. *)
Lemma data_deadline_ok (due : bool) B l (K : eth_locals -> gateway D -> Prop) g :
  task_inv g -> B + J < 2147483648 ->
  (if due then timely B 0 (next_data_service_tick l) g
   else timely busy_time 1 (next_data_service_tick l) g) ->
  (forall l' g', next_phy_tick l' = next_phy_tick l -> within J g g' -> task_inv g' ->
     timely busy_time 1 (next_data_service_tick l') g' -> K l' g') ->
  wp (if due then
        deadline_now ← osKernelGetTickCount;
        next ← lift_option (next_deadline deadline_now data_service_period_ticks
                              (next_data_service_tick l));
        mret (l <| next_data_service_tick := next |>)
      else mret l) K g.
Proof.
  intros Hg HB Hd HK. assert (0 <= busy_time) by sizes. destruct due.
  - apply (wp_next_deadline data_service_period_ticks); [vm_compute; done|done| |].
    + intros g1 W1 _. assert (timely (B + J) 0 (next_data_service_tick l) g1) as [X1 X2]; [|lia].
      eapply timely_within; [exact W1|done|lia|lia].
    + intros next' g1 W1 H1 Hn. apply wp_ret, HK; try done.
      change data_service_period_ticks with 1 in Hn. cbn. unfold timely. lia.
  - apply wp_ret, HK; [done|by eapply within_weaken; [|apply within_same]|done|done].
Qed.

Lemma iteration_ok l g :
  task_inv g -> on_time l g ->
  wp (eth_task_iteration l) (fun l' g' =>
    within iteration_time g g' /\ task_inv g' /\ on_time l' g') g.
Proof.
  intros Hg [Hp Hd]. unfold wp. rewrite iteration_parts. cbv zeta.
  match goal with |- match ?m g with _ => _ end => change (wp m (fun l' g' =>
    within iteration_time g g' /\ task_inv g' /\ on_time l' g') g) end.
  pose proof slack_small as [S1 S2].
  assert (slack = busy_time + 4 * J /\ busy_time = J + control_time + service_time + J) as [Hslack Hbusy]
    by (unfold slack, busy_time, service_time; lia).
  assert (0 <= control_time /\ 0 <= service_time) as (C0 & C1) by (unfold service_time; split; sizes).
  apply wp_bind, wp_tick. cbv zeta. set (g1 := env _ _).
  assert (within J g g1) as W1 by (by apply within_preempt).
  assert (task_inv g1) as H1 by (by apply (kept_invariant g), Hg; apply kept_preempt).
  assert (timely (slack + J) 100 (next_phy_tick l) g1 /\ timely (slack + J) 1 (next_data_service_tick l) g1)
    as [Hp1 Hd1] by (split; (eapply timely_within; [exact W1|done|lia|lia])).
  pose proof (due_or_not _ _ _ _ Hd1 ltac:(lia) ltac:(lia)) as Hdue. clear Hp Hd Hd1.
  set (due := reached (tick g1) (next_data_service_tick l)) in *.
  set (l0 := l <| pending_ethernet_events := 0 |>).
  change (next_phy_tick l) with (next_phy_tick l0). apply wp_bind.
  apply (supervision_ok (slack + J)); [done|done|lia|lia|].
  intros l2 g2 E2 W2 H2 Hp2. change (next_data_service_tick l0) with (next_data_service_tick l) in E2.
  eapply wp_timed; [apply timed_data_service|done|]. intros l3 g3 [P3 D3] W3 H3.
  pose proof (within_trans _ _ _ _ _ W2 W3) as W13.
  apply wp_bind, (data_deadline_ok due (slack + J + (control_time + service_time))); [done|lia| |].
  { rewrite D3, E2. destruct due; [by eapply timely_within; [exact W13|done|lia|lia]|].
    eapply timely_weaken; [eapply timely_later; [exact W13|done|lia|lia]|lia|lia]. }
  intros l4 g4 E4 W4 H4 Hd4. apply eth_wait_ok; [done|]. intros l5 g5 g6 W5 W6 H6 [P6 D6].
  assert (on_time l4 g6 /\ within (3 * J + 1) g5 g6) as [[O1 O2] W56].
  { apply (after_wait _ g5); [| |exact W6]; (eapply timely_within; [exact W5| |lia|lia]); [|done].
    rewrite E4, P3. eapply timely_weaken;
      [eapply (timely_later (service_time + J)); [by eapply within_trans|done|lia|lia]|lia|lia]. }
  split; [|split; [done|split; [by rewrite P6|by rewrite D6]]].
  replace iteration_time with (J + ((control_time + service_time) + (J + (J + (3 * J + 1)))))
    by (unfold iteration_time; lia).
  eapply within_trans; [exact W1|]. eapply within_trans; [exact W13|].
  eapply within_trans; [exact W4|]. by eapply within_trans.
Qed.

Lemma iterations_ok n l g :
  task_inv g -> on_time l g ->
  wp (eth_iterations n l) (fun l' g' =>
    within (Z.of_nat n * iteration_time) g g' /\ task_inv g' /\ on_time l' g') g.
Proof.
  revert l g. induction n as [|n IH]; intros l g Hg Hl; cbn [eth_iterations].
  { apply wp_ret. split; [by apply within_same|done]. }
  apply wp_bind. eapply wp_mono; [by apply iteration_ok|]. intros l1 g1 (W1 & H1 & O1).
  eapply wp_mono; [by apply IH|]. intros l2 g2 (W2 & H2 & O2). split; [|done].
  replace (Z.of_nat (S n) * iteration_time) with (iteration_time + Z.of_nat n * iteration_time) by lia.
  by eapply within_trans.
Qed.
End Iteration.

Ltac sizes := unfold slack, busy_time, control_time, lifecycle_time, restart_time, tcp_time, rx_time,
  udp_time, drain_time, response_time, start_time, listen_time, send_time, state_time, free_time,
  result_time, command_time, poll_time in *; lia.

(** ** Start-up *)

(** Before the task runs: the others have found no session. *)
Definition before_start {D} (g : gateway D) : Prop :=
  ready g /\ var g g_w5500_tcp_session_active = 0.

#[export] Instance before_start_state D : SessionState (D := D) before_start.
Proof.
  split; [|by intros g []]. split; [apply _|]. intros g g' [H1 H2] K.
  split; [by eapply kept_ready|by rewrite (kp_active _ _ K)].
Qed.

Section StartUp.
Context {D : Type} `{!World D} `{!SpiBus D} `{!SpiOwner D} (J : Z) `{!Punctual D J} `{!SessionRely D}.
Hypothesis (short_calls : J <= 100000) (J_nonneg : 0 <= J).
Implicit Types g : gateway D.
Abbreviation timed := (timed before_start (kept (D := D))).
Abbreviation any := (fun _ => True).

Lemma timed_wr_mark : timed 0 any (wr (D := D) g_w5500_tcp_session_active 0).
Proof.
  apply (timed_modify before_start kept); [|done|done]. intros g [_ Ha].
  split; try done. by left.
Qed.
#[local] Hint Resolve timed_wr_mark | 0 : timed.

Lemma timed_reset_globals : timed 0 any (eth_reset_globals (D := D)).
Proof.
  unfold eth_reset_globals, ethernet_diag_initialize. timed_auto. lia.
Qed.
#[local] Hint Resolve timed_reset_globals : timed.

Lemma timed_bring_up : timed (6 + 11 * J) any (eth_bring_up (D := D)).
Proof.
  assert (11 * J < 4000000000) as Hs by lia.
  unfold eth_bring_up, w5500_hardware_reset, w5500_write_network_config, w5500_read_network_config,
    read_common_into, w5500_network_readback_matches.
  assert (timed 0 any (modify (fun g : gateway D => g <| hw := dwt_start (hw g) |>))) as Hstart.
  { apply (timed_modify before_start kept); [|done|done]. intros g _. by apply kept_same. }
  assert (timed (3 + J) any (osDelay 3)) as Hdelay by (apply (timed_delay J); lia).
  change (u32 (u32 (u64 (W5500_RESET_DELAY_MS * osKernelGetTickFreq + 999) / 1000) + 1)) with 3.
  timed_auto. lia.
Qed.
#[local] Hint Resolve timed_bring_up : timed.

Lemma timed_open_sockets : timed (2 * start_time J) any (eth_open_sockets (D := D)).
Proof.
  assert (11 * J < 4000000000) as Hs by lia.
  unfold eth_open_sockets, eth_network_ok. timed_auto. times.
Qed.
Lemma timed_timing_reference : timed 0 any (eth_timing_reference (D := D)).
Proof. unfold eth_timing_reference. timed_auto. lia. Qed.
#[local] Hint Resolve timed_open_sockets timed_timing_reference : timed.

Definition init_time : Z := 6 + 2 * start_time J + 12 * J.

Lemma reset_parser g :
  wp eth_reset_globals (fun _ g' => parser_of g' g_tcp_parser = parser_init) g.
Proof. reflexivity. Qed.

Lemma init_ok g :
  before_start g -> no_response g ->
  wp eth_task_init (fun l g' => within init_time g g' /\ task_inv g' /\ on_time J l g') g.
Proof.
  intros [Hr Ha] Hn. unfold eth_task_init. apply wp_bind. eapply wp_mono.
  { apply wp_conj; [apply timed_reset_globals; split; [exact Hr|exact Ha]|apply reset_parser]. }
  cbn beta. intros _ g1 [(_ & W1 & K1) Hp1].
  assert (task_inv g1) as H1.
  { split; [by eapply kept_ready|]. intros _. split; [done|].
    pose proof (kp_queue _ _ K1 Ha) as Hq. unfold no_response in *.
    destruct (queue_of g tcp_response_queue), (queue_of g1 tcp_response_queue); try done.
    subst. by apply suffix_nil_inv. }
  assert (before_start g1) as B1 by (split; [apply H1|by rewrite (kp_active _ _ K1)]).
  assert (forall g2, kept g1 g2 -> before_start g2) as Hb by (intros g2; by apply stable_closed).
  apply wp_bind. eapply wp_mono; [by apply timed_bring_up|]. intros _ g2 (_ & W2 & K2).
  apply wp_bind. eapply wp_mono; [by apply timed_open_sockets, Hb|]. intros p g3 (_ & W3 & K3).
  assert (kept g1 g3) as K13 by (by etrans).
  apply wp_bind. eapply wp_mono; [by apply timed_timing_reference, Hb|].
  intros _ g4 (_ & W4 & K4). apply wp_bind, wp_tick. cbv zeta. set (g5 := env _ _). wp_auto.
  assert (kept g1 g5) as K15 by (etrans; [exact K13|]; etrans; [exact K4|apply kept_preempt]).
  split; [|split].
  - replace (init_time) with (0 + ((6 + 11 * J) + (2 * start_time J + (0 + J)))) by (unfold init_time; lia).
    repeat (eapply within_trans; [eassumption|]). by apply within_preempt.
  - by apply (kept_invariant g1).
  - assert (0 <= slack J) as Hs by (pose proof (slack_small J) as [? _]; try lia; unfold slack; lia).
    assert (forall u, ahead u u = 0) as Hz by (intros u; unfold ahead; by rewrite Z.sub_diag).
    split; unfold timely; cbn; rewrite Hz; lia.
Qed.
End StartUp.

(** ** Properties *)
Section Properties.
Context {D : Type} `{!World D} `{!SpiBus D} `{!SpiOwner D} (J : Z) `{!Punctual D J} `{!SessionRely D}.
Hypothesis (short_calls : J <= 100000).

(** C18: The Ethernet task never stops and never falls behind for good: started
    before any session, with no response waiting, it initialises itself
    within 4450 ms and 54 kernel calls, and every iteration of its loop ends
    within 26.766 s and 759 kernel calls, whatever the chip answers and
    whatever the other tasks do within their rules.  Between iterations no
    deadline is further ahead than its period nor further behind than the
    longest iteration, and the session invariant holds: while no session is
    active, no response waits in the queue and the parser is as new. *)
Theorem ethernet_task_keeps_running :
  slack J = 26765 + 759 * J /\
  (forall g : gateway D, before_start g -> no_response g ->
     wp eth_task_init (fun l g' =>
       within (4450 + 54 * J) g g' /\ task_inv g' /\ on_time J l g') g) /\
  (forall l (g : gateway D), task_inv g -> on_time J l g ->
     wp (eth_task_iteration l) (fun l' g' =>
       within (26766 + 759 * J) g g' /\ task_inv g' /\ on_time J l' g') g) /\
  (forall n (g : gateway D), before_start g -> no_response g ->
     wp (StartEthernetTask n) (fun l g' => task_inv g' /\ on_time J l g') g).
Proof.
  assert (slack J = 26765 + 759 * J) as Hs by sizes.
  assert (init_time J = 4450 + 54 * J) as Hi by (unfold init_time; sizes).
  split; [exact Hs|]. split; [|split].
  - intros g H1 H2. rewrite <- Hi. apply (init_ok J); [done|by apply (J_nonneg J g)|done|done].
  - intros l g H1 H2. replace (26766 + 759 * J) with (iteration_time J) by (unfold iteration_time; lia).
    apply (iteration_ok J); [done|by apply (J_nonneg J g)|done|done].
  - intros n g H1 H2. pose proof (J_nonneg J g) as HJ. unfold StartEthernetTask. apply wp_bind.
    eapply wp_mono; [by apply (init_ok J)|]. intros l g1 (_ & Hg & Hl).
    eapply wp_mono; [by apply (iterations_ok J)|]. by intros l' g' (_ & H).
Qed.
End Properties.

Lemma chip_before_start : before_start chip_gateway /\ no_response chip_gateway.
Proof. split; [|done]. split; [|done]. split; [by vm_compute|discriminate]. Qed.

Lemma ethernet_task_keeps_running_witness :
  slack 2 = 28283 /\
  wp (StartEthernetTask 3) (fun l g' => task_inv g' /\ on_time 2 l g') chip_gateway.
Proof.
  destruct (ethernet_task_keeps_running (D := chip) 2) as (H1 & _ & _ & H4); [lia|].
  split; [exact H1|]. apply H4; apply chip_before_start.
Defined.
