(* ===== verification/GwIntake.v ===== *)
(** * Receiving from the TCP client

    [w5500_tcp_process_rx]: what crosses the SPI bus to fetch a chunk, and
    what its bytes do: every byte goes through the parser, every frame is
    counted, every PING joins the command queue or is counted as refused. *)
From S2P Require Import Prelude Crc16 Protocol StreamParser RxRing GwDiag GwRs422 GwW5500 GwTcp GwUdp.
From S2P Require Export GwTask.
Local Open Scope Z_scope.

(** ** Commands *)

Definition is_ping (p : protocol_packet_t) : bool := pkt_msg_id p =? MSG_PING.
Definition pings (es : list (stream_parser_event_t * protocol_packet_t)) : list protocol_packet_t :=
  List.filter is_ping (packets es).
Definition errors (es : list (stream_parser_event_t * protocol_packet_t)) : Z :=
  Z.of_nat (length (List.filter (fun ev => bool_decide (ev.1 = STREAM_EVENT_ERROR)) es)).

(** [acc] joined the queue [o], others took from its front. *)
Definition joined (acc : list protocol_packet_t) (o o' : option (list protocol_packet_t)) : Prop :=
  match o, o' with
  | Some q, Some q' => q' `suffix_of` q ++ acc
  | None, None => acc = []
  | _, _ => False
  end.

Lemma joined_nil o o' : shrinks o o' <-> joined [] o o'.
Proof. destruct o, o'; cbn; by rewrite ?app_nil_r. Qed.

Lemma joined_trans a1 a2 o1 o2 o3 : joined a1 o1 o2 -> joined a2 o2 o3 -> joined (a1 ++ a2) o1 o3.
Proof.
  destruct o1, o2, o3; cbn; try done; [|by intros -> ->].
  intros H1 H2. etrans; [exact H2|]. rewrite app_assoc. destruct H1 as [k ->].
  exists k. by rewrite app_assoc.
Qed.

(** ** What the bytes do *)
Definition intake_vars : list gvar :=
  map EthVar [g_w5500_tcp_valid_frame_count; g_w5500_tcp_ping_count; g_w5500_tcp_rx_error_count;
    g_w5500_tcp_rx_bytes] ++
  map Rs422Var [g_rs422_cmd_enqueue_success_count; g_rs422_cmd_enqueue_fail_count].

(** What the other tasks may do: take commands. *)
Class IntakeRely D `{!World D} := {
  intake_keeps : env_keeps (D := D) intake_vars;
  intake_parser n (g : gateway D) : parser_of (env n g) g_tcp_parser = parser_of g g_tcp_parser;
  intake_packet n (g : gateway D) :
    packet_of (env n g) g_tcp_received_packet = packet_of g g_tcp_received_packet;
  intake_commands n (g : gateway D) :
    shrinks (queue_of g rs422_cmd_queue) (queue_of (env n g) rs422_cmd_queue)
}.

Section Intake.
Context {D : Type} `{!World D} `{!SpiBus D} `{!SpiOwner D} `{!IntakeRely D}.
Implicit Types g : gateway D.
Implicit Types es : list (stream_parser_event_t * protocol_packet_t).

(** The effect of the events [es]. *)
Record taken_in es g g' : Prop := {
  ti_valid : went_up g_w5500_tcp_valid_frame_count (Z.of_nat (length (packets es))) g g';
  ti_pings : went_up g_w5500_tcp_ping_count (Z.of_nat (length (pings es))) g g';
  ti_errors : went_up g_w5500_tcp_rx_error_count (errors es) g g';
  ti_commands : exists acc, acc `sublist_of` pings es /\
    joined acc (queue_of g rs422_cmd_queue) (queue_of g' rs422_cmd_queue) /\
    went_up g_rs422_cmd_enqueue_success_count (Z.of_nat (length acc)) g g' /\
    went_up g_rs422_cmd_enqueue_fail_count (Z.of_nat (length (pings es) - length acc)) g g' /\
    forall q, queue_of g rs422_cmd_queue = Some q ->
      Z.of_nat (length q + length (pings es)) <= RS422_CMD_QUEUE_DEPTH -> acc = pings es
}.

(** Nothing was taken in, though others may have taken commands. *)
Record untouched g g' : Prop := {
  ut_vars : same_vars intake_vars g g';
  ut_parser : parser_of g' g_tcp_parser = parser_of g g_tcp_parser;
  ut_packet : packet_of g' g_tcp_received_packet = packet_of g g_tcp_received_packet;
  ut_commands : shrinks (queue_of g rs422_cmd_queue) (queue_of g' rs422_cmd_queue)
}.

#[export] Instance untouched_preorder : PreOrder untouched.
Proof.
  split; [by intros g; split|]. intros g1 g2 g3 [V1 P1 K1 Q1] [V2 P2 K2 Q2].
  split; [by etrans|congruence|congruence|by etrans].
Qed.

Lemma untouched_env g : untouched g (env (epoch g) (g <| epoch := S (epoch g) |>)).
Proof.
  split; [by apply env_keeps_same, intake_keeps|by rewrite intake_parser|by rewrite intake_packet|].
  etrans; [|apply intake_commands]. reflexivity.
Qed.

Definition not_intake (v : gvar) : bool := negb (mem_var v intake_vars).

Lemma untouched_put v z g : not_intake v = true -> untouched g (put v z g).
Proof. intros H. split; try done. apply same_vars_put; [by apply negb_true_iff|done]. Qed.

#[export] Instance untouched_closed : SpiClosed untouched not_intake.
Proof.
  split; try (intros; by split); [apply _|apply untouched_env|].
  intros v z g. apply untouched_put.
Qed.

Lemma untouched_up v g g' : mem_var v intake_vars = true -> untouched g g' -> went_up v 0 g g'.
Proof. intros Hv U. unfold went_up. by rewrite (ut_vars _ _ U v Hv), Z.add_0_r. Qed.

Lemma untouched_taken g g' : untouched g g' -> taken_in [] g g'.
Proof.
  intros U. split; try (by apply untouched_up).
  exists []. split; [done|]. split; [by apply joined_nil, ut_commands|].
  split; [by apply untouched_up|]. split; [by apply untouched_up|done].
Qed.

Lemma pings_app es es' : pings (es ++ es') = pings es ++ pings es'.
Proof. unfold pings. by rewrite packets_app, List.filter_app. Qed.

Lemma errors_app es es' : errors (es ++ es') = errors es + errors es'.
Proof. unfold errors. rewrite List.filter_app, length_app. lia. Qed.

Lemma taken_trans es1 es2 g1 g2 g3 :
  taken_in es1 g1 g2 -> taken_in es2 g2 g3 -> taken_in (es1 ++ es2) g1 g3.
Proof.
  intros [V1 P1 E1 (a1 & S1 & J1 & O1 & F1 & R1)] [V2 P2 E2 (a2 & S2 & J2 & O2 & F2 & R2)]. split.
  - rewrite packets_app, length_app, Nat2Z.inj_add. by eapply went_up_trans.
  - rewrite pings_app, length_app, Nat2Z.inj_add. by eapply went_up_trans.
  - rewrite errors_app. by eapply went_up_trans.
  - exists (a1 ++ a2). rewrite pings_app, !length_app.
    pose proof (sublist_length _ _ S1). pose proof (sublist_length _ _ S2).
    split; [by apply sublist_app|]. split; [by eapply joined_trans|]. split; [|split].
    + rewrite Nat2Z.inj_add. by eapply went_up_trans.
    + replace (Z.of_nat (_ + _ - _)) with
        (Z.of_nat (length (pings es1) - length a1) + Z.of_nat (length (pings es2) - length a2)) by lia.
      by eapply went_up_trans.
    + intros q Hq Hroom. rewrite (R1 q) by (done || lia). f_equal.
      rewrite Hq in J1. destruct (queue_of g2 rs422_cmd_queue) as [q2|]; [|done]. apply (R2 q2); [done|].
      apply suffix_length in J1. rewrite length_app, (R1 q) in J1 by (done || lia). lia.
Qed.

(** *** One frame *)

(** The chunk stays as well, and nothing happens on the bus. *)
Record calm g g' : Prop := {
  cm_untouched : untouched g g';
  cm_chunk : array_of g' g_w5500_tcp_rx_chunk = array_of g g_w5500_tcp_rx_chunk;
  cm_bus : bus (hw g') = bus (hw g)
}.
#[export] Instance calm_preorder : PreOrder calm.
Proof.
  split; [by intros g; split|]. intros g1 g2 g3 [U1 C1 B1] [U2 C2 B2]. split; [by etrans|congruence..].
Qed.
Lemma calm_env g : calm g (env (epoch g) (g <| epoch := S (epoch g) |>)).
Proof. split; [apply untouched_env|by rewrite owner_arrays|by rewrite owner_bus]. Qed.

Lemma calm_wr v z : not_intake v = true -> runs calm (wr (D := D) v z).
Proof. intros H. apply runs_modify. intros g. split; [by apply untouched_put|done..]. Qed.
Lemma calm_tick : runs calm (osKernelGetTickCount (D := D)).
Proof. intros g. apply wp_tick. apply calm_env. Qed.
Lemma calm_flags flags : runs calm (osThreadFlagsSet (D := D) RS422Task flags).
Proof.
  assert (forall f, runs calm (on_notif (D := D) RS422Task f)) as Hn.
  { intros f. apply runs_modify. intros g. by split. }
  apply runs_bind; [apply _|apply Hn|]. intros _.
  apply runs_bind; [apply _|intros g; apply wp_preempt, calm_env|]. intros _. apply Hn.
Qed.

Ltac calm_step :=
  first
    [ apply calm_tick | apply calm_flags
    | apply runs_when; [apply _|]
    | apply runs_bind; [apply _| |intros ?]
    | apply runs_gets; apply _
    | apply runs_ret; apply _
    | apply calm_wr; reflexivity ].

Lemma calm_note_ping packet : runs calm (note_ping_parsed (D := D) packet).
Proof.
  unfold note_ping_parsed, diag_interval, diagnostic_now_ms. repeat calm_step.
Qed.

Lemma calm_note_ready : runs calm (note_rx_ready (D := D)).
Proof.
  unfold note_rx_ready, diag_interval, diagnostic_now_ms. repeat calm_step.
Qed.

(** What a frame or a byte leaves alone. *)
Record same_input g g' : Prop := {
  si_parser : parser_of g' g_tcp_parser = parser_of g g_tcp_parser;
  si_packet : packet_of g' g_tcp_received_packet = packet_of g g_tcp_received_packet;
  si_chunk : array_of g' g_w5500_tcp_rx_chunk = array_of g g_w5500_tcp_rx_chunk;
  si_bus : bus (hw g') = bus (hw g)
}.

Lemma put_command_ok g :
  wp put_command (fun (ok : bool) g' =>
    same_vars intake_vars g g' /\ same_input g g' /\
    joined (if ok then [packet_of g g_tcp_received_packet] else [])
      (queue_of g rs422_cmd_queue) (queue_of g' rs422_cmd_queue) /\
    forall q, queue_of g rs422_cmd_queue = Some q ->
      Z.of_nat (length q + 1) <= RS422_CMD_QUEUE_DEPTH -> ok = true) g.
Proof.
  unfold put_command. wp_auto. destruct (queue_of g rs422_cmd_queue) as [q|] eqn:Eq; wp_auto.
  2: { split; [done|]. split; [done|]. rewrite Eq. done. }
  unfold osMessageQueuePut. apply wp_bind, wp_preempt. set (g1 := env _ _).
  pose proof (calm_env g) as [[V P K Q] C B]. fold g1 in V, P, K, Q, C, B. rewrite Eq in Q.
  wp_auto. destruct (queue_of g1 rs422_cmd_queue) as [q1|] eqn:Eq1; [|done].
  pose proof (suffix_length _ _ Q). destruct (Z.ltb_spec (Z.of_nat (length q1)) (queue_depth rs422_cmd_queue)).
  - wp_auto. change (osOK =? osOK) with true. split; [exact V|]. split; [done|]. split; [|done].
    st_simpl. rewrite upd_eq. destruct Q as [k ->]. exists k. by rewrite app_assoc.
  - wp_auto. change (osErrorResource =? osOK) with false. split; [exact V|]. split; [done|].
    rewrite Eq1. split; [cbn; by rewrite app_nil_r|]. intros q' [= <-] Hr. cbn [queue_depth] in *. lia.
Qed.

(** Counters moved by known amounts, commands [acc] added. *)
Record moved (valid pinged failed success fail : Z) acc g g' : Prop := {
  mv_valid : went_up g_w5500_tcp_valid_frame_count valid g g';
  mv_pings : went_up g_w5500_tcp_ping_count pinged g g';
  mv_errors : went_up g_w5500_tcp_rx_error_count failed g g';
  mv_success : went_up g_rs422_cmd_enqueue_success_count success g g';
  mv_fail : went_up g_rs422_cmd_enqueue_fail_count fail g g';
  mv_joined : joined acc (queue_of g rs422_cmd_queue) (queue_of g' rs422_cmd_queue);
  mv_input : same_input g g';
  mv_bytes : var g' g_w5500_tcp_rx_bytes = var g g_w5500_tcp_rx_bytes
}.

Lemma moved_trans v1 p1 e1 s1 f1 a1 g1 g2 v2 p2 e2 s2 f2 a2 g3 :
  moved v1 p1 e1 s1 f1 a1 g1 g2 -> moved v2 p2 e2 s2 f2 a2 g2 g3 ->
  moved (v1 + v2) (p1 + p2) (e1 + e2) (s1 + s2) (f1 + f2) (a1 ++ a2) g1 g3.
Proof.
  intros [A1 B1 C1 D1 E1 F1 [G1 H1 K1 L1] I1] [A2 B2 C2 D2 E2 F2 [G2 H2 K2 L2] I2].
  split; try (by eapply went_up_trans); [by eapply joined_trans|split; congruence|congruence].
Qed.

Lemma joined_refl o : joined [] o o.
Proof. by apply joined_nil. Qed.

Lemma calm_moved g g' : calm g g' -> moved 0 0 0 0 0 [] g g'.
Proof.
  intros [U C B]. split; try (by apply untouched_up).
  - by apply joined_nil, ut_commands.
  - split; [apply U..|done|done].
  - by apply (ut_vars _ _ U).
Qed.

(** Incrementing a counter. *)
Lemma moved_incr (v : gvar) g :
  mem_var v intake_vars = true -> v <> g_w5500_tcp_rx_bytes ->
  let d w := if gvar_eqb v w then 1 else 0 in
  moved (d g_w5500_tcp_valid_frame_count) (d g_w5500_tcp_ping_count) (d g_w5500_tcp_rx_error_count)
    (d g_rs422_cmd_enqueue_success_count) (d g_rs422_cmd_enqueue_fail_count) []
    g (put v (var g v + 1) g).
Proof.
  intros Hv Hb d. unfold d.
  assert (forall w, mem_var w intake_vars = true ->
    went_up w (if gvar_eqb v w then 1 else 0) g (put v (var g v + 1) g)) as Hw.
  { intros w Hw. unfold went_up. rewrite var_put. destruct (gvar_eqb_spec v w) as [<-|]; [|by rewrite Z.add_0_r].
    assert (gvar_type v = U32) as ->; [|cbn [convert]; width].
    revert Hv. unfold mem_var, intake_vars. cbn [map app existsb].
    repeat match goal with
    | |- context [gvar_eqb v ?w] => destruct (gvar_eqb_spec v w) as [->|_]; [done|cbn [orb]]
    end. done. }
  split; try (by apply Hw); [apply joined_refl|done|].
  rewrite var_put. by destruct (gvar_eqb_spec v g_w5500_tcp_rx_bytes).
Qed.

Lemma wp_calm {A B} (m : M D A) (f : A -> M D B) K g :
  runs calm m -> (forall a g', moved 0 0 0 0 0 [] g g' -> wp (f a) K g') -> wp (m ≫= f) K g.
Proof.
  intros Hm Hf. apply wp_bind. eapply wp_mono; [apply Hm|]. intros a g' U. by apply Hf, calm_moved.
Qed.

Lemma wp_incr {B} (v : gvar) (f : unit -> M D B) K g :
  wp (f tt) K (put v (var g v + 1) g) -> wp (incr v ≫= f) K g.
Proof. done. Qed.

(** A frame, with its PING accepted or refused. *)
Lemma moved_taken (p : protocol_packet_t) (ping ok : bool) g g' :
  is_ping p = ping -> (ok = true -> ping = true) ->
  moved 1 (if ping then 1 else 0) 0 (if ok then 1 else 0) (if ping && negb ok then 1 else 0)
    (if ok then [p] else []) g g' ->
  (forall q, queue_of g rs422_cmd_queue = Some q ->
     Z.of_nat (length q + 1) <= RS422_CMD_QUEUE_DEPTH -> ping = true -> ok = true) ->
  taken_in [(STREAM_EVENT_FRAME, p)] g g'.
Proof.
  intros Hp Hok [V P E S F Jn _ _] Hroom.
  assert (pings [(STREAM_EVENT_FRAME, p)] = if ping then [p] else []) as Hpings
    by (unfold pings; change (packets [(STREAM_EVENT_FRAME, p)]) with [p]; cbn [List.filter]; by rewrite Hp).
  split; rewrite ?Hpings; [done|by destruct ping|done|].
  exists (if ok then [p] else []). destruct ok; [rewrite Hok in * by done; by split_and!|]. destruct ping.
  - split; [by apply sublist_nil_l|]. split_and!; try done. intros q Hq Hr.
    by specialize (Hroom q Hq Hr eq_refl).
  - split; [reflexivity|]. by split_and!.
Qed.

Lemma take_frame_ok g :
  wp w5500_tcp_handle_valid_frame (fun _ g' =>
    taken_in [(STREAM_EVENT_FRAME, packet_of g g_tcp_received_packet)] g g' /\ same_input g g' /\
    var g' g_w5500_tcp_rx_bytes = var g g_w5500_tcp_rx_bytes) g.
Proof.
  set (p := packet_of g g_tcp_received_packet). unfold w5500_tcp_handle_valid_frame.
  apply wp_incr. set (g1 := put _ _ g).
  assert (moved 1 0 0 0 0 [] g g1) as M1 by (by apply (moved_incr g_w5500_tcp_valid_frame_count)).
  apply wp_bind, wp_gets. change (packet_of g1 g_tcp_received_packet) with p.
  apply wp_calm; [by apply calm_wr|]. intros _ g2 M2. apply wp_calm; [by apply calm_wr|]. intros _ g3 M3.
  pose proof (moved_trans _ _ _ _ _ _ _ _ _ _ _ _ _ _ _ M1 (moved_trans _ _ _ _ _ _ _ _ _ _ _ _ _ _ _ M2 M3)) as M13.
  cbn in M13. clear M1 M2 M3.
  destruct (pkt_msg_id p =? MSG_PING) eqn:Ep; cbn [when].
  2: { apply wp_ret. split; [|split; [apply M13|apply M13]].
       by apply (moved_taken p false false). }
  apply wp_calm; [apply calm_note_ping|]. intros _ g4 M4. apply wp_incr. set (g5 := put _ _ g4).
  assert (moved 0 1 0 0 0 [] g4 g5) as M5 by (by apply (moved_incr g_w5500_tcp_ping_count)).
  pose proof (moved_trans _ _ _ _ _ _ _ _ _ _ _ _ _ _ _ M13 (moved_trans _ _ _ _ _ _ _ _ _ _ _ _ _ _ _ M4 M5)) as M15.
  cbn in M15. clear M13 M4 M5. apply wp_bind. eapply wp_mono; [apply put_command_ok|].
  cbn beta. intros ok g6 (V6 & I6 & J6 & R6).
  assert (packet_of g5 g_tcp_received_packet = p) as Hp5 by apply M15. rewrite Hp5 in J6.
  assert (forall g7, moved 0 0 0 (if ok then 1 else 0) (if ok then 0 else 1) [] g6 g7 ->
    taken_in [(STREAM_EVENT_FRAME, p)] g g7 /\ same_input g g7 /\
    var g7 g_w5500_tcp_rx_bytes = var g g_w5500_tcp_rx_bytes) as Hdone.
  { intros g7 M7.
    assert (moved 0 0 0 0 0 (if ok then [p] else []) g5 g6) as M6.
    { split; try (unfold went_up; rewrite V6, Z.add_0_r by done; done); [exact J6|exact I6|by apply V6]. }
    pose proof (moved_trans _ _ _ _ _ _ _ _ _ _ _ _ _ _ _ M15 (moved_trans _ _ _ _ _ _ _ _ _ _ _ _ _ _ _ M6 M7)) as M.
    cbn in M. split; [|split; apply M]. apply (moved_taken p true ok); [done|done| |].
    - destruct ok; exact M.
    - intros q Hq Hr _. pose proof (mv_joined _ _ _ _ _ _ _ _ M15) as Hj. rewrite Hq in Hj.
      destruct (queue_of g5 rs422_cmd_queue) as [q5|] eqn:E5; [|done]. apply (R6 q5); [done|].
      apply suffix_length in Hj. rewrite length_app in Hj. cbn in Hj. lia. }
  destruct ok.
  - apply wp_incr. set (g7 := put _ _ g6).
    assert (moved 0 0 0 1 0 [] g6 g7) as M7 by (by apply (moved_incr g_rs422_cmd_enqueue_success_count)).
    apply wp_bind, wp_gets.
    assert (runs calm (when (negb (var g7 RS422TaskHandle =? 0))
      (osThreadFlagsSet (D := D) RS422Task RS422_EVENT_CMD_READY))) as Hf
      by (repeat calm_step).
    eapply wp_mono; [apply Hf|]. cbn beta. intros _ g8 U8. apply Hdone.
    exact (moved_trans _ _ _ _ _ _ _ _ _ _ _ _ _ _ _ M7 (calm_moved _ _ U8)).
  - apply Hdone. by apply (moved_incr g_rs422_cmd_enqueue_fail_count).
Qed.

(** *** The bytes of a chunk *)

Definition chunk_of g : list Z := array_of g g_w5500_tcp_rx_chunk.

(** The parser was fed [bs] and every event had its effect. *)
Definition fed (bs : list Z) g g' : Prop :=
  exists es, feed_bytes (parser_of g g_tcp_parser) bs (packet_of g g_tcp_received_packet) =
      (es, parser_of g' g_tcp_parser, packet_of g' g_tcp_received_packet) /\
    taken_in es g g'.

(** An event other than a frame. *)
Lemma moved_event ev p (failed : bool) g g' :
  ev <> STREAM_EVENT_FRAME -> failed = bool_decide (ev = STREAM_EVENT_ERROR) ->
  moved 0 0 (if failed then 1 else 0) 0 0 [] g g' -> taken_in [(ev, p)] g g'.
Proof.
  intros Hev -> [V P E S F Jn _ _].
  assert (packets [(ev, p)] = []) as Hp by (by rewrite packets_cons, decide_False).
  split; unfold pings; rewrite ?Hp; [done|done| |].
  - by destruct ev.
  - exists []. by split_and!.
Qed.

Lemma parse_loop_ok n index g :
  0 <= index -> index + Z.of_nat n <= Z.of_nat (length (chunk_of g)) ->
  wp (tcp_parse_loop n index) (fun _ g' =>
    fed (take n (drop (Z.to_nat index) (chunk_of g))) g g' /\
    var g' g_w5500_tcp_rx_bytes = var g g_w5500_tcp_rx_bytes /\ bus (hw g') = bus (hw g)) g.
Proof.
  revert index g. induction n as [|n IH]; intros index g Hi Hn; cbn [tcp_parse_loop].
  { apply wp_ret. split; [|done]. exists []. rewrite take_0. split; [done|by apply untouched_taken]. }
  assert (exists x, chunk_of g !! Z.to_nat index = Some x) as [x Hx] by (apply lookup_lt_is_Some_2; lia).
  rewrite (drop_S _ x) by done. cbn [take].
  apply wp_bind, wp_gets. apply wp_bind, wp_gets. apply wp_bind, wp_gets.
  replace (arr_get (array_of g g_w5500_tcp_rx_chunk) index) with x
    by (unfold arr_get; fold (chunk_of g); by rewrite Hx).
  destruct (feed_byte (parser_of g g_tcp_parser) x (packet_of g g_tcp_received_packet)) as [[ev p'] o'] eqn:Ef.
  apply wp_bind, wp_modify. apply wp_bind, wp_modify. set (g1 := _ <| packet_of := _ |>).
  assert (parser_of g1 g_tcp_parser = p' /\ packet_of g1 g_tcp_received_packet = o') as [Hp1 Ho1]
    by (unfold g1; st_simpl; by rewrite !upd_eq).
  assert (forall g2, taken_in [(ev, o')] g1 g2 -> same_input g1 g2 ->
    var g2 g_w5500_tcp_rx_bytes = var g1 g_w5500_tcp_rx_bytes ->
    wp (tcp_parse_loop n (index + 1)) (fun _ g' =>
      fed (x :: take n (drop (S (Z.to_nat index)) (chunk_of g))) g g' /\
      var g' g_w5500_tcp_rx_bytes = var g g_w5500_tcp_rx_bytes /\ bus (hw g') = bus (hw g)) g2) as Hrest.
  { intros g2 T2 [P2 O2 C2 L2] B2. assert (chunk_of g2 = chunk_of g) as Hc by exact C2.
    eapply wp_mono; [apply IH; [lia|rewrite Hc; lia]|]. intros _ g3 ((es & F3 & T3) & B3 & L3).
    split; [|split; [by rewrite B3, B2|by rewrite L3, L2]]. exists ((ev, o') :: es). cbn [feed_bytes]. rewrite Ef.
    rewrite P2, O2, Hp1, Ho1, Hc in F3. replace (Z.to_nat (index + 1)) with (S (Z.to_nat index)) in F3 by lia.
    rewrite F3. split; [done|]. apply (taken_trans [(ev, o')] es g g2); [|done].
    destruct T2 as [V Pg E Cm]. by split. }
  destruct ev.
  - apply wp_incr. pose proof (moved_incr g_w5500_tcp_rx_error_count g1 eq_refl ltac:(done)) as M.
    apply Hrest; [by apply (moved_event _ _ true)|apply M|apply M].
  - apply wp_bind, wp_ret, Hrest; [|done|done]. apply (moved_event _ _ false); [done|done|].
    by apply calm_moved.
  - apply wp_bind. eapply wp_mono; [apply take_frame_ok|]. cbn beta. intros _ g2 (T & I & B).
    apply Hrest; [by rewrite Ho1 in T|done|done].
Qed.
End Intake.

(** ** Fetching a chunk *)

(** The registers of socket 0 with the command [c] in the place of SEND. *)
Definition command_regs (c : Z) : socket_regs := {|
  rg_read := W5500_SOCKET0_READ_VDM;
  rg_write := W5500_SOCKET0_WRITE_VDM;
  rg_tx_buffer := W5500_SOCKET0_TX_BUFFER_WRITE_VDM;
  rg_chunk := W5500_TCP_RX_CHUNK_SIZE;
  rg_cr := W5500_SOCKET0_CR_ADDRESS;
  rg_ir := W5500_SOCKET0_IR_ADDRESS;
  rg_tx_fsr := W5500_SOCKET0_TX_FSR_ADDRESS;
  rg_tx_wr := W5500_SOCKET0_TX_WR_ADDRESS;
  rg_send := c;
  rg_send_ok := W5500_SOCKET0_IR_SEND_OK;
  rg_timeout := W5500_SOCKET0_IR_TIMEOUT
|}.
Definition recv_regs : socket_regs := command_regs W5500_SOCKET0_RECV_COMMAND.
Definition issues_recv : window -> bool := issues_send recv_regs.

(** The window that reads [bs] from the receive buffer at [address]. *)
Definition rx_window (address : Z) (bs : list Z) (st : Z) (w : window) : Prop :=
  exists h, tx_bytes h = spi_header address W5500_SOCKET0_RX_BUFFER_READ_VDM /\
    if tx_status h =? HAL_OK
    then exists ds, length ds = length bs /\ w = [h; mk_transfer ds st bs]
    else w = [h] /\ st = tx_status h.

Section Keeps.
Context {D : Type} `{!World D} `{!SpiBus D} `{!SpiOwner D}.
Implicit Types g : gateway D.

(** Whenever [m] ends, the bytes clocked out while reading are as before. *)
Definition keeps_dummy {A} (m : M D A) : Prop :=
  forall x, sound (fun g => array_of g g_w5500_tcp_rx_dummy = x) m (fun _ => True).

Lemma keeps_bind {A B} (m : M D A) (f : A -> M D B) :
  keeps_dummy m -> (forall a, keeps_dummy (f a)) -> keeps_dummy (m ≫= f).
Proof. intros Hm Hf x. apply sound_bind_any; [apply Hm|]. intros a. apply Hf. Qed.
Lemma keeps_ret {A} (a : A) : keeps_dummy (mret a).
Proof. intros x. by apply sound_ret. Qed.
Lemma keeps_modify (f : gateway D -> gateway D) :
  (forall g, array_of (f g) = array_of g) -> keeps_dummy (modify f).
Proof. intros H x. apply sound_modify. intros g. by rewrite H. Qed.
Lemma keeps_if {A} (b : bool) (m1 m2 : M D A) :
  keeps_dummy m1 -> keeps_dummy m2 -> keeps_dummy (if b then m1 else m2).
Proof. by destruct b. Qed.
Lemma keeps_gets {A} (f : gateway D -> A) : keeps_dummy (gets f).
Proof. intros x. by apply sound_gets. Qed.
Lemma keeps_preempt : keeps_dummy preempt.
Proof. intros x g Hg. split; [|done]. by rewrite owner_arrays. Qed.

Lemma keeps_transfer tx : keeps_dummy (HAL_SPI_TransmitReceive tx).
Proof.
  apply keeps_bind; [apply keeps_preempt|]. intros _. apply keeps_bind; [apply keeps_gets|].
  intros [[st rx] d]. apply keeps_bind; [by apply keeps_modify|]. intros _. apply keeps_ret.
Qed.

Lemma keeps_read_u16 address v : keeps_dummy (w5500_socket0_read_u16 address (Some v)).
Proof.
  apply keeps_bind; [|intros []; apply keeps_ret]. unfold w5500_socket0_read_registers, read_registers.
  apply keeps_if; [apply keeps_ret|]. apply keeps_bind; [|intros []; apply keeps_ret].
  apply keeps_bind; [by apply keeps_modify|]. intros _. apply keeps_bind; [apply keeps_transfer|].
  intros [st rx]. apply keeps_bind; [by apply keeps_modify|]. intros _. apply keeps_ret.
Qed.

Lemma keeps_stable address v : keeps_dummy (w5500_socket0_read_stable_u16 address (Some v)).
Proof.
  assert (forall n attempt previous current, keeps_dummy
    (stable_loop (w5500_socket0_read_u16 address) n attempt previous current (Some v))) as H; [|apply H].
  induction n as [|n IH]; intros attempt previous current; cbn [stable_loop]; [apply keeps_ret|].
  apply keeps_bind; [apply keeps_read_u16|]. intros [st c].
  apply keeps_if; [apply keeps_ret|]. apply keeps_if; [apply keeps_ret|apply IH].
Qed.

Lemma keeps_note_ready : keeps_dummy note_rx_ready.
Proof.
  assert (forall v z, keeps_dummy (wr (D := D) v z)) as Hwr by (intros v z; by apply keeps_modify).
  assert (forall from (to : diag_var) now, keeps_dummy (diag_interval (D := D) from to now)) as Hiv.
  { intros from to now. apply keeps_bind; [apply keeps_gets|]. intros t0. apply keeps_if; [apply Hwr|apply keeps_ret]. }
  apply keeps_bind; [apply keeps_gets|]. intros ready. apply keeps_if; [|apply keeps_ret].
  apply keeps_bind.
  { apply keeps_bind; [apply keeps_preempt|]. intros _. apply keeps_gets. }
  intros now. apply keeps_bind; [apply Hwr|]. intros _. apply Hiv.
Qed.

Lemma wp_keeps {A} (m : M D A) Q g :
  keeps_dummy m -> wp m Q g ->
  wp m (fun a g' => Q a g' /\ array_of g' g_w5500_tcp_rx_dummy = array_of g g_w5500_tcp_rx_dummy) g.
Proof.
  intros Hk Hm. eapply wp_mono; [apply (wp_outcome m Q _ g Hm (Hk _ g eq_refl))|].
  by intros a g' [? [? _]].
Qed.
End Keeps.

Section Fetch.
Context {D : Type} `{!World D} `{!SpiBus D} `{!SpiOwner D} (J : Z) `{!Punctual D J} `{!IntakeRely D}.
Hypothesis short_calls : 11 * J < 4000000000.
Implicit Types g : gateway D.
Implicit Types ws : list window.

(** What happened so far: windows, and nothing taken in. *)
Record fetching ws g g' : Prop := {
  ft_bus : bus (hw g') = bus (hw g) ++ flat_map window_events ws;
  ft_untouched : untouched g g'
}.

Lemma fetching_trans ws1 g1 g2 ws2 g3 :
  fetching ws1 g1 g2 -> fetching ws2 g2 g3 -> fetching (ws1 ++ ws2) g1 g3.
Proof.
  intros [B1 U1] [B2 U2]. split; [|by etrans]. by rewrite B2, B1, flat_map_app, app_assoc.
Qed.

Lemma traced_fetching T ws g g' : traced untouched T ws g g' -> fetching ws g g'.
Proof. by intros [B _ _ U]. Qed.

Lemma calm_fetching g g' : calm g g' -> fetching [] g g'.
Proof. intros [U _ B]. split; [by rewrite B, app_nil_r|done]. Qed.

Lemma wp_transfer tx (K : Z * list Z -> gateway D -> Prop) g :
  (forall st rx g', sending untouched J [mk_transfer tx st rx] g g' -> length rx = length tx ->
     array_of g' g_w5500_tcp_rx_dummy = array_of g g_w5500_tcp_rx_dummy -> K (st, rx) g') ->
  wp (HAL_SPI_TransmitReceive tx) K g.
Proof.
  intros HK. eapply wp_mono.
  - apply wp_keeps; [apply keeps_transfer|].
    apply (wp_spi_transmit_receive J untouched not_intake) with
      (Q := fun r g' => sending untouched J [mk_transfer tx r.1 r.2] g g' /\ length r.2 = length tx).
    intros st rx g' Hs Hr. done.
  - intros [st rx] g' [[Hs Hr] Hd]. by apply HK.
Qed.

Lemma read_rx_buffer_ok address len g :
  0 < len <= 64 -> (64 <= length (chunk_of g))%nat -> (64 <= length (array_of g g_w5500_tcp_rx_dummy))%nat ->
  wp (w5500_socket0_read_rx_buffer address (Some g_w5500_tcp_rx_chunk) len) (fun st g' =>
    exists bs w, fetching [w] g g' /\ rx_window address bs st w /\
      Z.of_nat (length bs) = len /\ length (chunk_of g') = length (chunk_of g) /\
      (st = HAL_OK -> take (Z.to_nat len) (chunk_of g') = bs)) g.
Proof.
  intros Hl Hc Hd. unfold w5500_socket0_read_rx_buffer.
  change W5500_TCP_RX_CHUNK_SIZE with 64. replace (_ || _) with false by zlia.
  unfold gpio_cs. apply wp_bind, wp_modify. set (g0 := g <| hw := _ |>). apply wp_bind.
  apply wp_transfer. intros st rx0 g1 S1 _ D1. cbn beta iota zeta.
  assert (chunk_of g1 = chunk_of g) as C1 by (by apply (sd_arrays _ _ _ _ _ S1)).
  assert (forall w g2, bus (hw g2) = bus (hw g0) ++ map Transfer w ->
    untouched g0 g2 -> fetching [w] g (g2 <| hw := cs_pin true (hw g2) |>)) as Hclose.
  { intros w g2 B2 U2. split.
    - st_simpl. rewrite bus_cs, B2. unfold g0. st_simpl. rewrite bus_cs.
      cbn [flat_map]. unfold window_events. rewrite app_nil_r, <- !app_assoc. done.
    - etrans; [|by etrans; [exact U2|split]]. by split. }
  destruct (Z.eqb_spec st HAL_OK) as [->|Hst].
  - apply wp_bind, wp_bind, wp_gets. apply wp_bind, wp_transfer. intros st bs g2 S2 Hbs D2.
    apply wp_bind, wp_gets, wp_bind, wp_modify, wp_ret, wp_bind, wp_modify, wp_ret.
    set (ds := take _ _) in *. assert (Z.of_nat (length bs) = len) as Hlen
      by (rewrite Hbs; unfold ds; rewrite length_take, D1; change (array_of g0) with (array_of g); lia).
    set (g3 := g2 <| array_of := _ |>).
    assert (chunk_of g3 = memcpy (chunk_of g) 0 bs len) as C3.
    { unfold g3, chunk_of. st_simpl. rewrite upd_eq. f_equal. etrans; [|exact C1].
      by apply (sd_arrays _ _ _ _ _ S2). }
    assert (chunk_of g3 = bs ++ drop (Z.to_nat len) (chunk_of g)) as C3'.
    { rewrite C3. unfold memcpy. rewrite take_0, take_ge by lia. done. }
    exists bs, [mk_transfer (spi_header address W5500_SOCKET0_RX_BUFFER_READ_VDM) HAL_OK rx0; mk_transfer ds st bs].
    split; [|split; [|split; [done|]]].
    + destruct (sending_trans untouched not_intake _ _ _ _ _ _ _ S1 S2) as [B W A U].
      apply Hclose; [exact B|]. etrans; [exact U|by split].
    + exists (mk_transfer (spi_header address W5500_SOCKET0_RX_BUFFER_READ_VDM) HAL_OK rx0).
      split; [done|]. cbn. exists ds. split; [lia|done].
    + change (chunk_of (g3 <| hw := _ |>)) with (chunk_of g3). rewrite C3'. split; [rewrite length_app, length_drop; lia|]. intros _.
      rewrite take_app_length'; [done|lia].
  - apply wp_bind, wp_ret, wp_bind, wp_modify, wp_ret.
    exists (replicate (Z.to_nat len) 0), [mk_transfer (spi_header address W5500_SOCKET0_RX_BUFFER_READ_VDM) st rx0].
    split; [|split; [|split; [|split]]].
    + destruct S1 as [B W A U]. by apply Hclose.
    + exists (mk_transfer (spi_header address W5500_SOCKET0_RX_BUFFER_READ_VDM) st rx0).
      split; [done|]. cbn [tx_status]. rewrite (proj2 (Z.eqb_neq _ _)) by done. done.
    + rewrite length_replicate. lia.
    + f_equal. exact C1.
    + done.
Qed.

(** *** The whole fetch *)

(** Nothing was fetched and RECV was not issued; that is a success only if
    the chip reported that nothing was waiting. *)
Definition fetch_none st ws g g' : Prop :=
  untouched g g' /\ Forall (fun w => issues_recv w = false) ws /\
  (st = HAL_OK -> exists pre a b, ws = pre ++ [a; b] /\
     reads W5500_SOCKET0_READ_VDM W5500_SOCKET0_RX_RSR_ADDRESS 0 a /\
     reads W5500_SOCKET0_READ_VDM W5500_SOCKET0_RX_RSR_ADDRESS 0 b).

(** Two agreeing reads of the received size; the read pointer; at most 64
    bytes from there; the pointer moved past them; RECV, and its outcome. *)
Definition fetch_chunk st ws g g' : Prop :=
  exists sizes size rx bs data command,
    let p := u16_of rx in
    let len := Z.of_nat (length bs) in
    stable_spec W5500_SOCKET0_READ_VDM W5500_SOCKET0_RX_RSR_ADDRESS 8 0 (HAL_OK, Some size) sizes /\
    size <> 0 /\ len = Z.min size 64 /\
    ws = sizes ++
      [read_window W5500_SOCKET0_READ_VDM W5500_SOCKET0_RX_RD_ADDRESS 2 HAL_OK rx; data;
       write_window W5500_SOCKET0_WRITE_VDM W5500_SOCKET0_RX_RD_ADDRESS
         (u16_bytes (u16 (p + len))) HAL_OK] ++ command /\
    rx_window p bs HAL_OK data /\
    command_spec recv_regs W5500_SOCKET0_RECV_COMMAND st command /\
    if st =? HAL_OK
    then fed bs g g' /\ went_up g_w5500_tcp_rx_bytes len g g'
    else untouched g g'.

Lemma reads_no_recv address n ws :
  Forall (is_read W5500_SOCKET0_READ_VDM address n) ws -> Forall (fun w => issues_recv w = false) ws.
Proof.
  intros H. eapply Forall_impl; [exact H|]. intros w (st & rx & ->). by apply (read_no_send recv_regs).
Qed.

Lemma rx_window_no_recv address bs st w : rx_window address bs st w -> issues_recv w = false.
Proof.
  intros (h & Hh & H). assert (exists r, w = h :: r) as [r ->].
  { destruct (_ =? _); [destruct H as (ds & _ & ->)|destruct H as [-> _]]; by eexists. }
  apply bool_decide_false. rewrite Hh. intros E. by injection E.
Qed.

(** Fetched bytes taken in after the count of received bytes went up. *)
Lemma fed_after g g1 len bs g' :
  untouched g g1 -> fed bs (put g_w5500_tcp_rx_bytes (var g1 g_w5500_tcp_rx_bytes + len) g1) g' ->
  var g' g_w5500_tcp_rx_bytes = var (put g_w5500_tcp_rx_bytes (var g1 g_w5500_tcp_rx_bytes + len) g1) g_w5500_tcp_rx_bytes ->
  fed bs g g' /\ went_up g_w5500_tcp_rx_bytes len g g'.
Proof.
  intros U (es & F & T) B. split.
  - exists es. change (parser_of (put _ _ g1)) with (parser_of g1) in F.
    change (packet_of (put _ _ g1)) with (packet_of g1) in F. rewrite (ut_parser _ _ U), (ut_packet _ _ U) in F.
    split; [exact F|]. apply (taken_trans [] es g g1); [by apply untouched_taken|].
    destruct T as [V P E (acc & S & Jn & O & Fl & Rm)]. split; [exact V|exact P|exact E|].
    by exists acc.
  - unfold went_up. rewrite B. rewrite var_put_eq.
    rewrite (ut_vars _ _ U g_w5500_tcp_rx_bytes eq_refl). cbn [gvar_type eth_var_type convert]. width.
Qed.

Lemma stable_value vdm address attempts size ws :
  stable_spec vdm address attempts 0 (HAL_OK, Some size) ws ->
  0 <= size < 65536 /\ exists pre a b, ws = pre ++ [a; b] /\ reads vdm address size a /\ reads vdm address size b.
Proof.
  intros (_ & _ & x & pre & a & b & [= <-] & -> & Ha & Hb). split; [|by exists pre, a, b].
  destruct Ha as (rx & _ & _ & <-). unfold u16_of, be_u16. apply u16_range.
Qed.

Definition fetched g st g' : Prop := exists ws,
  bus (hw g') = bus (hw g) ++ flat_map window_events ws /\
  (fetch_none st ws g g' \/ fetch_chunk st ws g g').

Lemma not_fetched st ws g g' :
  fetching ws g g' -> Forall (fun w => issues_recv w = false) ws -> st <> HAL_OK -> fetched g st g'.
Proof. intros [B U] N Hst. exists ws. split; [done|]. left. by split_and!. Qed.

(** Once the bytes are in the chunk. *)
Lemma finish_fetch_ok sizes size rx bs data len g g1 :
  stable_spec W5500_SOCKET0_READ_VDM W5500_SOCKET0_RX_RSR_ADDRESS 8 0 (HAL_OK, Some size) sizes ->
  size <> 0 -> len = Z.min size 64 -> Z.of_nat (length bs) = len ->
  rx_window (u16_of rx) bs HAL_OK data ->
  let ws := sizes ++
    [read_window W5500_SOCKET0_READ_VDM W5500_SOCKET0_RX_RD_ADDRESS 2 HAL_OK rx; data] in
  fetching ws g g1 -> Forall (fun w => issues_recv w = false) ws ->
  take (Z.to_nat len) (chunk_of g1) = bs ->
  wp (status ← w5500_socket0_write_registers W5500_SOCKET0_RX_RD_ADDRESS
                 (Some (u16_bytes (u16 (u16_of rx + len)))) 2;
      if negb (status =? HAL_OK) then mret status
      else
        status ← w5500_socket0_execute_command W5500_SOCKET0_RECV_COMMAND;
        if negb (status =? HAL_OK) then mret status
        else
          add_to g_w5500_tcp_rx_bytes len;;
          tcp_parse_loop (Z.to_nat len) 0;;
          mret HAL_OK) (fetched g) g1.
Proof.
  intros Hsize Hx Hmin Hlen Hdata ws F1 N1 Hbs. unfold w5500_socket0_write_registers.
  apply wp_bind. eapply wp_mono; [apply (write_registers_ok J untouched not_intake)|]. cbn beta.
  intros st g2 (ws2 & Tr2 & Hw2). unfold write_spec, bad_length in Hw2. cbn in Hw2. subst ws2.
  pose proof (fetching_trans _ _ _ _ _ F1 (traced_fetching _ _ _ _ Tr2)) as F2.
  assert (forall st', Forall (fun w => issues_recv w = false) (ws ++
    [write_window W5500_SOCKET0_WRITE_VDM W5500_SOCKET0_RX_RD_ADDRESS (u16_bytes (u16 (u16_of rx + len))) st'])) as N2.
  { intros st'. apply Forall_app_2; [done|]. apply List.Forall_cons; [|by apply List.Forall_nil].
    apply (write_no_send recv_regs). by left. }
  destruct (Z.eqb_spec st HAL_OK) as [->|Hst]; cbn [negb].
  2: { apply wp_ret. eapply not_fetched; [exact F2|apply N2|done]. }
  apply wp_bind. eapply wp_mono.
  { unfold w5500_socket0_execute_command.
    by apply (execute_command_ok J untouched not_intake short_calls recv_regs 2). }
  cbn beta. intros st g3 (command & Tr3 & Hcmd).
  pose proof (fetching_trans _ _ _ _ _ F2 (traced_fetching _ _ _ _ Tr3)) as [B3 U3].
  assert (forall g', bus (hw g') = bus (hw g3) ->
    (if st =? HAL_OK then fed bs g g' /\ went_up g_w5500_tcp_rx_bytes len g g' else untouched g g') ->
    fetched g st g') as Hdone.
  { intros g' B H. eexists. split; [rewrite B; exact B3|]. right.
    exists sizes, size, rx, bs, data, command. rewrite Hlen. split; [done|]. split; [done|]. split; [done|].
    split; [|done]. unfold ws. by rewrite <- !app_assoc. }
  destruct (Z.eqb_spec st HAL_OK) as [->|Hst]; cbn [negb]; [|by apply wp_ret, Hdone].
  apply wp_bind, wp_bind, wp_gets, wp_modify. set (g4 := put _ _ g3).
  assert (chunk_of g4 = chunk_of g1) as C4.
  { change (chunk_of g4) with (chunk_of g3). etrans; [by apply (tr_arrays _ _ _ _ _ Tr3)|].
    by apply (tr_arrays _ _ _ _ _ Tr2). }
  apply wp_bind. eapply wp_mono.
  { apply parse_loop_ok; [done|]. rewrite C4. apply (f_equal length) in Hbs. rewrite length_take in Hbs. lia. }
  cbn beta. intros _ g5 (Hfed & B5 & L5). apply wp_ret, Hdone; [by rewrite L5|].
  rewrite drop_0, C4, Hbs in Hfed. by eapply fed_after.
Qed.

Lemma process_rx_ok g :
  (64 <= length (chunk_of g))%nat -> (64 <= length (array_of g g_w5500_tcp_rx_dummy))%nat ->
  wp w5500_tcp_process_rx (fetched g) g.
Proof.
  intros Hc Hd. unfold w5500_tcp_process_rx.
  (* the received size *)
  apply wp_bind. eapply wp_mono.
  { apply wp_keeps; [apply keeps_stable|]. by apply (read_stable_u16_ok J untouched not_intake). }
  cbn beta. intros [st size] g1 ((sizes & Tr1 & Hsize) & D1). cbn [default from_option id].
  pose proof (traced_fetching _ _ _ _ Tr1) as F1.
  assert (chunk_of g1 = chunk_of g) as C1 by (by apply (tr_arrays _ _ _ _ _ Tr1)).
  assert (Forall (fun w => issues_recv w = false) sizes) as N1 by (by eapply reads_no_recv, Hsize).
  destruct (Z.eqb_spec st HAL_OK) as [->|Hst]; cbn [negb orb].
  2: { apply wp_ret. by eapply not_fetched. }
  assert (exists x, size = Some x) as [x ->].
  { destruct Hsize as (_ & _ & H). cbn in H. destruct H as (x & ? & ? & ? & -> & _). by exists x. }
  destruct (stable_value _ _ _ _ _ Hsize) as (Hx & pre & a & b & Hpre & Ra & Rb). cbn [default from_option id].
  destruct (Z.eqb_spec x 0) as [->|Hx0].
  { apply wp_ret. exists sizes. split; [apply F1|]. left. split_and!; [apply F1|done|]. intros _. by exists pre, a, b. }
  (* the read pointer *)
  apply wp_bind. eapply wp_mono; [apply wp_keeps; [apply keeps_note_ready|apply calm_note_ready]|].
  cbn beta. intros _ g2 (K2 & D2). change W5500_TCP_RX_CHUNK_SIZE with 64.
  pose proof (fetching_trans _ _ _ _ _ F1 (calm_fetching _ _ K2)) as F2. rewrite app_nil_r in F2.
  set (len := if x >? 64 then 64 else x). assert (0 < len <= 64 /\ len = Z.min x 64) as [Hl Hlmin]
    by (unfold len; destruct (Z.gtb_spec x 64); lia).
  apply wp_bind. eapply wp_mono.
  { apply wp_keeps; [apply keeps_read_u16|]. unfold w5500_socket0_read_u16, w5500_socket0_read_registers.
    by apply (read_u16_ok J untouched not_intake). }
  cbn beta. intros [st v] g3 ((ws3 & Tr3 & rx & Hrx & -> & Hv) & D3). cbn [fst snd] in *. subst v.
  pose proof (fetching_trans _ _ _ _ _ F2 (traced_fetching _ _ _ _ Tr3)) as F3.
  assert (chunk_of g3 = chunk_of g) as C3
    by (etrans; [by apply (tr_arrays _ _ _ _ _ Tr3)|]; by rewrite (cm_chunk _ _ K2)).
  set (w3 := read_window _ _ _ st rx) in *.
  assert (Forall (fun w => issues_recv w = false) (sizes ++ [w3])) as N3.
  { apply Forall_app_2; [done|]. apply List.Forall_cons; [by apply (read_no_send recv_regs)|by apply List.Forall_nil]. }
  destruct (Z.eqb_spec st HAL_OK) as [->|Hst]; cbn [negb].
  2: { apply wp_ret. by eapply not_fetched. }
  cbn [default from_option id]. set (p := u16_of rx) in *.
  (* the bytes *)
  apply wp_bind. eapply wp_mono; [apply read_rx_buffer_ok; [done|by rewrite C3|by rewrite D3, D2, D1]|].
  cbn beta. intros st g4 (bs & data & F34 & Hdata & Hlen & _ & Hbs).
  pose proof (fetching_trans _ _ _ _ _ F3 F34) as F4. rewrite <- app_assoc in F4.
  pose proof (rx_window_no_recv _ _ _ _ Hdata) as Nd.
  assert (Forall (fun w => issues_recv w = false) (sizes ++ [w3] ++ [data])) as N4.
  { rewrite app_assoc. apply Forall_app_2; [done|]. by apply List.Forall_cons. }
  destruct (Z.eqb_spec st HAL_OK) as [->|Hst]; cbn [negb].
  2: { apply wp_ret. by eapply not_fetched. }
  by eapply finish_fetch_ok; try done; apply Hbs.
Qed.
End Fetch.

(** ** Properties *)

(** C20: Receiving from the TCP client: [w5500_tcp_process_rx] ends, and either
    takes nothing in, without having issued RECV, or the bus shows two
    agreeing reads of the received size, the bytes (at most 64) read from the
    read pointer in one window, the pointer moved on by exactly their number
    modulo 2^16, and RECV.  On success exactly these bytes, in order, went
    through the parser: every frame, every error and every PING is counted,
    each PING joins the command queue in order or is counted as refused, and
    none is refused while there is room for all.  After any failure the parser,
    the queue and the counters are untouched. *)
Theorem tcp_bytes_taken_in {D} `{!World D} `{!SpiBus D} `{!SpiOwner D} (J : Z) `{!Punctual D J}
    `{!IntakeRely D} (g : gateway D) :
  11 * J < 4000000000 ->
  (64 <= length (array_of g g_w5500_tcp_rx_chunk))%nat ->
  (64 <= length (array_of g g_w5500_tcp_rx_dummy))%nat ->
  wp w5500_tcp_process_rx (fun st g' => exists ws,
    bus (hw g') = bus (hw g) ++ flat_map window_events ws /\
    (fetch_none st ws g g' \/ fetch_chunk st ws g g')) g.
Proof. intros HJ Hc Hd. by apply (process_rx_ok J). Qed.

#[export] Instance chip_intake : IntakeRely chip.
Proof. split; [by intros n g v|done|done|intros n g; reflexivity]. Qed.

Lemma tcp_bytes_taken_in_witness :
  wp w5500_tcp_process_rx (fun st g' => exists ws,
    bus (hw g') = bus (hw chip_gateway) ++ flat_map window_events ws /\
    (fetch_none st ws chip_gateway g' \/ fetch_chunk st ws chip_gateway g')) chip_gateway /\
  match w5500_tcp_process_rx chip_gateway with
  | Some (st, g') =>
      st = HAL_OK /\ option_map (map pkt_seq) (queue_of g' rs422_cmd_queue) = Some [7] /\
      var g' g_w5500_tcp_ping_count = 1
  | None => False
  end.
Proof.
  split; [apply (tcp_bytes_taken_in 2); [lia|vm_compute; lia..]|]. vm_compute. done.
Defined.
