(* ===== verification/GwMain.v ===== *)
(** * Start-up of the gateway (g474_gateway/Core/Src/main.c)

    Board configuration as data, [main] up to the start of the scheduler, the
    idle default task and the time-base callback.  What the HAL and the
    kernel answer is a parameter ([boot_results]). *)
From S2P Require Import Prelude Crc16 Protocol StreamParser RxRing GwDiag GwEthernet.
From S2P Require Export GwLogic.
Local Open Scope Z_scope.

(** ** Board configuration *)

(** [RCC_OscInitStruct] and [RCC_ClkInitStruct]: the divider fields. *)
Record clock_config := mk_clock_config {
  PLLM : Z;
  PLLN : Z;
  PLLP : Z;
  PLLQ : Z;
  PLLR : Z;
  AHBCLKDivider : Z;
  APB1CLKDivider : Z;
  APB2CLKDivider : Z
}.

Definition clock_settings : clock_config := {|
  PLLM := 4; PLLN := 85; PLLP := 2; PLLQ := 2; PLLR := 2;
  AHBCLKDivider := 1; APB1CLKDivider := 1; APB2CLKDivider := 1
|}.

(** The system clock the PLL makes of its input, the HSI oscillator. *)
Definition pll_system_clock (hsi_hz : Z) (c : clock_config) : Z :=
  hsi_hz / PLLM c * PLLN c / PLLR c.

(** [hspi2.Init] *)
Record spi_config := mk_spi_config {
  spi_master : bool;
  spi_two_lines : bool;
  spi_data_bits : Z;
  spi_polarity_low : bool;
  spi_first_edge : bool;
  spi_soft_nss : bool;
  spi_prescaler : Z;
  spi_msb_first : bool;
  spi_crc : bool
}.
Definition hspi2_settings : spi_config :=
  mk_spi_config true true 8 true true true 16 true false.

(** [huart4.Init] *)
Record uart_config := mk_uart_config {
  baud_rate : Z;
  word_bits : Z;
  stop_bits : Z;
  parity : bool;
  flow_control : bool;
  oversampling : Z
}.
Definition huart4_settings : uart_config := mk_uart_config 115200 8 1 false false 16.

(** ** What the libraries answer at start-up *)
Record boot_results := mk_boot_results {
  osc_config : clock_config -> Z;
  clock_config_status : clock_config -> Z;
  spi_init : spi_config -> Z;
  uart_init : uart_config -> Z;
  uart_tx_fifo_threshold : Z;
  uart_rx_fifo_threshold : Z;
  uart_disable_fifo : Z;
  queue_created : qvar -> Z -> bool;
  thread_new : handle_var -> Z
}.

Section Main.
Context {D : Type} `{!World D}.
Abbreviation M := (M D).

(** Interrupts off and an endless loop. *)
Definition Error_Handler : M unit := fail.

Definition check_ok (status : Z) : M unit := when (negb (status =? HAL_OK)) Error_Handler.

Definition SystemClock_Config (b : boot_results) : M unit :=
  check_ok (osc_config b clock_settings);;
  check_ok (clock_config_status b clock_settings).

Definition MX_SPI2_Init (b : boot_results) : M unit := check_ok (spi_init b hspi2_settings).

Definition MX_UART4_Init (b : boot_results) : M unit :=
  check_ok (uart_init b huart4_settings);;
  check_ok (uart_tx_fifo_threshold b);;
  check_ok (uart_rx_fifo_threshold b);;
  check_ok (uart_disable_fifo b).

(** Of the pins, those the W5500 driver uses: both high. *)
Definition MX_GPIO_Init : M unit := gpio_cs true;; gpio_rst true.

(** [osMessageQueueNew(depth, sizeof(protocol_packet_t), attr)] *)
Definition osMessageQueueNew (b : boot_results) (q : qvar) : M unit :=
  modify (fun g => g <| queue_of :=
    upd q (if queue_created b q (queue_depth q) then Some [] else None) (queue_of g) |>).

Definition main (b : boot_results) : M unit :=
  SystemClock_Config b;;
  MX_GPIO_Init;;
  MX_SPI2_Init b;;
  MX_UART4_Init b;;
  wr g_gateway_queue_init_ok 0;;
  osMessageQueueNew b rs422_cmd_queue;;
  osMessageQueueNew b tcp_response_queue;;
  osMessageQueueNew b udp_telemetry_queue;;
  null1 ← queue_is_null rs422_cmd_queue;
  null2 ← queue_is_null tcp_response_queue;
  null3 ← queue_is_null udp_telemetry_queue;
  when (negb null1 && negb null2 && negb null3) (wr g_gateway_queue_init_ok 1);;
  wr defaultTaskHandle (thread_new b defaultTaskHandle);;
  wr RS422TaskHandle (thread_new b RS422TaskHandle);;
  wr EthernetTaskHandle (thread_new b EthernetTaskHandle);;
  wr HealthTaskHandle (thread_new b HealthTaskHandle).

(** One iteration of the default task. *)
Definition default_task_iteration : M unit := osDelay 1.
End Main.

(** TIM6 drives [HAL_IncTick]: [uwTick] after the callback. *)
Definition HAL_TIM_PeriodElapsedCallback (is_tim6 : bool) (uwTick : Z) : Z :=
  if is_tim6 then u32 (uwTick + 1) else uwTick.

(** The memory before [main]: static variables hold their initial values or
    zero. *)
Definition power_on {D} (d : D) : gateway D := {|
  var := gvar_initial;
  packet_of _ := zero_packet;
  parser_of _ := parser_init;
  array_of a := replicate (Z.to_nat (array_size a)) 0;
  queue_of _ := None;
  notif_of _ := mk_notification 0 false;
  rx_ring := empty_rs422_ring 0;
  g_uart4_rx_byte := 0;
  tick := 0;
  hw := d;
  epoch := 0
|}.
