(* ===== verification/GwTyping.v ===== *)
(** * Types of the gateway's memory: the invariant and its logic

    [typed g]: every variable holds a value of its C type, every array has its
    declared size, every packet, parser and ring is well formed, no queue is
    over its depth and each carries one kind of message.  [sound J m P]: from
    a state with the invariant [J], whenever [m] ends it restores [J] and its
    result satisfies [P].  The rules and the tactic [sound_auto], and the
    kernel and HAL calls. *)
From S2P Require Import Prelude Crc16 Protocol StreamParser RxRing.
From S2P Require Export GwLogic.
Local Open Scope Z_scope.

(** ** The invariant *)

(** What each queue is for. *)
Definition queue_message (q : qvar) : Z :=
  match q with
  | rs422_cmd_queue => MSG_PING
  | tcp_response_queue => MSG_PONG
  | udp_telemetry_queue => MSG_TELEMETRY
  end.

Definition array_ok (a : avar) (x : list Z) : Prop :=
  bytes x /\ Z.of_nat (length x) = array_size a.

Record message_ok (q : qvar) (p : protocol_packet_t) : Prop := {
  message_sendable : sendable p;
  message_kind : pkt_msg_id p = queue_message q
}.

Definition queue_ok (q : qvar) (l : list protocol_packet_t) : Prop :=
  Z.of_nat (length l) <= queue_depth q /\ Forall (message_ok q) l.

Record ring_ok (r : rs422_ring) : Prop := {
  ro_wf : ring_wf r;
  ro_bytes : bytes (g_rs422_rx_ring r);
  ro_overflow : is_u32 (g_rs422_rx_overflow_count r)
}.

Definition parser_ok (p : stream_parser_t) : Prop := exists w, parser_rel p w.

Record typed {D} (g : gateway D) : Prop := {
  ty_var v : in_range (gvar_type v) (var g v);
  ty_packet p : packet_ok (packet_of g p);
  ty_parser s : parser_ok (parser_of g s);
  ty_array a : array_ok a (array_of g a);
  ty_queue q l : queue_of g q = Some l -> queue_ok q l;
  ty_notif t : is_u32 (notified_value (notif_of g t));
  ty_ring : ring_ok (rx_ring g);
  ty_byte : is_u8 (g_uart4_rx_byte g);
  ty_tick : is_u32 (tick g)
}.

(** The rest of the system respects the types, and SPI transfers bring as
    many bytes as they send. *)
Class TypedWorld D `{!World D} : Prop := {
  env_typed n (g : gateway D) : typed g -> typed (env n g);
  spi_bytes tx (d : D) :
    let '(_, rx, _) := spi_transmit_receive tx d in bytes rx /\ length rx = length tx
}.

(** Only the task under study writes the packet [r]. *)
Class Owner D `{!World D} (r : pvar) : Prop :=
  owner_packet n (g : gateway D) : packet_of (env n g) r = packet_of g r.

(** ** Stable invariants *)

(** An invariant that implies [typed] and survives kernel calls and the writes
    of every task; then, by class, writes to a queue, to the packets, parsers
    and ring, and to the hardware. *)
Class Stable {D} `{!World D} (J : gateway D -> Prop) : Prop := {
  stable_typed g : J g -> typed g;
  stable_env g : J g -> J (env (epoch g) (g <| epoch := S (epoch g) |>));
  stable_put v z g : J g -> J (put v z g);
  stable_array a x g : array_ok a x -> J g -> J (g <| array_of := upd a x (array_of g) |>);
  stable_notif t n g : is_u32 (notified_value n) -> J g ->
    J (g <| notif_of := upd t n (notif_of g) |>);
  stable_tick t g : is_u32 t -> J g -> J (g <| tick := t |>)
}.
Class StableQueue {D} (J : gateway D -> Prop) (q : qvar) : Prop :=
  stable_queue o g : (forall l, o = Some l -> queue_ok q l) -> J g ->
    J (g <| queue_of := upd q o (queue_of g) |>).
Class StableInput {D} (J : gateway D -> Prop) : Prop := {
  stable_packet p x g : packet_ok x -> J g -> J (g <| packet_of := upd p x (packet_of g) |>);
  stable_parser s x g : parser_ok x -> J g -> J (g <| parser_of := upd s x (parser_of g) |>);
  stable_ring r g : ring_ok r -> J g -> J (g <| rx_ring := r |>)
}.
Class StableHardware {D} (J : gateway D -> Prop) : Prop :=
  stable_hw d g : J g -> J (g <| hw := d |>).

(** While the owner of [r] handles the packet [p] in it. *)
Definition held {D} (J : gateway D -> Prop) (r : pvar) (p : protocol_packet_t) (g : gateway D) : Prop :=
  J g /\ packet_of g r = p.

Lemma leads_held {D A} (J : gateway D -> Prop) r p (m : M D A) (P : A -> Prop) :
  sound (held J r p) m P -> leads (held J r p) J m P.
Proof.
  intros Hm g Hg. eapply outcome_mono; [by apply Hm|]. by intros a g1 [[]].
Qed.

(** ** Machine words *)
Lemma u32_bits z : is_u32 z <-> 0 <= z /\ forall n, 32 <= n -> Z.testbit z n = false.
Proof.
  split.
  - intros Hz. split; [unfold is_u32 in Hz; lia|]. intros n Hn.
    apply Z.bits_above_log2; [unfold is_u32 in Hz; lia|].
    destruct (decide (z = 0)) as [->|]; [cbn; lia|].
    assert (Z.log2 z < 32) by (apply Z.log2_lt_pow2; unfold is_u32 in Hz; lia). lia.
  - intros [Hz H]. split; [done|]. destruct (decide (z = 0)) as [->|]; [lia|].
    apply (Z.log2_lt_pow2 z 32); [lia|]. apply Z.nle_gt. intros Hn.
    pose proof (H (Z.log2 z) Hn) as Hb. rewrite Z.bit_log2 in Hb by lia. done.
Qed.

Lemma u32_lor a b : is_u32 a -> is_u32 b -> is_u32 (Z.lor a b).
Proof.
  rewrite !u32_bits. intros [Ha Ba] [Hb Bb]. split; [by apply Z.lor_nonneg|].
  intros n Hn. by rewrite Z.lor_spec, Ba, Bb.
Qed.

Lemma u32_ldiff a b : is_u32 a -> is_u32 (Z.ldiff a b).
Proof.
  rewrite !u32_bits. intros [Ha Ba]. split; [apply Z.ldiff_nonneg; auto|].
  intros n Hn. by rewrite Z.ldiff_spec, Ba.
Qed.
#[export] Hint Resolve u32_lor u32_ldiff : width.

Lemma in_range_convert t z : in_range t (convert t z).
Proof. apply convert_idem. Qed.

Lemma in_range_u16 z : in_range U16 z -> is_u16 z.
Proof. unfold in_range, convert. intros <-. apply u16_range. Qed.

(** ** The invariant is stable *)
Section Stable.
Context {D : Type} `{!World D} `{!TypedWorld D}.
Implicit Types g : gateway D.

#[export] Instance typed_stable : Stable (D := D) typed.
Proof.
  split; [done|..].
  - intros g [? ? ? ? ? ? ? ? ?]. by apply env_typed.
  - intros v z g [Hv ? ? ? ? ? ? ? ?]. split; try done. intros w. rewrite var_put.
    destruct (gvar_eqb_spec v w) as [->|]; [apply in_range_convert|done].
  - intros a x g Hx [? ? ? Ha ? ? ? ? ?]. split; try done. intros a'. st_simpl. unfold upd.
    case_decide; [by subst|done].
  - intros t n g Hn [? ? ? ? ? Ht ? ? ?]. split; try done. intros t'. st_simpl. unfold upd.
    by case_decide.
  - by intros t g Ht [? ? ? ? ? ? ? ? ?].
Qed.
#[export] Instance typed_queues q : StableQueue (D := D) typed q.
Proof.
  intros o g Ho [? ? ? ? Hq ? ? ? ?]. split; try done. intros q' l. st_simpl. unfold upd.
  case_decide; [subst; apply Ho|apply Hq].
Qed.
#[export] Instance typed_input : StableInput (D := D) typed.
Proof.
  split.
  - intros p x g Hx [? Hp ? ? ? ? ? ? ?]. split; try done. intros p'. st_simpl. unfold upd. by case_decide.
  - intros p x g Hx [? ? Hp ? ? ? ? ? ?]. split; try done. intros p'. st_simpl. unfold upd. by case_decide.
  - by intros r g Hr [? ? ? ? ? ? ? ? ?].
Qed.
#[export] Instance typed_hardware : StableHardware (D := D) typed.
Proof. by intros d g [? ? ? ? ? ? ? ? ?]. Qed.

(** An invariant over what no task writes. *)
Lemma stable_with (R : gateway D -> Prop) :
  (forall g, typed g -> R g -> R (env (epoch g) (g <| epoch := S (epoch g) |>))) ->
  (forall v z g, R g -> R (put v z g)) ->
  (forall f g, R g -> R (g <| array_of := f |>)) ->
  (forall f g, R g -> R (g <| notif_of := f |>)) ->
  (forall t g, R g -> R (g <| tick := t |>)) ->
  Stable (fun g => typed g /\ R g).
Proof.
  intros He Hp Ha Hn Ht. split.
  - by intros g [H _].
  - intros g [H HR]. split; [by apply stable_env|auto].
  - intros v z g [H HR]. split; [by apply stable_put|auto].
  - intros a x g Hx [H HR]. split; [by apply stable_array|auto].
  - intros t n g Hx [H HR]. split; [by apply stable_notif|auto].
  - intros t g Hx [H HR]. split; [by apply stable_tick|auto].
Qed.

Lemma stable_input_with (R : gateway D -> Prop) :
  (forall f g, R g -> R (g <| packet_of := f |>)) ->
  (forall f g, R g -> R (g <| parser_of := f |>)) ->
  (forall r g, R g -> R (g <| rx_ring := r |>)) ->
  StableInput (fun g => typed g /\ R g).
Proof.
  intros Hp Hs Hr. split.
  - intros p x g Hx [H HR]. split; [by apply stable_packet|auto].
  - intros p x g Hx [H HR]. split; [by apply stable_parser|auto].
  - intros r g Hx [H HR]. split; [by apply stable_ring|auto].
Qed.

Section Held.
Context (J : gateway D -> Prop) `{!Stable J} (r : pvar) (p : protocol_packet_t).

#[export] Instance held_stable `{!Owner D r} : Stable (held J r p).
Proof.
  split; unfold held.
  - intros g [H _]. by apply stable_typed.
  - intros g [H E]. split; [by apply stable_env|]. by rewrite owner_packet.
  - intros v z g [H E]. split; [by apply stable_put|done].
  - intros a x g Hx [H E]. split; [by apply stable_array|done].
  - intros t n g Hn [H E]. split; [by apply stable_notif|done].
  - intros t g Ht [H E]. split; [by apply stable_tick|done].
Qed.
#[export] Instance held_queues q `{!StableQueue J q} : StableQueue (held J r p) q.
Proof. intros o g Ho [H E]. split; [by apply stable_queue|done]. Qed.
#[export] Instance held_hardware `{!StableHardware J} : StableHardware (held J r p).
Proof. intros d g [H E]. split; [by apply stable_hw|done]. Qed.
End Held.

(** ** Primitives *)
Section Primitives.
Context (J : gateway D -> Prop) `{!Stable J}.

Lemma sound_wr_packet `{!StableInput J} p x : packet_ok x -> sound J (wr_packet p x) (fun _ => True).
Proof. intros Hx. apply sound_modify. intros g. by apply stable_packet. Qed.
Lemma sound_wr_parser `{!StableInput J} p x : parser_ok x -> sound J (wr_parser p x) (fun _ => True).
Proof. intros Hx. apply sound_modify. intros g. by apply stable_parser. Qed.
Lemma sound_ring `{!StableInput J} (f : gateway D -> rs422_ring) :
  (forall g, J g -> ring_ok (f g)) ->
  sound J (modify (fun g => g <| rx_ring := f g |>)) (fun _ => True).
Proof. intros Hf. apply sound_modify. intros g Hg. apply stable_ring; auto. Qed.

Lemma sound_rd v : sound J (rd v) (in_range (gvar_type v)).
Proof. apply sound_gets. intros g Hg. by apply ty_var, stable_typed. Qed.
Lemma sound_wr v z : sound J (wr v z) (fun _ => True).
Proof. apply sound_modify. intros g. apply stable_put. Qed.
Lemma sound_add_to v z : sound J (add_to v z) (fun _ => True).
Proof. eapply sound_bind; [apply sound_rd|]. intros. apply sound_wr. Qed.
Lemma sound_incr v : sound J (incr v) (fun _ => True).
Proof. apply sound_add_to. Qed.
Lemma sound_rd_packet p : sound J (rd_packet p) packet_ok.
Proof. apply sound_gets. intros g Hg. by apply ty_packet, stable_typed. Qed.
Lemma sound_rd_parser p : sound J (rd_parser p) parser_ok.
Proof. apply sound_gets. intros g Hg. by apply ty_parser, stable_typed. Qed.
Lemma sound_rd_array a : sound J (rd_array a) (array_ok a).
Proof. apply sound_gets. intros g Hg. by apply ty_array, stable_typed. Qed.
Lemma sound_wr_array a x : array_ok a x -> sound J (wr_array a x) (fun _ => True).
Proof. intros Hx. apply sound_modify. intros g. by apply stable_array. Qed.
Lemma sound_null q : sound J (queue_is_null q) (fun _ => True).
Proof. by apply sound_gets. Qed.
Lemma sound_hw `{!StableHardware J} (f : D -> D) : sound J (modify (fun g => g <| hw := f (hw g) |>)) (fun _ => True).
Proof. apply sound_modify. intros g. apply stable_hw. Qed.
Lemma sound_set_hw `{!StableHardware J} (d : D) : sound J (modify (fun g => g <| hw := d |>)) (fun _ => True).
Proof. apply (sound_hw (fun _ => d)). Qed.
Lemma sound_preempt : sound J preempt (fun _ => True).
Proof. intros g Hg. cbn. split; [by apply stable_env|done]. Qed.
End Primitives.
End Stable.

Create HintDb sound discriminated.
#[export] Hint Constants Opaque : sound.
#[export] Hint Variables Opaque : sound.
#[export] Hint Extern 0 (Stable _) => typeclasses eauto : sound.
#[export] Hint Extern 0 (StableQueue _ _) => typeclasses eauto : sound.
#[export] Hint Extern 0 (StableInput _) => typeclasses eauto : sound.
#[export] Hint Extern 0 (StableHardware _) => typeclasses eauto : sound.
#[export] Hint Extern 0 (TypedWorld _) => typeclasses eauto : sound.
#[export] Hint Resolve sound_rd sound_wr sound_add_to sound_incr sound_rd_packet sound_rd_parser
  sound_rd_array sound_null sound_hw sound_set_hw sound_preempt : sound.

(** Follows the syntax of a program.  A call with a lemma in [sound] is known
    by it; the rest is followed with nothing known of the results, and what
    the primitives ask for is left to the caller. *)
Ltac sound_known := solve [eauto with sound nocore].
Ltac sound_step :=
  lazymatch goal with
  | |- sound _ (let _ := _ in _) _ => cbv zeta
  | |- sound ?J (mbind ?f ?m) _ =>
      first [ eapply (sound_bind J m f); [sound_known|let H := fresh in intros ? H; cbv beta in H]
            | apply (sound_bind_any J m f); [|intros ?] ]
  | |- sound _ (match ?x with _ => _ end) _ =>
      first [ is_var x; destruct x | let E := fresh "E" in destruct x eqn:E ]
  | |- sound _ (when _ _) _ => apply sound_when; intros ?
  | |- sound _ fail _ => apply sound_fail
  | |- sound _ (mret _) _ => apply sound_ret; try done
  | |- sound _ (gets _) _ => apply sound_gets; try done
  | |- sound _ (wr_array _ _) _ => apply sound_wr_array; [typeclasses eauto|]
  | |- sound _ (wr_packet _ _) _ => apply sound_wr_packet; [typeclasses eauto|]
  | |- sound _ (wr_parser _ _) _ => apply sound_wr_parser; [typeclasses eauto|]
  | |- sound _ _ _ => eapply sound_mono; [sound_known|done]
  end.
Ltac sound_auto := repeat sound_step.

(** ** Kernel and HAL calls *)
Section Kernel.
Context {D : Type} `{!World D} `{!TypedWorld D} (J : gateway D -> Prop) `{!Stable J}.

Lemma sound_tick t : is_u32 t -> sound J (modify (fun g => g <| tick := t |>)) (fun _ => True).
Proof. intros Ht. apply sound_modify. intros g. by apply stable_tick. Qed.
Lemma sound_later (n : Z) : sound J (modify (fun g => g <| tick := u32 (tick g + n) |>)) (fun _ => True).
Proof. apply sound_modify. intros g. apply stable_tick. apply u32_range. Qed.
Lemma sound_on_notif t f :
  (forall n, is_u32 (notified_value n) -> is_u32 (notified_value (f n))) ->
  sound J (on_notif t f) (fun _ => True).
Proof.
  intros Hf. apply sound_modify. intros g Hg. apply stable_notif; [|done].
  by apply Hf, ty_notif, stable_typed.
Qed.
Lemma sound_notif t :
  sound J (gets (fun g => notif_of g t)) (fun n => is_u32 (notified_value n)).
Proof. apply sound_gets. intros g Hg. by apply ty_notif, stable_typed. Qed.

Lemma sound_tick_count : sound J osKernelGetTickCount is_u32.
Proof.
  eapply sound_bind; [by apply sound_preempt|]. intros _ _. apply sound_gets.
  intros g Hg. by apply ty_tick, stable_typed.
Qed.
#[local] Hint Resolve sound_later sound_notif sound_tick_count : sound.

Lemma sound_delay t : sound J (osDelay t) (fun _ => True).
Proof. unfold osDelay. sound_auto. Qed.
Lemma sound_hal_delay ms : sound J (HAL_Delay ms) (fun _ => True).
Proof. apply sound_delay. Qed.
Lemma sound_delay_until t : is_u32 t -> sound J (osDelayUntil t) (fun _ => True).
Proof. intros Ht. unfold osDelayUntil. sound_auto. by eapply sound_tick. Qed.

Lemma sound_put_message q p `{!StableQueue J q} : message_ok q p -> sound J (osMessageQueuePut q p) (fun _ => True).
Proof.
  intros Hp. unfold osMessageQueuePut. eapply sound_bind; [by apply sound_preempt|]. intros _ _.
  eapply (sound_bind J _ _ (fun o => forall l, o = Some l -> queue_ok q l)).
  { apply sound_gets. intros g Hg l. by apply ty_queue, stable_typed. }
  intros o Ho. sound_auto. apply sound_modify. intros g. apply stable_queue. intros l' [= <-].
  destruct (Ho _ eq_refl) as [Hn Hl]. split; [rewrite length_app; cbn [length]; lia|].
  apply Forall_app. split; [done|]. by apply Forall_singleton.
Qed.

Lemma sound_flags_set t flags : is_u32 flags -> sound J (osThreadFlagsSet t flags) (fun _ => True).
Proof.
  intros Hf. unfold osThreadFlagsSet. sound_auto; apply sound_on_notif; [|done].
  intros n Hn. by apply u32_lor.
Qed.

Lemma sound_flags_clear t flags : sound J (osThreadFlagsClear t flags) is_u32.
Proof.
  unfold osThreadFlagsClear. sound_auto.
  - by apply sound_on_notif.
  - apply sound_on_notif. intros _ _. by apply u32_ldiff.
Qed.

Lemma sound_notify_wait t clear tout :
  sound J (xTaskNotifyWait t clear tout) (fun r => is_u32 r.2).
Proof.
  unfold xTaskNotifyWait. sound_auto; apply sound_on_notif; [|done].
  intros _ _. by apply u32_ldiff.
Qed.
#[local] Hint Resolve sound_notify_wait : sound.

Lemma sound_flags_wait t flags timeout : sound J (osThreadFlagsWait t flags timeout) (fun _ => True).
Proof.
  assert (forall n tout t0 r, sound J (flags_wait_loop n t flags timeout t0 tout r) (fun _ => True)) as H.
  { induction n as [|n IH]; intros tout t0 r; cbn [flags_wait_loop]; [apply sound_fail|].
    sound_auto; apply IH. }
  unfold osThreadFlagsWait. sound_auto.
Qed.

Lemma sound_cs `{!StableHardware J} b : sound J (gpio_cs b) (fun _ => True).
Proof. apply (sound_hw J (cs_pin b)). Qed.
Lemma sound_rst `{!StableHardware J} b : sound J (gpio_rst b) (fun _ => True).
Proof. apply (sound_hw J (rst_pin b)). Qed.
Lemma sound_spi_transmit `{!StableHardware J} tx : sound J (HAL_SPI_Transmit tx) (fun _ => True).
Proof. unfold HAL_SPI_Transmit. sound_auto. Qed.
Lemma sound_spi_transfer `{!StableHardware J} tx :
  sound J (HAL_SPI_TransmitReceive tx) (fun r => bytes r.2 /\ length r.2 = length tx).
Proof.
  unfold HAL_SPI_TransmitReceive. eapply sound_bind; [by apply sound_preempt|]. intros _ _.
  eapply (sound_bind J _ _ (fun r => bytes r.1.2 /\ length r.1.2 = length tx)).
  { apply sound_gets. intros g _. pose proof (spi_bytes tx (hw g)) as H.
    by destruct (spi_transmit_receive tx (hw g)) as [[? ?] ?]. }
  intros [[st rx] d] H. sound_auto.
Qed.
Lemma sound_uart_transmit `{!StableHardware J} tx : sound J (HAL_UART_Transmit_IT tx) (fun _ => True).
Proof. unfold HAL_UART_Transmit_IT. sound_auto. Qed.
Lemma sound_uart_receive `{!StableHardware J} : sound J HAL_UART_Receive_IT (fun _ => True).
Proof. unfold HAL_UART_Receive_IT. sound_auto. Qed.
End Kernel.
#[export] Hint Resolve sound_later sound_tick_count sound_notif sound_cs sound_rst sound_delay sound_hal_delay sound_flags_clear
  sound_flags_wait sound_notify_wait sound_spi_transmit sound_spi_transfer sound_uart_transmit
  sound_uart_receive : sound.

(** Getting a message is a write to a packet. *)
Lemma sound_get_message {D} `{!World D} `{!TypedWorld D} (J : gateway D -> Prop) `{!Stable J}
    `{!StableInput J} q p `{!StableQueue J q} : sound J (osMessageQueueGet q p) (fun _ => True).
Proof.
  unfold osMessageQueueGet. eapply sound_bind; [by apply sound_preempt; apply _|]. intros _ _.
  eapply (sound_bind J _ _ (fun o => forall l, o = Some l -> queue_ok q l)).
  { apply sound_gets. intros g Hg l. by apply ty_queue, stable_typed. }
  intros [[|msg l]|] Ho; sound_auto; destruct (Ho _ eq_refl) as [Hn Hl]; inversion Hl as [|? ? Hm Hr]; subst.
  - apply sound_modify. intros g. apply stable_queue. intros l' [= <-]. cbn [length] in Hn. split; [lia|done].
  - apply Hm.
Qed.
#[export] Hint Resolve sound_get_message : sound.
