(* ===== verification/GwQueues.v ===== *)
(** * The gateway's message queues in the kernel's RAM

    The CMSIS calls of cmsis_os2.c on top of [KernelQueue], and the queues of
    [GwMonad], lists of packets, as what they do: the packets are copied
    through RAM byte for byte. *)
From S2P Require Import Prelude Protocol KernelQueue GwMain GwTyping.
From S2P Require Export GwLogic.
Local Open Scope Z_scope.

(** ** cmsis_os2.c

    [irq]: called from an interrupt; [None] as a status: the call waits, or
    stops in an assertion.  The call on a NULL queue is the one on [None].
    The attributes the gateway passes name a queue without memory for it
    ([mem] is 0); the registry of names, for debuggers, is left out. *)
Definition status_of (r : call_result) (ok failed : Z) : option Z :=
  match r with
  | Returns x => Some (if x =? pdPASS then ok else failed)
  | Waits | Halts => None
  end.
Definition portYIELD_FROM_ISR (yield : Z) (k : kernel) : kernel := yield_if yield k.

Definition osMessageQueueNew (sizeof_Queue_t : Z) (malloc : Z -> option Z) (fresh : Queue_t) (irq : bool)
    (msg_count msg_size : Z) (k : kernel) : option Queue_t * kernel :=
  if negb irq && (msg_count >? 0) && (msg_size >? 0)
  then xQueueGenericCreate sizeof_Queue_t malloc fresh msg_count msg_size k
  else (None, k).

Definition osMessageQueuePut (irq : bool) (mq_id : option Queue_t) (msg_ptr timeout : Z) (k : kernel) :
    option Z * option Queue_t * kernel :=
  match mq_id with
  | None => (Some osErrorParameter, None, k)
  | Some q =>
      if irq then
        if (msg_ptr =? 0) || negb (timeout =? 0) then (Some osErrorParameter, Some q, k)
        else
          let '(r, yield, q, k) := xQueueGenericSendFromISR msg_ptr queueSEND_TO_BACK q k in
          (status_of r osOK osErrorResource, Some q, portYIELD_FROM_ISR yield k)
      else if msg_ptr =? 0 then (Some osErrorParameter, Some q, k)
      else
        let '(r, q, k) := xQueueGenericSend msg_ptr timeout queueSEND_TO_BACK q k in
        (status_of r osOK (if negb (timeout =? 0) then osErrorTimeout else osErrorResource), Some q, k)
  end.

Definition osMessageQueueGet (irq : bool) (mq_id : option Queue_t) (msg_ptr timeout : Z) (k : kernel) :
    option Z * option Queue_t * kernel :=
  match mq_id with
  | None => (Some osErrorParameter, None, k)
  | Some q =>
      if irq then
        if (msg_ptr =? 0) || negb (timeout =? 0) then (Some osErrorParameter, Some q, k)
        else
          let '(r, yield, q, k) := xQueueReceiveFromISR msg_ptr q k in
          (status_of r osOK osErrorResource, Some q, portYIELD_FROM_ISR yield k)
      else if msg_ptr =? 0 then (Some osErrorParameter, Some q, k)
      else
        let '(r, q, k) := xQueueReceive msg_ptr timeout q k in
        (status_of r osOK (if negb (timeout =? 0) then osErrorTimeout else osErrorResource), Some q, k)
  end.

(** ** [protocol_packet_t] in memory

    Little-endian, without padding. *)
Definition le16 (v : Z) : list Z := [u8 v; u8 (Z.shiftr v 8)].
Definition packet_bytes (p : protocol_packet_t) : list Z :=
  [pkt_version p; pkt_msg_id p] ++ le16 (pkt_seq p) ++ le16 (pkt_length p) ++ pkt_payload p.
Definition sizeof_packet : Z := 262.
Definition packet_of_bytes (bs : list Z) : protocol_packet_t :=
  mk_packet (arr_get bs 0) (arr_get bs 1) (arr_get bs 2 + 256 * arr_get bs 3)
    (arr_get bs 4 + 256 * arr_get bs 5) (drop 6 bs).

Lemma packet_bytes_back p : packet_ok p -> packet_of_bytes (packet_bytes p) = p.
Proof.
  intros [_ _ Hs Hl _ _]. destruct p as [v i s l x]. cbn in *. unfold packet_of_bytes, packet_bytes, arr_get. cbn.
  change (Z.to_nat 2) with 2%nat. change (Z.to_nat 3) with 3%nat.
  change (Z.to_nat 4) with 4%nat. change (Z.to_nat 5) with 5%nat. cbn.
  rewrite drop_0. f_equal; rewrite Z.shiftr_div_pow2 by lia; change (2 ^ 8) with 256; width.
Qed.

Lemma length_packet_bytes p : packet_ok p -> length (packet_bytes p) = Z.to_nat sizeof_packet.
Proof. intros [_ _ _ _ _ H]. unfold packet_bytes. rewrite !length_app, H. done. Qed.

(** ** The queues of the model *)

(** The queue variable [v] of the gateway is NULL, or the kernel's queue, in
    the block at [head], holds the bytes of its packets; [m] is the RAM around. *)
Definition in_ram (head : Z) (v : qvar) (o : option (list protocol_packet_t)) (mq_id : option Queue_t)
    (m : Z -> Z) (k : kernel) : Prop :=
  match o, mq_id with
  | None, None => forall x, ram k x = m x
  | Some l, Some q => Forall packet_ok l /\
      agrees head (queue_depth v) sizeof_packet (mk_fifo (map packet_bytes l) m) q k
  | _, _ => False
  end.
Definition packet_buffer (head : Z) (v : qvar) (p : Z) : Prop := buffer head (queue_depth v) sizeof_packet p.

Lemma status_pass r ok failed : r = Returns pdPASS -> status_of r ok failed = Some ok.
Proof. by intros ->. Qed.
Lemma status_fail r ok failed : r = Returns pdFALSE -> status_of r ok failed = Some failed.
Proof. by intros ->. Qed.

(** A call from a task or an interrupt, without waiting. *)
Lemma put_calls head v q m k src irq l p :
  in_ram head v (Some l) (Some q) m k -> packet_buffer head v src -> packet_ok p ->
  load m src sizeof_packet = packet_bytes p ->
  let room := Z.of_nat (length l) <? queue_depth v in
  let '(st, mq_id, k') := osMessageQueuePut irq (Some q) src 0 k in
  st = Some (if room then osOK else osErrorResource) /\
  in_ram head v (Some (if room then l ++ [p] else l)) mq_id m k'.
Proof.
  intros [Hl A] Hb Hp Hsrc. cbv zeta. pose proof (proj1 Hb) as Hnull. unfold osMessageQueuePut.
  rewrite (proj2 (Z.eqb_neq src 0)) by done. cbn [orb].
  change (0 =? 0) with true. cbn [negb orb].
  pose proof (isr_send_ok head (queue_depth v) sizeof_packet _ q k src queueSEND_TO_BACK A Hb (or_introl eq_refl)) as HI.
  pose proof (task_send_ok head (queue_depth v) sizeof_packet _ q k src queueSEND_TO_BACK A Hb (or_introl eq_refl)) as HT.
  unfold fifo_send, insert_item in HI, HT. cbn [contents memory] in HI, HT. rewrite Hsrc, length_map, orb_false_r in HI, HT.
  change (queueSEND_TO_BACK =? queueSEND_TO_BACK) with true in HI, HT. cbv iota in HI, HT.
  destruct irq.
  - destruct (xQueueGenericSendFromISR _ _ q k) as [[[r y] q1] k1]. 
    destruct (_ <? _); cbn in HI; destruct HI as [-> HI]; (split; [done|]); split.
    + apply Forall_app. split; [done|by apply Forall_singleton].
    + apply yield_agrees. rewrite map_app. exact HI.
    + done.
    + by apply yield_agrees.
  - destruct (xQueueGenericSend _ _ _ q k) as [[r q1] k1].
    destruct (_ <? _); cbn in HT; destruct HT as [-> HT]; (split; [done|]); split; try done.
    + apply Forall_app. split; [done|by apply Forall_singleton].
    + rewrite map_app. exact HT.
Qed.

Lemma get_calls head v q m k dst irq l :
  in_ram head v (Some l) (Some q) m k -> packet_buffer head v dst ->
  let '(st, mq_id, k') := osMessageQueueGet irq (Some q) dst 0 k in
  match l with
  | [] => st = Some osErrorResource /\ in_ram head v (Some []) mq_id m k'
  | p :: l' => st = Some osOK /\ in_ram head v (Some l') mq_id (store m dst (packet_bytes p)) k'
  end.
Proof.
  intros [Hl A] Hb. cbv zeta. pose proof (proj1 Hb) as Hnull. unfold osMessageQueueGet.
  rewrite (proj2 (Z.eqb_neq dst 0)) by done. cbn [orb]. change (0 =? 0) with true. cbn [negb orb].
  pose proof (isr_receive_ok head (queue_depth v) sizeof_packet _ q k dst A Hb) as HI.
  pose proof (task_receive_ok head (queue_depth v) sizeof_packet _ q k dst A Hb) as HT.
  unfold fifo_receive in HI, HT. cbn [contents memory] in HI, HT.
  destruct irq.
  - destruct (xQueueReceiveFromISR _ q k) as [[[r y] q1] k1].
    destruct l as [|p l]; cbn [map] in HI; destruct HI as [-> HI]; (split; [done|]); split.
    + done.
    + by apply yield_agrees.
    + by apply Forall_cons in Hl as [].
    + by apply yield_agrees.
  - destruct (xQueueReceive _ _ q k) as [[r q1] k1].
    destruct l as [|p l]; cbn [map] in HT; destruct HT as [-> HT]; (split; [done|]); split; try done.
    by apply Forall_cons in Hl as [].
Qed.

(** Creation. *)
Lemma create_calls v sizeof_Queue_t malloc fresh k :
  let bytes := sizeof_Queue_t + queue_depth v * sizeof_packet in
  0 <= sizeof_Queue_t < 4294960000 ->
  let '(mq_id, k') := osMessageQueueNew sizeof_Queue_t malloc fresh false (queue_depth v) sizeof_packet k in
  in_ram (default 0 (malloc bytes) + sizeof_Queue_t) v
    (if bool_decide (is_Some (malloc bytes)) then Some [] else None) mq_id (ram k) k'.
Proof.
  cbv zeta. intros Hs. assert (0 < queue_depth v <= 8) as Hd by by destruct v.
  unfold osMessageQueueNew. rewrite Z.gtb_ltb, (proj2 (Z.ltb_lt 0 (queue_depth v))) by lia. cbn [negb andb].
  change (sizeof_packet >? 0) with true. cbv iota. unfold xQueueGenericCreate.
  rewrite (u32_small (queue_depth v * sizeof_packet)), u32_small by (unfold is_u32, sizeof_packet; lia).
  destruct (malloc _) as [block|]; [|done]. cbn [default]. rewrite bool_decide_true by done.
  unfold prvInitialiseNewQueue. change (sizeof_packet =? 0) with false. cbv iota zeta.
  set (q0 := (set_field pcHead _ fresh) <| uxLength := _ |> <| uxItemSize := _ |>).
  pose proof (reset_agrees (block + sizeof_Queue_t) (queue_depth v) sizeof_packet q0 k) as H.
  destruct (xQueueGenericReset pdTRUE q0 k) as [[r q] k0]. split; [done|].
  apply H; try done; unfold sizeof_packet; lia.
Qed.

(** C9: The message queues are implemented by the kernel.  Creating one: the
    gateway's queue exists exactly if the kernel found memory, and is empty.
    Putting a packet and getting one, without waiting, from a task or an
    interrupt: the calls of cmsis_os2.c on the queue in RAM and the operations
    of the gateway model on its list of packets return the same status - NULL
    queues included - and leave the same packets queued; the packet that is
    got arrives byte for byte in the caller's buffer, and nothing but this
    buffer and the queue's block changes in RAM. *)
Theorem message_queues_implemented {D} `{!World D} (g : gateway D) (v : qvar) :
  (forall b sizeof_Queue_t malloc fresh k,
     let bytes := sizeof_Queue_t + queue_depth v * sizeof_packet in
     0 <= sizeof_Queue_t < 4294960000 ->
     queue_created b v (queue_depth v) = bool_decide (is_Some (malloc bytes)) ->
     let '(mq_id, k') := osMessageQueueNew sizeof_Queue_t malloc fresh false (queue_depth v) sizeof_packet k in
     wp (GwMain.osMessageQueueNew b v) (fun _ g' =>
       in_ram (default 0 (malloc bytes) + sizeof_Queue_t) v (queue_of g' v) mq_id (ram k) k') g) /\
  (forall head mq_id m k irq p src,
     in_ram head v (queue_of (env (epoch g) (g <| epoch := S (epoch g) |>)) v) mq_id m k ->
     packet_buffer head v src -> packet_ok p -> load m src sizeof_packet = packet_bytes p ->
     let '(st, mq_id', k') := osMessageQueuePut irq mq_id src 0 k in
     wp (GwMonad.osMessageQueuePut v p) (fun st' g' =>
       st = Some st' /\ in_ram head v (queue_of g' v) mq_id' m k') g) /\
  (forall head mq_id m k irq dst_var dst,
     in_ram head v (queue_of (env (epoch g) (g <| epoch := S (epoch g) |>)) v) mq_id m k ->
     packet_buffer head v dst ->
     let '(st, mq_id', k') := osMessageQueueGet irq mq_id dst 0 k in
     wp (GwMonad.osMessageQueueGet v dst_var) (fun st' g' =>
       st = Some st' /\ exists m', in_ram head v (queue_of g' v) mq_id' m' k' /\
       (st' = osOK -> packet_of_bytes (load m' dst sizeof_packet) = packet_of g' dst_var) /\
       forall x, ~ dst <= x < dst + sizeof_packet -> m' x = m x) g).
Proof.
  split_and!.
  - intros b sz malloc fresh k. cbv zeta. intros Hs Hb.
    pose proof (create_calls v sz malloc fresh k Hs) as H. destruct (osMessageQueueNew _ _ _ _ _ _ k) as [mq_id k'].
    apply wp_modify. st_simpl. rewrite upd_eq, Hb. exact H.
  - intros head mq_id m k irq p src H Hb Hp Hsrc. unfold GwMonad.osMessageQueuePut.
    set (g1 := env _ _) in *. destruct (queue_of g1 v) as [l|] eqn:E, mq_id as [q|]; try done.
    + pose proof (put_calls head v q m k src irq l p H Hb Hp Hsrc) as Hput.
      destruct (osMessageQueuePut irq (Some q) src 0 k) as [[st mq'] k']. destruct Hput as [-> Hput].
      apply wp_bind, wp_preempt. fold g1. apply wp_bind, wp_gets. rewrite E.
      destruct (_ <? _); [|apply wp_ret; split; [done|by rewrite E]].
      apply wp_bind, wp_modify, wp_ret. split; [done|]. st_simpl. by rewrite upd_eq.
    + apply wp_bind, wp_preempt. fold g1. apply wp_bind, wp_gets. rewrite E. apply wp_ret. split; [done|]. by rewrite E.
  - intros head mq_id m k irq dst_var dst H Hb. unfold GwMonad.osMessageQueueGet.
    set (g1 := env _ _) in *. destruct (queue_of g1 v) as [l|] eqn:E, mq_id as [q|]; try done.
    + pose proof (get_calls head v q m k dst irq l H Hb) as Hget. destruct H as [Hl _].
      destruct (osMessageQueueGet irq (Some q) dst 0 k) as [[st mq'] k'].
      apply wp_bind, wp_preempt. fold g1. apply wp_bind, wp_gets. rewrite E.
      destruct l as [|p l]; destruct Hget as [-> Hget].
      { apply wp_ret. split; [done|]. exists m. by rewrite E. }
      apply Forall_cons in Hl as [Hp _]. pose proof (length_packet_bytes p Hp) as Hn.
      apply wp_bind, wp_modify, wp_bind, wp_modify, wp_ret. split; [done|]. exists (store m dst (packet_bytes p)).
      st_simpl. rewrite !upd_eq. split; [done|]. split.
      * intros _. rewrite <- (packet_bytes_back p Hp) at 2. f_equal.
        change sizeof_packet with (Z.of_nat (Z.to_nat sizeof_packet)). rewrite <- Hn. apply load_store.
      * intros x Hx. apply store_out. by rewrite Hn.
    + apply wp_bind, wp_preempt. fold g1. apply wp_bind, wp_gets. rewrite E. apply wp_ret. split; [done|]. exists m. by rewrite E.
Qed.

(** PING 7 at address 10000 is put into the new command queue. *)
Definition queue_kernel : kernel :=
  demo_kernel <| ram := store (fun _ => 0) 10000 (packet_bytes (ping_packet 7)) |>.
Definition command_queue_made : option Queue_t * kernel :=
  osMessageQueueNew 80 (fun _ => Some 1000) demo_fresh false 8 sizeof_packet queue_kernel.

Lemma message_queues_implemented_witness :
  (let '(mq_id, k) := command_queue_made in
   let '(st, mq_id', k') := osMessageQueuePut true mq_id 10000 0 k in
   wp (GwMonad.osMessageQueuePut rs422_cmd_queue (ping_packet 7)) (fun st' g' =>
     st = Some st' /\ in_ram 1080 rs422_cmd_queue (queue_of g' rs422_cmd_queue) mq_id' (ram queue_kernel) k') demo_gateway) /\
  (let '(mq_id, k) := command_queue_made in
   let '(st1, mq_id', k') := osMessageQueuePut true mq_id 10000 0 k in
   let '(st2, _, k'') := osMessageQueueGet false mq_id' 20000 0 k' in
   st1 = Some osOK /\ st2 = Some osOK /\
   packet_of_bytes (load (ram k'') 20000 sizeof_packet) = ping_packet 7).
Proof.
  split; [|vm_compute; done].
  pose proof (create_calls rs422_cmd_queue 80 (fun _ => Some 1000) demo_fresh queue_kernel ltac:(cbn; lia)) as Hc.
  cbv zeta in Hc. change (queue_depth rs422_cmd_queue) with 8 in Hc. fold command_queue_made in Hc.
  destruct command_queue_made as [mq_id k].
  apply (proj1 (proj2 (message_queues_implemented demo_gateway rs422_cmd_queue)) 1080 mq_id
    (ram queue_kernel) k true (ping_packet 7) 10000).
  - exact Hc.
  - split; [lia|]. unfold in_block, sizeof_packet. change (queue_depth rs422_cmd_queue) with 8. lia.
  - by apply ping_packet_sendable.
  - vm_compute. reflexivity.
Defined.
