(* ===== verification/GwMemory.v ===== *)
(** * The tasks keep the gateway's memory well typed

    [sound] for every function of main.c, bottom up, and the invariant of
    [GwTyping] for whole tasks, interrupts and start-up ([activity]). *)
From S2P Require Import Prelude Crc16 Protocol StreamParser RxRing GwDiag GwRs422 GwHealth GwW5500 GwTcp GwUdp GwEthernet GwMain.
From S2P Require Export GwTyping.
Local Open Scope Z_scope.

(** What [f] does, by its text and what is known of its calls. *)
Tactic Notation "follow" reference(f) := unfold f; sound_auto.

(** ** Diagnostics *)
Section Diag.
Context {D : Type} `{!World D} `{!TypedWorld D} (J : gateway D -> Prop) `{!Stable J}.

Lemma sound_now_ms : sound J diagnostic_now_ms is_u32.
Proof. by apply sound_tick_count. Qed.
#[local] Hint Resolve sound_now_ms : sound.
Lemma sound_interval from to now : sound J (diag_interval from to now) (fun _ => True).
Proof. follow diag_interval. Qed.
#[local] Hint Resolve sound_interval : sound.
Lemma sound_uptime : sound J w5500_kernel_uptime_ms is_u32.
Proof. follow w5500_kernel_uptime_ms. apply u32_range. Qed.
Lemma sound_timeout_transition t h l :
  sound J (rs422_diag_record_timeout_transition t h l) (fun _ => True).
Proof. follow rs422_diag_record_timeout_transition. Qed.
Lemma sound_diag_initialize : sound J ethernet_diag_initialize (fun _ => True).
Proof. follow ethernet_diag_initialize. Qed.
Lemma sound_arm_recovery t : sound J (ethernet_diag_arm_recovery t) (fun _ => True).
Proof. follow ethernet_diag_arm_recovery. Qed.
Lemma sound_record_link_up t : sound J (ethernet_diag_record_link_up t) (fun _ => True).
Proof. follow ethernet_diag_record_link_up. Qed.
Lemma sound_diag_record tv mv ev : sound J (ethernet_diag_record tv mv ev) (fun _ => True).
Proof. unfold ethernet_diag_record, ethernet_diag_finish_if_complete. sound_auto. Qed.
Lemma sound_begin_diag t : sound J (diagnostic_begin_tcp_session t) (fun _ => True).
Proof. follow diagnostic_begin_tcp_session. Qed.
End Diag.
#[export] Hint Resolve sound_now_ms sound_interval sound_uptime sound_timeout_transition
  sound_diag_initialize sound_arm_recovery sound_record_link_up sound_diag_record sound_begin_diag : sound.

Lemma parser_init_ok : parser_ok parser_init.
Proof. exists []. apply parser_init_rel. Qed.

(** ** Encoding into a frame buffer *)
Lemma sound_encode {D} `{!World D} `{!TypedWorld D} (J : gateway D -> Prop) `{!Stable J} p a :
  array_size a = PROTOCOL_MAX_FRAME_SIZE -> sound J (encode_into p a) (fun _ => True).
Proof.
  intros Ha. unfold encode_into. eapply sound_bind; [by apply sound_rd_packet|]. intros x Hx.
  eapply sound_bind; [by apply sound_rd_array|]. intros buf [Hb Hn].
  rewrite Ha in Hn. change PROTOCOL_MAX_FRAME_SIZE with 266 in Hn.
  destruct (protocol_encode_full x buf) as (r & buf' & n & E & [Hb' Hn'] & _); [done|split; [done|lia]|].
  rewrite E. sound_auto. split; [done|]. rewrite Ha. change PROTOCOL_MAX_FRAME_SIZE with 266. cbn. lia.
Qed.

(** ** The RS-422 task *)
Section Rs422.
Context {D : Type} `{!World D} `{!TypedWorld D} (J : gateway D -> Prop) `{!Stable J}.
Notation received := g_rs422_received_packet.

(** *** A frame that was received *)
Section Frame.
Context `{!Owner D received} (p : protocol_packet_t).
Notation H := (held J received p).

Lemma sound_held r : sound (held J r p) (rd_packet r) (fun x => x = p).
Proof. apply sound_gets. by intros g []. Qed.
Hint Resolve sound_held : sound.

Lemma sound_put_received q `{!StableQueue J q} : message_ok q p -> sound H (put_received q) (fun _ => True).
Proof.
  intros Hp. unfold put_received. eapply sound_bind; [sound_known|]. intros null _.
  destruct null; [by apply sound_ret|]. eapply sound_bind; [apply sound_held|]. intros ? ->.
  eapply sound_bind; [by apply sound_put_message; [apply _..|]|]. intros. by apply sound_ret.
Qed.

Lemma sound_note_valid : sound H note_valid_frame (fun _ => True).
Proof. follow note_valid_frame. Qed.
Lemma sound_note_pong : sound H note_matching_pong (fun _ => True).
Proof. follow note_matching_pong. Qed.
Hint Resolve sound_note_valid sound_note_pong : sound.

Lemma sound_telemetry `{!StableQueue J udp_telemetry_queue} : sendable p -> sound H forward_telemetry (fun _ => True).
Proof.
  intros Hp. unfold forward_telemetry. eapply sound_bind; [apply sound_held|]. intros ? ->.
  apply sound_when. intros E. sound_auto. apply (sound_put_received udp_telemetry_queue). split; [done|]. cbn. lia.
Qed.

Lemma sound_pong `{!StableQueue J tcp_response_queue} : sendable p -> sound H forward_pong (fun _ => True).
Proof.
  intros Hp. unfold forward_pong. eapply sound_bind; [apply sound_held|]. intros ? ->.
  sound_auto.
  - apply (sound_put_received tcp_response_queue). split; [done|]. cbn. lia.
  - by apply sound_flags_set; [apply _..|].
Qed.

Context `{!StableQueue J udp_telemetry_queue} `{!StableQueue J tcp_response_queue}.
Lemma sound_handle_frame e m matching :
  sendable p -> sound H (rs422_handle_frame e m matching) (fun _ => True).
Proof.
  intros Hp. unfold rs422_handle_frame.
  eapply sound_bind; [apply sound_note_valid|]. intros _ _.
  eapply sound_bind; [by apply sound_telemetry|]. intros _ _.
  eapply sound_bind; [apply sound_held|]. intros x _. cbv zeta.
  eapply sound_bind; [by apply sound_pong|]. intros _ _. by apply sound_ret.
Qed.
End Frame.

(** *** The receive path *)
Lemma ring_ok_pop r : ring_ok r ->
  ring_ok (rs422_rx_ring_pop r).2 /\ forall b, (rs422_rx_ring_pop r).1 = Some b -> is_u8 b.
Proof.
  intros [(Hs & Hh & Ht & Hc) Hb Ho]. unfold rs422_rx_ring_pop. cbv zeta.
  destruct (_ =? _) eqn:E; cbn [fst snd].
  - by split; [split; [split_and!|..]|].
  - split.
    + split; [|done|done]. unfold rs422_ring_count in *. split_and!; [done|done|apply u16_range|].
      unfold rs422_ring_count. cbn. width.
    + intros b [= <-]. by apply arr_get_u8.
Qed.

Context `{!StableInput J}.
Lemma sound_pop :
  sound J rs422_pop_byte (fun b => forall x, b = Some x -> is_u8 x).
Proof.
  unfold rs422_pop_byte. eapply sound_bind; [apply sound_preempt; apply _|]. intros _ _.
  eapply (sound_bind J _ _ (fun r => ring_ok r.2 /\ forall x, r.1 = Some x -> is_u8 x)).
  { apply sound_gets. intros g Hg. apply ring_ok_pop. by apply ty_ring, stable_typed. }
  intros [b r] [Hr Hb]. eapply sound_bind; [by apply sound_ring; [apply _|]|]. intros _ _. by apply sound_ret.
Qed.

(** The parser and its packet stay well formed, and a frame is sendable. *)
Lemma feed_byte_typed p b out : is_u8 b -> parser_ok p -> packet_ok out ->
  let '(e, p', out') := feed_byte p b out in
  parser_ok p' /\ packet_ok out' /\ (e = STREAM_EVENT_FRAME -> sendable out').
Proof.
  intros Hb [w Hp] Hout. destruct (feed_byte_rel p w b out Hb Hp Hout) as (He & Hp' & Hd).
  destruct (feed_byte p b out) as [[e p'] out']. cbn [fst snd] in *.
  split; [by eexists|]. split; [by eapply delivered_ok|]. rewrite <- He in Hd. intros ->.
  destruct Hd as (q & Hq & _ & ->). split; [by apply received_ok; [|]|..]; apply Hq.
Qed.

(** Feeding a byte to the parser [s], whose packet is [r], and acting on the
    event. *)
Lemma sound_feed {A} s r x (k : stream_parser_event_t -> M D A) P :
  is_u8 x ->
  (forall ev, ev <> STREAM_EVENT_FRAME -> sound J (k ev) P) ->
  (forall p, sendable p -> leads (held J r p) J (k STREAM_EVENT_FRAME) P) ->
  sound J (parser ← rd_parser s; out ← rd_packet r;
    let '(ev, parser', out') := feed_byte parser x out in
    wr_parser s parser';; wr_packet r out';; k ev) P.
Proof.
  intros Hx Hother Hframe g Hg.
  pose proof (feed_byte_typed (parser_of g s) x (packet_of g r) Hx 
    (ty_parser _ (stable_typed _ Hg) _) (ty_packet _ (stable_typed _ Hg) _)) as Hf.
  do 2 apply outcome_bind, outcome_gets.
  destruct (feed_byte _ _ _) as [[ev p'] out']. destruct Hf as (Hp & Hout & Hs).
  do 2 apply outcome_bind, outcome_modify. set (g2 := set_field packet_of _ _). assert (held J r out' g2) as Hh.
  { split; [exact (stable_packet _ _ _ Hout (stable_parser _ _ _ Hp Hg))|apply upd_eq]. }
  destruct (decide (ev = STREAM_EVENT_FRAME)) as [->|Hev].
  - by apply (Hframe out'); [apply Hs|].
  - apply Hother; [done|]. apply Hh.
Qed.

Section Tasks.
Context `{!Owner D received} `{!StableQueue J udp_telemetry_queue} `{!StableQueue J tcp_response_queue}.

Lemma sound_process_rx e m : sound J (rs422_process_rx_buffer e m) (fun _ => True).
Proof.
  unfold rs422_process_rx_buffer. generalize 0 as matching. induction rounds as [|n IH]; intros matching;
    cbn [rs422_rx_loop]; [apply sound_fail|].
  eapply sound_bind; [apply sound_pop|]. intros [x|] Hx; [|by apply sound_ret].
  eapply sound_ext; [|apply (sound_feed g_rs422_parser received x
    (fun ev => matching ← (if decide (ev = STREAM_EVENT_FRAME) then rs422_handle_frame e m matching
                           else mret matching); rs422_rx_loop n e m matching))].
  - intros g. unfold rs422_feed_byte, rd_parser, rd_packet, gets, mbind, M_bind.
    by destruct (feed_byte _ _ _) as [[? ?] ?].
  - by apply Hx.
  - intros ev Hev. rewrite decide_False by done. sound_auto.
  - intros p Hp. rewrite decide_True by done. eapply leads_bind; [|intros ? _; apply IH].
    apply leads_held. by apply sound_handle_frame.
Qed.
End Tasks.
End Rs422.
#[export] Hint Resolve sound_process_rx : sound.

(** *** Transmission *)
Section Transmission.
Context {D : Type} `{!World D} `{!TypedWorld D} (J : gateway D -> Prop) `{!Stable J} `{!StableInput J}
  `{!StableHardware J} `{!Owner D g_rs422_received_packet}
  `{!StableQueue J udp_telemetry_queue} `{!StableQueue J tcp_response_queue}.

Lemma sound_events flags : sound J (rs422_handle_events flags) (fun _ => True).
Proof.
  unfold rs422_handle_events, rs422_handle_tcp_context_reset_event, rs422_handle_tx_done_event.
  sound_auto.
Qed.
Hint Resolve sound_events : sound.

Lemma sound_tx_wait s : sound J (rs422_wait_for_tx_complete s) (fun _ => True).
Proof.
  assert (forall n t0 t1 matching,
    sound J (rs422_tx_wait_loop n s t0 t1 matching) (fun _ => True)) as H.
  { induction n as [|n IH]; intros t0 t1 matching; cbn [rs422_tx_wait_loop]; [apply sound_fail|].
    sound_auto. }
  follow rs422_wait_for_tx_complete.
Qed.
Hint Resolve sound_tx_wait : sound.

Lemma sound_start_tx n : sound J (rs422_start_tx n) (fun _ => True).
Proof. follow rs422_start_tx. Qed.
Lemma sound_start_error st : sound J (count_tx_start_error st) (fun _ => True).
Proof. follow count_tx_start_error. Qed.
Lemma sound_rs422_encode p : sound J (rs422_encode p) (fun _ => True).
Proof. apply (sound_encode J p g_rs422_tx_frame). done. Qed.
Hint Resolve sound_start_tx sound_start_error sound_rs422_encode : sound.

Lemma sound_pong_wait n s t0 t1 :
  sound J (rs422_pong_wait_loop n s t0 t1) (fun _ => True).
Proof. induction n as [|n IH]; cbn [rs422_pong_wait_loop]; sound_auto. Qed.
Hint Resolve sound_pong_wait : sound.

Lemma sound_ping_test s : is_u16 s -> sound J (rs422_ping_bringup_test s) (fun _ => True).
Proof.
  intros Hs. follow rs422_ping_bringup_test.
  match goal with H : packet_ok ?p |- packet_ok _ => destruct H; by split end.
Qed.

Lemma sound_bringup : sound J rs422_ping_bringup_run (fun _ => True).
Proof.
  assert (forall n i f, sound J (rs422_bringup_loop n i f) (fun _ => True)) as H.
  { induction n as [|n IH]; intros i f; cbn [rs422_bringup_loop]; [by apply sound_ret|].
    cbv zeta. apply sound_bind_any; [apply sound_ping_test, u16_range|]. intros r.
    sound_auto. }
  follow rs422_ping_bringup_run.
Qed.
Hint Resolve sound_bringup : sound.

Lemma sound_clear_pending p : sound J (clear_pending_ping p) (fun _ => True).
Proof. follow clear_pending_ping. Qed.
Lemma sound_ping_tx p : sound J (note_ping_tx p) (fun _ => True).
Proof. follow note_ping_tx. Qed.
Hint Resolve sound_clear_pending sound_ping_tx : sound.

Lemma sound_forward p : sound J (rs422_forward_packet p) (fun _ => True).
Proof. follow rs422_forward_packet. Qed.
Hint Resolve sound_forward : sound.

End Transmission.
#[export] Hint Resolve sound_events sound_tx_wait sound_start_tx sound_start_error sound_rs422_encode sound_pong_wait sound_ping_test sound_bringup sound_clear_pending sound_ping_tx sound_forward : sound.

Section Rs422Task.
Context {D : Type} `{!World D} `{!TypedWorld D}.

Section Tasks.
Context `{!Owner D g_rs422_received_packet}.

(** *** The task *)
Lemma sound_rs422_init : sound (D := D) typed rs422_task_init (fun _ => True).
Proof.
  unfold rs422_task_init. eapply sound_bind.
  { apply sound_ring; [apply _|]. intros g Hg. destruct (ty_ring _ Hg) as [(Hs & _ & _ & _) Hb _].
    split; [|done|done]. cbn. unfold rs422_ring_count. cbn. split_and!; try done; lia. }
  intros _ _. sound_auto. apply parser_init_ok.
Qed.

Lemma sound_command_loop n : sound (D := D) typed (rs422_command_loop n) (fun _ => True).
Proof. induction n as [|n IH]; cbn [rs422_command_loop]; sound_auto. Qed.
Hint Resolve sound_command_loop : sound.

Lemma sound_rs422_iteration : sound (D := D) typed rs422_task_iteration (fun _ => True).
Proof. follow rs422_task_iteration. Qed.
End Tasks.

(** *** The interrupts *)
Lemma ring_ok_push b r : is_u8 b -> ring_ok r -> ring_ok (rs422_rx_ring_push_from_isr b r).
Proof.
  intros Hb [Hw Hbs Ho]. split.
  - apply (ring_push_law r b Hw).
  - unfold rs422_rx_ring_push_from_isr. cbv zeta. destruct (_ >=? _); [done|].
    by apply Forall_insert.
  - unfold rs422_rx_ring_push_from_isr. cbv zeta. destruct (_ >=? _); [apply u32_range|done].
Qed.

Lemma sound_isr_signal flags : is_u32 flags -> sound (D := D) typed (isr_signal flags) (fun _ => True).
Proof. intros Hf. follow isr_signal. by apply sound_flags_set; [apply _..|]. Qed.

Lemma sound_tx_done h : sound (D := D) typed (HAL_UART_TxCpltCallback h) (fun _ => True).
Proof. follow HAL_UART_TxCpltCallback. by apply sound_isr_signal. Qed.
Lemma sound_rx_done h : sound (D := D) typed (HAL_UART_RxCpltCallback h) (fun _ => True).
Proof.
  follow HAL_UART_RxCpltCallback.
  - apply sound_ring; [apply _|]. intros g Hg. apply ring_ok_push; by apply Hg.
  - by apply sound_isr_signal.
Qed.
Lemma sound_rx_error h : sound (D := D) typed (HAL_UART_ErrorCallback h) (fun _ => True).
Proof. follow HAL_UART_ErrorCallback. by apply sound_isr_signal. Qed.
End Rs422Task.
#[export] Hint Resolve sound_encode : sound.

(** ** The W5500 driver *)
Section Driver.
Context {D : Type} `{!World D} `{!TypedWorld D} (J : gateway D -> Prop) `{!Stable J} `{!StableHardware J}.

Lemma memcpy_ok a old rx n : 0 <= n <= array_size a ->
  array_ok a old -> bytes rx -> n <= Z.of_nat (length rx) -> array_ok a (memcpy old 0 rx n).
Proof.
  intros Hn [Ho Hl] Hr Hrx. split; [unfold memcpy; solve_bytes|]. rewrite length_memcpy; lia.
Qed.

Lemma sound_reset : sound J w5500_hardware_reset (fun _ => True).
Proof. follow w5500_hardware_reset. Qed.
Lemma sound_write_frame tx : sound J (spi_write_frame tx) (fun _ => True).
Proof. follow spi_write_frame. Qed.
Lemma sound_read_frame tx :
  sound J (spi_read_frame tx) (fun r => bytes r.2 /\ length r.2 = length tx).
Proof. follow spi_read_frame. Qed.
#[local] Hint Resolve sound_reset sound_write_frame sound_read_frame : sound.

Lemma sound_write_registers v m ad d n : sound J (write_registers v m ad d n) (fun _ => True).
Proof. follow write_registers. Qed.
Lemma sound_read_byte v ad x : sound J (read_byte_frame v ad x) (fun _ => True).
Proof. follow read_byte_frame. Qed.
#[local] Hint Resolve sound_read_byte : sound.
Lemma sound_read_register v ad x : sound J (read_register v ad x) (fun _ => True).
Proof. follow read_register. Qed.

Definition read_into (d : list Z) (r : Z * option (list Z)) : Prop :=
  exists d', r.2 = Some d' /\ bytes d' /\ length d' = length d.

Lemma sound_read_registers v m ad d n : bytes d -> 0 <= n <= Z.of_nat (length d) ->
  sound J (read_registers v m ad (Some d) n) (read_into d).
Proof.
  intros Hd Hn. unfold read_registers. sound_auto; try by eexists.
  match goal with H : bytes _ /\ _ |- _ => destruct H as [Hb Hl] end. cbn [fst snd] in *.
  rewrite length_app, length_replicate in Hl. cbn [length spi_header] in Hl.
  case_match; [|by eexists]. eexists. split; [done|]. split.
  - unfold memcpy. solve_bytes.
  - apply length_memcpy; [lia| |lia]. rewrite length_drop.
    change (Z.to_nat W5500_COMMON_HEADER_LENGTH) with 3%nat. lia.
Qed.
#[local] Hint Resolve sound_write_registers sound_read_register : sound.

(** What a pointer to [uint16_t] holds. *)
Definition u16_at (o : option Z) : Prop := forall v, o = Some v -> is_u16 v.

Lemma sound_read_u16 read ad x :
  (forall d, bytes d -> length d = 2%nat -> sound J (read ad (Some d) 2) (read_into d)) ->
  u16_at x -> sound J (read_u16 read ad x) (fun r => u16_at r.2).
Proof.
  intros Hread Hx. unfold read_u16. destruct x as [x|]; [|by apply sound_ret].
  eapply sound_bind_any.
  { eapply sound_mono; [apply Hread; [by solve_bytes|done]|done]. }
  intros [st d]. apply sound_ret. cbn. case_match; [|done]. intros v [= <-]. apply u16_range.
Qed.

Lemma sound_stable_u16 read n ad x :
  (forall v, is_u16 v -> sound J (read ad (Some v)) (fun r => u16_at r.2)) ->
  u16_at x -> sound J (read_stable_u16 read n ad x) (fun r => u16_at r.2).
Proof.
  intros Hread Hx. unfold read_stable_u16. destruct x as [x|]; [|by apply sound_ret].
  assert (forall k attempt prev cur, is_u16 cur ->
    sound J (stable_loop (read ad) k attempt prev cur (Some x)) (fun r => u16_at r.2)) as H; [|by apply H].
  induction k as [|k IH]; intros attempt prev cur Hc; cbn [stable_loop]; [by apply sound_ret|].
  eapply sound_bind; [by apply Hread|]. intros [st c] Hc'. cbn [snd] in Hc'. cbv zeta.
  assert (is_u16 (default cur c)) by (destruct c; [by apply Hc'|done]).
  destruct (negb _); [by apply sound_ret|].
  destruct (_ && _); [|by apply IH]. apply sound_ret. by intros v [= <-].
Qed.

(** *** Transfers with the socket buffers *)
Lemma sound_tx_chunks n data discard c len off st :
  0 < c <= array_size discard -> c < 65536 -> 0 <= off <= len -> len <= array_size data -> len < 65536 ->
  sound J (tx_chunk_loop n data discard c len off st) (fun _ => True).
Proof.
  intros Hc Hc' Ho Hl Hl'. revert off st Ho. induction n as [|n IH]; intros off st Ho; cbn [tx_chunk_loop].
  { destruct (_ && _); [apply sound_fail|by apply sound_ret]. }
  destruct (_ && _) eqn:E; [|by apply sound_ret]. cbv zeta.
  assert (u16 (len - off) = len - off) as -> by width.
  set (k := if len - off >? c then c else len - off). assert (0 <= k <= c /\ k <= len - off) as Hk
    by (unfold k; destruct (len - off >? c) eqn:Ek; zlia).
  eapply sound_bind; [by apply sound_rd_array|]. intros d [Hd Hdl].
  eapply sound_bind; [by apply sound_spi_transfer|]. intros [st' rx] [Hr Hrl]. cbn [snd] in *.
  eapply sound_bind; [by apply sound_rd_array|]. intros old Hold.
  eapply sound_bind_any; [apply sound_wr_array; [apply _|]|].
  - rewrite length_take, length_drop in Hrl. apply memcpy_ok; [lia|done|done|lia].
  - intros _. apply IH. width.
Qed.

Lemma sound_write_tx_buffer v c discard ad data len :
  0 < c <= array_size discard -> c < 65536 -> 0 <= len ->
  (forall a, data = Some a -> array_size a = PROTOCOL_MAX_FRAME_SIZE) ->
  sound J (write_tx_buffer v c discard ad data len) (fun _ => True).
Proof.
  intros Hc Hc' Hl Hd. unfold write_tx_buffer. destruct data as [a|]; [|by apply sound_ret].
  pose proof (Hd a eq_refl) as Ha. change PROTOCOL_MAX_FRAME_SIZE with 266 in *.
  destruct (_ || _) eqn:E; [by apply sound_ret|]. sound_auto.
  apply sound_tx_chunks; zlia.
Qed.

Lemma sound_rx_buffer ad data len :
  0 <= len -> (forall a, data = Some a -> array_size a = W5500_TCP_RX_CHUNK_SIZE) ->
  sound J (w5500_socket0_read_rx_buffer ad data len) (fun _ => True).
Proof.
  intros Hl Hd. unfold w5500_socket0_read_rx_buffer. destruct data as [a|]; [|by apply sound_ret].
  pose proof (Hd a eq_refl) as Ha. unfold W5500_TCP_RX_CHUNK_SIZE in *.
  destruct (_ || _) eqn:E; [by apply sound_ret|]. sound_auto.
  repeat match goal with H : _ /\ length _ = _ |- _ => destruct H as [? ?] end. cbn [fst snd] in *.
  match goal with H : array_ok g_w5500_tcp_rx_dummy _ |- _ => destruct H as [? Hlen] end.
  cbn [array_size] in Hlen. unfold W5500_TCP_RX_CHUNK_SIZE in Hlen.
  apply memcpy_ok; [zlia|done|done|]. rewrite length_take in *. zlia.
Qed.

(** *** Polling *)
Lemma sound_poll body t p :
  sound J body (fun _ => True) -> sound J (poll body t p) (fun _ => True).
Proof.
  intros Hb. unfold poll. cbv zeta. eapply sound_bind; [by apply sound_tick_count|]. intros t0 _.
  induction (S _) as [|n IH]; cbn [poll_loop]; [apply sound_fail|].
  eapply sound_bind_any; [apply Hb|]. intros [st|]; sound_auto.
Qed.

Lemma sound_command write read cr c :
  (forall ad d n, sound J (write ad d n) (fun _ => True)) ->
  (forall ad x, sound J (read ad x) (fun _ => True)) ->
  sound J (execute_command write read cr c) (fun _ => True).
Proof.
  intros Hw Hr. unfold execute_command. sound_auto. apply sound_poll. unfold command_poll. sound_auto.
Qed.
End Driver.
#[export] Hint Resolve sound_reset sound_write_registers sound_read_register sound_read_byte : sound.

(** ** Sockets *)
Section Sockets.
Context {D : Type} `{!World D} `{!TypedWorld D} (J : gateway D -> Prop) `{!Stable J} `{!StableHardware J}.

Lemma sound_and_then st (m : M D Z) :
  sound J m (fun _ => True) -> sound J (and_then st m) (fun _ => True).
Proof. intros Hm. follow and_then. Qed.

(** The instances of the generic accesses. *)
Lemma sound_read_common_register ad x : sound J (w5500_read_common_register ad x) (fun _ => True).
Proof. by apply sound_read_byte. Qed.
Lemma sound_read_version x : sound J (w5500_read_version x) (fun _ => True).
Proof. apply sound_read_common_register. Qed.
Lemma sound_write_common ad d n : sound J (w5500_write_common_registers ad d n) (fun _ => True).
Proof. by apply sound_write_registers. Qed.
Lemma sound_write_socket0 ad d n : sound J (w5500_socket0_write_registers ad d n) (fun _ => True).
Proof. by apply sound_write_registers. Qed.
Lemma sound_write_socket1 ad d n : sound J (w5500_socket1_write_registers ad d n) (fun _ => True).
Proof. by apply sound_write_registers. Qed.
Lemma sound_read_socket0 ad x : sound J (w5500_socket0_read_register ad x) (fun _ => True).
Proof. by apply sound_read_register. Qed.
Lemma sound_read_socket1 ad x : sound J (w5500_socket1_read_register ad x) (fun _ => True).
Proof. by apply sound_read_register. Qed.
#[local] Hint Resolve sound_and_then sound_write_common sound_write_socket0 sound_write_socket1
  sound_read_socket0 sound_read_socket1 : sound.

Lemma sound_read_common ad a n :
  0 <= n <= array_size a -> sound J (read_common_into ad a n) (fun _ => True).
Proof.
  intros Hn. unfold read_common_into. eapply sound_bind; [by apply sound_rd_array|]. intros old [Ho Hl].
  eapply sound_bind; [apply sound_read_registers; [apply _..|done|lia]|].
  intros [st d] (d' & Hd & Hb & Hl'). cbn [snd] in Hd. rewrite Hd. cbn [default].
  sound_auto. split; [done|]. cbn. lia.
Qed.

Lemma sound_write_config : sound J w5500_write_network_config (fun _ => True).
Proof. follow w5500_write_network_config. Qed.

Lemma sound_read_config : sound J w5500_read_network_config (fun _ => True).
Proof.
  unfold w5500_read_network_config. sound_auto; try apply sound_and_then; by apply sound_read_common.
Qed.

Lemma sound_matches : sound J w5500_network_readback_matches (fun _ => True).
Proof. follow w5500_network_readback_matches. Qed.

(** *** Both sockets *)
Lemma sound_socket0_command c : sound J (w5500_socket0_execute_command c) (fun _ => True).
Proof. apply sound_command; intros; sound_known. Qed.
Lemma sound_socket1_command c : sound J (w5500_socket1_execute_command c) (fun _ => True).
Proof. apply sound_command; intros; sound_known. Qed.

Lemma sound_socket0_u16 ad x :
  u16_at x -> sound J (w5500_socket0_read_u16 ad x) (fun r => u16_at r.2).
Proof.
  apply sound_read_u16. intros d Hd Hl. apply sound_read_registers; [apply _..|done|].
  rewrite Hl. lia.
Qed.
Lemma sound_socket1_u16 ad x :
  u16_at x -> sound J (w5500_socket1_read_u16 ad x) (fun r => u16_at r.2).
Proof.
  apply sound_read_u16. intros d Hd Hl. apply sound_read_registers; [apply _..|done|].
  rewrite Hl. lia.
Qed.

Lemma sound_socket0_stable ad x :
  u16_at x -> sound J (w5500_socket0_read_stable_u16 ad x) (fun r => u16_at r.2).
Proof. apply sound_stable_u16. intros v Hv. apply sound_socket0_u16. by intros ? [= <-]. Qed.
Lemma sound_socket1_stable ad x :
  u16_at x -> sound J (w5500_socket1_read_stable_u16 ad x) (fun r => u16_at r.2).
Proof. apply sound_stable_u16. intros v Hv. apply sound_socket1_u16. by intros ? [= <-]. Qed.

Lemma u16_at_small v : is_u16 v -> u16_at (Some v).
Proof. by intros Hv ? [= <-]. Qed.
Hint Resolve sound_socket0_command sound_socket1_command : sound.

Lemma sound_send s frame n :
  (forall k, sound J (so_wait_for_tx_free s k) (fun _ => True)) ->
  (forall ad, sound J (so_read_u16 s ad (Some 0)) (fun _ => True)) ->
  (forall ad, sound J (so_write_tx_buffer s ad frame n) (fun _ => True)) ->
  (forall ad d k, sound J (so_write_registers s ad d k) (fun _ => True)) ->
  (forall c, sound J (so_execute_command s c) (fun _ => True)) ->
  sound J (so_wait_for_send_result s) (fun _ => True) ->
  sound J (send_frame s frame n) (fun _ => True).
Proof. intros. unfold send_frame. sound_auto. Qed.

Lemma sound_free_poll read ad k :
  sound J (read ad (Some 0)) (fun _ => True) -> sound J (tx_free_poll read ad k) (fun _ => True).
Proof. intros Hr. follow tx_free_poll. Qed.

Lemma sound_result_poll read write ir ok t :
  (forall ad x, sound J (read ad x) (fun _ => True)) ->
  (forall ad d n, sound J (write ad d n) (fun _ => True)) ->
  sound J (send_result_poll read write ir ok t) (fun _ => True).
Proof. intros Hr Hw. follow send_result_poll. Qed.

Lemma sound_status_poll read v1 v2 sr c e :
  (forall ad x, sound J (read ad x) (fun _ => True)) ->
  sound J (status_poll read v1 v2 sr c e) (fun _ => True).
Proof. intros Hr. follow status_poll. Qed.

(** A frame buffer, where the caller gives one. *)
Definition frame_at (o : option avar) : Prop :=
  forall a, o = Some a -> array_size a = PROTOCOL_MAX_FRAME_SIZE.

Ltac socket_operations stable u16 :=
  apply sound_send; intros; cbn [socket0_ops socket1_ops so_wait_for_tx_free so_read_u16 so_write_tx_buffer
    so_write_registers so_execute_command so_wait_for_send_result];
  [ apply sound_poll; [apply _|]; apply sound_free_poll;
    eapply sound_mono; [by apply stable, u16_at_small|done]
  | eapply sound_mono; [by apply u16, u16_at_small|done]
  | by apply sound_write_tx_buffer
  | sound_known | sound_known
  | apply sound_poll; [apply _|]; apply sound_result_poll; intros; sound_known ].

Lemma sound_tcp_send frame n : 0 <= n -> frame_at frame ->
  sound J (w5500_tcp_send_frame frame n) (fun _ => True).
Proof. intros Hn Hf. socket_operations sound_socket0_stable sound_socket0_u16. Qed.
Lemma sound_udp_send frame n : 0 <= n -> frame_at frame ->
  sound J (w5500_udp_send_frame frame n) (fun _ => True).
Proof. intros Hn Hf. socket_operations sound_socket1_stable sound_socket1_u16. Qed.

Hint Resolve sound_tcp_send sound_udp_send : sound.

Lemma frame_at_some a : array_size a = PROTOCOL_MAX_FRAME_SIZE -> frame_at (Some a).
Proof. by intros Ha ? [= <-]. Qed.
Lemma u16_nonneg n : 0 <= u16 n.
Proof. apply u16_range. Qed.

(** *** Status and diagnostics *)
Lemma sound_socket0_status e t : sound J (w5500_wait_for_socket0_status e t) (fun _ => True).
Proof. apply sound_poll; [apply _|]. apply sound_status_poll. intros. sound_known. Qed.
Lemma sound_socket1_status e t : sound J (w5500_wait_for_socket1_status e t) (fun _ => True).
Proof. apply sound_poll; [apply _|]. apply sound_status_poll. intros. sound_known. Qed.
Lemma sound_service_ready : sound J ethernet_diag_record_tcp_service_ready (fun _ => True).
Proof. by apply sound_diag_record. Qed.
Lemma sound_pong_sent : sound J ethernet_diag_record_tcp_pong_tx_success (fun _ => True).
Proof. by apply sound_diag_record. Qed.
Lemma sound_udp_sent : sound J ethernet_diag_record_udp_tx_success (fun _ => True).
Proof. by apply sound_diag_record. Qed.
Lemma sound_note_send p : sound J (note_pong_send p) (fun _ => True).
Proof. follow note_pong_send. Qed.
Lemma sound_note_parsed p : sound J (note_ping_parsed p) (fun _ => True).
Proof. follow note_ping_parsed. Qed.
Lemma sound_note_ready : sound J note_rx_ready (fun _ => True).
Proof. follow note_rx_ready. Qed.
Lemma sound_udp_error st : sound J (note_udp_error st) (fun _ => True).
Proof. follow note_udp_error. Qed.
Hint Resolve sound_socket0_status sound_socket1_status sound_service_ready sound_pong_sent
  sound_udp_sent sound_note_send sound_note_parsed sound_note_ready sound_udp_error : sound.

(** *** Opening *)
Lemma sound_listen : sound J w5500_listen_tcp_server (fun _ => True).
Proof. follow w5500_listen_tcp_server. Qed.
Lemma sound_publish st (m : M D Z) :
  sound J m (fun _ => True) -> sound J (and_then_publish st m) (fun _ => True).
Proof. intros Hm. follow and_then_publish. Qed.
Hint Resolve sound_listen sound_publish : sound.
Lemma sound_start_tcp : sound J w5500_start_tcp_server (fun _ => True).
Proof. follow w5500_start_tcp_server. Qed.
Lemma sound_start_udp : sound J w5500_start_udp_socket (fun _ => True).
Proof. follow w5500_start_udp_socket. Qed.

(** *** Sending *)
Lemma sound_response p : sound J (w5500_tcp_send_response_packet p) (fun _ => True).
Proof.
  unfold w5500_tcp_send_response_packet. sound_auto.
  - by apply sound_encode.
  - apply sound_tcp_send; [apply u16_nonneg|by apply frame_at_some].
Qed.
Lemma sound_udp_forward p : sound J (w5500_udp_forward_packet p) (fun _ => True).
Proof.
  unfold w5500_udp_forward_packet. sound_auto.
  - by apply sound_encode.
  - apply sound_udp_send; [apply u16_nonneg|by apply frame_at_some].
Qed.
End Sockets.
#[export] Hint Resolve sound_and_then sound_read_common_register sound_read_version sound_write_common
  sound_write_socket0 sound_write_socket1 sound_read_socket0 sound_read_socket1 sound_write_config
  sound_read_config sound_matches sound_socket0_command sound_socket1_command sound_note_parsed
  sound_note_ready sound_udp_error sound_listen sound_start_tcp sound_start_udp sound_response
  sound_udp_forward sound_socket0_status sound_socket1_status sound_udp_sent sound_tx_done sound_rx_done sound_rx_error : sound.
