(* ===== verification/GwTyped.v ===== *)
(** * The gateway's memory is always well typed

    The Ethernet and health tasks and start-up, and the invariant of
    [GwTyping] for every [activity] of the firmware. *)
From S2P Require Import Prelude Crc16 Protocol StreamParser RxRing GwDiag GwRs422 GwHealth GwW5500 GwTcp GwUdp GwEthernet GwMain.
From S2P Require Export GwMemory.
Local Open Scope Z_scope.

(** ** The Ethernet task *)
Section Ethernet.
Context {D : Type} `{!World D} `{!TypedWorld D} `{!Owner D g_tcp_received_packet}.
Notation received := g_tcp_received_packet.

(** *** A frame from the client *)
Lemma sound_put_command p : message_ok rs422_cmd_queue p ->
  sound (held (D := D) typed received p) put_command (fun _ => True).
Proof.
  intros Hp. unfold put_command. eapply sound_bind; [sound_known|]. intros null _.
  destruct null; [by apply sound_ret|]. eapply sound_bind; [apply sound_held|]. intros ? ->.
  eapply sound_bind; [by apply sound_put_message; [apply _..|]|]. intros. by apply sound_ret.
Qed.

Lemma sound_client_frame p : sendable p ->
  sound (held (D := D) typed received p) w5500_tcp_handle_valid_frame (fun _ => True).
Proof.
  intros Hp. unfold w5500_tcp_handle_valid_frame. eapply sound_bind; [sound_known|]. intros _ _.
  eapply sound_bind; [apply sound_held|]. intros ? ->. sound_auto.
  - apply sound_put_command. split; [done|]. cbn. lia.
  - by apply sound_flags_set; [apply _..|].
Qed.

Lemma sound_parse n i : sound (D := D) typed (tcp_parse_loop n i) (fun _ => True).
Proof.
  revert i. induction n as [|n IH]; intros i; cbn [tcp_parse_loop]; [by apply sound_ret|].
  eapply sound_bind; [apply sound_rd_array; apply _|]. intros chunk [Hc _].
  apply (sound_feed typed g_tcp_parser received); [by apply arr_get_u8| |].
  - intros [] Hev; [sound_auto..|done].
  - intros p Hp. eapply leads_bind; [|intros ? _; apply IH]. apply leads_held. by apply sound_client_frame.
Qed.
Hint Resolve sound_parse : sound.

Lemma sound_process_client : sound (D := D) typed w5500_tcp_process_rx (fun _ => True).
Proof.
  unfold w5500_tcp_process_rx. eapply sound_bind; [apply sound_socket0_stable; [apply _..|by apply u16_at_small]|].
  intros [st size] Hsize. sound_auto.
  - eapply sound_mono; [by apply sound_socket0_u16; [apply _..|apply u16_at_small]|done].
  - apply sound_rx_buffer; [apply _..| |by intros ? [= <-]]. case_match; [done|].
    destruct size; [by apply (Hsize _ eq_refl)|done].
Qed.

(** *** Responses *)
Lemma sound_responses (m : M D unit) :
  sound typed m (fun _ => True) -> sound typed (for_responses m) (fun _ => True).
Proof.
  intros Hm. unfold for_responses. eapply sound_bind; [sound_known|]. intros null _.
  destruct null; [by apply sound_ret|].
  induction (Z.to_nat _) as [|n IH]; cbn [response_loop]; sound_auto.
Qed.
Lemma sound_discard : sound (D := D) typed w5500_tcp_discard_stale_responses (fun _ => True).
Proof. apply sound_responses. sound_auto. Qed.
Lemma sound_drain : sound (D := D) typed w5500_tcp_drain_response_queue (fun _ => True).
Proof. apply sound_responses. sound_auto. Qed.
Hint Resolve sound_process_client sound_discard sound_drain : sound.

Lemma sound_invalidate : sound (D := D) typed w5500_tcp_invalidate_connection_context (fun _ => True).
Proof.
  follow w5500_tcp_invalidate_connection_context; [apply parser_init_ok|].
  by apply sound_flags_set; [apply _..|].
Qed.
Hint Resolve sound_invalidate : sound.
Lemma sound_restart : sound (D := D) typed w5500_restart_tcp_server (fun _ => True).
Proof. follow w5500_restart_tcp_server. Qed.
Hint Resolve sound_restart : sound.

(** *** Telemetry *)
Lemma telemetry_ok seq t p : is_u16 seq -> packet_ok p ->
  packet_ok (mk_packet PROTOCOL_VERSION MSG_TELEMETRY seq W5500_UDP_PAYLOAD_LENGTH
    (telemetry_payload t (pkt_payload p))).
Proof.
  intros Hs [_ _ _ _ Hb Hl]. split; cbn [pkt_version pkt_msg_id pkt_seq pkt_length pkt_payload]; try done.
  - unfold telemetry_payload. by repeat (apply Forall_insert; [|auto with width]).
  - unfold telemetry_payload. by rewrite !length_arr_set.
Qed.

Lemma sound_local_telemetry : sound (D := D) typed w5500_udp_send_telemetry (fun _ => True).
Proof.
  follow w5500_udp_send_telemetry.
  - apply telemetry_ok; [by apply in_range_u16|done].
  - by apply (sound_encode typed).
  - apply sound_udp_send; [apply _..|apply u16_nonneg|by apply frame_at_some].
Qed.
Hint Resolve sound_local_telemetry : sound.

Lemma sound_udp_drain n : sound (D := D) typed (udp_drain_loop n) (fun _ => True).
Proof. induction n as [|n IH]; cbn [udp_drain_loop]; sound_auto. Qed.
Hint Resolve sound_udp_drain : sound.

(** *** Services *)
Lemma sound_lift {A} (o : option A) : sound (D := D) typed (lift_option o) (fun _ => True).
Proof. unfold lift_option. sound_auto. Qed.
Lemma sound_dwt : sound (D := D) typed dwt_cycles (fun _ => True).
Proof. follow dwt_cycles. Qed.
Lemma sound_network_ok : sound (D := D) typed eth_network_ok (fun _ => True).
Proof. follow eth_network_ok. Qed.
Hint Resolve @sound_lift sound_dwt sound_network_ok : sound.

Lemma sound_phy l : sound (D := D) typed (phy_service l) (fun _ => True).
Proof. unfold phy_service, phy_sample, phy_link_found, phy_link_lost. sound_auto. Qed.
Lemma sound_again l : sound (D := D) typed (listening_again l) (fun _ => True).
Proof. follow listening_again. Qed.
Lemma sound_later_retry l : sound (D := D) typed (retry_later l) (fun _ => True).
Proof. follow retry_later. Qed.
Hint Resolve sound_phy sound_again sound_later_retry : sound.

Lemma sound_socket_state st t l : sound (D := D) typed (socket_state_service st t l) (fun _ => True).
Proof.
  unfold socket_state_service, close_wait_service, other_state_service, after_start. sound_auto.
Qed.
Hint Resolve sound_socket_state : sound.
Lemma sound_lifecycle l : sound (D := D) typed (tcp_lifecycle_service l) (fun _ => True).
Proof. unfold tcp_lifecycle_service, recovery_service, restart_service. sound_auto. Qed.
Hint Resolve sound_lifecycle : sound.
Lemma sound_control l : sound (D := D) typed (control_service l) (fun _ => True).
Proof. follow control_service. Qed.
Lemma sound_data_start l : sound (D := D) typed (data_service_start l) (fun _ => True).
Proof. follow data_service_start. Qed.
Lemma sound_session l : sound (D := D) typed (session_service l) (fun _ => True).
Proof. unfold session_service, begin_session. sound_auto. apply parser_init_ok. Qed.
Lemma sound_tcp_data b e : sound (D := D) typed (tcp_data_service b e) (fun _ => True).
Proof. follow tcp_data_service. Qed.
Lemma sound_udp_data : sound (D := D) typed udp_data_service (fun _ => True).
Proof. follow udp_data_service. Qed.
Lemma sound_account c : sound (D := D) typed (data_service_account c) (fun _ => True).
Proof. follow data_service_account. Qed.
Hint Resolve sound_control sound_data_start sound_session sound_tcp_data sound_udp_data
  sound_account : sound.

(** *** The task *)
Lemma sound_eth_init : sound (D := D) typed eth_task_init (fun _ => True).
Proof.
  unfold eth_task_init, eth_bring_up, eth_open_sockets, eth_timing_reference.
  eapply sound_bind_any; [unfold eth_reset_globals; sound_auto|intros _; sound_auto].
  all: try (by split; [solve_bytes|]). apply parser_init_ok.
Qed.
Lemma sound_eth_iteration l : sound (D := D) typed (eth_task_iteration l) (fun _ => True).
Proof. unfold eth_task_iteration, eth_wait. sound_auto. Qed.
Hint Resolve sound_eth_init sound_eth_iteration : sound.
Lemma sound_ethernet n : sound (D := D) typed (StartEthernetTask n) (fun _ => True).
Proof.
  unfold StartEthernetTask. apply sound_bind_any; [sound_known|].
  induction n as [|n IH]; intros l; cbn [eth_iterations]; sound_auto.
Qed.
End Ethernet.

(** ** The health task and start-up *)
Section Others.
Context {D : Type} `{!World D} `{!TypedWorld D}.

Lemma sound_rd_volatile v : sound (D := D) typed (rd_volatile v) (fun _ => True).
Proof. follow rd_volatile. Qed.
Hint Resolve sound_rd_volatile : sound.
Lemma sound_health_iteration h w : sound (D := D) typed (health_iteration h w) (fun _ => True).
Proof.
  unfold health_iteration, health_check, enter_timeout, enter_ok. cbv zeta.
  apply sound_bind_any; [by apply sound_delay_until; [apply _..|apply u32_range]|]. intros _.
  sound_auto.
Qed.
Hint Resolve sound_health_iteration : sound.
Lemma sound_health n : sound (D := D) typed (health_task n) (fun _ => True).
Proof.
  unfold health_task, health_init. apply sound_bind_any; [sound_auto|]. intros h.
  generalize h at 2. induction n as [|n IH]; intros w; cbn [health_iterations]; sound_auto.
Qed.

Lemma sound_new b q : sound (D := D) typed (osMessageQueueNew b q) (fun _ => True).
Proof.
  apply sound_modify. intros g. apply stable_queue. intros l. destruct (queue_created _ _ _); [|done].
  intros [= <-]. split; [|done]. by destruct q.
Qed.
Hint Resolve sound_new : sound.
Lemma sound_main b : sound (D := D) typed (main b) (fun _ => True).
Proof.
  unfold main, SystemClock_Config, MX_GPIO_Init, MX_SPI2_Init, MX_UART4_Init, check_ok, Error_Handler.
  sound_auto.
Qed.
Lemma sound_default : sound (D := D) typed default_task_iteration (fun _ => True).
Proof. follow default_task_iteration. Qed.
End Others.

(** ** The whole firmware *)

(** What the processor does: start-up, a task from its beginning for some
    rounds, or an interrupt. *)
Inductive activity :=
  | Boot (b : boot_results)
  | DefaultTask
  | RS422Rounds (n : nat)
  | EthernetRounds (n : nat)
  | HealthRounds (n : nat)
  | TxComplete (h : option uart_handle)
  | RxComplete (h : option uart_handle)
  | UartError (h : option uart_handle).

Definition perform {D} `{!World D} (a : activity) : M D unit :=
  match a with
  | Boot b => main b
  | DefaultTask => default_task_iteration
  | RS422Rounds n => StartRS422Task n
  | EthernetRounds n => _ ← StartEthernetTask n; mret tt
  | HealthRounds n => _ ← health_task n; mret tt
  | TxComplete h => HAL_UART_TxCpltCallback h
  | RxComplete h => HAL_UART_RxCpltCallback h
  | UartError h => HAL_UART_ErrorCallback h
  end.

(** The packet only this activity writes, and reads back after kernel calls. *)
Definition own_packet (a : activity) : option pvar :=
  match a with
  | RS422Rounds _ => Some g_rs422_received_packet
  | EthernetRounds _ => Some g_tcp_received_packet
  | _ => None
  end.

Section Firmware.
Context {D : Type} `{!World D} `{!TypedWorld D}.

Lemma power_on_typed (d : D) : typed (power_on d).
Proof.
  split; cbn [power_on var packet_of parser_of array_of queue_of notif_of rx_ring g_uart4_rx_byte tick];
    try done.
  - intros [[]|[]|[]|[]]; done.
  - intros _. apply zero_packet_ok.
  - intros _. apply parser_init_ok.
  - intros a. split; [apply Forall_replicate; done|]. rewrite length_replicate. by destruct a.
  - split; [|apply Forall_replicate; done|done]. by split_and!.
Qed.

Lemma sound_rs422 `{!Owner D g_rs422_received_packet} n :
  sound (D := D) typed (StartRS422Task n) (fun _ => True).
Proof.
  unfold StartRS422Task. apply sound_bind_any; [apply sound_rs422_init|]. intros _.
  induction n as [|n IH]; cbn [rs422_rounds]; [by apply sound_ret|].
  apply sound_bind_any; [apply sound_rs422_iteration|]. intros _. apply IH.
Qed.

Lemma sound_perform a :
  (forall r, own_packet a = Some r -> Owner D r) -> sound (D := D) typed (perform a) (fun _ => True).
Proof.
  intros Ho. destruct a as [b| |n|n|n|h|h|h]; cbn [perform].
  - apply sound_main.
  - apply sound_default.
  - pose proof (Ho _ eq_refl). apply sound_rs422.
  - pose proof (Ho _ eq_refl). apply sound_bind_any; [apply sound_ethernet|]. intros _. by apply sound_ret.
  - apply sound_bind_any; [apply sound_health|]. intros _. by apply sound_ret.
  - apply sound_tx_done.
  - apply sound_rx_done.
  - apply sound_rx_error.
Qed.

(** C6: The gateway's memory is always well typed.  It is when the processor
    starts, and start-up, every task for any number of rounds and every
    interrupt keep it so, whatever the W5500 and the two lines deliver:
    variables stay in the range of their C type, no write leaves an array of
    its declared size with other contents than bytes, the receive ring and
    the two parsers keep their invariants, no queue exceeds its depth, and
    the command queue only ever holds PING, the response queue PONG and the
    telemetry queue TELEMETRY messages that Protocol V1 can encode.  The rest
    of the system need only respect the types of a well-typed memory, so
    memory is well typed at every kernel call too. *)
Theorem memory_stays_typed :
  (forall d : D, typed (power_on d)) /\
  forall (a : activity) (g g' : gateway D),
    (forall r, own_packet a = Some r -> Owner D r) ->
    typed g -> perform a g = Some (tt, g') -> typed g'.
Proof.
  split; [apply power_on_typed|]. intros a g g' Ho Hg Hrun.
  pose proof (sound_perform a Ho g Hg) as H. unfold outcome in H. rewrite Hrun in H. apply H.
Qed.
End Firmware.

#[export] Instance demo_typed_world : TypedWorld demo_hw.
Proof.
  split.
  - intros n g [? ? ? ? ? ? ? ? ?]. split; try done. cbn. case_match; [done|apply u32_range].
  - intros tx d. cbn. split; [|apply length_map]. induction tx; [by constructor|]. by constructor.
Qed.
#[export] Instance demo_owner r : Owner demo_hw r.
Proof. done. Qed.

(** The Ethernet task from power-on, one round. *)
Definition demo_start : gateway demo_hw := power_on (mk_demo_hw true [] []).

Lemma memory_stays_typed_witness :
  exists g', perform (EthernetRounds 1) demo_start = Some (tt, g') /\ typed g'.
Proof.
  assert (match perform (EthernetRounds 1) demo_start with Some _ => true | None => false end = true) as H
    by (vm_compute; reflexivity).
  destruct (perform (EthernetRounds 1) demo_start) as [[[] g']|] eqn:E; [|done].
  exists g'. split; [done|]. destruct (memory_stays_typed (D := demo_hw)) as [H0 H1].
  apply (H1 (EthernetRounds 1) demo_start g'); [|apply H0|exact E]. intros r _. apply _.
Defined.
