(* ===== verification/GwCommands.v ===== *)
(** * The command queue

    [rs422_command_loop]: the commands that wait and those that the Ethernet
    task adds meanwhile, forwarded one after the other. *)
From S2P Require Import Prelude Crc16 Protocol StreamParser RxRing GwDiag GwRs422 GwForwarding GwTransmit GwMain GwTyped.
From S2P Require Export GwMemory.
Local Open Scope Z_scope.

(** The other tasks add commands behind those that wait, and stop at the
    [horizon]. *)
Class CommandQueue D `{!World D} (horizon : nat) := command_queue (g : gateway D) :
  let g' := env (epoch g) (g <| epoch := S (epoch g) |>) in
  exists later, queue_of g' rs422_cmd_queue = option_map (fun l => l ++ later) (queue_of g rs422_cmd_queue) /\
    ((horizon <= epoch g)%nat -> later = []).

Section Commands.
Context {D : Type} `{!World D} `{!TypedWorld D} `{!UartLog D} (horizon : nat) `{!RsWorld D horizon}
  `{!CommandQueue D horizon} `{!Owner D g_rs422_received_packet}.
Implicit Types g : gateway D.
Notation depth := (Z.to_nat RS422_CMD_QUEUE_DEPTH).

(** ** What waits *)

(** The commands [l] wait, and perhaps others behind them; with those still to
    come they are at most [n]. *)
Definition backlog (l : list protocol_packet_t) (n : nat) g : Prop :=
  typed g /\ exists later, queue_of g rs422_cmd_queue = Some (l ++ later) /\
    (length (l ++ later) + depth * (horizon - epoch g) <= n)%nat.

Lemma backlog_env l n g :
  typed g ->
  (exists later, queue_of g rs422_cmd_queue = Some (l ++ later) /\
    (length (l ++ later) + depth * (horizon - epoch g) <= n)%nat) ->
  let g' := env (epoch g) (g <| epoch := S (epoch g) |>) in
  exists later, queue_of g' rs422_cmd_queue = Some (l ++ later) /\
    (length (l ++ later) + depth * (horizon - epoch g') <= n)%nat.
Proof.
  intros T (later & Hq & Hn). cbv zeta. pose proof (stable_env g T) as T'.
  destruct (command_queue g) as (new & Hq' & Hnew). rewrite Hq in Hq'. cbn [option_map] in Hq'.
  destruct (ty_queue _ T' _ _ Hq') as [Hl _]. change (queue_depth rs422_cmd_queue) with RS422_CMD_QUEUE_DEPTH in Hl.
  rewrite (rs_epoch _ _ _ (rs_world g)). exists (later ++ new). rewrite app_assoc. split; [done|].
  destruct (Nat.le_gt_cases horizon (epoch g)) as [Hh|Hh].
  - rewrite Hnew, app_nil_r by done. lia.
  - replace (horizon - epoch g)%nat with (S (horizon - S (epoch g))) in Hn by lia. lia.
Qed.

#[export] Instance backlog_stable l n : Stable (backlog l n).
Proof. apply stable_with; try done. intros g. apply backlog_env. Qed.
#[export] Instance backlog_input l n : StableInput (backlog l n).
Proof. by apply stable_input_with. Qed.
#[export] Instance backlog_hardware l n : StableHardware (backlog l n).
Proof. intros d g [H R]. split; [by apply stable_hw|done]. Qed.
Lemma backlog_queue l n q : q <> rs422_cmd_queue -> StableQueue (backlog l n) q.
Proof. intros Hq o g Ho [H R]. split; [by apply stable_queue|]. st_simpl. by rewrite upd_ne. Qed.
#[export] Instance backlog_telemetry l n : StableQueue (backlog l n) udp_telemetry_queue.
Proof. by apply backlog_queue. Qed.
#[export] Instance backlog_responses l n : StableQueue (backlog l n) tcp_response_queue.
Proof. by apply backlog_queue. Qed.

(** ** What is sent *)
Definition same_line g g' : Prop := same_vars tx_vars g g' /\ uart_log (hw g') = uart_log (hw g).

(** Of the commands [ps], the first [k] were handed to the UART, of which [ok]
    completed; the transmitter is marked busy from before, or since the [k]th,
    if that is not all. *)
Record commands_out (ps : list protocol_packet_t) (k : nat) (ok : Z) g g' : Prop := {
  co_count : (k <= length ps)%nat;
  co_log : uart_log (hw g') = uart_log (hw g) ++ map frame_of (take k ps);
  co_blocked : var g g_rs422_tx_busy <> 0 -> k = 0%nat /\ var g' g_rs422_tx_busy = var g g_rs422_tx_busy;
  co_stuck : (k < length ps)%nat -> var g' g_rs422_tx_busy <> 0;
  co_ok : 0 <= ok <= Z.of_nat k;
  co_complete : went_up g_rs422_tx_complete_count ok g g';
  co_failed : exists errors timeouts busy, 0 <= errors /\ 0 <= timeouts /\
    Z.of_nat (length ps - k) <= busy /\ errors + timeouts + busy = Z.of_nat (length ps) - ok /\
    went_up g_rs422_tx_error_count errors g g' /\
    went_up g_rs422_tx_timeout_count timeouts g g' /\
    went_up g_rs422_tx_busy_count busy g g'
}.

Lemma steady_line g g' : steady tx_vars g g' -> same_line g g'.
Proof. intros S. split; apply S. Qed.

Lemma out_none g g' : same_line g g' -> commands_out [] 0 0 g g'.
Proof.
  intros [V L]. assert (forall v, mem_var v tx_vars = true -> went_up v 0 g g') as W.
  { intros v Hv. unfold went_up. by rewrite Z.add_0_r, V. }
  split; cbn [length take map]; try (lia || by apply W).
  - by rewrite app_nil_r.
  - intros _. split; [done|by apply V].
  - exists 0, 0, 0. split_and!; (lia || by apply W).
Qed.

Lemma out_shift ps k ok g1 g2 g3 g4 :
  same_line g1 g2 -> commands_out ps k ok g2 g3 -> same_line g3 g4 -> commands_out ps k ok g1 g4.
Proof.
  intros [V L] [C1 C2 C3 C4 C5 C6 (e & t & b & C7)] [V' L'].
  assert (forall v n, mem_var v tx_vars = true -> went_up v n g2 g3 -> went_up v n g1 g4) as W.
  { intros v n Hv. unfold went_up. by rewrite (V' v), (V v) by done. }
  split; try done.
  - by rewrite L', C2, L.
  - by rewrite (V' g_rs422_tx_busy), <- (V g_rs422_tx_busy).
  - by rewrite (V' g_rs422_tx_busy).
  - by apply W.
  - exists e, t, b. destruct C7 as (? & ? & ? & ? & ? & ? & ?). split_and!; try done; by apply W.
Qed.

(** A command that found the transmitter free, then the others. *)
Lemma out_sent P ps k ok pass g1 g2 g3 :
  uart_log (hw g2) = uart_log (hw g1) ++ [frame_of P] -> var g1 g_rs422_tx_busy = 0 ->
  tx_account pass g1 g2 -> commands_out ps k ok g2 g3 ->
  commands_out (P :: ps) (S k) (Z.b2z pass + ok) g1 g3.
Proof.
  intros L B [A1 A2 (e & t & b & A3)] [C1 C2 C3 C4 C5 C6 (e' & t' & b' & C7)].
  split; cbn [length take map]; try lia.
  - by rewrite C2, L, <- app_assoc.
  - destruct pass; by eapply went_up_trans.
  - exists (e + e'), (t + t'), (b + b'). destruct A3 as (? & ? & ? & ? & ? & ? & ?), C7 as (? & ? & ? & ? & ? & ? & ?).
    split_and!; try (by eapply went_up_trans); destruct pass; cbn [Z.b2z]; lia.
Qed.

(** One that found it busy is refused, and so are the others. *)
Lemma out_refused P ps k ok g1 g3 :
  var g1 g_rs422_tx_busy <> 0 ->
  commands_out ps k ok (put g_rs422_tx_busy_count (var g1 g_rs422_tx_busy_count + 1) g1) g3 ->
  commands_out (P :: ps) k ok g1 g3.
Proof.
  set (g2 := put _ _ g1). intros B [C1 C2 C3 C4 C5 C6 (e & t & b & C7)].
  assert (forall v n, gvar_eqb g_rs422_tx_busy_count v = false -> went_up v n g2 g3 -> went_up v n g1 g3) as W.
  { intros v n Hv. unfold went_up, g2. by rewrite var_put_ne. }
  destruct (C3 B) as [-> C3']. split; cbn [length take map]; try done.
  - lia.
  - intros _. change (var g2 g_rs422_tx_busy) with (var g1 g_rs422_tx_busy) in C3'. by rewrite C3'.
  - exists e, t, (1 + b). destruct C7 as (? & ? & ? & ? & ? & ? & Hb).
    split_and!; try (by apply W); try lia.
    eapply went_up_trans; [|exact Hb]. unfold went_up, g2. rewrite var_put_eq. cbn. width.
Qed.

(** ** The loop *)
Hypothesis enough : (2 * horizon + 514 <= rounds)%nat.

(** One command is forwarded. *)
Lemma forward_out P g :
  task_ok g -> typed g -> packet_of g g_rs422_command_packet = P -> can_send P = true ->
  wp (rs422_forward_packet (Some g_rs422_command_packet)) (fun _ g1 => task_ok g1 /\
    forall ps k ok g3, commands_out ps k ok g1 g3 -> exists k' ok', commands_out (P :: ps) k' ok' g g3) g.
Proof.
  intros Ok T HP Hs. destruct (Z.eqb_spec (var g g_rs422_tx_busy) 0) as [Hb|Hb].
  - eapply wp_mono; [apply (forward_ok horizon enough g_rs422_command_packet g)|]; [done|done|apply (ty_packet _ T)| |].
    { destruct (ty_array _ T g_rs422_tx_frame) as [H1 H2]. split; [done|]. change (array_size _) with 266 in H2. lia. }
    rewrite HP, Hb, Hs. intros r g1 (S1 & A1 & _). split; [by apply S1|].
    intros ps k ok g3 H3. do 2 eexists. by eapply out_sent; [apply S1|done|exact A1|].
  - unfold rs422_forward_packet. apply wp_bind, wp_gets. rewrite (proj2 (Z.eqb_neq _ 0)) by done. cbn [negb].
    apply wp_bind, wp_bind, wp_gets, wp_modify, wp_ret. split; [exact Ok|].
    intros ps k ok g3 H3. do 2 eexists. by eapply out_refused.
Qed.

(** The loop ends when no command waits and none comes. *)
Lemma command_loop_out n l m g :
  task_ok g -> backlog l m g -> (m < n)%nat ->
  wp (rs422_command_loop n) (fun _ g' => task_ok g' /\ typed g' /\ queue_of g' rs422_cmd_queue = Some [] /\
    exists ps k ok, l `prefix_of` ps /\ Forall (message_ok rs422_cmd_queue) ps /\ commands_out ps k ok g g') g.
Proof.
  revert l m g. induction n as [|n IH]; intros l m g Ok B Hm; [lia|]. cbn [rs422_command_loop].
  unfold queue_is_null. apply wp_bind, wp_gets. destruct B as [T (later & Hq & Hl)]. rewrite Hq.
  unfold osMessageQueueGet. do 2 apply wp_bind. apply wp_preempt.
  assert (backlog l m g) as B by (split; [done|by exists later]). apply stable_env in B.
  pose proof (leaves_env horizon enough g) as [S1 _ _]. set (g1 := env _ _) in *. clear later Hq Hl.
  destruct B as [T1 (later & Hq & Hl)]. apply wp_bind, wp_gets. rewrite Hq.
  destruct (ty_queue _ T1 _ _ Hq) as [Hd Hall].
  destruct (l ++ later) as [|P rest] eqn:El.
  { apply wp_ret. cbn [Z.eqb negb]. apply wp_ret. split; [by eapply steady_ok|]. split; [done|]. split; [done|].
    exists [], 0%nat, 0. apply app_eq_nil in El as [-> _]. split; [done|]. split; [done|].
    by apply out_none, steady_line. }
  apply Forall_cons in Hall as [HP Hall]. cbn [length] in Hd, Hl.
  change depth with 8%nat in Hl.
  apply wp_bind, wp_modify, wp_bind, wp_modify, wp_ret. cbn [Z.eqb negb].
  apply wp_bind, wp_bind, wp_gets, wp_modify. set (g2 := put _ _ _).
  assert (backlog rest (pred m) g2) as B2.
  { split; [|exists []; rewrite app_nil_r; split; [apply upd_eq|change depth with 8%nat; change (epoch g2) with (epoch g1); lia]].
    apply stable_put, stable_packet, stable_queue; [apply HP| |done].
    intros l' [= <-]. split; [|done]. change (queue_depth rs422_cmd_queue) with RS422_CMD_QUEUE_DEPTH in *. lia. }
  assert (task_ok g2) as Ok2 by exact (steady_ok tx_vars g g1 S1 Ok).
  apply wp_bind. eapply wp_mono; [apply wp_outcome; [apply (forward_out P); [done|apply B2|apply upd_eq|]|]|].
  { apply sendable_can_send, HP. }
  { by apply (sound_forward (backlog rest (pred m))). }
  cbn beta. intros _ g3 [[Ok3 Hout] [B3 _]]. apply wp_bind.
  eapply wp_mono; [apply wp_outcome; [apply (process_rx_leaves horizon enough), Ok3|]|].
  { by apply (sound_process_rx (backlog rest (pred m))). }
  cbn beta. intros _ g4 [[S4 _ _] [B4 _]].
  eapply wp_mono; [apply (IH rest (pred m)); [by eapply steady_ok|done|lia]|].
  cbn beta. intros _ g5 (Ok5 & T5 & Q5 & ps & k & ok & Hpre & Hps & Ho). split; [done|]. split; [done|]. split; [done|].
  destruct (Hout ps k ok g5) as (k' & ok' & Ho').
  { eapply out_shift; [by apply steady_line|exact Ho|done]. }
  exists (P :: ps), k', ok'. split; [|split; [by constructor|]].
  - apply (prefix_app_l _ _ later). rewrite El. by apply prefix_cons.
  - eapply out_shift; [|exact Ho'|done]. split; [|apply S1].
    intros v Hv. rewrite <- (st_vars _ _ _ S1 v Hv). by apply (same_vars_put g_rs422_cmd_dequeue_count _ tx_vars g1).
Qed.
End Commands.

(** ** Properties *)

(** C23: One drain of the command queue, while interrupts act and the Ethernet
    task adds commands: the loop ends with the queue empty, having taken the
    waiting commands and those added, in order and only PINGs that can be sent.
    The first [k] of them, each once and in order, were handed to the UART as
    exactly their frames; if that is not all, the transmitter is still marked
    busy, and the others were refused and counted as such.  Completions and
    failures account for every command. *)
Theorem commands_leave_in_order {D} `{!World D} `{!TypedWorld D} `{!UartLog D} (horizon : nat)
    `{!RsWorld D horizon} `{!CommandQueue D horizon} `{!Owner D g_rs422_received_packet} l (g : gateway D) :
  (8 * horizon + 514 <= rounds)%nat -> typed g -> task_ok g -> queue_of g rs422_cmd_queue = Some l ->
  wp (rs422_command_loop rounds) (fun _ g' => task_ok g' /\ typed g' /\ queue_of g' rs422_cmd_queue = Some [] /\
    exists ps k ok, l `prefix_of` ps /\ Forall (message_ok rs422_cmd_queue) ps /\ commands_out ps k ok g g') g.
Proof.
  intros Hr T Ok Hq. destruct (ty_queue _ T _ _ Hq) as [Hl _].
  change (queue_depth rs422_cmd_queue) with 8 in Hl.
  apply (command_loop_out horizon ltac:(lia) rounds l (length l + 8 * horizon)%nat); [done| |lia].
  split; [done|]. exists []. rewrite app_nil_r. split; [done|]. change (Z.to_nat RS422_CMD_QUEUE_DEPTH) with 8%nat. lia.
Qed.

(** ** A gateway for the witness

    Transmissions complete at once for a while, and one kernel call brings
    PING 9. *)
Record desk := mk_desk { desk_line : list (list Z) }.

#[export] Instance desk_hardware : Hardware desk := {
  cs_pin _ d := d;
  rst_pin _ d := d;
  spi_transmit _ d := (HAL_OK, d);
  spi_transmit_receive tx d := (HAL_OK, map (fun _ => 0) tx, d);
  uart_transmit_it tx d := (HAL_OK, mk_desk (desk_line d ++ [tx]));
  uart_receive_it d := (HAL_OK, d);
  dwt_start d := d;
  dwt_running _ := true;
  dwt_cyccnt _ := 0;
  system_core_clock _ := 170000000;
  free_heap_size _ := 4096;
  minimum_ever_free_heap_size _ := 2048
}.

Definition desk_commands (n : nat) (l : list protocol_packet_t) : list protocol_packet_t :=
  if (n =? 2)%nat && (length l <? 8)%nat then [ping_packet 9] else [].

#[export] Instance desk_world : World desk := {
  env n g :=
    g <| tick := u32 (tick g + 1) |>
      <| notif_of := if (n <? 60)%nat
           then upd RS422Task (notify_set_bits RS422_EVENT_TX_DONE (notif_of g RS422Task)) (notif_of g)
           else notif_of g |>
      <| queue_of := upd rs422_cmd_queue
           (option_map (fun l => l ++ desk_commands n l) (queue_of g rs422_cmd_queue)) (queue_of g) |>;
  rounds := 1000
}.

#[export] Instance desk_uart : UartLog desk := {
  uart_log := desk_line;
  uart_log_tx _ _ := eq_refl;
  uart_tx_status _ _ := Z.le_refl 0
}.
#[export] Instance desk_typed : TypedWorld desk.
Proof.
  split.
  - intros n g [? ? ? ? Hq Hn ? ? ?]. split; try done; cbn; [| |apply u32_range].
    + intros q l. unfold upd. case_decide; [subst q|apply Hq].
      destruct (queue_of g rs422_cmd_queue) as [l0|] eqn:E; [|done]. intros [= <-].
      destruct (Hq _ _ E) as [H1 H2]. unfold desk_commands.
      destruct (_ =? _)%nat, (Nat.ltb_spec (length l0) 8); cbn [andb]; rewrite ?app_nil_r; try done.
      split; [rewrite length_app; change (queue_depth rs422_cmd_queue) with 8; cbn [length]; lia|].
      apply Forall_app. split; [done|]. apply Forall_singleton. split; [by apply ping_packet_sendable|done].
    + intros t. destruct (_ <=? _)%nat; [|done]. unfold upd. case_decide; [|done]. by apply u32_lor.
  - intros tx d. cbn. split; [|apply length_map]. induction tx; [by constructor|]. by constructor.
Qed.
#[export] Instance desk_packets r : Owner desk r.
Proof. done. Qed.
#[export] Instance desk_queue : CommandQueue desk 60.
Proof.
  intros g. cbv zeta. st_simpl. cbn. rewrite upd_eq. destruct (queue_of g rs422_cmd_queue) as [l|]; cbn.
  - exists (desk_commands (epoch g) l). split; [done|]. intros H. unfold desk_commands.
    rewrite (proj2 (Nat.eqb_neq _ _)) by lia. done.
  - by exists [].
Qed.
#[export] Instance desk_steps : RsWorld desk 60.
Proof.
  intros g. unfold env, desk_world. destruct (Nat.ltb_spec (epoch g) 60); split; try done.
  - split; [st_simpl; lia|]. by exists [].
  - right. split; [done|]. exists RS422_EVENT_TX_DONE. split; [done|]. st_simpl. apply upd_eq.
  - split; [st_simpl; lia|]. by exists [].
  - by left.
Qed.

(** PINGs 7 and 8 wait. *)
Definition desk_waiting : gateway desk :=
  (power_on (mk_desk [])) <| queue_of := fun q => Some (if decide (q = rs422_cmd_queue) then [ping_packet 7; ping_packet 8] else []) |>.

Lemma desk_waiting_typed : typed desk_waiting.
Proof.
  destruct (power_on_typed (mk_desk [])) as [? ? ? ? _ ? ? ? ?]. split; try done.
  intros q l. st_simpl. intros [= <-]. destruct q; cbn; (split; [done|]); repeat apply Forall_cons_2; try apply Forall_nil_2;
    (split; [by apply ping_packet_sendable|done]).
Qed.

(** Three PINGs leave and complete. *)
Lemma commands_leave_in_order_witness :
  wp (rs422_command_loop rounds) (fun _ g' => queue_of g' rs422_cmd_queue = Some [] /\
    exists ps k ok, [ping_packet 7; ping_packet 8] `prefix_of` ps /\ commands_out ps k ok desk_waiting g') desk_waiting /\
  match rs422_command_loop rounds desk_waiting with
  | Some (_, g') => uart_log (hw g') = map (fun s => frame_of (ping_packet s)) [7; 8; 9] /\
      var g' g_rs422_tx_complete_count = 3
  | None => False
  end.
Proof.
  split; [|vm_compute; done]. eapply wp_mono.
  - apply (commands_leave_in_order 60 [ping_packet 7; ping_packet 8] desk_waiting);
      [apply Nat.leb_le; reflexivity|exact desk_waiting_typed| |done].
    split; [apply (demo_ring_wf [])|apply flag_zero].
  - cbn beta. intros _ g' (_ & _ & Hq & ps & k & ok & H1 & _ & H3). split; [exact Hq|]. by exists ps, k, ok.
Defined.
