(* ===== verification/EndToEnd.v ===== *)
(** * A PING and its PONG, end to end

    A command the client queued, through [rs422_forward_packet] to the remote
    node, and the node's answer through the receive ring and the response
    queue back to the TCP socket: the two firmwares composed. *)
From S2P Require Import Prelude Crc16 Protocol StreamParser RxRing RemoteNode GwDiag GwRs422 GwForwarding GwTransmit GwW5500 GwTcp GwSpiTrace GwSend GwDeliver GwMain GwTyped.
From S2P Require Export GwMemory.
Local Open Scope Z_scope.

(** ** Flags without a reset of the TCP context *)
Definition no_reset (z : Z) : Prop := Z.land z RS422_EVENT_TCP_CONTEXT_RESET = 0.

Lemma no_reset_lor a b : no_reset a -> no_reset b -> no_reset (Z.lor a b).
Proof. unfold no_reset. rewrite Z.land_lor_distr_l. by intros -> ->. Qed.
Lemma no_reset_land a b : no_reset a -> no_reset (Z.land a b).
Proof. unfold no_reset. by rewrite <- Z.land_assoc, (Z.land_comm b), Z.land_assoc; intros ->. Qed.
Lemma no_reset_ldiff a b : no_reset a -> no_reset (Z.ldiff a b).
Proof.
  unfold no_reset. rewrite !Z.ldiff_land, <- Z.land_assoc, (Z.land_comm (Z.lnot b)), Z.land_assoc.
  by intros ->.
Qed.

(** Nothing but the UART's interrupts acts, no context reset is signalled,
    and the UART is not on the SPI bus. *)
Class Undisturbed D `{!World D} `{!UartLog D} `{!SpiBus D} : Prop := {
  uart_off_bus tx (d : D) : bus (uart_transmit_it tx d).2 = bus d;
  session_kept n (g : gateway D) :
    no_reset (notified_value (flags_of g)) -> no_reset (notified_value (flags_of (env n g)))
}.

(** ** While the gateway transmits *)
Section Forward.
Context {D : Type} `{!World D} `{!TypedWorld D} `{!UartLog D} `{!SpiBus D} `{!SpiOwner D}
  `{!IsrOnly D 0} `{!Undisturbed D}.
Implicit Types g : gateway D.

(** The PING forwarded, and what stays as it is meanwhile. *)
Context (P : protocol_packet_t) (is_ping : pkt_msg_id P = MSG_PING).
Context (p0 : stream_parser_t) (o0 : protocol_packet_t) (b0 : list bus_event).
Context (q0 : qvar -> option (list protocol_packet_t)).

(** Nothing is received and the session lasts; the reply to the PING is waited
    for ([Some true]), it is not ([Some false]), or this is left open. *)
Record awaiting (k : option bool) g : Prop := {
  aw_typed : typed g;
  aw_ring : ring_contents (rx_ring g) = [];
  aw_parser : parser_of g g_rs422_parser = p0;
  aw_received : packet_of g g_rs422_received_packet = o0;
  aw_command : packet_of g g_rs422_command_packet = P;
  aw_queues : queue_of g = q0;
  aw_active : var g g_w5500_tcp_session_active <> 0;
  aw_flags : no_reset (notified_value (flags_of g));
  aw_bus : bus (hw g) = b0;
  aw_pending b : k = Some b ->
    var g g_rs422_tcp_ping_pending = Z.b2z b /\ (b = true -> var g g_rs422_tcp_ping_pending_seq = pkt_seq P)
}.

Definition session_vars : list gvar :=
  [EthVar g_w5500_tcp_session_active; Rs422Var g_rs422_tcp_ping_pending;
   Rs422Var g_rs422_tcp_ping_pending_seq].
Definition free_var (v : gvar) : bool := negb (mem_var v session_vars).

Lemma awaiting_less k g : awaiting k g -> awaiting None g.
Proof. intros [? ? ? ? ? ? ? ? ? _]. by split. Qed.

Section Steps.
Context (k : option bool).
Notation J := (awaiting k).

Lemma awaiting_env g : J g -> J (env (epoch g) (g <| epoch := S (epoch g) |>)).
Proof.
  intros [T R Hp Ho Hc Hq Ha Hf Hb Hk]. pose proof (isr_only g) as [[V P1 P2 _ P4 [_ (bs & Hr & Hn)]] _].
  split; try congruence.
  - by apply (stable_env (J := typed)).
  - rewrite Hr, Hn by lia. done.
  - by rewrite V.
  - by apply session_kept.
  - by rewrite owner_bus.
  - intros b Hk'. rewrite !V by done. by apply Hk.
Qed.
Lemma awaiting_put v z g : free_var v = true -> J g -> J (put v z g).
Proof.
  intros Hv [T R Hp Ho Hc Hq Ha Hf Hb Hk]. unfold free_var in Hv. apply negb_true_iff in Hv.
  assert (forall w, mem_var w session_vars = true -> var (put v z g) w = var g w) as Hsame.
  { intros w Hw. by apply (same_vars_put v z session_vars g g). }
  split; try done.
  - by apply stable_put.
  - by rewrite Hsame.
  - intros b Hk'. rewrite !Hsame by done. by apply Hk.
Qed.

Lemma sound_free v z : free_var v = true -> sound J (wr v z) (fun _ => True).
Proof. intros Hv. apply sound_modify. intros g. by apply awaiting_put. Qed.
Lemma sound_any {A} (f : gateway D -> A) : sound J (gets f) (fun _ => True).
Proof. by apply sound_gets. Qed.
Lemma sound_free_add v z : free_var v = true -> sound J (add_to v z) (fun _ => True).
Proof. intros Hv. apply sound_bind_any; [apply sound_any|]. intros x. by apply sound_free. Qed.
Lemma sound_free_incr v : free_var v = true -> sound J (incr v) (fun _ => True).
Proof. apply sound_free_add. Qed.
Lemma sound_read v : sound J (rd v) (fun _ => True).
Proof. apply sound_any. Qed.
Lemma sound_command_packet : sound J (rd_packet g_rs422_command_packet) (fun x => x = P).
Proof. apply sound_gets. intros g Hg. apply Hg. Qed.
Lemma sound_undisturbed : sound J preempt (fun _ => True).
Proof. intros g Hg. split; [by apply awaiting_env|done]. Qed.
Lemma sound_clock : sound J osKernelGetTickCount (fun _ => True).
Proof. apply sound_bind_any; [apply sound_undisturbed|]. intros _. apply sound_any. Qed.
Lemma sound_sleep t : sound J (modify (fun g => g <| tick := u32 (tick g + t) |>)) (fun _ => True).
Proof.
  apply sound_modify. intros g [T ? ? ? ? ? ? ? ? ?]. split; try done. apply stable_tick; [|done].
  apply u32_range.
Qed.
Lemma sound_frame_buffer x :
  array_ok g_rs422_tx_frame x -> sound J (wr_array g_rs422_tx_frame x) (fun _ => True).
Proof.
  intros Hx. apply sound_modify. intros g [T ? ? ? ? ? ? ? ? ?]. split; try done. by apply stable_array.
Qed.
Lemma sound_buffer : sound J (rd_array g_rs422_tx_frame) (array_ok g_rs422_tx_frame).
Proof. apply sound_gets. intros g Hg. by apply ty_array, Hg. Qed.

(** *** Notifications *)
Lemma sound_flags_value :
  sound J (gets (fun g => notif_of g RS422Task)) (fun n => is_u32 (notified_value n) /\ no_reset (notified_value n)).
Proof. apply sound_gets. intros g [T ? ? ? ? ? ? Hf ? ?]. split; [by apply ty_notif|exact Hf]. Qed.
Lemma sound_set_flags f :
  (forall n, is_u32 (notified_value n) -> no_reset (notified_value n) ->
     is_u32 (notified_value (f n)) /\ no_reset (notified_value (f n))) ->
  sound J (on_notif RS422Task f) (fun _ => True).
Proof.
  intros Hf. apply sound_modify. intros g [T ? ? ? ? ? ? Hr ? ?].
  destruct (Hf (flags_of g)) as [H1 H2]; [by apply ty_notif|done|].
  split; try done. by apply stable_notif.
Qed.
#[local] Hint Resolve sound_any sound_free sound_free_add sound_free_incr sound_read sound_command_packet sound_undisturbed sound_clock sound_sleep
  sound_buffer sound_flags_value : sound.
#[local] Hint Extern 0 (free_var _ = true) => reflexivity : sound.

Lemma sound_wait_flags t clear tout :
  t = RS422Task -> sound J (xTaskNotifyWait t clear tout) (fun r => no_reset r.2).
Proof.
  intros ->. unfold xTaskNotifyWait. sound_auto.
  all: repeat match goal with H : _ /\ _ |- _ => destruct H end; try done.
  all: apply sound_set_flags; intros n Hn Hr; split; done || by (apply u32_ldiff || apply no_reset_ldiff).
Qed.
#[local] Hint Extern 1 (sound _ (xTaskNotifyWait _ _ _) _) => by apply sound_wait_flags : sound.

Definition no_reset_or_error (r : Z) : Prop := flags_error r = true \/ no_reset r.

Lemma sound_flags flags timeout :
  sound J (osThreadFlagsWait RS422Task flags timeout) no_reset_or_error.
Proof.
  assert (forall n t0 tout r, no_reset r ->
    sound J (flags_wait_loop n RS422Task flags timeout t0 tout r) no_reset_or_error) as H.
  { induction n as [|n IH]; intros t0 tout r Hr; cbn [flags_wait_loop]; [apply sound_fail|].
    sound_auto.
    - right. by apply no_reset_lor; [apply no_reset_land|].
    - by left.
    - apply IH. by apply no_reset_lor; [apply no_reset_land|].
    - left. by destruct (timeout =? 0). }
  unfold osThreadFlagsWait. apply sound_bind_any; [apply sound_clock|]. intros t0. by apply H.
Qed.

Lemma sound_clear_flags flags : sound J (osThreadFlagsClear RS422Task flags) (fun _ => True).
Proof.
  unfold osThreadFlagsClear. sound_auto; apply sound_set_flags; [done|].
  match goal with H : _ /\ _ |- _ => destruct H end.
  split; [by apply u32_ldiff|by apply no_reset_ldiff].
Qed.

Lemma sound_no_reset flags : no_reset_or_error flags -> flags_error flags = false ->
  sound J (rs422_handle_events flags) (fun _ => True).
Proof.
  intros [Hf|Hf] He; [congruence|]. unfold rs422_handle_events, rs422_handle_tcp_context_reset_event.
  rewrite Hf. cbn [Z.eqb negb when]. unfold rs422_handle_tx_done_event. sound_auto.
Qed.

(** Nothing is received. *)
Lemma sound_nothing e m : sound J (rs422_process_rx_buffer e m) (fun _ => True).
Proof.
  unfold rs422_process_rx_buffer. destruct rounds as [|n]; cbn [rs422_rx_loop]; [apply sound_fail|].
  eapply (sound_bind J _ _ (fun b => b = None)); [|intros ? ->; by apply sound_ret].
  unfold rs422_pop_byte. eapply sound_bind; [apply sound_undisturbed|]. intros _ _.
  eapply (sound_bind J _ _ (fun x => x.1 = None /\ ring_ok x.2 /\ ring_contents x.2 = [])).
  { apply sound_gets. intros g Hg. pose proof (ty_ring _ (aw_typed _ _ Hg)) as Hok.
    rewrite rs422_rx_ring_pop_is_ring_pop. unfold ring_pop.
    rewrite (ring_empty_law _ (ro_wf _ Hok)), bool_decide_true by apply Hg. split; [done|]. split; [done|apply Hg]. }
  intros [b r] (Hb & Hok & Hem). cbn [fst snd] in *. subst b. apply sound_bind_any; [|intros _; by apply sound_ret].
  apply sound_modify. intros g [T ? ? ? ? ? ? ? ? ?]. split; try done. by apply stable_ring.
Qed.
#[local] Hint Resolve sound_flags sound_clear_flags sound_nothing : sound.

(** *** The transmission *)
Lemma sound_tx_ends s : sound J (rs422_wait_for_tx_complete s) (fun _ => True).
Proof.
  assert (forall n t0 t1 matching, sound J (rs422_tx_wait_loop n s t0 t1 matching) (fun _ => True)) as H.
  { induction n as [|n IH]; intros t0 t1 matching; cbn [rs422_tx_wait_loop]; [apply sound_fail|].
    sound_auto; apply sound_no_reset; done || by apply negb_true_iff. }
  unfold rs422_wait_for_tx_complete. sound_auto.
Qed.
Lemma sound_start n : sound J (rs422_start_tx n) (fun _ => True).
Proof.
  unfold rs422_start_tx, HAL_UART_Transmit_IT. apply sound_bind_any; [apply sound_any|]. intros frame.
  apply sound_bind_any; [apply sound_undisturbed|]. intros _.
  eapply (sound_bind J _ _ (fun x => bus x.2 = b0)).
  { apply sound_gets. intros g Hg. rewrite uart_off_bus. apply Hg. }
  intros [st d] Hd. apply sound_bind_any; [|intros _; by apply sound_ret].
  apply sound_modify. intros g [T ? ? ? ? ? ? ? ? ?]. split; try done. by apply stable_hw.
Qed.

Lemma sound_frame_into : sound J (rs422_encode g_rs422_command_packet) (fun _ => True).
Proof.
  unfold rs422_encode, encode_into. eapply sound_bind; [apply sound_gets; intros g Hg; apply (ty_packet _ (aw_typed _ _ Hg))|].
  intros x Hx. eapply sound_bind; [apply sound_buffer|]. intros buf [Hb Hn].
  destruct (protocol_encode_full x buf) as (r & buf' & n & E & [Hb' Hn'] & _); [done|split; [done|]|].
  { change (array_size _) with 266 in Hn. lia. }
  rewrite E. sound_auto. apply sound_frame_buffer. split; [done|]. change (array_size _) with 266. cbn. lia.
Qed.

Lemma sound_start_counted st : sound J (count_tx_start_error st) (fun _ => True).
Proof. unfold count_tx_start_error. sound_auto. Qed.
Lemma sound_tx_noted p : sound J (note_ping_tx p) (fun _ => True).
Proof. unfold note_ping_tx, diagnostic_now_ms, diag_interval. sound_auto. Qed.
End Steps.
#[local] Hint Resolve sound_any sound_free sound_free_add sound_free_incr sound_read sound_command_packet sound_undisturbed
  sound_flags sound_clear_flags sound_tx_ends sound_start sound_frame_into sound_start_counted sound_tx_noted : sound.
#[local] Hint Extern 0 (free_var _ = true) => reflexivity : sound.

(** *** From the command to the end of its transmission *)

(** [m] forwards the PING: with success its reply is waited for. *)
Definition expects (r : Z) : option bool := if r =? RS422_PING_TEST_PASS then Some true else None.
Definition forwards (k : option bool) (m : M D Z) : Prop :=
  forall g, awaiting k g -> outcome m (fun r g' => awaiting (expects r) g') g.

Lemma forwards_bind {A} k (m : M D A) (f : A -> M D Z) Q :
  sound (awaiting k) m Q -> (forall a, Q a -> forwards k (f a)) -> forwards k (m ≫= f).
Proof.
  intros Hm Hf g Hg. apply outcome_bind. eapply outcome_mono; [by apply Hm|]. intros a g1 [H1 Ha]. by apply (Hf a).
Qed.
Lemma forwards_result k r : expects r = k -> forwards k (mret r).
Proof. by intros <- g Hg. Qed.
Lemma forwards_less (m : M D Z) : forwards None m -> forwards (Some true) m.
Proof. intros H g Hg. apply H. by eapply awaiting_less. Qed.

Lemma sound_pending v z : free_var v = true \/ In v (tail session_vars) -> sound (awaiting None) (wr v z) (fun _ => True).
Proof.
  intros Hv. apply sound_modify. intros g [T R Hp Ho Hc Hq Ha Hf Hb _]. split; try done.
  - by apply stable_put.
  - rewrite var_put_ne; [done|]. destruct (gvar_eqb_spec v g_w5500_tcp_session_active) as [->|]; [|done].
    by destruct Hv as [|[|[|[]]]].
Qed.

Lemma sound_forget : sound (awaiting None) (clear_pending_ping P) (fun _ => True).
Proof.
  unfold clear_pending_ping. apply sound_when. intros _.
  apply sound_bind_any; [|intros _]; apply sound_pending; right; [by left|by right; left].
Qed.

(** The PING is noted as the one waited for. *)
Lemma note_pending g : awaiting None g ->
  awaiting (Some true) (put g_rs422_tcp_ping_pending 1 (put g_rs422_tcp_ping_pending_seq (pkt_seq P) g)).
Proof.
  intros [T R Hp Ho Hc Hq Ha Hf Hb _]. split; try done.
  - by do 2 apply stable_put.
  - intros b [= <-]. gv_simpl. split; [done|]. intros _. subst P. by destruct (ty_packet _ T g_rs422_command_packet); apply u16_small.
Qed.

(** Nothing is sent: no reply is waited for. *)
Lemma forwards_failure (m : M D unit) r :
  sound (awaiting None) m (fun _ => True) -> expects r = None ->
  forwards None (m;; mret r).
Proof. intros Hm Hr. eapply forwards_bind; [exact Hm|]. intros _ _. by apply forwards_result. Qed.

Lemma forwards_end st :
  forwards (Some true) (
    packet ← rd_packet g_rs422_command_packet;
    if negb (st =? HAL_OK) then
      wr g_rs422_tx_busy 0;;
      clear_pending_ping packet;;
      count_tx_start_error st;;
      mret RS422_PING_TEST_TX_FAILURE
    else
      note_ping_tx packet;;
      packet ← rd_packet g_rs422_command_packet;
      wr g_rs422_last_tx_msg_id (pkt_msg_id packet);;
      wr g_rs422_last_tx_seq (pkt_seq packet);;
      '(result, _) ← rs422_wait_for_tx_complete (pkt_seq packet);
      if negb (result =? RS422_PING_TEST_PASS) then
        packet ← rd_packet g_rs422_command_packet;
        clear_pending_ping packet;;
        mret RS422_PING_TEST_TX_FAILURE
      else mret RS422_PING_TEST_PASS).
Proof.
  eapply forwards_bind; [sound_known|]. intros ? ->. destruct (st =? HAL_OK); cbn [negb].
  - do 4 (eapply forwards_bind; [sound_known|]; intros ? ?). subst.
    eapply forwards_bind; [sound_known|]. intros [r m] _.
    destruct (r =? RS422_PING_TEST_PASS); cbn [negb]; [by apply forwards_result|].
    eapply forwards_bind; [sound_known|]. intros ? ->.
    by apply forwards_less, forwards_failure; [apply sound_forget|].
  - apply forwards_less. eapply forwards_bind; [sound_known|]. intros _ _.
    eapply forwards_bind; [apply sound_forget|]. intros _ _.
    by apply forwards_failure; [apply sound_start_counted|].
Qed.

Lemma forward_awaits : forwards None (rs422_forward_packet (Some g_rs422_command_packet)).
Proof.
  unfold rs422_forward_packet. eapply forwards_bind; [sound_known|]. intros busy _.
  destruct (negb _); [by apply forwards_failure; [apply sound_free_incr|]|].
  eapply forwards_bind; [sound_known|]. intros [r n] _.
  destruct (_ || _); [by apply forwards_failure; [apply sound_free_incr|]|].
  eapply forwards_bind; [sound_known|]. intros fl _.
  destruct (flags_error fl); [by apply forwards_failure; [apply sound_free_incr|]|].
  eapply forwards_bind; [sound_known|]. intros ? ->.
  intros g Hg. apply outcome_bind, outcome_gets.
  rewrite is_ping, Z.eqb_refl, (proj2 (Z.eqb_neq _ _) (aw_active _ _ Hg)). cbn [negb andb when].
  do 2 apply outcome_bind. do 2 apply outcome_modify.
  apply note_pending in Hg. revert Hg. apply forwards_bind with (fun _ => True); [sound_known|]. intros _ _.
  eapply forwards_bind; [sound_known|]. intros st _. apply forwards_end.
Qed.
End Forward.

(** ** The command loop *)
Section Commands.
Context {D : Type} `{!World D} `{!TypedWorld D} `{!UartLog D} `{!SpiBus D} `{!SpiOwner D}
  `{!IsrOnly D 0} `{!Undisturbed D} (horizon : nat) `{!RsWorld D horizon}.
Hypothesis enough : (2 * horizon + 514 <= rounds)%nat.
Implicit Types g : gateway D.

(** A session with one command [P], nothing received and nothing to answer. *)
Record commanded (P : protocol_packet_t) g : Prop := {
  cm_typed : typed g;
  cm_ring : ring_contents (rx_ring g) = [];
  cm_parser : parser_rel (parser_of g g_rs422_parser) [];
  cm_commands : queue_of g rs422_cmd_queue = Some [P];
  cm_responses : queue_of g tcp_response_queue = Some [];
  cm_active : var g g_w5500_tcp_session_active <> 0;
  cm_idle : var g g_rs422_tx_busy = 0;
  cm_flags : flag_range (notified_value (flags_of g)) /\ no_reset (notified_value (flags_of g))
}.

Section Loop.
Context (P : protocol_packet_t) (g0 : gateway D) (start : commanded P g0).
Notation p0 := (parser_of g0 g_rs422_parser).
Notation o0 := (packet_of g0 g_rs422_received_packet).
Notation b0 := (bus (hw g0)).
Notation q0 := (upd rs422_cmd_queue (Some []) (queue_of g0)).
Notation awaits := (awaiting P p0 o0 b0 q0).

Lemma command_sendable : sendable P /\ pkt_msg_id P = MSG_PING.
Proof.
  destruct (ty_queue _ (cm_typed _ _ start) _ _ (cm_commands _ _ start)) as [_ H].
  apply Forall_inv in H. destruct H. by split.
Qed.

(** As far as the transmission goes. *)
Record undone g : Prop := {
  un_ok : task_ok g;
  un_tx : same_vars tx_vars g0 g;
  un_log : uart_log (hw g) = uart_log (hw g0)
}.

Lemma command_taken (K : Z -> gateway D -> Prop) :
  (forall g, awaits None g -> undone g -> K osOK g) ->
  wp (osMessageQueueGet rs422_cmd_queue g_rs422_command_packet) K g0.
Proof.
  intros HK. pose proof start as [T R Hp Hc Hr Ha Hi [Hf Hn]].
  unfold osMessageQueueGet. apply wp_bind, wp_preempt.
  pose proof (leaves_env horizon enough g0) as [[Lr Lf Lv Lp La Ll] _ _].
  pose proof (isr_only g0) as [[V P1 P2 _ P4 [_ (bs & Hs & He)]] _].
  pose proof (stable_env (J := typed) g0 T) as T1.
  pose proof (session_kept (epoch g0) (g0 <| epoch := S (epoch g0) |>)) as Hn1. specialize (Hn1 Hn).
  assert (bus (hw (env (epoch g0) (g0 <| epoch := S (epoch g0) |>))) = b0) as Hb by by rewrite owner_bus.
  set (g1 := env _ _) in *. rewrite He in Hs by lia. cbn [isr_bytes fold_left] in Hs.
  apply wp_bind, wp_gets. rewrite P4, Hc. unfold wr_packet. wp_auto. apply HK.
  - assert (typed (g1 <| queue_of := upd rs422_cmd_queue (Some []) (queue_of g1) |>
                      <| packet_of := upd g_rs422_command_packet P (packet_of g1) |>)) as T2.
    { set (g2 := g1 <| queue_of := upd rs422_cmd_queue (Some []) (queue_of g1) |>).
      assert (typed g2) as T2 by (apply stable_queue; [by intros l [= <-]|done]).
      exact (stable_packet g_rs422_command_packet P g2 (send_ok _ (proj1 command_sendable)) T2). }
    split; [exact T2|st_simpl..]; rewrite ?Hs, ?P1, ?P2, ?P4, ?V by done;
      done || apply upd_eq || exact Hn1.
  - split; [|done|done]. split; [|by apply Lf]. apply Lr. apply (ty_ring _ T).
Qed.

(** The PING was handed over; [k]: its transmission ended well. *)
Record handed_over (k : bool) g : Prop := {
  ho_awaits : awaits (Some k) g;
  ho_ok : task_ok g;
  ho_log : uart_log (hw g) = uart_log (hw g0) ++ [frame_of P];
  ho_count : var g g_rs422_tx_complete_count = u32 (var g0 g_rs422_tx_complete_count + Z.b2z k)
}.

Lemma command_forwarded g :
  awaits None g -> undone g ->
  wp (rs422_forward_packet (Some g_rs422_command_packet)) (fun r => handed_over (r =? RS422_PING_TEST_PASS)) g.
Proof.
  intros A [Ok V L]. destruct command_sendable as [Hs Hm].
  pose proof (aw_command _ _ _ _ _ _ _ A) as Hc.
  eapply wp_mono; [apply wp_outcome; [apply (forward_ok horizon enough g_rs422_command_packet g); [done|done| |]|]|].
  - rewrite Hc. apply Hs.
  - destruct (ty_array _ (aw_typed _ _ _ _ _ _ _ A) g_rs422_tx_frame) as [H1 H2]. split; [done|].
    change (array_size _) with 266 in H2. lia.
  - by apply (forward_awaits P Hm p0 o0 b0 q0).
  - cbn beta. intros r g' [(S & [Ab Ac Af] & Hp) A'].
    assert (can_send P = true) as E by by apply sendable_can_send.
    rewrite Hc, (V g_rs422_tx_busy), (cm_idle _ _ start), E in S, Hp by done. cbn [Z.eqb andb] in S, Hp.
    destruct S as [S1 _ _ S2]. split; [|by apply S1|by rewrite S2, L|].
    + unfold expects in A'. destruct (r =? _) eqn:Er; [exact A'|]. destruct A' as [? ? ? ? ? ? ? ? ? _].
      split; try done. intros b [= <-]. split; [|done]. apply Hp; [done| |lia]. unfold is_ping_message. lia.
    + rewrite <- (V g_rs422_tx_complete_count) by done. unfold went_up in Ac.
      transitivity (u32 (var g' g_rs422_tx_complete_count)); [symmetry; exact (ty_var _ (aw_typed _ _ _ _ _ _ _ A') g_rs422_tx_complete_count)|].
      rewrite Ac. by destruct (r =? _).
Qed.

(** Nothing was received meanwhile, and the queue is empty. *)
Lemma nothing_drained k e m g :
  handed_over k g -> wp (rs422_process_rx_buffer e m) (fun _ => handed_over k) g.
Proof.
  intros [A Ok L C]. eapply wp_mono; [apply wp_outcome; [apply (process_rx_leaves horizon enough), Ok|]|].
  - by apply (sound_nothing P p0 o0 b0 q0 (Some k)).
  - cbn beta. intros _ g' [[S _ _] [A' _]]. split; [done|by eapply steady_ok| |].
    + by rewrite (st_log _ _ _ S), L.
    + by rewrite (st_vars _ _ _ S), C.
Qed.

Lemma no_more_commands k n g :
  handed_over k g -> wp (rs422_command_loop (S n)) (fun _ => handed_over k) g.
Proof.
  intros [A Ok L C]. cbn [rs422_command_loop]. unfold queue_is_null. apply wp_bind, wp_gets.
  rewrite (aw_queues _ _ _ _ _ _ _ A), upd_eq. unfold osMessageQueueGet. do 2 apply wp_bind. apply wp_preempt.
  pose proof (leaves_env horizon enough g) as [S _ _].
  pose proof (awaiting_env P p0 o0 b0 q0 (Some k) g A) as A1. set (g1 := env _ _) in *.
  apply wp_bind, wp_gets. rewrite (aw_queues _ _ _ _ _ _ _ A1), upd_eq. apply wp_ret. cbn [Z.eqb negb].
  apply wp_ret. split; [done|by eapply steady_ok| |].
  - by rewrite (st_log _ _ _ S), L.
  - by rewrite (st_vars _ _ _ S), C.
Qed.

Lemma command_loop_ok n :
  wp (rs422_command_loop (S (S n))) (fun _ g => exists k, handed_over k g) g0.
Proof.
  remember (S n) as m eqn:Em. cbn [rs422_command_loop]. unfold queue_is_null. apply wp_bind, wp_gets.
  rewrite (cm_commands _ _ start). apply wp_bind, command_taken. intros g A [Ok V L]. cbn [Z.eqb negb].
  apply wp_bind, wp_bind, wp_gets, wp_modify. set (g1 := put _ _ g).
  apply wp_bind. eapply wp_mono; [apply command_forwarded|].
  - by apply (awaiting_put P p0 o0 b0 q0 None).
  - split; [exact Ok| |exact L]. by apply same_vars_put.
  - cbn beta. intros r g2 H2. apply wp_bind. eapply wp_mono; [by apply nothing_drained|]. intros ? g3 H3.
    subst m. eapply wp_mono; [exact (no_more_commands _ n g3 H3)|]. cbn beta. intros ? g4 H4. by eexists.
Qed.
End Loop.
End Commands.

(** ** The remote node's answer *)

(** The bytes a node transmits when it is given [frames]. *)
Definition answer (nd : remote_node_t platform) (frames : list (list Z)) : list Z :=
  concat (RemoteNode.sent (user_context (fold_left feed_frame_to frames nd))).

Record listening (nd : remote_node_t platform) : Prop := {
  ln_recording : recording nd;
  ln_parser : parser_rel (RemoteNode.parser nd) [];
  ln_silent : RemoteNode.sent (user_context nd) = []
}.

Definition pong_to (P : protocol_packet_t) : protocol_packet_t := message MSG_PONG (pkt_seq P) [].

Lemma ping_answered nd P :
  listening nd -> sendable P -> pkt_msg_id P = MSG_PING -> pkt_length P = 0 ->
  answer nd [frame_of P] = frame_of (pong_to P).
Proof.
  intros [Hr Hp Hs] HP Hm Hl. unfold answer. cbn [fold_left].
  destruct (fed_frame_sends nd P HP Hr Hp Hs) as [now ->].
  assert (reply_to now (count_frame P (stats nd)) P = Some (pong_to P)) as ->
    by (unfold reply_to; by rewrite Hm, Hl).
  cbn [concat]. by rewrite app_nil_r.
Qed.

(** Bytes that arrive while there is room are all kept. *)
Lemma isr_bytes_room bs r :
  ring_wf r -> (length (ring_contents r) + length bs <= ring_capacity (R := rs422_ring))%nat ->
  ring_contents (isr_bytes bs r) = ring_contents r ++ bs.
Proof.
  revert r. induction bs as [|b bs IH]; intros r Hwf Hr; [by rewrite app_nil_r|].
  change (isr_bytes (b :: bs) r) with (isr_bytes bs (ring_push b r).2). cbn [length] in Hr.
  destruct (ring_push_law r b Hwf) as (H1 & H2 & H3 & _).
  rewrite H2, bool_decide_true in H3 by lia.
  rewrite IH; [by rewrite H3, <- app_assoc|done|]. rewrite H3, length_app. cbn [length]. lia.
Qed.

Lemma ring_ok_bytes bs r : bytes bs -> ring_ok r -> ring_ok (isr_bytes bs r).
Proof.
  intros Hb. revert r. induction Hb as [|b bs Hb _ IH]; intros r Hr; [done|].
  apply (IH (rs422_rx_ring_push_from_isr b r)). by apply ring_ok_push.
Qed.

(** The line brings [bs]. *)
Definition receive {D} (bs : list Z) (g : gateway D) : gateway D := g <| rx_ring := isr_bytes bs (rx_ring g) |>.

(** ** The way back *)
Section Return.
Context {D : Type} `{!World D} `{!TypedWorld D} `{!SpiBus D} `{!SpiOwner D}
  `{!IsrOnly D 0} `{!Owner D g_rs422_received_packet}.
Implicit Types g : gateway D.

(** The bus is left alone. *)
Definition off_bus (b : list bus_event) g : Prop := typed g /\ bus (hw g) = b.
(** The messages [l] wait in the queue [q]. *)
Definition waiting q l g : Prop := typed g /\ queue_of g q = Some l.

#[export] Instance off_bus_stable b : Stable (off_bus b).
Proof. apply stable_with; try done. intros g _ H. by rewrite owner_bus. Qed.
#[export] Instance off_bus_queues b q : StableQueue (off_bus b) q.
Proof. intros o g Ho [H R]. split; [by apply stable_queue|done]. Qed.
#[export] Instance off_bus_input b : StableInput (off_bus b).
Proof. by apply stable_input_with. Qed.

(** The PONG drained: in the queue if it is waited for, otherwise dropped. *)
Lemma pong_drained P p0 o0 b0 q0 (k : bool) e m g :
  sendable P -> parser_rel p0 [] -> q0 tcp_response_queue = Some [] -> (513 <= rounds)%nat ->
  awaiting P p0 o0 b0 q0 (Some k) g ->
  wp (rs422_process_rx_buffer e m) (fun _ g' => off_bus b0 g' /\
    queue_of g' tcp_response_queue = Some (if k then [received (pong_to P) o0] else []))
    (receive (frame_of (pong_to P)) g).
Proof.
  intros HP Hp0 Hq Hrounds [T R Hp Ho Hc Hqs Ha Hf Hb Hk].
  pose proof (pong_sendable P HP) as Hs. fold (pong_to P) in Hs.
  assert (packet_ok o0) as Ho0 by (rewrite <- Ho; apply (ty_packet _ T)).
  set (g1 := receive _ g). pose proof (ty_ring _ T) as Hring. pose proof (ro_wf _ Hring) as Hwf.
  assert (ring_contents (rx_ring g1) = frame_of (pong_to P)) as Hbytes.
  { unfold g1, receive. st_simpl. rewrite isr_bytes_room, R; [done|done|]. rewrite R.
    pose proof (length_frame_of (pong_to P) (send_ok _ Hs) (send_length _ Hs)) as Hn.
    change (pkt_length (pong_to P)) with 0 in Hn. cbn [length ring_capacity rs422_byte_ring]. lia. }
  assert (off_bus b0 g1) as Hoff.
  { split; [|done]. apply stable_ring; [|done]. apply ring_ok_bytes; [apply frame_of_bytes, Hs|done]. }
  eapply wp_mono; [apply wp_outcome; [|by apply (sound_process_rx (off_bus b0) e m)]|].
  - apply (drain_ok 0); [by apply (proj1 (isr_bytes_ring _ _ Hwf))|lia|]. intros es later r g' Hfeed Habs _ _ Hl.
    rewrite Hl, app_nil_r, Hbytes in Hfeed by lia.
    destruct (feed_frame (pong_to P) p0 o0) as (es' & p' & Hfeed' & _ & Hps & _); [done..|].
    change (parser_of g1 g_rs422_parser) with (parser_of g g_rs422_parser) in Hfeed.
    change (packet_of g1 g_rs422_received_packet) with (packet_of g g_rs422_received_packet) in Hfeed.
    rewrite Hp, Ho, Hfeed' in Hfeed. injection Hfeed as <- _ _. rewrite Hps in Habs. exact Habs.
  - cbn beta. intros _ g' [Habs [Hoff' _]]. split; [done|].
    change (fw_tcp (abs g') = Some (if k then [received (pong_to P) o0] else [])).
    rewrite Habs. cbn [fold_left].
    destruct (spec_frame_pong (received (pong_to P) o0) (abs g1)) as (_ & _ & _ & _ & ->).
    destruct (Hk _ eq_refl) as [H1 H2].
    change (fw_tcp (abs g1)) with (queue_of g tcp_response_queue). rewrite Hqs, Hq.
    unfold awaited. change (fw_active (abs g1)) with (var g g_w5500_tcp_session_active).
    change (fw_pending (abs g1)) with (var g g_rs422_tcp_ping_pending).
    change (fw_pending_seq (abs g1)) with (var g g_rs422_tcp_ping_pending_seq).
    rewrite H1, (proj2 (Z.eqb_neq _ _) Ha). destruct k; [|by rewrite andb_false_r].
    rewrite (H2 eq_refl). cbn. by rewrite Z.eqb_refl.
Qed.

#[export] Instance waiting_stable q l : Stable (waiting q l).
Proof. apply stable_with; try done. intros g _ H. by rewrite (is_queue _ _ _ (proj1 (isr_only g))). Qed.
#[export] Instance waiting_hardware q l : StableHardware (waiting q l).
Proof. intros d g [H R]. split; [by apply stable_hw|done]. Qed.

Lemma same_frame p q : same_message p q -> frame_of p = frame_of q.
Proof. intros [Hv Hm Hs Hl Hp]. rewrite !frame_of_fields. unfold frame_body. by rewrite Hv, Hm, Hs, Hp, Hl. Qed.

(** Taking a message off a queue. *)
Lemma get_message q dst l (K : Z -> gateway D -> Prop) g :
  waiting q l g ->
  (forall g', bus (hw g') = bus (hw g) ->
     match l with
     | [] => waiting q [] g' -> K osErrorResource g'
     | m :: l' => waiting q l' g' -> packet_of g' dst = m -> K osOK g'
     end) ->
  wp (osMessageQueueGet q dst) K g.
Proof.
  intros Hw HK. unfold osMessageQueueGet. apply wp_bind, wp_preempt.
  pose proof (stable_env (J := waiting q l) g Hw) as Hw1.
  assert (bus (hw (env (epoch g) (g <| epoch := S (epoch g) |>))) = bus (hw g)) as Hb by by rewrite owner_bus.
  set (g1 := env _ _) in *. destruct Hw1 as [T1 Q1]. apply wp_bind, wp_gets. rewrite Q1.
  destruct l as [|m l]; [by apply wp_ret, HK|].
  destruct (ty_queue _ T1 _ _ Q1) as [Hn Hl]. apply Forall_cons in Hl as [Hm Hl]. cbn [length] in Hn.
  apply wp_bind, wp_modify. set (g2 := set_field queue_of _ g1). apply wp_bind, wp_modify, wp_ret.
  assert (typed g2) as T2 by (apply stable_queue; [intros l' [= <-]; split; [lia|done]|done]).
  apply HK; [done| |apply upd_eq]. split; [|apply upd_eq]. apply stable_packet; [apply Hm|done].
Qed.

(** The queue is empty: the loop ends at once. *)
Lemma no_response n handle g :
  waiting tcp_response_queue [] g ->
  wp (response_loop (S n) handle) (fun _ g' => bus (hw g') = bus (hw g)) g.
Proof.
  intros Hq. cbn [response_loop]. apply wp_bind. apply (get_message _ _ _ _ _ Hq). intros g' Hb _. by apply wp_ret.
Qed.

Lemma full_frame g a : typed g -> array_size a = 266 -> full_buffer (array_of g a).
Proof. intros T Ha. destruct (ty_array _ T a) as [H1 H2]. split; [done|]. lia. Qed.

Lemma received_can_send q o : sendable q -> can_send (received q o) = true.
Proof. intros [_ Hv Hl]. unfold can_send. cbn. lia. Qed.

Lemma responses_sent (J : Z) `{!Punctual D J} `{!DeliverRely D} (k : bool) q o g :
  11 * J < 4000000000 -> sendable q ->
  waiting tcp_response_queue (if k then [received q o] else []) g ->
  wp w5500_tcp_drain_response_queue (fun _ g' =>
    if k then exists st ws, bus (hw g') = bus (hw g) ++ flat_map window_events ws /\
                send_spec socket0_regs (frame_of q) st ws
    else bus (hw g') = bus (hw g)) g.
Proof.
  intros HJ Hq Hw. unfold w5500_tcp_drain_response_queue, for_responses, queue_is_null.
  apply wp_bind, wp_gets. rewrite (proj2 Hw). destruct k; [|by apply no_response].
  change (Z.to_nat TCP_RESPONSE_QUEUE_DEPTH) with (S (S (pred (pred (Z.to_nat TCP_RESPONSE_QUEUE_DEPTH))))).
  generalize (pred (pred (Z.to_nat TCP_RESPONSE_QUEUE_DEPTH))). intros n. remember (S n) as m eqn:Em. cbn [response_loop].
  apply wp_bind. apply (get_message _ _ _ _ _ Hw). intros g1 B1 W1 P1. cbn [Z.eqb negb].
  do 2 apply wp_bind. apply wp_bind, wp_gets, wp_modify. set (g2 := put _ _ g1).
  assert (waiting tcp_response_queue [] g2) as W2 by by apply stable_put.
  assert (packet_of g2 g_tcp_pong_packet = received q o) as P2 by done.
  eapply wp_mono; [apply wp_outcome; [apply (tcp_response_ok J HJ g_tcp_pong_packet g2)|]|].
  - done.
  - apply (ty_packet _ (proj1 W2)).
  - by apply full_frame; [apply W2|].
  - by apply (sound_response (waiting tcp_response_queue [])).
  - cbn beta. intros _ g3 [[st [(ws & Hbus & Hsend) _]] [W3 _]].
    rewrite P2, received_can_send, (same_frame _ _ (received_same q o Hq)) in Hsend by done.
    subst m. eapply wp_mono; [by apply no_response|]. cbn beta. intros _ g4 ->.
    exists st, ws. split; [|done]. rewrite Hbus, <- B1. done.
Qed.
End Return.

(** ** Properties *)

(** C7: A PING end to end: with one command [P] queued in a session and nothing
    else going on, the RS-422 task's command loop ends and puts exactly [P]'s
    frame on the line.  When the remote node is given what was put on the line
    and the bytes it answers with have arrived, the RS-422 task's drain and the
    Ethernet task's response queue end as well; if the transmission was counted
    as complete, exactly one frame has gone onto the SPI bus, by the sequence of
    accesses of a SEND on the TCP socket: the PONG with [P]'s sequence number;
    if not, the answer is dropped and the bus was not touched. *)
Theorem ping_answered_end_to_end {D} `{!World D} `{!TypedWorld D} `{!UartLog D} `{!SpiBus D}
    `{!SpiOwner D} `{!IsrOnly D 0} `{!Undisturbed D} `{!Owner D g_rs422_received_packet}
    (horizon : nat) `{!RsWorld D horizon} (J : Z) `{!Punctual D J} `{!DeliverRely D}
    (nd : remote_node_t platform) P (g : gateway D) :
  (2 * horizon + 514 <= rounds)%nat -> 11 * J < 4000000000 ->
  commanded P g -> pkt_length P = 0 -> listening nd ->
  wp (rs422_command_loop rounds) (fun _ g1 =>
    let on_line := drop (length (uart_log (hw g))) (uart_log (hw g1)) in
    on_line = [frame_of P] /\
    wp (_ ← rs422_process_rx_buffer 0 0; w5500_tcp_drain_response_queue) (fun _ g2 =>
      if decide (var g1 g_rs422_tx_complete_count = var g g_rs422_tx_complete_count)
      then bus (hw g2) = bus (hw g)
      else exists st ws, bus (hw g2) = bus (hw g) ++ flat_map window_events ws /\
             send_spec socket0_regs (frame_of (message MSG_PONG (pkt_seq P) [])) st ws)
      (receive (answer nd on_line) g1)) g.
Proof.
  intros Hr HJ Hc Hl Hn. cbv zeta. destruct (command_sendable P g Hc) as [Hs Hm].
  assert (exists n, rounds = S (S n)) as [n ->] by (exists (pred (pred rounds)); lia).
  eapply wp_mono; [apply (command_loop_ok horizon Hr P g Hc n)|].
  cbn beta. intros _ g1 [k [A Ok L C]]. rewrite L, drop_app_length. split; [done|].
  rewrite ping_answered by done. apply wp_bind.
  eapply wp_mono; [eapply (pong_drained P _ _ _ _ k); [done|apply Hc| |lia|exact A]|].
  { rewrite upd_ne by done. apply Hc. }
  cbn beta. intros _ g2 [[T2 B2] Q2].
  eapply wp_mono; [eapply (responses_sent J k (pong_to P)); [done|by apply pong_sendable|split; [done|exact Q2]]|].
  cbn beta. intros _ g3 H3. rewrite B2 in H3.
  assert (u32 (var g g_rs422_tx_complete_count) = var g g_rs422_tx_complete_count) as Hc0
    by exact (ty_var _ (cm_typed _ _ Hc) g_rs422_tx_complete_count).
  rewrite C. destruct k; cbn [Z.b2z].
  - rewrite decide_False; [exact H3|]. rewrite <- Hc0 at 2. unfold u32. lia.
  - rewrite Z.add_0_r, decide_True by done. exact H3.
Qed.

(** ** A gateway with a line and a chip for the witness

    The UART and the SPI bus log what they are given; for a while every kernel
    call finds the transmission complete. *)
Record station := mk_station { station_line : list (list Z); station_chip : chip }.

#[export] Instance station_hardware : Hardware station := {
  cs_pin b d := mk_station (station_line d) (cs_pin b (station_chip d));
  rst_pin _ d := d;
  spi_transmit tx d :=
    let '(st, c) := spi_transmit tx (station_chip d) in (st, mk_station (station_line d) c);
  spi_transmit_receive tx d :=
    let '(st, rx, c) := spi_transmit_receive tx (station_chip d) in (st, rx, mk_station (station_line d) c);
  uart_transmit_it tx d := (HAL_OK, mk_station (station_line d ++ [tx]) (station_chip d));
  uart_receive_it d := (HAL_OK, d);
  dwt_start d := d;
  dwt_running _ := true;
  dwt_cyccnt _ := 0;
  system_core_clock _ := 170000000;
  free_heap_size _ := 4096;
  minimum_ever_free_heap_size _ := 2048
}.

#[export] Instance station_world : World station := {
  env n g :=
    let t := u32 (tick g + 1) in
    let g := g <| tick := if t =? UINT32_MAX then 0 else t |> in
    if (n <? 40)%nat
    then g <| notif_of := upd RS422Task (notify_set_bits RS422_EVENT_TX_DONE (notif_of g RS422Task)) (notif_of g) |>
    else g;
  rounds := 600
}.

#[export] Instance station_uart : UartLog station := {
  uart_log := station_line;
  uart_log_tx _ _ := eq_refl;
  uart_tx_status _ _ := Z.le_refl 0
}.

#[export] Instance station_bus : SpiBus station := {
  bus d := chip_log (station_chip d);
  bus_cs _ _ := eq_refl;
  bus_transmit _ _ := eq_refl;
  bus_transmit_receive tx _ := conj eq_refl (chip_answer_length tx)
}.

(** What a kernel call leaves alone. *)
Lemma station_env n (g : gateway station) :
  exists t f, is_u32 t /\ t < UINT32_MAX /\ advanced 2 g (env n g) /\ f = (n <? 40)%nat /\
  env n g = g <| tick := t |>
    <| notif_of := if f then upd RS422Task (notify_set_bits RS422_EVENT_TX_DONE (notif_of g RS422Task)) (notif_of g)
                   else notif_of g |>.
Proof.
  exists (if u32 (tick g + 1) =? UINT32_MAX then 0 else u32 (tick g + 1)), (n <? 40)%nat.
  unfold advanced, env, station_world. cbv zeta. split; [destruct (_ =? _); width|].
  split; [pose proof (u32_range (tick g + 1)); unfold is_u32, UINT32_MAX in *; destruct (Z.eqb_spec (u32 (tick g + 1)) 4294967295); lia|].
  split; [|split; [done|by destruct (_ <? _)%nat]].
  destruct (u32 (tick g + 1) =? UINT32_MAX) eqn:E; [exists 2|exists 1]; (split; [lia|]); destruct (_ <? _)%nat; st_simpl; (done || width).
Qed.

Ltac station_env n g := destruct (station_env n g) as (t & f & Ht & Hlt & Hadv & Hf & ->).

#[export] Instance station_typed : TypedWorld station.
Proof.
  split.
  - intros n g [? ? ? ? ? Hn ? ? ?]. station_env n g. split; try done. intros task. st_simpl.
    destruct f; [|done]. unfold upd. case_decide; [|done]. by apply u32_lor.
  - intros tx d. split; [|apply chip_answer_length]. cbn.
    assert (forall l : list Z, bytes (map (fun _ => 0) l)) as H0 by (induction l; by constructor).
    unfold chip_answer.
    repeat match goal with |- context [match ?x with _ => _ end] => destruct x end;
      first [apply H0|repeat constructor; done].
Qed.
#[export] Instance station_owner : SpiOwner station.
Proof. split; [intros n g|intros n g a _]; station_env n g; done. Qed.
#[export] Instance station_packets r : Owner station r.
Proof. intros n g. station_env n g. done. Qed.
#[export] Instance station_deliver : DeliverRely station.
Proof. split; [intros n g v _|intros n g p _]; station_env n g; done. Qed.
#[export] Instance station_punctual : Punctual station 2.
Proof. intros n g. destruct (station_env n g) as (t & f & _ & _ & H & _). exact H. Qed.
#[export] Instance station_undisturbed : Undisturbed station.
Proof.
  split; [done|]. intros n g Hg. station_env n g. destruct f; [|exact Hg].
  unfold flags_of. st_simpl. rewrite upd_eq. by apply no_reset_lor.
Qed.
#[export] Instance station_isr : IsrOnly station 0.
Proof.
  intros g. set (g1 := g <| epoch := S (epoch g) |>). station_env (epoch g) g1. split; [|split; [done|]].
  - split; try done. split; [cbn; lia|]. by exists [].
  - unfold is_u32 in Ht. st_simpl. lia.
Qed.
#[export] Instance station_steps : RsWorld station 40.
Proof.
  intros g. set (g1 := g <| epoch := S (epoch g) |>). station_env (epoch g) g1. split; try done.
  - split; [cbn; lia|]. by exists [].
  - destruct f; [|by left]. right. split; [symmetry in Hf; by apply Nat.ltb_lt|].
    exists RS422_EVENT_TX_DONE. split; [done|]. st_simpl. apply upd_eq.
Qed.

(** A session in which PING 7 was queued. *)
Definition station_commanded : gateway station :=
  put g_w5500_tcp_session_active 1 ((power_on (mk_station [] (mk_chip [])))
    <| queue_of := fun q => Some (if decide (q = rs422_cmd_queue) then [ping_packet 7] else []) |>).

Lemma station_ready : commanded (ping_packet 7) station_commanded.
Proof.
  assert (sendable (ping_packet 7)) as Hs by by apply ping_packet_sendable.
  split; try done.
  - apply stable_put. destruct (power_on_typed (mk_station [] (mk_chip []))) as [? ? ? ? _ ? ? ? ?]. split; try done.
    intros q l. st_simpl. intros [= <-]. destruct q; cbn; (split; [done|]); repeat constructor; apply Hs.
  - apply parser_init_rel.
Qed.
Lemma idle_node_listens : listening idle_node.
Proof. split; [by split|apply idle_node_rel|done]. Qed.

(** PING 7 comes back as PONG 7 and is counted. *)
Lemma ping_answered_end_to_end_witness :
  wp (rs422_command_loop rounds) (fun _ g1 =>
    drop 0 (uart_log (hw g1)) = [frame_of (ping_packet 7)]) station_commanded /\
  match rs422_command_loop rounds station_commanded with
  | Some (_, g1) =>
      match (_ ← rs422_process_rx_buffer 0 0; w5500_tcp_drain_response_queue)
              (receive (answer idle_node (drop 0 (uart_log (hw g1)))) g1) with
      | Some (_, g2) => var g2 g_w5500_tcp_pong_count = 1 /\ var g1 g_rs422_tx_complete_count = 1
      | None => False
      end
  | None => False
  end.
Proof.
  split; [|vm_compute; done]. eapply wp_mono.
  - apply (ping_answered_end_to_end 40 2 idle_node (ping_packet 7) station_commanded);
      [apply Nat.leb_le; reflexivity|lia|exact station_ready|done|exact idle_node_listens].
  - cbv zeta. intros _ g1 [H _]. exact H.
Defined.
