(* ===== verification/Telemetry.v ===== *)
(** * Telemetry, from the node's timer to the network

    The frames the remote node's periodic handler sends, through the receive
    ring and the telemetry queue of the gateway, to the UDP socket. *)
From S2P Require Import Prelude Crc16 Protocol StreamParser RxRing GwDiag GwRs422 GwForwarding GwW5500 GwUdp GwEthernet GwSpiTrace GwSend GwDeliver GwMain GwTyped RemoteNode.
From S2P Require Export EndToEnd.
Local Open Scope Z_scope.

(** ** What the UDP socket sends *)

(** At most [n] of the waiting frames are sent, in order, each by a SEND; the
    first that the chip does not report sent is lost and is the last; the
    rest stay. *)
Inductive datagrams : nat -> list (list Z) -> list window -> list (list Z) -> Prop :=
  | dg_limit fs : datagrams 0 fs [] fs
  | dg_none n : datagrams n [] [] []
  | dg_failed n f fs st ws :
      st <> HAL_OK -> send_spec socket1_regs f st ws -> datagrams (S n) (f :: fs) ws fs
  | dg_sent n f fs ws ws' rest :
      send_spec socket1_regs f HAL_OK ws -> datagrams n fs ws' rest ->
      datagrams (S n) (f :: fs) (ws ++ ws') rest.

Lemma datagrams_split n fs ws rest :
  datagrams n fs ws rest -> exists gone, fs = gone ++ rest /\ (length gone <= n)%nat.
Proof.
  induction 1 as [fs|n|n f fs st ws _ _|n f fs ws ws' rest _ _ (gone & -> & Hl)].
  - exists []. split; [done|cbn; lia].
  - exists []. split; [done|cbn; lia].
  - exists [f]. split; [done|cbn; lia].
  - exists (f :: gone). split; [done|cbn; lia].
Qed.

Section Datagrams.
Context {D : Type} `{!World D} `{!TypedWorld D} `{!SpiBus D} `{!SpiOwner D} `{!IsrOnly D 0}
  (J : Z) `{!Punctual D J} `{!DeliverRely D}.
Hypothesis short_calls : 11 * J < 4000000000.
Implicit Types g : gateway D.

Lemma udp_drain_ok n l g :
  waiting udp_telemetry_queue l g ->
  wp (udp_drain_loop n) (fun _ g' => exists ws rest, waiting udp_telemetry_queue rest g' /\
    bus (hw g') = bus (hw g) ++ flat_map window_events ws /\
    datagrams n (map frame_of l) ws (map frame_of rest)) g.
Proof.
  revert l g. induction n as [|n IH]; intros l g Hw; cbn [udp_drain_loop].
  { apply wp_ret. exists [], l. cbn. rewrite app_nil_r. split; [done|]. split; [done|constructor]. }
  unfold queue_is_null. apply wp_bind, wp_gets. rewrite (proj2 Hw). apply wp_bind.
  pose proof (ty_queue _ (proj1 Hw) _ _ (proj2 Hw)) as [_ Hl].
  apply (get_message _ _ _ _ _ Hw). intros g1 B1. destruct l as [|p l]; intros W1; [|intros P1].
  { apply wp_ret. exists [], []. cbn. rewrite app_nil_r. split; [done|]. split; [done|constructor]. }
  apply Forall_cons in Hl as [[Hp Hm] _]. cbn [Z.eqb negb].
  apply wp_bind, wp_bind, wp_gets, wp_modify. set (g2 := put _ _ g1).
  assert (waiting udp_telemetry_queue l g2) as W2 by by apply stable_put.
  assert (packet_of g2 g_udp_forward_packet = p) as P2 by done.
  apply wp_bind. eapply wp_mono; [apply wp_outcome; [apply (udp_forward_ok J short_calls g_udp_forward_packet g2)|]|].
  - done.
  - apply (ty_packet _ (proj1 W2)).
  - by apply full_frame; [apply W2|].
  - by apply (sound_udp_forward (waiting udp_telemetry_queue l)).
  - cbn beta. intros st g3 [[(ws & Hbus & Hsend) _] [W3 _]].
    assert ((pkt_msg_id p =? MSG_TELEMETRY) && can_send p = true) as E
      by (rewrite sendable_can_send by done; cbn in Hm; lia).
    rewrite P2, E in Hsend. change (bus (hw g2)) with (bus (hw g1)) in Hbus. rewrite B1 in Hbus.
    destruct (Z.eqb_spec st HAL_OK) as [->|Hst]; cbn [negb].
    + eapply wp_mono; [by apply IH|]. cbn beta. intros _ g4 (ws' & rest & W4 & B4 & Hd).
      exists (ws ++ ws'), rest. split; [done|]. rewrite B4, Hbus, flat_map_app, app_assoc. split; [done|].
      by apply dg_sent.
    + apply wp_ret. exists ws, l. split; [done|]. split; [done|]. by eapply dg_failed.
Qed.
End Datagrams.

(** ** What reaches the queue *)
Lemma same_filter ps ms :
  Forall2 same_message ps ms ->
  Forall2 same_message (List.filter is_telemetry ps) (List.filter is_telemetry ms).
Proof.
  induction 1 as [|p m ps ms Hpm _ IH]; [constructor|]. cbn [List.filter].
  assert (is_telemetry p = is_telemetry m) as -> by (unfold is_telemetry; by rewrite (same_msg_id _ _ Hpm)).
  destruct (is_telemetry m); [by constructor|done].
Qed.

Lemma same_frames ps ms : Forall2 same_message ps ms -> map frame_of ps = map frame_of ms.
Proof. induction 1 as [|p m ps ms Hpm _ IH]; [done|]. cbn [map]. by rewrite (same_frame _ _ Hpm), IH. Qed.

Lemma frames_stream ms : concat (map frame_of ms) = noisy_stream (map (pair []) ms).
Proof. induction ms as [|m ms IH]; [done|]. cbn [map concat noisy_stream]. by rewrite IH. Qed.

Section Queue.
Context {D : Type} `{!World D} `{!TypedWorld D} `{!SpiBus D} `{!SpiOwner D}
  `{!IsrOnly D 0} `{!Owner D g_rs422_received_packet}.
Implicit Types g : gateway D.

(** Forwarding is on, nothing was received and no telemetry waits. *)
Record attentive g : Prop := {
  at_typed : typed g;
  at_ring : ring_contents (rx_ring g) = [];
  at_parser : parser_rel (parser_of g g_rs422_parser) [];
  at_enabled : var g g_rs422_telemetry_forwarding_enabled <> 0;
  at_queue : queue_of g udp_telemetry_queue = Some []
}.

Lemma telemetry_drained ms e m g :
  attentive g -> Forall sendable ms -> (length (concat (map frame_of ms)) <= 512)%nat -> (513 <= rounds)%nat ->
  wp (rs422_process_rx_buffer e m) (fun _ g' => bus (hw g') = bus (hw g) /\
    exists l, waiting udp_telemetry_queue l g' /\
      map frame_of l = map frame_of (take (Z.to_nat UDP_TELEMETRY_QUEUE_DEPTH) (List.filter is_telemetry ms)))
    (receive (concat (map frame_of ms)) g).
Proof.
  intros [T R Hp He Hq] Hms Hlen Hrounds. set (bs := concat _) in *. set (g1 := receive bs g).
  pose proof (ty_ring _ T) as Hring. pose proof (ro_wf _ Hring) as Hwf.
  assert (ring_contents (rx_ring g1) = bs) as Hbytes.
  { unfold g1, receive. st_simpl. rewrite isr_bytes_room, R; [done|done|]. rewrite R. exact Hlen. }
  assert (bytes bs) as Hbs.
  { unfold bs. clear -Hms. induction Hms as [|q qs Hq _ IH]; [apply bytes_nil|]. cbn [map concat].
    apply bytes_app. split; [apply frame_of_bytes, Hq|done]. }
  assert (off_bus (bus (hw g)) g1) as Hoff.
  { split; [|done]. apply stable_ring; [|done]. by apply ring_ok_bytes. }
  destruct (feed_noisy_stream (map (pair []) ms) (parser_of g g_rs422_parser) (packet_of g g_rs422_received_packet))
    as (es & p & out & Hfeed & Hps & _); [done|apply (ty_packet _ T)| |].
  { apply Forall_map. eapply Forall_impl; [exact Hms|]. intros q Hq'. cbn. split; [apply bytes_nil|].
    split; [constructor|done]. }
  assert (map snd (map (pair (A := list Z) []) ms) = ms) as Hmap by (rewrite map_map; apply map_id).
  rewrite Hmap in Hps.
  eapply wp_mono; [apply wp_outcome; [|by apply (sound_process_rx (off_bus (bus (hw g))) e m)]|].
  - apply (drain_ok 0); [by apply (proj1 (isr_bytes_ring _ _ Hwf))|lia|]. intros es' later r g' Hfeed' Habs _ _ Hl.
    rewrite Hl, app_nil_r, Hbytes in Hfeed' by lia. unfold bs in Hfeed'. rewrite frames_stream in Hfeed'.
    change (parser_of g1 g_rs422_parser) with (parser_of g g_rs422_parser) in Hfeed'.
    change (packet_of g1 g_rs422_received_packet) with (packet_of g g_rs422_received_packet) in Hfeed'.
    rewrite Hfeed in Hfeed'. injection Hfeed' as <- _ _. exact Habs.
  - cbn beta. intros _ g' [Habs [[T' B'] _]]. split; [done|].
    destruct (fold_udp (packets es) (abs g1) [] He Hq) as [Hu _]. cbv zeta in Hu. rewrite <- Habs in Hu.
    exists (take (room []) (telemetry_of (packets es))). split; [split; [done|exact Hu]|].
    apply same_frames, Forall2_take, same_filter, Hps.
Qed.
End Queue.

(** ** What the node sends *)
Lemma schedule_sendable flags ts T : Forall (fun x => sendable x.2) (schedule_run flags ts T).1.
Proof.
  revert T. induction ts as [|t ts IH]; intros T; [constructor|]. cbn [schedule_run].
  destruct (schedule_step flags t T) as [l T1] eqn:E. specialize (IH T1).
  destruct (schedule_run flags ts T1) as [l' T2]. cbn [fst] in *. apply Forall_app. split; [|exact IH].
  unfold schedule_step in E. injection E as <- _. apply Forall_app. split; [destruct (100 <=? _)|destruct (500 <=? _)];
    repeat first [apply Forall_nil_2|apply Forall_cons_2]; apply RemoteNode.message_sendable;
    first [done|apply u16_range|cbn; lia|solve_bytes].
Qed.

#[local] Opaque frame_of message be32 be16 u16 u32.

(** ** Properties *)

(** C8: Telemetry end to end: whatever the times at which the remote node's
    periodic handler is called, what it put on the line - telemetry and
    heartbeats, at most the ring's 512 bytes in one go - passes the gateway's
    receive ring and parser, and when the RS-422 task's drain and then the
    Ethernet task's telemetry drain run, both end: of the first four telemetry
    messages of the abstract schedule at most two go onto the SPI bus, in
    order, each as exactly its frame by the sequence of accesses of a SEND on
    the UDP socket, stopping after the first the chip does not report sent,
    and the rest stay queued in order. *)
Theorem telemetry_reaches_network {D} `{!World D} `{!TypedWorld D} `{!SpiBus D} `{!SpiOwner D}
    `{!IsrOnly D 0} `{!Owner D g_rs422_received_packet} (J : Z) `{!Punctual D J} `{!DeliverRely D}
    t0 d ts flags (g : gateway D) :
  (513 <= rounds)%nat -> 11 * J < 4000000000 -> attentive g ->
  is_u16 flags -> 0 <= d <= 4294966000 -> calls d t0 ts ->
  let node := periodic_run ts (remote_node_set_status_flags
    (remote_node_init (Some record_time) (Some record_tx) (mk_platform (u32 t0) [])) flags) in
  let line := concat (RemoteNode.sent (user_context node)) in
  let schedule := map snd (schedule_run flags ts (mk_timers t0 0 t0 0)).1 in
  (length line <= 512)%nat ->
  wp (_ ← rs422_process_rx_buffer 0 0; udp_drain_loop (Z.to_nat UDP_TELEMETRY_DRAIN_LIMIT)) (fun _ g' =>
    exists ws l, bus (hw g') = bus (hw g) ++ flat_map window_events ws /\
      queue_of g' udp_telemetry_queue = Some l /\
      datagrams 2 (map frame_of (take 4 (List.filter is_telemetry schedule))) ws (map frame_of l))
    (receive line g).
Proof.
  intros Hr HJ Hg Hf Hd Hts node line schedule Hlen.
  set (n0 := remote_node_set_status_flags _ _) in *.
  assert (timers_rel (mk_timers t0 0 t0 0) t0 n0) as Hrel
    by (split; try done; cbn [tel_last hb_last]; lia).
  destruct (periodic_run_rel d _ _ ts n0 Hrel) as [Hs _]; [lia|done|].
  assert (RemoteNode.sent (user_context node) = map frame_of schedule) as Hsent
    by (unfold schedule; rewrite map_map; exact Hs).
  unfold line in *. rewrite Hsent in *. apply wp_bind.
  eapply wp_mono; [apply telemetry_drained; [done| |done|done]|].
  { unfold schedule. apply Forall_map, schedule_sendable. }
  cbn beta. intros _ g1 (B1 & l & W1 & Hl). change (Z.to_nat UDP_TELEMETRY_QUEUE_DEPTH) with 4%nat in Hl.
  eapply wp_mono; [by apply (udp_drain_ok J HJ)|]. cbn beta. intros _ g2 (ws & rest & W2 & B2 & Hdg).
  exists ws, rest. rewrite B2, B1. split; [done|]. split; [apply W2|]. rewrite <- Hl. exact Hdg.
Qed.

#[local] Transparent frame_of message be32 be16 u16 u32.

(** Telemetry forwarding is on and the queues are empty. *)
Definition station_attentive : gateway station :=
  put g_rs422_telemetry_forwarding_enabled 1 ((power_on (mk_station [] (mk_chip [])))
    <| queue_of := fun _ => Some [] |>).

Lemma station_attends : attentive station_attentive.
Proof.
  split; try done.
  - apply stable_put. destruct (power_on_typed (mk_station [] (mk_chip []))) as [? ? ? ? _ ? ? ? ?]. split; try done.
    intros q l. st_simpl. intros [= <-]. destruct q; cbn; (split; [done|constructor]).
  - apply parser_init_rel.
Qed.

(** Five telemetry messages and a heartbeat are sent; two telemetry messages
    leave, two wait and the fifth found the queue full. *)
Lemma telemetry_reaches_network_witness :
  let node := periodic_run [100; 200; 300; 400; 500] (remote_node_set_status_flags
    (remote_node_init (Some record_time) (Some record_tx) (mk_platform 0 [])) 3) in
  let line := concat (RemoteNode.sent (user_context node)) in
  let m := _ ← rs422_process_rx_buffer 0 0; udp_drain_loop 2 in
  wp m (fun _ g' => exists ws l, queue_of g' udp_telemetry_queue = Some l /\
    datagrams 2 (map (fun seq => frame_of (telemetry_message 3 seq (100 * seq))) [1; 2; 3; 4]) ws (map frame_of l))
    (receive line station_attentive) /\
  match m (receive line station_attentive) with
  | Some (_, g') => option_map (map pkt_seq) (queue_of g' udp_telemetry_queue) = Some [3; 4] /\
      var g' g_w5500_udp_tx_packet_count = 2
  | None => False
  end.
Proof.
  split; [|vm_compute; done]. eapply wp_mono.
  - apply (telemetry_reaches_network 2 0 100 [100; 200; 300; 400; 500] 3 station_attentive);
      [apply Nat.leb_le; reflexivity|lia|exact station_attends|width|lia|cbn; lia|].
    apply Nat.leb_le. vm_compute. reflexivity.
  - cbn beta. intros _ g' (ws & l & _ & Hl & Hd). exists ws, l. split; [exact Hl|].
    refine (eq_rect _ (fun fs => datagrams 2 fs ws (map frame_of l)) Hd _ _). vm_compute. reflexivity.
Defined.
