(* ===== verification/RemoteMain.v ===== *)
(** * The F429 firmware around the remote node (f429_remote_node/Core/Src/main.c)

    [main] up to the start of the scheduler with the initialisation of the board
    as data, the default task's loop around [remote_node_port_process], and the
    settings of the RS-422 line at both ends.  What the HAL answers at start-up
    is a parameter ([board]). *)
From Stdlib Require Import String.
From S2P Require Import Prelude Crc16 Protocol StreamParser RxRing GwMain RemoteNode RemotePort.
Local Open Scope Z_scope.

(** ** Board configuration *)

(** A HAL call of the generated initialisation that returns a status: its text
    and the assignments to its arguments before it; for the UARTs, which
    one and its [Init]. *)
Inductive init_call :=
  | HAL_call (call : string) (settings : list (string * string))
  | HAL_UART_Init (uart : string) (settings : uart_config).

(** [huart5.Init] and [huart1.Init]; both also have [Mode] UART_MODE_TX_RX. *)
Definition huart5_settings : uart_config := mk_uart_config 115200 8 1 false false 16.
Definition huart1_settings : uart_config := mk_uart_config 115200 8 1 false false 16.

Section Board.
Local Open Scope string_scope.

(** Clock and peripherals; enabling clocks and setting up pins has no status. *)
Definition SystemClock_Config : list init_call :=
  [HAL_call "HAL_RCC_OscConfig(&RCC_OscInitStruct)"
     [("RCC_OscInitStruct.OscillatorType", "RCC_OSCILLATORTYPE_HSE");
      ("RCC_OscInitStruct.HSEState", "RCC_HSE_ON"); ("RCC_OscInitStruct.PLL.PLLState", "RCC_PLL_ON");
      ("RCC_OscInitStruct.PLL.PLLSource", "RCC_PLLSOURCE_HSE"); ("RCC_OscInitStruct.PLL.PLLM", "4");
      ("RCC_OscInitStruct.PLL.PLLN", "72"); ("RCC_OscInitStruct.PLL.PLLP", "RCC_PLLP_DIV2");
      ("RCC_OscInitStruct.PLL.PLLQ", "3")];
   HAL_call "HAL_RCC_ClockConfig(&RCC_ClkInitStruct, FLASH_LATENCY_2)"
     [("RCC_ClkInitStruct.ClockType", "RCC_CLOCKTYPE_HCLK|RCC_CLOCKTYPE_SYSCLK|RCC_CLOCKTYPE_PCLK1|RCC_CLOCKTYPE_PCLK2");
      ("RCC_ClkInitStruct.SYSCLKSource", "RCC_SYSCLKSOURCE_PLLCLK");
      ("RCC_ClkInitStruct.AHBCLKDivider", "RCC_SYSCLK_DIV1");
      ("RCC_ClkInitStruct.APB1CLKDivider", "RCC_HCLK_DIV2");
      ("RCC_ClkInitStruct.APB2CLKDivider", "RCC_HCLK_DIV1")]].
Definition MX_CRC_Init : list init_call :=
  [HAL_call "HAL_CRC_Init(&hcrc)" [("hcrc.Instance", "CRC")]].
Definition MX_DMA2D_Init : list init_call :=
  [HAL_call "HAL_DMA2D_Init(&hdma2d)"
     [("hdma2d.Instance", "DMA2D"); ("hdma2d.Init.Mode", "DMA2D_M2M");
      ("hdma2d.Init.ColorMode", "DMA2D_OUTPUT_ARGB8888"); ("hdma2d.Init.OutputOffset", "0");
      ("hdma2d.LayerCfg[1].InputOffset", "0");
      ("hdma2d.LayerCfg[1].InputColorMode", "DMA2D_INPUT_ARGB8888");
      ("hdma2d.LayerCfg[1].AlphaMode", "DMA2D_NO_MODIF_ALPHA"); ("hdma2d.LayerCfg[1].InputAlpha", "0")];
   HAL_call "HAL_DMA2D_ConfigLayer(&hdma2d, 1)" []].
Definition MX_FMC_Init : list init_call :=
  [HAL_call "HAL_SDRAM_Init(&hsdram1, &SdramTiming)"
     [("hsdram1.Instance", "FMC_SDRAM_DEVICE"); ("hsdram1.Init.SDBank", "FMC_SDRAM_BANK2");
      ("hsdram1.Init.ColumnBitsNumber", "FMC_SDRAM_COLUMN_BITS_NUM_8");
      ("hsdram1.Init.RowBitsNumber", "FMC_SDRAM_ROW_BITS_NUM_12");
      ("hsdram1.Init.MemoryDataWidth", "FMC_SDRAM_MEM_BUS_WIDTH_16");
      ("hsdram1.Init.InternalBankNumber", "FMC_SDRAM_INTERN_BANKS_NUM_4");
      ("hsdram1.Init.CASLatency", "FMC_SDRAM_CAS_LATENCY_3");
      ("hsdram1.Init.WriteProtection", "FMC_SDRAM_WRITE_PROTECTION_DISABLE");
      ("hsdram1.Init.SDClockPeriod", "FMC_SDRAM_CLOCK_PERIOD_2");
      ("hsdram1.Init.ReadBurst", "FMC_SDRAM_RBURST_DISABLE");
      ("hsdram1.Init.ReadPipeDelay", "FMC_SDRAM_RPIPE_DELAY_1");
      ("SdramTiming.LoadToActiveDelay", "2"); ("SdramTiming.ExitSelfRefreshDelay", "7");
      ("SdramTiming.SelfRefreshTime", "4"); ("SdramTiming.RowCycleDelay", "7");
      ("SdramTiming.WriteRecoveryTime", "3"); ("SdramTiming.RPDelay", "2");
      ("SdramTiming.RCDDelay", "2")]].
Definition MX_I2C3_Init : list init_call :=
  [HAL_call "HAL_I2C_Init(&hi2c3)"
     [("hi2c3.Instance", "I2C3"); ("hi2c3.Init.ClockSpeed", "100000");
      ("hi2c3.Init.DutyCycle", "I2C_DUTYCYCLE_2"); ("hi2c3.Init.OwnAddress1", "0");
      ("hi2c3.Init.AddressingMode", "I2C_ADDRESSINGMODE_7BIT");
      ("hi2c3.Init.DualAddressMode", "I2C_DUALADDRESS_DISABLE"); ("hi2c3.Init.OwnAddress2", "0");
      ("hi2c3.Init.GeneralCallMode", "I2C_GENERALCALL_DISABLE");
      ("hi2c3.Init.NoStretchMode", "I2C_NOSTRETCH_DISABLE")];
   HAL_call "HAL_I2CEx_ConfigAnalogFilter(&hi2c3, I2C_ANALOGFILTER_ENABLE)" [];
   HAL_call "HAL_I2CEx_ConfigDigitalFilter(&hi2c3, 0)" []].
Definition MX_LTDC_Init : list init_call :=
  [HAL_call "HAL_LTDC_Init(&hltdc)"
     [("hltdc.Instance", "LTDC"); ("hltdc.Init.HSPolarity", "LTDC_HSPOLARITY_AL");
      ("hltdc.Init.VSPolarity", "LTDC_VSPOLARITY_AL"); ("hltdc.Init.DEPolarity", "LTDC_DEPOLARITY_AL");
      ("hltdc.Init.PCPolarity", "LTDC_PCPOLARITY_IPC"); ("hltdc.Init.HorizontalSync", "9");
      ("hltdc.Init.VerticalSync", "1"); ("hltdc.Init.AccumulatedHBP", "29");
      ("hltdc.Init.AccumulatedVBP", "3"); ("hltdc.Init.AccumulatedActiveW", "269");
      ("hltdc.Init.AccumulatedActiveH", "323"); ("hltdc.Init.TotalWidth", "279");
      ("hltdc.Init.TotalHeigh", "327"); ("hltdc.Init.Backcolor.Blue", "0");
      ("hltdc.Init.Backcolor.Green", "0"); ("hltdc.Init.Backcolor.Red", "0")];
   HAL_call "HAL_LTDC_ConfigLayer(&hltdc, &pLayerCfg, 0)"
     [("pLayerCfg.WindowX0", "0"); ("pLayerCfg.WindowX1", "240"); ("pLayerCfg.WindowY0", "0");
      ("pLayerCfg.WindowY1", "320"); ("pLayerCfg.PixelFormat", "LTDC_PIXEL_FORMAT_RGB565");
      ("pLayerCfg.Alpha", "255"); ("pLayerCfg.Alpha0", "0");
      ("pLayerCfg.BlendingFactor1", "LTDC_BLENDING_FACTOR1_PAxCA");
      ("pLayerCfg.BlendingFactor2", "LTDC_BLENDING_FACTOR2_PAxCA");
      ("pLayerCfg.FBStartAdress", "0xD0000000"); ("pLayerCfg.ImageWidth", "240");
      ("pLayerCfg.ImageHeight", "320"); ("pLayerCfg.Backcolor.Blue", "0");
      ("pLayerCfg.Backcolor.Green", "0"); ("pLayerCfg.Backcolor.Red", "0")]].
Definition MX_SPI5_Init : list init_call :=
  [HAL_call "HAL_SPI_Init(&hspi5)"
     [("hspi5.Instance", "SPI5"); ("hspi5.Init.Mode", "SPI_MODE_MASTER");
      ("hspi5.Init.Direction", "SPI_DIRECTION_2LINES"); ("hspi5.Init.DataSize", "SPI_DATASIZE_8BIT");
      ("hspi5.Init.CLKPolarity", "SPI_POLARITY_LOW"); ("hspi5.Init.CLKPhase", "SPI_PHASE_1EDGE");
      ("hspi5.Init.NSS", "SPI_NSS_SOFT"); ("hspi5.Init.BaudRatePrescaler", "SPI_BAUDRATEPRESCALER_16");
      ("hspi5.Init.FirstBit", "SPI_FIRSTBIT_MSB"); ("hspi5.Init.TIMode", "SPI_TIMODE_DISABLE");
      ("hspi5.Init.CRCCalculation", "SPI_CRCCALCULATION_DISABLE"); ("hspi5.Init.CRCPolynomial", "10")]].
Definition MX_TIM1_Init : list init_call :=
  [HAL_call "HAL_TIM_Base_Init(&htim1)"
     [("htim1.Instance", "TIM1"); ("htim1.Init.Prescaler", "0");
      ("htim1.Init.CounterMode", "TIM_COUNTERMODE_UP"); ("htim1.Init.Period", "65535");
      ("htim1.Init.ClockDivision", "TIM_CLOCKDIVISION_DIV1"); ("htim1.Init.RepetitionCounter", "0");
      ("htim1.Init.AutoReloadPreload", "TIM_AUTORELOAD_PRELOAD_DISABLE")];
   HAL_call "HAL_TIM_ConfigClockSource(&htim1, &sClockSourceConfig)"
     [("sClockSourceConfig.ClockSource", "TIM_CLOCKSOURCE_INTERNAL")];
   HAL_call "HAL_TIMEx_MasterConfigSynchronization(&htim1, &sMasterConfig)"
     [("sMasterConfig.MasterOutputTrigger", "TIM_TRGO_RESET");
      ("sMasterConfig.MasterSlaveMode", "TIM_MASTERSLAVEMODE_DISABLE")]].
Definition MX_UART5_Init : list init_call := [HAL_UART_Init "huart5" huart5_settings].
Definition MX_USART1_UART_Init : list init_call := [HAL_UART_Init "huart1" huart1_settings].
End Board.

(** The status each call returns. *)
Definition board : Type := init_call -> Z.

(** ** Start-up and the default task *)
Section Main.
Context {U : Type} `{!Hal U}.
Implicit Types p : port U.

(** A failure ends in [Error_Handler]: interrupts off and an endless loop. *)
Definition init_ok (b : board) (calls : list init_call) : option unit :=
  if forallb (fun c => b c =? HAL_OK) calls then Some tt else None.

(** [main] on the static variables [p] and the hardware [u]. *)
Definition main (b : board) (u : U) p : option (port U) :=
  _ ← init_ok b SystemClock_Config;
  _ ← init_ok b MX_CRC_Init;
  _ ← init_ok b MX_DMA2D_Init;
  _ ← init_ok b MX_FMC_Init;
  _ ← init_ok b MX_I2C3_Init;
  _ ← init_ok b MX_LTDC_Init;
  _ ← init_ok b MX_SPI5_Init;
  _ ← init_ok b MX_TIM1_Init;
  _ ← init_ok b MX_UART5_Init;
  _ ← init_ok b MX_USART1_UART_Init;
  let (status, p) := remote_node_port_init true u p in
  if negb (status =? 0) then None else Some p.

(** What UART5 can interrupt with. *)
Inductive line_event :=
  | Received (b : Z)
  | LineError.

Definition uart5_interrupt p (e : line_event) : port U :=
  match e with
  | Received b => HAL_UART_RxCpltCallback true (p <| rx_byte := b |>)
  | LineError => HAL_UART_ErrorCallback true p
  end.

(** [osDelay(1)]: the hardware after the time [wait] takes, and the
    interrupts meanwhile. *)
Definition task_delay (wait : U -> U) (es : list line_event) p : port U :=
  let n := remote_node p in
  fold_left uart5_interrupt es (p <| remote_node := n <| user_context := wait (user_context n) |> |>).

(** The task's loop for as many rounds as [rounds] has entries, and the call
    of [remote_node_port_process] after the last; an entry holds the
    interrupts during a delay. *)
Fixpoint StartDefaultTask (wait : U -> U) (rounds : list (list line_event)) p : option (port U) :=
  p ← remote_node_port_process (Z.to_nat UART_RX_RING_SIZE) p;
  match rounds with
  | [] => Some p
  | es :: rounds => StartDefaultTask wait rounds (task_delay wait es p)
  end.
End Main.
Arguments line_event : clear implicits.

(** ** What the firmware promises: the node, fed directly *)
Section Spec.
Context {U : Type} (wait : U -> U).
Implicit Types n : remote_node_t U.

Definition byte_of (e : line_event) : option Z := match e with Received b => Some b | LineError => None end.
Definition received_bytes (es : list line_event) : list Z := omap byte_of es.
Definition line_errors (es : list line_event) : nat :=
  length (List.filter (fun e => match e with LineError => true | _ => false end) es).

(** One period: time passes, the errors are noted, the bytes processed and the
    periodic messages sent. *)
Definition node_round n (es : list line_event) : remote_node_t U :=
  let bs := received_bytes es in
  remote_node_process_periodic
    (remote_node_process_bytes
       (Nat.iter (line_errors es) remote_node_note_uart_error
          (n <| user_context := wait (user_context n) |>))
       (Some bs) (Z.of_nat (length bs))).
End Spec.

(** Re-arming reception succeeds and changes nothing else. *)
Class Rearms U `{!Hal U} : Prop := rearms (u : U) : HAL_UART_Receive_IT u = (HAL_OK, u).

Section Proofs.
Context {U : Type} `{!Hal U} `{!Rearms U} (wait : U -> U).
Implicit Types p : port U.

Lemma receive_rearmed p : receive_it p = (HAL_OK, p).
Proof. unfold receive_it. rewrite rearms. by destruct p as [[] ? ? ? ?]. Qed.

(** Between rounds: nothing waits. *)
Record resting p : Prop := {
  rs_wf : ring_wf (RemotePort.rx_ring p);
  rs_empty : ring_contents (RemotePort.rx_ring p) = [];
  rs_overflows : rx_overflow_pending p = 0;
  rs_errors : uart_error_pending p = 0
}.

(** During a delay: the bytes [bs] and [k] errors wait. *)
Record holding (n : remote_node_t U) (bs : list Z) (k : nat) p : Prop := {
  hd_node : remote_node p = n;
  hd_wf : ring_wf (RemotePort.rx_ring p);
  hd_bytes : ring_contents (RemotePort.rx_ring p) = bs;
  hd_overflows : rx_overflow_pending p = 0;
  hd_errors : uart_error_pending p = Z.of_nat k
}.

Lemma interrupt_holding n bs k e p :
  holding n bs k p -> (length bs + length (received_bytes [e]) <= 511)%nat ->
  Z.of_nat (k + line_errors [e]) < 4294967296 ->
  holding n (bs ++ received_bytes [e]) (k + line_errors [e]) (uart5_interrupt p e).
Proof.
  intros [Hn Hw Hb Ho He] Hl Hk.
  destruct e as [b|]; cbn [uart5_interrupt received_bytes omap list_omap byte_of line_errors List.filter length] in *.
  - unfold HAL_UART_RxCpltCallback. cbn [RemotePort.rx_ring rx_byte set_field].
    destruct (ring_push_law (RemotePort.rx_ring p) b Hw) as (H1 & H2 & H3 & _).
    rewrite bool_decide_true in H2 by (rewrite Hb; cbn [ring_capacity uart_byte_ring]; lia). rewrite H2 in H3.
    cbn [ring_push uart_byte_ring] in H1, H2, H3.
    destruct (uart_rx_ring_push_isr (Some (RemotePort.rx_ring p)) b) as [ok r]. cbn [fst snd] in *.
    destruct (ok =? 0); [done|]. rewrite receive_rearmed, Nat.add_0_r. cbn [Z.eqb negb].
    split; try done. etrans; [exact H3|by rewrite Hb].
  - unfold HAL_UART_ErrorCallback. rewrite receive_rearmed, app_nil_r. cbn [snd].
    split; try done. cbn [set_field uart_error_pending]. rewrite He. width.
Qed.

Lemma received_bytes_app es es' : received_bytes (es ++ es') = received_bytes es ++ received_bytes es'.
Proof. apply omap_app. Qed.
Lemma line_errors_app es es' : line_errors (es ++ es') = (line_errors es + line_errors es')%nat.
Proof. unfold line_errors. by rewrite List.filter_app, length_app. Qed.

(** A delay in which nothing overflows. *)
Definition within_capacity (es : list line_event) : Prop :=
  (length (received_bytes es) <= 511)%nat /\ Z.of_nat (line_errors es) < 4294967296.

Lemma interrupts_holding es n bs k p :
  holding n bs k p -> (length bs + length (received_bytes es) <= 511)%nat ->
  Z.of_nat (k + line_errors es) < 4294967296 ->
  holding n (bs ++ received_bytes es) (k + line_errors es) (fold_left uart5_interrupt es p).
Proof.
  revert bs k p. induction es as [|e es IH]; intros bs k p Hp Hl Hk.
  - cbn. rewrite app_nil_r, Nat.add_0_r. exact Hp.
  - change (e :: es) with ([e] ++ es) in *. rewrite received_bytes_app in *. rewrite line_errors_app in *.
    rewrite length_app in Hl. cbn [fold_left app].
    assert (holding n (bs ++ received_bytes [e]) (k + line_errors [e]) (uart5_interrupt p e)) as H1
      by (apply interrupt_holding; [done|lia|lia]).
    rewrite Nat.add_assoc, app_assoc. apply IH; [exact H1|rewrite length_app; lia|lia].
Qed.
(** One call of [remote_node_port_process] empties the port into the node. *)
Lemma process_holding n bs k p :
  holding n bs k p -> exists p', remote_node_port_process (Z.to_nat UART_RX_RING_SIZE) p = Some p' /\ resting p' /\
    remote_node p' = remote_node_process_periodic
      (remote_node_process_bytes (Nat.iter k remote_node_note_uart_error n) (Some bs) (Z.of_nat (length bs))).
Proof.
  intros [Hn Hw Hb Ho He]. unfold remote_node_port_process, take_pending. rewrite Ho, He, Nat2Z.id. cbv zeta.
  match goal with |- context [drain_ring _ ?q] => set (p1 := q) end.
  destruct (drain_ring_spec p1 (Z.to_nat UART_RX_RING_SIZE)) as (r & W1 & W2 & ->); [done| |].
  { pose proof (ring_bound_law _ Hw) as H1. cbn [ring_capacity uart_byte_ring] in H1.
    change (RemotePort.rx_ring p1) with (RemotePort.rx_ring p). change (Z.to_nat UART_RX_RING_SIZE) with 512%nat. lia. }
  eexists. split; [done|]. split; [by split|]. unfold remote_node_process_bytes.
  rewrite Nat2Z.id, take_ge by done. rewrite <- Hb, <- Hn. done.
Qed.

Lemma delay_holding es p :
  resting p -> within_capacity es ->
  holding ((remote_node p) <| user_context := wait (user_context (remote_node p)) |>)
    (received_bytes es) (line_errors es) (task_delay wait es p).
Proof.
  intros [Hw Hb Ho He] [Hl Hk]. unfold task_delay. cbv zeta.
  apply (interrupts_holding es _ [] 0); [by split|done|done].
Qed.

Lemma rounds_refine rounds p n bs k :
  holding n bs k p -> Forall within_capacity rounds ->
  exists p', StartDefaultTask wait rounds p = Some p' /\ resting p' /\
    remote_node p' = fold_left (node_round wait) rounds (remote_node_process_periodic
      (remote_node_process_bytes (Nat.iter k remote_node_note_uart_error n) (Some bs) (Z.of_nat (length bs)))).
Proof.
  revert p n bs k. induction rounds as [|es rounds IH]; intros p n bs k Hp Hc; cbn [StartDefaultTask].
  - destruct (process_holding n bs k p Hp) as (p' & -> & Hr & Hn). by exists p'.
  - apply Forall_cons in Hc as [He Hc]. destruct (process_holding n bs k p Hp) as (p1 & -> & Hr & Hn).
    destruct (IH _ _ _ _ (delay_holding es p1 Hr He) Hc) as (p' & E & Hr' & Hn'). exists p'.
    split; [exact E|]. split; [done|]. rewrite Hn'. cbn [fold_left]. unfold node_round at 2. by rewrite Hn.
Qed.

Definition init_calls : list init_call :=
  SystemClock_Config ++ MX_CRC_Init ++ MX_DMA2D_Init ++ MX_FMC_Init ++ MX_I2C3_Init ++ MX_LTDC_Init ++
  MX_SPI5_Init ++ MX_TIM1_Init ++ MX_UART5_Init ++ MX_USART1_UART_Init.
Definition all_succeed (b : board) : bool := forallb (fun c => b c =? HAL_OK) init_calls.

(** The static variables before [main]. *)
Definition blank p : Prop :=
  length (storage (RemotePort.rx_ring p)) = 512%nat /\ rx_overflow_pending p = 0 /\ uart_error_pending p = 0.

Notation fresh_node u := (remote_node_init (Some port_get_time_ms) (Some port_transmit) u).

Lemma init_ok_app {A} b calls calls' (k : option A) :
  (_ ← init_ok b calls; _ ← init_ok b calls'; k) = (_ ← init_ok b (calls ++ calls'); k).
Proof. unfold init_ok. rewrite forallb_app. by destruct (forallb _ calls). Qed.

Lemma main_starts b u p :
  blank p ->
  if all_succeed b then exists p', main b u p = Some p' /\ holding (fresh_node u) [] 0 p'
  else main b u p = None.
Proof.
  intros (Hs & Ho & He). unfold main. rewrite !init_ok_app, <- !app_assoc. fold init_calls.
  unfold init_ok. fold (all_succeed b). destruct (all_succeed b); [|done]. cbn [mbind option_bind].
  unfold remote_node_port_init. cbn [negb]. rewrite receive_rearmed. cbn [Z.eqb negb].
  eexists. split; [done|]. by split.
Qed.
End Proofs.

(** ** Properties *)

(** C33: The F429 firmware is the node, fed directly: [main] reaches the
    scheduler exactly when every initialisation call succeeds; then for any
    number of rounds of the default task, whatever bytes and errors the line
    brings during each delay (as long as the ring can hold them), the loop never
    gets stuck, the port is left empty and the node is in the state it reaches
    when each round's errors are noted, its bytes processed in order and the
    periodic messages sent - from its initial state, without ring, interrupts or
    pending counters. *)
Theorem remote_firmware_refines_node {U} `{!Hal U} `{!Rearms U} (b : board) (wait : U -> U) (u : U) (p0 : port U)
    (rounds : list (list line_event)) :
  blank p0 -> Forall within_capacity rounds ->
  if all_succeed b then
    exists p1 p, main b u p0 = Some p1 /\ StartDefaultTask wait rounds p1 = Some p /\ resting p /\
      remote_node p = fold_left (node_round wait) rounds
        (remote_node_process_periodic
           (remote_node_init (Some port_get_time_ms) (Some port_transmit) u))
  else main b u p0 = None.
Proof.
  intros Hp Hc. pose proof (main_starts b u p0 Hp) as H. destruct (all_succeed b); [|done].
  destruct H as (p1 & E & Hh). destruct (rounds_refine wait rounds p1 _ _ _ Hh Hc) as (p & E' & Hr & Hn).
  by exists p1, p.
Qed.

(** Both ends of the RS-422 line are set up alike. *)
Example line_settings_agree : huart5_settings = huart4_settings.
Proof. reflexivity. Qed.

(** ** Witness: a PING in three pieces, a line error between them *)
#[export] Instance demo_rearms : Rearms platform.
Proof. done. Qed.

Definition demo_rounds : list (list line_event) :=
  [map Received (take 4 ping7_frame); [LineError]; map Received (drop 4 ping7_frame)].
Definition tick_1ms (u : platform) : platform := mk_platform (u32 (clock u + 1)) (sent u).

Lemma remote_firmware_refines_node_witness :
  exists p1 p, main (fun _ => HAL_OK) (mk_platform 5 []) blank_port = Some p1 /\
    StartDefaultTask tick_1ms demo_rounds p1 = Some p /\ resting p /\
    sent (user_context (remote_node p)) = [[0xAA; 0x55; 0x01; 0x81; 0; 7; 0; 0; 0x46; 0xA1]] /\
    uart_error_count (stats (remote_node p)) = 1.
Proof.
  destruct (remote_firmware_refines_node (fun _ => HAL_OK) tick_1ms (mk_platform 5 []) blank_port demo_rounds)
    as (p1 & p & H1 & H2 & H3 & Hn).
  - by split.
  - repeat constructor; vm_compute; congruence || lia.
  - exists p1, p. split; [exact H1|]. split; [exact H2|]. split; [exact H3|]. rewrite Hn. split; vm_compute; reflexivity.
Defined.
