(* ===== verification/UnitTests.v ===== *)
(** * The repository's unit tests, run on the model

    tests/protocol_test.c, tests/stream_parser_test.c and
    f429_remote_node/Tests/remote_node_test.c, test by test: a test is the
    list of its checks, with their names and outcomes.  The theorems say that
    every check passes on the definitions of this library. *)
From Stdlib Require Import String.
From S2P Require Import Prelude Crc16 Protocol StreamParser RxRing RemoteNode.
Local Open Scope Z_scope.

Definition checks : Type := list (string * bool).
Definition check (name : string) (condition : bool) : checks := [(name, condition)].
Arguments check name%_string condition.

(** What [main] of a test program returns: whether a check failed. *)
Definition exit_status (tests : list checks) : Z :=
  if forallb snd (concat tests) then 0 else 1.

Definition is_result (r r' : protocol_result_t) : bool := bool_decide (r = r').
(** [memcmp(a, b, n) == 0] *)
Definition same_cells (a b : list Z) (n : Z) : bool :=
  bool_decide (take (Z.to_nat n) a = take (Z.to_nat n) b).

(** A zeroed array of [n] bytes. *)
Definition zeros (n : Z) : list Z := replicate (Z.to_nat n) 0.

(** A packet as the tests fill it in. *)
Definition test_packet (msg_id seq : Z) (payload : list Z) : protocol_packet_t :=
  mk_packet PROTOCOL_VERSION msg_id seq (Z.of_nat (length payload))
    (memcpy (zeros 256) 0 payload (Z.of_nat (length payload))).

(** ** protocol_test.c *)
Module ProtocolTest.

(** [protocol_encode] into a fresh buffer of [size] bytes. *)
Definition encode (tx : protocol_packet_t) (size : Z) : protocol_result_t * list Z * Z :=
  let '(enc, frame, n) := protocol_encode (Some tx) (Some (zeros size)) size (Some 0) in
  (enc, default [] frame, default 0 n).
Definition decode (frame : list Z) (n : Z) : protocol_result_t * protocol_packet_t :=
  let (dec, rx) := protocol_decode (Some frame) n (Some zero_packet) in (dec, default zero_packet rx).

Definition test_crc_standard_vector : checks :=
  let input := [0x31; 0x32; 0x33; 0x34; 0x35; 0x36; 0x37; 0x38; 0x39; 0] in
  let crc := crc16_ccitt_false (Some input) 9 in
  check "CRC-16/CCITT-FALSE standard vector -> 0x29B1" (crc =? 0x29B1).

Definition test_ping_encode_decode : checks :=
  let '(enc, frame, frame_length) := encode (test_packet MSG_PING 100 []) PROTOCOL_MAX_FRAME_SIZE in
  let (dec, rx) := decode frame frame_length in
  check "PING encode/decode round-trip"
    (is_result enc PROTO_OK && is_result dec PROTO_OK && (frame_length =? PROTOCOL_MIN_FRAME_SIZE) &&
     (pkt_version rx =? PROTOCOL_VERSION) && (pkt_msg_id rx =? MSG_PING) && (pkt_seq rx =? 100) &&
     (pkt_length rx =? 0)).

Definition test_payload_round_trip : checks :=
  let payload := [0x10; 0x20; 0xAA; 0x55; 0x30] in
  let '(enc, frame, frame_length) :=
    encode (test_packet MSG_TELEMETRY 42 payload) PROTOCOL_MAX_FRAME_SIZE in
  let (dec, rx) := decode frame frame_length in
  check "Payload round-trip including 0xAA55"
    (is_result enc PROTO_OK && is_result dec PROTO_OK && (pkt_msg_id rx =? MSG_TELEMETRY) &&
     (pkt_seq rx =? 42) && (pkt_length rx =? 5) && same_cells (pkt_payload rx) payload 5).

Definition test_crc_corruption_detection : checks :=
  let '(enc, frame, frame_length) := encode (test_packet MSG_PING 7 []) PROTOCOL_MAX_FRAME_SIZE in
  let frame := arr_set frame 3 (Z.lxor (arr_get frame 3) 0x01) in
  let (dec, _) := decode frame frame_length in
  check "CRC corruption detection" (is_result enc PROTO_OK && is_result dec PROTO_ERR_CRC).

Definition test_invalid_magic : checks :=
  let '(enc, frame, frame_length) := encode (test_packet MSG_PING 1 []) PROTOCOL_MAX_FRAME_SIZE in
  let (dec, _) := decode (arr_set frame 0 0xAB) frame_length in
  check "Invalid MAGIC detection" (is_result enc PROTO_OK && is_result dec PROTO_ERR_MAGIC).

Definition test_invalid_version : checks :=
  let '(enc, frame, frame_length) := encode (test_packet MSG_PING 1 []) PROTOCOL_MAX_FRAME_SIZE in
  let (dec, _) := decode (arr_set frame 2 0x02) frame_length in
  check "Unsupported VERSION detection" (is_result enc PROTO_OK && is_result dec PROTO_ERR_VERSION).

Definition test_oversized_length : checks :=
  let frame := memcpy (zeros PROTOCOL_MIN_FRAME_SIZE) 0
    [0xAA; 0x55; PROTOCOL_VERSION; MSG_PING; 0x00; 0x01; 0x01; 0x01] 8 in
  let (dec, _) := decode frame PROTOCOL_MIN_FRAME_SIZE in
  check "Oversized LENGTH detection" (is_result dec PROTO_ERR_LENGTH).

Definition test_frame_size_mismatch : checks :=
  let '(enc, frame, frame_length) := encode (test_packet MSG_PING 5 []) PROTOCOL_MAX_FRAME_SIZE in
  let (dec, _) := decode frame (frame_length - 1) in
  check "Truncated frame detection"
    (is_result enc PROTO_OK && (is_result dec PROTO_ERR_BUFFER || is_result dec PROTO_ERR_FRAME_SIZE)).

Definition test_small_output_buffer : checks :=
  let '(enc, _, _) := encode (test_packet MSG_PING 9 []) 4 in
  check "Encode output buffer bounds check" (is_result enc PROTO_ERR_BUFFER).

Definition protocol_test_main : Z := exit_status
  [test_crc_standard_vector; test_ping_encode_decode; test_payload_round_trip;
   test_crc_corruption_detection; test_invalid_magic; test_invalid_version;
   test_oversized_length; test_frame_size_mismatch; test_small_output_buffer].
End ProtocolTest.

(** ** stream_parser_test.c *)
Module StreamParserTest.

(** The frame in its buffer and its length, 0 on an error. *)
Definition make_frame (msg_id seq : Z) (payload : list Z) : list Z * Z :=
  let '(enc, frame, n) := ProtocolTest.encode (test_packet msg_id seq payload) PROTOCOL_MAX_FRAME_SIZE in
  (frame, if is_result enc PROTO_OK then n else 0).

(** The parser, and what the test counts. *)
Record run := mk_run {
  run_parser : stream_parser_t;
  run_packet : protocol_packet_t;
  run_frames : Z;
  run_errors : Z
}.
Definition start : run := mk_run parser_init zero_packet 0 0.

(** [feed_and_count_frames], the counts added to those of earlier calls. *)
Definition feed_and_count_frames (data : list Z) (n : Z) (r : run) : run :=
  fold_left (fun r b =>
    let '(ev, p, packet) := feed_byte (run_parser r) b zero_packet in
    match ev with
    | STREAM_EVENT_FRAME => mk_run p packet (run_frames r + 1) (run_errors r)
    | STREAM_EVENT_ERROR => mk_run p (run_packet r) (run_frames r) (run_errors r + 1)
    | STREAM_EVENT_NONE => mk_run p (run_packet r) (run_frames r) (run_errors r)
    end) (take (Z.to_nat n) data) r.
Definition feed (f : list Z * Z) (r : run) : run := feed_and_count_frames f.1 f.2 r.

Definition test_byte_by_byte_frame : checks :=
  let frame := make_frame MSG_PING 100 [] in
  let r := feed frame start in
  check "Byte-by-byte PING frame assembly"
    ((frame.2 >? 0) && (run_frames r =? 1) && (run_errors r =? 0) &&
     (pkt_msg_id (run_packet r) =? MSG_PING) && (pkt_seq (run_packet r) =? 100) &&
     (frames_ok (run_parser r) =? 1)).

Definition test_noise_before_magic : checks :=
  let noise := [0x00; 0x11; 0x22; 0x33; 0x44] in
  let r0 := feed_and_count_frames noise 5 start in
  let r := feed (make_frame MSG_READ_STATUS 7 []) r0 in
  check "Ignore noise before MAGIC"
    ((run_frames r - run_frames r0 =? 1) && (run_errors r =? 0) &&
     (pkt_msg_id (run_packet r) =? MSG_READ_STATUS) && (pkt_seq (run_packet r) =? 7) &&
     (discarded_bytes (run_parser r) >=? 5)).

Definition test_magic_overlap : checks :=
  let (frame, len) := make_frame MSG_PING 9 [] in
  let stream := memcpy (arr_set (zeros (PROTOCOL_MAX_FRAME_SIZE + 1)) 0 0xAA) 1 frame len in
  let r := feed_and_count_frames stream (len + 1) start in
  check "MAGIC overlap AA AA 55 resynchronization"
    ((run_frames r =? 1) && (run_errors r =? 0) && (pkt_msg_id (run_packet r) =? MSG_PING) &&
     (pkt_seq (run_packet r) =? 9)).

Definition test_payload_contains_magic : checks :=
  let payload := [0x10; 0xAA; 0x55; 0x20; 0x30] in
  let r := feed (make_frame MSG_TELEMETRY 42 payload) start in
  check "Payload AA55 is not treated as a new frame"
    ((run_frames r =? 1) && (run_errors r =? 0) && (pkt_length (run_packet r) =? 5) &&
     same_cells (pkt_payload (run_packet r)) payload 5).

Definition test_two_concatenated_frames : checks :=
  let r := feed (make_frame MSG_PING 2 []) (feed (make_frame MSG_PING 1 []) start) in
  check "Two back-to-back frames"
    ((run_frames r =? 2) && (run_errors r =? 0) && (pkt_seq (run_packet r) =? 2) &&
     (frames_ok (run_parser r) =? 2)).

Definition test_crc_error_then_recovery : checks :=
  let (bad_frame, bad_len) := make_frame MSG_PING 10 [] in
  let bad_frame := arr_set bad_frame 3 (Z.lxor (arr_get bad_frame 3) 0x01) in
  let r := feed (make_frame MSG_PING 11 []) (feed_and_count_frames bad_frame bad_len start) in
  check "CRC error rejected and next frame recovered"
    ((run_frames r =? 1) && (run_errors r =? 1) && (pkt_seq (run_packet r) =? 11) &&
     (frames_ok (run_parser r) =? 1) && (crc_errors (run_parser r) =? 1)).

Definition test_invalid_version_then_recovery : checks :=
  let (bad, bad_len) := make_frame MSG_PING 20 [] in
  let r := feed (make_frame MSG_PING 21 []) (feed_and_count_frames (arr_set bad 2 0x02) bad_len start) in
  check "Invalid VERSION rejected and parser recovers"
    ((run_frames r =? 1) && (run_errors r >=? 1) && (pkt_seq (run_packet r) =? 21) &&
     (frames_ok (run_parser r) =? 1) && (format_errors (run_parser r) >=? 1)).

Definition test_oversized_length_then_recovery : checks :=
  let fake_header := [0xAA; 0x55; PROTOCOL_VERSION; MSG_PING; 0x00; 0x01; 0x01; 0x01] in
  let r := feed (make_frame MSG_PING 31 [])
             (feed_and_count_frames fake_header PROTOCOL_FIXED_HEADER_SIZE start) in
  check "Oversized LENGTH rejected and parser recovers"
    ((run_frames r =? 1) && (run_errors r >=? 1) && (pkt_seq (run_packet r) =? 31) &&
     (frames_ok (run_parser r) =? 1) && (format_errors (run_parser r) >=? 1)).

Definition stream_parser_test_main : Z := exit_status
  [test_byte_by_byte_frame; test_noise_before_magic; test_magic_overlap;
   test_payload_contains_magic; test_two_concatenated_frames; test_crc_error_then_recovery;
   test_invalid_version_then_recovery; test_oversized_length_then_recovery].
End StreamParserTest.

(** ** remote_node_test.c *)
Module RemoteNodeTest.

Definition CAPTURED_PACKET_COUNT : Z := 32.

Record test_context_t := mk_test_context {
  now_ms : Z;
  captured : list protocol_packet_t;
  packet_count : Z
}.
Definition context_at (now : Z) : test_context_t :=
  mk_test_context now (replicate (Z.to_nat CAPTURED_PACKET_COUNT) zero_packet) 0.

Definition test_time (context : test_context_t) : Z * test_context_t := (now_ms context, context).

Definition packet_at (context : test_context_t) (i : Z) : protocol_packet_t :=
  nth (Z.to_nat i) (captured context) zero_packet.

Definition capture_tx (frame : list Z) (context : test_context_t) : Z * test_context_t :=
  let n := packet_count context in
  if n >=? CAPTURED_PACKET_COUNT then (-1, context)
  else
    let (dec, packet) :=
      protocol_decode (Some frame) (Z.of_nat (length frame)) (Some (packet_at context n)) in
    if negb (is_result dec PROTO_OK) then (-1, context)
    else (0, mk_test_context (now_ms context)
               (<[Z.to_nat n := default zero_packet packet]> (captured context)) (n + 1)).

Notation node_t := (remote_node_t test_context_t).
Definition node_at (now : Z) : node_t :=
  remote_node_init (Some test_time) (Some capture_tx) (context_at now).
(** [context.now_ms = now] *)
Definition at_time (now : Z) (node : node_t) : node_t :=
  node <| user_context := mk_test_context now (captured (user_context node))
                            (packet_count (user_context node)) |>.

Definition feed_packet (node : node_t) (msg_id seq : Z) (payload : list Z) : node_t :=
  let '(enc, frame, n) := ProtocolTest.encode (test_packet msg_id seq payload) PROTOCOL_MAX_FRAME_SIZE in
  if is_result enc PROTO_OK then remote_node_process_bytes node (Some frame) n else node.

(** A PING whose last byte is damaged. *)
Definition feed_corrupt (node : node_t) (seq : Z) : node_t :=
  let '(_, frame, n) := ProtocolTest.encode (test_packet MSG_PING seq []) PROTOCOL_MAX_FRAME_SIZE in
  let frame := arr_set frame (n - 1) (Z.lxor (arr_get frame (n - 1)) 0x01) in
  remote_node_process_bytes node (Some frame) n.

Definition test_read_u32_be (src : list Z) : Z :=
  Z.lor (Z.lor (Z.lor (Z.shiftl (arr_get src 0) 24) (Z.shiftl (arr_get src 1) 16))
    (Z.shiftl (arr_get src 2) 8)) (arr_get src 3).
Definition test_read_u16_be (src : list Z) : Z := u16 (Z.lor (Z.shiftl (arr_get src 0) 8) (arr_get src 1)).
Definition payload_at (p : protocol_packet_t) (i : Z) : list Z := drop (Z.to_nat i) (pkt_payload p).

Definition test_ping_and_duplicate : checks :=
  let node := feed_packet (feed_packet (node_at 0) MSG_PING 152 []) MSG_PING 152 [] in
  let context := user_context node in
  check "PING produces PONG with echoed sequence"
    ((packet_count context =? 2) && (pkt_msg_id (packet_at context 0) =? MSG_PONG) &&
     (pkt_seq (packet_at context 0) =? 152) && (pkt_length (packet_at context 0) =? 0)) ++
  check "Duplicate request is counted and answered again"
    ((duplicate_seq_count (stats node) =? 1) && (pkt_msg_id (packet_at context 1) =? MSG_PONG) &&
     (pkt_seq (packet_at context 1) =? 152)) ++
  check "Valid request statistics and communication state"
    ((valid_frame_count (stats node) =? 2) && (last_rx_seq (stats node) =? 152) &&
     bool_decide (comm_status (stats node) = COMM_OK)).

Definition test_application_errors_and_crc : checks :=
  let node := feed_packet (node_at 0) MSG_PING 1 [0x5A] in
  let node := feed_packet node 0x33 2 [] in
  let node := feed_corrupt node 3 in
  let context := user_context node in
  check "Application BAD_LENGTH returns ERROR"
    ((packet_count context >=? 1) && (pkt_msg_id (packet_at context 0) =? MSG_ERROR) &&
     (pkt_seq (packet_at context 0) =? 1) && (pkt_length (packet_at context 0) =? 2) &&
     (arr_get (pkt_payload (packet_at context 0)) 0 =? error_code_value REMOTE_ERROR_BAD_LENGTH) &&
     (arr_get (pkt_payload (packet_at context 0)) 1 =? MSG_PING)) ++
  check "Unknown message returns ERROR and increments counter"
    ((packet_count context =? 2) && (pkt_msg_id (packet_at context 1) =? MSG_ERROR) &&
     (arr_get (pkt_payload (packet_at context 1)) 0 =? error_code_value REMOTE_ERROR_UNKNOWN_MSG) &&
     (arr_get (pkt_payload (packet_at context 1)) 1 =? 0x33) &&
     (unknown_msg_count (stats node) =? 1)) ++
  check "CRC-corrupt frame is dropped without ERROR response"
    ((packet_count context =? 2) && (crc_error_count (stats node) =? 1) &&
     (valid_frame_count (stats node) =? 2)).

Definition test_status_response : checks :=
  let oversized_header := [0xAA; 0x55; PROTOCOL_VERSION; MSG_PING; 0x00; 0x01; 0x01; 0x01] in
  let node := feed_corrupt (node_at 0x01020304) 0x0010 in
  let node := remote_node_process_bytes node (Some oversized_header) PROTOCOL_FIXED_HEADER_SIZE in
  let node := feed_packet node MSG_READ_STATUS 0x1234 [] in
  let context := user_context node in
  let status := packet_at context 0 in
  check "READ_STATUS produces 20-byte STATUS_RESP"
    ((packet_count context =? 1) && (pkt_msg_id status =? MSG_STATUS_RESP) &&
     (pkt_seq status =? 0x1234) && (pkt_length status =? 20)) ++
  check "STATUS_RESP fields are explicit Big Endian values"
    ((test_read_u32_be (payload_at status 0) =? 0x01020304) && (test_read_u32_be (payload_at status 4) =? 1) &&
     (test_read_u32_be (payload_at status 8) =? 1) && (test_read_u32_be (payload_at status 12) =? 1) &&
     (test_read_u16_be (payload_at status 16) =? 0x1234) &&
     (arr_get (pkt_payload status) 18 =? comm_status_code COMM_OK) &&
     (arr_get (pkt_payload status) 19 =? 0)).

Definition test_periodic_frames_and_wrap : checks :=
  let node := remote_node_set_status_flags (node_at 0) 0x1234 in
  let node := remote_node_process_periodic (at_time 100 node) in
  let node := remote_node_process_periodic (at_time 500 node) in
  let context := user_context node in
  let wrapped := remote_node_process_periodic
    (at_time 1000 (node <| telemetry_seq := 0xFFFF |> <| heartbeat_seq := 0xFFFF |>)) in
  let context' := user_context wrapped in
  check "TELEMETRY is 10 Hz with uptime and status flags"
    ((packet_count context >=? 1) && (pkt_msg_id (packet_at context 0) =? MSG_TELEMETRY) &&
     (pkt_seq (packet_at context 0) =? 1) && (pkt_length (packet_at context 0) =? 6) &&
     (test_read_u32_be (payload_at (packet_at context 0) 0) =? 100) &&
     (test_read_u16_be (payload_at (packet_at context 0) 4) =? 0x1234)) ++
  check "HEARTBEAT uses an independent sequence space"
    ((packet_count context =? 3) && (pkt_msg_id (packet_at context 1) =? MSG_TELEMETRY) &&
     (pkt_seq (packet_at context 1) =? 2) && (pkt_msg_id (packet_at context 2) =? MSG_HEARTBEAT) &&
     (pkt_seq (packet_at context 2) =? 1) && (pkt_length (packet_at context 2) =? 4)) ++
  check "Periodic sequence counters wrap independently to zero"
    ((pkt_msg_id (packet_at context' 3) =? MSG_TELEMETRY) && (pkt_seq (packet_at context' 3) =? 0) &&
     (pkt_msg_id (packet_at context' 4) =? MSG_HEARTBEAT) && (pkt_seq (packet_at context' 4) =? 0)).

(** The two [while] loops, at most [n] rounds each. *)
Fixpoint push_until_full (n : nat) (pushed : Z) (ring : option uart_rx_ring_t) :
    Z * option uart_rx_ring_t :=
  match n with
  | O => (pushed, ring)
  | S n =>
      let (ok, ring) := uart_rx_ring_push_isr ring (u8 pushed) in
      if negb (ok =? 0) then push_until_full n (u32 (pushed + 1)) ring else (pushed, ring)
  end.
Fixpoint pop_until_empty (n : nat) (popped byte : Z) (ring : option uart_rx_ring_t) :
    Z * option uart_rx_ring_t :=
  match n with
  | O => (popped, ring)
  | S n =>
      let '(ok, b, ring) := uart_rx_ring_pop ring (Some byte) in
      if negb (ok =? 0) then pop_until_empty n (u32 (popped + 1)) (default 0 b) ring else (popped, ring)
  end.

Definition test_ring_bounds : checks :=
  let ring := uart_rx_ring_init (Some (mk_uart_rx_ring (zeros UART_RX_RING_SIZE) 7 9)) in
  let (pushed, ring) := push_until_full 1000 0 ring in
  let (popped, ring) := pop_until_empty 1000 0 0 ring in
  let (ok, ring) := uart_rx_ring_push_isr ring 0xA5 in
  let '(ok', byte, _) := uart_rx_ring_pop ring (Some 0) in
  check "RX ring rejects full writes without crossing bounds"
    ((pushed =? UART_RX_RING_SIZE - 1) && (popped =? pushed)) ++
  check "RX ring is reusable after index wrap"
    (negb (ok =? 0) && negb (ok' =? 0) && bool_decide (byte = Some 0xA5)).

Definition remote_node_test_main : Z := exit_status
  [test_ping_and_duplicate; test_application_errors_and_crc; test_status_response;
   test_periodic_frames_and_wrap; test_ring_bounds].
End RemoteNodeTest.

(** ** The tests pass *)
Example protocol_test_passes : ProtocolTest.protocol_test_main = 0.
Proof. vm_compute. reflexivity. Qed.

Example stream_parser_test_passes : StreamParserTest.stream_parser_test_main = 0.
Proof. vm_compute. reflexivity. Qed.

Example remote_node_test_passes : RemoteNodeTest.remote_node_test_main = 0.
Proof. vm_compute. reflexivity. Qed.
